(* ===== verification/_CoqProject ===== *)
-Q . S2P
Prelude.v
GoStd.v
Errors.v
Canonical.v
GoCrypto.v
Sign.v
Encrypt.v
GoHttp.v
Json.v
Codec.v
Schema.v
Transport.v
World.v
Client.v
Doer.v
Gateway.v
Service.v
PaymentTypes.v
PaymentRules.v
Payment.v
Polling.v
Repayment.v
Refund.v
CreditTypes.v
Credit.v
Callback.v
Bill.v
Transaction.v
VirtualAccount.v
Heartbeat.v
Decoding.v
Responses.v
MockCache.v
Spec.v
SpecWalker.v
PinnedSpec.v
Mock.v
MockScenarios.v
MockCallback.v
MockClient.v
MockOverlap.v
SpecServer.v
SpecOverlap.v
Conformance.v
DeepEqual.v
QaMarshal.v
Program.v
AuthCapture.v
CreditPre.v
Webhook.v
