(* ===== verification/Prelude.v ===== *)
(** * The Atome Go SDK, verified

    A model of the SDK under [src/atomefin] and theorems about it.  A partner builds a
    [Client]; services ([payment], [refund], [repayment], [credit], [bill],
    [transaction], [virtualaccount]) validate a request, marshal it to JSON and hand the
    bytes to the client, which signs them (and encrypts personal data), sends them with
    retries and returns the decoded answer; the gateway on the other side verifies the
    signature over what it receives.  In the other direction the gateway sends signed
    events, which the [callback] package verifies, decodes and hands to the partner.

    ** Layers and files

    Foundations of the language and its library, executable:
    - [Prelude]: this file; results, early returns, [int64], strings, tactics.
    - [GoStd]: [net/url] values and escaping.  [GoHttp]: header keys, [float64].
    - [GoCrypto]: base64, hex, SHA-256, HMAC; RSA and AES as classes of operations
      ([RSA], [AES]) with their documented laws ([RSALaws], [AESLaws]) and toy instances.
    - [Json]: [encoding/json] both ways, with [json_parse_print].
    - [World]: time, contexts and effects.  A computation is a function of the instant and
      the trace so far; whatever is outside (network, clock, randomness, hooks that panic)
      is an arbitrary [Env] indexed by the number of effects, so every theorem quantifies
      over all its behaviours.  [extends m P]: what [m] adds to the trace satisfies [P].

    The program:
    - [Errors] ([errors.go], [codes.go], [money.go], [environment.go]).
    - [Canonical] ([sign/canonical.go]), [Sign] ([sign/signer.go], [verifier.go],
      [hmac.go], [pem.go]), [Encrypt] ([encrypt/]).
    - [Codec] ([marshal.go], error envelopes) and [Schema]: a Go struct with its tags is a
      list of fields; one list gives the encoder and the decoder, and [unmarshal_marshal]
      holds of every declared type.
    - [Transport] ([transport/]): retry policy, backoff, redaction.
    - [Client] ([client.go], [options.go], [request_id.go]): options and [New].
    - [Doer] ([doer.go]): [DoSigned], [DoSignedGET], [DoEncryptedSigned], one signature,
      the retry loop, one attempt; specified by [exchange_result] (the meaning of one
      exchange) and [attempts] (the runs of a dispatch).
    - [Gateway]: the receiving side, and the end-to-end statement.
    - [Service]: the method shapes all endpoint packages share ([submit], [fetch]) and
      their specifications ([submitted], [fetched]).
    - [PaymentTypes], [PaymentRules], [Payment], [Polling] ([payment/]): types, validators
      and their contracts, calls, and [pollUntilTerminal].
    - [Repayment] ([repayment/]), [Refund] ([refund/]).
    - [CreditTypes], [Credit] ([credit/]): types, validators, the encrypted calls
      ([submit_encrypted]) and the others.
    - [Callback] ([callback/]): verifier, replay window, [handle] and the typed handlers;
      a handler is a function of the request and the partner's state.
    - [Bill] ([bill/]), [Transaction] ([transaction/]), [VirtualAccount]
      ([virtualaccount/]): types, queries, calls; [TransactionsAll] is specified by
      [walk], the pages it receives, and by a ledger the server pages.
    - [Heartbeat] ([heartbeat.go]).
    - [Decoding]: what decoding arbitrary bytes gives is a value of its type (the class
      [Sound], an instance per struct by its list of fields); [Responses]: the types of all
      answers and events.

    The mock server the package offers to partners' tests ([mock/]):
    - [MockCache] ([server_options.go]): the replay cache, a map over a linked list.
    - [Spec], [SpecWalker] ([internal/spec]): the check of a body against required paths,
      and how these are read from the nodes of the swagger file; specified by [requires].
    - [Mock] ([transport.go], [scenarios.go], [server_options.go], [server_dispatch.go],
      [sign_helper.go]): the transport, scenarios, [serveHTTP] as a step of the server's
      state, the callbacks it fires.  [MockScenarios] ([scenarios_typed.go]).
    - [MockCallback] ([callback.go]): firing an event at a partner's handler.
    - [MockClient] ([client.go]): a client over the mock transport.
    - [MockOverlap]: calls to the mock server that overlap in time, in the phases of
      [serveHTTP]; a relation on configurations whose steps interleave freely.

    The checks of the repository's own tests ([qa/]):
    - [PinnedSpec]: the operations of the pinned swagger file
      ([internal/spec/testdata]) that the SDK calls, with their required paths.
    - [SpecServer] ([qa/specserver/server.go], [runner.go]): the server that refuses what
      the specification does not allow, a step of its state per request, and [RunCases].
    - [SpecOverlap]: requests to that server that overlap in time, one critical section
      after the other.
    - [Conformance]: the calls of the services against that server.
    - [DeepEqual]: [reflect.DeepEqual] by the structure of a type, on values that keep nil
      apart from empty slices, and what a round trip through JSON loses ([settled]).
    - [QaMarshal] ([qa/marshal/roundtrip.go]): round trips, key and amount checks.  A test
      is the list of its reports; a fixture file is its text.

    The programs under [examples/]:
    - [Program]: printing, stopping, environment variables and files ([OS]).
    - [AuthCapture] ([auth_capture/main.go]), [CreditPre]
      ([credit_information_pre/main.go]), [Webhook] ([webhook_server/main.go]): one
      definition per function, [main] included; [sh_command] reads the printed command.

    ** What the theorems show

    - Signing: the wire query parses back to the caller's values and to the signed bytes;
      sign and verify agree; the envelope opens to the plaintext ([Canonical], [Sign],
      [Encrypt]); what leaves a client verifies at the gateway ([Gateway]).
    - Dispatch: a run refines [attempts]; who may be retried; header ownership ([Doer]).
    - Construction: [New] yields a client the pipeline can rely on, or the first error
      there is ([Client]).
    - Services: validators decide declarative contracts; invalid requests are never
      signed; calls send the encoding of the request they hand back; polls terminate, in
      one of five outcomes, under one idempotency key.  What a query carries, and which
      part of it is signed ([Bill], [Transaction]).  Encrypted calls open at the gateway
      to the request handed back ([Credit]).  Pagination ends, and against a server that
      pages a ledger collects every row once ([Transaction]).
    - Callbacks: the partner's function runs exactly for authentic, decodable requests;
      every genuine event is delivered, during a key rotation too ([Callback]).
    - Mock server: the replay cache is a bounded list in order of use ([MockCache]); a
      repeated request id is answered from it, whatever happened in between ([Mock]);
      interleaved calls lose and invent nothing, and one that comes after an answer is
      replayed, within the capacity of the cache ([MockOverlap]); a fired event arrives,
      and is reported when refused ([MockCallback]); a mock client is ready to dispatch
      and never one of production ([MockClient]); the paths checked are those the
      specification requires ([SpecWalker]).
    - Answers: whatever bytes arrive, what is decoded into one of [response_types] is well
      typed, marshals and decodes back to itself ([Responses]).
    - Specification: the spec-validating server serves exactly the conforming requests
      ([SpecServer]), overlapping ones as if they came in turn ([SpecOverlap]); queries and
      sealed calls are never refused, settlement and credit calls not when their strings
      are valid UTF-8 and their bodies below 1 MiB, and calls with risk data, under the same
      conditions, exactly when their extendInfo has the members the validators do not check
      ([Conformance]).  The marshalling checks report exactly what a round trip loses and
      which keys are printed ([QaMarshal]).
    - Examples: a capture follows exactly a successful authorisation ([AuthCapture]); the
      hand-made encrypted request is sent once, unless something stops the program before,
      and opens at the gateway, and the printed command sends the same one ([CreditPre]); the receiver acknowledges exactly the genuine events
      with data ([Webhook]).

    ** Fuel and bounds

    Loops over data recurse on the data.  The retry loop recurses on [MaxAttempts].  The
    JSON parser's fuel is the length of its input, enough by [json_parse_print].  Key
    generation consumes a stream of random bytes and stops when 32 are accepted
    ([RandomAESKey_spec]).  Polling takes the number of rounds as fuel; [MaxWait]
    nanoseconds' worth are enough ([poll_terminates]).  [TransactionsAll]
    takes the number of pages; it always ends, at the latest when the row number leaves
    [int64] ([TransactionsAll_terminates]).  The token walk of [QaMarshal] has two steps
    per token, which [AssertAmountKeysAreInteger_spec] shows to be enough.  The walk over a
    schema has the depth bound of the code as its fuel, so it is the code's own cut.  Integers are [Z] with the
    wrap-around [i64] wherever the code may overflow.

    ** What is not modelled

    TLS and HTTP below [http.Client.Do]; RSA, AES and X.509 parsing (parameters);
    text formatting of errors beyond their structure; goroutines of a partner that share
    a client (it is immutable, a call is sequential).  What an observer's hook panics with
    is a value of [Env], and the recovery the code defers is part of the hook's model.
    Slices are lists (nil and empty are one, but for [DeepEqual]), a [float64] field is its
    literal, and a slice decoded three times over in one document does not resurrect
    elements beyond its length.  The panics of a
    partner's callback function, but for the handlers of the mock server.  Of the mock
    server: the listener under it, a reset amid overlapping requests, a scenario whose
    answers to overlapping requests depend on more than the order of their records, the
    key files (they are parameters) and a scenario that returns neither a response nor an
    error; a call that ends the test is an error.  The YAML parser is a parameter;
    [PinnedSpec] is what it gives on the pinned file.  Of [qa], the subtests' scheduling and [reflect.DeepEqual] on
    floats, maps and interfaces; of the examples, [http.ListenAndServe] beyond
    the requests it serves, the multiplexer's answer to other paths (a parameter), and
    [examples/mock_demo], which is tests only. *)

From stdpp Require Export base tactics strings gmap list sorting.
From Stdlib Require Export ZArith Lia.

#[export] Set Default Goal Selector "!".
Declare Scope go_scope.
Delimit Scope go_scope with go.
#[global] Open Scope string_scope.
#[global] Open Scope list_scope.
#[global] Open Scope Z_scope.
#[global] Open Scope go_scope.

(** ** Fallible results: Go's [(T, error)] where exactly one side is meaningful *)

Inductive result (E A : Type) : Type :=
| Ok (a : A)
| Err (e : E).
Arguments Ok {E A} a.
Arguments Err {E A} e.

#[export] Instance result_eq_dec {E A} `{EqDecision E, EqDecision A} :
  EqDecision (result E A).
Proof. solve_decision. Defined.

Definition result_bind {E A B} (m : result E A) (k : A -> result E B) : result E B :=
  match m with Ok a => k a | Err e => Err e end.

Definition is_ok {E A} (m : result E A) : bool := match m with Ok _ => true | Err _ => false end.

Notation "'let*' x ':=' m 'in' k" := (result_bind m (fun x => k))
  (at level 10, x pattern, m at level 99, k at level 200) : go_scope.

(** Early returns.  [ensure e unless b] is Go's [if b { return e }]; [try m] is
    [if err := m; err != nil { return err }].  A nil error is [None]. *)
Notation "'reject' e 'when' b ;; k" := (if (b : bool) then Some e else k)
  (at level 10, e at level 99, b at level 99, k at level 200,
   format "'[v' 'reject'  e  'when'  b  ;; '/' k ']'") : go_scope.
Notation "'try' m ;; k" := (match m with Some err => Some err | None => k end)
  (at level 10, m at level 99, k at level 200,
   format "'[v' 'try'  m  ;; '/' k ']'") : go_scope.

Lemma reject_None {E} (e : E) (b : bool) k :
  (reject e when b ;; k) = None <-> b = false /\ k = None.
Proof. destruct b; intuition congruence. Qed.

Lemma try_None {E} (m k : option E) :
  (try m ;; k) = None <-> m = None /\ k = None.
Proof. destruct m; intuition congruence. Qed.

Lemma and_cong (A B C D : Prop) : (A <-> B) -> (C <-> D) -> (A /\ C <-> B /\ D).
Proof. tauto. Qed.

Lemma length_nonzero {A} (l : list A) : length l <> 0%nat <-> l <> [].
Proof. by destruct l. Qed.

(** A loop that returns the first error of its body. *)
Fixpoint first_error {A E} (f : A -> option E) (l : list A) : option E :=
  match l with
  | [] => None
  | x :: l => try f x ;; first_error f l
  end.

Lemma first_error_None {A E} (f : A -> option E) l :
  first_error f l = None <-> Forall (fun x => f x = None) l.
Proof.
  induction l as [|x l IH]; cbn [first_error]; [by split; [constructor|]|].
  by rewrite try_None, IH, Forall_cons.
Qed.

(** ** Machine integers *)

Definition int64_min : Z := - 2 ^ 63.
Definition int64_max : Z := 2 ^ 63 - 1.
Definition in_int64 (z : Z) : Prop := int64_min <= z <= int64_max.

(** The value a two's complement 64-bit signed register holds: Go's [int64], and
    [int] and [time.Duration] on the 64-bit targets. *)
Definition i64 (z : Z) : Z := (z + 2 ^ 63) mod 2 ^ 64 - 2 ^ 63.

Lemma i64_id z : in_int64 z -> i64 z = z.
Proof.
  unfold in_int64, int64_min, int64_max, i64. intros H.
  rewrite Z.mod_small; lia.
Qed.

Lemma i64_range z : in_int64 (i64 z).
Proof.
  unfold in_int64, int64_min, int64_max, i64.
  pose proof (Z.mod_pos_bound (z + 2 ^ 63) (2 ^ 64) ltac:(lia)). lia.
Qed.

Lemma i64_idemp z : i64 (i64 z) = i64 z.
Proof. apply i64_id, i64_range. Qed.

Lemma i64_add_l a b : i64 (i64 a + b) = i64 (a + b).
Proof.
  unfold i64. f_equal.
  replace ((a + 2 ^ 63) mod 2 ^ 64 - 2 ^ 63 + b + 2 ^ 63)
    with ((a + 2 ^ 63) mod 2 ^ 64 + b) by lia.
  rewrite Z.add_mod_idemp_l by lia. f_equal. lia.
Qed.

(** ** Strings and byte slices *)

(** A Go string is an immutable byte sequence, so [string] (a sequence of 8-bit
    characters) models both [string] and a [[]byte] that nobody mutates. *)
#[global] Arguments String.append !_ _ : simpl nomatch.

Abbreviation slen s := (Z.of_nat (String.length s)).

Definition is_empty (s : string) : bool := bool_decide (s = "").

Lemma is_empty_true s : is_empty s = true <-> s = "".
Proof. apply bool_decide_eq_true. Qed.
Lemma is_empty_false s : is_empty s = false <-> s <> "".
Proof. apply bool_decide_eq_false. Qed.

(** [strconv.FormatInt(z, 10)]; the fuel is the number of binary digits, which is at
    least the number of decimal ones. *)
Definition digit_char (n : Z) : Ascii.ascii := Ascii.ascii_of_nat (48 + Z.to_nat n).

Fixpoint digits_of (fuel : nat) (n : Z) (acc : string) : string :=
  match fuel with
  | O => acc
  | S fuel =>
      let acc := String (digit_char (n mod 10)) acc in
      if n <? 10 then acc else digits_of fuel (n / 10) acc
  end.

Definition format_nat (n : Z) : string := digits_of (S (Z.to_nat (Z.log2 n))) n "".

Definition itoa (z : Z) : string :=
  if z <? 0 then "-" +:+ format_nat (- z) else format_nat z.

Lemma str_app_nil_r s : s +:+ "" = s.
Proof. induction s as [|c s IH]; simpl; congruence. Qed.

Lemma str_app_assoc a b c : (a +:+ b) +:+ c = a +:+ (b +:+ c).
Proof. induction a as [|x a IH]; simpl; congruence. Qed.

Lemma str_length_app a b : String.length (a +:+ b) = (String.length a + String.length b)%nat.
Proof. induction a as [|x a IH]; simpl; congruence. Qed.

Lemma str_app_inj_l a b c : a +:+ b = a +:+ c -> b = c.
Proof. induction a as [|x a IH]; simpl; intros [=]; auto. Qed.

Lemma str_app_inj_len a b c d :
  String.length a = String.length c -> a +:+ b = c +:+ d -> a = c /\ b = d.
Proof.
  revert c; induction a as [|x a IH]; intros [|y c]; simpl; try discriminate; auto.
  intros [= Hl] [= -> H]. destruct (IH _ Hl H) as [-> ->]. auto.
Qed.

Fixpoint str_forall (P : Ascii.ascii -> bool) (s : string) : bool :=
  match s with
  | EmptyString => true
  | String c s' => P c && str_forall P s'
  end.

Lemma str_forall_app P a b : str_forall P (a +:+ b) = str_forall P a && str_forall P b.
Proof. induction a as [|x a IH]; simpl; [done|]. rewrite IH. apply andb_assoc. Qed.

Lemma str_forall_impl (P Q : Ascii.ascii -> bool) s :
  (forall c, P c = true -> Q c = true) -> str_forall P s = true -> str_forall Q s = true.
Proof.
  intros HPQ. induction s as [|c s IH]; simpl; [done|].
  rewrite !andb_true_iff. naive_solver.
Qed.

(** [strings.Join] *)
Fixpoint join (sep : string) (l : list string) : string :=
  match l with
  | [] => ""
  | [x] => x
  | x :: l' => x +:+ sep +:+ join sep l'
  end.

(** ** Case analysis over the 256 characters *)

Lemma ascii_check (P : Ascii.ascii -> bool) :
  forallb (fun n => P (Ascii.ascii_of_nat n)) (seq 0 256) = true ->
  forall c, P c = true.
Proof.
  intros H c. rewrite forallb_forall in H.
  rewrite <- (Ascii.ascii_nat_embedding c). apply H, in_seq.
  pose proof (Ascii.nat_ascii_bounded c). lia.
Qed.

(** ** Sorting strings bytewise ([sort.Strings]) *)

Definition sort_strings (l : list string) : list string := merge_sort String.le l.

Lemma sort_strings_perm l : sort_strings l ≡ₚ l.
Proof. apply merge_sort_Permutation. Qed.

Lemma sort_strings_sorted l : StronglySorted String.le (sort_strings l).
Proof. apply StronglySorted_merge_sort; apply _. Qed.

(** Sorting forgets the order in which the keys were enumerated: Go's randomised
    map iteration does not show in anything computed from the sorted keys. *)
Lemma sort_strings_canonical l k : l ≡ₚ k -> sort_strings l = sort_strings k.
Proof.
  intros H. apply (StronglySorted_unique String.le);
    [apply sort_strings_sorted..|].
  by rewrite !sort_strings_perm.
Qed.

Lemma sort_strings_sorted_id l : StronglySorted String.le l -> sort_strings l = l.
Proof.
  intros H. apply (StronglySorted_unique String.le); auto using sort_strings_sorted.
  apply sort_strings_perm.
Qed.

Lemma StronglySorted_filter {A} (R : relation A) (P : A -> Prop) `{!forall x, Decision (P x)} l :
  StronglySorted R l -> StronglySorted R (filter P l).
Proof.
  induction 1 as [|x l Hl IH Hx]; [constructor|].
  rewrite filter_cons. case_decide; [|done].
  constructor; [done|]. apply Forall_forall. intros y [_ Hy]%list_elem_of_filter.
  rewrite Forall_forall in Hx. auto.
Qed.

(** ** Automation *)

Create HintDb atome.
Create Rewrite HintDb atome.
#[export] Hint Resolve i64_range i64_id sort_strings_sorted : atome.
#[export] Hint Rewrite str_app_nil_r str_app_assoc str_length_app i64_idemp i64_add_l : atome.

(** Split every [match]/[if] of the goal and of the hypotheses, closing the
    contradictory branches. *)
Ltac go_cases := repeat (case_match; simplify_eq/=; try done).

(** Turn a validator's [= None] into the conjunction of its guards. *)
Ltac checks := repeat (setoid_rewrite reject_None || setoid_rewrite try_None || setoid_rewrite first_error_None).

(** Boolean guards to propositions. *)
Ltac to_prop :=
  rewrite ?orb_false_iff, ?orb_true_iff, ?andb_true_iff, ?andb_false_iff,
          ?negb_true_iff, ?negb_false_iff,
          ?is_empty_true, ?is_empty_false, ?bool_decide_eq_true, ?bool_decide_eq_false,
          ?Z.ltb_lt, ?Z.ltb_ge, ?Z.leb_le, ?Z.leb_gt, ?Z.eqb_eq, ?Z.eqb_neq in *.

(** Evaluate the tests on closed propositions. *)
Ltac decide_closed :=
  repeat match goal with
  | |- context [bool_decide ?P] =>
      let b := eval vm_compute in (bool_decide P) in
      match b with true => idtac | false => idtac end;
      change (bool_decide P) with b
  end; cbn [andb orb negb].
