(* ===== verification/GoStd.v ===== *)
(** * GoStd: the functions of Go's standard library that the SDK calls.

    [strings] (cut, split, trim), [net/url] (query escaping, [Values],
    [ParseQuery]) and [encoding/base64] over byte strings, written as the Go
    packages define them, with the lemmas the components share. *)
From Stdlib Require Export Ascii.
From S2P Require Import Prelude.

(** ** Bytes *)

Definition byte_of (c : ascii) : Z := Z.of_nat (nat_of_ascii c).

Definition byte_between (lo : ascii) (c : ascii) (hi : ascii) : bool :=
  (byte_of lo <=? byte_of c) && (byte_of c <=? byte_of hi).

(** [s[i]]; the callers index in range *)
Definition str_index (s : string) (i : Z) : ascii :=
  default zero (String.get (Z.to_nat i) s).

(** [type Values map[string]\[\]string] of [net/url] *)
Abbreviation Values := (gmap string (list string)).

(** ** [net/url]: query strings *)

Definition unhex (c : ascii) : option Z :=
  if byte_between "0" c "9" then Some (byte_of c - byte_of "0")
  else if byte_between "a" c "f" then Some (byte_of c - byte_of "a" + 10)
  else if byte_between "A" c "F" then Some (byte_of c - byte_of "A" + 10)
  else None.

(** [url.QueryUnescape]; [None] is its [EscapeError]. *)
Fixpoint QueryUnescape (s : string) : option string :=
  match s with
  | EmptyString => Some EmptyString
  | String c s' =>
      if bool_decide (c = "%"%char) then
        match s' with
        | String h (String l s'') =>
            match unhex h, unhex l, QueryUnescape s'' with
            | Some h, Some l, Some r =>
                Some (String (ascii_of_nat (Z.to_nat (16 * h + l))) r)
            | _, _, _ => None
            end
        | _ => None
        end
      else if bool_decide (c = "+"%char) then String " " <$> QueryUnescape s'
      else String c <$> QueryUnescape s'
  end.

(** [strings.Cut] at a one-byte separator: the part before it, and the part after
    it ([""] when it does not occur). *)
Fixpoint cut (sep : ascii) (s : string) : string * string :=
  match s with
  | EmptyString => (EmptyString, EmptyString)
  | String c s' =>
      if bool_decide (c = sep) then (EmptyString, s')
      else let '(a, b) := cut sep s' in (String c a, b)
  end.

(** The fields a repeated [strings.Cut(query, "&")] visits. *)
Fixpoint split_on (sep : ascii) (s : string) : list string :=
  match s with
  | EmptyString => [EmptyString]
  | String c s' =>
      if bool_decide (c = sep) then EmptyString :: split_on sep s'
      else match split_on sep s' with
           | [] => [String c EmptyString]
           | f :: fs => String c f :: fs
           end
  end.

Definition str_contains (c : ascii) (s : string) : bool :=
  negb (str_forall (fun x => negb (bool_decide (x = c))) s).

(** One iteration of [url.parseQuery]: [Ok None] for an empty field, [Err] for a
    field it skips while recording an error. *)
Definition parse_field (field : string) : result unit (option (string * string)) :=
  if str_contains ";" field then Err tt
  else if is_empty field then Ok None
  else
    let '(key, value) := cut "=" field in
    match QueryUnescape key, QueryUnescape value with
    | Some key, Some value => Ok (Some (key, value))
    | _, _ => Err tt
    end.

(** [m[key] = append(m[key], value)] *)
Definition Values_Add (m : Values) (key value : string) : Values :=
  <[key := (m !!! key) ++ [value]]> m.

(** [Values.Set] *)
Definition Values_Set (m : Values) (key value : string) : Values := <[key := [value]]> m.

Definition parse_step (acc : Values * bool) (field : string) : Values * bool :=
  match parse_field field with
  | Ok (Some (key, value)) => (Values_Add acc.1 key value, acc.2)
  | Ok None => acc
  | Err _ => (acc.1, false)
  end.

(** [url.ParseQuery]: the values, and whether the returned error is nil. *)
Definition ParseQuery (query : string) : Values * bool :=
  fold_left parse_step (split_on "&" query) (∅, true).

(** [url.QueryEscape] *)
Definition upperhex : string := "0123456789ABCDEF".

Definition query_unescaped (c : ascii) : bool :=
  byte_between "A" c "Z" || byte_between "a" c "z" || byte_between "0" c "9"
  || bool_decide (c = "-"%char) || bool_decide (c = "_"%char)
  || bool_decide (c = "."%char) || bool_decide (c = "~"%char).

Fixpoint QueryEscape (s : string) : string :=
  match s with
  | EmptyString => EmptyString
  | String c s' =>
      if query_unescaped c then String c (QueryEscape s')
      else if bool_decide (c = " "%char) then String "+" (QueryEscape s')
      else String "%" (String (str_index upperhex (Z.shiftr (byte_of c) 4))
             (String (str_index upperhex (Z.land (byte_of c) 15)) (QueryEscape s')))
  end.

(** ** [strings.TrimSpace] *)

(** The UTF-8 encodings of the runes [unicode.IsSpace] accepts. *)
Definition spaces : list (list Z) :=
  [[0x09]; [0x0A]; [0x0B]; [0x0C]; [0x0D]; [0x20];
   [0xC2; 0x85]; [0xC2; 0xA0]; [0xE1; 0x9A; 0x80]]
  ++ map (fun z => [0xE2; 0x80; 0x80 + Z.of_nat z]) (seq 0 11)
  ++ [[0xE2; 0x80; 0xA8]; [0xE2; 0x80; 0xA9]; [0xE2; 0x80; 0xAF]; [0xE2; 0x81; 0x9F]; [0xE3; 0x80; 0x80]].

Fixpoint is_prefix (p : list Z) (l : list ascii) : bool :=
  match p, l with
  | [], _ => true
  | z :: p, c :: l => (z =? byte_of c) && is_prefix p l
  | _, _ => false
  end.

(** Drop leading runes of the set; every rune dropped is at least one byte. *)
Fixpoint trim_left (set : list (list Z)) (fuel : nat) (l : list ascii) : list ascii :=
  match fuel with
  | O => l
  | S fuel =>
      match List.find (fun p => is_prefix p l) set with
      | Some p => trim_left set fuel (drop (length p) l)
      | None => l
      end
  end.

Definition TrimSpace (s : string) : string :=
  let l := String.list_ascii_of_string s in
  let l := trim_left spaces (length l) l in
  let r := trim_left (map (@rev Z) spaces) (length l) (rev l) in
  String.string_of_list_ascii (rev r).

(** [strings.TrimRight] and [bytes.TrimRight] with a cutset of one character *)
Definition TrimRight (cut : ascii) (b : string) : string :=
  let fix drop_cut (l : list ascii) : list ascii :=
    match l with
    | c :: l' => if bool_decide (c = cut) then drop_cut l' else l
    | [] => []
    end in
  String.string_of_list_ascii (rev (drop_cut (rev (String.list_ascii_of_string b)))).

(** ** Splitting undoes joining *)

Definition lacks (c : ascii) (s : string) : bool :=
  str_forall (fun x => negb (bool_decide (x = c))) s.

Lemma lacks_cut sep a b : lacks sep a = true -> cut sep (a +:+ String sep b) = (a, b).
Proof.
  unfold lacks. induction a as [|c a IH]; simpl.
  - by rewrite bool_decide_true.
  - rewrite andb_true_iff, negb_true_iff. intros [-> H]. by rewrite IH.
Qed.

Lemma lacks_split_on sep a b :
  lacks sep a = true -> split_on sep (a +:+ String sep b) = a :: split_on sep b.
Proof.
  unfold lacks. induction a as [|c a IH]; simpl.
  - by rewrite bool_decide_true.
  - rewrite andb_true_iff, negb_true_iff. intros [-> H]. by rewrite IH.
Qed.

Lemma lacks_split_on_end sep a : lacks sep a = true -> split_on sep a = [a].
Proof.
  unfold lacks. induction a as [|c a IH]; [done|]. simpl.
  rewrite andb_true_iff, negb_true_iff. intros [-> H]. by rewrite IH.
Qed.

Lemma split_on_join sep fs :
  fs <> [] -> Forall (fun f => lacks sep f = true) fs ->
  split_on sep (join (String sep "") fs) = fs.
Proof.
  intros Hne Hall. induction Hall as [|f fs Hf Hall IH]; [done|].
  destruct fs as [|g fs]; [by apply lacks_split_on_end|].
  change (join (String sep "") (f :: g :: fs))
    with (f +:+ String sep (join (String sep "") (g :: fs))).
  rewrite lacks_split_on by done. by rewrite IH.
Qed.


(** ** [QueryEscape] *)

Definition query_escaped_char (c : ascii) : bool :=
  query_unescaped c || bool_decide (c = "%"%char) || bool_decide (c = "+"%char).

Lemma query_byte_check c :
  (if query_unescaped c
   then negb (bool_decide (c = "%"%char)) && negb (bool_decide (c = "+"%char))
   else if bool_decide (c = " "%char) then true
   else
     let h := str_index upperhex (Z.shiftr (byte_of c) 4) in
     let l := str_index upperhex (Z.land (byte_of c) 15) in
     query_unescaped h && query_unescaped l &&
     match unhex h, unhex l with
     | Some h, Some l => bool_decide (ascii_of_nat (Z.to_nat (16 * h + l)) = c)
     | _, _ => false
     end) = true.
Proof. revert c. apply ascii_check. vm_compute. reflexivity. Qed.

Lemma QueryUnescape_QueryEscape s : QueryUnescape (QueryEscape s) = Some s.
Proof.
  induction s as [|c s IH]; [done|]. simpl.
  pose proof (query_byte_check c) as Hc. destruct (query_unescaped c) eqn:E.
  - apply andb_true_iff in Hc as [H1 H2]. apply negb_true_iff in H1, H2.
    simpl. by rewrite H1, H2, IH.
  - destruct (bool_decide (c = " "%char)) eqn:Hs.
    { apply bool_decide_eq_true in Hs as ->. cbn [QueryUnescape]. by rewrite IH. }
    cbv zeta in Hc. apply andb_true_iff in Hc as [_ Hc]. cbn [QueryUnescape].
    rewrite bool_decide_true by done.
    destruct (unhex _) as [h|]; [|done]. destruct (unhex _) as [l|]; [|done].
    apply bool_decide_eq_true in Hc. by rewrite IH, Hc.
Qed.

Lemma QueryEscape_chars s : str_forall query_escaped_char (QueryEscape s) = true.
Proof.
  unfold query_escaped_char. induction s as [|c s IH]; [done|]. simpl.
  pose proof (query_byte_check c) as Hc. destruct (query_unescaped c) eqn:E.
  - simpl. by rewrite E, IH.
  - destruct (bool_decide (c = " "%char)) eqn:Hs; cbn [str_forall]; rewrite IH; [done|].
    cbv zeta in Hc. apply andb_true_iff in Hc as [Hc _]. apply andb_true_iff in Hc as [-> ->]. done.
Qed.

#[export] Hint Rewrite QueryUnescape_QueryEscape : atome.

(** ** Nothing to trim *)

Definition not_space_byte (c : ascii) : bool :=
  negb (existsb (fun p => match p with z :: _ => z =? byte_of c | [] => true end) spaces
        || existsb (fun p => match rev p with z :: _ => z =? byte_of c | [] => true end) spaces).

Lemma existsb_map {A B} (f : A -> B) (p : B -> bool) l : existsb p (map f l) = existsb (fun x => p (f x)) l.
Proof. induction l as [|x l IH]; simpl; [done|]. by rewrite IH. Qed.

Lemma trim_left_id set fuel c l :
  existsb (fun p => match p with z :: _ => z =? byte_of c | [] => true end) set = false ->
  trim_left set fuel (c :: l) = c :: l.
Proof.
  intros H. destruct fuel as [|fuel]; [done|]. simpl.
  assert (List.find (fun p => is_prefix p (c :: l)) set = None) as ->; [|done].
  induction set as [|p set IH]; [done|]. simpl in *.
  apply orb_false_iff in H as [Hp H]. destruct p as [|z p]; [done|]. simpl. rewrite Hp. simpl. auto.
Qed.

(** A string whose bytes neither start nor end a space rune is left alone. *)
Lemma TrimSpace_id s : str_forall not_space_byte s = true -> TrimSpace s = s.
Proof.
  intros H. unfold TrimSpace.
  assert (Hall : Forall (fun c => not_space_byte c = true) (String.list_ascii_of_string s)).
  { induction s as [|c s IH]; simpl in *; constructor; apply andb_true_iff in H as [? ?]; auto. }
  assert (Hl : trim_left spaces (length (String.list_ascii_of_string s)) (String.list_ascii_of_string s)
               = String.list_ascii_of_string s).
  { destruct Hall as [|c l Hc _]; [done|]. apply trim_left_id.
    apply negb_true_iff, orb_false_iff in Hc as [Hc _]. done. }
  rewrite Hl. clear Hl.
  assert (Hr : trim_left (map (@rev Z) spaces) (length (String.list_ascii_of_string s))
      (rev (String.list_ascii_of_string s)) = rev (String.list_ascii_of_string s)).
  { apply Forall_rev in Hall. rewrite <- length_rev.
    destruct Hall as [|c l Hc _]; [done|]. apply trim_left_id.
    apply negb_true_iff, orb_false_iff in Hc as [_ Hc].
    rewrite existsb_map. exact Hc. }
  rewrite Hr, rev_involutive. apply String.string_of_list_ascii_of_string.
Qed.
