(* ===== verification/Errors.v ===== *)
(** * Errors: the typed errors of [atomefin/errors.go] and the wire enums of
    [atomefin/codes.go], [atomefin/money.go] and [atomefin/environment.go].

    A Go [error] interface value is an [option error]: [None] is [nil].  The
    constructors of [error] are the dynamic types that flow through the SDK: its
    own five exported types, the sentinels it compares against, the values
    [fmt.Errorf] and [errors.New] build (format and arguments, so the [Unwrap] tree
    of [%w] is there), the network errors [net/http] hands back (which implement
    [net.Error]), and other errors of the standard library. *)
From S2P Require Import Prelude GoStd.

(** ** Wire enums (Go named string types: any string is a value) *)

Definition Status := string.
Definition StatusProcessing : Status := "PROCESSING".
Definition StatusSuccess : Status := "SUCCESS".
Definition StatusFailed : Status := "FAILED".

Definition Status_IsTerminal (s : Status) : bool :=
  bool_decide (s = StatusSuccess) || bool_decide (s = StatusFailed).

Definition Code := string.
Definition CodeSuccess : Code := "SUCCESS".
Definition CodeInvalidOrderAmount : Code := "INVALID_ORDER_AMOUNT".
Definition CodeCreditApplicationNotApproved : Code := "CREDIT_APPLICATION_NOT_APPROVED".
Definition CodeAccountBlockedOverdue : Code := "ACCOUNT_BLOCKED_OVERDUE".
Definition CodeAccountBlocked : Code := "ACCOUNT_BLOCKED".
Definition CodeAccountTempBlocked : Code := "ACCOUNT_TEMP_BLOCKED".
Definition CodeFeeChange : Code := "FEE_CHANGE".
Definition CodeUserCreditLimitInsufficient : Code := "USER_CREDIT_LIMIT_INSUFFICIENT".
Definition CodeRiskReject : Code := "RISK_REJECT".
Definition CodeRefundableAmountInsufficient : Code := "REFUNDABLE_AMOUNT_INSUFFICIENT".
Definition CodeNonRefundableStatus : Code := "NON_REFUNDABLE_STATUS".
Definition CodeAccountClosed : Code := "ACCOUNT_CLOSED".
Definition CodeInvalidPartner : Code := "INVALID_PARTNER".
Definition CodeParamsMissing : Code := "PARAMS_MISSING".
Definition CodeWrongParamsFormat : Code := "WRONG_PARAMS_FORMAT".
Definition CodeParamsWrong : Code := "PARAMS_WRONG".
Definition CodeNotFound : Code := "NOT_FOUND".
Definition CodeSessionNotFound : Code := "SESSION_NOT_FOUND".
Definition CodeCaptureAmountExceed : Code := "CAPTURE_AMOUNT_EXCEED".
Definition CodeAuthExpired : Code := "AUTH_EXPIRED".
Definition CodeInvalidSignature : Code := "INVALID_SIGNATURE".
Definition CodeServerError : Code := "SERVER_ERROR".

Definition Code_IsSuccess (c : Code) : bool := bool_decide (c = CodeSuccess).

Definition FailureCode := string.
Definition FailureUserCreditLimitInsufficient : FailureCode := "USER_CREDIT_LIMIT_INSUFFICIENT".
Definition FailureRiskReject : FailureCode := "RISK_REJECT".
Definition FailureRefundableAmountInsufficient : FailureCode := "REFUNDABLE_AMOUNT_INSUFFICIENT".

Definition AccountStatus := string.
Definition AccountStatusNormal : AccountStatus := "NORMAL".
Definition AccountStatusBlockedOverdue : AccountStatus := "ACCOUNT_BLOCKED_OVERDUE".
Definition AccountStatusBlocked : AccountStatus := "ACCOUNT_BLOCKED".
Definition AccountStatusClosed : AccountStatus := "ACCOUNT_CLOSED".

(** Money: [type Amount = int64], minor units. *)
Definition Amount := Z.

Definition Currency := string.
Definition CurrencyIDR : Currency := "IDR".
Definition Currency_IsValid (c : Currency) : bool := bool_decide (c = CurrencyIDR).

Definition Environment := string.
Definition EnvPre : Environment := "pre".
Definition EnvProd : Environment := "prod".

(** ** Errors *)

Record APIError := mkAPIError {
  ae_HTTPStatus : Z;
  ae_Code : Code;
  ae_Message : string;
  ae_RequestID : string;
  ae_Endpoint : string;
  ae_Raw : string;
}.

#[export] Instance APIError_eq_dec : EqDecision APIError.
Proof. solve_decision. Defined.

(** Sentinel values: compared by identity with [errors.Is]. *)
Inductive sentinel : Type :=
| Canceled                (* context.Canceled *)
| DeadlineExceeded        (* context.DeadlineExceeded *)
| errResponseTooLarge     (* doer.go *)
| ErrSignature            (* sign/verifier.go *)
| ErrInvalidKey           (* sign/signer.go *)
| ErrPEM                  (* sign/pem.go *)
| ErrHMACKey.             (* sign/hmac.go *)

#[export] Instance sentinel_eq_dec : EqDecision sentinel.
Proof. solve_decision. Defined.

(** The arguments of [fmt.Errorf] by their verb: [%s] and [%q], [%d], an error
    under [%w] (it joins the [Unwrap] tree) and an error under [%v] (only its text). *)
Inductive fmt_arg (E : Type) : Type :=
| AStr (s : string)
| AInt (z : Z)
| AWrap (e : E)
| AErr (e : E).
Arguments AStr {E} s.
Arguments AInt {E} z.
Arguments AWrap {E} e.
Arguments AErr {E} e.

Inductive error : Type :=
| EAPI (e : APIError)
| ETransport (Op URL : string) (cause : option error) (Retry : bool)
| ESignature (Reason : string) (cause : option error)
| EValidation (Field Message : string)
| EBusinessRejection (code : Code) (Message : string)
| ESentinel (s : sentinel)
| EErrorf (format : string) (args : list (fmt_arg error))   (* fmt.Errorf *)
| ENet (msg : string) (timeout : bool) (cause : option error)
| EStd (type_ : string).   (* an error value of the standard library, by its Go type *)

(** [errors.New] *)
Definition ENew (msg : string) : error := EErrorf msg [].

Abbreviation res := (result error).

Definition sentinel_text (s : sentinel) : string :=
  match s with
  | Canceled => "context canceled"
  | DeadlineExceeded => "context deadline exceeded"
  | errResponseTooLarge => "response body exceeds max size; consider WithMaxResponseBytes"
  | ErrSignature => "sign: signature verification failed"
  | ErrInvalidKey => "sign: invalid RSA key"
  | ErrPEM => "sign: invalid PEM"
  | ErrHMACKey => "sign: OVO.HMAC requires a non-empty client secret"
  end.

(** The [Error] method of a pointer to [APIError]; the [None] receiver is the nil pointer. *)
Definition APIError_Error (e : option APIError) : string :=
  match e with
  | None => "<nil *atomefin.APIError>"
  | Some e =>
      if negb (is_empty (ae_Code e)) && negb (is_empty (ae_Message e)) then
        "atomefin: " +:+ ae_Endpoint e +:+ " " +:+ itoa (ae_HTTPStatus e) +:+ " "
          +:+ ae_Code e +:+ ": " +:+ ae_Message e
      else if negb (is_empty (ae_Code e)) then
        "atomefin: " +:+ ae_Endpoint e +:+ " " +:+ itoa (ae_HTTPStatus e) +:+ " " +:+ ae_Code e
      else "atomefin: " +:+ ae_Endpoint e +:+ " HTTP " +:+ itoa (ae_HTTPStatus e)
  end.

(** [fmt.Sprintf] of a format whose verbs are among %s %d %v %w %T %q, over
    arguments already in text form.  [quote] is [strconv.Quote], whose output depends
    on Unicode's printability tables. *)
Fixpoint Sprintf (quote : string -> string) (format : string) (args : list string) : string :=
  match format with
  | EmptyString => EmptyString
  | String "%" (String verb rest) =>
      match args with
      | a :: args =>
          (if bool_decide (verb = "q"%char) then quote a else a) +:+ Sprintf quote rest args
      | [] => String "%" (String verb (Sprintf quote rest []))
      end
  | String c rest => String c (Sprintf quote rest args)
  end.

(** The [Error()] method of every dynamic type. *)
Fixpoint Error (quote : string -> string) (e : error) : string :=
  match e with
  | EAPI a => APIError_Error (Some a)
  | ETransport _ _ None _ => "atomefin: transport error"
  | ETransport op url (Some c) _ =>
      if negb (is_empty url)
      then "atomefin: transport " +:+ op +:+ " " +:+ url +:+ ": " +:+ Error quote c
      else "atomefin: transport " +:+ op +:+ ": " +:+ Error quote c
  | ESignature reason None => "atomefin: signature " +:+ reason
  | ESignature reason (Some c) => "atomefin: signature " +:+ reason +:+ ": " +:+ Error quote c
  | EValidation field msg =>
      if negb (is_empty field) then "atomefin: validation: " +:+ field +:+ ": " +:+ msg
      else "atomefin: validation: " +:+ msg
  | EBusinessRejection code msg =>
      if is_empty msg then "atomefin: business rejected with code " +:+ code
      else "atomefin: business rejected with code " +:+ code +:+ ": " +:+ msg
  | ESentinel s => sentinel_text s
  | EErrorf format args =>
      Sprintf quote format
        (map (fun a => match a with
                       | AStr s => s
                       | AInt z => itoa z
                       | AWrap e | AErr e => Error quote e
                       end) args)
  | ENet msg _ None => msg
  | ENet msg _ (Some c) => msg +:+ Error quote c
  | EStd t => t
  end.

Definition retryable_status_5xx (status : Z) : bool :=
  bool_decide (status ∈ [500; 502; 503; 504]).

Definition APIError_Temporary (e : option APIError) : bool :=
  match e with
  | None => false
  | Some e => if bool_decide (ae_Code e = CodeServerError) then true
              else retryable_status_5xx (ae_HTTPStatus e)
  end.

Definition APIError_IsSignature (e : option APIError) : bool :=
  match e with
  | None => false
  | Some e => bool_decide (ae_HTTPStatus e = 401) && bool_decide (ae_Code e = CodeInvalidSignature)
  end.

(** The [Temporary()] method of the umbrella [Error] interface; [None] for a
    dynamic type that does not implement it. *)
Definition Temporary (e : error) : option bool :=
  match e with
  | EAPI a => Some (APIError_Temporary (Some a))
  | ETransport _ _ _ retry => Some retry
  | ESignature _ _ | EValidation _ _ | EBusinessRejection _ _ => Some false
  | _ => None
  end.

(** [errors.Is(err, target)] for a sentinel target: walk the [Unwrap] tree. *)
Fixpoint errors_Is (e : error) (target : sentinel) : bool :=
  match e with
  | ESentinel s => bool_decide (s = target)
  | ETransport _ _ (Some c) _ | ESignature _ (Some c) | ENet _ _ (Some c) => errors_Is c target
  | EErrorf _ args =>
      existsb (fun a => match a with AWrap c => errors_Is c target | _ => false end) args
  | _ => false
  end.

(** [errors.As(err, &ne)] for [net.Error]: the first error of the tree that
    implements it, seen through its [Timeout()] method.
    [context.DeadlineExceeded] implements [net.Error] too. *)
Fixpoint as_net_error (e : error) : option bool :=
  match e with
  | ENet _ timeout _ => Some timeout
  | ESentinel DeadlineExceeded => Some true
  | ETransport _ _ (Some c) _ | ESignature _ (Some c) => as_net_error c
  | EErrorf _ args =>
      fold_right (fun a acc =>
        match a with
        | AWrap c => match as_net_error c with Some t => Some t | None => acc end
        | _ => acc
        end) None args
  | _ => None
  end.

Definition isProbablyTransient (err : error) : bool := true.

Definition IsRetryableTransport (err : option error) : bool :=
  match err with
  | None => false
  | Some err =>
      if errors_Is err Canceled then false
      else if errors_Is err DeadlineExceeded then true
      else match as_net_error err with
           | Some timeout => timeout || isProbablyTransient err
           | None => true
           end
  end.

(** ** Environments *)

Definition baseURLs : gmap Environment string :=
  {[ EnvPre := "https://id-api-pre.apaylater.net/grabpaylater";
     EnvProd := "https://api.atome.id/grabpaylater" ]}.

Definition BaseURL (env : Environment) : res string :=
  match baseURLs !! env with
  | Some u => Ok u
  | None => Err (EErrorf "atomefin: unknown environment %q (want one of pre/prod)" [AStr env])
  end.

(** ** Properties *)

(** The retry classifier collapses to one rule: a transport failure is
    retryable exactly when it is an error and cancellation is nowhere in its
    [Unwrap] tree, deadline expiry and every [net.Error] included. *)
Theorem IsRetryableTransport_spec err :
  IsRetryableTransport err = true <->
  exists e, err = Some e /\ errors_Is e Canceled = false.
Proof.
  unfold IsRetryableTransport, isProbablyTransient.
  destruct err as [e|]; [|naive_solver].
  destruct (errors_Is e Canceled) eqn:E; [naive_solver|].
  split; [eauto|]. intros _.
  destruct (errors_Is e DeadlineExceeded); [done|].
  destruct (as_net_error e) as [[]|]; done.
Qed.

Lemma Status_IsTerminal_spec s :
  Status_IsTerminal s = true <-> s = StatusSuccess \/ s = StatusFailed.
Proof. unfold Status_IsTerminal. rewrite orb_true_iff, !bool_decide_eq_true. done. Qed.

(** Wrapping with [%w] keeps the identity of the cause visible to [errors.Is]. *)
Lemma errors_Is_wrap format e args t :
  errors_Is (EErrorf format (AWrap e :: args)) t = errors_Is e t || errors_Is (EErrorf format args) t.
Proof. done. Qed.

Lemma errors_Is_transport op url e r t :
  errors_Is (ETransport op url (Some e) r) t = errors_Is e t.
Proof. done. Qed.

#[export] Hint Rewrite errors_Is_wrap errors_Is_transport : atome.
