(* ===== verification/Canonical.v ===== *)
(** * Canonical: [atomefin/sign/canonical.go].

    The canonical signing form of a query ([CanonicalQuery],
    [CanonicalQueryFirstValue]), its wire form ([EncodeWireQueryRFC3986]) and the
    percent encoding under both ([rfc3986Escape]); a gateway reads the wire form back
    with [url.ParseQuery] of [GoStd]. *)
From S2P Require Import Prelude GoStd.

(** ** Percent encoding *)

Definition isUnreserved (c : ascii) : bool :=
  if byte_between "A" c "Z" then true
  else if byte_between "a" c "z" then true
  else if byte_between "0" c "9" then true
  else if bool_decide (c = "-"%char) || bool_decide (c = "."%char)
          || bool_decide (c = "_"%char) || bool_decide (c = "~"%char) then true
  else false.

(** The loop that fills the builder. *)
Fixpoint escape_bytes (s : string) : string :=
  match s with
  | EmptyString => EmptyString
  | String c s' =>
      if isUnreserved c then String c (escape_bytes s')
      else String "%" (String (str_index upperhex (Z.shiftr (byte_of c) 4))
             (String (str_index upperhex (Z.land (byte_of c) 15)) (escape_bytes s')))
  end.

(** The fast path returns its argument when nothing needs escaping. *)
Definition rfc3986Escape (s : string) : string :=
  let needs := negb (str_forall isUnreserved s) in
  if negb needs then s else escape_bytes s.

(** ** The three encoders *)

(** The keys of a map in the order a [range] happened to enumerate them; any
    permutation is possible.  [range_keys] is one, and
    [CanonicalQuery_range_order] shows that the choice is invisible. *)
Definition range_keys (values : Values) : list string := elements (dom values).

(** One pair written to the builder: [(b, first)] is the builder and the flag. *)
Definition write_pair (st : string * bool) (ek v : string) : string * bool :=
  let '(b, first) := st in
  let b := if negb first then b +:+ "&" else b in
  (b +:+ ek +:+ "=" +:+ rfc3986Escape v, false).

Record MultiValueQueryError := mkMultiValueQueryError { mv_Key : string; mv_Count : Z }.

(** [quote] is the verb [%q]. *)
Definition MultiValueQueryError_Error (quote : string -> string) (e : MultiValueQueryError) : string :=
  "sign: query key " +:+ quote (mv_Key e) +:+ " has " +:+ itoa (mv_Count e) +:+
  " values; the canonical signing form requires single-value (pre-flatten before calling)".

Fixpoint CanonicalQuery_loop (values : Values) (keys : list string) (st : string * bool)
    : result MultiValueQueryError string :=
  match keys with
  | [] => Ok st.1
  | k :: keys =>
      match values !!! k with
      | [] => CanonicalQuery_loop values keys st
      | [v] => CanonicalQuery_loop values keys (write_pair st (rfc3986Escape k) v)
      | vs => Err (mkMultiValueQueryError k (Z.of_nat (length vs)))
      end
  end.

Definition CanonicalQuery_of (order : list string) (values : Values)
    : result MultiValueQueryError string :=
  if bool_decide (values = ∅) then Ok ""
  else CanonicalQuery_loop values (sort_strings order) ("", true).

Definition CanonicalQuery (values : Values) : result MultiValueQueryError string :=
  CanonicalQuery_of (range_keys values) values.

Fixpoint FirstValue_loop (values : Values) (keys : list string) (st : string * bool) : string :=
  match keys with
  | [] => st.1
  | k :: keys =>
      match values !!! k with
      | [] => FirstValue_loop values keys st
      | v :: _ => FirstValue_loop values keys (write_pair st (rfc3986Escape k) v)
      end
  end.

Definition CanonicalQueryFirstValue (values : Values) : string :=
  if bool_decide (values = ∅) then ""
  else FirstValue_loop values (sort_strings (range_keys values)) ("", true).

Fixpoint Wire_loop (values : Values) (keys : list string) (st : string * bool) : string :=
  match keys with
  | [] => st.1
  | k :: keys =>
      match values !!! k with
      | [] => Wire_loop values keys st
      | vs =>
          let ek := rfc3986Escape k in
          Wire_loop values keys (fold_left (fun st v => write_pair st ek v) vs st)
      end
  end.

Definition EncodeWireQueryRFC3986 (values : Values) : string :=
  if bool_decide (values = ∅) then ""
  else Wire_loop values (sort_strings (range_keys values)) ("", true).

(** * Lemmas *)

(** ** The encoders build a joined list of pairs *)

Definition pair_bytes (p : string * string) : string :=
  rfc3986Escape p.1 +:+ "=" +:+ rfc3986Escape p.2.

(** The reference form of a query. *)
Definition encode_pairs (ps : list (string * string)) : string :=
  join "&" (pair_bytes <$> ps).

Definition write_pairs (st : string * bool) (ps : list (string * string)) : string * bool :=
  fold_left (fun st p => write_pair st (rfc3986Escape p.1) p.2) ps st.

Definition first_pairs (values : Values) (keys : list string) : list (string * string) :=
  omap (fun k => pair k <$> head (values !!! k)) keys.

Definition all_pairs (values : Values) (keys : list string) : list (string * string) :=
  keys ≫= (fun k => pair k <$> values !!! k).

Definition sorted_keys (values : Values) : list string := sort_strings (range_keys values).

Lemma write_pairs_started b ps :
  (write_pairs (b, false) ps).1 = match ps with [] => b | _ => b +:+ "&" +:+ encode_pairs ps end.
Proof.
  revert b. induction ps as [|p ps IH]; intros b; [done|].
  change (write_pairs (b, false) (p :: ps)) with (write_pairs ((b +:+ "&") +:+ pair_bytes p, false) ps).
  rewrite IH. destruct ps as [|q ps]; unfold encode_pairs; simpl.
  - by rewrite str_app_assoc.
  - by rewrite !str_app_assoc.
Qed.

Lemma write_pairs_encode ps : (write_pairs ("", true) ps).1 = encode_pairs ps.
Proof.
  destruct ps as [|p ps]; [done|].
  change (write_pairs ("", true) (p :: ps)) with (write_pairs (pair_bytes p, false) ps).
  rewrite write_pairs_started. by destruct ps.
Qed.

Lemma FirstValue_loop_pairs values keys st :
  FirstValue_loop values keys st = (write_pairs st (first_pairs values keys)).1.
Proof.
  revert st. induction keys as [|k keys IH]; intros st; [done|].
  simpl. unfold first_pairs. simpl. destruct (values !!! k); simpl; by rewrite IH.
Qed.

Lemma Wire_loop_pairs values keys st :
  Wire_loop values keys st = (write_pairs st (all_pairs values keys)).1.
Proof.
  revert st. induction keys as [|k keys IH]; intros st; [done|].
  unfold all_pairs, write_pairs. simpl. rewrite fold_left_app.
  assert (Hf : forall vs st, fold_left (fun st v => write_pair st (rfc3986Escape k) v) vs st
      = fold_left (fun st p => write_pair st (rfc3986Escape p.1) p.2) (pair k <$> vs) st).
  { induction vs as [|v vs IHv]; intros st'; [done|]. simpl. apply IHv. }
  destruct (values !!! k) as [|v vs]; simpl; rewrite IH; [done|].
  by rewrite Hf.
Qed.

Lemma FirstValue_encode values :
  CanonicalQueryFirstValue values = encode_pairs (first_pairs values (sorted_keys values)).
Proof.
  unfold CanonicalQueryFirstValue. case_bool_decide; [by subst|].
  by rewrite FirstValue_loop_pairs, write_pairs_encode.
Qed.

Lemma Wire_encode values :
  EncodeWireQueryRFC3986 values = encode_pairs (all_pairs values (sorted_keys values)).
Proof.
  unfold EncodeWireQueryRFC3986. case_bool_decide; [by subst|].
  by rewrite Wire_loop_pairs, write_pairs_encode.
Qed.

Lemma elem_of_sorted_keys values k : k ∈ sorted_keys values <-> k ∈ dom values.
Proof.
  unfold sorted_keys, range_keys. rewrite sort_strings_perm. apply elem_of_elements.
Qed.

Lemma NoDup_sorted_keys values : NoDup (sorted_keys values).
Proof. unfold sorted_keys, range_keys. rewrite sort_strings_perm. apply NoDup_elements. Qed.

#[export] Hint Resolve NoDup_sorted_keys : atome.

(** ** Escaping is undone by [QueryUnescape] *)

Definition escaped_char (c : ascii) : bool := isUnreserved c || bool_decide (c = "%"%char).

Lemma rfc3986Escape_bytes s : rfc3986Escape s = escape_bytes s.
Proof.
  unfold rfc3986Escape. rewrite negb_involutive. destruct (str_forall isUnreserved s) eqn:E; [|done].
  induction s as [|c s IH]; [done|]. simpl in *. apply andb_true_iff in E as [-> E].
  by rewrite <- IH.
Qed.

(** What escaping one byte writes is read back as that byte. *)
Lemma unescape_byte_check c :
  (if isUnreserved c
   then negb (bool_decide (c = "%"%char)) && negb (bool_decide (c = "+"%char))
   else
     let h := str_index upperhex (Z.shiftr (byte_of c) 4) in
     let l := str_index upperhex (Z.land (byte_of c) 15) in
     isUnreserved h && isUnreserved l &&
     match unhex h, unhex l with
     | Some h, Some l => bool_decide (ascii_of_nat (Z.to_nat (16 * h + l)) = c)
     | _, _ => false
     end) = true.
Proof. revert c. apply ascii_check. vm_compute. reflexivity. Qed.

Lemma QueryUnescape_escape_bytes s : QueryUnescape (escape_bytes s) = Some s.
Proof.
  induction s as [|c s IH]; [done|]. simpl.
  pose proof (unescape_byte_check c) as Hc. destruct (isUnreserved c) eqn:E.
  - apply andb_true_iff in Hc as [H1 H2]. apply negb_true_iff in H1, H2.
    simpl. by rewrite H1, H2, IH.
  - simpl in *. apply andb_true_iff in Hc as [_ Hc].
    destruct (unhex _) as [h|]; [|done]. destruct (unhex _) as [l|]; [|done].
    apply bool_decide_eq_true in Hc. by rewrite IH, Hc.
Qed.

Lemma escape_bytes_chars s : str_forall escaped_char (escape_bytes s) = true.
Proof.
  unfold escaped_char.
  induction s as [|c s IH]; [done|]. simpl.
  pose proof (unescape_byte_check c) as Hc. destruct (isUnreserved c) eqn:E.
  - simpl. by rewrite E, IH.
  - simpl in *. rewrite IH. apply andb_true_iff in Hc as [Hc _].
    apply andb_true_iff in Hc as [-> ->]. done.
Qed.

Lemma QueryUnescape_escape s : QueryUnescape (rfc3986Escape s) = Some s.
Proof. rewrite rfc3986Escape_bytes. apply QueryUnescape_escape_bytes. Qed.

#[export] Hint Rewrite QueryUnescape_escape : atome.

(** ** Pairs are parsed back *)

Lemma escape_lacks c s : escaped_char c = false -> lacks c (rfc3986Escape s) = true.
Proof.
  intros Hc. rewrite rfc3986Escape_bytes.
  eapply str_forall_impl; [|apply escape_bytes_chars].
  intros x Hx. apply negb_true_iff, bool_decide_eq_false. congruence.
Qed.

Lemma pair_bytes_lacks c p :
  escaped_char c = false -> c <> "="%char -> lacks c (pair_bytes p) = true.
Proof.
  intros Hc Hne. unfold pair_bytes, lacks. rewrite !str_forall_app.
  pose proof (escape_lacks c p.1 Hc) as H1. pose proof (escape_lacks c p.2 Hc) as H2.
  unfold lacks in H1, H2. rewrite H1, H2. simpl. rewrite bool_decide_false by congruence. done.
Qed.

Lemma parse_pair_bytes p : parse_field (pair_bytes p) = Ok (Some p).
Proof.
  unfold parse_field, str_contains.
  change (str_forall _ (pair_bytes p)) with (lacks ";" (pair_bytes p)).
  rewrite pair_bytes_lacks by done. simpl.
  assert (is_empty (pair_bytes p) = false) as ->.
  { apply is_empty_false. unfold pair_bytes. destruct (rfc3986Escape p.1); done. }
  unfold pair_bytes. simpl. rewrite lacks_cut by (by apply escape_lacks).
  rewrite !QueryUnescape_escape. by destruct p.
Qed.

Lemma split_encode_pairs ps :
  ps <> [] -> split_on "&" (encode_pairs ps) = pair_bytes <$> ps.
Proof.
  intros Hne. unfold encode_pairs. rewrite split_on_join; [done| |].
  - by destruct ps.
  - apply Forall_fmap, Forall_true. intros p. by apply pair_bytes_lacks.
Qed.

(** The pairs of a query, in order. *)
Definition query_pairs (query : string) : list (string * string) :=
  omap (fun f => match parse_field f with Ok o => o | Err _ => None end) (split_on "&" query).

Lemma query_pairs_encode ps : query_pairs (encode_pairs ps) = ps.
Proof.
  destruct (decide (ps = [])) as [->|Hne]; [done|].
  unfold query_pairs. rewrite split_encode_pairs by done. clear Hne.
  induction ps as [|p ps IH]; [done|].
  cbn. rewrite parse_pair_bytes. by f_equal.
Qed.

Lemma encode_pairs_inj ps qs : encode_pairs ps = encode_pairs qs -> ps = qs.
Proof. intros H. by rewrite <- (query_pairs_encode ps), H, query_pairs_encode. Qed.

Definition add_pairs (m : Values) (ps : list (string * string)) : Values :=
  fold_left (fun m p => Values_Add m p.1 p.2) ps m.

Lemma ParseQuery_encode ps : ParseQuery (encode_pairs ps) = (add_pairs ∅ ps, true).
Proof.
  destruct (decide (ps = [])) as [->|Hne]; [done|].
  unfold ParseQuery. rewrite split_encode_pairs by done. clear Hne.
  generalize (∅ : Values) as m. induction ps as [|p ps IH]; intros m; [done|].
  cbn [fmap list_fmap fold_left]. unfold parse_step at 2. rewrite parse_pair_bytes.
  destruct p as [k v]. simpl. apply IH.
Qed.

(** ** Maps of value lists *)

(** A key with no values does not appear on the wire. *)
Definition drop_empty (values : Values) : Values :=
  filter (fun kv : string * list string => kv.2 <> []) values.

Definition no_empty (values : Values) : Prop := forall k, values !! k <> Some [].

Lemma Values_ext (m1 m2 : Values) :
  no_empty m1 -> no_empty m2 -> (forall k, m1 !!! k = m2 !!! k) -> m1 = m2.
Proof.
  intros H1 H2 H. apply map_eq. intros k. specialize (H k).
  rewrite !lookup_total_alt in H.
  destruct (m1 !! k) as [v1|] eqn:E1, (m2 !! k) as [v2|] eqn:E2; simpl in H; subst; try done;
    exfalso; [by apply (H1 k)|by apply (H2 k)].
Qed.

Lemma drop_empty_total values k : drop_empty values !!! k = values !!! k.
Proof.
  unfold drop_empty. rewrite !lookup_total_alt, map_lookup_filter.
  destruct (values !! k) as [vs|]; [|done]. simpl. case_guard as E; [done|]. simpl.
  destruct vs; [done|]. by destruct E.
Qed.

Lemma drop_empty_no_empty values : no_empty (drop_empty values).
Proof. intros k [_ Hne]%map_lookup_filter_Some. by apply Hne. Qed.

Lemma Values_Add_total m k v i :
  Values_Add m k v !!! i = if decide (i = k) then m !!! k ++ [v] else m !!! i.
Proof.
  unfold Values_Add. destruct (decide (i = k)) as [->|].
  - by rewrite lookup_total_insert_eq.
  - by rewrite lookup_total_insert_ne.
Qed.

Lemma add_pairs_total m ps k :
  add_pairs m ps !!! k = m !!! k ++ (filter (fun p => p.1 = k) ps).*2.
Proof.
  revert m. induction ps as [|p ps IH]; intros m; simpl; [by rewrite app_nil_r|].
  rewrite IH, Values_Add_total, filter_cons.
  destruct (decide (k = p.1)) as [->|], (decide (p.1 = _)); try done; simpl.
  by rewrite <- app_assoc.
Qed.

Lemma add_pairs_no_empty m ps : no_empty m -> no_empty (add_pairs m ps).
Proof.
  revert m. induction ps as [|p ps IH]; intros m Hm; simpl; [done|].
  apply IH. intros k. unfold Values_Add. rewrite lookup_insert_Some.
  intros [[_ H]|[_ H]]; [by destruct (m !!! p.1)|by apply (Hm k)].
Qed.

Lemma all_pairs_filter values keys k :
  NoDup keys -> (filter (fun p : string * string => p.1 = k) (all_pairs values keys)).*2
    = if decide (k ∈ keys) then values !!! k else [].
Proof.
  induction 1 as [|i keys Hi Hnd IH]; [done|].
  unfold all_pairs in *. rewrite bind_cons, filter_app, fmap_app, IH. clear IH.
  assert (Hf : forall vs : list string, (filter (fun p : string * string => p.1 = k) (pair i <$> vs)).*2
      = if decide (i = k) then vs else []).
  { induction vs as [|v vs IHv]; [by destruct (decide _)|].
    rewrite fmap_cons, filter_cons. simpl. destruct (decide (i = k)); rewrite ?fmap_cons, IHv; done. }
  rewrite Hf. destruct (decide (i = k)) as [->|Hne].
  - rewrite decide_False by done. rewrite decide_True by set_solver. apply app_nil_r.
  - destruct (decide (k ∈ keys)), (decide (k ∈ i :: keys)); set_solver.
Qed.

Lemma add_all_pairs values : add_pairs ∅ (all_pairs values (sorted_keys values)) = drop_empty values.
Proof.
  apply Values_ext; [apply add_pairs_no_empty; by intros k|apply drop_empty_no_empty|].
  intros k. rewrite add_pairs_total, lookup_total_empty, drop_empty_total.
  rewrite all_pairs_filter by auto with atome. simpl.
  destruct (decide (k ∈ sorted_keys values)) as [|Hk]; [done|].
  rewrite elem_of_sorted_keys, not_elem_of_dom in Hk.
  by rewrite lookup_total_alt, Hk.
Qed.

(** ** The first values *)

(** What the signature covers: the first value of each key that has one. *)
Definition first_values (values : Values) : gmap string string := omap head values.

Definition value_pairs (m : gmap string string) : list (string * string) :=
  (fun k => (k, m !!! k)) <$> sort_strings (elements (dom m)).

Lemma first_values_head values k : head (values !!! k) = first_values values !! k.
Proof.
  unfold first_values. rewrite lookup_omap, lookup_total_alt. by destruct (values !! k).
Qed.

Lemma first_pairs_keys values keys :
  first_pairs values keys =
  (fun k => (k, first_values values !!! k)) <$> filter (fun k => is_Some (first_values values !! k)) keys.
Proof.
  unfold first_pairs. induction keys as [|k keys IH]; [done|].
  csimpl. rewrite filter_cons, IH, first_values_head. clear IH.
  destruct (first_values values !! k) as [v|] eqn:E; csimpl.
  - by rewrite lookup_total_alt, E.
  - done.
Qed.

Lemma first_pairs_values values :
  first_pairs values (sorted_keys values) = value_pairs (first_values values).
Proof.
  rewrite first_pairs_keys. unfold value_pairs. f_equal.
  apply (StronglySorted_unique String.le).
  - apply StronglySorted_filter, sort_strings_sorted.
  - apply sort_strings_sorted.
  - apply NoDup_Permutation.
    + apply NoDup_filter, NoDup_sorted_keys.
    + rewrite sort_strings_perm. apply NoDup_elements.
    + intros k. rewrite list_elem_of_filter, elem_of_sorted_keys, sort_strings_perm,
        elem_of_elements, !elem_of_dom.
      unfold first_values. rewrite lookup_omap.
      destruct (values !! k); simpl; split; [naive_solver..|by intros [? ?]].
Qed.

Lemma value_pairs_inj m1 m2 : value_pairs m1 = value_pairs m2 -> m1 = m2.
Proof.
  intros H. assert (Hm : forall m, m = list_to_map (value_pairs m)); [|by rewrite (Hm m1), H, <- Hm].
  intros m. apply map_eq. intros k. unfold value_pairs.
  destruct (m !! k) as [v|] eqn:E.
  - symmetry. apply elem_of_list_to_map_1.
    + rewrite <- list_fmap_compose. simpl. rewrite list_fmap_id, sort_strings_perm.
      apply NoDup_elements.
    + apply list_elem_of_fmap. exists k. rewrite lookup_total_alt, E. split; [done|].
      rewrite sort_strings_perm, elem_of_elements. by apply elem_of_dom.
  - symmetry. apply not_elem_of_list_to_map_1.
    rewrite <- list_fmap_compose. simpl. rewrite list_fmap_id, sort_strings_perm, elem_of_elements.
    by apply not_elem_of_dom.
Qed.

Lemma CanonicalQueryFirstValue_value_pairs values :
  CanonicalQueryFirstValue values = encode_pairs (value_pairs (first_values values)).
Proof. by rewrite FirstValue_encode, first_pairs_values. Qed.

Lemma first_values_drop_empty values : first_values (drop_empty values) = first_values values.
Proof.
  apply map_eq. intros k. by rewrite <- !first_values_head, drop_empty_total.
Qed.

(** ** The strict form *)

Lemma CanonicalQuery_loop_spec values keys st :
  StronglySorted String.le keys ->
  match CanonicalQuery_loop values keys st with
  | Ok s => (forall k, k ∈ keys -> (length (values !!! k) <= 1)%nat) /\
            s = FirstValue_loop values keys st /\ s = Wire_loop values keys st
  | Err e => mv_Key e ∈ keys /\ (1 < length (values !!! mv_Key e))%nat /\
             mv_Count e = Z.of_nat (length (values !!! mv_Key e)) /\
             forall k, k ∈ keys -> (1 < length (values !!! k))%nat -> String.le (mv_Key e) k
  end.
Proof.
  revert st. induction keys as [|k keys IH]; intros st Hs; [simpl; set_solver|].
  apply StronglySorted_cons in Hs as [Hk Hs]. rewrite Forall_forall in Hk. simpl.
  assert (Hle : forall st, (length (values !!! k) <= 1)%nat ->
    match CanonicalQuery_loop values keys st with
    | Ok s => (forall i, i ∈ k :: keys -> (length (values !!! i) <= 1)%nat) /\
              s = FirstValue_loop values keys st /\ s = Wire_loop values keys st
    | Err e => mv_Key e ∈ k :: keys /\ (1 < length (values !!! mv_Key e))%nat /\
               mv_Count e = Z.of_nat (length (values !!! mv_Key e)) /\
               forall i, i ∈ k :: keys -> (1 < length (values !!! i))%nat -> String.le (mv_Key e) i
    end).
  { intros st' Hlen. specialize (IH st' Hs).
    destruct (CanonicalQuery_loop _ _ _); setoid_rewrite elem_of_cons.
    - destruct IH as (H & ?). split; [|done]. intros i [->|]; auto.
    - destruct IH as (? & ? & ? & H). repeat split; auto. intros i [->|]; [lia|auto]. }
  destruct (values !!! k) as [|v [|v' vs]] eqn:E; [apply (Hle st); simpl; lia|apply Hle; simpl; lia|].
  simpl. rewrite E. repeat split; [set_solver|simpl; lia|].
  intros i [->|Hi]%elem_of_cons _; [done|auto].
Qed.

Lemma CanonicalQuery_unfold order values :
  order ≡ₚ range_keys values ->
  CanonicalQuery_of order values = CanonicalQuery_loop values (sorted_keys values) ("", true).
Proof.
  intros H. unfold CanonicalQuery_of. rewrite (sort_strings_canonical _ _ H).
  case_bool_decide; [by subst|done].
Qed.

Lemma ParseQuery_wire values : ParseQuery (EncodeWireQueryRFC3986 values) = (drop_empty values, true).
Proof. by rewrite Wire_encode, ParseQuery_encode, add_all_pairs. Qed.

Lemma gateway_canonical values :
  CanonicalQueryFirstValue (ParseQuery (EncodeWireQueryRFC3986 values)).1 = CanonicalQueryFirstValue values.
Proof.
  rewrite ParseQuery_wire. cbn [fst].
  by rewrite !CanonicalQueryFirstValue_value_pairs, first_values_drop_empty.
Qed.

(** * Properties *)

(** C32.  The gateway contract of signed GET requests.  For every query, whatever
    bytes occur in its keys and values: a receiver that parses the wire query with
    Go's [url.ParseQuery] gets no error and exactly the values the caller supplied
    (keys without values excepted), and the canonical string it recomputes from
    them for verification is the one the client signed. *)
Theorem wire_roundtrip values :
  ParseQuery (EncodeWireQueryRFC3986 values) = (drop_empty values, true) /\
  CanonicalQueryFirstValue (ParseQuery (EncodeWireQueryRFC3986 values)).1
    = CanonicalQueryFirstValue values.
Proof.
  split; [apply ParseQuery_wire|apply gateway_canonical].
Qed.

Lemma canonical_eq v1 v2 :
  CanonicalQueryFirstValue v1 = CanonicalQueryFirstValue v2 <-> first_values v1 = first_values v2.
Proof.
  rewrite !CanonicalQueryFirstValue_value_pairs. split.
  - intros H%encode_pairs_inj. by apply value_pairs_inj.
  - by intros ->.
Qed.

(** The signed canonical string binds the query: two queries have the same
    canonical string exactly when they agree on the first value of every key, so
    no byte of a key or of a first value can be moved across a delimiter. *)
Theorem canonical_binds_first_values v1 v2 :
  CanonicalQueryFirstValue v1 = CanonicalQueryFirstValue v2 <->
  first_values v1 = first_values v2.
Proof. apply canonical_eq. Qed.

(** The strict [CanonicalQuery], in whatever order the map is enumerated: it
    fails exactly when some key has several values, with the lexicographically
    least such key and its count, and otherwise its result is both the first-value
    canonical form and the wire form. *)
Theorem CanonicalQuery_spec values order :
  order ≡ₚ range_keys values ->
  CanonicalQuery_of order values = CanonicalQuery values /\
  match CanonicalQuery values with
  | Ok s => (forall k, (length (values !!! k) <= 1)%nat) /\
            s = CanonicalQueryFirstValue values /\ s = EncodeWireQueryRFC3986 values
  | Err e => (1 < length (values !!! mv_Key e))%nat /\
             mv_Count e = Z.of_nat (length (values !!! mv_Key e)) /\
             forall k, (1 < length (values !!! k))%nat -> String.le (mv_Key e) k
  end.
Proof.
  intros Ho. unfold CanonicalQuery. rewrite (CanonicalQuery_unfold _ _ Ho), CanonicalQuery_unfold by done.
  split; [done|].
  pose proof (CanonicalQuery_loop_spec values (sorted_keys values) ("", true)
                (sort_strings_sorted _)) as H.
  assert (Hin : forall k, k ∈ sorted_keys values \/ values !!! k = []).
  { intros k. rewrite elem_of_sorted_keys, elem_of_dom, lookup_total_alt.
    destruct (values !! k); [left; eauto|by right]. }
  rewrite FirstValue_encode, Wire_encode. rewrite <- !write_pairs_encode.
  rewrite <- FirstValue_loop_pairs, <- Wire_loop_pairs.
  destruct (CanonicalQuery_loop _ _ _).
  - destruct H as (H & Hs). split; [|done]. intros k.
    destruct (Hin k) as [| ->]; [auto|simpl; lia].
  - destruct H as (_ & ? & ? & H). repeat split; auto. intros k Hk.
    destruct (Hin k) as [|E]; [auto|]. rewrite E in Hk. simpl in Hk. lia.
Qed.

Definition multi : Values := {[ "b" := ["1"; "2"]; "a" := ["x y"] ]}.

Lemma CanonicalQuery_spec_witness :
  ["b"; "a"] ≡ₚ range_keys multi /\
  CanonicalQuery_of ["b"; "a"] multi = Err (mkMultiValueQueryError "b" 2).
Proof.
  assert (H : ["b"; "a"] ≡ₚ range_keys multi) by (vm_compute; reflexivity || apply Permutation_swap).
  split; [exact H|]. destruct (CanonicalQuery_spec multi ["b"; "a"] H) as [-> _].
  vm_compute. reflexivity.
Defined.

(** [rfc3986Escape] writes only unreserved characters and ["%"], and Go's
    [url.QueryUnescape] undoes it on every byte string. *)
Theorem rfc3986Escape_spec s :
  QueryUnescape (rfc3986Escape s) = Some s /\
  str_forall (fun c => isUnreserved c || bool_decide (c = "%"%char)) (rfc3986Escape s) = true.
Proof.
  split; [apply QueryUnescape_escape|]. rewrite rfc3986Escape_bytes. apply escape_bytes_chars.
Qed.
