(* ===== verification/GoCrypto.v ===== *)
(** * GoCrypto: Go's [encoding/base64], [encoding/hex], [crypto/sha256],
    [crypto/hmac], and the interfaces of [crypto/rsa] and [crypto/aes].

    The encodings and the hash are executable definitions of the standards the Go
    packages implement (RFC 4648, FIPS 180-4, RFC 2104), so that what the SDK builds
    on them can be evaluated.  RSA and AES are interfaces: a class of operations and
    a class of the laws their documentation states. *)
From S2P Require Import Prelude GoStd Errors.

Abbreviation chars := String.list_ascii_of_string.
Abbreviation of_chars := String.string_of_list_ascii.

Definition byte_lit (z : Z) : ascii := ascii_of_nat (Z.to_nat (z mod 256)).

(** ** [encoding/hex] *)

Definition hextable : string := "0123456789abcdef".

(** [hex.EncodeToString] *)
Fixpoint hex_encode (s : string) : string :=
  match s with
  | EmptyString => EmptyString
  | String c s' =>
      String (str_index hextable (Z.shiftr (byte_of c) 4))
        (String (str_index hextable (Z.land (byte_of c) 15)) (hex_encode s'))
  end.

(** ** [encoding/base64] *)

Definition encodeStd : string := "ABCDEFGHIJKLMNOPQRSTUVWXYZabcdefghijklmnopqrstuvwxyz0123456789+/".

Definition b64_char (n : Z) : ascii := str_index encodeStd n.

(** [pad] is [StdPadding] for [StdEncoding] and absent for [RawStdEncoding]. *)
Fixpoint b64_groups (pad : list ascii) (l : list ascii) : list ascii :=
  match l with
  | [] => []
  | [a] =>
      let v := Z.shiftl (byte_of a) 16 in
      [b64_char (Z.land (Z.shiftr v 18) 63); b64_char (Z.land (Z.shiftr v 12) 63)] ++ pad ++ pad
  | [a; b] =>
      let v := Z.lor (Z.shiftl (byte_of a) 16) (Z.shiftl (byte_of b) 8) in
      [b64_char (Z.land (Z.shiftr v 18) 63); b64_char (Z.land (Z.shiftr v 12) 63);
       b64_char (Z.land (Z.shiftr v 6) 63)] ++ pad
  | a :: b :: c :: l' =>
      let v := Z.lor (Z.lor (Z.shiftl (byte_of a) 16) (Z.shiftl (byte_of b) 8)) (byte_of c) in
      b64_char (Z.land (Z.shiftr v 18) 63) :: b64_char (Z.land (Z.shiftr v 12) 63)
        :: b64_char (Z.land (Z.shiftr v 6) 63) :: b64_char (Z.land v 63) :: b64_groups pad l'
  end.

(** [base64.StdEncoding.EncodeToString] and [base64.RawStdEncoding.EncodeToString] *)
Definition b64_encode (s : string) : string := of_chars (b64_groups ["="%char] (chars s)).
Definition b64_raw_encode (s : string) : string := of_chars (b64_groups [] (chars s)).

Definition b64_index (c : ascii) : option Z :=
  if byte_between "A" c "Z" then Some (byte_of c - byte_of "A")
  else if byte_between "a" c "z" then Some (byte_of c - byte_of "a" + 26)
  else if byte_between "0" c "9" then Some (byte_of c - byte_of "0" + 52)
  else if bool_decide (c = "+"%char) then Some 62
  else if bool_decide (c = "/"%char) then Some 63
  else None.

Definition is_pad (c : ascii) : bool := bool_decide (c = "="%char).

(** Quanta of four characters; the last may be padded.  The decoder is not in
    [Strict] mode: the unused low bits of a padded quantum are ignored. *)
Fixpoint b64_quanta (l : list ascii) : option (list ascii) :=
  match l with
  | [] => Some []
  | a :: b :: c :: d :: l' =>
      match b64_index a, b64_index b with
      | Some a, Some b =>
          if is_pad c then
            if is_pad d && bool_decide (l' = [])
            then Some [byte_lit (Z.lor (Z.shiftl a 2) (Z.shiftr b 4))] else None
          else match b64_index c with
          | None => None
          | Some c =>
              let o1 := byte_lit (Z.lor (Z.shiftl a 2) (Z.shiftr b 4)) in
              let o2 := byte_lit (Z.lor (Z.shiftl b 4) (Z.shiftr c 2)) in
              if is_pad d then if bool_decide (l' = []) then Some [o1; o2] else None
              else match b64_index d, b64_quanta l' with
                   | Some d, Some r => Some (o1 :: o2 :: byte_lit (Z.lor (Z.shiftl c 6) d) :: r)
                   | _, _ => None
                   end
          end
      | _, _ => None
      end
  | _ => None
  end.

Definition is_newline (c : ascii) : bool := bool_decide (c = "013"%char) || bool_decide (c = "010"%char).

(** [base64.StdEncoding.DecodeString]: carriage returns and line feeds are skipped. *)
Definition b64_decode (s : string) : option string :=
  of_chars <$> b64_quanta (List.filter (fun c => negb (is_newline c)) (chars s)).

Definition CorruptInputError : error := EStd "base64.CorruptInputError".

(** ** [crypto/sha256] *)

Definition w32 (z : Z) : Z := z mod 2 ^ 32.
Definition rotr (n x : Z) : Z := Z.lor (Z.shiftr x n) (w32 (Z.shiftl x (32 - n))).

(** The round constants: the first 32 fractional bits of the cube roots of the first
    64 primes; the initial state: those of the square roots of the first 8. *)
Definition sha256_primes : list Z :=
  map Z.of_nat (List.filter (fun n => forallb (fun d => negb (n mod d =? 0)%nat) (seq 2 (n - 2))) (seq 2 310)).

(** The integer cube root, bit by bit from [2^bits] down. *)
Fixpoint cube_root (bits : nat) (acc z : Z) : Z :=
  let acc' := acc + 2 ^ Z.of_nat bits in
  let acc := if acc' ^ 3 <=? z then acc' else acc in
  match bits with
  | O => acc
  | S bits => cube_root bits acc z
  end.

Definition sha256_K : list Z :=
  Eval vm_compute in map (fun p => cube_root 36 0 (Z.shiftl p 96) mod 2 ^ 32) sha256_primes.

Definition sha256_H0 : list Z :=
  Eval vm_compute in map (fun p => Z.sqrt (Z.shiftl p 64) mod 2 ^ 32) (take 8 sha256_primes).

(** Message schedule, newest word first. *)
Definition sha256_next (ws : list Z) : list Z :=
  let s0 x := Z.lxor (Z.lxor (rotr 7 x) (rotr 18 x)) (Z.shiftr x 3) in
  let s1 x := Z.lxor (Z.lxor (rotr 17 x) (rotr 19 x)) (Z.shiftr x 10) in
  w32 (s1 (nth 1 ws 0) + nth 6 ws 0 + s0 (nth 14 ws 0) + nth 15 ws 0) :: ws.

Definition sha256_schedule (block : list Z) : list Z :=
  rev (Nat.iter 48 sha256_next (rev block)).

Definition sha256_round (h : list Z) (kw : Z * Z) : list Z :=
  match h with
  | [a; b; c; d; e; f; g; h] =>
      let S1 := Z.lxor (Z.lxor (rotr 6 e) (rotr 11 e)) (rotr 25 e) in
      let ch := Z.lxor (Z.land e f) (Z.land (Z.lxor e (2 ^ 32 - 1)) g) in
      let t1 := h + S1 + ch + kw.1 + kw.2 in
      let S0 := Z.lxor (Z.lxor (rotr 2 a) (rotr 13 a)) (rotr 22 a) in
      let maj := Z.lxor (Z.lxor (Z.land a b) (Z.land a c)) (Z.land b c) in
      [w32 (t1 + (S0 + maj)); a; b; c; w32 (d + t1); e; f; g]
  | _ => h
  end.

Definition sha256_block (h : list Z) (block : list Z) : list Z :=
  zip_with (fun x y => w32 (x + y)) h
    (fold_left sha256_round (combine sha256_K (sha256_schedule block)) h).

Definition be_bytes (n : nat) (z : Z) : list Z :=
  map (fun i => (Z.shiftr z (8 * Z.of_nat i)) mod 256) (rev (seq 0 n)).

Fixpoint be_words (l : list Z) : list Z :=
  match l with
  | a :: b :: c :: d :: l' => (((a * 256 + b) * 256 + c) * 256 + d) :: be_words l'
  | _ => []
  end.

Definition sha256_pad (msg : list Z) : list Z :=
  let n := Z.of_nat (length msg) in
  msg ++ [0x80] ++ repeat 0 (Z.to_nat ((55 - n) mod 64)) ++ be_bytes 8 (8 * n).

(** 16 words per block; [n] bounds the number of blocks. *)
Fixpoint sha256_blocks (n : nat) (h ws : list Z) : list Z :=
  match n, ws with
  | S n, _ :: _ => sha256_blocks n (sha256_block h (take 16 ws)) (drop 16 ws)
  | _, _ => h
  end.

Definition sha256 (msg : string) : string :=
  let ws := be_words (sha256_pad (map byte_of (chars msg))) in
  of_chars (map byte_lit (sha256_blocks (length ws) sha256_H0 ws ≫= be_bytes 4)).

(** ** [crypto/hmac] with SHA-256 *)

Definition hmac_key (key : string) : list Z :=
  let k := if 64 <? slen key then sha256 key else key in
  map byte_of (chars k) ++ repeat 0 (64 - String.length k).

Definition xor_pad (x : Z) (k : list Z) : string := of_chars (map (fun b => byte_lit (Z.lxor b x)) k).

Definition hmac_sha256 (key msg : string) : string :=
  let k := hmac_key key in
  sha256 (xor_pad 0x5c k +:+ sha256 (xor_pad 0x36 k +:+ msg)).

Example sha256_abc :
  hex_encode (sha256 "abc") = "ba7816bf8f01cfea414140de5dae2223b00361a396177a9cb410ff61f20015ad".
Proof. vm_compute. reflexivity. Qed.

Example hmac_rfc4231_2 :
  hex_encode (hmac_sha256 "Jefe" "what do ya want for nothing?")
  = "5bdcc146bf60754e6a042426089575c75a003f089d2739839dec58b964ec3843".
Proof. vm_compute. reflexivity. Qed.

Example b64_examples :
  b64_encode "Man!" = "TWFuIQ==" /\ b64_raw_encode "Man!" = "TWFuIQ" /\
  b64_decode "TWFuIQ==" = Some "Man!" /\ b64_decode "TWFuIQ" = None.
Proof. vm_compute. auto. Qed.

(** * Lemmas on the encodings *)

Lemma byte_of_range c : 0 <= byte_of c < 256.
Proof. unfold byte_of. pose proof (nat_ascii_bounded c). lia. Qed.

Lemma byte_lit_byte_of c : byte_lit (byte_of c) = c.
Proof.
  unfold byte_lit. rewrite Z.mod_small by apply byte_of_range.
  unfold byte_of. rewrite Nat2Z.id. apply ascii_nat_embedding.
Qed.

Lemma byte_lit_eq z c : z mod 256 = byte_of c -> byte_lit z = c.
Proof.
  intros H. unfold byte_lit. rewrite H. unfold byte_of. rewrite Nat2Z.id. apply ascii_nat_embedding.
Qed.

(** Disjoint bit fields add up. *)
Lemma lor_shiftl x n y : 0 <= n -> 0 <= y < 2 ^ n -> Z.lor (Z.shiftl x n) y = x * 2 ^ n + y.
Proof.
  intros Hn Hy. rewrite <- Z.shiftl_mul_pow2 by done.
  assert (Hd : Z.land (Z.shiftl x n) y = 0).
  { apply Z.bits_inj'. intros i Hi. rewrite Z.land_spec, Z.shiftl_spec, Z.bits_0 by done.
    destruct (decide (i < n)).
    - by rewrite (Z.testbit_neg_r x) by lia.
    - replace y with (y mod 2 ^ n) by (apply Z.mod_small; lia).
      rewrite Z.mod_pow2_bits_high by lia. apply andb_false_r. }
  rewrite Z.add_nocarry_lxor by done. symmetry. by apply Z.lxor_lor.
Qed.

Lemma land_63 z : Z.land z 63 = z mod 64.
Proof. apply (Z.land_ones z 6). lia. Qed.

Lemma b64_char_spec n :
  0 <= n < 64 ->
  b64_index (b64_char n) = Some n /\ is_pad (b64_char n) = false /\ is_newline (b64_char n) = false.
Proof.
  intros Hn.
  assert (Hall : forallb (fun n => bool_decide (b64_index (b64_char (Z.of_nat n)) = Some (Z.of_nat n))
      && negb (is_pad (b64_char (Z.of_nat n))) && negb (is_newline (b64_char (Z.of_nat n))))
      (seq 0 64) = true) by (vm_compute; reflexivity).
  rewrite forallb_forall in Hall. specialize (Hall (Z.to_nat n)).
  rewrite Z2Nat.id, in_seq in Hall by lia.
  specialize (Hall ltac:(lia)). rewrite !andb_true_iff, !negb_true_iff, bool_decide_eq_true in Hall.
  naive_solver.
Qed.

(** The three packed bytes as a number. *)
Lemma quantum_value a b c :
  Z.lor (Z.lor (Z.shiftl (byte_of a) 16) (Z.shiftl (byte_of b) 8)) (byte_of c)
  = byte_of a * 65536 + byte_of b * 256 + byte_of c.
Proof.
  pose proof (byte_of_range a). pose proof (byte_of_range b). pose proof (byte_of_range c).
  rewrite (lor_shiftl _ 16) by (rewrite ?Z.shiftl_mul_pow2 by lia; lia).
  rewrite Z.shiftl_mul_pow2 by lia.
  replace (byte_of a * 2 ^ 16 + byte_of b * 2 ^ 8) with (Z.shiftl (byte_of a * 256 + byte_of b) 8)
    by (rewrite Z.shiftl_mul_pow2; lia).
  rewrite lor_shiftl; lia.
Qed.

(** The sextets of a 24-bit value and the bytes the decoder rebuilds from them. *)
Lemma sextets_bytes v :
  0 <= v < 2 ^ 24 ->
  let s1 := Z.land (Z.shiftr v 18) 63 in
  let s2 := Z.land (Z.shiftr v 12) 63 in
  let s3 := Z.land (Z.shiftr v 6) 63 in
  let s4 := Z.land v 63 in
  (0 <= s1 < 64 /\ 0 <= s2 < 64 /\ 0 <= s3 < 64 /\ 0 <= s4 < 64) /\
  Z.lor (Z.shiftl s1 2) (Z.shiftr s2 4) mod 256 = v / 65536 /\
  Z.lor (Z.shiftl s2 4) (Z.shiftr s3 2) mod 256 = v / 256 mod 256 /\
  Z.lor (Z.shiftl s3 6) s4 mod 256 = v mod 256.
Proof.
  intros Hv s1 s2 s3 s4. unfold s1, s2, s3, s4. rewrite !land_63, !Z.shiftr_div_pow2 by lia.
  repeat rewrite lor_shiftl by (Z.div_mod_to_equations; lia).
  Z.div_mod_to_equations; lia.
Qed.

Lemma b64_quanta_groups l : b64_quanta (b64_groups ["="%char] l) = Some l.
Proof.
  remember (length l) as n eqn:Hn. revert l Hn.
  induction n as [n IH] using lt_wf_ind. intros l ->.
  destruct l as [|a [|b [|c l]]]; [done| | |].
  - pose proof (byte_of_range a) as Ha.
    destruct (sextets_bytes (Z.shiftl (byte_of a) 16)) as ((H1 & H2 & _) & E1 & _);
      [rewrite Z.shiftl_mul_pow2 by lia; lia|].
    cbn [b64_groups app]. cbn [b64_quanta].
    destruct (b64_char_spec _ H1) as (-> & _), (b64_char_spec _ H2) as (-> & _). cbn.
    do 2 f_equal. apply byte_lit_eq. rewrite E1, Z.shiftl_mul_pow2 by lia. apply Z.div_mul. lia.
  - pose proof (byte_of_range a) as Ha. pose proof (byte_of_range b) as Hb.
    assert (Hv : Z.lor (Z.shiftl (byte_of a) 16) (Z.shiftl (byte_of b) 8) = byte_of a * 65536 + byte_of b * 256).
    { rewrite lor_shiftl by (rewrite ?Z.shiftl_mul_pow2 by lia; lia). rewrite Z.shiftl_mul_pow2 by lia. lia. }
    cbn [b64_groups app]. cbv zeta. rewrite Hv.
    destruct (sextets_bytes (byte_of a * 65536 + byte_of b * 256)) as ((H1 & H2 & H3 & _) & E1 & E2 & _); [lia|].
    cbn [b64_quanta].
    destruct (b64_char_spec _ H1) as (-> & _), (b64_char_spec _ H2) as (-> & _),
      (b64_char_spec _ H3) as (-> & -> & _). cbn.
    do 2 f_equal; [|f_equal]; apply byte_lit_eq; [rewrite E1|rewrite E2]; Z.div_mod_to_equations; lia.
  - pose proof (byte_of_range a) as Ha. pose proof (byte_of_range b) as Hb. pose proof (byte_of_range c) as Hc.
    cbn [b64_groups app]. cbv zeta. rewrite quantum_value.
    destruct (sextets_bytes (byte_of a * 65536 + byte_of b * 256 + byte_of c))
      as ((H1 & H2 & H3 & H4) & E1 & E2 & E3); [lia|].
    cbn [b64_quanta].
    destruct (b64_char_spec _ H1) as (-> & _), (b64_char_spec _ H2) as (-> & _),
      (b64_char_spec _ H3) as (-> & -> & _), (b64_char_spec _ H4) as (-> & -> & _).
    rewrite (IH (length l)); [|simpl; lia|done].
    do 2 f_equal; [|f_equal; [|f_equal]]; apply byte_lit_eq; [rewrite E1|rewrite E2|rewrite E3];
      Z.div_mod_to_equations; lia.
Qed.

Lemma chars_of_chars l : chars (of_chars l) = l.
Proof. apply String.list_ascii_of_string_of_list_ascii. Qed.
Lemma of_chars_chars s : of_chars (chars s) = s.
Proof. apply String.string_of_list_ascii_of_string. Qed.
Lemma of_chars_app l1 l2 : of_chars (l1 ++ l2) = of_chars l1 +:+ of_chars l2.
Proof. induction l1 as [|c l1 IH]; [done|]. cbn. by rewrite <- IH. Qed.
#[export] Hint Rewrite chars_of_chars of_chars_chars : atome.

(** The characters an encoding is made of: of the alphabet or padding. *)
Definition b64_alphabet (c : ascii) : bool :=
  match b64_index c with Some _ => true | None => is_pad c end.

Lemma b64_char_alphabet n : 0 <= n < 64 -> b64_alphabet (b64_char n) = true.
Proof. intros H. unfold b64_alphabet. by destruct (b64_char_spec n H) as [-> _]. Qed.

Lemma b64_groups_alphabet pad l :
  Forall (fun c => b64_alphabet c = true) pad ->
  Forall (fun c => b64_alphabet c = true) (b64_groups pad l).
Proof.
  intros Hp. remember (length l) as n eqn:Hn. revert l Hn.
  induction n as [n IH] using lt_wf_ind. intros l ->.
  assert (Hc : forall z, b64_alphabet (b64_char (Z.land z 63)) = true).
  { intros z. apply b64_char_alphabet. rewrite land_63. apply Z.mod_pos_bound. lia. }
  destruct l as [|a [|b [|c l]]]; cbn [b64_groups app]; cbv zeta.
  - constructor.
  - repeat constructor; auto. by apply Forall_app.
  - repeat constructor; auto.
  - repeat constructor; auto. apply (IH (length l)); simpl; [lia|done].
Qed.

Lemma alphabet_not_newline c : b64_alphabet c = true -> is_newline c = false.
Proof.
  intros H. destruct (is_newline c) eqn:E; [|done]. unfold is_newline in E.
  apply orb_true_iff in E as [E|E]; apply bool_decide_eq_true in E; subst c; discriminate.
Qed.

Lemma filter_all {A} (f : A -> bool) l : Forall (fun x => f x = true) l -> List.filter f l = l.
Proof. induction 1 as [|x l Hx _ IH]; simpl; [done|]. by rewrite Hx, IH. Qed.

Lemma b64_decode_encode s : b64_decode (b64_encode s) = Some s.
Proof.
  unfold b64_decode, b64_encode. rewrite chars_of_chars, filter_all.
  - rewrite b64_quanta_groups. simpl. by rewrite of_chars_chars.
  - eapply Forall_impl; [apply b64_groups_alphabet; by repeat constructor|].
    intros c Hc. by rewrite (alphabet_not_newline c Hc).
Qed.

Lemma b64_encode_inj s t : b64_encode s = b64_encode t -> s = t.
Proof. intros H. apply (f_equal b64_decode) in H. rewrite !b64_decode_encode in H. congruence. Qed.

(** The unpadded encoding is injective too: its length tells the padding. *)
Definition pads (n : nat) : list ascii :=
  match n mod 4 with 2 => ["="%char; "="%char] | 3 => ["="%char] | _ => [] end%nat.

Lemma b64_groups_pads l : b64_groups ["="%char] l = b64_groups [] l ++ pads (length (b64_groups [] l)).
Proof.
  remember (length l) as n eqn:Hn. revert l Hn.
  induction n as [n IH] using lt_wf_ind. intros l ->.
  destruct l as [|a [|b [|c l]]]; [done..|].
  cbn [b64_groups]. cbv zeta. rewrite (IH (length l)) by (simpl; done || lia).
  cbn [app]. do 4 f_equal. unfold pads. cbn [length].
  replace (S (S (S (S (length (b64_groups [] l)))))) with (length (b64_groups [] l) + 1 * 4)%nat by lia.
  by rewrite Nat.Div0.mod_add.
Qed.

Lemma b64_raw_encode_inj s t : b64_raw_encode s = b64_raw_encode t -> s = t.
Proof.
  unfold b64_raw_encode. intros H. apply (f_equal chars) in H. rewrite !chars_of_chars in H.
  apply b64_encode_inj. unfold b64_encode. by rewrite !b64_groups_pads, H.
Qed.

(** * Interfaces of [crypto/rsa] and [crypto/aes] *)

(** Keys with a bit length, and the PKCS #1 v1.5 operations.  The [nat] argument
    stands for the randomness drawn from [rand.Reader]. *)
Class RSA := {
  PublicKey : Type;
  PrivateKey : Type;
  Public : PrivateKey -> PublicKey;
  BitLen : PublicKey -> Z;         (* key.N.BitLen(), 0 for a nil modulus *)
  SignPKCS1v15 : nat -> PrivateKey -> string -> res string;       (* digest *)
  VerifyPKCS1v15 : PublicKey -> string -> string -> option error; (* digest, signature *)
  EncryptPKCS1v15 : nat -> PublicKey -> string -> res string;
  DecryptPKCS1v15 : PrivateKey -> string -> res string;
}.

(** Documented behaviour: signatures and ciphertexts are as long as the
    modulus, so not empty; a signature verifies under
    the public half of the key that made it; a message encrypted to a key is decrypted
    by its private half. *)
Class RSALaws (R : RSA) : Prop := {
  rsa_sign_verify r k d s : SignPKCS1v15 r k d = Ok s -> VerifyPKCS1v15 (Public k) d s = None;
  rsa_sign_nonempty r k d s : SignPKCS1v15 r k d = Ok s -> s <> "";
  rsa_encrypt_nonempty r p m c : EncryptPKCS1v15 r p m = Ok c -> c <> "";
  rsa_encrypt_decrypt r k m c : EncryptPKCS1v15 r (Public k) m = Ok c -> DecryptPKCS1v15 k c = Ok m;
}.

(** [aes.NewCipher] with a 32-byte key, [cipher.Block.Encrypt] and [Decrypt] on one
    16-byte block. *)
Class AES := {
  aes_encrypt : string -> list ascii -> list ascii;
  aes_decrypt : string -> list ascii -> list ascii;
}.

Class AESLaws (A : AES) : Prop := {
  aes_encrypt_length k b : length b = 16%nat -> length (aes_encrypt k b) = 16%nat;
  aes_decrypt_encrypt k b : length b = 16%nat -> aes_decrypt k (aes_encrypt k b) = b;
}.

(** Concrete instances, for evaluating the model: a key is a number and its bit
    length, a signature the key number and the digest, a ciphertext a mark and
    the message with its bytes complemented. *)
Definition flip (c : ascii) : ascii := byte_lit (255 - byte_of c).

Lemma flip_flip c : flip (flip c) = c.
Proof.
  apply (bool_decide_eq_true (flip (flip c) = c)). revert c. apply ascii_check.
  vm_compute. reflexivity.
Qed.

Lemma map_flip_flip l : map flip (map flip l) = l.
Proof. rewrite map_map. rewrite <- (map_id l) at 2. apply map_ext, flip_flip. Qed.

Definition toy_RSA : RSA := {|
  PublicKey := nat * Z;
  PrivateKey := nat * Z;
  Public k := k;
  BitLen k := k.2;
  SignPKCS1v15 _ k d := Ok (itoa (Z.of_nat k.1) +:+ "|" +:+ d);
  VerifyPKCS1v15 k d s :=
    if bool_decide (s = itoa (Z.of_nat k.1) +:+ "|" +:+ d) then None else Some (EStd "rsa.ErrVerification");
  EncryptPKCS1v15 _ k m := Ok (String "#" (of_chars (map flip (chars m))));
  DecryptPKCS1v15 k c := Ok (of_chars (map flip (tail (chars c))));
|}.

Lemma toy_RSALaws : RSALaws toy_RSA.
Proof.
  split; simpl.
  - intros _ k d s [= <-]. by rewrite bool_decide_true.
  - intros _ k d s [= <-]. by destruct (itoa (Z.of_nat k.1)).
  - by intros _ p m c [= <-].
  - intros _ k m c [= <-]. simpl. by rewrite chars_of_chars, map_flip_flip, of_chars_chars.
Qed.

Definition toy_AES : AES := {|
  aes_encrypt _ b := map flip b;
  aes_decrypt _ b := map flip b;
|}.

Lemma toy_AESLaws : AESLaws toy_AES.
Proof.
  split; simpl; intros k b Hb.
  - by rewrite length_map.
  - apply map_flip_flip.
Qed.

(** ** Lengths *)

Lemma sha256_round_length h kw : length h = 8%nat -> length (sha256_round h kw) = 8%nat.
Proof. intros H. do 9 (destruct h as [|? h]; try done). Qed.

Lemma sha256_block_length h block : length h = 8%nat -> length (sha256_block h block) = 8%nat.
Proof.
  intros H. unfold sha256_block. rewrite length_zip_with.
  assert (Hf : forall l h, length h = 8%nat -> length (fold_left sha256_round l h) = 8%nat).
  { induction l as [|kw l IH]; intros h' Hh; [done|]. apply IH. by apply sha256_round_length. }
  rewrite H, Hf by done. done.
Qed.

Lemma sha256_blocks_length n h ws : length h = 8%nat -> length (sha256_blocks n h ws) = 8%nat.
Proof.
  revert h ws. induction n as [|n IH]; intros h ws Hh; [done|]. simpl.
  destruct ws; [done|]. apply IH. by apply sha256_block_length.
Qed.

Lemma length_of_chars l : String.length (of_chars l) = length l.
Proof. induction l as [|c l IH]; simpl; congruence. Qed.

Lemma be_bytes_4_bind_length l : length (l ≫= be_bytes 4) = (4 * length l)%nat.
Proof.
  induction l as [|x l IH]; [done|]. rewrite bind_cons, length_app, IH. simpl. lia.
Qed.

Lemma sha256_length m : String.length (sha256 m) = 32%nat.
Proof.
  unfold sha256. rewrite length_of_chars, length_map, be_bytes_4_bind_length, sha256_blocks_length; done.
Qed.

Lemma hex_encode_length s : String.length (hex_encode s) = (2 * String.length s)%nat.
Proof. induction s as [|c s IH]; simpl; [done|]. rewrite IH. lia. Qed.

Lemma hmac_sha256_length k m : String.length (hmac_sha256 k m) = 32%nat.
Proof. apply sha256_length. Qed.

#[export] Hint Rewrite sha256_length hex_encode_length hmac_sha256_length : atome.

(** Evaluated by [vm_compute] only. *)
#[global] Opaque sha256 hmac_sha256 hex_encode b64_encode b64_decode b64_raw_encode.
