(* ===== verification/Sign.v ===== *)
(** * Sign: [atomefin/sign/signer.go], [verifier.go], [hmac.go] and [pem.go].

    The two signature schemes behind the [Signer] and [Verifier] interfaces (RSA2:
    RSA PKCS #1 v1.5 over SHA-256, base64; OVO.HMAC: hex HMAC-SHA-256) and the PEM
    loaders.  A context enters only through [ctx.Err()], passed as [ctx_err]. *)
From S2P Require Import Prelude GoStd Errors GoCrypto.

Definition MinKeyBits : Z := 2048.

(** [type Signer interface]; the first argument of [Sign] is the randomness. *)
Record Signer := mkSigner {
  Sign : nat -> option error -> string -> res string;
  KeyID : string;
}.

(** [type Verifier interface] *)
Record Verifier := mkVerifier {
  Verify : option error -> string -> string -> option error;
}.

Section RSA2.
Context `{R : RSA}.

Record rsa2Signer := mkRsa2Signer { s_priv : PrivateKey; s_keyID : string }.
Record rsa2Verifier := mkRsa2Verifier { v_pub : PublicKey }.

(** [type SignerOption func( *rsa2Signer) error]: the option mutates its receiver. *)
Definition SignerOption := rsa2Signer -> res rsa2Signer.
Definition VerifierOption := rsa2Verifier -> res rsa2Verifier.

Definition WithKeyID (id : string) : SignerOption :=
  fun s => Ok (mkRsa2Signer (s_priv s) id).

Fixpoint apply_options {A} (opts : list (A -> res A)) (s : A) : res A :=
  match opts with
  | [] => Ok s
  | opt :: opts => let* s := opt s in apply_options opts s
  end.

Definition errShortKey (bits : Z) : error :=
  EErrorf "%w: modulus %d bits, need >= %d" [AWrap (ESentinel ErrInvalidKey); AInt bits; AInt MinKeyBits].

Definition NewRSA2Signer (priv : option PrivateKey) (opts : list SignerOption) : res rsa2Signer :=
  match priv with
  | None => Err (EErrorf "%w: nil private key" [AWrap (ESentinel ErrInvalidKey)])
  | Some k =>
      if BitLen (Public k) <? MinKeyBits then Err (errShortKey (BitLen (Public k)))
      else apply_options opts (mkRsa2Signer k "")
  end.

Definition rsa2Signer_Sign (s : rsa2Signer) (rnd : nat) (ctx_err : option error) (canonical : string)
    : res string :=
  match ctx_err with
  | Some err => Err err
  | None =>
      let sum := sha256 canonical in
      match SignPKCS1v15 rnd (s_priv s) sum with
      | Err err => Err (EErrorf "sign: rsa sign: %w" [AWrap err])
      | Ok sig => Ok (b64_encode sig)
      end
  end.

Definition rsa2Signer_KeyID (s : rsa2Signer) : string := s_keyID s.

Definition rsa2Signer_iface (s : rsa2Signer) : Signer :=
  mkSigner (rsa2Signer_Sign s) (rsa2Signer_KeyID s).

Definition NewRSA2Verifier (pub : option PublicKey) (opts : list VerifierOption) : res rsa2Verifier :=
  match pub with
  | None => Err (EErrorf "%w: nil public key" [AWrap (ESentinel ErrInvalidKey)])
  | Some k =>
      if BitLen k <? MinKeyBits then Err (errShortKey (BitLen k))
      else apply_options opts (mkRsa2Verifier k)
  end.

Definition rsa2Verifier_Verify (v : rsa2Verifier) (ctx_err : option error)
    (canonical signature : string) : option error :=
  try ctx_err ;;
  reject EErrorf "%w: empty signature" [AWrap (ESentinel ErrSignature)] when is_empty signature ;;
  match b64_decode signature with
  | None => Some (EErrorf "%w: base64 decode: %v" [AWrap (ESentinel ErrSignature); AErr CorruptInputError])
  | Some sig =>
      let sum := sha256 canonical in
      match VerifyPKCS1v15 (v_pub v) sum sig with
      | Some err => Some (EErrorf "%w: %v" [AWrap (ESentinel ErrSignature); AErr err])
      | None => None
      end
  end.

Definition rsa2Verifier_iface (v : rsa2Verifier) : Verifier := mkVerifier (rsa2Verifier_Verify v).
End RSA2.

(** ** OVO.HMAC *)

Definition OVOHMACKey (clientSecret : string) : string := hex_encode (sha256 clientSecret).

Definition OVOHMACCanonical (clientID timeMillis method pathWithQuery body : string) : string :=
  let b64 := b64_raw_encode body in
  clientID +:+ timeMillis +:+ method +:+ " " +:+ pathWithQuery +:+ b64.

Definition ovoHMAC (key canonical : string) : string := hex_encode (hmac_sha256 key canonical).

Record ovoHMACVerifier := mkOvoHMACVerifier { hv_key : string }.
Record ovoHMACSigner := mkOvoHMACSigner { hs_key : string }.

Definition NewOVOHMACVerifier (clientSecret : string) : res ovoHMACVerifier :=
  if is_empty clientSecret then Err (ESentinel ErrHMACKey)
  else Ok (mkOvoHMACVerifier (OVOHMACKey clientSecret)).

(** [subtle.ConstantTimeCompare(x, y)] is 1 iff the slices are equal. *)
Definition ConstantTimeCompare (x y : string) : Z := if bool_decide (x = y) then 1 else 0.

Definition ovoHMACVerifier_Verify (v : ovoHMACVerifier) (ctx_err : option error)
    (canonical signature : string) : option error :=
  try ctx_err ;;
  reject EErrorf "%w: empty signature" [AWrap (ESentinel ErrSignature)] when is_empty signature ;;
  let want := ovoHMAC (hv_key v) canonical in
  reject EErrorf "%w: OVO.HMAC mismatch" [AWrap (ESentinel ErrSignature)]
    when negb (ConstantTimeCompare want signature =? 1) ;;
  None.

Definition NewOVOHMACSigner (clientSecret : string) : res ovoHMACSigner :=
  if is_empty clientSecret then Err (ESentinel ErrHMACKey)
  else Ok (mkOvoHMACSigner (OVOHMACKey clientSecret)).

Definition ovoHMACSigner_Sign (s : ovoHMACSigner) (rnd : nat) (ctx_err : option error)
    (canonical : string) : res string :=
  match ctx_err with
  | Some err => Err err
  | None => Ok (ovoHMAC (hs_key s) canonical)
  end.

Definition ovoHMACSigner_KeyID (s : ovoHMACSigner) : string := "".

Definition ovoHMACSigner_iface (s : ovoHMACSigner) : Signer :=
  mkSigner (ovoHMACSigner_Sign s) (ovoHMACSigner_KeyID s).
Definition ovoHMACVerifier_iface (v : ovoHMACVerifier) : Verifier :=
  mkVerifier (ovoHMACVerifier_Verify v).

(** ** PEM loaders *)

(** [encoding/pem] and [crypto/x509]: a parsed key is RSA, or of another Go type. *)
Record Block := mkBlock { b_Type : string; b_Headers : gmap string string; b_Bytes : string }.

Inductive any_key (K : Type) := RSAKey (k : K) | OtherKey (go_type : string).
Arguments RSAKey {K} k.
Arguments OtherKey {K} go_type.

Class X509 `{R : RSA} := {
  pem_Decode : string -> option Block;
  ParsePKCS1PrivateKey : string -> res PrivateKey;
  ParsePKCS8PrivateKey : string -> res (any_key PrivateKey);
  ParseCertificate_PublicKey : string -> res (any_key PublicKey);
  ParsePKIXPublicKey : string -> res (any_key PublicKey);
  ParsePKCS1PublicKey : string -> res PublicKey;
}.

Section PEM.
Context `{X : X509}.

Definition errPEM (format : string) (args : list (fmt_arg error)) : error :=
  EErrorf format (AWrap (ESentinel ErrPEM) :: args).

(** Both loaders end with the key-size floor. *)
Definition check_bits {K} (bits : Z) (key : K) : res K :=
  if bits <? MinKeyBits then Err (errShortKey bits) else Ok key.

Definition LoadPrivateKeyPEM (data : string) (password : list string) : res PrivateKey :=
  if existsb (fun p => 0 <? slen p) password
  then Err (errPEM "%w: encrypted PEM not yet supported" [])
  else
    match pem_Decode data with
    | None => Err (errPEM "%w: no PEM block found" [])
    | Some block =>
        if bool_decide (is_Some (b_Headers block !! "DEK-Info"))
        then Err (errPEM "%w: encrypted PKCS#1 not supported" [])
        else
          let* key :=
            (if bool_decide (b_Type block = "RSA PRIVATE KEY") then
               match ParsePKCS1PrivateKey (b_Bytes block) with
               | Err err => Err (errPEM "%w: PKCS#1: %v" [AErr err])
               | Ok k => Ok k
               end
             else if bool_decide (b_Type block = "PRIVATE KEY") then
               match ParsePKCS8PrivateKey (b_Bytes block) with
               | Err err => Err (errPEM "%w: PKCS#8: %v" [AErr err])
               | Ok (OtherKey t) => Err (errPEM "%w: PKCS#8 key is not RSA (got %T)" [AStr t])
               | Ok (RSAKey k) => Ok k
               end
             else if bool_decide (b_Type block = "ENCRYPTED PRIVATE KEY") then
               Err (errPEM "%w: encrypted PKCS#8 not supported" [])
             else Err (errPEM "%w: unsupported block type %q" [AStr (b_Type block)])) in
          check_bits (BitLen (Public key)) key
    end.

Definition LoadPublicCertPEM (data : string) : res PublicKey :=
  match pem_Decode data with
  | None => Err (errPEM "%w: no PEM block found" [])
  | Some block =>
      let* key :=
        (if bool_decide (b_Type block = "CERTIFICATE") then
           match ParseCertificate_PublicKey (b_Bytes block) with
           | Err err => Err (errPEM "%w: certificate: %v" [AErr err])
           | Ok (OtherKey t) => Err (errPEM "%w: certificate public key is not RSA (got %T)" [AStr t])
           | Ok (RSAKey k) => Ok k
           end
         else if bool_decide (b_Type block = "PUBLIC KEY") then
           match ParsePKIXPublicKey (b_Bytes block) with
           | Err err => Err (errPEM "%w: PKIX: %v" [AErr err])
           | Ok (OtherKey t) => Err (errPEM "%w: PKIX public key is not RSA (got %T)" [AStr t])
           | Ok (RSAKey k) => Ok k
           end
         else if bool_decide (b_Type block = "RSA PUBLIC KEY") then
           match ParsePKCS1PublicKey (b_Bytes block) with
           | Err err => Err (errPEM "%w: PKCS#1: %v" [AErr err])
           | Ok k => Ok k
           end
         else Err (errPEM "%w: unsupported block type %q" [AStr (b_Type block)])) in
      check_bits (BitLen key) key
  end.
End PEM.

(** * Lemmas *)

Lemma errors_Is_errPEM format args : errors_Is (errPEM format args) ErrPEM = true.
Proof. done. Qed.

Lemma errors_Is_errShortKey bits : errors_Is (errShortKey bits) ErrInvalidKey = true.
Proof. done. Qed.

#[export] Hint Rewrite errors_Is_errPEM errors_Is_errShortKey : atome.

Lemma apply_options_preserve {A} (P : A -> Prop) opts (s s' : A) :
  (forall opt x y, opt ∈ opts -> opt x = Ok y -> P x -> P y) ->
  P s -> apply_options opts s = Ok s' -> P s'.
Proof.
  revert s. induction opts as [|opt opts IH]; intros s Ho Hs; simpl; [congruence|].
  destruct (opt s) as [y|] eqn:E; simpl; [|done]. apply IH.
  - intros o x z Hin. apply Ho. by constructor.
  - eapply Ho; [constructor|done..].
Qed.

Lemma apply_options_key {R : RSA} ids k (s : rsa2Signer) :
  apply_options (map WithKeyID ids) (mkRsa2Signer k "") = Ok s -> s_priv s = k.
Proof.
  intros H. refine (apply_options_preserve (fun s => s_priv s = k) _ _ _ _ _ H); [|reflexivity].
  intros opt x y Hin. apply list_elem_of_fmap in Hin as [id [-> _]]. unfold WithKeyID. intros [= <-] H'. exact H'.
Qed.

Section Facts.
Context {R : RSA}.

Lemma rsa2_verify_None v ctx_err canonical signature :
  rsa2Verifier_Verify v ctx_err canonical signature = None <->
  ctx_err = None /\ signature <> "" /\
  exists sig, b64_decode signature = Some sig /\
              VerifyPKCS1v15 (v_pub v) (sha256 canonical) sig = None.
Proof.
  unfold rsa2Verifier_Verify. rewrite try_None, reject_None, is_empty_false.
  destruct (b64_decode signature) as [sig|]; [|naive_solver].
  destruct (VerifyPKCS1v15 _ _ sig) eqn:E; naive_solver.
Qed.

Lemma rsa2_signed_verifies `{!RSALaws R} s v rnd ctx_err canonical signature :
  v_pub v = Public (s_priv s) ->
  rsa2Signer_Sign s rnd ctx_err canonical = Ok signature ->
  rsa2Verifier_Verify v None canonical signature = None.
Proof.
  intros Hv. unfold rsa2Signer_Sign. destruct ctx_err; [done|].
  destruct (SignPKCS1v15 rnd (s_priv s) _) as [sig|] eqn:E; [|done]. intros [= <-].
  apply rsa2_verify_None. split; [done|]. split.
  - intros H. apply (rsa_sign_nonempty _ _ _ _ E). apply b64_encode_inj. exact H.
  - exists sig. split; [apply b64_decode_encode|]. rewrite Hv. eapply rsa_sign_verify, E.
Qed.
End Facts.

Lemma ovoHMAC_length key canonical : String.length (ovoHMAC key canonical) = 64%nat.
Proof. unfold ovoHMAC. by autorewrite with atome. Qed.

Lemma ovoHMAC_verify_None v ctx_err canonical signature :
  ovoHMACVerifier_Verify v ctx_err canonical signature = None <->
  ctx_err = None /\ signature <> "" /\ signature = ovoHMAC (hv_key v) canonical.
Proof.
  unfold ovoHMACVerifier_Verify, ConstantTimeCompare.
  rewrite try_None, !reject_None, is_empty_false.
  case_bool_decide; simpl; naive_solver.
Qed.

(** The two stages of a loader: parsing fails with [ErrPEM] only, the size floor with
    [ErrInvalidKey]. *)
Definition only_errPEM {K} (m : res K) : Prop :=
  match m with Ok _ => True | Err e => errors_Is e ErrPEM = true end.

Lemma bind_check_bits {K} (m : res K) (bits : K -> Z) :
  only_errPEM m ->
  match (let* key := m in check_bits (bits key) key) with
  | Ok k => MinKeyBits <= bits k
  | Err e => errors_Is e ErrPEM = true \/ errors_Is e ErrInvalidKey = true
  end.
Proof.
  destruct m as [k|e]; simpl; [|by left]. intros _. unfold check_bits.
  destruct (Z.ltb_spec (bits k) MinKeyBits); [by right|lia].
Qed.

Lemma no_password password :
  existsb (fun p => 0 <? slen p) password = false -> Forall (fun p => p = "") password.
Proof.
  intros Ep. apply Forall_forall. intros p Hp. destruct p as [|c p]; [done|]. exfalso.
  apply not_true_iff_false in Ep. apply Ep, existsb_exists. exists (String c p).
  split; [by apply list_elem_of_In|]. apply Z.ltb_lt. simpl. lia.
Qed.

(** * Properties *)

(** RSA2 signatures verify.  A signer built from a private key, whatever key
    ids it is given, and a verifier built from its public half agree: what [Sign]
    returns under a live context, [Verify] accepts for the same bytes, for every
    implementation of RSA that keeps its documented laws. *)
Theorem rsa2_sign_verify `{!RSALaws R} k ids s v rnd canonical signature :
  NewRSA2Signer (Some k) (map WithKeyID ids) = Ok s ->
  NewRSA2Verifier (Some (Public k)) [] = Ok v ->
  rsa2Signer_Sign s rnd None canonical = Ok signature ->
  rsa2Verifier_Verify v None canonical signature = None.
Proof.
  unfold NewRSA2Signer, NewRSA2Verifier. destruct (_ <? _); [done|].
  intros Hs%apply_options_key [= <-]. apply rsa2_signed_verifies. by rewrite Hs.
Qed.

Lemma rsa2_sign_verify_witness :
  exists signature,
    rsa2Signer_Sign (R:=toy_RSA) (@mkRsa2Signer toy_RSA (7%nat, 2048) "k2") 0%nat None "a=b" = Ok signature /\
    rsa2Verifier_Verify (R:=toy_RSA) (@mkRsa2Verifier toy_RSA (7%nat, 2048)) None "a=b" signature = None.
Proof.
  assert (Hs : exists signature,
    rsa2Signer_Sign (R:=toy_RSA) (@mkRsa2Signer toy_RSA (7%nat, 2048) "k2") 0%nat None "a=b" = Ok signature).
  { unfold rsa2Signer_Sign. cbn [SignPKCS1v15 toy_RSA]. eexists. exact eq_refl. }
  destruct Hs as [signature Hs]. exists signature. split; [exact Hs|].
  refine (rsa2_sign_verify (R:=toy_RSA) (RSALaws0:=toy_RSALaws) (7%nat, 2048) ["k1"; "k2"] _ _ 0%nat _ _ _ _ Hs).
  - unfold NewRSA2Signer. cbn [BitLen Public toy_RSA snd]. reflexivity.
  - unfold NewRSA2Verifier. cbn [BitLen Public toy_RSA snd]. reflexivity.
Defined.

(** C38.  What acceptance means and how rejection is reported, for both verifiers: a
    [nil] result holds exactly for a live context and a non-empty signature that
    decodes to an RSA signature of the SHA-256 of these bytes (RSA2), or that equals
    the keyed MAC of these bytes (OVO.HMAC); every other result is the context's own
    error or wraps [ErrSignature]. *)
Theorem verify_spec `{R : RSA} (v : rsa2Verifier) (h : ovoHMACVerifier) ctx_err canonical signature :
  (rsa2Verifier_Verify v ctx_err canonical signature = None <->
   ctx_err = None /\ signature <> "" /\
   exists sig, b64_decode signature = Some sig /\
               VerifyPKCS1v15 (v_pub v) (sha256 canonical) sig = None) /\
  (ovoHMACVerifier_Verify h ctx_err canonical signature = None <->
   ctx_err = None /\ signature <> "" /\
   signature = hex_encode (hmac_sha256 (hv_key h) canonical)) /\
  Forall (fun r : option error => match r with
          | None => True
          | Some e => ctx_err = Some e \/ ctx_err = None /\ errors_Is e ErrSignature = true
          end)
    [rsa2Verifier_Verify v ctx_err canonical signature;
     ovoHMACVerifier_Verify h ctx_err canonical signature].
Proof.
  split; [apply rsa2_verify_None|]. split; [apply ovoHMAC_verify_None|].
  unfold rsa2Verifier_Verify, ovoHMACVerifier_Verify.
  destruct ctx_err as [e|]; [repeat constructor; by left|].
  repeat constructor; go_cases; auto.
Qed.

(** OVO.HMAC: a signer and a verifier constructed from the same non-empty client
    secret agree on every message; both constructors refuse the empty secret with
    [ErrHMACKey]; the MAC key is the hex SHA-256 of the secret. *)
Theorem ovo_sign_verify secret rnd canonical :
  (secret = "" /\ NewOVOHMACSigner secret = Err (ESentinel ErrHMACKey)
     /\ NewOVOHMACVerifier secret = Err (ESentinel ErrHMACKey)) \/
  (secret <> "" /\ exists s v signature,
     NewOVOHMACSigner secret = Ok s /\ NewOVOHMACVerifier secret = Ok v /\
     ovoHMACSigner_Sign s rnd None canonical = Ok signature /\
     signature = hex_encode (hmac_sha256 (hex_encode (sha256 secret)) canonical) /\
     ovoHMACVerifier_Verify v None canonical signature = None).
Proof.
  unfold NewOVOHMACSigner, NewOVOHMACVerifier. destruct (is_empty secret) eqn:E; to_prop; [by left|].
  right. split; [done|]. eexists _, _, _. do 4 (split; [reflexivity|]).
  apply ovoHMAC_verify_None. split; [done|]. split; [|done].
  intros H. pose proof (ovoHMAC_length (OVOHMACKey secret) canonical) as Hl. unfold ovoHMAC in *. simpl in H. by rewrite H in Hl.
Qed.

(** The OVO.HMAC canonical string binds the body: with the other fields fixed,
    different bodies have different canonical strings. *)
Theorem OVOHMACCanonical_body_inj clientID timeMillis method path body1 body2 :
  OVOHMACCanonical clientID timeMillis method path body1
    = OVOHMACCanonical clientID timeMillis method path body2 <-> body1 = body2.
Proof.
  unfold OVOHMACCanonical. split; [|by intros ->]. intros H.
  do 5 apply str_app_inj_l in H. by apply b64_raw_encode_inj.
Qed.

(** C39.  The PEM loaders: whatever the parsers return, a key is handed out only with
    a modulus of at least 2048 bits; the errors wrap [ErrPEM], or [ErrInvalidKey] for
    a short key; a non-empty password is refused before the data is looked at. *)
Theorem pem_loaders_spec `{X : X509} data password :
  match LoadPrivateKeyPEM data password with
  | Ok k => MinKeyBits <= BitLen (Public k) /\ Forall (fun p => p = "") password
  | Err e => errors_Is e ErrPEM = true \/ errors_Is e ErrInvalidKey = true
  end /\
  match LoadPublicCertPEM data with
  | Ok k => MinKeyBits <= BitLen k
  | Err e => errors_Is e ErrPEM = true \/ errors_Is e ErrInvalidKey = true
  end.
Proof.
  split.
  - unfold LoadPrivateKeyPEM. destruct (existsb _ password) eqn:Ep; [by left|].
    destruct (pem_Decode data) as [block|]; [|by left]. case_bool_decide; [by left|].
    match goal with |- context [result_bind ?m _] => set (m' := m) end.
    assert (Hm : only_errPEM m') by (subst m'; unfold only_errPEM; repeat case_match; naive_solver).
    pose proof (bind_check_bits m' (fun k => BitLen (Public k)) Hm) as H'.
    destruct (result_bind _ _); [|done]. split; [done|]. by apply no_password.
  - unfold LoadPublicCertPEM. destruct (pem_Decode data) as [block|]; [|by left].
    apply bind_check_bits. unfold only_errPEM. repeat case_match; naive_solver.
Qed.
