(* ===== verification/Encrypt.v ===== *)
(** * Encrypt: [atomefin/encrypt]: the hybrid envelope of encrypted requests.

    A fresh AES-256 key of 32 letters ([key.go]) encrypts the body in ECB mode with
    PKCS #5 padding ([aes.go]), is wrapped for the peer with RSA PKCS #1 v1.5
    ([rsa.go]) and travels in the [Encrypt] header ([header.go]); [envelope.go]
    composes the four. *)
From S2P Require Import Prelude GoStd Errors GoCrypto.

Definition aesKeyBytes : Z := 32.

(** ** key.go *)

Definition AESKeyAlphabetSize : Z := 26.
Definition aesKeyAlphabetCutoff : Z := AESKeyAlphabetSize * 9.

(** The outcomes of successive one-byte [rand.Read] calls. *)
Definition reads := list (res ascii).

(** The inner loop, for one letter: re-roll while the byte is not below the cutoff.
    [None]: the outcomes given are used up and the loop is still rolling. *)
Fixpoint random_letter (rs : reads) : option (res ascii * reads) :=
  match rs with
  | [] => None
  | Err err :: rs => Some (Err (EErrorf "encrypt: rand.Read: %w" [AWrap err]), rs)
  | Ok one :: rs =>
      if byte_of one <? aesKeyAlphabetCutoff
      then Some (Ok (byte_lit (byte_of "A" + byte_of one mod AESKeyAlphabetSize)), rs)
      else random_letter rs
  end.

Fixpoint random_letters (n : nat) (rs : reads) : option (res (list ascii) * reads) :=
  match n with
  | O => Some (Ok [], rs)
  | S n =>
      match random_letter rs with
      | None => None
      | Some (Err err, rs) => Some (Err err, rs)
      | Some (Ok c, rs) =>
          match random_letters n rs with
          | None => None
          | Some (Err err, rs) => Some (Err err, rs)
          | Some (Ok cs, rs) => Some (Ok (c :: cs), rs)
          end
      end
  end.

Definition RandomAESKey (rs : reads) : option (res string * reads) :=
  match random_letters (Z.to_nat aesKeyBytes) rs with
  | None => None
  | Some (Err err, rs) => Some (Err err, rs)
  | Some (Ok out, rs) => Some (Ok (of_chars out), rs)
  end.

Fixpoint validate_bytes (i : Z) (key : list ascii) : option error :=
  match key with
  | [] => None
  | c :: key =>
      reject EErrorf "encrypt: AES key must be uppercase A — Z; invalid byte at index %d: %q"
               [AInt i; AStr (String c "")]
        when (byte_of c <? byte_of "A") || (byte_of c >? byte_of "Z") ;;
      validate_bytes (i + 1) key
  end.

Definition ValidateAESKey (key : string) : option error :=
  reject EErrorf "encrypt: AES key must be exactly %d chars, got %d" [AInt aesKeyBytes; AInt (slen key)]
    when negb (slen key =? aesKeyBytes) ;;
  validate_bytes 0 (chars key).

(** ** aes.go *)

Definition pkcs5Pad (inp : list ascii) (blockSize : Z) : list ascii :=
  let padLen := blockSize - Z.of_nat (length inp) mod blockSize in
  inp ++ repeat (byte_lit padLen) (Z.to_nat padLen).

Definition last_byte (l : list ascii) : Z := byte_of (default zero (last l)).

Definition pkcs5Unpad (inp : list ascii) (blockSize : Z) : res (list ascii) :=
  let n := Z.of_nat (length inp) in
  if (n =? 0) || negb (n mod blockSize =? 0)
  then Err (EErrorf "encrypt: padded input length %d invalid" [AInt n])
  else
    let padLen := last_byte inp in
    if (padLen =? 0) || (padLen >? blockSize)
    then Err (EErrorf "encrypt: padding length %d out of range [1, %d]" [AInt padLen; AInt blockSize])
    else
      let tail := drop (Z.to_nat (n - padLen)) inp in
      if negb (bool_decide (tail = repeat (byte_lit padLen) (Z.to_nat padLen)))
      then Err (ENew "encrypt: padding bytes do not match declared length")
      else Ok (take (Z.to_nat (n - padLen)) inp).

(** [for i := 0; i < len(in); i += bs { f(out[i:i+bs], in[i:i+bs]) }]; [n] is at
    least the number of blocks. *)
Fixpoint ecb (f : list ascii -> list ascii) (bs : nat) (n : nat) (l : list ascii) : list ascii :=
  match n, l with
  | S n, _ :: _ => f (take bs l) ++ ecb f bs n (drop bs l)
  | _, _ => []
  end.

Definition aesBlockSize : Z := 16.

(** [aes.NewCipher] refuses any other key length. *)
Definition aes_NewCipher (key : string) : option error :=
  if bool_decide (slen key ∈ [16; 24; 32]) then None else Some (EStd "aes.KeySizeError").

Section Body.
Context `{A : AES}.

Definition errKeyLength (key : string) : error :=
  EErrorf "encrypt: AES key length must be %d bytes, got %d" [AInt aesKeyBytes; AInt (slen key)].

Definition EncryptBody (plain key : string) : res string :=
  if negb (slen key =? aesKeyBytes) then Err (errKeyLength key)
  else match aes_NewCipher key with
  | Some err => Err (EErrorf "encrypt: aes.NewCipher: %w" [AWrap err])
  | None =>
      let bs := aesBlockSize in
      let padded := pkcs5Pad (chars plain) bs in
      let out := ecb (aes_encrypt key) (Z.to_nat bs) (length padded) padded in
      Ok (b64_encode (of_chars out))
  end.

Definition DecryptBody (b64 key : string) : res string :=
  if negb (slen key =? aesKeyBytes) then Err (errKeyLength key)
  else match b64_decode b64 with
  | None => Err (EErrorf "encrypt: base64-decode body: %w" [AWrap CorruptInputError])
  | Some cipherBytes =>
      match aes_NewCipher key with
      | Some err => Err (EErrorf "encrypt: aes.NewCipher: %w" [AWrap err])
      | None =>
          let bs := aesBlockSize in
          if slen cipherBytes =? 0 then Err (ENew "encrypt: ciphertext empty")
          else if negb (slen cipherBytes mod bs =? 0)
          then Err (EErrorf "encrypt: ciphertext length %d is not a multiple of block size %d"
                      [AInt (slen cipherBytes); AInt bs])
          else
            let out := ecb (aes_decrypt key) (Z.to_nat bs) (String.length cipherBytes) (chars cipherBytes) in
            let* plain := pkcs5Unpad out bs in
            Ok (of_chars plain)
      end
  end.
End Body.

(** ** header.go *)

Definition EncryptHeaderName : string := "Encrypt".
Definition SymmetricKeyField : string := "symmetricKey".

Definition BuildEncryptHeader (wrappedKeyB64 : string) : string :=
  SymmetricKeyField +:+ "=" +:+ QueryEscape wrappedKeyB64.

(** The loop over the comma-separated parts. *)
Fixpoint parse_parts (parts : list string) (kv : gmap string string) : res (gmap string string) :=
  match parts with
  | [] => Ok kv
  | part :: parts =>
      let part := TrimSpace part in
      if is_empty part then parse_parts parts kv
      else if negb (str_contains "=" part)
      then Err (EErrorf "encrypt: header part %q missing '=' separator" [AStr part])
      else
        let '(k, v) := cut "=" part in
        let k := TrimSpace k in
        let v := TrimSpace v in
        if is_empty k then Err (EErrorf "encrypt: header part %q has empty key" [AStr part])
        else match QueryUnescape v with
        | None => Err (EErrorf "encrypt: header part %q: unescape value: %w"
                         [AStr part; AWrap (EStd "url.EscapeError")])
        | Some unescaped => parse_parts parts (<[k := unescaped]> kv)
        end
  end.

Definition ParseEncryptHeader (headerValue : string) : res (gmap string string) :=
  if is_empty (TrimSpace headerValue) then Err (ENew "encrypt: header value is empty")
  else
    let* kv := parse_parts (split_on "," headerValue) ∅ in
    if bool_decide (kv = ∅) then Err (ENew "encrypt: header value contained no k=v pairs")
    else Ok kv.

Definition SymmetricKeyFrom (kv : gmap string string) : res string :=
  match kv !! SymmetricKeyField with
  | None => Err (EErrorf "encrypt: header missing required field %q" [AStr SymmetricKeyField])
  | Some v =>
      if is_empty v then Err (EErrorf "encrypt: header missing required field %q" [AStr SymmetricKeyField])
      else Ok v
  end.

(** ** rsa.go and envelope.go *)

Definition MinKeyBits : Z := 2048.

Section Envelope.
Context `{R : RSA} `{A : AES}.

Definition WrapAESKey (rnd : nat) (aesKey : string) (atomePub : option PublicKey) : res string :=
  match atomePub with
  | None => Err (ENew "encrypt: nil RSA public key")
  | Some pub =>
      if BitLen pub <? MinKeyBits
      then Err (EErrorf "encrypt: RSA modulus %d < min %d bits" [AInt (BitLen pub); AInt MinKeyBits])
      else match EncryptPKCS1v15 rnd pub aesKey with
      | Err err => Err (EErrorf "encrypt: RSA wrap: %w" [AWrap err])
      | Ok enc => Ok (b64_encode enc)
      end
  end.

Definition UnwrapAESKey (wrappedB64 : string) (partnerPriv : option PrivateKey) : res string :=
  match partnerPriv with
  | None => Err (ENew "encrypt: nil RSA private key")
  | Some priv =>
      if BitLen (Public priv) <? MinKeyBits
      then Err (EErrorf "encrypt: RSA modulus %d < min %d bits" [AInt (BitLen (Public priv)); AInt MinKeyBits])
      else match b64_decode wrappedB64 with
      | None => Err (EErrorf "encrypt: base64-decode wrapped key: %w" [AWrap CorruptInputError])
      | Some cipherBytes =>
          match DecryptPKCS1v15 priv cipherBytes with
          | Err err => Err (EErrorf "encrypt: RSA unwrap: %w" [AWrap err])
          | Ok plain => Ok plain
          end
      end
  end.

(** [(header, bodyB64, err)] *)
Definition Marshal (rs : reads) (rnd : nat) (plain : string) (atomePub : option PublicKey)
    : option (res (string * string) * reads) :=
  match atomePub with
  | None => Some (Err (ENew "encrypt: nil RSA public key"), rs)
  | Some _ =>
      match RandomAESKey rs with
      | None => None
      | Some (Err err, rs) => Some (Err err, rs)
      | Some (Ok aesKey, rs) =>
          Some (let* bodyB64 := EncryptBody plain aesKey in
                let* wrappedB64 := WrapAESKey rnd aesKey atomePub in
                Ok (BuildEncryptHeader wrappedB64, bodyB64), rs)
      end
  end.

Definition Unmarshal (header bodyB64 : string) (partnerPriv : option PrivateKey) : res string :=
  match partnerPriv with
  | None => Err (ENew "encrypt: nil RSA private key")
  | Some _ =>
      let* kv := ParseEncryptHeader header in
      let* wrappedB64 := SymmetricKeyFrom kv in
      let* aesKey := UnwrapAESKey wrappedB64 partnerPriv in
      match ValidateAESKey aesKey with
      | Some err => Err err
      | None => DecryptBody bodyB64 aesKey
      end
  end.
End Envelope.

(** * Lemmas *)

(** ** Padding *)

Lemma repeat_last {A} (x : A) n : (0 < n)%nat -> last (repeat x n) = Some x.
Proof.
  intros Hn. destruct n as [|n]; [lia|].
  replace (S n) with (n + 1)%nat by lia. rewrite repeat_app. apply last_snoc.
Qed.

Section Padding.
Variable bs : Z.
Hypothesis Hbs : 0 < bs < 256.

Let pad_len (l : list ascii) : Z := bs - Z.of_nat (length l) mod bs.

Lemma pad_len_range l : 1 <= pad_len l <= bs.
Proof.
  unfold pad_len. pose proof (Z.mod_pos_bound (Z.of_nat (length l)) bs ltac:(lia)). lia.
Qed.

Lemma byte_of_lit z : 0 <= z < 256 -> byte_of (byte_lit z) = z.
Proof.
  intros H. unfold byte_lit, byte_of. rewrite Z.mod_small by lia.
  rewrite nat_ascii_embedding by lia. lia.
Qed.

Lemma pkcs5Pad_length l :
  Z.of_nat (length (pkcs5Pad l bs)) = Z.of_nat (length l) + pad_len l /\
  Z.of_nat (length (pkcs5Pad l bs)) mod bs = 0.
Proof.
  pose proof (pad_len_range l). unfold pkcs5Pad. rewrite length_app, repeat_length.
  fold (pad_len l). rewrite Nat2Z.inj_add, Z2Nat.id by lia. split; [done|].
  unfold pad_len. replace (Z.of_nat (length l) + (bs - Z.of_nat (length l) mod bs))
    with (bs * (Z.of_nat (length l) / bs + 1)).
  - rewrite Z.mul_comm. apply Z.mod_mul. lia.
  - pose proof (Z.div_mod (Z.of_nat (length l)) bs ltac:(lia)). lia.
Qed.

Lemma pkcs5Unpad_Pad l : pkcs5Unpad (pkcs5Pad l bs) bs = Ok l.
Proof.
  pose proof (pad_len_range l) as Hr. destruct (pkcs5Pad_length l) as [Hl Hm].
  unfold pkcs5Unpad. cbv zeta. rewrite Hm.
  destruct (Z.eqb_spec (Z.of_nat (length (pkcs5Pad l bs))) 0); [lia|].
  simpl.
  assert (Hlast : last_byte (pkcs5Pad l bs) = pad_len l).
  { unfold last_byte, pkcs5Pad. rewrite last_app. fold (pad_len l).
    rewrite repeat_last by lia. simpl. apply byte_of_lit. lia. }
  rewrite Hlast. destruct (Z.eqb_spec (pad_len l) 0); [lia|].
  destruct (Z.gtb_spec (pad_len l) bs); [lia|]. simpl. rewrite Hl.
  replace (Z.to_nat (Z.of_nat (length l) + pad_len l - pad_len l)) with (length l) by lia.
  unfold pkcs5Pad. fold (pad_len l). rewrite drop_app_length, take_app_length.
  by rewrite bool_decide_true.
Qed.

Lemma pkcs5Unpad_sound p l : pkcs5Unpad p bs = Ok l -> p = pkcs5Pad l bs.
Proof.
  unfold pkcs5Unpad. cbv zeta.
  destruct (Z.eqb_spec (Z.of_nat (length p)) 0); [done|].
  destruct (Z.eqb_spec (Z.of_nat (length p) mod bs) 0) as [Hm|]; [simpl|done].
  destruct (Z.eqb_spec (last_byte p) 0); [done|].
  destruct (Z.gtb_spec (last_byte p) bs); [done|]. simpl.
  case_bool_decide as Ht; [simpl|done]. intros [= <-].
  set (len := Z.of_nat (length p)) in *. set (q := last_byte p) in *.
  assert (Hq : 0 <= q) by apply byte_of_range.
  assert (Hqn : q <= len).
  { pose proof (Z.div_mod len bs ltac:(lia)). assert (0 < len) by (unfold len in *; lia).
    assert (bs <= len); [|lia]. rewrite Hm in *. assert (0 < len / bs) by nia. nia. }
  assert (Hlen : Z.of_nat (length (take (Z.to_nat (len - q)) p)) = len - q).
  { rewrite length_take. unfold len in *. lia. }
  unfold pkcs5Pad. rewrite Hlen.
  assert (Hpad : bs - (len - q) mod bs = q).
  { rewrite Zminus_mod, Hm. destruct (Z.eq_dec q bs) as [->|].
    - rewrite Z.mod_same by lia. simpl. rewrite Z.mod_0_l by lia. lia.
    - rewrite (Z.mod_small q) by lia. rewrite Z.mod_opp_l_nz by (rewrite ?Z.mod_small; lia).
      rewrite Z.mod_small by lia. lia. }
  rewrite Hpad, <- Ht. symmetry. apply take_drop.
Qed.
End Padding.

(** ** ECB *)

Section Ecb.
Variables (f g : list ascii -> list ascii) (bs : nat).
Hypothesis Hbs : (0 < bs)%nat.
Hypothesis Hlen : forall b, length b = bs -> length (f b) = bs.
Hypothesis Hinv : forall b, length b = bs -> g (f b) = b.

Lemma ecb_blocks k n l :
  length l = (k * bs)%nat -> (k <= n)%nat ->
  length (ecb f bs n l) = (k * bs)%nat /\
  forall m, (k <= m)%nat -> ecb g bs m (ecb f bs n l) = l.
Proof.
  revert n l. induction k as [|k IH]; intros n l Hl Hn.
  - destruct l; [|done]. destruct n; simpl; (split; [done|]); by intros [|m] _.
  - destruct n as [|n]; [lia|]. destruct l as [|x l]; [simpl in Hl; lia|].
    assert (Ht : length (take bs (x :: l)) = bs) by (rewrite length_take; lia).
    assert (Hd : length (drop bs (x :: l)) = (k * bs)%nat) by (rewrite length_drop; lia).
    destruct (IH n (drop bs (x :: l)) Hd ltac:(lia)) as [IH1 IH2].
    change (ecb f bs (S n) (x :: l)) with (f (take bs (x :: l)) ++ ecb f bs n (drop bs (x :: l))).
    split; [rewrite length_app, Hlen, IH1 by done; lia|].
    intros [|m] Hm; [lia|].
    assert (Hf : length (f (take bs (x :: l))) = bs) by auto.
    remember (f (take bs (x :: l))) as c eqn:Ec. destruct c as [|y c]; [simpl in Hf; lia|].
    change (ecb g bs (S m) ((y :: c) ++ ecb f bs n (drop bs (x :: l))))
      with (g (take bs ((y :: c) ++ ecb f bs n (drop bs (x :: l))))
            ++ ecb g bs m (drop bs ((y :: c) ++ ecb f bs n (drop bs (x :: l))))).
    rewrite (take_app_length' (y :: c)), (drop_app_length' (y :: c)), IH2 by (done || lia).
    rewrite Ec, Hinv by done. apply take_drop.
Qed.
End Ecb.

(** ** Keys *)

Definition upper (c : ascii) : bool := byte_between "A" c "Z".

Lemma validate_bytes_None i l : validate_bytes i l = None <-> Forall (fun c => upper c = true) l.
Proof.
  revert i. induction l as [|c l IH]; intros i; [done|]. simpl.
  rewrite reject_None, IH, Forall_cons. unfold upper, byte_between.
  rewrite Z.gtb_ltb, orb_false_iff, !Z.ltb_ge, andb_true_iff, !Z.leb_le. done.
Qed.

Lemma ValidateAESKey_None key :
  ValidateAESKey key = None <-> slen key = 32 /\ Forall (fun c => upper c = true) (chars key).
Proof.
  unfold ValidateAESKey. rewrite reject_None, validate_bytes_None.
  rewrite negb_false_iff, Z.eqb_eq. done.
Qed.

Definition letter_of (c : ascii) : ascii :=
  byte_lit (byte_of "A" + byte_of c mod AESKeyAlphabetSize).
Definition accepted (c : ascii) : bool := byte_of c <? aesKeyAlphabetCutoff.

Lemma letter_of_upper c : upper (letter_of c) = true.
Proof. revert c. apply ascii_check. vm_compute. reflexivity. Qed.

Lemma random_letter_upper rs c rs' : random_letter rs = Some (Ok c, rs') -> upper c = true.
Proof.
  induction rs as [|[b|] rs IH]; simpl; [done| |done].
  destruct (_ <? _); [|done]. intros [= <- _]. apply letter_of_upper.
Qed.

Lemma random_letters_valid n rs out rs' :
  random_letters n rs = Some (Ok out, rs') ->
  length out = n /\ Forall (fun c => upper c = true) out.
Proof.
  revert rs out rs'. induction n as [|n IH]; intros rs out rs'; simpl; [by intros [= <- _]|].
  destruct (random_letter rs) as [[[c|] rs1]|] eqn:E; try done.
  destruct (random_letters n rs1) as [[[cs|] rs2]|] eqn:E2; try done.
  intros [= <- _]. apply IH in E2 as [<- Hf].
  split; [done|]. constructor; [by eapply random_letter_upper|done].
Qed.

Lemma RandomAESKey_valid rs key rs' : RandomAESKey rs = Some (Ok key, rs') -> ValidateAESKey key = None.
Proof.
  unfold RandomAESKey. destruct (random_letters _ rs) as [[[out|] rs1]|] eqn:E; try done.
  intros [= <- _]. apply random_letters_valid in E as [Hl Hf].
  apply ValidateAESKey_None. by rewrite length_of_chars, Hl, chars_of_chars.
Qed.

Lemma random_letters_bytes n bs :
  (n <= length (List.filter accepted bs))%nat ->
  exists rest, random_letters n (map Ok bs)
    = Some (Ok (map letter_of (take n (List.filter accepted bs))), map Ok rest).
Proof.
  revert n. induction bs as [|b bs IH]; intros n Hn.
  - simpl in Hn. assert (n = 0%nat) as -> by lia. by exists [].
  - destruct n as [|n]; [by exists (b :: bs)|]. simpl in Hn |- *.
    change (byte_of b <? aesKeyAlphabetCutoff) with (accepted b).
    destruct (accepted b) eqn:E.
    + simpl in Hn. destruct (IH n ltac:(lia)) as [rest Hr]. rewrite Hr. by exists rest.
    + destruct (IH (S n) Hn) as [rest Hr]. simpl in Hr. exists rest. exact Hr.
Qed.

(** ** Bodies *)

Lemma EncryptBody_ok {A : AES} plain key :
  slen key = 32 ->
  EncryptBody plain key =
    Ok (b64_encode (of_chars (ecb (aes_encrypt key) 16 (length (pkcs5Pad (chars plain) 16)) (pkcs5Pad (chars plain) 16)))).
Proof.
  intros Hk. unfold EncryptBody, aes_NewCipher. rewrite Hk. simpl. done.
Qed.

Lemma body_roundtrip_lemma {A : AES} `{!AESLaws A} plain key b64 :
  slen key = 32 -> EncryptBody plain key = Ok b64 -> DecryptBody b64 key = Ok plain.
Proof.
  intros Hk. rewrite EncryptBody_ok by done. intros [= <-].
  destruct (pkcs5Pad_length 16 ltac:(lia) (chars plain)) as [Hl Hm].
  set (p := pkcs5Pad (chars plain) 16) in *.
  pose proof (Z.mod_pos_bound (Z.of_nat (length (chars plain))) 16 ltac:(lia)).
  pose proof (Z.div_mod (Z.of_nat (length p)) 16 ltac:(lia)) as Hdiv. rewrite Hm in Hdiv.
  assert (Hlen : length p = (Z.to_nat (Z.of_nat (length p) / 16) * 16)%nat) by lia.
  destruct (ecb_blocks (aes_encrypt key) (aes_decrypt key) 16 ltac:(lia) (aes_encrypt_length key)
              (aes_decrypt_encrypt key) _ (length p) p Hlen ltac:(lia)) as [He Hd].
  unfold DecryptBody, aes_NewCipher. rewrite Hk, b64_decode_encode. simpl.
  change (Z.to_nat aesBlockSize) with 16%nat. change aesBlockSize with 16.
  rewrite length_of_chars, He, <- Hlen, Hm.
  destruct (Z.eqb_spec (Z.of_nat (length p)) 0); [lia|]. simpl.
  rewrite chars_of_chars, Hd by lia.
  unfold p. rewrite pkcs5Unpad_Pad by lia. simpl. by rewrite of_chars_chars.
Qed.

(** ** Headers *)

Lemma str_contains_lacks c s : str_contains c s = negb (lacks c s).
Proof. done. Qed.

Lemma header_value_chars w : str_forall not_space_byte (QueryEscape w) = true.
Proof.
  eapply str_forall_impl; [|apply QueryEscape_chars]. intros c Hc.
  assert (H : forall c, negb (query_escaped_char c) || not_space_byte c = true)
    by (apply ascii_check; vm_compute; reflexivity).
  specialize (H c). by rewrite Hc in H.
Qed.

Lemma header_value_lacks c w : query_escaped_char c = false -> lacks c (QueryEscape w) = true.
Proof.
  intros Hc. eapply str_forall_impl; [|apply QueryEscape_chars].
  intros x Hx. apply negb_true_iff, bool_decide_eq_false. congruence.
Qed.

Lemma Parse_Build w : ParseEncryptHeader (BuildEncryptHeader w) = Ok {[ SymmetricKeyField := w ]}.
Proof.
  unfold ParseEncryptHeader, BuildEncryptHeader.
  rewrite (TrimSpace_id (SymmetricKeyField +:+ "=" +:+ QueryEscape w))
    by (rewrite !str_forall_app, header_value_chars; done).
  assert (is_empty (SymmetricKeyField +:+ "=" +:+ QueryEscape w) = false) as -> by done.
  rewrite lacks_split_on_end
    by (unfold lacks; rewrite !str_forall_app; fold (lacks "," (QueryEscape w));
        rewrite header_value_lacks; done).
  unfold parse_parts.
  rewrite (TrimSpace_id (SymmetricKeyField +:+ "=" +:+ QueryEscape w))
    by (rewrite !str_forall_app, header_value_chars; done).
  assert (is_empty (SymmetricKeyField +:+ "=" +:+ QueryEscape w) = false) as -> by done.
  assert (str_contains "=" (SymmetricKeyField +:+ "=" +:+ QueryEscape w) = true) as -> by done.
  change ("=" +:+ QueryEscape w) with (String "=" (QueryEscape w)).
  rewrite (lacks_cut "=" SymmetricKeyField) by done. simpl negb.
  rewrite !TrimSpace_id by (apply header_value_chars || done).
  assert (is_empty SymmetricKeyField = false) as -> by done.
  rewrite QueryUnescape_QueryEscape. simpl.
  rewrite bool_decide_false; [done|]. apply insert_non_empty.
Qed.

(** ** Envelopes *)

Lemma Unmarshal_Marshal {R : RSA} {A : AES} `{!RSALaws R} `{!AESLaws A} rs rnd plain priv header body rs' :
  Marshal rs rnd plain (Some (Public priv)) = Some (Ok (header, body), rs') ->
  Unmarshal header body (Some priv) = Ok plain.
Proof.
  unfold Marshal. destruct (RandomAESKey rs) as [[[key|] rs1]|] eqn:Ek; try done.
  pose proof (RandomAESKey_valid _ _ _ Ek) as Hv.
  pose proof (proj1 (proj1 (ValidateAESKey_None key) Hv)) as Hl.
  rewrite EncryptBody_ok by done. cbn [result_bind].
  destruct (WrapAESKey rnd key _) as [w|] eqn:Ew; cbn [result_bind]; [|done].
  intros [= <- <- _]. unfold WrapAESKey in Ew.
  destruct (BitLen (Public priv) <? MinKeyBits) eqn:Eb; [done|].
  destruct (EncryptPKCS1v15 rnd (Public priv) key) as [c|] eqn:Ec; [|done]. injection Ew as <-.
  unfold Unmarshal. rewrite Parse_Build. cbn [result_bind].
  unfold SymmetricKeyFrom. rewrite lookup_singleton_eq.
  assert (is_empty (b64_encode c) = false) as ->.
  { apply is_empty_false. intros H. apply (rsa_encrypt_nonempty _ _ _ _ Ec).
    apply b64_encode_inj. rewrite H. vm_compute. reflexivity. }
  cbn [result_bind]. unfold UnwrapAESKey. rewrite Eb, b64_decode_encode.
  rewrite (rsa_encrypt_decrypt _ _ _ _ Ec). cbn [result_bind]. rewrite Hv.
  apply body_roundtrip_lemma; [done|]. by apply EncryptBody_ok.
Qed.

(** [Marshal] returns whenever the key generation does. *)
Lemma Marshal_total `{R : RSA} `{A : AES} rs rnd plain pub :
  RandomAESKey rs <> None -> exists r, Marshal rs rnd plain pub = Some r.
Proof.
  intros H. unfold Marshal. destruct pub as [pub|]; [|by eexists].
  destruct (RandomAESKey rs) as [[[key|err] rs']|]; [by eexists..|done].
Qed.

(** * Properties *)

(** PKCS #5 over AES blocks: unpadding accepts exactly the paddings, and then
    returns what was padded; so padding is injective, its output is a positive whole
    number of blocks, and every malformed tail is rejected. *)
Theorem pkcs5_spec p l :
  (pkcs5Unpad p 16 = Ok l <-> p = pkcs5Pad l 16) /\
  Z.of_nat (length (pkcs5Pad l 16)) = 16 * (Z.of_nat (length l) / 16 + 1).
Proof.
  split; [split|].
  - apply pkcs5Unpad_sound. lia.
  - intros ->. apply pkcs5Unpad_Pad. lia.
  - destruct (pkcs5Pad_length 16 ltac:(lia) l) as [-> _].
    Z.div_mod_to_equations. lia.
Qed.

(** Body encryption succeeds for every plaintext exactly with a 32-byte key,
    and decryption under the same key returns the plaintext. *)
Theorem body_roundtrip `{!AESLaws A} plain key :
  if bool_decide (slen key = 32)
  then exists b64, EncryptBody plain key = Ok b64 /\ DecryptBody b64 key = Ok plain
  else EncryptBody plain key = Err (errKeyLength key).
Proof.
  case_bool_decide as Hk.
  - eexists. split; [by apply EncryptBody_ok|]. apply body_roundtrip_lemma; [done|]. by apply EncryptBody_ok.
  - unfold EncryptBody. destruct (Z.eqb_spec (slen key) aesKeyBytes); [done|]. done.
Qed.

Lemma body_roundtrip_witness :
  exists b64, EncryptBody (A:=toy_AES) "hello" "ABCDEFGHIJKLMNOPQRSTUVWXYZABCDEF" = Ok b64 /\
    DecryptBody (A:=toy_AES) b64 "ABCDEFGHIJKLMNOPQRSTUVWXYZABCDEF" = Ok "hello".
Proof.
  exact (body_roundtrip (A:=toy_AES) (AESLaws0:=toy_AESLaws) "hello" "ABCDEFGHIJKLMNOPQRSTUVWXYZABCDEF").
Defined.

(** The [Encrypt] header carries the wrapped key faithfully: what
    [BuildEncryptHeader] writes, [ParseEncryptHeader] reads as the one field
    [symmetricKey], whatever bytes the value has; only the empty key is refused. *)
Theorem header_roundtrip w :
  ParseEncryptHeader (BuildEncryptHeader w) = Ok {[ SymmetricKeyField := w ]} /\
  (let* kv := ParseEncryptHeader (BuildEncryptHeader w) in SymmetricKeyFrom kv)
  = if is_empty w then Err (EErrorf "encrypt: header missing required field %q" [AStr SymmetricKeyField])
    else Ok w.
Proof.
  rewrite Parse_Build. split; [done|]. simpl. unfold SymmetricKeyFrom.
  by rewrite lookup_singleton_eq.
Qed.

(** C33.  The hybrid envelope: what [Marshal] seals for a public key, [Unmarshal]
    opens with its private half, whatever the randomness and the plaintext; sealing
    succeeds only for keys of at least 2048 bits and under a valid fresh AES key. *)
Theorem envelope_roundtrip `{!RSALaws R} `{!AESLaws A} rs rnd plain priv header body rs' :
  Marshal rs rnd plain (Some (Public priv)) = Some (Ok (header, body), rs') ->
  Unmarshal header body (Some priv) = Ok plain /\
  MinKeyBits <= BitLen (Public priv) /\
  exists key, ValidateAESKey key = None /\ DecryptBody body key = Ok plain.
Proof.
  intros H. split; [by eapply Unmarshal_Marshal|]. unfold Marshal in H.
  destruct (RandomAESKey rs) as [[[key|] rs1]|] eqn:Ek; try done.
  pose proof (RandomAESKey_valid _ _ _ Ek) as Hv. pose proof Hv as [Hl _]%ValidateAESKey_None.
  unfold WrapAESKey in H. destruct (EncryptBody plain key) as [b|] eqn:Eb; cbn [result_bind] in H; [|done].
  destruct (Z.ltb_spec (BitLen (Public priv)) MinKeyBits); [done|]. split; [done|].
  exists key. split; [done|]. apply body_roundtrip_lemma; [done|].
  destruct (EncryptPKCS1v15 _ _ _); cbn [result_bind] in H; [|done]. by injection H as _ <- _.
Qed.

Definition toy_reads : reads := map Ok (repeat "007"%char 32).

Lemma envelope_roundtrip_witness :
  exists header body,
    Unmarshal (R:=toy_RSA) (A:=toy_AES) header body (Some (1%nat, 2048)) = Ok "payload".
Proof.
  eexists _, _.
  apply (fun H => proj1 (envelope_roundtrip (R:=toy_RSA) (RSALaws0:=toy_RSALaws) (A:=toy_AES) (AESLaws0:=toy_AESLaws)
           toy_reads 0%nat "payload" (1%nat, 2048) _ _ [] H)).
  vm_compute. reflexivity.
Defined.

(** Key generation.  When the random source delivers at least 32 bytes below
    the cutoff, [RandomAESKey] stops, and its key is their residues as letters, in
    order; it passes [ValidateAESKey].  Every letter is the image of exactly nine
    accepted bytes, so a uniform source gives uniform letters. *)
Theorem RandomAESKey_spec bs :
  32 <= Z.of_nat (length (List.filter (fun b => byte_of b <? aesKeyAlphabetCutoff) bs)) ->
  (exists key rest,
    RandomAESKey (map Ok bs) = Some (Ok key, map Ok rest) /\
    chars key = map letter_of (take 32 (List.filter (fun b => byte_of b <? aesKeyAlphabetCutoff) bs)) /\
    ValidateAESKey key = None) /\
  Forall (fun letter =>
    length (List.filter (fun n => accepted (ascii_of_nat n) && bool_decide (letter_of (ascii_of_nat n) = letter))
              (seq 0 256)) = 9%nat)
    (chars "ABCDEFGHIJKLMNOPQRSTUVWXYZ").
Proof.
  intros Hn. split.
  - destruct (random_letters_bytes 32 bs) as [rest Hr]; [unfold accepted; lia|].
    eexists _, rest. unfold RandomAESKey. change (Z.to_nat aesKeyBytes) with 32%nat. rewrite Hr.
    split; [done|]. rewrite chars_of_chars. split; [done|].
    eapply (RandomAESKey_valid (map Ok bs)). unfold RandomAESKey.
    change (Z.to_nat aesKeyBytes) with 32%nat. by rewrite Hr.
  - apply (bool_decide_unpack _). vm_compute. exact I.
Qed.

Lemma RandomAESKey_spec_witness :
  exists key rest, RandomAESKey (map Ok (["255"%char; "250"%char] ++ repeat "027"%char 32)) = Some (Ok key, map Ok rest)
    /\ chars key = repeat "B"%char 32 /\ ValidateAESKey key = None.
Proof.
  exact (proj1 (RandomAESKey_spec (["255"%char; "250"%char] ++ repeat "027"%char 32)
           ltac:(vm_compute; discriminate))).
Defined.
