(* ===== verification/GoHttp.v ===== *)
(** * GoHttp: [net/http] header maps and Go's [float64] arithmetic.

    [http.CanonicalHeaderKey] and [http.Header], and IEEE 754 binary64 with
    round-to-nearest-even through the Standard Library's [SpecFloat]. *)
From Stdlib Require Export SpecFloat.
From S2P Require Import Prelude GoStd.

(** ** Headers *)

Abbreviation Header := (gmap string (list string)).

(** The token characters of RFC 7230. *)
Definition validHeaderFieldByte (c : ascii) : bool :=
  byte_between "A" c "Z" || byte_between "a" c "z" || byte_between "0" c "9"
  || str_contains c "!#$%&'*+-.^_`|~".

Definition to_upper (c : ascii) : ascii :=
  if byte_between "a" c "z" then ascii_of_nat (Z.to_nat (byte_of c - 32)) else c.
Definition to_lower (c : ascii) : ascii :=
  if byte_between "A" c "Z" then ascii_of_nat (Z.to_nat (byte_of c + 32)) else c.

Fixpoint canonicalMIMEHeaderKey (upper : bool) (s : string) : string :=
  match s with
  | EmptyString => EmptyString
  | String c s' =>
      String (if upper then to_upper c else to_lower c)
             (canonicalMIMEHeaderKey (bool_decide (c = "-"%char)) s')
  end.

(** A name with a byte that is not a token character (a space, say) is unchanged. *)
Definition CanonicalHeaderKey (s : string) : string :=
  if str_forall validHeaderFieldByte s then canonicalMIMEHeaderKey true s else s.

Definition Header_Set (h : Header) (key value : string) : Header := <[CanonicalHeaderKey key := [value]]> h.

Definition Header_Get (h : Header) (key : string) : string :=
  match h !! CanonicalHeaderKey key with
  | Some (v :: _) => v
  | _ => ""
  end.

(** [strings.ToLower], as far as ASCII results go: besides the ASCII letters, the
    Kelvin sign (U+212A) and the dotted capital I (U+0130) have ASCII lower cases;
    every other rune is lowered to a non-ASCII one and is left as it is here. *)
Fixpoint lower_chars (l : list ascii) : list ascii :=
  match l with
  | [] => []
  | "226"%char :: "132"%char :: "170"%char :: l' => "k"%char :: lower_chars l'
  | "196"%char :: "176"%char :: l' => "i"%char :: lower_chars l'
  | c :: l' => to_lower c :: lower_chars l'
  end.

Definition ToLower (s : string) : string :=
  String.string_of_list_ascii (lower_chars (String.list_ascii_of_string s)).

Lemma canonical_byte_check c :
  implb (validHeaderFieldByte c)
    (forallb (fun b : bool =>
       let d := if b then to_upper c else to_lower c in
       validHeaderFieldByte d
       && Bool.eqb (bool_decide (d = "-"%char)) (bool_decide (c = "-"%char))
       && bool_decide ((if b then to_upper d else to_lower d) = d)) [true; false]) = true.
Proof. revert c. apply ascii_check. vm_compute. reflexivity. Qed.

Lemma canonicalMIMEHeaderKey_idemp b s :
  str_forall validHeaderFieldByte s = true ->
  str_forall validHeaderFieldByte (canonicalMIMEHeaderKey b s) = true /\
  canonicalMIMEHeaderKey b (canonicalMIMEHeaderKey b s) = canonicalMIMEHeaderKey b s.
Proof.
  revert b. induction s as [|c s IH]; intros b H; [done|].
  cbn [str_forall] in H. apply andb_true_iff in H as [Hc Hs].
  pose proof (canonical_byte_check c) as Hk. rewrite Hc in Hk. cbn [implb forallb] in Hk.
  rewrite !andb_true_iff in Hk. destruct Hk as (((Hv1 & Hd1) & He1) & ((Hv2 & Hd2) & He2) & _).
  apply Bool.eqb_prop in Hd1, Hd2. apply bool_decide_eq_true in He1, He2.
  destruct (IH (bool_decide (c = "-"%char)) Hs) as [IH1 IH2].
  cbn [canonicalMIMEHeaderKey str_forall].
  destruct b; rewrite ?Hv1, ?Hv2, ?Hd1, ?Hd2, ?He1, ?He2, IH1, IH2; done.
Qed.

Lemma CanonicalHeaderKey_idemp s : CanonicalHeaderKey (CanonicalHeaderKey s) = CanonicalHeaderKey s.
Proof.
  unfold CanonicalHeaderKey. destruct (str_forall validHeaderFieldByte s) eqn:E; [|by rewrite E].
  destruct (canonicalMIMEHeaderKey_idemp true s E) as [-> ->]. done.
Qed.

Lemma Header_Get_Set h k v : Header_Get (Header_Set h k v) k = v.
Proof. unfold Header_Get, Header_Set. by rewrite lookup_insert_eq. Qed.

#[export] Hint Rewrite CanonicalHeaderKey_idemp Header_Get_Set : atome.

(** ** [float64] *)

Definition prec : Z := 53.
Definition emax : Z := 1024.
Abbreviation float64 := spec_float.

(** The conversion [float64(z)] of an integer, rounded to nearest even. *)
Definition f64 (z : Z) : float64 := binary_normalize prec emax z 0 false.

Definition fmul : float64 -> float64 -> float64 := SFmul prec emax.
Definition fadd : float64 -> float64 -> float64 := SFadd prec emax.
Definition fsub : float64 -> float64 -> float64 := SFsub prec emax.
Definition fdiv : float64 -> float64 -> float64 := SFdiv prec emax.
Definition flt (x y : float64) : bool := SFltb x y.

(** The value truncated towards zero; [None] for NaN and the infinities. *)
Definition ftrunc (x : float64) : option Z :=
  match x with
  | S754_zero _ => Some 0
  | S754_finite s m e =>
      let a := if 0 <=? e then Z.pos m * 2 ^ e else Z.pos m / 2 ^ (- e) in
      Some (if s then - a else a)
  | _ => None
  end.

(** [int64(x)].  Go leaves a value that does not fit to the implementation;
    [conv_overflow] is that choice. *)
Class FloatConv := { conv_overflow : float64 -> Z }.

Definition f64_to_int64 `{FloatConv} (x : float64) : Z :=
  match ftrunc x with
  | Some z => if (int64_min <=? z) && (z <=? int64_max) then z else i64 (conv_overflow x)
  | None => i64 (conv_overflow x)
  end.

(** amd64: the "integer indefinite" value. *)
Definition amd64_conv : FloatConv := {| conv_overflow _ := int64_min |}.

(** Literals of the source. *)
Definition f64_0_2 : float64 := S754_finite false 0x1999999999999A (-55).  (* 0.20 *)
Definition f64_1_5 : float64 := S754_finite false 0x18000000000000 (-52).  (* 1.5 *)

Example f64_small : ftrunc (fmul (f64 250000000) f64_1_5) = Some 375000000.
Proof. vm_compute. reflexivity. Qed.
Example f64_fifth : fdiv (f64 1) (f64 5) = f64_0_2.
Proof. vm_compute. reflexivity. Qed.
