(* ===== verification/Json.v ===== *)
(** * Json: Go's [encoding/json] (Go 1.22): the value grammar, string quoting, the
    compact encoder with [SetEscapeHTML(false)] and the matching of object members to
    struct fields.

    A document is a [json] value; [json_parse] accepts exactly what the package's
    scanner accepts, [json_print] writes what the encoder writes.  Decoding into a Go
    struct is written per type with [member_of] and the field decoders below. *)
From S2P Require Import Prelude GoStd GoCrypto.

Inductive json : Type :=
| JNull
| JBool (b : bool)
| JNum (lit : string)
| JStr (s : string)
| JArr (l : list json)
| JObj (l : list (string * json)).

(** ** UTF-8 *)

Definition byte_in (lo : Z) (c : ascii) (hi : Z) : bool := (lo <=? byte_of c) && (byte_of c <=? hi).
Definition is_ascii (c : ascii) : bool := byte_of c <? 0x80.
Definition cont (c : ascii) : bool := byte_in 0x80 c 0xBF.

(** Well-formed two-, three- and four-byte sequences. *)
Definition utf8_2 (a b : ascii) : bool := byte_in 0xC2 a 0xDF && cont b.
Definition utf8_3 (a b c : ascii) : bool :=
  cont c &&
  ((byte_in 0xE0 a 0xE0 && byte_in 0xA0 b 0xBF) || (byte_in 0xE1 a 0xEC && cont b)
   || (byte_in 0xED a 0xED && byte_in 0x80 b 0x9F) || (byte_in 0xEE a 0xEF && cont b)).
Definition utf8_4 (a b c d : ascii) : bool :=
  cont c && cont d &&
  ((byte_in 0xF0 a 0xF0 && byte_in 0x90 b 0xBF) || (byte_in 0xF1 a 0xF3 && cont b)
   || (byte_in 0xF4 a 0xF4 && byte_in 0x80 b 0x8F)).

(** [utf8.DecodeRune] of a non-empty input: the bytes of the first rune, or [None] for
    an invalid first byte (consumed alone). *)
Definition first_rune (l : list ascii) : option (list ascii) :=
  match l with
  | a :: l =>
      if is_ascii a then Some [a]
      else match l with
      | b :: l =>
          if utf8_2 a b then Some [a; b]
          else match l with
          | c :: l =>
              if utf8_3 a b c then Some [a; b; c]
              else match l with
              | d :: _ => if utf8_4 a b c d then Some [a; b; c; d] else None
              | [] => None
              end
          | [] => None
          end
      | [] => None
      end
  | [] => None
  end.

(** U+FFFD *)
Definition rune_error : list ascii := ["239"; "191"; "189"]%char.

Definition lit (z : Z) : ascii := byte_lit z.

(** [utf8.AppendRune] *)
Definition encode_rune (r : Z) : list ascii :=
  if r <=? 0x7F then [lit r]
  else if r <=? 0x7FF then [lit (0xC0 + r / 64); lit (0x80 + r mod 64)]
  else if (0x10FFFF <? r) || ((0xD800 <=? r) && (r <=? 0xDFFF)) then rune_error
  else if r <=? 0xFFFF then
    [lit (0xE0 + r / 4096); lit (0x80 + r / 64 mod 64); lit (0x80 + r mod 64)]
  else [lit (0xF0 + r / 262144); lit (0x80 + r / 4096 mod 64); lit (0x80 + r / 64 mod 64); lit (0x80 + r mod 64)].

(** ** Strings *)

Definition hex4 (a b c d : ascii) : option Z :=
  match unhex a, unhex b, unhex c, unhex d with
  | Some a, Some b, Some c, Some d => Some (((a * 16 + b) * 16 + c) * 16 + d)
  | _, _, _, _ => None
  end.

Definition quote_char : ascii := "034".
Definition backslash : ascii := "\".

Definition simple_escape (e : ascii) : option ascii :=
  if bool_decide (e = quote_char) then Some quote_char
  else if bool_decide (e = "\"%char) then Some "\"%char
  else if bool_decide (e = "/"%char) then Some "/"%char
  else if bool_decide (e = "b"%char) then Some "008"%char
  else if bool_decide (e = "f"%char) then Some "012"%char
  else if bool_decide (e = "n"%char) then Some "010"%char
  else if bool_decide (e = "r"%char) then Some "013"%char
  else if bool_decide (e = "t"%char) then Some "009"%char
  else None.

(** The scanner's view of a string: the raw characters up to the closing quote.
    Control characters and unknown escapes are syntax errors. *)
Fixpoint scan_string (l : list ascii) : option (list ascii * list ascii) :=
  match l with
  | [] => None
  | c :: l =>
      if bool_decide (c = quote_char) then Some ([], l)
      else if byte_of c <? 0x20 then None
      else if bool_decide (c = backslash) then
        match l with
        | e :: l =>
            if bool_decide (e = "u"%char) then
              match l with
              | h1 :: h2 :: h3 :: h4 :: l =>
                  match hex4 h1 h2 h3 h4, scan_string l with
                  | Some _, Some (raw, rest) => Some (c :: e :: h1 :: h2 :: h3 :: h4 :: raw, rest)
                  | _, _ => None
                  end
              | _ => None
              end
            else match simple_escape e, scan_string l with
                 | Some _, Some (raw, rest) => Some (c :: e :: raw, rest)
                 | _, _ => None
                 end
        | [] => None
        end
      else match scan_string l with
           | Some (raw, rest) => Some (c :: raw, rest)
           | None => None
           end
  end.

Definition is_surrogate (r : Z) : bool := (0xD800 <=? r) && (r <=? 0xDFFF).
(** [utf16.DecodeRune] *)
Definition decode_pair (r1 r2 : Z) : option Z :=
  if (0xD800 <=? r1) && (r1 <=? 0xDBFF) && (0xDC00 <=? r2) && (r2 <=? 0xDFFF)
  then Some (0x10000 + (r1 - 0xD800) * 1024 + (r2 - 0xDC00)) else None.

(** [getu4]: a [\uXXXX] at the head *)
Definition getu4 (l : list ascii) : option Z :=
  match l with
  | b :: u :: h1 :: h2 :: h3 :: h4 :: _ =>
      if bool_decide (b = backslash) && bool_decide (u = "u"%char) then hex4 h1 h2 h3 h4 else None
  | _ => None
  end.

(** [unquote] of scanned characters: invalid UTF-8 and lone surrogates become U+FFFD.
    [fuel] is at least the length: every step consumes a character. *)
Fixpoint unquote (fuel : nat) (l : list ascii) : list ascii :=
  match fuel, l with
  | S fuel, c :: l' =>
      if bool_decide (c = backslash) then
        match getu4 l with
        | Some r =>
            let rest := drop 6 l in
            if is_surrogate r then
              match getu4 rest with
              | Some r2 =>
                  match decode_pair r r2 with
                  | Some dec => encode_rune dec ++ unquote fuel (drop 6 rest)
                  | None => rune_error ++ unquote fuel rest
                  end
              | None => rune_error ++ unquote fuel rest
              end
            else encode_rune r ++ unquote fuel rest
        | None =>
            match l' with
            | e :: l'' =>
                match simple_escape e with
                | Some x => x :: unquote fuel l''
                | None => []
                end
            | [] => []
            end
        end
      else match first_rune l with
           | Some p => p ++ unquote fuel (drop (length p) l)
           | None => rune_error ++ unquote fuel l'
           end
  | _, _ => []
  end.

Definition unquote_string (raw : list ascii) : string := of_chars (unquote (length raw) raw).

(** The encoder's string: [appendString] without HTML escaping. *)
Definition escape_ascii (c : ascii) : list ascii :=
  if bool_decide (c = quote_char) || bool_decide (c = backslash) then [backslash; c]
  else if bool_decide (c = "008"%char) then [backslash; "b"%char]
  else if bool_decide (c = "012"%char) then [backslash; "f"%char]
  else if bool_decide (c = "010"%char) then [backslash; "n"%char]
  else if bool_decide (c = "013"%char) then [backslash; "r"%char]
  else if bool_decide (c = "009"%char) then [backslash; "t"%char]
  else if byte_of c <? 0x20 then
    [backslash; "u"%char; "0"%char; "0"%char;
     str_index hextable (Z.shiftr (byte_of c) 4); str_index hextable (Z.land (byte_of c) 15)]
  else [c].

(** U+2028 and U+2029 are escaped, invalid bytes are replaced. *)
Definition escape_rune (p : list ascii) : list ascii :=
  match p with
  | [c] => escape_ascii c
  | _ =>
      if bool_decide (p = ["226"; "128"; "168"]%char) then chars "\u2028"
      else if bool_decide (p = ["226"; "128"; "169"]%char) then chars "\u2029"
      else p
  end.

Fixpoint escape (fuel : nat) (l : list ascii) : list ascii :=
  match fuel, l with
  | S fuel, c :: l' =>
      match first_rune l with
      | Some p => escape_rune p ++ escape fuel (drop (length p) l)
      | None => chars "\ufffd" ++ escape fuel l'
      end
  | _, _ => []
  end.

Definition quote_string (s : string) : list ascii :=
  quote_char :: escape (String.length s) (chars s) ++ [quote_char].

(** ** Numbers *)

Definition is_digit (c : ascii) : bool := byte_between "0" c "9".

Fixpoint span_digits (l : list ascii) : list ascii * list ascii :=
  match l with
  | c :: l' => if is_digit c then let '(d, r) := span_digits l' in (c :: d, r) else ([], l)
  | [] => ([], [])
  end.

Definition scan_frac (l : list ascii) : option (list ascii * list ascii) :=
  match l with
  | c :: l' =>
      if bool_decide (c = "."%char) then
        match span_digits l' with
        | ([], _) => None
        | (d, r) => Some (c :: d, r)
        end
      else Some ([], l)
  | [] => Some ([], [])
  end.

Definition scan_exp (l : list ascii) : option (list ascii * list ascii) :=
  match l with
  | c :: l' =>
      if bool_decide (c = "e"%char) || bool_decide (c = "E"%char) then
        let '(sign, l'') :=
          match l' with
          | s :: l'' => if bool_decide (s = "+"%char) || bool_decide (s = "-"%char) then ([s], l'') else ([], l')
          | [] => ([], [])
          end in
        match span_digits l'' with
        | ([], _) => None
        | (d, r) => Some (c :: sign ++ d, r)
        end
      else Some ([], l)
  | [] => Some ([], [])
  end.

(** [-?(0|[1-9][0-9]* )(\.[0-9]+)?([eE][+-]?[0-9]+)?] *)
Definition scan_number (l : list ascii) : option (list ascii * list ascii) :=
  let '(sign, l) :=
    match l with
    | c :: l' => if bool_decide (c = "-"%char) then ([c], l') else ([], l)
    | [] => ([], [])
    end in
  match l with
  | c :: l' =>
      if negb (is_digit c) then None
      else
        let '(int, r) := if bool_decide (c = "0"%char) then ([c], l')
                         else let '(d, r) := span_digits l' in (c :: d, r) in
        match scan_frac r with
        | None => None
        | Some (frac, r) =>
            match scan_exp r with
            | None => None
            | Some (exp, r) => Some (sign ++ int ++ frac ++ exp, r)
            end
        end
  | [] => None
  end.

(** ** The parser *)

Definition is_ws (c : ascii) : bool :=
  bool_decide (c = " "%char) || bool_decide (c = "009"%char)
  || bool_decide (c = "010"%char) || bool_decide (c = "013"%char).

Fixpoint skip_ws (l : list ascii) : list ascii :=
  match l with
  | c :: l' => if is_ws c then skip_ws l' else l
  | [] => []
  end.

Fixpoint strip (p l : list ascii) : option (list ascii) :=
  match p, l with
  | [], _ => Some l
  | a :: p, b :: l => if bool_decide (a = b) then strip p l else None
  | _, _ => None
  end.

(** The scanner's nesting limit. *)
Definition maxNestingDepth : nat := 10000.

Inductive phase := PValue | PMembers | PElements.

(** One recursive function for the three nonterminals: a value; the members of an
    object after the opening brace (at least one); the elements of an array after the
    bracket (at least one).  The last two return their list as [JObj] or [JArr].
    [fuel] bounds the number of calls; twice the length of the input is enough, since
    at most two successive calls share a position. *)
Fixpoint parse (fuel : nat) (ph : phase) (depth : nat) (l : list ascii) : option (json * list ascii) :=
  match fuel with
  | O => None
  | S fuel =>
    match ph with
    | PValue =>
      match skip_ws l with
      | [] => None
      | c :: l' =>
        if bool_decide (c = quote_char) then
          match scan_string l' with
          | Some (raw, rest) => Some (JStr (unquote_string raw), rest)
          | None => None
          end
        else if bool_decide (c = "{"%char) then
          if (maxNestingDepth <=? depth)%nat then None
          else match skip_ws l' with
               | d :: rest => if bool_decide (d = "}"%char) then Some (JObj [], rest)
                              else parse fuel PMembers (S depth) (d :: rest)
               | [] => None
               end
        else if bool_decide (c = "["%char) then
          if (maxNestingDepth <=? depth)%nat then None
          else match skip_ws l' with
               | d :: rest => if bool_decide (d = "]"%char) then Some (JArr [], rest)
                              else parse fuel PElements (S depth) (d :: rest)
               | [] => None
               end
        else if bool_decide (c = "t"%char) then
          match strip (chars "rue") l' with Some rest => Some (JBool true, rest) | None => None end
        else if bool_decide (c = "f"%char) then
          match strip (chars "alse") l' with Some rest => Some (JBool false, rest) | None => None end
        else if bool_decide (c = "n"%char) then
          match strip (chars "ull") l' with Some rest => Some (JNull, rest) | None => None end
        else match scan_number (c :: l') with
             | Some (n, rest) => Some (JNum (of_chars n), rest)
             | None => None
             end
      end
    | PMembers =>
      match skip_ws l with
      | q :: l' =>
        if negb (bool_decide (q = quote_char)) then None
        else match scan_string l' with
        | None => None
        | Some (raw, r) =>
          match skip_ws r with
          | colon :: r =>
            if negb (bool_decide (colon = ":"%char)) then None
            else match parse fuel PValue depth r with
            | None => None
            | Some (v, r) =>
              match skip_ws r with
              | d :: r =>
                if bool_decide (d = "}"%char) then Some (JObj [(unquote_string raw, v)], r)
                else if bool_decide (d = ","%char) then
                  match parse fuel PMembers depth r with
                  | Some (JObj ms, r) => Some (JObj ((unquote_string raw, v) :: ms), r)
                  | _ => None
                  end
                else None
              | [] => None
              end
            end
          | [] => None
          end
        end
      | [] => None
      end
    | PElements =>
      match parse fuel PValue depth l with
      | None => None
      | Some (v, r) =>
        match skip_ws r with
        | d :: r =>
          if bool_decide (d = "]"%char) then Some (JArr [v], r)
          else if bool_decide (d = ","%char) then
            match parse fuel PElements depth r with
            | Some (JArr vs, r) => Some (JArr (v :: vs), r)
            | _ => None
            end
          else None
        | [] => None
        end
      end
    end
  end.

(** A whole document: nothing but white space after the value.  [None] is a
    [SyntaxError]. *)
Definition json_parse (s : string) : option json :=
  match parse (2 * String.length s + 2) PValue 0 (chars s) with
  | Some (v, rest) => match skip_ws rest with [] => Some v | _ => None end
  | None => None
  end.

(** ** The encoder *)

Fixpoint print (j : json) : list ascii :=
  match j with
  | JNull => chars "null"
  | JBool true => chars "true"
  | JBool false => chars "false"
  | JNum n => chars n
  | JStr s => quote_string s
  | JArr l =>
      "["%char ::
      (fix elements (l : list json) : list ascii :=
         match l with
         | [] => []
         | [v] => print v
         | v :: l => print v ++ ","%char :: elements l
         end) l ++ ["]"%char]
  | JObj l =>
      "{"%char ::
      (fix members (l : list (string * json)) : list ascii :=
         match l with
         | [] => []
         | [(k, v)] => quote_string k ++ ":"%char :: print v
         | (k, v) :: l => quote_string k ++ ":"%char :: print v ++ ","%char :: members l
         end) l ++ ["}"%char]
  end.

Definition json_print (j : json) : string := of_chars (print j).

Definition dq : string := String quote_char "".
Example parse_print_example :
  json_parse ("{ " +:+ dq +:+ "a\u00e9\n" +:+ dq +:+ " : [1, -2.5e+3,true,null] }")
  = Some (JObj [("a" +:+ of_chars ["195"; "169"; "010"]%char, JArr [JNum "1"; JNum "-2.5e+3"; JBool true; JNull])]).
Proof. vm_compute. reflexivity. Qed.
Example print_example :
  json_print (JObj [("a", JStr "x<&>"); ("b", JArr [JNum "0"; JObj []])])
  = "{" +:+ dq +:+ "a" +:+ dq +:+ ":" +:+ dq +:+ "x<&>" +:+ dq +:+ "," +:+ dq +:+ "b" +:+ dq +:+ ":[0,{}]}".
Proof. vm_compute. reflexivity. Qed.
Example bad_documents :
  map json_parse ["01"; "1."; "[1,]"; "{}x"; ""; "-"; dq] = [None; None; None; None; None; None; None].
Proof. vm_compute. reflexivity. Qed.

(** * Lemmas *)

(** ** Runes *)

(** A byte sequence that is one rune; UTF-8 is a sequence of them. *)
Definition is_rune (p : list ascii) : bool := bool_decide (first_rune p = Some p).

Inductive utf8 : list ascii -> Prop :=
| utf8_nil : utf8 []
| utf8_cons p l : is_rune p = true -> utf8 l -> utf8 (p ++ l).

Fixpoint valid_utf8 (fuel : nat) (l : list ascii) : bool :=
  match fuel, l with
  | S fuel, _ :: _ =>
      match first_rune l with
      | Some p => valid_utf8 fuel (drop (length p) l)
      | None => false
      end
  | _, [] => true
  | O, _ => false
  end.

(** [utf8.ValidString] *)
Definition valid_string (s : string) : bool := valid_utf8 (String.length s) (chars s).

Ltac rune_cases :=
  repeat (case_match; simplify_eq/=; try done).

Lemma first_rune_prefix l p : first_rune l = Some p -> exists r, l = p ++ r.
Proof.
  unfold first_rune. intros H. rune_cases; by eexists.
Qed.

Lemma first_rune_rune l p : first_rune l = Some p -> is_rune p = true.
Proof.
  intros H. apply bool_decide_eq_true. unfold first_rune in *.
  rune_cases; congruence.
Qed.

Lemma is_rune_app p l : is_rune p = true -> first_rune (p ++ l) = Some p.
Proof.
  intros H%bool_decide_eq_true. unfold first_rune in *.
  destruct p as [|a [|b [|c [|d [|e p]]]]]; simpl in *; try done; rune_cases.
Qed.

Lemma is_rune_ne p : is_rune p = true -> p <> [].
Proof. intros H ->. apply bool_decide_eq_true in H. done. Qed.

Lemma valid_utf8_utf8 fuel l : valid_utf8 fuel l = true -> utf8 l.
Proof.
  revert l. induction fuel as [|fuel IH]; intros [|c l]; cbn [valid_utf8]; try done; try (by constructor).
  destruct (first_rune (c :: l)) as [p|] eqn:E; [|done]. intros H.
  pose proof (first_rune_rune _ _ E) as Hp. apply first_rune_prefix in E as [r Hr].
  rewrite Hr in *. rewrite drop_app_length in H. constructor; auto.
Qed.

Lemma valid_string_utf8 s : valid_string s = true -> utf8 (chars s).
Proof. apply valid_utf8_utf8. Qed.

(** ** Escaping *)

(** The escape of one rune, as the parser sees it. *)
Lemma escape_ascii_check c :
  implb (is_ascii c)
    match escape_ascii c with
    | [d] => bool_decide (d = c) && negb (bool_decide (c = quote_char)) && negb (byte_of c <? 0x20)
             && negb (bool_decide (c = backslash))
    | [b; e] => bool_decide (b = backslash) && negb (bool_decide (e = "u"%char))
                && bool_decide (simple_escape e = Some c)
    | [b; u; h1; h2; h3; h4] =>
        bool_decide (b = backslash) && bool_decide (u = "u"%char) &&
        match hex4 h1 h2 h3 h4 with
        | Some r => negb (is_surrogate r) && bool_decide (encode_rune r = [c])
        | None => false
        end
    | _ => false
    end = true.
Proof. revert c. apply ascii_check. vm_compute. reflexivity. Qed.

(** A non-ASCII byte neither ends a string nor escapes. *)
Lemma high_byte_check c :
  implb (negb (is_ascii c))
    (negb (bool_decide (c = quote_char)) && negb (byte_of c <? 0x20) && negb (bool_decide (c = backslash))) = true.
Proof. revert c. apply ascii_check. vm_compute. reflexivity. Qed.

Lemma high_bytes p :
  is_rune p = true -> match p with [_] => False | _ => True end ->
  Forall (fun c => is_ascii c = false) p.
Proof.
  intros H%bool_decide_eq_true Hp. unfold first_rune in H.
  assert (Hc : forall c, cont c = true -> is_ascii c = false).
  { intros c. unfold cont, byte_in, is_ascii. rewrite andb_true_iff, Z.leb_le, Z.ltb_ge. lia. }
  assert (H2 : forall lo c hi, 0x80 <= lo -> byte_in lo c hi = true -> is_ascii c = false).
  { intros lo c hi Hlo. unfold byte_in, is_ascii. rewrite andb_true_iff, Z.leb_le, Z.ltb_ge. lia. }
  assert (Hb3 : forall a b c, utf8_3 a b c = true -> is_ascii b = false /\ is_ascii c = false).
  { intros a b c. unfold utf8_3. rewrite andb_true_iff, !orb_true_iff, !andb_true_iff.
    intros [? Hor]. split; [|by apply Hc].
    destruct Hor as [[[[_ Hb]|[_ Hb]]|[_ Hb]]|[_ Hb]]; first [by apply Hc|eapply H2; [|exact Hb]; lia]. }
  assert (Hb4 : forall a b c d, utf8_4 a b c d = true -> is_ascii b = false /\ is_ascii c = false /\ is_ascii d = false).
  { intros a b c d. unfold utf8_4. rewrite !andb_true_iff, !orb_true_iff, !andb_true_iff.
    intros [[? ?] Hor]. split; [|split; by apply Hc].
    destruct Hor as [[[_ Hb]|[_ Hb]]|[_ Hb]]; first [by apply Hc|eapply H2; [|exact Hb]; lia]. }
  destruct p as [|a [|b [|c [|d [|e p]]]]]; simpl in *; try done; rune_cases.
  - unfold utf8_2 in *. to_prop. destruct_and!. repeat constructor; eauto.
  - match goal with H : utf8_3 _ _ _ = true |- _ => apply Hb3 in H as [? ?] end. repeat constructor; auto.
  - match goal with H : utf8_4 _ _ _ _ = true |- _ => apply Hb4 in H as (? & ? & ?) end. repeat constructor; auto.
Qed.

(** ** Strings are read back *)

Definition escape_runes (ps : list (list ascii)) : list ascii := ps ≫= escape_rune.

Lemma utf8_runes l : utf8 l -> exists ps, l = mjoin ps /\ Forall (fun p => is_rune p = true) ps.
Proof.
  induction 1 as [|p l Hp _ [ps [-> Hps]]]; [by exists []|].
  exists (p :: ps). split; [done|by constructor].
Qed.

Lemma rune_cons p : is_rune p = true -> exists c q, p = c :: q.
Proof. intros H. destruct p as [|c q]; [by apply is_rune_ne in H|by exists c, q]. Qed.

Lemma escape_escape_runes ps fuel :
  Forall (fun p => is_rune p = true) ps -> (length (mjoin ps) <= fuel)%nat ->
  escape fuel (mjoin ps) = escape_runes ps.
Proof.
  intros Hps. revert fuel. induction Hps as [|p ps Hp Hps IH]; intros fuel Hf.
  - by destruct fuel.
  - destruct (rune_cons p Hp) as (c & q & ->).
    change (mjoin ((c :: q) :: ps)) with ((c :: q) ++ mjoin ps) in *.
    rewrite length_app in Hf. simpl in Hf. destruct fuel as [|fuel]; [lia|].
    change (escape (S fuel) ((c :: q) ++ mjoin ps)) with
      (match first_rune ((c :: q) ++ mjoin ps) with
       | Some p => escape_rune p ++ escape fuel (drop (length p) ((c :: q) ++ mjoin ps))
       | None => chars "\ufffd" ++ escape fuel (q ++ mjoin ps)
       end).
    rewrite is_rune_app, drop_app_length, IH by (done || lia). done.
Qed.

(** What [escape_rune] can be. *)
Inductive escape_shape (p : list ascii) : list ascii -> Prop :=
| shape_plain c :
    p = [c] -> c <> quote_char -> (byte_of c <? 0x20) = false -> c <> backslash ->
    escape_shape p [c]
| shape_simple e :
    e <> "u"%char -> (exists c, simple_escape e = Some c /\ p = [c]) -> escape_shape p [backslash; e]
| shape_u h1 h2 h3 h4 r :
    hex4 h1 h2 h3 h4 = Some r -> is_surrogate r = false -> encode_rune r = p ->
    escape_shape p [backslash; "u"%char; h1; h2; h3; h4]
| shape_high : is_rune p = true -> Forall (fun c => is_ascii c = false) p -> escape_shape p p.

Lemma escape_rune_shape p : is_rune p = true -> escape_shape p (escape_rune p).
Proof.
  intros Hp. destruct p as [|c [|d p]]; [by apply is_rune_ne in Hp| |].
  - assert (Hc : is_ascii c = true).
    { apply bool_decide_eq_true in Hp. unfold first_rune in Hp. by destruct (is_ascii c). }
    pose proof (escape_ascii_check c) as H. rewrite Hc in H. cbn [implb] in H.
    unfold escape_rune. destruct (escape_ascii c) as [|x [|y [|u [|h1 [|h2 [|h3 [|]]]]]]] eqn:E; try done.
    + to_prop. destruct H as [[[-> ?] ?] ?]. apply shape_plain; try done. by apply Z.ltb_ge.
    + to_prop. destruct H as [[-> ?] ?]. apply shape_simple; eauto.
    + destruct (hex4 u h1 h2 h3) as [r|] eqn:Er; [|by rewrite andb_false_r in H].
      to_prop. destruct H as [[-> ->] [? ?]]. by eapply shape_u.
  - unfold escape_rune. repeat case_bool_decide.
    + rewrite H. eapply (shape_u _ _ _ _ _ 0x2028); reflexivity.
    + rewrite H0. eapply (shape_u _ _ _ _ _ 0x2029); reflexivity.
    + apply shape_high; [done|]. by apply high_bytes.
Qed.

Lemma scan_high p l :
  Forall (fun c => is_ascii c = false) p ->
  scan_string (p ++ l) = match scan_string l with Some (raw, rest) => Some (p ++ raw, rest) | None => None end.
Proof.
  induction 1 as [|c p Hc _ IH]; [simpl app; by destruct (scan_string l) as [[]|]|].
  pose proof (high_byte_check c) as H. rewrite Hc in H. cbn [negb implb] in H.
  rewrite !andb_true_iff, !negb_true_iff in H. destruct H as [[H1 H2] H3].
  change ((c :: p) ++ l) with (c :: (p ++ l)). cbn [scan_string]. rewrite H1, H2, H3, IH.
  by destruct (scan_string l) as [[]|].
Qed.

Lemma scan_escape_rune p l :
  is_rune p = true ->
  scan_string (escape_rune p ++ l) =
    match scan_string l with Some (raw, rest) => Some (escape_rune p ++ raw, rest) | None => None end.
Proof.
  intros Hp. destruct (escape_rune_shape p Hp) as [c -> H1 H2 H3|e He (c & Hc & ->)|h1 h2 h3 h4 r Hr _ _|_ Hh].
  - cbn [app scan_string]. rewrite (bool_decide_false _ H1), H2, (bool_decide_false _ H3). done.
  - cbn [app scan_string]. rewrite (bool_decide_false _ He), Hc. done.
  - cbn [app scan_string]. rewrite Hr. done.
  - by apply scan_high.
Qed.

Lemma scan_escape_runes ps rest :
  Forall (fun p => is_rune p = true) ps ->
  scan_string (escape_runes ps ++ quote_char :: rest) = Some (escape_runes ps, rest).
Proof.
  induction 1 as [|p ps Hp _ IH]; [done|].
  unfold escape_runes in *. rewrite bind_cons, <- app_assoc, scan_escape_rune, IH by done. done.
Qed.

Lemma unquote_escape_rune fuel p l :
  is_rune p = true -> unquote (S fuel) (escape_rune p ++ l) = p ++ unquote fuel l.
Proof.
  intros Hp. destruct (escape_rune_shape p Hp) as [c Hc H1 H2 H3|e He (c & Hc & ->)|h1 h2 h3 h4 r Hr Hs <-|_ Hh].
  - subst p. change ([c] ++ l) with (c :: l). cbn [unquote]. rewrite (bool_decide_false _ H3).
    change (c :: l) with ([c] ++ l). by rewrite (is_rune_app [c]), drop_app_length.
  - cbn [app unquote]. rewrite bool_decide_true by done.
    assert (getu4 (backslash :: e :: l) = None) as ->.
    { unfold getu4. destruct l as [|? [|? [|? [|? ?]]]]; try done. by rewrite (bool_decide_false _ He). }
    by rewrite Hc.
  - cbn [app unquote]. rewrite bool_decide_true by done.
    assert (getu4 (backslash :: "u"%char :: h1 :: h2 :: h3 :: h4 :: l) = Some r) as -> by done.
    by rewrite Hs.
  - destruct (rune_cons p Hp) as (c & q & ->). cbn [app unquote].
    pose proof (high_byte_check c) as H. apply Forall_cons in Hh as [Hc _]. rewrite Hc in H. cbn [negb implb] in H.
    rewrite !andb_true_iff, !negb_true_iff in H. destruct H as [_ ->].
    change (c :: q ++ l) with ((c :: q) ++ l). by rewrite is_rune_app, drop_app_length.
Qed.

Lemma unquote_escape_runes fuel ps :
  Forall (fun p => is_rune p = true) ps -> (length ps <= fuel)%nat ->
  unquote fuel (escape_runes ps) = mjoin ps.
Proof.
  intros Hps. revert fuel. induction Hps as [|p ps Hp _ IH]; intros fuel Hf; [by destruct fuel|].
  destruct fuel as [|fuel]; [simpl in Hf; lia|].
  unfold escape_runes in *. rewrite bind_cons, unquote_escape_rune, IH by (done || (simpl in Hf; lia)). done.
Qed.

Lemma escape_runes_length ps :
  Forall (fun p => is_rune p = true) ps -> (length ps <= length (escape_runes ps))%nat.
Proof.
  induction 1 as [|p ps Hp _ IH]; [done|]. unfold escape_runes in *. rewrite bind_cons, length_app. simpl.
  destruct (escape_rune_shape p Hp) as [| | |Hr _]; simpl; try lia.
  destruct (rune_cons p Hr) as (c & q & ->). simpl. lia.
Qed.

(** A printed string is scanned and unquoted to the string. *)
Lemma scan_quote_string s rest :
  valid_string s = true ->
  exists raw, quote_string s ++ rest = quote_char :: raw ++ quote_char :: rest /\
    scan_string (raw ++ quote_char :: rest) = Some (raw, rest) /\ unquote_string raw = s.
Proof.
  intros Hs%valid_string_utf8. destruct (utf8_runes _ Hs) as (ps & Hps & Hr).
  exists (escape_runes ps). unfold quote_string.
  assert (String.length s = length (mjoin ps)) as ->.
  { rewrite <- Hps, <- (of_chars_chars s) at 1. apply length_of_chars. }
  rewrite Hps. rewrite escape_escape_runes by done.
  split; [by rewrite <- app_comm_cons, <- app_assoc|]. split; [by apply scan_escape_runes|].
  unfold unquote_string. rewrite unquote_escape_runes by auto using escape_runes_length.
  rewrite <- Hps. apply of_chars_chars.
Qed.

(** ** Numbers are read back *)

Definition valid_number (n : string) : bool := bool_decide (scan_number (chars n) = Some (chars n, [])).

(** What may follow a number without being taken for a part of it. *)
Definition number_end (l : list ascii) : bool :=
  match l with
  | [] => true
  | c :: _ => negb (is_digit c) && negb (bool_decide (c = "."%char))
              && negb (bool_decide (c = "e"%char)) && negb (bool_decide (c = "E"%char))
  end.

Lemma span_digits_app l rest d r :
  number_end rest = true -> span_digits l = (d, r) -> span_digits (l ++ rest) = (d, r ++ rest).
Proof.
  intros Hr. revert d r. induction l as [|c l IH]; intros d r; cbn [app span_digits].
  - intros [= <- <-]. destruct rest as [|x rest]; [done|]. cbn [span_digits number_end] in *.
    destruct (is_digit x); done.
  - destruct (is_digit c); [|by intros [= <- <-]].
    destruct (span_digits l) as [d' r'] eqn:E. intros [= <- <-]. by rewrite (IH d' r').
Qed.

Lemma scan_frac_app l rest a r :
  number_end rest = true -> scan_frac l = Some (a, r) -> scan_frac (l ++ rest) = Some (a, r ++ rest).
Proof.
  intros Hr. destruct l as [|c l]; cbn [app scan_frac].
  - intros [= <- <-]. destruct rest as [|x rest]; [done|]. cbn [scan_frac number_end] in *.
    destruct (bool_decide (x = "."%char)); [|done]. by rewrite andb_false_r in Hr.
  - destruct (bool_decide (c = "."%char)); [|by intros [= <- <-]].
    destruct (span_digits l) as [d' r'] eqn:E. rewrite (span_digits_app _ _ _ _ Hr E).
    destruct d'; [done|]. by intros [= <- <-].
Qed.

Lemma scan_exp_app l rest a r :
  number_end rest = true -> scan_exp l = Some (a, r) -> scan_exp (l ++ rest) = Some (a, r ++ rest).
Proof.
  intros Hr. destruct l as [|c l]; cbn [app scan_exp].
  - intros [= <- <-]. destruct rest as [|x rest]; [done|]. cbn [scan_exp number_end] in *.
    rewrite !andb_true_iff, !negb_true_iff in Hr. destruct Hr as [[_ ->] ->]. done.
  - destruct (_ || _); [|by intros [= <- <-]].
    destruct l as [|s l]; [done|]. cbn [app].
    destruct (bool_decide (s = "+"%char) || bool_decide (s = "-"%char)).
    + destruct (span_digits l) as [d' r'] eqn:E. rewrite (span_digits_app _ _ _ _ Hr E).
      destruct d'; [done|]. by intros [= <- <-].
    + destruct (span_digits (s :: l)) as [d' r'] eqn:E.
      change (s :: l ++ rest) with ((s :: l) ++ rest). rewrite (span_digits_app _ _ _ _ Hr E).
      destruct d'; [done|]. by intros [= <- <-].
Qed.

Lemma scan_number_app l rest a r :
  number_end rest = true -> scan_number l = Some (a, r) -> scan_number (l ++ rest) = Some (a, r ++ rest).
Proof.
  intros Hr.
  assert (Hmain : forall sign l,
    match l with
    | c :: l' =>
        if negb (is_digit c) then None
        else
          let '(int, r) := if bool_decide (c = "0"%char) then ([c], l')
                           else let '(d, r) := span_digits l' in (c :: d, r) in
          match scan_frac r with
          | None => None
          | Some (frac, r) =>
              match scan_exp r with
              | None => None
              | Some (exp, r) => Some (sign ++ int ++ frac ++ exp, r)
              end
          end
    | [] => None
    end = Some (a, r) ->
    match l ++ rest with
    | c :: l' =>
        if negb (is_digit c) then None
        else
          let '(int, r) := if bool_decide (c = "0"%char) then ([c], l')
                           else let '(d, r) := span_digits l' in (c :: d, r) in
          match scan_frac r with
          | None => None
          | Some (frac, r) =>
              match scan_exp r with
              | None => None
              | Some (exp, r) => Some (sign ++ int ++ frac ++ exp, r)
              end
          end
    | [] => None
    end = Some (a, r ++ rest)).
  { intros sign [|c l']; [done|]. cbn [app]. destruct (negb (is_digit c)); [done|].
    assert (Hint : exists int r1,
      (if bool_decide (c = "0"%char) then ([c], l') else let '(d, r) := span_digits l' in (c :: d, r)) = (int, r1) /\
      (if bool_decide (c = "0"%char) then ([c], l' ++ rest) else let '(d, r) := span_digits (l' ++ rest) in (c :: d, r))
        = (int, r1 ++ rest)).
    { destruct (bool_decide (c = "0"%char)); [by eexists _, _|].
      destruct (span_digits l') as [d1 r1] eqn:E. rewrite (span_digits_app _ _ _ _ Hr E). by eexists _, _. }
    destruct Hint as (int & r1 & -> & ->).
    destruct (scan_frac r1) as [[frac r2]|] eqn:E2; [|done]. rewrite (scan_frac_app _ _ _ _ Hr E2).
    destruct (scan_exp r2) as [[exp r3]|] eqn:E3; [|done]. rewrite (scan_exp_app _ _ _ _ Hr E3).
    by intros [= <- <-]. }
  destruct l as [|c l]; [done|]. unfold scan_number. cbn [app].
  destruct (bool_decide (c = "-"%char)); [apply Hmain|apply (Hmain [] (c :: l))].
Qed.

Lemma scan_valid_number n rest :
  valid_number n = true -> number_end rest = true ->
  scan_number (chars n ++ rest) = Some (chars n, rest).
Proof. intros H%bool_decide_eq_true Hr. by rewrite (scan_number_app _ _ _ _ Hr H). Qed.

(** A number starts with a digit or a minus sign, so with none of the other values'
    first characters. *)
Definition number_start (c : ascii) : bool := is_digit c || bool_decide (c = "-"%char).

Lemma valid_number_start n : valid_number n = true -> exists c l, chars n = c :: l /\ number_start c = true.
Proof.
  intros H%bool_decide_eq_true. destruct (chars n) as [|c l]; [done|]. exists c, l. split; [done|].
  unfold scan_number in H. unfold number_start.
  destruct (bool_decide (c = "-"%char)); [apply orb_true_r|].
  destruct (is_digit c); [done|]. done.
Qed.

Lemma value_start_check c :
  implb (number_start c)
    (negb (is_ws c) && negb (bool_decide (c = quote_char)) && negb (bool_decide (c = "{"%char))
     && negb (bool_decide (c = "["%char)) && negb (bool_decide (c = "t"%char))
     && negb (bool_decide (c = "f"%char)) && negb (bool_decide (c = "n"%char))) = true.
Proof. revert c. apply ascii_check. vm_compute. reflexivity. Qed.

(** ** Documents are read back *)

(** Values the encoder can be given: valid UTF-8 and number literals, within the
    nesting limit. *)
Fixpoint json_wf (j : json) : bool :=
  match j with
  | JNum n => valid_number n
  | JStr s => valid_string s
  | JArr l => forallb json_wf l
  | JObj l => forallb (fun kv => valid_string kv.1 && json_wf kv.2) l
  | _ => true
  end.

Fixpoint json_depth (j : json) : nat :=
  match j with
  | JArr l => S (list_max (map json_depth l))
  | JObj l => S (list_max (map (fun kv => json_depth kv.2) l))
  | _ => 0
  end.

Lemma json_ind' (P : json -> Prop) :
  P JNull -> (forall b, P (JBool b)) -> (forall n, P (JNum n)) -> (forall s, P (JStr s)) ->
  (forall l, Forall P l -> P (JArr l)) ->
  (forall l, Forall (fun kv => P kv.2) l -> P (JObj l)) ->
  forall j, P j.
Proof.
  intros Hnull Hbool Hnum Hstr Harr Hobj. fix IH 1. intros [|b|n|s|l|l].
  - exact Hnull.
  - apply Hbool.
  - apply Hnum.
  - apply Hstr.
  - apply Harr. induction l as [|v l IHl]; constructor; [apply IH|apply IHl].
  - apply Hobj. induction l as [|[k v] l IHl]; constructor; [apply IH|apply IHl].
Qed.

Fixpoint print_elements (l : list json) : list ascii :=
  match l with
  | [] => []
  | [v] => print v
  | v :: l => print v ++ ","%char :: print_elements l
  end.

Fixpoint print_members (l : list (string * json)) : list ascii :=
  match l with
  | [] => []
  | [(k, v)] => quote_string k ++ ":"%char :: print v
  | (k, v) :: l => quote_string k ++ ":"%char :: print v ++ ","%char :: print_members l
  end.

Lemma print_JArr l : print (JArr l) = "["%char :: print_elements l ++ ["]"%char].
Proof. reflexivity. Qed.
Lemma print_JObj l : print (JObj l) = "{"%char :: print_members l ++ ["}"%char].
Proof. reflexivity. Qed.

Definition value_start (c : ascii) : bool :=
  negb (is_ws c) && negb (bool_decide (c = "]"%char)) && negb (bool_decide (c = "}"%char)).

Lemma print_start j : json_wf j = true -> exists c l, print j = c :: l /\ value_start c = true.
Proof.
  destruct j as [|[]|n|s|l|l]; intros H; try (by eexists _, _).
  destruct (valid_number_start n H) as (c & l & Hc & Hs). exists c, l. split; [done|].
  assert (Hall : forall c, implb (number_start c) (value_start c) = true)
    by (apply ascii_check; vm_compute; reflexivity).
  specialize (Hall c). by rewrite Hs in Hall.
Qed.

Lemma skip_ws_id c l : is_ws c = false -> skip_ws (c :: l) = c :: l.
Proof. intros H. cbn [skip_ws]. by rewrite H. Qed.

Lemma value_start_ws c : value_start c = true ->
  is_ws c = false /\ c <> "]"%char /\ c <> "}"%char.
Proof. unfold value_start. to_prop. naive_solver. Qed.

Lemma quote_string_length s : (2 <= length (quote_string s))%nat.
Proof. unfold quote_string. simpl. rewrite length_app. simpl. lia. Qed.

Lemma list_max_cons x l : list_max (x :: l) = Nat.max x (list_max l).
Proof. done. Qed.

(** What the recursion proves of a value. *)
Definition reads_back (j : json) : Prop :=
  forall fuel d rest,
    json_wf j = true -> (d + json_depth j <= maxNestingDepth)%nat -> number_end rest = true ->
    (length (print j) <= fuel)%nat ->
    parse fuel PValue d (print j ++ rest) = Some (j, rest).

Lemma parse_number n : reads_back (JNum n).
Proof.
  intros fuel d rest Hwf _ Hr Hf. cbn [json_wf print] in *.
  destruct (valid_number_start n Hwf) as (c & l & Hc & Hs).
  pose proof (value_start_check c) as H. rewrite Hs in H. cbn [implb] in H.
  rewrite !andb_true_iff, !negb_true_iff in H. destruct H as ((((((Hw & H1) & H2) & H3) & H4) & H5) & H6).
  pose proof (scan_valid_number n rest Hwf Hr) as Hn. rewrite Hc in *.
  destruct fuel as [|fuel]; [simpl in Hf; lia|]. cbn [app parse] in *.
  rewrite (skip_ws_id _ _ Hw), H1, H2, H3, H4, H5, H6, Hn, <- Hc. by rewrite of_chars_chars.
Qed.

Lemma parse_string s : reads_back (JStr s).
Proof.
  intros fuel d rest Hwf _ _ Hf. cbn [json_wf print] in *.
  destruct (scan_quote_string s rest Hwf) as (raw & Hq & Hs & Hu).
  pose proof (quote_string_length s). destruct fuel as [|fuel]; [lia|].
  rewrite Hq. cbn [parse]. rewrite skip_ws_id by done. rewrite bool_decide_true by done.
  by rewrite Hs, Hu.
Qed.

Lemma parse_elements l fuel d rest :
  Forall reads_back l -> l <> [] -> forallb json_wf l = true ->
  (d + list_max (map json_depth l) <= maxNestingDepth)%nat ->
  (length (print_elements l) < fuel)%nat ->
  parse fuel PElements d (print_elements l ++ "]"%char :: rest) = Some (JArr l, rest).
Proof.
  intros Hl. revert fuel. induction Hl as [|v l Hv Hl IH]; intros fuel Hne Hwf Hd Hf; [done|].
  cbn [forallb] in Hwf. rewrite map_cons, list_max_cons in Hd. apply andb_true_iff in Hwf as [Hwv Hwl].
  destruct fuel as [|fuel]; [lia|]. destruct l as [|v' l].
  - cbn [print_elements] in *. cbn [parse]. rewrite Hv by (done || lia).
    rewrite skip_ws_id by done. by rewrite bool_decide_true.
  - change (print_elements (v :: v' :: l)) with (print v ++ ","%char :: print_elements (v' :: l)) in *.
    rewrite length_app in Hf. cbn [length] in Hf.
    cbn [parse]. rewrite <- app_assoc, <- app_comm_cons. rewrite Hv by (done || lia).
    rewrite skip_ws_id by done. rewrite bool_decide_false, bool_decide_true by done.
    rewrite IH by (done || lia). done.
Qed.

Lemma parse_members l fuel d rest :
  Forall (fun kv => reads_back kv.2) l -> l <> [] ->
  forallb (fun kv => valid_string kv.1 && json_wf kv.2) l = true ->
  (d + list_max (map (fun kv => json_depth kv.2) l) <= maxNestingDepth)%nat ->
  (length (print_members l) < fuel)%nat ->
  parse fuel PMembers d (print_members l ++ "}"%char :: rest) = Some (JObj l, rest).
Proof.
  intros Hl. revert fuel. induction Hl as [|[k v] l Hv Hl IH]; intros fuel Hne Hwf Hd Hf; [done|].
  cbn [forallb fst snd] in Hwf. rewrite map_cons, list_max_cons in Hd. cbn [snd] in *.
  apply andb_true_iff in Hwf as [Hwv Hwl]. apply andb_true_iff in Hwv as [Hk Hwv].
  destruct fuel as [|fuel]; [lia|].
  pose proof (quote_string_length k).
  assert (Hstep : forall tail, (length (print v) <= fuel)%nat -> number_end tail = true ->
    parse (S fuel) PMembers d (quote_string k ++ ":"%char :: print v ++ tail) =
      match skip_ws tail with
      | c :: r =>
          if bool_decide (c = "}"%char) then Some (JObj [(k, v)], r)
          else if bool_decide (c = ","%char) then
            match parse fuel PMembers d r with
            | Some (JObj ms, r) => Some (JObj ((k, v) :: ms), r)
            | _ => None
            end
          else None
      | [] => None
      end).
  { intros tail Hfu Hend.
    destruct (scan_quote_string k (":"%char :: print v ++ tail) Hk) as (raw & Hq & Hs & Hu).
    rewrite Hq. cbn [parse]. rewrite skip_ws_id by done. rewrite bool_decide_true by done. cbn [negb].
    rewrite Hs. rewrite skip_ws_id by done. rewrite bool_decide_true by done. cbn [negb].
    rewrite Hv by (done || lia). by rewrite Hu. }
  destruct l as [|[k' v'] l].
  - cbn [print_members] in *. rewrite length_app in Hf. cbn [length] in Hf.
    rewrite <- app_assoc, <- app_comm_cons. rewrite Hstep by (done || lia).
    rewrite skip_ws_id by done. by rewrite bool_decide_true.
  - change (print_members ((k, v) :: (k', v') :: l))
      with (quote_string k ++ ":"%char :: print v ++ ","%char :: print_members ((k', v') :: l)) in *.
    rewrite length_app in Hf. cbn [length] in Hf. rewrite length_app in Hf. cbn [length] in Hf.
    rewrite <- app_assoc, <- app_comm_cons, <- app_assoc, <- app_comm_cons.
    rewrite Hstep by (done || lia). rewrite skip_ws_id by done.
    rewrite bool_decide_false, bool_decide_true by done. rewrite IH by (done || lia). done.
Qed.

Lemma print_members_start k v l : exists m, print_members ((k, v) :: l) = quote_char :: m.
Proof. destruct l; by eexists. Qed.

Lemma print_elements_start v l :
  json_wf v = true -> exists c m, print_elements (v :: l) = c :: m /\ value_start c = true.
Proof.
  intros H. destruct (print_start v H) as (c & m & Hc & Hs). destruct l as [|v' l].
  - by exists c, m.
  - exists c, (m ++ ","%char :: print_elements (v' :: l)). split; [|done].
    change (print_elements (v :: v' :: l)) with (print v ++ ","%char :: print_elements (v' :: l)).
    by rewrite Hc.
Qed.

Lemma parse_print j : reads_back j.
Proof.
  induction j as [|b|n|s|l Hl|l Hl] using json_ind'.
  - intros [|fuel] d rest _ _ _ Hf; [simpl in Hf; lia|]. done.
  - intros [|fuel] d rest _ _ _ Hf; [destruct b; simpl in Hf; lia|]. by destruct b.
  - apply parse_number.
  - apply parse_string.
  - intros fuel d rest Hwf Hd Hr Hf. rewrite print_JArr in *. cbn [json_wf json_depth] in *.
    cbn [length] in Hf. rewrite length_app in Hf. cbn [length] in Hf.
    destruct fuel as [|fuel]; [lia|]. cbn [app parse]. rewrite <- app_assoc. cbn [app].
    rewrite skip_ws_id by done. rewrite 2 bool_decide_false, bool_decide_true by done.
    destruct (Nat.leb_spec maxNestingDepth d); [lia|].
    destruct l as [|v l]; [done|].
    pose proof Hwf as Hwf'. cbn [forallb] in Hwf'. apply andb_true_iff in Hwf' as [Hwv _].
    destruct (print_elements_start v l Hwv) as (c & m & Hc & Hs).
    apply value_start_ws in Hs as (Hw & Hne & _).
    rewrite Hc. rewrite <- app_comm_cons. rewrite skip_ws_id by done. rewrite bool_decide_false by done.
    rewrite app_comm_cons, <- Hc. apply parse_elements; [done..|lia|lia].
  - intros fuel d rest Hwf Hd Hr Hf. rewrite print_JObj in *. cbn [json_wf json_depth] in *.
    cbn [length] in Hf. rewrite length_app in Hf. cbn [length] in Hf.
    destruct fuel as [|fuel]; [lia|]. cbn [app parse]. rewrite <- app_assoc. cbn [app].
    rewrite skip_ws_id by done. rewrite bool_decide_false, bool_decide_true by done.
    destruct (Nat.leb_spec maxNestingDepth d); [lia|].
    destruct l as [|[k v] l]; [done|].
    destruct (print_members_start k v l) as (m & Hm).
    rewrite Hm. rewrite <- app_comm_cons. rewrite skip_ws_id by done. rewrite bool_decide_false by done.
    rewrite app_comm_cons, <- Hm. apply parse_members; [done..|lia|lia].
Qed.

Lemma json_parse_print j :
  json_wf j = true -> (json_depth j <= maxNestingDepth)%nat -> json_parse (json_print j) = Some j.
Proof.
  intros Hwf Hd. unfold json_parse, json_print. rewrite length_of_chars, chars_of_chars.
  pose proof (parse_print j (2 * length (print j) + 2)%nat 0%nat [] Hwf Hd eq_refl ltac:(lia)) as H.
  rewrite app_nil_r in H. by rewrite H.
Qed.

(** ** Integers *)

Fixpoint pv (a : Z) (s : string) : option Z :=
  match s with
  | EmptyString => Some a
  | String c s => if is_digit c then pv (a * 10 + (byte_of c - byte_of "0")) s else None
  end.

(** [strconv.ParseInt(lit, 10, 64)] of a number literal: a fraction, an exponent or a
    value out of range is an error. *)
Definition ParseInt (lit : string) : option Z :=
  let r := match lit with
           | String "-" s => Z.opp <$> pv 0 s
           | _ => pv 0 lit
           end in
  match r with
  | Some z => if (int64_min <=? z) && (z <=? int64_max) then Some z else None
  | None => None
  end.

Lemma digit_char_spec n : 0 <= n < 10 ->
  is_digit (digit_char n) = true /\ byte_of (digit_char n) - byte_of "0" = n /\
  (bool_decide (digit_char n = "0"%char) = (n =? 0)).
Proof.
  intros H.
  assert (Hall : forallb (fun k => let n := Z.of_nat k in is_digit (digit_char n)
      && (byte_of (digit_char n) - byte_of "0" =? n)
      && Bool.eqb (bool_decide (digit_char n = "0"%char)) (n =? 0)) (seq 0 10) = true)
    by (vm_compute; reflexivity).
  rewrite forallb_forall in Hall. specialize (Hall (Z.to_nat n)).
  rewrite in_seq in Hall. specialize (Hall ltac:(lia)). cbv zeta in Hall.
  rewrite Z2Nat.id in Hall by lia. rewrite !andb_true_iff in Hall. destruct Hall as [[? ?%Z.eqb_eq] ?%Bool.eqb_prop].
  done.
Qed.

Lemma log2_div_10 n : 10 <= n -> (Z.to_nat (Z.log2 (n / 10)) < Z.to_nat (Z.log2 n))%nat.
Proof.
  intros H. assert (1 <= n / 10) by (apply Z.div_le_lower_bound; lia).
  assert (Z.log2 (n / 10) < Z.log2 n).
  { apply Z.log2_lt_pow2; [lia|].
    pose proof (Z.log2_spec n ltac:(lia)) as [_ Hu]. pose proof (Z.log2_nonneg n).
    rewrite Z.pow_succ_r in Hu by done. pose proof (Z.div_mod n 10 ltac:(lia)).
    pose proof (Z.mod_pos_bound n 10 ltac:(lia)). lia. }
  pose proof (Z.log2_nonneg (n / 10)). lia.
Qed.

Lemma digits_of_pv fuel n acc :
  0 <= n -> (Z.to_nat (Z.log2 n) < fuel)%nat -> pv 0 (digits_of fuel n acc) = pv n acc.
Proof.
  revert n acc. induction fuel as [|fuel IH]; intros n acc Hn Hf; [lia|]. cbn [digits_of]. cbv zeta.
  pose proof (Z.mod_pos_bound n 10 ltac:(lia)) as Hm.
  destruct (digit_char_spec (n mod 10) Hm) as (Hd & Hv & _).
  destruct (Z.ltb_spec n 10).
  - cbn [pv]. rewrite Hd, Hv, Z.mod_small by lia. f_equal.
  - rewrite IH.
    + cbn [pv]. rewrite Hd, Hv. f_equal. pose proof (Z.div_mod n 10 ltac:(lia)). lia.
    + apply Z.div_pos; lia.
    + pose proof (log2_div_10 n ltac:(lia)). lia.
Qed.

Lemma format_nat_pv n : 0 <= n -> pv 0 (format_nat n) = Some n.
Proof. intros H. unfold format_nat. rewrite digits_of_pv by lia. done. Qed.

(** The digits: all digits, and a leading zero only for zero. *)
Lemma digits_of_shape fuel n acc :
  0 <= n -> (Z.to_nat (Z.log2 n) < fuel)%nat ->
  exists c s, digits_of fuel n acc = String c (s +:+ acc) /\ is_digit c = true /\
    str_forall is_digit s = true /\
    (bool_decide (c = "0"%char) = true -> n = 0 /\ s = "").
Proof.
  revert n acc. induction fuel as [|fuel IH]; intros n acc Hn Hf; [lia|]. cbn [digits_of]. cbv zeta.
  pose proof (Z.mod_pos_bound n 10 ltac:(lia)) as Hm.
  destruct (digit_char_spec (n mod 10) Hm) as (Hd & Hv & Hz).
  destruct (Z.ltb_spec n 10).
  - exists (digit_char (n mod 10)), "". split; [done|]. split; [done|]. split; [done|].
    rewrite Hz, Z.eqb_eq. rewrite Z.mod_small by lia. done.
  - assert (Hn' : 0 <= n / 10) by (apply Z.div_pos; lia).
    pose proof (log2_div_10 n ltac:(lia)).
    destruct (IH (n / 10) (String (digit_char (n mod 10)) acc) Hn' ltac:(lia)) as (c & s & Heq & Hc & Hs & Hz').
    exists c, (s +:+ String (digit_char (n mod 10)) ""). rewrite str_app_assoc. split; [done|]. split; [done|].
    split; [rewrite str_forall_app, Hs; cbn [str_forall]; by rewrite Hd|].
    intros Hc0. destruct (Hz' Hc0) as [Hq _]. pose proof (Z.div_le_lower_bound n 10 1 ltac:(lia) ltac:(lia)). lia.
Qed.

Lemma span_all_digits s : str_forall is_digit s = true -> span_digits (chars s) = (chars s, []).
Proof.
  induction s as [|c s IH]; [done|]. cbn [str_forall]. rewrite andb_true_iff. intros [Hc Hs].
  change (chars (String c s)) with (c :: chars s). cbn [span_digits]. by rewrite Hc, IH.
Qed.

Lemma format_nat_shape n : 0 <= n ->
  exists c s, format_nat n = String c s /\ is_digit c = true /\ str_forall is_digit s = true /\
    (bool_decide (c = "0"%char) = true -> s = "").
Proof.
  intros H. destruct (digits_of_shape (S (Z.to_nat (Z.log2 n))) n "" H ltac:(lia)) as (c & s & Heq & Hc & Hs & Hz).
  exists c, s. rewrite str_app_nil_r in Heq. naive_solver.
Qed.

Lemma digit_not_minus c : is_digit c = true -> bool_decide (c = "-"%char) = false.
Proof. intros H. apply bool_decide_eq_false. intros ->. done. Qed.

Lemma itoa_valid_number z : valid_number (itoa z) = true.
Proof.
  apply bool_decide_eq_true. unfold itoa.
  assert (Hn : forall sign c s, is_digit c = true -> str_forall is_digit s = true ->
      (bool_decide (c = "0"%char) = true -> s = "") ->
      match scan_frac (snd (if bool_decide (c = "0"%char) then ([c], chars s) else let '(d, r) := span_digits (chars s) in (c :: d, r))) with
      | Some (frac, r) => match scan_exp r with
                          | Some (exp, r) => Some (sign ++ fst (if bool_decide (c = "0"%char) then ([c], chars s) else let '(d, r) := span_digits (chars s) in (c :: d, r)) ++ frac ++ exp, r)
                          | None => None end
      | None => None
      end = Some (sign ++ c :: chars s, [])).
  { intros sign c s Hc Hs Hz. rewrite span_all_digits by done.
    destruct (bool_decide (c = "0"%char)); [rewrite (Hz eq_refl)|]; simpl; by rewrite ?app_nil_r. }
  destruct (z <? 0) eqn:E; to_prop.
  - destruct (format_nat_shape (- z) ltac:(lia)) as (c & s & -> & Hc & Hs & Hz).
    specialize (Hn ["-"%char] c s Hc Hs Hz). change (chars ("-" +:+ String c s)) with ("-"%char :: c :: chars s).
    unfold scan_number. cbv iota beta. rewrite bool_decide_true by done. rewrite Hc. cbn [negb].
    destruct (if bool_decide (c = "0"%char) then _ else _) as [int r]. exact Hn.
  - destruct (format_nat_shape z ltac:(lia)) as (c & s & -> & Hc & Hs & Hz).
    specialize (Hn [] c s Hc Hs Hz). change (chars (String c s)) with (c :: chars s).
    unfold scan_number. cbv iota beta. rewrite (digit_not_minus c Hc), Hc. cbn [negb].
    destruct (if bool_decide (c = "0"%char) then _ else _) as [int r]. exact Hn.
Qed.

Lemma ParseInt_itoa z : in_int64 z -> ParseInt (itoa z) = Some z.
Proof.
  intros [H1 H2]. unfold ParseInt, itoa. destruct (Z.ltb_spec z 0).
  - change ("-" +:+ format_nat (- z)) with (String "-" (format_nat (- z))). cbv iota beta.
    rewrite format_nat_pv by lia. cbn [fmap option_fmap option_map]. rewrite Z.opp_involutive.
    destruct (Z.leb_spec int64_min z); [|lia]. destruct (Z.leb_spec z int64_max); [done|lia].
  - destruct (format_nat_shape z ltac:(lia)) as (c & s & Heq & Hc & _).
    assert (match format_nat z with String "-" s => Z.opp <$> pv 0 s | _ => pv 0 (format_nat z) end = Some z) as ->.
    { pose proof (format_nat_pv z ltac:(lia)) as Hpv. rewrite Heq in *.
      destruct (decide (c = "-"%char)) as [->|Hne]; [done|].
      rewrite Hpv. destruct c as [[] [] [] [] [] [] [] []]; done. }
    destruct (Z.leb_spec int64_min z); [|lia]. destruct (Z.leb_spec z int64_max); [done|lia].
Qed.

#[export] Hint Resolve itoa_valid_number ParseInt_itoa : atome.

(** ** Numbers as [float64] *)

(** The digits, the number of them after the point and the exponent of a literal. *)
Fixpoint number_digits (l : list ascii) (digits frac : Z) (point : bool) : Z * Z * list ascii :=
  match l with
  | [] => (digits, frac, [])
  | c :: l' =>
      if bool_decide (c = "."%char) then number_digits l' digits frac true
      else if bool_decide (c = "e"%char) || bool_decide (c = "E"%char) then (digits, frac, l')
      else if bool_decide (c = "-"%char) then number_digits l' digits frac point
      else number_digits l' (digits * 10 + (byte_of c - 48)) (if point then frac + 1 else frac) point
  end.

Fixpoint scan_exponent (l : list ascii) (neg : bool) (e : Z) : Z :=
  match l with
  | [] => if neg then - e else e
  | c :: l =>
      if bool_decide (c = "-"%char) then scan_exponent l true e
      else if bool_decide (c = "+"%char) then scan_exponent l neg e
      else scan_exponent l neg (e * 10 + (byte_of c - 48))
  end.

(** The literal does not round to an infinity: its magnitude is below the largest
    [float64] plus half a unit in its last place. *)
Definition float_in_range (lit : string) : bool :=
  let '(digits, frac, rest) := number_digits (chars lit) 0 0 false in
  let e := scan_exponent rest false 0 - frac in
  let bound := 2 ^ 1024 - 2 ^ 970 in
  if digits =? 0 then true
  else if 0 <=? e then digits * 10 ^ e <? bound else digits <? bound * 10 ^ (- e).

Fixpoint numbers_in_range (j : json) : bool :=
  match j with
  | JNum lit => float_in_range lit
  | JArr l => forallb numbers_in_range l
  | JObj l => forallb (fun kv => numbers_in_range kv.2) l
  | _ => true
  end.

(** Digits only: the value, and nothing after it. *)
Lemma number_digits_pv s a n : pv a s = Some n -> number_digits (chars s) a 0 false = (n, 0, []).
Proof.
  revert a. induction s as [|c s IH]; intros a; cbn [pv]; [by intros [= ->]|].
  destruct (is_digit c) eqn:Hc; [|done]. intros Hn. change (chars (String c s)) with (c :: chars s). cbn [number_digits].
  assert (forall d, is_digit d = false -> bool_decide (c = d) = false) as Hd
    by (intros d Hd; apply bool_decide_eq_false; congruence).
  rewrite !Hd by done. cbn [orb]. by apply IH.
Qed.

Lemma float_in_range_itoa z : in_int64 z -> float_in_range (itoa z) = true.
Proof.
  intros [H1 H2]. unfold int64_min, int64_max in *. unfold float_in_range.
  assert (number_digits (chars (itoa z)) 0 0 false = (Z.abs z, 0, [])) as ->.
  { unfold itoa. destruct (Z.ltb_spec z 0).
    - change (chars ("-" +:+ format_nat (- z))) with ("-"%char :: chars (format_nat (- z))). cbn [number_digits].
      replace (Z.abs z) with (- z) by lia. apply number_digits_pv, format_nat_pv. lia.
    - replace (Z.abs z) with z by lia. apply number_digits_pv, format_nat_pv. lia. }
  cbn [scan_exponent Z.sub Z.opp Z.add Z.leb Z.compare]. destruct (Z.abs z =? 0); [done|].
  apply Z.ltb_lt. change (10 ^ 0) with 1. rewrite Z.mul_1_r.
  assert (2 ^ 64 < 2 ^ 1024 - 2 ^ 970) by (by vm_compute). change (2 ^ 64) with 18446744073709551616 in *. lia.
Qed.
