(* ===== verification/Codec.v ===== *)
(** * Codec: Go structs and JSON: [MarshalSigning] ([atomefin/marshal.go]), the
    decoding of object members into struct fields, and [decodeAPIError]
    ([atomefin/errors.go]).

    A struct type is decoded by [decode_struct] from its field names and one setter;
    as in Go, members are taken in document order (the last of several wins), unknown
    members are ignored (or, when [strict], an error: [DisallowUnknownFields]), [null] leaves a field alone, and a value of the wrong kind is
    an error that does not stop the rest. *)
From S2P Require Import Prelude GoStd GoCrypto Errors GoHttp Json.

(** ** Encoding *)

(** [MarshalSigning]: the encoder writes the value and a newline, which is cut off.
    The values the SDK marshals have no type the encoder rejects. *)
Definition MarshalSigning (v : json) : res string :=
  let b := json_print v +:+ String "010" "" in
  let n := slen b in
  Ok (if (0 <? n) && bool_decide (str_index b (n - 1) = "010"%char)
      then of_chars (take (Z.to_nat (n - 1)) (chars b)) else b).

Definition jint (z : Z) : json := JNum (itoa z).

(** A struct field with its tag; [omitempty] drops a zero value. *)
Definition field (name : string) (v : json) : list (string * json) := [(name, v)].
Definition omitempty_str (name s : string) : list (string * json) :=
  if is_empty s then [] else [(name, JStr s)].
Definition omitempty_int (name : string) (z : Z) : list (string * json) :=
  if z =? 0 then [] else [(name, jint z)].
Definition omitempty_opt {A} (name : string) (enc : A -> json) (o : option A) : list (string * json) :=
  match o with Some a => [(name, enc a)] | None => [] end.
Definition omitempty_list {A} (name : string) (enc : A -> json) (l : list A) : list (string * json) :=
  match l with [] => [] | _ => [(name, JArr (map enc l))] end.

(** ** Decoding *)

(** [foldName]: ASCII upper case; the Kelvin sign and the long s fold to ASCII
    letters, every other rune to a non-ASCII one (kept as it is here: a struct's names
    are ASCII). *)
Fixpoint fold_chars (l : list ascii) : list ascii :=
  match l with
  | [] => []
  | "226"%char :: "132"%char :: "170"%char :: l' => "K"%char :: fold_chars l'
  | "197"%char :: "191"%char :: l' => "S"%char :: fold_chars l'
  | c :: l' => to_upper c :: fold_chars l'
  end.
Definition foldName (s : string) : string := of_chars (fold_chars (chars s)).

(** The field a member belongs to: the one of that name, else the first whose name
    folds the same. *)
Definition field_for (names : list string) (key : string) : option string :=
  if bool_decide (key ∈ names) then Some key
  else List.find (fun n => bool_decide (foldName n = foldName key)) names.

(** The decoded value, and whether no error was recorded. *)
Definition dec (A : Type) := json -> A -> A * bool.

Definition dec_string : dec string := fun v old =>
  match v with JStr s => (s, true) | JNull => (old, true) | _ => (old, false) end.

Definition dec_bool : dec bool := fun v old =>
  match v with JBool b => (b, true) | JNull => (old, true) | _ => (old, false) end.

Definition dec_int64 : dec Z := fun v old =>
  match v with
  | JNum n => match ParseInt n with Some z => (z, true) | None => (old, false) end
  | JNull => (old, true)
  | _ => (old, false)
  end.

(** A pointer: [null] resets it, another value allocates when it is nil. *)
Definition dec_ptr {A} (zero : A) (d : dec A) : dec (option A) := fun v old =>
  match v with
  | JNull => (None, true)
  | _ => let '(a, ok) := d v (default zero old) in (Some a, ok)
  end.

Definition decode_struct {A} (strict : bool) (names : list string) (set : string -> json -> A -> A * bool) : dec A :=
  fun v old =>
  match v with
  | JObj ms =>
      fold_left (fun st kv =>
        let '(a, ok) := st in
        match field_for names kv.1 with
        | Some n => let '(a, ok') := set n kv.2 a in (a, ok && ok')
        | None => (a, ok && negb strict)
        end) ms (old, true)
  | JNull => (old, true)
  | _ => (old, false)
  end.

(** [json.Unmarshal(data, &v)] of a fresh [v]; [None]: an error is returned. *)
Definition json_Unmarshal {A} (d : dec A) (zero : A) (data : string) : option A :=
  match json_parse data with
  | None => None
  | Some v => let '(a, ok) := d v zero in if ok then Some a else None
  end.

(** ** Error envelopes *)

Record errorEnvelope := mkErrorEnvelope { ee_Code : string; ee_Message : string; ee_RequestID : string }.

Definition dec_error_data : dec errorEnvelope :=
  decode_struct false ["requestId"] (fun n v e =>
    let '(r, ok) := dec_string v (ee_RequestID e) in
    (mkErrorEnvelope (ee_Code e) (ee_Message e) r, ok)).

Definition dec_errorEnvelope : dec errorEnvelope :=
  decode_struct false ["code"; "message"; "data"] (fun n v e =>
    if bool_decide (n = "code") then
      let '(c, ok) := dec_string v (ee_Code e) in (mkErrorEnvelope c (ee_Message e) (ee_RequestID e), ok)
    else if bool_decide (n = "message") then
      let '(m, ok) := dec_string v (ee_Message e) in (mkErrorEnvelope (ee_Code e) m (ee_RequestID e), ok)
    else dec_error_data v e).

Definition decodeAPIError (status : Z) (endpoint body : string) : APIError :=
  let e := mkAPIError status "" "" "" endpoint body in
  if slen body =? 0 then e
  else match json_Unmarshal dec_errorEnvelope (mkErrorEnvelope "" "" "") body with
       | Some env => mkAPIError status (ee_Code env) (ee_Message env) (ee_RequestID env) endpoint body
       | None => e
       end.

(** * Lemmas *)

Lemma MarshalSigning_print v : MarshalSigning v = Ok (json_print v).
Proof.
  unfold MarshalSigning. cbv zeta. rewrite str_length_app. cbn [String.length].
  destruct (Z.ltb_spec 0 (Z.of_nat (String.length (json_print v) + 1))); [|lia].
  replace (Z.to_nat (Z.of_nat (String.length (json_print v) + 1) - 1)) with (String.length (json_print v)) by lia.
  unfold str_index.
  replace (Z.to_nat (Z.of_nat (String.length (json_print v) + 1) - 1)) with (String.length (json_print v)) by lia.
  assert (Hget : forall s, String.get (String.length s) (s +:+ String "010" "") = Some "010"%char)
    by (induction s as [|c s IH]; [done|exact IH]).
  assert (Htake : forall s, take (String.length s) (chars (s +:+ String "010" "")) = chars s)
    by (induction s as [|c s IH]; [done|]; simpl; by rewrite IH).
  rewrite Hget, Htake. cbn [default]. rewrite bool_decide_true by done. cbn [andb]. by rewrite of_chars_chars.
Qed.

Lemma decodeAPIError_status s ep b : ae_HTTPStatus (decodeAPIError s ep b) = s.
Proof. unfold decodeAPIError. repeat case_match; done. Qed.

Lemma decodeAPIError_endpoint s ep b : ae_Endpoint (decodeAPIError s ep b) = ep /\ ae_Raw (decodeAPIError s ep b) = b.
Proof. unfold decodeAPIError. repeat case_match; done. Qed.

#[export] Hint Rewrite MarshalSigning_print decodeAPIError_status : atome.

Definition dqs (s : string) : string := String "034" (s +:+ String "034" "").

Example decode_error_example :
  decodeAPIError 400 "/auth"
    ("{" +:+ dqs "CODE" +:+ ":" +:+ dqs "PARAMS_WRONG" +:+ "," +:+ dqs "extra" +:+ ":[1]," +:+
     dqs "data" +:+ ":{" +:+ dqs "requestId" +:+ ":" +:+ dqs "r1" +:+ "}}")
  = mkAPIError 400 "PARAMS_WRONG" "" "r1" "/auth"
    ("{" +:+ dqs "CODE" +:+ ":" +:+ dqs "PARAMS_WRONG" +:+ "," +:+ dqs "extra" +:+ ":[1]," +:+
     dqs "data" +:+ ":{" +:+ dqs "requestId" +:+ ":" +:+ dqs "r1" +:+ "}}").
Proof. vm_compute. reflexivity. Qed.

(** * Properties *)

(** What is signed is one JSON document that means what was marshalled: for every
    value made of valid UTF-8 strings and number literals within the nesting limit,
    the bytes of [MarshalSigning] parse back, with Go's decoder, to that value. *)
Theorem MarshalSigning_roundtrip v :
  json_wf v = true -> (json_depth v <= maxNestingDepth)%nat ->
  exists b, MarshalSigning v = Ok b /\ json_parse b = Some v.
Proof.
  intros Hwf Hd. exists (json_print v). rewrite MarshalSigning_print. split; [done|].
  by apply json_parse_print.
Qed.

Lemma MarshalSigning_roundtrip_witness :
  exists b, MarshalSigning (JObj [("amount", jint (-12)); ("name", JStr "Foo & <Co>")]) = Ok b /\
    json_parse b = Some (JObj [("amount", jint (-12)); ("name", JStr "Foo & <Co>")]).
Proof.
  apply MarshalSigning_roundtrip.
  - vm_compute. reflexivity.
  - apply (bool_decide_unpack _). vm_compute. exact I.
Defined.
