(* ===== verification/Schema.v ===== *)
(** * Schema: struct declarations with their json tags, as data.

    A Go struct type with tags is a list of fields ([schema]): the tag's name, whether
    it says [omitempty], the field, and the [codec] of its type.  One declaration gives
    the encoder and the decoder of [encoding/json] for the type, and [roundtrip] is
    proved once for all of them. *)
From S2P Require Import Prelude GoStd GoCrypto Errors GoHttp Json Codec.

(** ** Types *)

(** The settings of a [json.Decoder]: an unknown member is an error, a number in an
    interface is kept as its literal. [json.Unmarshal] has neither. *)
Record decoder := mkDecoder { d_disallowUnknownFields : bool; d_useNumber : bool }.
Definition standard : decoder := mkDecoder false false.

(** A Go type as [encoding/json] sees it: its zero value, its encoder and decoder, what
    [omitempty] takes for empty, the values a field of the type may hold ([c_ok]: an
    [int64] in range, a string of valid UTF-8) and the nesting of its encoding. *)
Record codec (B : Type) := mkCodec {
  c_zero : B;
  c_enc : B -> json;
  c_decode : decoder -> dec B;
  c_empty : B -> bool;
  c_ok : B -> bool;
  c_depth : nat;
}.
Arguments mkCodec {B}.
Arguments c_zero {B}.
Arguments c_enc {B}.
Arguments c_decode {B}.
Arguments c_empty {B}.
Arguments c_ok {B}.
Arguments c_depth {B}.

Definition c_dec {B} (c : codec B) : dec B := c_decode c standard.

Definition str : codec string := mkCodec "" JStr (fun _ => dec_string) is_empty valid_string 0.

Definition int : codec Z :=
  mkCodec 0 jint (fun _ => dec_int64) (fun z => z =? 0) (fun z => (int64_min <=? z) && (z <=? int64_max)) 0.

Definition bool_ : codec bool := mkCodec false JBool (fun _ => dec_bool) negb (fun _ => true) 0.

(** A [float64] is kept as the shortest literal that denotes it, which is what is
    printed. *)
Definition dec_float : dec string := fun v old =>
  match v with
  | JNum n => if float_in_range n then (n, true) else (old, false)
  | JNull => (old, true)
  | _ => (old, false)
  end.
Definition float : codec string :=
  mkCodec "0" JNum (fun _ => dec_float) (fun s => bool_decide (s ∈ ["0"; "-0"]))
    (fun s => valid_number s && float_in_range s && negb (bool_decide (s = "-0"))) 0.

Definition ptr {B} (c : codec B) : codec (option B) :=
  mkCodec None (fun o => match o with Some b => c_enc c b | None => JNull end) (fun d => dec_ptr (c_zero c) (c_decode c d))
    (fun o => match o with None => true | Some _ => false end)
    (fun o => match o with Some b => c_ok c b | None => true end) (c_depth c).

(** A slice; an empty one is nil. An element is decoded over the element an earlier
    occurrence of the member left at its index. *)
Fixpoint dec_elements {B} (d : decoder) (c : codec B) (vs : list json) (old : list B) : list B * bool :=
  match vs with
  | [] => ([], true)
  | v :: vs =>
      let '(b, ok) := c_decode c d v (default (c_zero c) (head old)) in
      let '(bs, ok') := dec_elements d c vs (tail old) in
      (b :: bs, ok && ok')
  end.

Definition dec_slice {B} (d : decoder) (c : codec B) : dec (list B) := fun v old =>
  match v with
  | JArr vs => dec_elements d c vs old
  | JNull => ([], true)
  | _ => (old, false)
  end.

Definition slice {B} (c : codec B) : codec (list B) :=
  mkCodec [] (fun l => match l with [] => JNull | _ => JArr (map (c_enc c) l) end) (fun d => dec_slice d c)
    (fun l => match l with [] => true | _ => false end) (forallb (c_ok c)) (S (c_depth c)).

(** A [map\[string\]any]: its keys are printed in order, its values are JSON values (a
    number keeps its literal); a member is stored over what the map holds, and a number
    that is no [float64] is an error, unless numbers are kept as literals. *)
Definition enc_object (m : gmap string json) : json :=
  JObj (map (fun k => (k, default JNull (m !! k))) (sort_strings (map fst (map_to_list m)))).

Definition dec_object (d : decoder) : dec (option (gmap string json)) := fun v old =>
  match v with
  | JObj ms => (Some (fold_left (fun m kv => <[kv.1 := kv.2]> m) ms (default ∅ old)),
                d_useNumber d || forallb (fun kv => numbers_in_range kv.2) ms)
  | JNull => (None, true)
  | _ => (old, false)
  end.

(** The nesting allowed in such a value. *)
Definition any_depth : nat := 100.

Definition object : codec (option (gmap string json)) :=
  mkCodec None (fun o => match o with Some m => enc_object m | None => JNull end) dec_object
    (fun o => match o with Some m => bool_decide (m = ∅) | None => true end)
    (fun o => match o with
              | Some m => negb (bool_decide (m = ∅)) &&
                  forallb (fun kv => valid_string kv.1 && json_wf kv.2 && (json_depth kv.2 <=? any_depth)%nat && numbers_in_range kv.2)
                    (map_to_list m)
              | None => true
              end) (S any_depth).

(** ** Structs *)

Record field_decl (A : Type) := mkField {
  f_type : Type;
  f_name : string;
  f_omitempty : bool;
  f_get : A -> f_type;
  f_set : f_type -> A -> A;
  f_codec : codec f_type;
}.
Arguments mkField {A f_type}.
Arguments f_type {A}.
Arguments f_name {A}.
Arguments f_omitempty {A}.
Arguments f_get {A}.
Arguments f_set {A}.
Arguments f_codec {A}.

(** The update of a record at the projection [p]. *)
Ltac setter p :=
  match type of p with
  | ?A -> ?B =>
      let t := constr:(ltac:(intros b a; pose (v := p a); pose (w := a); destruct a;
                 let v' := eval cbv in v in let w' := eval cbv in w in
                 match eval pattern v' in w' with ?f _ => exact (f b) end) : B -> A -> A) in
      let t := eval cbv zeta beta in t in exact t
  end.

Notation "n '~>' p 'as' c" := (mkField n false p ltac:(setter p) c)
  (at level 60, p at level 9, c at level 9, only parsing) : go_scope.
Notation "n '~>' p 'as' c 'omitempty'" := (mkField n true p ltac:(setter p) c)
  (at level 60, p at level 9, c at level 9, only parsing) : go_scope.

Section Schema.
Context {A : Type}.

Definition field_omitted (f : field_decl A) (a : A) : bool :=
  f_omitempty f && c_empty (f_codec f) (f_get f a).

Definition enc_field (f : field_decl A) (a : A) : list (string * json) :=
  if field_omitted f a then [] else [(f_name f, c_enc (f_codec f) (f_get f a))].

Definition enc_struct (fs : list (field_decl A)) (a : A) : json :=
  JObj (flat_map (fun f => enc_field f a) fs).

Definition dec_field (d : decoder) (f : field_decl A) (v : json) (a : A) : A * bool :=
  let '(b, ok) := c_decode (f_codec f) d v (f_get f a) in (f_set f b a, ok).

Definition dec_member (d : decoder) (fs : list (field_decl A)) (n : string) (v : json) (a : A) : A * bool :=
  match List.find (fun f => bool_decide (f_name f = n)) fs with
  | Some f => dec_field d f v a
  | None => (a, true)
  end.

Definition struct_ok (fs : list (field_decl A)) (a : A) : bool :=
  forallb (fun f => c_ok (f_codec f) (f_get f a)) fs.

Definition struct (zero : A) (fs : list (field_decl A)) : codec A :=
  mkCodec zero (enc_struct fs) (fun d => decode_struct (d_disallowUnknownFields d) (map f_name fs) (dec_member d fs))
    (fun _ => false) (struct_ok fs) (S (list_max (map (fun f => c_depth (f_codec f)) fs))).

End Schema.

(** An embedded struct: its fields are fields of the outer one. *)
Definition embed {A B} (get : A -> B) (set : B -> A -> A) (f : field_decl B) : field_decl A :=
  mkField (f_name f) (f_omitempty f) (fun a => f_get f (get a)) (fun b a => set (f_set f b (get a)) a) (f_codec f).

(** What travels: [MarshalSigning] of a value and [json.Unmarshal] of bytes. *)
Definition marshal {A} (c : codec A) (a : A) : res string := MarshalSigning (c_enc c a).
Definition unmarshal {A} (c : codec A) (data : string) : option A := json_Unmarshal (c_dec c) (c_zero c) data.

(** * Laws *)

(** It prints, numbers of the range of [float64]. *)
Class Printable {B} (c : codec B) : Prop := {
  law_wf : forall b, c_ok c b = true -> json_wf (c_enc c b) = true;
  law_depth : forall b, c_ok c b = true -> (json_depth (c_enc c b) <= c_depth c)%nat;
  law_range : forall b, c_ok c b = true -> numbers_in_range (c_enc c b) = true;
}.

(** It prints, and decodes to the value printed. *)
Class Lawful {B} (c : codec B) : Prop := {
  lawful_printable :: Printable c;
  law_dec : forall d b, c_ok c b = true -> c_decode c d (c_enc c b) (c_zero c) = (b, true);
  law_empty : forall b, c_ok c b = true -> c_empty c b = true -> b = c_zero c;
}.

Arguments law_dec {B} c {_}.
Arguments law_empty {B} c {_}.
Arguments law_wf {B} c {_}.
Arguments law_depth {B} c {_}.
Arguments law_range {B} c {_}.

(** A type no value of which prints as [null]. *)
Class NonNull {B} (c : codec B) : Prop := non_null : forall b, c_enc c b <> JNull.

#[export] Instance str_printable : Printable str.
Proof. split; simpl; [done|lia|done]. Qed.
#[export] Instance str_lawful : Lawful str.
Proof. split; [apply _|done|by intros b _ ->%is_empty_true]. Qed.

#[export] Instance int_printable : Printable int.
Proof.
  split; [|simpl; lia|]; intros b H; cbn [int c_enc c_ok jint json_wf numbers_in_range] in *; [apply itoa_valid_number|].
  apply float_in_range_itoa. to_prop. exact H.
Qed.
#[export] Instance int_lawful : Lawful int.
Proof.
  split; [apply _| |].
  - intros d b H. cbn in *. to_prop. by rewrite ParseInt_itoa.
  - intros b _ H. cbn in *. by to_prop.
Qed.

#[export] Instance bool_printable : Printable bool_.
Proof. split; simpl; [done|lia|done]. Qed.
#[export] Instance bool_lawful : Lawful bool_.
Proof. split; [apply _|done|by intros [] _]. Qed.

#[export] Instance float_printable : Printable float.
Proof. split; [by intros b [[H _]%andb_true_iff _]%andb_true_iff|simpl; lia|by intros b [[_ H]%andb_true_iff _]%andb_true_iff]. Qed.
#[export] Instance float_lawful : Lawful float.
Proof.
  split; [apply _|intros d|]; intros b H; cbn [float c_ok c_zero c_empty c_decode c_enc dec_float] in *;
    rewrite !andb_true_iff, negb_true_iff, bool_decide_eq_false in H; destruct H as [[_ H] Hz]; [by rewrite H|].
  intros Hb. rewrite bool_decide_eq_true in Hb. set_solver.
Qed.

#[export] Instance str_nonnull : NonNull str.
Proof. by intros b. Qed.
#[export] Instance int_nonnull : NonNull int.
Proof. by intros b. Qed.
#[export] Instance bool_nonnull : NonNull bool_.
Proof. by intros b. Qed.
#[export] Instance float_nonnull : NonNull float.
Proof. by intros b. Qed.
#[export] Instance struct_nonnull {A} (zero : A) fs : NonNull (struct zero fs).
Proof. by intros b. Qed.

#[export] Instance ptr_printable {B} (c : codec B) `{!Printable c} : Printable (ptr c).
Proof.
  split.
  - intros [b|] H; [|done]. exact (law_wf c b H).
  - intros [b|] H; [exact (law_depth c b H)|cbn; lia].
  - intros [b|] H; [|done]. exact (law_range c b H).
Qed.
#[export] Instance ptr_lawful {B} (c : codec B) `{!Lawful c, !NonNull c} : Lawful (ptr c).
Proof.
  split; [apply _| |].
  - intros d [b|] H; [|done]. cbn in *. pose proof (law_dec c d b H) as Hd. pose proof (non_null (c := c) b).
    unfold dec_ptr. cbn [default]. destruct (c_enc c b); [done|by rewrite Hd..].
  - by intros [b|].
Qed.

Lemma dec_elements_enc {B} d (c : codec B) `{!Lawful c} l :
  forallb (c_ok c) l = true -> dec_elements d c (map (c_enc c) l) [] = (l, true).
Proof.
  induction l as [|b l IH]; cbn [forallb map dec_elements]; [done|].
  rewrite andb_true_iff. intros [Hb Hl]. cbn [head tail default].
  by rewrite (law_dec c d b Hb), (IH Hl).
Qed.

#[export] Instance slice_printable {B} (c : codec B) `{!Printable c} : Printable (slice c).
Proof.
  split.
  - intros [|b l] H; [done|]. cbn [slice c_enc c_ok] in *. cbn [json_wf].
    rewrite forallb_forall in *. intros j (x & <- & Hx)%in_map_iff. by apply (law_wf c), H.
  - intros [|b l] H; cbn [slice c_enc c_ok c_depth] in *; [cbn; lia|]. cbn [json_depth].
    apply le_n_S, list_max_le, List.Forall_map, List.Forall_map, Forall_forall. rewrite forallb_forall in H.
    intros x Hx%list_elem_of_In. by apply (law_depth c), H.
  - intros [|b l] H; [done|]. cbn [slice c_enc c_ok] in *. cbn [numbers_in_range].
    rewrite forallb_forall in *. intros j (x & <- & Hx)%in_map_iff. by apply (law_range c), H.
Qed.
#[export] Instance slice_lawful {B} (c : codec B) `{!Lawful c} : Lawful (slice c).
Proof.
  split; [apply _| |by intros [|b l]].
  intros d [|b l] H; [done|]. cbn [slice c_enc c_decode c_zero dec_slice]. by apply dec_elements_enc.
Qed.

(** The members printed for a map are its bindings. *)
Lemma enc_object_members m :
  map (fun k => (k, default JNull (m !! k))) (sort_strings (map fst (map_to_list m))) ≡ₚ map_to_list m.
Proof.
  rewrite sort_strings_perm.
  assert (forall l, (forall kv, kv ∈ l -> m !! kv.1 = Some kv.2) ->
    map (fun k => (k, default JNull (m !! k))) (map fst l) = l) as Hl.
  { induction l as [|[k v] l IH]; intros H; [done|]. cbn [map fst].
    rewrite (H (k, v) ltac:(by left) : m !! k = Some v). cbn [default snd]. f_equal. apply IH. intros kv Hkv. apply H. by right. }
  rewrite Hl; [done|]. intros [k v] Hkv. by apply elem_of_map_to_list.
Qed.

Lemma fold_insert_members (ms : list (string * json)) (m : gmap string json) :
  fold_left (fun m kv => <[kv.1 := kv.2]> m) ms m = list_to_map (rev ms) ∪ m.
Proof.
  revert m. induction ms as [|[k v] ms IH]; intros m; cbn [fold_left rev].
  - by rewrite list_to_map_nil, (left_id_L ∅ (∪)).
  - rewrite IH, list_to_map_app, list_to_map_cons, list_to_map_nil, <- (assoc_L (∪)). f_equal. cbn [fst snd].
    by rewrite insert_union_singleton_l.
Qed.

#[export] Instance object_printable : Printable object.
Proof.
  split; intros [m|]; try (cbn; done || lia); cbn [object c_ok c_enc c_depth enc_object];
    rewrite andb_true_iff, forallb_forall; intros [_ H].
  - cbn [json_wf]. apply forallb_forall. intros kv Hin%list_elem_of_In. rewrite enc_object_members in Hin.
    apply list_elem_of_In in Hin. specialize (H kv Hin). rewrite !andb_true_iff in H. apply andb_true_iff, H.
  - cbn [json_depth]. apply le_n_S, list_max_le, List.Forall_map, Forall_forall. intros kv Hin.
    rewrite enc_object_members in Hin. apply list_elem_of_In in Hin. specialize (H kv Hin).
    rewrite !andb_true_iff, Nat.leb_le in H. apply H.
  - cbn [numbers_in_range]. apply forallb_forall. intros kv Hin%list_elem_of_In. rewrite enc_object_members in Hin.
    apply list_elem_of_In in Hin. specialize (H kv Hin). rewrite !andb_true_iff in H. apply H.
Qed.

#[export] Instance object_lawful : Lawful object.
Proof.
  split; [apply _| |].
  - intros d [m|] H; [|done]. pose proof (law_range object (Some m) H) as Hr.
    cbn [object c_enc c_decode c_zero enc_object dec_object default numbers_in_range] in *. rewrite Hr, orb_true_r. do 2 f_equal.
    rewrite fold_insert_members, (right_id_L ∅ (∪)). etransitivity; [|apply list_to_map_to_list].
    apply list_to_map_proper; [|by rewrite <- Permutation_rev, enc_object_members].
    rewrite <- Permutation_rev, enc_object_members. apply NoDup_fst_map_to_list.
  - intros [m|] H He; [|done]. cbn in *. by rewrite He in H.
Qed.

(** ** Structs *)

(** [fs] decodes from [pre] to [a] whatever subset of the members is omitted: each
    field is still zero when its turn comes, and setting all of them gives [a]. *)
Fixpoint rebuilds {A} (fs : list (field_decl A)) (a pre : A) : Prop :=
  match fs with
  | [] => pre = a
  | f :: fs =>
      f_get f pre = c_zero (f_codec f) /\
      (f_get f a = c_zero (f_codec f) -> f_set f (f_get f a) pre = pre) /\
      rebuilds fs a (f_set f (f_get f a) pre)
  end.

(** What a declaration must satisfy to print: printable types, names of valid UTF-8. *)
Class Prints {A} (fs : list (field_decl A)) : Prop := {
  prints_types : Forall (fun f => Printable (f_codec f)) fs;
  prints_names : forallb (fun f => valid_string (f_name f)) fs = true;
}.

(** And to be decoded: its types are lawful, its names distinct, its fields all those of
    the record (a struct with a field tagged ["-"] only prints). *)
Class Schema {A} (zero : A) (fs : list (field_decl A)) : Prop := {
  schema_prints :: Prints fs;
  schema_lawful : Forall (fun f => Lawful (f_codec f)) fs;
  schema_names : bool_decide (NoDup (map f_name fs)) = true;
  schema_rebuilds : forall a, rebuilds fs a zero;
}.

Lemma find_name {A} (fs : list (field_decl A)) f :
  NoDup (map f_name fs) -> f ∈ fs -> List.find (fun g => bool_decide (f_name g = f_name f)) fs = Some f.
Proof.
  induction fs as [|g fs IH]; cbn [map List.find]; intros Hnd Hf; [by apply not_elem_of_nil in Hf|].
  apply NoDup_cons in Hnd as [Hg Hnd]. apply elem_of_cons in Hf as [->|Hf]; [by rewrite bool_decide_true|].
  rewrite bool_decide_false; [auto|]. intros E. apply Hg. rewrite E. apply list_elem_of_In, in_map, list_elem_of_In, Hf.
Qed.

Lemma dec_fields_enc {A} d (all fs : list (field_decl A)) a pre :
  NoDup (map f_name all) -> Forall (fun f => Lawful (f_codec f)) fs -> (forall f, f ∈ fs -> f ∈ all) ->
  struct_ok fs a = true -> rebuilds fs a pre ->
  fold_left (fun st kv =>
        let '(a, ok) := st in
        match field_for (map f_name all) kv.1 with
        | Some n => let '(a, ok') := dec_member d all n kv.2 a in (a, ok && ok')
        | None => (a, ok && negb (d_disallowUnknownFields d))
        end) (flat_map (fun f => enc_field f a) fs) (pre, true) = (a, true).
Proof.
  intros Hnd. revert pre. induction fs as [|f fs IH]; intros pre Hl Hin Hok Hr; [by simpl in Hr; subst|].
  cbn [rebuilds struct_ok forallb flat_map] in *. apply andb_true_iff in Hok as [Hf Hok].
  apply Forall_cons in Hl as [Hlf Hl]. destruct Hr as (Hz & Hskip & Hr).
  assert (Hrest : forall g, g ∈ fs -> g ∈ all) by (intros g Hg; apply Hin; by right).
  rewrite fold_left_app. unfold enc_field. destruct (field_omitted f a) eqn:E; cbn [fold_left].
  - unfold field_omitted in E. apply andb_true_iff in E as [_ E].
    rewrite Hskip in Hr by (by apply law_empty). by apply IH.
  - cbn [fst snd]. unfold field_for, dec_member.
    rewrite bool_decide_true by (apply list_elem_of_In, in_map, list_elem_of_In, Hin; by left).
    rewrite find_name by (try done; apply Hin; by left). unfold dec_field.
    rewrite Hz, law_dec by done. cbn [andb]. by apply IH.
Qed.

Lemma enc_fields_in {A} (fs : list (field_decl A)) a n v :
  (n, v) ∈ flat_map (fun f => enc_field f a) fs ->
  exists f, f ∈ fs /\ n = f_name f /\ v = c_enc (f_codec f) (f_get f a).
Proof.
  rewrite list_elem_of_In, in_flat_map. intros (f & Hf & Hv). exists f. split; [by apply list_elem_of_In|].
  unfold enc_field in Hv. destruct (field_omitted f a); [done|]. simpl in Hv. destruct Hv as [[= -> ->]|[]]. done.
Qed.

#[export] Instance struct_printable {A} (zero : A) fs `{!Prints fs} : Printable (struct zero fs).
Proof.
  pose proof (prints_names (fs := fs)) as Hv. rewrite forallb_forall in Hv.
  pose proof (prints_types (fs := fs)) as Hl. rewrite Forall_forall in Hl.
  split; cbn [struct c_ok c_enc c_depth].
  - intros a Hok. cbn [enc_struct json_wf]. apply forallb_forall. intros [n v] Hin.
    apply list_elem_of_In, enc_fields_in in Hin as (f & Hf & -> & ->). cbn [fst snd].
    pose proof (Hl f Hf). apply list_elem_of_In in Hf as Hf'. apply andb_true_iff. split; [by apply Hv|].
    apply (law_wf (f_codec f)). unfold struct_ok in Hok. rewrite forallb_forall in Hok. by apply Hok.
  - intros a Hok. cbn [enc_struct json_depth]. apply le_n_S, list_max_le, List.Forall_map, Forall_forall.
    intros [n v] Hin. apply enc_fields_in in Hin as (f & Hf & -> & ->). cbn [snd].
    pose proof (Hl f Hf). unfold struct_ok in Hok. rewrite forallb_forall in Hok.
    etransitivity; [apply (law_depth (f_codec f)), Hok; by apply list_elem_of_In|].
    pose proof (proj1 (list_max_le (map (fun f => c_depth (f_codec f)) fs) _) (le_n _)) as Hmax.
    rewrite List.Forall_map, Forall_forall in Hmax. by apply Hmax.
  - intros a Hok. cbn [enc_struct numbers_in_range]. apply forallb_forall. intros [n v] Hin.
    apply list_elem_of_In, enc_fields_in in Hin as (f & Hf & -> & ->). cbn [snd].
    pose proof (Hl f Hf). apply list_elem_of_In in Hf.
    apply (law_range (f_codec f)). unfold struct_ok in Hok. rewrite forallb_forall in Hok. by apply Hok.
Qed.

#[export] Instance struct_lawful {A} (zero : A) fs `{!Schema zero fs} : Lawful (struct zero fs).
Proof.
  pose proof (schema_names (zero := zero) (fs := fs)) as Hn. apply bool_decide_eq_true in Hn.
  split; [apply _| |done]. intros d a Hok. apply dec_fields_enc; [done| |done|done|apply schema_rebuilds].
  apply schema_lawful.
Qed.

(** The bytes signed and sent parse to the encoding. *)
Lemma marshal_parses {A} (c : codec A) `{!Printable c} a :
  c_ok c a = true -> (c_depth c <= maxNestingDepth)%nat ->
  exists b, marshal c a = Ok b /\ json_parse b = Some (c_enc c a).
Proof.
  intros Hok Hd. pose proof (law_depth c a Hok). exists (json_print (c_enc c a)).
  unfold marshal. rewrite MarshalSigning_print. split; [done|].
  apply json_parse_print; [by apply (law_wf c)|lia].
Qed.

(** What is marshalled is decoded to the same value. *)
Lemma unmarshal_marshal {A} (c : codec A) `{!Lawful c} a :
  c_ok c a = true -> (c_depth c <= maxNestingDepth)%nat ->
  exists b, marshal c a = Ok b /\ json_parse b = Some (c_enc c a) /\ unmarshal c b = Some a.
Proof.
  intros Hok Hd. destruct (marshal_parses c a Hok Hd) as (b & Hb & Hp). exists b.
  unfold unmarshal, json_Unmarshal, c_dec. by rewrite Hp, law_dec.
Qed.

(** ** Automation *)

Ltac rebuilt := repeat split; cbn; try reflexivity; intros; subst; reflexivity.
Ltac rebuild := let a := fresh in intros a; destruct a; rebuilt.

(** The instances of a declaration. *)
Ltac fields := repeat apply Forall_cons_2; try apply Forall_nil_2; apply _.
Ltac prints := split; [fields|vm_compute; reflexivity].
Ltac schema_by t := split; [prints|fields|vm_compute; reflexivity|t].
Ltac schema := schema_by rebuild.
(** When the first field is an embedded struct. *)
Ltac schema_embedded :=
  let a := fresh in let e := fresh in schema_by ltac:(intros a; destruct a as [e]; destruct e; rebuilt).
