(* ===== verification/Transport.v ===== *)
(** * Transport: [atomefin/transport]: the retry policy ([retry.go]), header and log
    redaction ([logging.go], [slog.go]) and the User-Agent ([useragent.go]). *)
From S2P Require Import Prelude GoStd Errors GoHttp.

(** ** retry.go *)

Definition Millisecond : Z := 1000000.
Definition Second : Z := 1000 * Millisecond.

(** A nil callback is [None]. *)
Record RetryPolicy := mkRetryPolicy {
  MaxAttempts : Z;
  Base : Z;
  Cap : Z;
  Jitter : float64;
  RetryOnStatus : option (Z -> bool);
  RetryOnTransportError : option (option error -> bool);
}.

Definition DefaultRetryOnStatus (status : Z) : bool := bool_decide (status ∈ [500; 502; 503; 504]).

Definition DefaultRetryOnTransportError (err : option error) : bool := bool_decide (is_Some err).

Definition DefaultRetryPolicy : RetryPolicy := {|
  MaxAttempts := 3;
  Base := 250 * Millisecond;
  Cap := 4 * Second;
  Jitter := f64_0_2;
  RetryOnStatus := Some DefaultRetryOnStatus;
  RetryOnTransportError := Some DefaultRetryOnTransportError;
|}.

Definition retryError (e : string) : error := ENew ("atomefin/transport: retry policy: " +:+ e).

Definition Validate (p : RetryPolicy) : option error :=
  reject retryError "MaxAttempts must be >= 1" when MaxAttempts p <? 1 ;;
  reject retryError "Base must be >= 0" when Base p <? 0 ;;
  reject retryError "Cap must be >= 0" when Cap p <? 0 ;;
  reject retryError "Base must be <= Cap" when (Cap p >? 0) && (Base p >? Cap p) ;;
  reject retryError "Jitter must be in [0,1]" when flt (Jitter p) (f64 0) || flt (f64 1) (Jitter p) ;;
  None.

Section Backoff.
Context `{FloatConv}.

(** The delay before the jitter: [p.Base << shift], capped. *)
Definition backoff_base (p : RetryPolicy) (attempt : Z) : Z :=
  let attempt := if attempt <? 1 then 1 else attempt in
  let shift := attempt - 1 in
  let shift := if shift >? 30 then 30 else shift in
  let d := i64 (Z.shiftl (Base p) shift) in
  if (Cap p >? 0) && (d >? Cap p) then Cap p else d.

(** [rnd] is the outcome of [rand.Read] as a big-endian [uint64]. *)
Definition Backoff (p : RetryPolicy) (rnd : res Z) (attempt : Z) : Z :=
  let d := backoff_base p attempt in
  if flt (f64 0) (Jitter p) && (d >? 0) then
    match rnd with
    | Err _ => d
    | Ok u =>
        let r := fsub (fmul (fdiv (f64 u) (f64 (2 ^ 64 - 1))) (f64 2)) (f64 1) in
        let d := f64_to_int64 (fmul (f64 d) (fadd (f64 1) (fmul (Jitter p) r))) in
        if d <? 0 then 0 else d
    end
  else d.
End Backoff.

(** ** logging.go *)

Definition RedactedAuthorization : string := "[REDACTED]".

Definition isSensitiveHeader (name : string) : bool :=
  bool_decide (CanonicalHeaderKey name ∈
    ["Authorization"; "Cookie"; "Set-Cookie"; "Proxy-Authorization"; "Sessionid"]).

Definition RedactHeaders (h : Header) : Header :=
  map_imap (fun k v => Some (if isSensitiveHeader k then [RedactedAuthorization] else v)) h.

(** ** slog.go *)

(** A logged value: the argument list alternates keys and values of any type. *)
Inductive any : Type := VString (s : string) | VInt (z : Z) | VErr (e : error) | VOther.

Definition isSensitiveLogKey (k : string) : bool :=
  bool_decide (ToLower k ∈
    ["authorization"; "auth"; "cookie"; "set-cookie"; "proxy-authorization"; "sessionid";
     "session_id"; "session-id"; "shipping_name"; "shippingname"; "shipping_phone_no";
     "shippingphoneno"; "external_reference_uid"; "externalreferenceuid"]).

(** The loop steps by two; a dangling last element passes through. *)
Fixpoint redactKVs (kv : list any) : list any :=
  match kv with
  | k :: v :: kv' =>
      k :: (match k with
            | VString k => if isSensitiveLogKey k then VString RedactedAuthorization else v
            | _ => v
            end) :: redactKVs kv'
  | _ => kv
  end.

(** An [slog.Logger], by what a call at a level does to its state. *)
Definition slog_Logger (S : Type) : Type := string -> string -> list any -> S -> S.

(** [slogAdapter]; [slog_Default] stands in for a nil logger. *)
Definition NewSlogLogger {S} (slog_Default : slog_Logger S) (l : option (slog_Logger S)) : slog_Logger S :=
  fun level msg kv => default slog_Default l level msg (redactKVs kv).

(** ** useragent.go *)

Definition DefaultProductName : string := "atome-fin-go-sdk".

(** [runtime.Version()\[2:\]] (the version without its leading ["go"]), [GOOS] and
    [GOARCH] are those of the build. *)
Class Runtime := { go_version : string; GOOS : string; GOARCH : string }.

Definition BuildUserAgent `{Runtime} (version suffix : string) : string :=
  let b := DefaultProductName in
  let b := if negb (is_empty version) then b +:+ "/" +:+ version else b in
  let b := b +:+ " (go" +:+ go_version +:+ "; " +:+ GOOS +:+ "/" +:+ GOARCH +:+ ")" in
  let suffix := TrimSpace suffix in
  if negb (is_empty suffix) then b +:+ " " +:+ suffix else b.

(** * Lemmas *)

Lemma backoff_base_eq p attempt :
  0 <= Base p < 2 ^ 33 ->
  backoff_base p attempt =
    let d := Base p * 2 ^ Z.min 30 (Z.max 0 (attempt - 1)) in
    if Cap p >? 0 then Z.min (Cap p) d else d.
Proof.
  intros Hb. unfold backoff_base. cbv zeta.
  assert ((if attempt <? 1 then 1 else attempt) = Z.max 1 attempt) as ->
    by (destruct (Z.ltb_spec attempt 1); lia).
  set (sh := Z.min 30 (Z.max 0 (attempt - 1))).
  assert ((if Z.max 1 attempt - 1 >? 30 then 30 else Z.max 1 attempt - 1) = sh) as ->
    by (unfold sh; destruct (Z.gtb_spec (Z.max 1 attempt - 1) 30); lia).
  assert (Hs : 0 <= sh <= 30) by (unfold sh; lia).
  assert (1 <= 2 ^ sh <= 2 ^ 30).
  { split; [apply (Z.pow_le_mono_r 2 0); lia|apply Z.pow_le_mono_r; lia]. }
  rewrite Z.shiftl_mul_pow2 by lia. rewrite i64_id.
  2:{ unfold in_int64, int64_min, int64_max. nia. }
  destruct (Z.gtb_spec (Cap p) 0), (Z.gtb_spec (Base p * 2 ^ sh) (Cap p)); simpl; lia.
Qed.

Lemma isSensitiveHeader_canonical name :
  isSensitiveHeader (CanonicalHeaderKey name) = isSensitiveHeader name.
Proof. unfold isSensitiveHeader. by rewrite CanonicalHeaderKey_idemp. Qed.

Lemma Validate_None p :
  Validate p = None <->
  1 <= MaxAttempts p /\ 0 <= Base p /\ 0 <= Cap p /\ (Cap p = 0 \/ Base p <= Cap p) /\
  flt (Jitter p) (f64 0) = false /\ flt (f64 1) (Jitter p) = false.
Proof.
  unfold Validate. rewrite !reject_None, orb_false_iff, andb_false_iff, !Z.gtb_ltb, !Z.ltb_ge.
  intuition lia.
Qed.

(** * Properties *)

(** [Validate] accepts exactly the policies it documents, the default policy
    among them. *)
Theorem Validate_spec p :
  (Validate p = None <->
   1 <= MaxAttempts p /\ 0 <= Base p /\ 0 <= Cap p /\ (Cap p = 0 \/ Base p <= Cap p) /\
   flt (Jitter p) (f64 0) = false /\ flt (f64 1) (Jitter p) = false) /\
  Validate DefaultRetryPolicy = None.
Proof. split; [apply Validate_None|reflexivity]. Qed.

(** The backoff of a validated policy whose base is below 2^33 ns (about 8.6 s):
    without jitter (none configured, or no randomness available) it is exactly
    [min(Cap, Base * 2^(attempt-1))], the exponent saturating at 30, it grows with the
    attempt and never exceeds a positive [Cap]; with jitter it is never negative,
    however the platform converts out-of-range floats. *)
Theorem Backoff_spec `{FloatConv} p rnd attempt :
  Validate p = None -> Base p < 2 ^ 33 ->
  let plain n := Base p * 2 ^ Z.min 30 (Z.max 0 (n - 1)) in
  (flt (f64 0) (Jitter p) = false \/ (exists e, rnd = Err e) ->
   Backoff p rnd attempt = (if Cap p >? 0 then Z.min (Cap p) (plain attempt) else plain attempt) /\
   (forall attempt', attempt <= attempt' -> Backoff p rnd attempt <= Backoff p rnd attempt') /\
   (0 < Cap p -> Backoff p rnd attempt <= Cap p)) /\
  0 <= Backoff p rnd attempt.
Proof.
  intros (_ & Hb0 & Hc0 & _)%Validate_None Hb plain.
  assert (Hpl : forall n, 0 <= plain n) by (intros n; apply Z.mul_nonneg_nonneg; [done|apply Z.pow_nonneg; lia]).
  assert (Heq : flt (f64 0) (Jitter p) = false \/ (exists e, rnd = Err e) -> forall n,
    Backoff p rnd n = if Cap p >? 0 then Z.min (Cap p) (plain n) else plain n).
  { intros Hj n. unfold Backoff. rewrite backoff_base_eq by lia. fold (plain n).
    destruct Hj as [-> | [e ->]]; [done|]. by destruct (_ && _). }
  split.
  - intros Hj. rewrite !Heq by done. split; [done|]. split.
    + intros n' Hn. rewrite !Heq by done.
      assert (plain attempt <= plain n').
      { unfold plain. apply Z.mul_le_mono_nonneg_l; [done|]. apply Z.pow_le_mono_r; lia. }
      destruct (Cap p >? 0); lia.
    + intros Hc. destruct (Z.gtb_spec (Cap p) 0); lia.
  - assert (Hd : 0 <= backoff_base p attempt).
    { rewrite backoff_base_eq by lia. fold (plain attempt). specialize (Hpl attempt). cbv zeta.
      destruct (Z.gtb_spec (Cap p) 0); lia. }
    unfold Backoff. destruct (_ && _); [|done]. destruct rnd as [u|]; [|done].
    cbv zeta. set (d := f64_to_int64 _). destruct (Z.ltb_spec d 0); lia.
Qed.

Definition plain_policy : RetryPolicy :=
  mkRetryPolicy 5 (Second) (4 * Second) (f64 0) None None.

Lemma Backoff_spec_witness :
  @Backoff amd64_conv plain_policy (Ok 12345) 3 = 4 * Second.
Proof.
  destruct (@Backoff_spec amd64_conv plain_policy (Ok 12345) 3 eq_refl eq_refl) as [H _].
  destruct H as [-> _]; [by left|]. reflexivity.
Defined.

(** Jitter is applied after the cap: the default policy (a cap of 4 s) may sleep 4.8 s. *)
Example backoff_above_cap :
  @Backoff amd64_conv DefaultRetryPolicy (Ok (2 ^ 64 - 1)) 10 = 4800 * Millisecond.
Proof. vm_compute. reflexivity. Qed.

(** A base of 2^33 ns overflows at the saturated shift; the delay is negative. *)
Example backoff_overflow :
  @Backoff amd64_conv (mkRetryPolicy 40 (2 ^ 33) 0 (f64 0) None None) (Ok 0) 31 = int64_min.
Proof. vm_compute. reflexivity. Qed.

(** Two argument lists that differ at most in values that follow a sensitive key. *)
Inductive same_but_sensitive : list any -> list any -> Prop :=
| sbs_nil : same_but_sensitive [] []
| sbs_dangling x : same_but_sensitive [x] [x]
| sbs_same k v l1 l2 : same_but_sensitive l1 l2 -> same_but_sensitive (k :: v :: l1) (k :: v :: l2)
| sbs_sensitive k v1 v2 l1 l2 :
    isSensitiveLogKey k = true -> same_but_sensitive l1 l2 ->
    same_but_sensitive (VString k :: v1 :: l1) (VString k :: v2 :: l2).

Lemma RedactHeaders_lookup h k :
  RedactHeaders h !! k =
    if isSensitiveHeader k then (fun _ => [RedactedAuthorization]) <$> h !! k else h !! k.
Proof.
  unfold RedactHeaders. rewrite map_lookup_imap. destruct (h !! k), (isSensitiveHeader k); done.
Qed.

(** C40.  Redaction is complete and loses nothing else: two header maps with the same
    names and two log calls that differ only in values under sensitive names have the
    same redacted form, and a header under any other name keeps its values; what the
    logger behind the adapter does is the same for the two calls. *)
Theorem redaction_noninterference (h1 h2 : Header) (kv1 kv2 : list any) :
  dom h1 = dom h2 ->
  (forall k, isSensitiveHeader k = false -> h1 !! k = h2 !! k) ->
  same_but_sensitive kv1 kv2 ->
  RedactHeaders h1 = RedactHeaders h2 /\
  (forall k, isSensitiveHeader k = false -> RedactHeaders h1 !! k = h1 !! k) /\
  redactKVs kv1 = redactKVs kv2 /\
  length (redactKVs kv1) = length kv1 /\
  (forall S (slog_Default : slog_Logger S) l level msg s,
     NewSlogLogger slog_Default l level msg kv1 s = NewSlogLogger slog_Default l level msg kv2 s).
Proof.
  intros Hd Hs Hkv. assert (Hr : redactKVs kv1 = redactKVs kv2).
  { induction Hkv as [| |? ? ? ? _ IH|? ? ? ? ? Hk _ IH]; simpl; rewrite ?IH, ?Hk; done. }
  split_and!; [| |done| |intros; unfold NewSlogLogger; by rewrite Hr].
  - apply map_eq. intros k. rewrite !RedactHeaders_lookup.
    destruct (isSensitiveHeader k) eqn:E; [|by apply Hs].
    destruct (h1 !! k) eqn:E1, (h2 !! k) eqn:E2; try done; exfalso.
    + apply not_elem_of_dom in E2. apply E2. rewrite <- Hd. by eapply elem_of_dom_2.
    + apply not_elem_of_dom in E1. apply E1. rewrite Hd. by eapply elem_of_dom_2.
  - intros k E. by rewrite RedactHeaders_lookup, E.
  - clear Hs Hr. induction Hkv as [| |? ? ? ? _ IH|? ? ? ? ? Hk _ IH]; simpl; auto.
Qed.

Lemma redaction_noninterference_witness :
  RedactHeaders {[ "Authorization" := ["Bearer x"]; "Accept" := ["*/*"] ]}
    = RedactHeaders {[ "Authorization" := ["Bearer y"]; "Accept" := ["*/*"] ]} /\
  redactKVs [VString "Session_ID"; VString "s1"] = redactKVs [VString "Session_ID"; VString "s2"].
Proof.
  destruct (redaction_noninterference
    {[ "Authorization" := ["Bearer x"]; "Accept" := ["*/*"] ]}
    {[ "Authorization" := ["Bearer y"]; "Accept" := ["*/*"] ]}
    [VString "Session_ID"; VString "s1"] [VString "Session_ID"; VString "s2"]) as (H1 & _ & H2 & _).
  - set_solver.
  - intros k Hk. destruct (decide (k = "Authorization")) as [->|]; [by vm_compute in Hk|].
    by rewrite !lookup_insert_ne by done.
  - by repeat constructor.
  - by split.
Defined.
