(* ===== verification/World.v ===== *)
(** * World: time, contexts and effects.

    The client talks to a network, to the partner's observer and logger, to a random
    source and to the clock.  A call is a function of the state [world] (the current
    instant and everything done so far, in order); what the outside answers is an
    [Env] of arbitrary functions, indexed by the number of effects already performed
    (log lines not counted), so a theorem for every [Env] covers every behaviour of the outside, including time
    passing and contexts expiring between any two effects. *)
From S2P Require Import Prelude GoStd Errors GoHttp Transport.

(** ** Contexts *)

(** A context is the instant at which it is done, if ever, with the error it then has
    ([Canceled] or [DeadlineExceeded]). *)
Record context := mkContext { ctx_done : option (Z * error) }.

Definition Background : context := mkContext None.

Definition ctx_Err (ctx : context) (now : Z) : option error :=
  match ctx_done ctx with
  | Some (t, e) => if t <=? now then Some e else None
  | None => None
  end.

(** [context.WithTimeout]: done at the parent's instant or at the deadline, whichever
    is first. *)
Definition WithTimeout (ctx : context) (now d : Z) : context :=
  match ctx_done ctx with
  | Some (t, e) => if t <=? now + d then ctx else mkContext (Some (now + d, ESentinel DeadlineExceeded))
  | None => mkContext (Some (now + d, ESentinel DeadlineExceeded))
  end.

(** ** Requests and responses *)

Record http_request := mkRequest {
  rq_Method : string;
  rq_URL : string;          (* without the query *)
  rq_RawQuery : string;
  rq_Header : Header;
  rq_Body : option string;
  rq_ctx : context;
}.

(** A body delivers bytes and then fails, or ends. *)
Record http_response := mkResponse {
  rs_StatusCode : Z;
  rs_Header : Header;
  rs_data : string;
  rs_read_error : option error;
}.

(** ** Effects *)

Inductive event : Type :=
| EvSign (canonical : string)
| EvOnRequest (op : string) (attempt : Z)
| EvOnResponse (op : string) (status dur : Z)
| EvOnRetry (op : string) (attempt : Z) (err : error)
| EvLog (level msg : string) (kv : list any)
| EvHTTP (req : http_request)
| EvReadBody
| EvSleep (d : Z)
| EvRequestID (id : string).   (* a requestId minted by the client's generator *)

Class Env := {
  elapse : nat -> event -> nat;                  (* time an effect takes, in ns *)
  net : nat -> http_request -> res http_response;   (* http.Client.Do *)
  panics : event -> option string;               (* an observer hook that panics *)
  rand_bytes : nat -> nat -> res string;         (* rand.Read of so many bytes *)
  rand_reads : nat -> list (res ascii);          (* a run of one-byte rand.Read calls *)
  select_done : nat -> bool;                     (* a select with both cases ready *)
  NewRequest_error : string -> string -> option error;   (* method, URL *)
}.

Record world := mkWorld { now : Z; trace : list event }.

Definition M (A : Type) := world -> A * world.

Definition ret {A} (a : A) : M A := fun w => (a, w).
Definition bind {A B} (m : M A) (k : A -> M B) : M B :=
  fun w => let '(a, w) := m w in k a w.

Notation "'let!' x ':=' m 'in' k" := (bind m (fun x => k))
  (at level 10, x pattern, m at level 99, k at level 200) : go_scope.

Definition get_now : M Z := fun w => (now w, w).

(** [binary.BigEndian.Uint64] *)
Definition be_value (b : string) : Z :=
  fold_left (fun acc c => acc * 256 + byte_of c) (String.list_ascii_of_string b) 0.

Definition is_log (e : event) : bool := match e with EvLog _ _ _ => true | _ => false end.

(** The effects other than log lines. *)
Definition effects (es : list event) : list event := List.filter (fun e => negb (is_log e)) es.

(** The index of the next effect. *)
Definition step (w : world) : nat := length (effects (trace w)).

Section Effects.
Context `{Env}.

Definition emit (e : event) : M unit :=
  fun w => (tt, mkWorld (now w + Z.of_nat (elapse (step w) e)) (trace w ++ [e])).

Definition log (level msg : string) (kv : list any) : M unit := emit (EvLog level msg kv).

Definition http_Do (req : http_request) : M (res http_response) :=
  fun w => (net (step w) req, snd (emit (EvHTTP req) w)).

(** A timer of [d > 0] raced against the context, as [RetryPolicy.Sleep] and the poll
    loop do: wake at the earlier of the two instants, plus scheduling delay; when both
    are then ready the choice of [select] is arbitrary.  [Some err]: the context won. *)
Definition timer_or_done (ctx : context) (d : Z) : M (option error) :=
  fun w =>
    let t_timer := now w + d in
    let wake := match ctx_done ctx with
                | Some (t, _) => Z.min t_timer (Z.max (now w) t)
                | None => t_timer
                end + Z.of_nat (elapse (step w) (EvSleep d)) in
    let w' := mkWorld wake (trace w ++ [EvSleep d]) in
    match ctx_Err ctx wake with
    | None => (None, w')
    | Some err =>
        if (t_timer <=? wake) && negb (select_done (step w)) then (None, w') else (Some err, w')
    end.

(** [RetryPolicy.Sleep] *)
Definition Sleep `{FloatConv} (p : RetryPolicy) (ctx : context) (attempt : Z) : M (option error) :=
  fun w =>
    let rnd := let* b := rand_bytes (step w) 8 in Ok (be_value b) in
    let d := Backoff p rnd attempt in
    if d <=? 0 then (ctx_Err ctx (now w), w) else timer_or_done ctx d w.

End Effects.

(** * Lemmas *)

Lemma effects_app es es' : effects (es ++ es') = effects es ++ effects es'.
Proof. apply List.filter_app. Qed.

(** What a computation adds to the trace, given the index it starts at, and that time
    does not go back. *)
Definition extends {A} (m : M A) (P : nat -> A -> list event -> Prop) : Prop :=
  forall w, let '(a, w') := m w in
    now w <= now w' /\ exists es, trace w' = trace w ++ es /\ P (step w) a es.

Lemma extends_ret {A} (a : A) (P : nat -> A -> list event -> Prop) :
  (forall n, P n a []) -> extends (ret a) P.
Proof. intros HP w. simpl. split; [lia|]. exists []. by rewrite app_nil_r. Qed.

Lemma extends_bind {A B} (m : M A) (k : A -> M B) (P : nat -> A -> list event -> Prop) (Q : nat -> B -> list event -> Prop) :
  extends m P ->
  (forall a, (exists n es, P n a es) -> extends (k a) (fun n' b es' =>
     forall n es, n' = (n + length (effects es))%nat -> P n a es -> Q n b (es ++ es'))) ->
  extends (bind m k) Q.
Proof.
  intros Hm Hk w. unfold bind. specialize (Hm w). destruct (m w) as [a w1].
  destruct Hm as (Hn & es & Ht & HP). specialize (Hk a (ex_intro _ _ (ex_intro _ _ HP)) w1). destruct (k a w1) as [b w2].
  destruct Hk as (Hn' & es' & Ht' & HQ). split; [lia|].
  exists (es ++ es'). split; [by rewrite Ht', Ht, app_assoc|]. apply HQ; [|done].
  unfold step. by rewrite Ht, effects_app, length_app.
Qed.

Lemma extends_mono {A} (m : M A) (P Q : nat -> A -> list event -> Prop) :
  extends m P -> (forall n a es, P n a es -> Q n a es) -> extends m Q.
Proof.
  intros Hm HPQ w. specialize (Hm w). destruct (m w). naive_solver.
Qed.

Lemma extends_get_now (P : nat -> Z -> list event -> Prop) : (forall n t, P n t []) -> extends get_now P.
Proof. intros HP w. simpl. split; [lia|]. exists []. by rewrite app_nil_r. Qed.

Section EffectLemmas.
Context `{Env}.

Lemma extends_emit e (P : nat -> unit -> list event -> Prop) : (forall n, P n tt [e]) -> extends (emit e) P.
Proof. intros HP w. simpl. split; [lia|]. by exists [e]. Qed.

Lemma extends_http_Do req (P : nat -> res http_response -> list event -> Prop) :
  (forall n, P n (net n req) [EvHTTP req]) -> extends (http_Do req) P.
Proof. intros HP w. simpl. split; [lia|]. by exists [EvHTTP req]. Qed.

Lemma extends_timer ctx d (P : nat -> option error -> list event -> Prop) :
  0 <= d -> (forall n r, P n r [EvSleep d]) -> extends (timer_or_done ctx d) P.
Proof.
  intros Hd HP w. unfold timer_or_done. cbv zeta.
  set (wake := match ctx_done ctx with Some (t, _) => _ | None => _ end + _).
  assert (now w <= wake) by (unfold wake; destruct (ctx_done ctx) as [[t e]|]; lia).
  destruct (ctx_Err ctx wake) as [err|]; [destruct (_ && _)|]; simpl;
    (split; [done|]; exists [EvSleep d]; auto).
Qed.

Lemma extends_Sleep `{FloatConv} p ctx attempt (P : nat -> option error -> list event -> Prop) :
  (forall n r, P n r []) -> (forall n r d, 0 < d -> P n r [EvSleep d]) -> extends (Sleep p ctx attempt) P.
Proof.
  intros H1 H2 w. unfold Sleep. cbv zeta. set (d := Backoff p _ attempt).
  destruct (Z.leb_spec d 0).
  - split; [lia|]. exists []. by rewrite app_nil_r.
  - apply (extends_timer ctx d P); [lia|]. intros n r. apply H2. lia.
Qed.

Lemma ctx_Err_mono ctx t t' e : ctx_Err ctx t = Some e -> t <= t' -> ctx_Err ctx t' = Some e.
Proof.
  unfold ctx_Err. destruct (ctx_done ctx) as [[u e']|]; [|done].
  destruct (Z.leb_spec u t), (Z.leb_spec u t'); try done; lia.
Qed.

(** A sleep interrupted by the context reports the context's error; one that is not
    interrupted lasted the full delay. *)
Lemma timer_or_done_spec ctx d w :
  let '(r, w') := timer_or_done ctx d w in
  match r with
  | Some err => ctx_Err ctx (now w') = Some err
  | None => now w + d <= now w'
  end.
Proof.
  unfold timer_or_done. cbv zeta.
  set (wake := match ctx_done ctx with Some (t, _) => _ | None => _ end + _).
  destruct (ctx_Err ctx wake) as [err|] eqn:E.
  - destruct (Z.leb_spec (now w + d) wake); simpl; [|done].
    destruct (select_done (step w)); simpl; done.
  - simpl. unfold ctx_Err in E. subst wake. destruct (ctx_done ctx) as [[t e]|]; [|lia].
    destruct (Z.leb_spec t (Z.min (now w + d) (Z.max (now w) t) + Z.of_nat (elapse (step w) (EvSleep d)))); [done|lia].
Qed.

End EffectLemmas.
