(* ===== verification/Client.v ===== *)
(** * Client: the configuration of [atomefin/options.go], [New] of
    [atomefin/client.go] and the request identifiers of [atomefin/request_id.go].

    An option mutates the configuration or fails; [New] runs them in order from the
    defaults, then [finalizeConfig] fills and validates what is left. *)
From S2P Require Import Prelude GoStd Errors GoCrypto Sign GoHttp Transport World.

(** [http.Client], [Logger] and [Observer] values are opaque here (numbers): what they do
    when called is [Env].  [None] is a nil argument. *)
Definition AuthorizationScheme := string -> string -> string.

Definition SchemeRawBase64 : AuthorizationScheme := fun signature _ => signature.

Definition SchemeAtomeKeyed : AuthorizationScheme := fun signature keyID =>
  if is_empty keyID then "Algorithm=RSA2,Sign=" +:+ signature
  else "Algorithm=RSA2,KeyVersion=" +:+ keyID +:+ ",Sign=" +:+ signature.

Definition SDKVersion : string := "0.9.3".

(** [DefaultRequestID]: 48 bits of Unix milliseconds and 80 random bits, in hex;
    without randomness the low bytes are the milliseconds again. *)
Definition DefaultRequestID (now : Z) (rnd : res string) : string :=
  let ms := (now / Millisecond) mod 2 ^ 64 in
  let head := map byte_lit (be_bytes 6 ms) in
  let tail := match rnd with
              | Ok r => chars r
              | Err _ => [zero; zero] ++ map byte_lit (be_bytes 8 ms)
              end in
  hex_encode (of_chars (head ++ tail)).

Section Config.
Context {R : RSA}.

Record config := mkConfig {
  c_httpClient : nat;
  c_baseURL : string;
  c_environment : Environment;
  c_timeout : Z;
  c_logger : nat;
  c_observer : nat;
  c_signer : option Signer;
  c_verifier : option Verifier;
  c_keyID : string;
  c_keyIDSet : bool;
  c_authScheme : AuthorizationScheme;
  c_partnerID : string;
  c_merchantID : string;
  c_retry : RetryPolicy;
  c_userAgent : string;
  c_clock : Z -> Z;
  c_requestIDGen : nat -> Z -> string;
  c_maxRespBytes : Z;
  c_debugBodyLog : bool;
  c_encryptAtomePub : option PublicKey;
  c_encryptPriv : option PrivateKey;
}.

Definition set_httpClient (v : nat) (c : config) : config :=
  mkConfig v (c_baseURL c) (c_environment c) (c_timeout c) (c_logger c) (c_observer c)
    (c_signer c) (c_verifier c) (c_keyID c) (c_keyIDSet c) (c_authScheme c)
    (c_partnerID c) (c_merchantID c) (c_retry c) (c_userAgent c) (c_clock c)
    (c_requestIDGen c) (c_maxRespBytes c) (c_debugBodyLog c) (c_encryptAtomePub c)
    (c_encryptPriv c).
Definition set_baseURL (v : string) (c : config) : config :=
  mkConfig (c_httpClient c) v (c_environment c) (c_timeout c) (c_logger c) (c_observer c)
    (c_signer c) (c_verifier c) (c_keyID c) (c_keyIDSet c) (c_authScheme c)
    (c_partnerID c) (c_merchantID c) (c_retry c) (c_userAgent c) (c_clock c)
    (c_requestIDGen c) (c_maxRespBytes c) (c_debugBodyLog c) (c_encryptAtomePub c)
    (c_encryptPriv c).
Definition set_environment (v : Environment) (c : config) : config :=
  mkConfig (c_httpClient c) (c_baseURL c) v (c_timeout c) (c_logger c) (c_observer c)
    (c_signer c) (c_verifier c) (c_keyID c) (c_keyIDSet c) (c_authScheme c)
    (c_partnerID c) (c_merchantID c) (c_retry c) (c_userAgent c) (c_clock c)
    (c_requestIDGen c) (c_maxRespBytes c) (c_debugBodyLog c) (c_encryptAtomePub c)
    (c_encryptPriv c).
Definition set_timeout (v : Z) (c : config) : config :=
  mkConfig (c_httpClient c) (c_baseURL c) (c_environment c) v (c_logger c) (c_observer c)
    (c_signer c) (c_verifier c) (c_keyID c) (c_keyIDSet c) (c_authScheme c)
    (c_partnerID c) (c_merchantID c) (c_retry c) (c_userAgent c) (c_clock c)
    (c_requestIDGen c) (c_maxRespBytes c) (c_debugBodyLog c) (c_encryptAtomePub c)
    (c_encryptPriv c).
Definition set_logger (v : nat) (c : config) : config :=
  mkConfig (c_httpClient c) (c_baseURL c) (c_environment c) (c_timeout c) v (c_observer c)
    (c_signer c) (c_verifier c) (c_keyID c) (c_keyIDSet c) (c_authScheme c)
    (c_partnerID c) (c_merchantID c) (c_retry c) (c_userAgent c) (c_clock c)
    (c_requestIDGen c) (c_maxRespBytes c) (c_debugBodyLog c) (c_encryptAtomePub c)
    (c_encryptPriv c).
Definition set_observer (v : nat) (c : config) : config :=
  mkConfig (c_httpClient c) (c_baseURL c) (c_environment c) (c_timeout c) (c_logger c) v
    (c_signer c) (c_verifier c) (c_keyID c) (c_keyIDSet c) (c_authScheme c)
    (c_partnerID c) (c_merchantID c) (c_retry c) (c_userAgent c) (c_clock c)
    (c_requestIDGen c) (c_maxRespBytes c) (c_debugBodyLog c) (c_encryptAtomePub c)
    (c_encryptPriv c).
Definition set_signer (v : option Signer) (c : config) : config :=
  mkConfig (c_httpClient c) (c_baseURL c) (c_environment c) (c_timeout c) (c_logger c)
    (c_observer c) v (c_verifier c) (c_keyID c) (c_keyIDSet c) (c_authScheme c)
    (c_partnerID c) (c_merchantID c) (c_retry c) (c_userAgent c) (c_clock c)
    (c_requestIDGen c) (c_maxRespBytes c) (c_debugBodyLog c) (c_encryptAtomePub c)
    (c_encryptPriv c).
Definition set_verifier (v : option Verifier) (c : config) : config :=
  mkConfig (c_httpClient c) (c_baseURL c) (c_environment c) (c_timeout c) (c_logger c)
    (c_observer c) (c_signer c) v (c_keyID c) (c_keyIDSet c) (c_authScheme c)
    (c_partnerID c) (c_merchantID c) (c_retry c) (c_userAgent c) (c_clock c)
    (c_requestIDGen c) (c_maxRespBytes c) (c_debugBodyLog c) (c_encryptAtomePub c)
    (c_encryptPriv c).
Definition set_keyID (v : string) (c : config) : config :=
  mkConfig (c_httpClient c) (c_baseURL c) (c_environment c) (c_timeout c) (c_logger c)
    (c_observer c) (c_signer c) (c_verifier c) v (c_keyIDSet c) (c_authScheme c)
    (c_partnerID c) (c_merchantID c) (c_retry c) (c_userAgent c) (c_clock c)
    (c_requestIDGen c) (c_maxRespBytes c) (c_debugBodyLog c) (c_encryptAtomePub c)
    (c_encryptPriv c).
Definition set_keyIDSet (v : bool) (c : config) : config :=
  mkConfig (c_httpClient c) (c_baseURL c) (c_environment c) (c_timeout c) (c_logger c)
    (c_observer c) (c_signer c) (c_verifier c) (c_keyID c) v (c_authScheme c)
    (c_partnerID c) (c_merchantID c) (c_retry c) (c_userAgent c) (c_clock c)
    (c_requestIDGen c) (c_maxRespBytes c) (c_debugBodyLog c) (c_encryptAtomePub c)
    (c_encryptPriv c).
Definition set_authScheme (v : AuthorizationScheme) (c : config) : config :=
  mkConfig (c_httpClient c) (c_baseURL c) (c_environment c) (c_timeout c) (c_logger c)
    (c_observer c) (c_signer c) (c_verifier c) (c_keyID c) (c_keyIDSet c) v
    (c_partnerID c) (c_merchantID c) (c_retry c) (c_userAgent c) (c_clock c)
    (c_requestIDGen c) (c_maxRespBytes c) (c_debugBodyLog c) (c_encryptAtomePub c)
    (c_encryptPriv c).
Definition set_partnerID (v : string) (c : config) : config :=
  mkConfig (c_httpClient c) (c_baseURL c) (c_environment c) (c_timeout c) (c_logger c)
    (c_observer c) (c_signer c) (c_verifier c) (c_keyID c) (c_keyIDSet c)
    (c_authScheme c) v (c_merchantID c) (c_retry c) (c_userAgent c) (c_clock c)
    (c_requestIDGen c) (c_maxRespBytes c) (c_debugBodyLog c) (c_encryptAtomePub c)
    (c_encryptPriv c).
Definition set_merchantID (v : string) (c : config) : config :=
  mkConfig (c_httpClient c) (c_baseURL c) (c_environment c) (c_timeout c) (c_logger c)
    (c_observer c) (c_signer c) (c_verifier c) (c_keyID c) (c_keyIDSet c)
    (c_authScheme c) (c_partnerID c) v (c_retry c) (c_userAgent c) (c_clock c)
    (c_requestIDGen c) (c_maxRespBytes c) (c_debugBodyLog c) (c_encryptAtomePub c)
    (c_encryptPriv c).
Definition set_retry (v : RetryPolicy) (c : config) : config :=
  mkConfig (c_httpClient c) (c_baseURL c) (c_environment c) (c_timeout c) (c_logger c)
    (c_observer c) (c_signer c) (c_verifier c) (c_keyID c) (c_keyIDSet c)
    (c_authScheme c) (c_partnerID c) (c_merchantID c) v (c_userAgent c) (c_clock c)
    (c_requestIDGen c) (c_maxRespBytes c) (c_debugBodyLog c) (c_encryptAtomePub c)
    (c_encryptPriv c).
Definition set_userAgent (v : string) (c : config) : config :=
  mkConfig (c_httpClient c) (c_baseURL c) (c_environment c) (c_timeout c) (c_logger c)
    (c_observer c) (c_signer c) (c_verifier c) (c_keyID c) (c_keyIDSet c)
    (c_authScheme c) (c_partnerID c) (c_merchantID c) (c_retry c) v (c_clock c)
    (c_requestIDGen c) (c_maxRespBytes c) (c_debugBodyLog c) (c_encryptAtomePub c)
    (c_encryptPriv c).
Definition set_clock (v : Z -> Z) (c : config) : config :=
  mkConfig (c_httpClient c) (c_baseURL c) (c_environment c) (c_timeout c) (c_logger c)
    (c_observer c) (c_signer c) (c_verifier c) (c_keyID c) (c_keyIDSet c)
    (c_authScheme c) (c_partnerID c) (c_merchantID c) (c_retry c) (c_userAgent c) v
    (c_requestIDGen c) (c_maxRespBytes c) (c_debugBodyLog c) (c_encryptAtomePub c)
    (c_encryptPriv c).
Definition set_requestIDGen (v : nat -> Z -> string) (c : config) : config :=
  mkConfig (c_httpClient c) (c_baseURL c) (c_environment c) (c_timeout c) (c_logger c)
    (c_observer c) (c_signer c) (c_verifier c) (c_keyID c) (c_keyIDSet c)
    (c_authScheme c) (c_partnerID c) (c_merchantID c) (c_retry c) (c_userAgent c)
    (c_clock c) v (c_maxRespBytes c) (c_debugBodyLog c) (c_encryptAtomePub c)
    (c_encryptPriv c).
Definition set_maxRespBytes (v : Z) (c : config) : config :=
  mkConfig (c_httpClient c) (c_baseURL c) (c_environment c) (c_timeout c) (c_logger c)
    (c_observer c) (c_signer c) (c_verifier c) (c_keyID c) (c_keyIDSet c)
    (c_authScheme c) (c_partnerID c) (c_merchantID c) (c_retry c) (c_userAgent c)
    (c_clock c) (c_requestIDGen c) v (c_debugBodyLog c) (c_encryptAtomePub c)
    (c_encryptPriv c).
Definition set_debugBodyLog (v : bool) (c : config) : config :=
  mkConfig (c_httpClient c) (c_baseURL c) (c_environment c) (c_timeout c) (c_logger c)
    (c_observer c) (c_signer c) (c_verifier c) (c_keyID c) (c_keyIDSet c)
    (c_authScheme c) (c_partnerID c) (c_merchantID c) (c_retry c) (c_userAgent c)
    (c_clock c) (c_requestIDGen c) (c_maxRespBytes c) v (c_encryptAtomePub c)
    (c_encryptPriv c).
Definition set_encryptAtomePub (v : option PublicKey) (c : config) : config :=
  mkConfig (c_httpClient c) (c_baseURL c) (c_environment c) (c_timeout c) (c_logger c)
    (c_observer c) (c_signer c) (c_verifier c) (c_keyID c) (c_keyIDSet c)
    (c_authScheme c) (c_partnerID c) (c_merchantID c) (c_retry c) (c_userAgent c)
    (c_clock c) (c_requestIDGen c) (c_maxRespBytes c) (c_debugBodyLog c) v
    (c_encryptPriv c).
Definition set_encryptPriv (v : option PrivateKey) (c : config) : config :=
  mkConfig (c_httpClient c) (c_baseURL c) (c_environment c) (c_timeout c) (c_logger c)
    (c_observer c) (c_signer c) (c_verifier c) (c_keyID c) (c_keyIDSet c)
    (c_authScheme c) (c_partnerID c) (c_merchantID c) (c_retry c) (c_userAgent c)
    (c_clock c) (c_requestIDGen c) (c_maxRespBytes c) (c_debugBodyLog c)
    (c_encryptAtomePub c) v.

(** [type Option func( *config) error] *)
Definition Option := config -> res config.

(** [net/url.Parse], as far as [WithBaseURL] looks: the scheme and the host. *)
Class URLParse := { url_Parse : string -> res (string * string) }.

Context {X : X509} {U : URLParse} {RT : Runtime} {E : Env}.

Definition newDefaultHTTPClient : nat := 0.
Definition NopLogger : nat := 0.
Definition NopObserver : nat := 0.

Definition default_requestIDGen (step : nat) (now : Z) : string :=
  DefaultRequestID now (rand_bytes step 10).

Definition defaultConfig : config :=
  mkConfig newDefaultHTTPClient "" EnvProd (30 * Second) NopLogger NopObserver None None "" false
    SchemeRawBase64 "" "" DefaultRetryPolicy "" (fun t => t) default_requestIDGen (Z.shiftl 1 20) false
    None None.

Definition WithHTTPClient (h : option nat) : Option := fun c =>
  match h with
  | None => Err (ENew "atomefin: WithHTTPClient: nil *http.Client")
  | Some h => Ok (set_httpClient h c)
  end.

(** [strings.TrimRight(s, "/")] *)
Fixpoint trim_slashes (l : list ascii) : list ascii :=
  match l with
  | c :: l' => if bool_decide (c = "/"%char) then trim_slashes l' else l
  | [] => []
  end.
Definition TrimRight_slash (s : string) : string := of_chars (rev (trim_slashes (rev (chars s)))).

Definition WithBaseURL (u : string) : Option := fun c =>
  let u := TrimSpace u in
  if is_empty u then Err (ENew "atomefin: WithBaseURL: empty URL")
  else match url_Parse u with
  | Err err => Err (EErrorf "atomefin: WithBaseURL: parse %q: %w" [AStr u; AWrap err])
  | Ok (scheme, host) =>
      if negb (bool_decide (scheme = "http") || bool_decide (scheme = "https"))
      then Err (EErrorf "atomefin: WithBaseURL: scheme must be http or https, got %q" [AStr scheme])
      else if is_empty host
      then Err (EErrorf "atomefin: WithBaseURL: missing host in %q" [AStr u])
      else Ok (set_baseURL (TrimRight_slash u) c)
  end.

Definition WithEnvironment (env : Environment) : Option := fun c =>
  match BaseURL env with
  | Err err => Err err
  | Ok _ => Ok (set_environment env c)
  end.

Definition WithTimeout_opt (d : Z) : Option := fun c =>
  if d <=? 0 then Err (ENew "atomefin: WithTimeout: duration must be > 0") else Ok (set_timeout d c).

Definition WithRetry (p : RetryPolicy) : Option := fun c =>
  match Validate p with Some err => Err err | None => Ok (set_retry p c) end.

Definition WithUserAgent (ua : string) : Option := fun c => Ok (set_userAgent ua c).

Definition WithSigner (s : option Signer) : Option := fun c =>
  match s with
  | None => Err (ENew "atomefin: WithSigner: nil Signer")
  | Some s =>
      match c_signer c with
      | Some _ => Err (ENew "atomefin: WithSigner: signer already configured (use WithSigner OR WithPrivateKeyPEM)")
      | None => Ok (set_signer (Some s) c)
      end
  end.

Definition WithPrivateKeyPEM (pem : string) (password : list string) : Option := fun c =>
  match c_signer c with
  | Some _ => Err (ENew "atomefin: WithPrivateKeyPEM: signer already configured")
  | None =>
      match LoadPrivateKeyPEM pem password with
      | Err err => Err (EErrorf "atomefin: WithPrivateKeyPEM: %w" [AWrap err])
      | Ok key =>
          match NewRSA2Signer (Some key) [] with
          | Err err => Err (EErrorf "atomefin: WithPrivateKeyPEM: %w" [AWrap err])
          | Ok s => Ok (set_signer (Some (rsa2Signer_iface s)) c)
          end
      end
  end.

Definition WithAtomePublicKey (pub : option PublicKey) : Option := fun c =>
  match pub with
  | None => Err (ENew "atomefin: WithAtomePublicKey: nil *rsa.PublicKey")
  | Some _ =>
      match NewRSA2Verifier pub [] with
      | Err err => Err (EErrorf "atomefin: WithAtomePublicKey: %w" [AWrap err])
      | Ok v => Ok (set_verifier (Some (rsa2Verifier_iface v)) c)
      end
  end.

Definition WithAtomePublicCertPEM (pem : string) : Option := fun c =>
  match LoadPublicCertPEM pem with
  | Err err => Err (EErrorf "atomefin: WithAtomePublicCertPEM: %w" [AWrap err])
  | Ok key =>
      match NewRSA2Verifier (Some key) [] with
      | Err err => Err (EErrorf "atomefin: WithAtomePublicCertPEM: %w" [AWrap err])
      | Ok v => Ok (set_verifier (Some (rsa2Verifier_iface v)) c)
      end
  end.

Definition WithEncryptAtomePublicCertPEM (pem : string) : Option := fun c =>
  match c_encryptAtomePub c with
  | Some _ => Err (ENew "atomefin: WithEncryptAtomePublicCertPEM: encrypt public key already configured")
  | None =>
      match LoadPublicCertPEM pem with
      | Err err => Err (EErrorf "atomefin: WithEncryptAtomePublicCertPEM: %w" [AWrap err])
      | Ok key =>
          if BitLen key <? 2048
          then Err (EErrorf "atomefin: WithEncryptAtomePublicCertPEM: RSA modulus %d < min 2048 bits" [AInt (BitLen key)])
          else Ok (set_encryptAtomePub (Some key) c)
      end
  end.

Definition WithEncryptPrivateKeyPEM (pem : string) (password : list string) : Option := fun c =>
  match c_encryptPriv c with
  | Some _ => Err (ENew "atomefin: WithEncryptPrivateKeyPEM: encrypt private key already configured")
  | None =>
      match LoadPrivateKeyPEM pem password with
      | Err err => Err (EErrorf "atomefin: WithEncryptPrivateKeyPEM: %w" [AWrap err])
      | Ok key =>
          if BitLen (Public key) <? 2048
          then Err (EErrorf "atomefin: WithEncryptPrivateKeyPEM: RSA modulus %d < min 2048 bits" [AInt (BitLen (Public key))])
          else Ok (set_encryptPriv (Some key) c)
      end
  end.

(** A nil slice is [None]: absent. *)
Record AtomeCertSource := mkAtomeCertSource { PartnerPriv : option string; AtomePub : option string }.

Definition when_set (src : option string) (opt : string -> Option) : Option := fun c =>
  match src with Some pem => opt pem c | None => Ok c end.

Definition WithAtomeCerts (signing encrypting : AtomeCertSource) : Option := fun c =>
  let* c := when_set (PartnerPriv signing) (fun pem => WithPrivateKeyPEM pem []) c in
  let* c := when_set (AtomePub signing) WithAtomePublicCertPEM c in
  let* c := when_set (PartnerPriv encrypting) (fun pem => WithEncryptPrivateKeyPEM pem []) c in
  when_set (AtomePub encrypting) WithEncryptAtomePublicCertPEM c.

Definition WithKeyID_opt (id : string) : Option := fun c => Ok (set_keyIDSet true (set_keyID id c)).

Definition WithAuthorizationScheme (scheme : option AuthorizationScheme) : Option := fun c =>
  match scheme with
  | None => Err (ENew "atomefin: WithAuthorizationScheme: nil scheme")
  | Some scheme => Ok (set_authScheme scheme c)
  end.

Definition WithPartnerID (id : string) : Option := fun c =>
  let id := TrimSpace id in
  if is_empty id then Err (ENew "atomefin: WithPartnerID: empty id") else Ok (set_partnerID id c).

Definition WithMerchantID (id : string) : Option := fun c => Ok (set_merchantID (TrimSpace id) c).

Definition WithLogger (l : option nat) : Option := fun c =>
  match l with
  | None => Err (ENew "atomefin: WithLogger: nil Logger")
  | Some l => Ok (set_logger l c)
  end.

Definition WithObserver (o : option nat) : Option := fun c =>
  match o with
  | None => Err (ENew "atomefin: WithObserver: nil Observer")
  | Some o => Ok (set_observer o c)
  end.

Definition WithDebugBodyLogging (enable : bool) : Option := fun c => Ok (set_debugBodyLog enable c).

Definition WithClock (now : option (Z -> Z)) : Option := fun c =>
  match now with
  | None => Err (ENew "atomefin: WithClock: nil clock")
  | Some now => Ok (set_clock now c)
  end.

Definition WithRequestIDGenerator (fn : option (nat -> Z -> string)) : Option := fun c =>
  match fn with
  | None => Err (ENew "atomefin: WithRequestIDGenerator: nil generator")
  | Some fn => Ok (set_requestIDGen fn c)
  end.

Definition WithMaxResponseBytes (n : Z) : Option := fun c =>
  if n <=? 0 then Err (ENew "atomefin: WithMaxResponseBytes: must be > 0") else Ok (set_maxRespBytes n c).

(** ** [New] *)

Definition optionIndexLabel (i : Z) : string :=
  if i =? 0 then "option 0" else if i =? 1 then "option 1" else "option N".

(** [signerWithKeyID] embeds a signer and replaces its key id. *)
Definition signerWithKeyID (s : Signer) (keyID : string) : Signer := mkSigner (Sign s) keyID.

Definition finalize_retry (p : RetryPolicy) : RetryPolicy :=
  let p := if MaxAttempts p =? 0 then DefaultRetryPolicy else p in
  mkRetryPolicy (MaxAttempts p) (Base p) (Cap p) (Jitter p)
    (Some (default DefaultRetryOnStatus (RetryOnStatus p)))
    (Some (default DefaultRetryOnTransportError (RetryOnTransportError p))).

Definition finalizeConfig (cfg : config) : res config :=
  match c_signer cfg with
  | None => Err (ENew "atomefin: New: a Signer is required (use WithSigner or WithPrivateKeyPEM)")
  | Some s =>
      let cfg := if c_keyIDSet cfg then set_signer (Some (signerWithKeyID s (c_keyID cfg))) cfg else cfg in
      let* cfg :=
        (if is_empty (c_baseURL cfg)
         then let* u := BaseURL (c_environment cfg) in Ok (set_baseURL u cfg)
         else Ok cfg) in
      let cfg := if is_empty (c_userAgent cfg)
                 then set_userAgent (BuildUserAgent SDKVersion "") cfg
                 else set_userAgent (BuildUserAgent SDKVersion (c_userAgent cfg)) cfg in
      let cfg := set_retry (finalize_retry (c_retry cfg)) cfg in
      match Validate (c_retry cfg) with
      | Some err => Err err
      | None => Ok cfg
      end
  end.

Fixpoint run_options (i : Z) (opts : list (option Option)) (cfg : config) : res config :=
  match opts with
  | [] => Ok cfg
  | None :: _ => Err (EValidation "options" (optionIndexLabel i +:+ " is nil"))
  | Some opt :: opts => let* cfg := opt cfg in run_options (i + 1) opts cfg
  end.

(** The client has the fields of the configuration but [keyIDSet]; it is immutable. *)
Definition Client := config.

Definition New (opts : list (option Option)) : res Client :=
  let* cfg := run_options 0 opts defaultConfig in
  finalizeConfig cfg.

(** [Client.NewRequestID] *)
Definition NewRequestID (c : Client) : M string :=
  fun w => let id := c_requestIDGen c (step w) (now w) in (id, snd (emit (EvRequestID id) w)).

(** Accessors that are not mere fields. *)
Definition Now (c : Client) : M Z := fun w => (c_clock c (now w), w).
Definition EncryptAtomePublicKey (c : option Client) : option PublicKey :=
  match c with Some c => c_encryptAtomePub c | None => None end.
Definition EncryptPrivateKey (c : option Client) : option PrivateKey :=
  match c with Some c => c_encryptPriv c | None => None end.
Definition Close (_ : Client) : option error := None.

End Config.

(** * Lemmas *)

(** The options the package exports; a partner cannot write others, the fields of
    [config] being unexported. *)
Inductive sdk_option {R : RSA} {X : X509} {U : URLParse} {E : Env} : Option -> Prop :=
| sdk_HTTPClient h : sdk_option (WithHTTPClient h)
| sdk_BaseURL u : sdk_option (WithBaseURL u)
| sdk_Environment e : sdk_option (WithEnvironment e)
| sdk_Timeout d : sdk_option (WithTimeout_opt d)
| sdk_Retry p : sdk_option (WithRetry p)
| sdk_UserAgent ua : sdk_option (WithUserAgent ua)
| sdk_Signer s : sdk_option (WithSigner s)
| sdk_PrivateKeyPEM pem pw : sdk_option (WithPrivateKeyPEM pem pw)
| sdk_AtomePublicKey k : sdk_option (WithAtomePublicKey k)
| sdk_AtomePublicCertPEM pem : sdk_option (WithAtomePublicCertPEM pem)
| sdk_EncryptAtomePublicCertPEM pem : sdk_option (WithEncryptAtomePublicCertPEM pem)
| sdk_EncryptPrivateKeyPEM pem pw : sdk_option (WithEncryptPrivateKeyPEM pem pw)
| sdk_AtomeCerts s e : sdk_option (WithAtomeCerts s e)
| sdk_KeyID id : sdk_option (WithKeyID_opt id)
| sdk_AuthorizationScheme s : sdk_option (WithAuthorizationScheme s)
| sdk_PartnerID id : sdk_option (WithPartnerID id)
| sdk_MerchantID id : sdk_option (WithMerchantID id)
| sdk_Logger l : sdk_option (WithLogger l)
| sdk_Observer o : sdk_option (WithObserver o)
| sdk_DebugBodyLogging b : sdk_option (WithDebugBodyLogging b)
| sdk_Clock f : sdk_option (WithClock f)
| sdk_RequestIDGenerator f : sdk_option (WithRequestIDGenerator f)
| sdk_MaxResponseBytes n : sdk_option (WithMaxResponseBytes n).

Section ConfigFacts.
Context {R : RSA} {X : X509} {U : URLParse} {RT : Runtime} {E : Env}.

(** What every option preserves. *)
Definition config_inv (c : config) : Prop :=
  0 < c_timeout c /\ 0 < c_maxRespBytes c /\ Validate (c_retry c) = None /\
  (exists u, BaseURL (c_environment c) = Ok u) /\
  (forall k, c_encryptAtomePub c = Some k -> 2048 <= BitLen k) /\
  (forall k, c_encryptPriv c = Some k -> 2048 <= BitLen (Public k)).

Lemma default_inv : config_inv defaultConfig.
Proof. repeat split; try done. by exists "https://api.atome.id/grabpaylater". Qed.

Lemma WithEncryptAtome_inv pem c c' :
  WithEncryptAtomePublicCertPEM pem c = Ok c' -> config_inv c -> config_inv c'.
Proof.
  unfold WithEncryptAtomePublicCertPEM, config_inv. intros H Hi. go_cases.
  to_prop. destruct Hi as (? & ? & ? & ? & ? & ?). repeat split; try done. intros k' [= <-]. lia.
Qed.

Lemma WithEncryptPriv_inv pem pw c c' :
  WithEncryptPrivateKeyPEM pem pw c = Ok c' -> config_inv c -> config_inv c'.
Proof.
  unfold WithEncryptPrivateKeyPEM, config_inv. intros H Hi. go_cases.
  to_prop. destruct Hi as (? & ? & ? & ? & ? & ?). repeat split; try done. intros k' [= <-]. lia.
Qed.

Lemma WithPrivateKeyPEM_inv pem pw c c' :
  WithPrivateKeyPEM pem pw c = Ok c' -> config_inv c -> config_inv c'.
Proof. unfold WithPrivateKeyPEM, config_inv. intros H Hi. go_cases. Qed.

Lemma WithAtomePublicCertPEM_inv pem c c' :
  WithAtomePublicCertPEM pem c = Ok c' -> config_inv c -> config_inv c'.
Proof. unfold WithAtomePublicCertPEM, config_inv. intros H Hi. go_cases. Qed.

Lemma WithAtomeCerts_inv s e c c' :
  WithAtomeCerts s e c = Ok c' -> config_inv c -> config_inv c'.
Proof.
  unfold WithAtomeCerts, when_set, result_bind. intros H Hi.
  go_cases; eauto 10 using WithEncryptAtome_inv, WithEncryptPriv_inv, WithPrivateKeyPEM_inv, WithAtomePublicCertPEM_inv.
Qed.

Lemma sdk_option_inv opt c c' : sdk_option opt -> opt c = Ok c' -> config_inv c -> config_inv c'.
Proof.
  intros Ho H Hi. destruct Ho;
    eauto using WithEncryptAtome_inv, WithEncryptPriv_inv, WithPrivateKeyPEM_inv, WithAtomePublicCertPEM_inv, WithAtomeCerts_inv;
    unfold config_inv in *.
  all: unfold WithHTTPClient, WithBaseURL, WithEnvironment, WithTimeout_opt, WithRetry, WithUserAgent, WithSigner,
    WithAtomePublicKey, WithKeyID_opt, WithAuthorizationScheme, WithPartnerID, WithMerchantID, WithLogger,
    WithObserver, WithDebugBodyLogging, WithClock, WithRequestIDGenerator, WithMaxResponseBytes in H.
  all: go_cases; to_prop; try done; try naive_solver lia.
Qed.

Lemma run_options_inv i opts c c' :
  Forall (fun o => forall f, o = Some f -> sdk_option f) opts ->
  run_options i opts c = Ok c' -> config_inv c -> config_inv c'.
Proof.
  intros Ho. revert i c. induction Ho as [|[f|] opts Hf _ IH]; intros i c; simpl; [by intros [= <-]| |done].
  destruct (f c) as [c1|] eqn:Ef; simpl; [|done]. intros H Hi. eapply IH; [exact H|].
  eapply sdk_option_inv; eauto.
Qed.
End ConfigFacts.

(** A client ready to dispatch: what the request pipeline relies on. *)
Record client_ready {R : RSA} (c : Client) : Prop := {
  ready_signer : is_Some (c_signer c);
  ready_baseURL : c_baseURL c <> "";
  ready_timeout : 0 < c_timeout c;
  ready_maxResp : 0 < c_maxRespBytes c;
  ready_retry : Validate (c_retry c) = None;
  ready_onStatus : is_Some (RetryOnStatus (c_retry c));
  ready_onTransport : is_Some (RetryOnTransportError (c_retry c));
  ready_encryptPub : forall k, c_encryptAtomePub c = Some k -> 2048 <= BitLen k;
  ready_encryptPriv : forall k, c_encryptPriv c = Some k -> 2048 <= BitLen (Public k);
}.

Lemma BaseURL_nonempty env u : BaseURL env = Ok u -> u <> "".
Proof.
  unfold BaseURL. destruct (baseURLs !! env) as [v|] eqn:E; [|done]. intros [= <-] ->.
  unfold baseURLs in E. apply lookup_insert_Some in E as [[_ [=]]|[_ E]].
  by apply lookup_singleton_Some in E as [_ [=]].
Qed.

Lemma finalize_ready {R : RSA} {RT : Runtime} cfg c :
  config_inv cfg -> finalizeConfig cfg = Ok c -> client_ready c.
Proof.
  intros (Ht & Hm & _ & [u Hu] & Hp & Hq) H. unfold finalizeConfig in H.
  destruct (c_signer cfg) as [s|] eqn:Es; [|done]. cbv zeta in H.
  pose proof (BaseURL_nonempty _ _ Hu) as Hne.
  assert (Hcfg1 : exists cfg1, cfg1 = (if c_keyIDSet cfg then set_signer (Some (signerWithKeyID s (c_keyID cfg))) cfg else cfg)
    /\ is_Some (c_signer cfg1) /\ c_baseURL cfg1 = c_baseURL cfg /\ c_environment cfg1 = c_environment cfg /\
    c_timeout cfg1 = c_timeout cfg /\ c_maxRespBytes cfg1 = c_maxRespBytes cfg /\
    c_encryptAtomePub cfg1 = c_encryptAtomePub cfg /\ c_encryptPriv cfg1 = c_encryptPriv cfg).
  { eexists. split; [reflexivity|]. destruct (c_keyIDSet cfg); simpl; repeat split; try done; eauto. }
  destruct Hcfg1 as (cfg1 & Heq & Hs1 & Hb1 & He1 & Ht1 & Hm1 & Hp1 & Hq1).
  rewrite <- Heq, He1, Hu, Hb1 in H. cbn [result_bind] in H.
  assert (Hif : forall (b : bool) x y (c : config),
    (if b then set_userAgent x c else set_userAgent y c) = set_userAgent (if b then x else y) c)
    by (by intros [] x y c').
  destruct (is_empty (c_baseURL cfg)) eqn:Eb; to_prop; cbn [result_bind] in H; rewrite Hif in H;
    match type of H with context [set_userAgent ?x] => generalize dependent x end; intros ua H;
    cbn [c_retry set_userAgent set_baseURL set_retry] in H;
    (destruct (Validate _) eqn:Ev in H; [done|]); injection H as <-;
    split; cbn [set_retry set_userAgent set_baseURL c_signer c_baseURL c_timeout c_maxRespBytes c_retry c_encryptAtomePub c_encryptPriv];
    rewrite ?Hb1, ?Ht1, ?Hm1, ?Hp1, ?Hq1; (assumption || by eexists).
Qed.

(** * Properties *)

Lemma New_ready {R : RSA} {X : X509} {U : URLParse} {RT : Runtime} {E : Env} (opts : list (option Option)) c :
  Forall (fun o => forall f, o = Some f -> sdk_option f) opts -> New opts = Ok c -> client_ready c.
Proof.
  intros Ho. unfold New. destruct (run_options 0 opts defaultConfig) as [cfg|] eqn:Er; simpl; [|done].
  intros Hf. eapply finalize_ready; [|exact Hf]. eapply run_options_inv; eauto using default_inv.
Qed.

(** The options run up to the first that is nil or fails. *)
Lemma run_options_err {R : RSA} i (opts : list (option Option)) cfg e : run_options i opts cfg = Err e ->
  exists k o cfg', opts !! k = Some o /\ run_options i (take k opts) cfg = Ok cfg' /\
    match o with
    | None => e = EValidation "options" (optionIndexLabel (i + Z.of_nat k) +:+ " is nil")
    | Some f => f cfg' = Err e
    end.
Proof.
  revert i cfg. induction opts as [|[f|] opts IH]; intros i cfg; cbn [run_options]; [done| |].
  - destruct (f cfg) as [cfg1|e1] eqn:Ef; cbn [result_bind].
    + intros H. destruct (IH _ _ H) as (k & o & cfg' & Hk & Ht & Ho). exists (S k), o, cfg'. cbn [lookup list_lookup take run_options].
      rewrite Ef. split_and!; [done|done|]. by replace (i + Z.of_nat (S k)) with (i + 1 + Z.of_nat k) by lia.
    + intros [= ->]. by exists 0%nat, (Some f), cfg.
  - intros [= <-]. exists 0%nat, None, cfg. split_and!; [done|done|]. by rewrite Z.add_0_r.
Qed.

Lemma run_options_no_nil {R : RSA} i (opts : list (option Option)) cfg cfg' :
  run_options i opts cfg = Ok cfg' -> Forall (fun o => o <> None) opts.
Proof.
  revert cfg i. induction opts as [|[f|] opts IH]; intros cfg i H; [constructor| |done].
  cbn [run_options] in H. destruct (f cfg) as [c1|]; [|done]. constructor; [done|]. by eapply IH.
Qed.

(** C37.  A client is always usable, and an error is the first there is.  [New] with the
    package's options either returns a client that has a signer, a non-empty base URL,
    positive timeout and body limit, a validated retry policy whose callbacks are set, and
    encryption keys of at least 2048 bits, and then no option was nil; or the error of the
    first option that fails or is nil, those before it having run: of a nil one, a
    validation error that names its position (from the third on only as N); or, when all
    options have run, the error of [finalizeConfig].  Without options that is the missing
    signer. *)
Theorem New_spec {R : RSA} {X : X509} {U : URLParse} {RT : Runtime} {E : Env} (opts : list (option Option)) :
  Forall (fun o => forall f, o = Some f -> sdk_option f) opts ->
  match New opts with
  | Ok c => client_ready c /\ Forall (fun o => o <> None) opts
  | Err e =>
      (exists i o cfg, opts !! i = Some o /\ run_options 0 (take i opts) defaultConfig = Ok cfg /\
         match o with
         | None => e = EValidation "options" (match i with 0%nat => "option 0 is nil" | 1%nat => "option 1 is nil" | _ => "option N is nil" end)
         | Some f => f cfg = Err e
         end) \/
      (exists cfg, run_options 0 opts defaultConfig = Ok cfg /\ finalizeConfig cfg = Err e)
  end /\
  New [] = Err (ENew "atomefin: New: a Signer is required (use WithSigner or WithPrivateKeyPEM)").
Proof.
  intros Ho. split; [|reflexivity]. pose proof (New_ready opts) as Hready. unfold New in *.
  destruct (run_options 0 opts defaultConfig) as [cfg|e] eqn:Er; cbn [result_bind] in *.
  - destruct (finalizeConfig cfg) as [c|e] eqn:Ef; [|right; by exists cfg]. split; [by apply Hready|by eapply run_options_no_nil].
  - left. destruct (run_options_err _ _ _ _ Er) as (i & o & cfg & Hi & Ht & Hf). exists i, o, cfg. split_and!; [done..|].
    destruct o; [done|]. subst e. f_equal. unfold optionIndexLabel. destruct i as [|[|i]]; [done|done|].
    by rewrite !(proj2 (Z.eqb_neq _ _)) by lia.
Qed.

Definition toy_env : Env := {|
  elapse _ _ := 1%nat;
  net _ req := Ok (mkResponse 200 ∅ "{}" None);
  panics _ := None;
  rand_bytes _ n := Ok (of_chars (repeat "007"%char n));
  rand_reads _ := map Ok (repeat "007"%char 32);
  select_done _ := true;
  NewRequest_error _ _ := None;
|}.

Definition toy_X509 : @X509 toy_RSA :=
  Build_X509 toy_RSA (fun _ => None) (fun _ => Err (EStd "asn1")) (fun _ => Err (EStd "asn1"))
    (fun _ => Err (EStd "asn1")) (fun _ => Err (EStd "asn1")) (fun _ => Err (EStd "asn1")).
Definition toy_URLParse : URLParse := {| url_Parse u := Ok ("https", u) |}.
Definition toy_Runtime : Runtime := {| go_version := "1.22"; GOOS := "linux"; GOARCH := "amd64" |}.
Definition toy_signer : Signer := ovoHMACSigner_iface (mkOvoHMACSigner "key").

Definition toy_options : list (option (@Option toy_RSA)) :=
  [Some (WithSigner (Some toy_signer)); Some (WithMaxResponseBytes 100); Some (WithTimeout_opt Second)].

(** A client with the defaults, for evaluating the model. *)
Definition toy_client : @Client toy_RSA :=
  set_baseURL "https://x" (set_signer (Some toy_signer) (@defaultConfig toy_RSA toy_env)).

Lemma toy_ready : client_ready toy_client.
Proof. split; simpl; try (by eexists); done. Qed.

Lemma New_spec_witness :
  match @New toy_RSA toy_Runtime toy_env toy_options with
  | Ok c => client_ready c
  | Err _ => False
  end.
Proof.
  assert (Ho : Forall (fun o => forall f, o = Some f ->
      @sdk_option toy_RSA toy_X509 toy_URLParse toy_env f) toy_options).
  { unfold toy_options. repeat constructor; intros f [= <-]; constructor. }
  assert (Hok : is_ok (@New toy_RSA toy_Runtime toy_env toy_options) = true) by (vm_compute; reflexivity).
  destruct (@New_spec toy_RSA toy_X509 toy_URLParse toy_Runtime toy_env toy_options Ho) as [H _].
  destruct (@New toy_RSA toy_Runtime toy_env toy_options) as [c|e]; [exact (proj1 H)|discriminate Hok].
Defined.
