(* ===== verification/Doer.v ===== *)
(** * Doer: [atomefin/doer.go]: signing and sending, with retries.

    [DoSigned] (POST), [DoSignedGET] and [DoEncryptedSigned] prepare the signed bytes
    and a request builder; [signAndDispatch] signs once and runs the retry loop over
    [dispatchAttempt]. *)
From S2P Require Import Prelude GoStd Errors Canonical GoCrypto Sign Encrypt GoHttp Codec Transport World Client.

Record RawResponse := mkRawResponse { StatusCode : Z; rr_Header : Header; Body : string }.

(** [DoSignedOption]: the package's only implementation is [extraHeaderOpt]. *)
Record extraHeaderOpt := mkExtraHeaderOpt { eh_key : string; eh_value : string }.

Definition WithRequestHeader (key value : string) : extraHeaderOpt := mkExtraHeaderOpt key value.

(** [doSignedConfig] is its [extraHeaders]. *)
Definition applyDoSigned (c : Header) (e : extraHeaderOpt) : Header := Header_Set c (eh_key e) (eh_value e).

(** A nil option is skipped. *)
Definition apply_doSigned_options (opts : list (option extraHeaderOpt)) : Header :=
  fold_left (fun c o => match o with Some e => applyDoSigned c e | None => c end) opts ∅.

Definition isReservedHeader (name : string) : bool :=
  bool_decide (CanonicalHeaderKey name ∈ ["Authorization"; "Content-Type"; "User-Agent"; "Accept"]).

Definition cloneHeader (h : Header) : Header := h.

(** [io.ReadAll(io.LimitReader(r, max+1))] and the overrun test.  [LimitReader] with a
    limit that is not positive is at its end; [max+1] is computed in [int64]. *)
Definition readAndClose (rs : http_response) (max : Z) : string * option error :=
  let max := if max <=? 0 then Z.shiftl 4 20 else max in
  let n := i64 (max + 1) in
  let data := chars (rs_data rs) in
  let buf := take (Z.to_nat n) data in
  let err := if n <=? Z.of_nat (length data) then None else rs_read_error rs in
  match err with
  | Some err => ("", Some err)
  | None =>
      if Z.of_nat (length buf) >? max
      then (of_chars (take (Z.to_nat max) buf), Some (ESentinel errResponseTooLarge))
      else (of_chars buf, None)
  end.

(** What a request has before the loop sets its headers. *)
Record request_plan := mkRequestPlan {
  pl_Method : string;
  pl_URL : string;
  pl_RawQuery : string;
  pl_Body : option string;
}.

Section Doer.
Context {R : RSA} {E : Env} {FC : FloatConv}.
Variable c : Client.

(** Function values [New] made non-nil ([New_spec]); calling a nil one panics. *)
Definition retryOnStatus (status : Z) : bool :=
  match RetryOnStatus (c_retry c) with Some f => f status | None => false end.
Definition retryOnTransportError (err : option error) : bool :=
  match RetryOnTransportError (c_retry c) with Some f => f err | None => false end.

Definition populateHeaders (h : Header) (authValue : string) : Header :=
  let h := Header_Set h "Authorization" authValue in
  let h := Header_Set h "Content-Type" "application/json" in
  let h := Header_Set h "Accept" "application/json" in
  Header_Set h "User-Agent" (c_userAgent c).

(** The loop over [cfg.extraHeaders]; its keys are distinct and canonical, so the
    order of the map does not matter. *)
Definition addExtraHeaders (extra h : Header) : Header :=
  map_fold (fun k vs h => if isReservedHeader k then h else <[CanonicalHeaderKey k := vs]> h) h extra.

(** The deferred function of the hook wrappers: [recover] and log. *)
Definition recovered (e : event) (msg : string) (kv : list any) : M unit :=
  match panics e with
  | Some p => log "ERROR" msg (kv ++ [VString "panic"; VString p])
  | None => ret tt
  end.

(** A hook call under that function. *)
Definition safeObs (e : event) (msg : string) (kv : list any) : M unit :=
  let! _ := emit e in
  recovered e msg kv.

Definition safeObsRequest (op : string) (attempt : Z) : M unit :=
  safeObs (EvOnRequest op attempt) "atomefin: observer.OnRequest panicked"
    [VString "op"; VString op; VString "attempt"; VInt attempt].

Definition safeObsResponse (op : string) (status dur : Z) : M unit :=
  safeObs (EvOnResponse op status dur) "atomefin: observer.OnResponse panicked"
    [VString "op"; VString op; VString "status"; VInt status].

Definition safeObsRetry (op : string) (attempt : Z) (err : error) : M unit :=
  safeObs (EvOnRetry op attempt err) "atomefin: observer.OnRetry panicked"
    [VString "op"; VString op; VString "attempt"; VInt attempt].

(** [http.NewRequestWithContext] *)
Definition buildReq (pl : request_plan) (reqCtx : context) : res http_request :=
  match NewRequest_error (pl_Method pl) (pl_URL pl) with
  | Some err => Err err
  | None => Ok (mkRequest (pl_Method pl) (pl_URL pl) (pl_RawQuery pl) ∅ (pl_Body pl) reqCtx)
  end.

Definition set_headers (req : http_request) (h : Header) : http_request :=
  mkRequest (rq_Method req) (rq_URL req) (rq_RawQuery req) h (rq_Body req) (rq_ctx req).

(** [(resp, retryable, err)] *)
Definition attempt_result : Type := res RawResponse * bool.

(** The request reached no response. *)
Definition on_do_error (ctx : context) (op urlStr : string) (attempt : Z) (err : error) (dur : Z)
    : M attempt_result :=
  let! now := get_now in
  let retryable := negb (bool_decide (is_Some (ctx_Err ctx now)))
                   && retryOnTransportError (Some err) && IsRetryableTransport (Some err) in
  let te := ETransport "do" urlStr (Some err) retryable in
  let! _ := safeObsRetry op attempt te in
  let! _ := log "WARN" "atomefin: request failed"
              [VString "op"; VString op; VString "attempt"; VInt attempt; VString "err"; VErr err;
               VString "dur"; VInt dur] in
  ret (Err te, retryable).

(** The response body could not be read. *)
Definition on_read_error (ctx : context) (op urlStr : string) (attempt status : Z) (readErr : error)
    : M attempt_result :=
  let! now := get_now in
  let retryable := negb (bool_decide (is_Some (ctx_Err ctx now)))
                   && negb (errors_Is readErr errResponseTooLarge)
                   && ((status <? 400) || retryOnStatus status)
                   && retryOnTransportError (Some readErr) && IsRetryableTransport (Some readErr) in
  let te := ETransport "read" urlStr (Some readErr) retryable in
  let! _ := log "ERROR" "atomefin: response body read failed"
              [VString "op"; VString op; VString "attempt"; VInt attempt; VString "err"; VErr readErr] in
  let! _ := (if retryable && (attempt <? MaxAttempts (c_retry c)) then safeObsRetry op attempt te else ret tt) in
  ret (Err te, retryable).

(** The response is complete. *)
Definition on_response (op : string) (attempt : Z) (resp : http_response) (respBody : string)
    : M attempt_result :=
  let status := rs_StatusCode resp in
  let! _ := (if c_debugBodyLog c
             then log "DEBUG" "atomefin: response"
                    [VString "op"; VString op; VString "attempt"; VInt attempt;
                     VString "status"; VInt status; VString "body_size"; VInt (slen respBody)]
             else ret tt) in
  if retryOnStatus status && (attempt <? MaxAttempts (c_retry c)) then
    let apiErr := decodeAPIError status op respBody in
    let! _ := safeObsRetry op attempt (EAPI apiErr) in
    let! _ := log "WARN" "atomefin: retrying after non-2xx"
                [VString "op"; VString op; VString "attempt"; VInt attempt;
                 VString "status"; VInt status; VString "code"; VString (ae_Code apiErr)] in
    ret (Err (EAPI apiErr), true)
  else if status >=? 400 then ret (Err (EAPI (decodeAPIError status op respBody)), false)
  else ret (Ok (mkRawResponse status (cloneHeader (rs_Header resp)) respBody), false).

Definition dispatchAttempt (ctx : context) (op urlStr authValue : string) (attempt : Z)
    (extra : Header) (pl : request_plan) : M attempt_result :=
  let! now := get_now in
  let reqCtx := if c_timeout c >? 0 then WithTimeout ctx now (c_timeout c) else ctx in
  let! _ := safeObsRequest op attempt in
  match buildReq pl reqCtx with
  | Err err => ret (Err (ETransport "build" urlStr (Some err) false), false)
  | Ok req =>
      let req := set_headers req (addExtraHeaders extra (populateHeaders (rq_Header req) authValue)) in
      let! start := get_now in
      let! resp := http_Do req in
      let! stop := get_now in
      let dur := c_clock c stop - c_clock c start in
      match resp with
      | Err err => on_do_error ctx op urlStr attempt err dur
      | Ok resp =>
          let! _ := emit EvReadBody in
          let '(respBody, readErr) := readAndClose resp (c_maxRespBytes c) in
          let! _ := safeObsResponse op (rs_StatusCode resp) dur in
          match readErr with
          | Some readErr => on_read_error ctx op urlStr attempt (rs_StatusCode resp) readErr
          | None => on_response op attempt resp respBody
          end
      end
  end.

(** [for attempt := 1; attempt <= MaxAttempts; attempt++]: [n] iterations are left.
    The last branch is the code after the loop. *)
Fixpoint retry_loop (n : nat) (attempt : Z) (lastErr : option error) (ctx : context)
    (op urlStr authValue : string) (extra : Header) (pl : request_plan) : M (res RawResponse) :=
  match n with
  | O =>
      ret (Err (default (ETransport "do" urlStr
                           (Some (ENew "retry loop exhausted with no error captured")) false) lastErr))
  | S n =>
      let! r := dispatchAttempt ctx op urlStr authValue attempt extra pl in
      match r with
      | (Ok resp, _) => ret (Ok resp)
      | (Err attemptErr, retryable) =>
          if negb retryable || (attempt =? MaxAttempts (c_retry c)) then ret (Err attemptErr)
          else
            let! sleepErr := Sleep (c_retry c) ctx attempt in
            match sleepErr with
            | Some sleepErr => ret (Err (ETransport "sleep" urlStr (Some sleepErr) false))
            | None => retry_loop n (attempt + 1) (Some attemptErr) ctx op urlStr authValue extra pl
            end
      end
  end.

(** The signer's [Sign(ctx, canonical)]; a nil signer does not occur ([New_spec]). *)
Definition sign_canonical (ctx : context) (canonical : string) : M (res string) :=
  fun w =>
    let r := match c_signer c with
             | Some s => Sign s (step w) (ctx_Err ctx (now w)) canonical
             | None => Err (ENew "nil signer")
             end in
    (r, snd (emit (EvSign canonical) w)).

Definition signer_KeyID : string := match c_signer c with Some s => KeyID s | None => "" end.

Definition signAndDispatch (ctx : context) (op urlStr canonical : string) (extra : Header)
    (pl : request_plan) : M (res RawResponse) :=
  let! sig := sign_canonical ctx canonical in
  match sig with
  | Err err =>
      if errors_Is err Canceled || errors_Is err DeadlineExceeded
      then ret (Err (ETransport "sign" urlStr (Some err) false))
      else ret (Err (ESignature "sign" (Some err)))
  | Ok sig =>
      let authValue := c_authScheme c sig signer_KeyID in
      retry_loop (Z.to_nat (MaxAttempts (c_retry c))) 1 None ctx op urlStr authValue extra pl
  end.

(** [path == "" || path\[0\] != '/'] *)
Definition bad_path (path : string) : bool :=
  match path with
  | EmptyString => true
  | String c0 _ => negb (bool_decide (c0 = "/"%char))
  end.

Definition errPath : error := EValidation "path" "path must be absolute (start with '/')".

Definition DoSigned (ctx : context) (method path body : string) (opts : list (option extraHeaderOpt))
    : M (res RawResponse) :=
  let cfg := apply_doSigned_options opts in
  if negb (bool_decide (method = "POST"))
  then ret (Err (EValidation "method" "DoSigned is POST-only; use DoSignedGET for GET requests"))
  else if bad_path path then ret (Err errPath)
  else
    let urlStr := c_baseURL c +:+ path in
    signAndDispatch ctx path urlStr body cfg (mkRequestPlan method urlStr "" (Some body)).

Definition DoSignedGET (ctx : context) (path : string) (query : Values) (opts : list (option extraHeaderOpt))
    : M (res RawResponse) :=
  let cfg := apply_doSigned_options opts in
  if bad_path path then ret (Err errPath)
  else
    let canonical := CanonicalQueryFirstValue query in
    let wireQuery := EncodeWireQueryRFC3986 query in
    let urlStr := c_baseURL c +:+ path in
    signAndDispatch ctx path urlStr canonical cfg (mkRequestPlan "GET" urlStr wireQuery None).

(** [encrypt.Marshal] with the randomness available at this step.  [None]: its key
    generation has not stopped on the bytes given ([RandomAESKey_spec]). *)
Definition DoEncryptedSigned {A : AES} (ctx : context) (method path plainBody : string)
    (opts : list (option extraHeaderOpt)) : world -> option (res RawResponse * world) :=
  fun w =>
  match c_encryptAtomePub c with
  | None =>
      Some (Err (EValidation "encryptAtomePublicCert"
        "WithEncryptAtomePublicCertPEM is required for endpoints with the Encrypt: header (today /query-user-tag, /credit-information, and /credit-application)"), w)
  | Some pub =>
      if negb (bool_decide (method = "POST"))
      then Some (Err (EValidation "method" "DoEncryptedSigned is POST-only"), w)
      else if bad_path path then Some (Err errPath, w)
      else match Marshal (rand_reads (step w)) (step w) plainBody (Some pub) with
      | None => None
      | Some (Err err, _) =>
          Some (Err (ETransport "encrypt" path
                  (Some (EErrorf "hybrid-encrypt request body: %w" [AWrap err])) false), w)
      | Some (Ok (header, bodyB64), _) =>
          let cfg := apply_doSigned_options (opts ++ [Some (WithRequestHeader EncryptHeaderName header)]) in
          let urlStr := c_baseURL c +:+ path in
          Some (signAndDispatch ctx path urlStr bodyB64 cfg (mkRequestPlan method urlStr "" (Some bodyB64)) w)
      end
  end.

End Doer.

(** The three are methods of [*Client]; a nil one is [None]. *)
Definition DoSigned_on `{R : RSA, E : Env, FC : FloatConv} (c : option Client) (ctx : context) (method path body : string)
    (opts : list (option extraHeaderOpt)) : M (res RawResponse) :=
  match c with
  | None => ret (Err (ENew "atomefin: DoSigned called on nil *Client"))
  | Some c => DoSigned c ctx method path body opts
  end.

Definition DoSignedGET_on `{R : RSA, E : Env, FC : FloatConv} (c : option Client) (ctx : context) (path : string) (query : Values)
    (opts : list (option extraHeaderOpt)) : M (res RawResponse) :=
  match c with
  | None => ret (Err (ENew "atomefin: DoSignedGET called on nil *Client"))
  | Some c => DoSignedGET c ctx path query opts
  end.

Definition DoEncryptedSigned_on `{R : RSA, E : Env, FC : FloatConv, A : AES} (c : option Client) (ctx : context)
    (method path plainBody : string) (opts : list (option extraHeaderOpt)) : world -> option (res RawResponse * world) :=
  match c with
  | None => fun w => Some (Err (ENew "atomefin: DoEncryptedSigned called on nil *Client"), w)
  | Some c => DoEncryptedSigned c ctx method path plainBody opts
  end.

(** [JoinPath] *)
Definition JoinPath (base path : string) : string :=
  let base := TrimRight_slash base in
  match path with
  | EmptyString => base
  | String c0 _ => if negb (bool_decide (c0 = "/"%char)) then base +:+ "/" +:+ path else base +:+ path
  end.

(** * Specification of a dispatch *)

(** The signatures asked for. *)
Definition signed (es : list event) : list string :=
  omap (fun e => match e with EvSign b => Some b | _ => None end) es.

Section Spec.
Context {R : RSA} {E : Env} {FC : FloatConv}.

(** The HTTP exchanges of a trace that starts at effect [n]: what was sent, and what
    the network answered. *)
Fixpoint exchanges (n : nat) (es : list event) : list (http_request * res http_response) :=
  match es with
  | [] => []
  | EvHTTP r :: es => (r, net n r) :: exchanges (S n) es
  | EvLog _ _ _ :: es => exchanges n es
  | _ :: es => exchanges (S n) es
  end.

Variable c : Client.
Variables (op urlStr authValue : string) (extra : Header) (pl : request_plan).

(** The one request of a call; attempts differ in their deadlines only. *)
Definition is_request (req : http_request) : Prop :=
  rq_Method req = pl_Method pl /\ rq_URL req = pl_URL pl /\ rq_RawQuery req = pl_RawQuery pl /\
  rq_Body req = pl_Body pl /\ rq_Header req = addExtraHeaders extra (populateHeaders c ∅ authValue).

(** The meaning of one exchange as attempt number [attempt]; [alive]: the caller's
    context was not done when it failed. *)
Definition exchange_result (attempt : Z) (alive : bool) (x : res http_response) : attempt_result :=
  match x with
  | Err err =>
      let retryable := alive && retryOnTransportError c (Some err) && IsRetryableTransport (Some err) in
      (Err (ETransport "do" urlStr (Some err) retryable), retryable)
  | Ok rs =>
      let status := rs_StatusCode rs in
      match readAndClose rs (c_maxRespBytes c) with
      | (_, Some readErr) =>
          let retryable := alive && negb (errors_Is readErr errResponseTooLarge)
                           && ((status <? 400) || retryOnStatus c status)
                           && retryOnTransportError c (Some readErr) && IsRetryableTransport (Some readErr) in
          (Err (ETransport "read" urlStr (Some readErr) retryable), retryable)
      | (body, None) =>
          if retryOnStatus c status && (attempt <? MaxAttempts (c_retry c))
          then (Err (EAPI (decodeAPIError status op body)), true)
          else if status >=? 400 then (Err (EAPI (decodeAPIError status op body)), false)
          else (Ok (mkRawResponse status (rs_Header rs) body), false)
      end
  end.

(** The runs a dispatch may have from attempt [attempt] on, as the exchanges made and
    the result. *)
Inductive attempts : Z -> list (http_request * res http_response) -> res RawResponse -> Prop :=
| attempt_not_built attempt err :
    NewRequest_error (pl_Method pl) (pl_URL pl) = Some err ->
    attempts attempt [] (Err (ETransport "build" urlStr (Some err) false))
| attempt_final attempt req x alive r retryable :
    is_request req -> exchange_result attempt alive x = (r, retryable) ->
    is_ok r = true \/ retryable = false \/ attempt = MaxAttempts (c_retry c) ->
    attempts attempt [(req, x)] r
| attempt_interrupted attempt req x alive e err :
    is_request req -> exchange_result attempt alive x = (Err e, true) ->
    attempt < MaxAttempts (c_retry c) ->
    attempts attempt [(req, x)] (Err (ETransport "sleep" urlStr (Some err) false))
| attempt_retried attempt req x alive e xs r :
    is_request req -> exchange_result attempt alive x = (Err e, true) ->
    attempt < MaxAttempts (c_retry c) ->
    attempts (attempt + 1) xs r ->
    attempts attempt ((req, x) :: xs) r.

End Spec.

(** * Lemmas *)

Section DispatchFacts.
Context {R : RSA} {E : Env} {FC : FloatConv}.

Lemma exchanges_app n es es' :
  exchanges n (es ++ es') = exchanges n es ++ exchanges (n + length (effects es))%nat es'.
Proof.
  revert n. induction es as [|e es IH]; intros n; [simpl; f_equal; lia|].
  destruct e; simpl; rewrite IH; simpl; repeat f_equal; lia.
Qed.

Lemma signed_app es es' : signed (es ++ es') = signed es ++ signed es'.
Proof. apply omap_app. Qed.

(** A silent stretch: no exchange, no signature. *)
(** Every answer of an exchange is the network's. *)
Lemma exchanges_net n es x : x ∈ exchanges n es -> exists j, x.2 = net j x.1.
Proof.
  revert n. induction es as [|[] es IH]; intros n; cbn [exchanges]; try apply IH; [by rewrite elem_of_nil|].
  rewrite elem_of_cons. intros [->|Hx]; [by exists n|by eapply IH].
Qed.

Definition silent (es : list event) : Prop := (forall n, exchanges n es = []) /\ signed es = [].

Lemma silent_nil : silent [].
Proof. done. Qed.

Lemma silent_app es es' : silent es -> silent es' -> silent (es ++ es').
Proof.
  intros [H1 S1] [H2 S2]. split; [|by rewrite signed_app, S1, S2].
  intros n. by rewrite exchanges_app, H1, H2.
Qed.

Lemma exchanges_silent_l n es es' :
  silent es -> exists n', exchanges n (es ++ es') = exchanges n' es'.
Proof. intros [H _]. eexists. by rewrite exchanges_app, H. Qed.

(** A computation that only logs and calls hooks. *)
Definition quiet {A} (m : M A) (P : A -> Prop) : Prop := extends m (fun _ a es => silent es /\ P a).

Lemma quiet_ret {A} (a : A) (P : A -> Prop) : P a -> quiet (ret a) P.
Proof. intros H. by apply extends_ret. Qed.

Lemma quiet_bind {A B} (m : M A) (k : A -> M B) P Q :
  quiet m P -> (forall a, P a -> quiet (k a) Q) -> quiet (bind m k) Q.
Proof.
  intros Hm Hk. eapply extends_bind; [exact Hm|]. intros a (_ & _ & _ & HP).
  eapply extends_mono; [apply (Hk a HP)|]. intros _ b es' [Hs' HQ] n es _ [Hs _].
  split; [by apply silent_app|done].
Qed.

Lemma quiet_get_now : quiet get_now (fun _ => True).
Proof. by apply extends_get_now. Qed.

Lemma quiet_log level msg kv : quiet (log level msg kv) (fun _ => True).
Proof. by apply extends_emit. Qed.

Lemma quiet_safeObs e msg kv : silent [e] -> quiet (safeObs e msg kv) (fun _ => True).
Proof.
  intros He. eapply (quiet_bind _ _ (fun _ => True)); [by apply extends_emit|]. intros _ _.
  unfold recovered. destruct (panics e); [apply quiet_log|by apply quiet_ret].
Qed.

Variable c : Client.

Lemma on_do_error_quiet ctx op urlStr attempt err dur :
  quiet (on_do_error c ctx op urlStr attempt err dur)
    (fun r => exists alive, r = exchange_result c op urlStr attempt alive (Err err)).
Proof.
  unfold on_do_error. eapply quiet_bind; [apply quiet_get_now|]. intros t _. cbv zeta.
  eapply quiet_bind; [by apply quiet_safeObs|]. intros _ _.
  eapply quiet_bind; [apply quiet_log|]. intros _ _. apply quiet_ret. by eexists.
Qed.

Lemma on_read_error_quiet ctx op urlStr attempt rs buf readErr :
  readAndClose rs (c_maxRespBytes c) = (buf, Some readErr) ->
  quiet (on_read_error c ctx op urlStr attempt (rs_StatusCode rs) readErr)
    (fun r => exists alive, r = exchange_result c op urlStr attempt alive (Ok rs)).
Proof.
  intros Hr. unfold on_read_error. eapply quiet_bind; [apply quiet_get_now|]. intros t _. cbv zeta.
  eapply quiet_bind; [apply quiet_log|]. intros _ _.
  eapply (quiet_bind _ _ (fun _ => True)).
  { destruct (_ && (_ <? _)); [by apply quiet_safeObs|by apply quiet_ret]. }
  intros _ _. apply quiet_ret. unfold exchange_result. rewrite Hr. by eexists.
Qed.

Lemma on_response_quiet op urlStr attempt rs body :
  readAndClose rs (c_maxRespBytes c) = (body, None) ->
  quiet (on_response c op attempt rs body)
    (fun r => exists alive, r = exchange_result c op urlStr attempt alive (Ok rs)).
Proof.
  intros Hr. unfold on_response. eapply (quiet_bind _ _ (fun _ => True)).
  { destruct (c_debugBodyLog c); [apply quiet_log|by apply quiet_ret]. }
  intros _ _. unfold exchange_result. rewrite Hr. destruct (_ && _).
  - eapply quiet_bind; [by apply quiet_safeObs|]. intros _ _.
    eapply quiet_bind; [apply quiet_log|]. intros _ _. apply quiet_ret. by exists true.
  - destruct (_ >=? _); apply quiet_ret; by exists true.
Qed.

Variables (op urlStr authValue : string) (extra : Header) (pl : request_plan).

(** One attempt: either the request cannot be built, or it is sent once and the result
    is the meaning of the exchange. *)
Definition one_attempt (attempt : Z) (n : nat) (r : attempt_result) (es : list event) : Prop :=
  signed es = [] /\
  ((exists err, NewRequest_error (pl_Method pl) (pl_URL pl) = Some err /\ exchanges n es = [] /\
      r = (Err (ETransport "build" urlStr (Some err) false), false)) \/
   (exists req x alive, exchanges n es = [(req, x)] /\ is_request c authValue extra pl req /\
      r = exchange_result c op urlStr attempt alive x)).

Lemma dispatchAttempt_one ctx attempt :
  extends (dispatchAttempt c ctx op urlStr authValue attempt extra pl) (one_attempt attempt).
Proof.
  unfold dispatchAttempt. eapply extends_bind; [apply quiet_get_now|]. intros t _. cbv zeta.
  eapply extends_bind; [by apply quiet_safeObs|]. intros u _.
  unfold buildReq. destruct (NewRequest_error _ _) as [err|] eqn:Eb.
  { apply extends_ret. intros n0 n es _ [Hs _] n' es' _ [Hs' _]. rewrite app_nil_r.
    destruct (silent_app _ _ Hs' Hs) as [Hx Hsg]. split; [done|]. left. by exists err. }
  set (req := set_headers _ _).
  eapply extends_bind; [apply quiet_get_now|]. intros start _.
  eapply (extends_bind _ _ (fun n x es => x = net n req /\ es = [EvHTTP req])); [by apply extends_http_Do|].
  intros x _.
  eapply extends_bind; [apply quiet_get_now|]. intros stop _.
  (* what follows the exchange is quiet *)
  set (tail := match x with Err _ => _ | Ok _ => _ end).
  assert (Ht : quiet tail (fun r => exists alive, r = exchange_result c op urlStr attempt alive x)).
  { subst tail. destruct x as [rs|err]; [|apply on_do_error_quiet].
    eapply (quiet_bind _ _ (fun _ => True)); [by apply extends_emit|]. intros _ _.
    destruct (readAndClose rs (c_maxRespBytes c)) as [body [readErr|]] eqn:Er;
      (eapply quiet_bind; [by apply quiet_safeObs|]; intros _ _);
      [by eapply on_read_error_quiet|by apply on_response_quiet]. }
  eapply extends_mono; [exact Ht|].
  intros n5 r es5 [Hs5 [alive Hr]] n4 es4 _ [Hs4 _] n3 es3 _ [Hx ->] n2 es2 E2 [Hs2 _] n1 es1 E1 [Hs1 _] n es E0 [Hs _].
  destruct Hs as [He Hsg], Hs1 as [He1 Hsg1], Hs2 as [He2 Hsg2], Hs4 as [He4 Hsg4], Hs5 as [He5 Hsg5].
  split; [by rewrite !signed_app, Hsg, Hsg1, Hsg2, Hsg4, Hsg5|].
  right. exists req, x, alive. split; [|split; [by repeat split|done]].
  rewrite !exchanges_app, He, He1, He2. cbn [app]. cbn [exchanges]. rewrite He4, He5, Hx.
  by subst n3 n2 n1.
Qed.

(** The retry loop runs as [attempts] says. *)
Lemma retry_loop_attempts n attempt lastErr ctx :
  (0 < n)%nat -> Z.of_nat n = MaxAttempts (c_retry c) - attempt + 1 ->
  extends (retry_loop c n attempt lastErr ctx op urlStr authValue extra pl)
    (fun i r es => signed es = [] /\ attempts c op urlStr authValue extra pl attempt (exchanges i es) r).
Proof.
  revert attempt lastErr. induction n as [|n IH]; intros attempt lastErr Hn Hmax; [lia|]. cbn [retry_loop].
  eapply extends_bind; [apply dispatchAttempt_one|]. intros [[resp|e] retryable] _.
  - apply extends_ret. intros _ i es _ [Hs Hone]. rewrite app_nil_r. split; [done|].
    destruct Hone as [(err & _ & _ & [=])|(req & x & alive & -> & Hreq & Hr)].
    eapply attempt_final; eauto.
  - destruct (negb retryable || (attempt =? MaxAttempts (c_retry c))) eqn:Estop.
    + apply extends_ret. intros _ i es _ [Hs Hone]. rewrite app_nil_r. split; [done|].
      destruct Hone as [(err & Hb & -> & [= -> _])|(req & x & alive & -> & Hreq & Hr)];
        [by apply attempt_not_built|].
      to_prop. eapply attempt_final; eauto.
    + to_prop. destruct Estop as [-> Hne].
      eapply (extends_bind _ _ (fun _ _ es => silent es)); [by apply extends_Sleep|]. intros [err|] _.
      * apply extends_ret. intros _ i1 es1 _ [Hx1 Hs1] i es -> [Hs Hone]. rewrite app_nil_r.
        split; [by rewrite signed_app, Hs, Hs1|]. rewrite exchanges_app, Hx1, app_nil_r.
        destruct Hone as [(err' & _ & _ & [=])|(req & x & alive & -> & Hreq & Hr)].
        eapply attempt_interrupted; eauto. lia.
      * eapply extends_mono; [apply (IH (attempt + 1) (Some e)); lia|].
        intros i2 r es2 [Hs2 Ha] i1 es1 -> [Hx1 Hs1] i es -> [Hs Hone].
        split; [by rewrite !signed_app, Hs, Hs1, Hs2|].
        rewrite !exchanges_app, Hx1.
        destruct Hone as [(err' & _ & _ & [=])|(req & x & alive & -> & Hreq & Hr)].
        cbn [app]. eapply attempt_retried; eauto. lia.
Qed.

End DispatchFacts.

Section SignFacts.
Context {R : RSA} {E : Env} {FC : FloatConv}.
Variable c : Client.
Variables (op urlStr canonical : string) (extra : Header) (pl : request_plan).

(** What a whole dispatch may do: ask for one signature, fail with it, or make the
    attempts of one request under that signature. *)
Inductive dispatch_run (i : nat) (r : res RawResponse) (es : list event) : Prop :=
| run_sign_failed err :
    signed es = [canonical] -> exchanges i es = [] ->
    r = Err (if errors_Is err Canceled || errors_Is err DeadlineExceeded
             then ETransport "sign" urlStr (Some err) false else ESignature "sign" (Some err)) ->
    dispatch_run i r es
| run_attempts s ctx_err sig :
    signed es = [canonical] -> c_signer c = Some s -> Sign s i ctx_err canonical = Ok sig ->
    attempts c op urlStr (c_authScheme c sig (KeyID s)) extra pl 1 (exchanges i es) r ->
    dispatch_run i r es.

Lemma signAndDispatch_run ctx :
  1 <= MaxAttempts (c_retry c) ->
  extends (signAndDispatch c ctx op urlStr canonical extra pl) dispatch_run.
Proof.
  intros Hmax. unfold signAndDispatch.
  eapply (extends_bind _ _ (fun i sig es => es = [EvSign canonical] /\
    match sig with
    | Ok sig => exists s ctx_err, c_signer c = Some s /\ Sign s i ctx_err canonical = Ok sig
    | Err _ => True
    end)).
  { intros w. simpl. split; [lia|]. eexists. split; [done|]. split; [done|].
    destruct (c_signer c) as [s|]; [|done]. destruct (Sign s _ _ _) eqn:Es; [|done]. by eexists _, _. }
  intros [sig|err] _.
  - assert (Hsome : is_Some (c_signer c) \/ c_signer c = None) by (destruct (c_signer c); eauto).
    eapply extends_mono; [apply (retry_loop_attempts c); lia|].
    intros i' r es' [Hs' Ha] i es -> (-> & s & ctx_err & Hc & Hsig).
    eapply run_attempts; [by rewrite signed_app, Hs'|done|exact Hsig|].
    unfold signer_KeyID in Ha. rewrite Hc in Ha. simpl. simpl in Ha.
    replace (S i) with (i + 1)%nat by lia. exact Ha.
  - destruct (_ || _) eqn:Ee; apply extends_ret; intros _ i es -> [-> _];
      (eapply (run_sign_failed _ _ _ err); [done|done|by rewrite Ee]).
Qed.
End SignFacts.

(** ** Consequences of [attempts] *)

Section AttemptsFacts.
Context {R : RSA} {E : Env} {FC : FloatConv}.
Variable c : Client.
Variables (op urlStr authValue : string) (extra : Header) (pl : request_plan).

Abbreviation atts := (attempts c op urlStr authValue extra pl).

Lemma attempts_length a xs r : atts a xs r -> a <= MaxAttempts (c_retry c) ->
  Z.of_nat (length xs) <= MaxAttempts (c_retry c) - a + 1.
Proof. induction 1; intros Ha; cbn [length] in *; lia. Qed.

Lemma attempts_requests a xs r : atts a xs r -> Forall (fun x => is_request c authValue extra pl x.1) xs.
Proof. induction 1; [apply Forall_nil_2|by apply Forall_singleton..|by apply Forall_cons]. Qed.

(** Every exchange but the last was answered retryably. *)
Lemma attempts_retried a xs r : atts a xs r ->
  forall pre req x post, xs = pre ++ (req, x) :: post -> post <> [] ->
  exists n alive e, n < MaxAttempts (c_retry c) /\ exchange_result c op urlStr n alive x = (Err e, true).
Proof.
  induction 1; intros pre rq y post Hxs Hpost.
  - by destruct pre.
  - destruct pre as [|? [|]]; simplify_eq/=; done.
  - destruct pre as [|? [|]]; simplify_eq/=; done.
  - destruct pre as [|p pre]; simplify_eq/=; [by eexists _, _, _|]. eapply IHattempts; eauto.
Qed.

(** A success is the meaning of the last exchange. *)
Lemma attempts_ok a xs r resp : atts a xs r -> r = Ok resp ->
  exists pre req rs, xs = pre ++ [(req, Ok rs)] /\ resp = mkRawResponse (rs_StatusCode rs) (rs_Header rs) (Body resp) /\
    rs_StatusCode rs < 400 /\ readAndClose rs (c_maxRespBytes c) = (Body resp, None).
Proof.
  intros H. induction H as [| attempt req x alive r retryable Hreq Hx Hfin | | attempt req x alive e xs r Hreq Hx Hlt Hat IH]; intros Hr; try done.
  - subst r. unfold exchange_result in Hx. destruct x as [rs|err]; [|done]. cbv zeta in Hx.
    destruct (readAndClose rs (c_maxRespBytes c)) as [body [re|]] eqn:Er; [done|].
    destruct (_ && _); [done|]. destruct (rs_StatusCode rs >=? 400) eqn:E4; [done|].
    injection Hx as <- _. exists [], req, rs. simpl. repeat split; try done.
    rewrite Z.geb_leb in E4. apply Z.leb_gt in E4. lia.
  - destruct (IH Hr) as (pre & req' & rs & -> & ?). exists ((req, x) :: pre), req', rs. done.
Qed.

End AttemptsFacts.

(** ** Headers *)

Lemma addExtraHeaders_lookup extra h k :
  (forall i vs, extra !! i = Some vs -> CanonicalHeaderKey i = i) ->
  addExtraHeaders extra h !! k =
    if isReservedHeader k then h !! k else match extra !! k with Some vs => Some vs | None => h !! k end.
Proof.
  intros Hcan. unfold addExtraHeaders. revert Hcan.
  apply (map_fold_weak_ind (fun h' (m : Header) =>
    (forall i vs, m !! i = Some vs -> CanonicalHeaderKey i = i) ->
    h' !! k = if isReservedHeader k then h !! k else match m !! k with Some vs => Some vs | None => h !! k end)).
  - intros _. rewrite lookup_empty. by destruct (isReservedHeader k).
  - intros i vs m h' Hi IH Hcan.
    assert (Hci : CanonicalHeaderKey i = i) by (apply (Hcan i vs); by rewrite lookup_insert_eq).
    assert (IH' := IH ltac:(intros j ws Hj; apply (Hcan j ws); rewrite lookup_insert_ne; [done|congruence])).
    destruct (decide (i = k)) as [->|Hne].
    + rewrite lookup_insert_eq. rewrite Hi in IH'. destruct (isReservedHeader k); [done|].
      by rewrite Hci, lookup_insert_eq.
    + rewrite lookup_insert_ne by done. destruct (isReservedHeader i); [done|].
      by rewrite Hci, lookup_insert_ne.
Qed.

Lemma apply_options_canonical opts i vs :
  apply_doSigned_options opts !! i = Some vs -> CanonicalHeaderKey i = i.
Proof.
  unfold apply_doSigned_options.
  assert (Hgen : forall h : Header, (forall i vs, h !! i = Some vs -> CanonicalHeaderKey i = i) ->
    forall i vs, fold_left (fun c o => match o with Some e => applyDoSigned c e | None => c end) opts h !! i = Some vs ->
    CanonicalHeaderKey i = i).
  2:{ apply Hgen. intros ? ? H. by rewrite lookup_empty in H. }
  induction opts as [|[e|] opts IH]; intros h Hh; cbn [fold_left]; [exact Hh| |by apply IH].
  apply IH. unfold applyDoSigned, Header_Set. intros j ws [[<- _]|[_ Hj]]%lookup_insert_Some; [|eauto].
  apply CanonicalHeaderKey_idemp.
Qed.

Lemma apply_options_snoc opts e :
  apply_doSigned_options (opts ++ [Some e]) = applyDoSigned (apply_doSigned_options opts) e.
Proof. unfold apply_doSigned_options. by rewrite fold_left_app. Qed.

Lemma Header_Set_lookup h k v i :
  Header_Set h k v !! i = if bool_decide (CanonicalHeaderKey k = i) then Some [v] else h !! i.
Proof. unfold Header_Set. case_bool_decide; [by subst; rewrite lookup_insert_eq|by rewrite lookup_insert_ne]. Qed.

(** The header map every request of a call carries. *)
Definition sdk_headers {R : RSA} (c : Client) (authValue : string) : Header :=
  {[ "Authorization" := [authValue]; "Content-Type" := ["application/json"];
     "Accept" := ["application/json"]; "User-Agent" := [c_userAgent c] ]}.

Lemma populateHeaders_lookup {R : RSA} (c : Client) authValue k :
  populateHeaders c ∅ authValue !! k = sdk_headers c authValue !! k.
Proof.
  unfold populateHeaders, sdk_headers. rewrite !Header_Set_lookup.
  repeat match goal with |- context [CanonicalHeaderKey ?s] =>
    let v := eval vm_compute in (CanonicalHeaderKey s) in change (CanonicalHeaderKey s) with v end.
  rewrite !lookup_insert, lookup_singleton.
  repeat (case_bool_decide || case_decide); subst; try done; naive_solver.
Qed.

(** Under the largest limit [max+1] overflows, and any body reads as empty. *)
Example readAndClose_overflow :
  readAndClose (mkResponse 200 ∅ "{}" None) int64_max = ("", None).
Proof. vm_compute. reflexivity. Qed.

(** * Properties *)

Section Dispatch.
Context {R : RSA} {E : Env} {FC : FloatConv}.

(** C2.  The retry pipeline refines its specification.  From any state and for any
    behaviour of the network, the observer, the clock and the context, a dispatch asks
    for exactly one signature, of the canonical bytes; it then makes at most
    [MaxAttempts] attempts, all of them the same request (method, URL, query, body,
    headers) under that one signature, and its result is the result [attempts] gives:
    the meaning of the last exchange, an interrupted backoff, or a request that cannot
    be built. *)
Theorem dispatch_refines c ctx op urlStr canonical extra pl w :
  client_ready c ->
  let '(r, w') := signAndDispatch c ctx op urlStr canonical extra pl w in
  exists es, trace w' = trace w ++ es /\ now w <= now w' /\
    dispatch_run c op urlStr canonical extra pl (step w) r es /\
    signed es = [canonical] /\
    Z.of_nat (length (exchanges (step w) es)) <= MaxAttempts (c_retry c) /\
    exists authValue, Forall (fun x => is_request c authValue extra pl x.1) (exchanges (step w) es).
Proof.
  intros Hc. pose proof (proj1 (proj1 (Validate_None _) (ready_retry _ Hc))) as Hmax.
  pose proof (signAndDispatch_run c op urlStr canonical extra pl ctx Hmax w) as H.
  destruct (signAndDispatch _ _ _ _ _ _ _ w) as [r w']. destruct H as (Hn & es & Ht & Hrun).
  exists es. repeat (split; [done|]). destruct Hrun as [err Hs Hx Hr|s ctx_err sig Hs Hsig HS Ha].
  - rewrite Hx. split; [done|]. split; [simpl; lia|]. by exists "".
  - split; [done|]. split; [pose proof (attempts_length _ _ _ _ _ _ _ _ _ Ha Hmax); lia|].
    eexists. eapply attempts_requests, Ha.
Qed.

(** C31.  When a dispatch may send again, and what success means.  Under the default
    retry callbacks, an exchange is followed by another one only if it failed before a
    response and not by cancellation, or was answered 500, 502, 503 or 504, or was
    answered below 400 with a body that could not be read for a reason other than its
    size.  In particular a 4xx answer and a complete 2xx or 3xx answer end the call.
    The call succeeds only with the last answer, of status below 400 and a body within
    the limit. *)
Theorem retry_discipline c ctx op urlStr canonical extra pl w :
  client_ready c ->
  RetryOnStatus (c_retry c) = Some DefaultRetryOnStatus ->
  RetryOnTransportError (c_retry c) = Some DefaultRetryOnTransportError ->
  let '(r, w') := signAndDispatch c ctx op urlStr canonical extra pl w in
  exists es, trace w' = trace w ++ es /\
  (forall pre req x post, exchanges (step w) es = pre ++ (req, x) :: post -> post <> [] ->
    match x with
    | Err e => errors_Is e Canceled = false
    | Ok rs =>
        rs_StatusCode rs ∈ [500; 502; 503; 504] \/
        rs_StatusCode rs < 400 /\
        exists b e, readAndClose rs (c_maxRespBytes c) = (b, Some e) /\
                    errors_Is e errResponseTooLarge = false /\ errors_Is e Canceled = false
    end) /\
  (forall resp, r = Ok resp ->
    exists pre req rs, exchanges (step w) es = pre ++ [(req, Ok rs)] /\
      resp = mkRawResponse (rs_StatusCode rs) (rs_Header rs) (Body resp) /\ rs_StatusCode rs < 400 /\
      readAndClose rs (c_maxRespBytes c) = (Body resp, None)).
Proof.
  intros Hc HS HT. pose proof (proj1 (proj1 (Validate_None _) (ready_retry _ Hc))) as Hmax.
  pose proof (signAndDispatch_run c op urlStr canonical extra pl ctx Hmax w) as H.
  destruct (signAndDispatch _ _ _ _ _ _ _ w) as [r w']. destruct H as (_ & es & Ht & Hrun).
  exists es. split; [done|]. destruct Hrun as [err _ Hx Hr|s ctx_err sig _ _ _ Ha].
  { rewrite Hx. split; [by intros [|]|]. intros resp ->. by destruct (_ || _). }
  split; [|intros resp Hr; by eapply attempts_ok].
  intros pre req x post Hx Hpost.
  destruct (attempts_retried _ _ _ _ _ _ _ _ _ Ha _ _ _ _ Hx Hpost) as (n & alive & e & _ & He).
  unfold exchange_result, retryOnStatus, retryOnTransportError in He. rewrite HS, HT in He.
  destruct x as [rs|err].
  - cbv zeta in He. destruct (readAndClose rs _) as [b [re|]].
    + injection He as _ Hb. rewrite !andb_true_iff, orb_true_iff in Hb.
      destruct Hb as ((((_ & Hl) & Hst) & _) & Hir).
      destruct Hst as [Hst|Hst]; [right; apply Z.ltb_lt in Hst|left; by apply bool_decide_eq_true in Hst].
      split; [done|]. exists b, re. apply negb_true_iff in Hl. unfold IsRetryableTransport in Hir.
      by destruct (errors_Is re Canceled).
    + left. destruct (DefaultRetryOnStatus (rs_StatusCode rs)) eqn:Ed; [by apply bool_decide_eq_true in Ed|].
      simpl in He. by destruct (_ >=? _).
  - injection He as _ Hb. rewrite !andb_true_iff in Hb. destruct Hb as [_ Hir].
    unfold IsRetryableTransport in Hir. by destruct (errors_Is err Canceled).
Qed.

(** Header ownership.  In every request of a call, the four headers the SDK owns
    have the SDK's values whatever options the caller passes, and any other header has
    exactly the value the caller's options gave it. *)
Theorem reserved_headers c opts authValue k :
  CanonicalHeaderKey k = k ->
  addExtraHeaders (apply_doSigned_options opts) (populateHeaders c ∅ authValue) !! k =
    match sdk_headers c authValue !! k with
    | Some vs => Some vs
    | None => apply_doSigned_options opts !! k
    end.
Proof.
  intros Hk. rewrite addExtraHeaders_lookup by apply apply_options_canonical.
  rewrite populateHeaders_lookup. unfold isReservedHeader. rewrite Hk.
  unfold sdk_headers. rewrite !lookup_insert, lookup_singleton.
  case_bool_decide as Hin.
  - rewrite !elem_of_cons, elem_of_nil in Hin.
    destruct Hin as [-> |[-> |[-> |[-> |[]]]]]; repeat case_decide; congruence || done.
  - rewrite !not_elem_of_cons in Hin. destruct Hin as (? & ? & ? & ? & _).
    repeat case_decide; try congruence.
    by destruct (apply_doSigned_options opts !! k).
Qed.

End Dispatch.

Definition toy_plan : request_plan := mkRequestPlan "POST" "https://x/auth" "" (Some "{}").

Lemma dispatch_refines_witness :
  let '(r, w') := @signAndDispatch toy_RSA toy_env amd64_conv toy_client Background "/auth" "https://x/auth" "{}" ∅
                    toy_plan (mkWorld 0 []) in
  exists es, trace w' = es /\ signed es = ["{}"] /\ Z.of_nat (length (@exchanges toy_env 0 es)) <= 3.
Proof.
  pose proof (@dispatch_refines toy_RSA toy_env amd64_conv toy_client Background "/auth" "https://x/auth" "{}" ∅
                toy_plan (mkWorld 0 []) toy_ready) as H.
  destruct (signAndDispatch _ _ _ _ _ _ _ _) as [r w'].
  destruct H as (es & Ht & _ & _ & Hs & Hl & _). exists es. split; [exact Ht|]. split; [exact Hs|exact Hl].
Defined.

Lemma retry_discipline_witness :
  let '(r, w') := @signAndDispatch toy_RSA toy_env amd64_conv toy_client Background "/auth" "https://x/auth" "{}" ∅
                    toy_plan (mkWorld 0 []) in
  forall resp, r = Ok resp -> StatusCode resp < 400.
Proof.
  pose proof (@retry_discipline toy_RSA toy_env amd64_conv toy_client Background "/auth" "https://x/auth" "{}" ∅
                toy_plan (mkWorld 0 []) toy_ready eq_refl eq_refl) as H.
  destruct (signAndDispatch _ _ _ _ _ _ _ _) as [r w'].
  destruct H as (es & _ & _ & H). intros resp Hr. destruct (H resp Hr) as (_ & _ & rs & _ & -> & Hst & _).
  exact Hst.
Defined.

Lemma reserved_headers_witness :
  addExtraHeaders (apply_doSigned_options [Some (WithRequestHeader "authorization" "forged")])
    (populateHeaders toy_client ∅ "sig") !! "Authorization" = Some ["sig"].
Proof. exact (reserved_headers toy_client [Some (WithRequestHeader "authorization" "forged")] "sig" "Authorization" eq_refl). Defined.
