(* ===== verification/Gateway.v ===== *)
(** * Gateway: the three entry points of [atomefin/doer.go] seen from the receiver.

    The client's calls are composed with the receiving side built from the same
    packages: the gateway re-derives the signed bytes from the request it gets, checks
    the signature under the partner's public key, and opens encrypted bodies with its
    private key. *)
From S2P Require Import Prelude GoStd Errors Canonical GoCrypto Sign Encrypt GoHttp Codec Transport World Client Doer.

(** What a gateway verifies: the body of a POST, the first-value canonical form of the
    query of a GET. *)
Definition gateway_input (req : http_request) : string :=
  match rq_Body req with
  | Some body => body
  | None => CanonicalQueryFirstValue (ParseQuery (rq_RawQuery req)).1
  end.

Definition gateway_verify {R : RSA} (v : rsa2Verifier) (req : http_request) : option error :=
  rsa2Verifier_Verify v None (gateway_input req) (Header_Get (rq_Header req) "Authorization").

Definition gateway_open {R : RSA} {A : AES} (priv : PrivateKey) (req : http_request) : res string :=
  match rq_Body req with
  | Some body => Unmarshal (Header_Get (rq_Header req) EncryptHeaderName) body (Some priv)
  | None => Err (ENew "no body")
  end.

Section Gateway.
Context {R : RSA} {E : Env} {FC : FloatConv}.

(** What the requests a run adds to the trace satisfy. *)
Definition all_requests {A} (m : M A) (P : http_request -> Prop) : Prop :=
  extends m (fun i _ es => Forall (fun x => P x.1) (exchanges i es)).

Variables (c : Client) (s : rsa2Signer) (v : rsa2Verifier).
Hypothesis c_ready : client_ready c.
Hypothesis c_signs : c_signer c = Some (rsa2Signer_iface s).
Hypothesis c_scheme : c_authScheme c = SchemeRawBase64.
Hypothesis v_key : v_pub v = Public (s_priv s).

Definition plan_input (pl : request_plan) : string :=
  match pl_Body pl with
  | Some body => body
  | None => CanonicalQueryFirstValue (ParseQuery (pl_RawQuery pl)).1
  end.

Lemma Get_Authorization opts authValue :
  Header_Get (addExtraHeaders (apply_doSigned_options opts) (populateHeaders c ∅ authValue)) "Authorization" = authValue.
Proof.
  unfold Header_Get. change (CanonicalHeaderKey "Authorization") with "Authorization".
  rewrite addExtraHeaders_lookup by apply apply_options_canonical.
  change (isReservedHeader "Authorization") with true. cbn match.
  by rewrite populateHeaders_lookup.
Qed.

Lemma dispatched_requests `{!RSALaws R} ctx op urlStr canonical opts pl :
  plan_input pl = canonical ->
  all_requests (signAndDispatch c ctx op urlStr canonical (apply_doSigned_options opts) pl)
    (fun req => gateway_verify v req = None /\ rq_Body req = pl_Body pl /\
       rq_Method req = pl_Method pl /\ rq_URL req = pl_URL pl /\
       exists authValue, rq_Header req = addExtraHeaders (apply_doSigned_options opts) (populateHeaders c ∅ authValue)).
Proof.
  intros Hin. pose proof (proj1 (proj1 (Validate_None _) (ready_retry _ c_ready))) as Hmax.
  eapply extends_mono; [apply (signAndDispatch_run c op urlStr canonical _ pl ctx Hmax)|].
  intros i r es [err _ Hx _|s' ctx_err sig _ Hs Hsig Ha]; [by rewrite Hx|].
  rewrite c_signs in Hs. injection Hs as <-. cbn [Sign KeyID rsa2Signer_iface] in *.
  rewrite c_scheme in Ha. unfold SchemeRawBase64 in Ha.
  eapply Forall_impl; [eapply attempts_requests, Ha|].
  intros [req x] (Hm & Hu & Hq & Hb & Hh). cbn [fst] in *. split; [|split_and!; [done..|eauto]].
  unfold gateway_verify. rewrite Hh, Get_Authorization.
  assert (gateway_input req = canonical) as ->.
  { unfold gateway_input. rewrite Hb, Hq. exact Hin. }
  eapply rsa2_signed_verifies; eauto.
Qed.

Lemma silent_requests {A} (a : A) P : all_requests (ret a) P.
Proof. apply extends_ret. by intros n. Qed.

(** An encrypted call: every request verifies and opens to the plaintext. *)
Lemma DoEncryptedSigned_requests `{!RSALaws R} `{A : AES, !AESLaws A} priv :
  c_encryptAtomePub c = Some (Public priv) ->
  forall ctx method path body opts w r w',
  DoEncryptedSigned c ctx method path body opts w = Some (r, w') ->
  exists es, trace w' = trace w ++ es /\
    Forall (fun x => (gateway_verify v x.1 = None /\ gateway_open priv x.1 = Ok body) /\
                     rq_Method x.1 = method /\ rq_URL x.1 = c_baseURL c +:+ path) (exchanges (step w) es).
Proof.
  intros Hp ctx method path body opts w r w'. unfold DoEncryptedSigned. rewrite Hp.
  assert (Hnil : forall r0, Some (r0, w) = Some (r, w') -> exists es : list event, trace w' = trace w ++ es /\
     Forall (fun x => (gateway_verify v x.1 = None /\ gateway_open priv x.1 = Ok body) /\
                      rq_Method x.1 = method /\ rq_URL x.1 = c_baseURL c +:+ path) (exchanges (step w) es)).
  { intros r0 [= _ <-]. exists []. by rewrite app_nil_r. }
  destruct (negb _); [apply Hnil|]. destruct (bad_path path); [apply Hnil|].
  destruct (Marshal _ _ _ _) as [[[[header bodyB64]|err] rs']|] eqn:Em; [|apply Hnil|done].
  intros [= Hd].
  pose proof (dispatched_requests ctx path (c_baseURL c +:+ path) bodyB64
    (opts ++ [Some (WithRequestHeader EncryptHeaderName header)])
    (mkRequestPlan method (c_baseURL c +:+ path) "" (Some bodyB64)) eq_refl w) as H.
  rewrite Hd in H. destruct H as (_ & es & Ht & H). exists es. split; [done|].
  eapply Forall_impl; [exact H|]. intros [req x] (Hver & Hb & Hm & Hu & authValue & Hh). cbn [fst pl_Body pl_Method pl_URL] in *.
  split; [|by split]. split; [done|]. unfold gateway_open. rewrite Hb, Hh.
  assert (Header_Get (addExtraHeaders (apply_doSigned_options (opts ++ [Some (WithRequestHeader EncryptHeaderName header)]))
    (populateHeaders c ∅ authValue)) EncryptHeaderName = header) as ->.
  { unfold Header_Get. change (CanonicalHeaderKey EncryptHeaderName) with "Encrypt".
    rewrite addExtraHeaders_lookup by apply apply_options_canonical.
    change (isReservedHeader "Encrypt") with false. cbn match.
    rewrite apply_options_snoc. unfold applyDoSigned. rewrite Header_Set_lookup. done. }
  by eapply Unmarshal_Marshal.
Qed.

End Gateway.

(** C1.  End to end.  Take a client that signs with an RSA2 key under the default
    scheme, and a gateway that holds the public half (and, for encrypted calls, the
    private half of the client's encryption key).  Whatever the caller's options, and
    whatever the network and the contexts do, every HTTP request that leaves the client
    through [DoSigned], [DoSignedGET] or [DoEncryptedSigned], retries included, carries
    a signature the gateway verifies over the bytes it received; and the gateway opens
    the body of an encrypted request to the caller's plaintext. *)
Theorem gateway_end_to_end {R : RSA} {A : AES} {E : Env} {FC : FloatConv} `{!RSALaws R} `{!AESLaws A}
    c s v priv ctx method path body query opts :
  client_ready c -> c_signer c = Some (rsa2Signer_iface s) -> c_authScheme c = SchemeRawBase64 ->
  v_pub v = Public (s_priv s) -> c_encryptAtomePub c = Some (Public priv) ->
  all_requests (DoSigned c ctx method path body opts)
    (fun req => gateway_verify v req = None /\ rq_Body req = Some body) /\
  all_requests (DoSignedGET c ctx path query opts) (fun req => gateway_verify v req = None) /\
  (forall w r w', DoEncryptedSigned c ctx method path body opts w = Some (r, w') ->
     exists es, trace w' = trace w ++ es /\
       Forall (fun x => gateway_verify v x.1 = None /\ gateway_open priv x.1 = Ok body) (exchanges (step w) es)).
Proof.
  intros Hr Hs Ha Hv Hp. split; [|split].
  - unfold DoSigned. destruct (negb _); [apply silent_requests|]. destruct (bad_path path); [apply silent_requests|].
    eapply extends_mono; [by apply dispatched_requests with (v := v) (s := s)|].
    intros i r es H. eapply Forall_impl; [exact H|]. naive_solver.
  - unfold DoSignedGET. destruct (bad_path path); [apply silent_requests|].
    eapply extends_mono; [apply dispatched_requests with (v := v) (s := s); try done; apply gateway_canonical|].
    intros i r es H. eapply Forall_impl; [exact H|]. naive_solver.
  - intros w r w' Hd.
    destruct (DoEncryptedSigned_requests c s v Hr Hs Ha Hv priv Hp ctx method path body opts w r w' Hd) as (es & Ht & H).
    exists es. split; [done|]. eapply Forall_impl; [exact H|]. by intros x [? _].
Qed.

Definition toy_rsa_client : @Client toy_RSA :=
  set_encryptAtomePub (Some ((5%nat, 2048) : @PublicKey toy_RSA))
    (set_signer (Some (rsa2Signer_iface (@mkRsa2Signer toy_RSA (7%nat, 2048) ""))) toy_client).

Lemma toy_rsa_ready : client_ready toy_rsa_client.
Proof. split; simpl; try (by eexists); try done. intros k [= <-]. simpl. lia. Qed.

Lemma gateway_end_to_end_witness :
  @all_requests toy_env _ (@DoSigned toy_RSA toy_env amd64_conv toy_rsa_client Background "POST" "/auth" "{}" [])
    (fun req => gateway_verify (@mkRsa2Verifier toy_RSA (7%nat, 2048)) req = None /\ rq_Body req = Some "{}").
Proof.
  exact (proj1 (@gateway_end_to_end toy_RSA toy_AES toy_env amd64_conv toy_RSALaws toy_AESLaws
    toy_rsa_client (@mkRsa2Signer toy_RSA (7%nat, 2048) "") (@mkRsa2Verifier toy_RSA (7%nat, 2048)) (5%nat, 2048)
    Background "POST" "/auth" "{}" ∅ [] toy_rsa_ready eq_refl eq_refl eq_refl eq_refl)).
Defined.
