(* ===== verification/Service.v ===== *)
(** * Service: what the endpoint packages share.

    [payment], [refund], [repayment], [bill], [transaction], [credit] and
    [virtualaccount] each define a [Service] around a client and write out the same two
    shapes of method: submit a request body ([submit], [post]) or fetch by query
    ([fetch]).  The shapes are stated here once, with the packages' messages, paths,
    types and validators as arguments; each method is an instance in its package's
    file. *)
From S2P Require Import Prelude GoStd Errors Canonical GoCrypto Sign GoHttp Json Codec Schema Transport World Client Doer.

(** [start := p.Start; if start <= 0 { start = DefaultStart }] *)
Definition or_default (n default : Z) : Z := if n <=? 0 then default else n.

Section Service.
Context {R : RSA} {E : Env} {FC : FloatConv}.

(** [type Service struct { c *atomefin.Client }]; a nil [*Service] is [None]. *)
Record Service := mkService { sv_c : option Client }.

(** [New] *)
Definition NewService (c : option Client) : option Service :=
  match c with None => None | Some c => Some (mkService (Some c)) end.

(** [Service.Client] *)
Definition Service_Client (s : option Service) : option Client :=
  match s with None => None | Some s => sv_c s end.

(** [checkConfigured], with the package's messages. *)
Definition check_service (nil_service nil_client : string) (s : option Service) : option error :=
  match s with
  | None => Some (EValidation "service" nil_service)
  | Some s => match sv_c s with
              | None => Some (EValidation "service" nil_client)
              | Some _ => None
              end
  end.

(** The response of [op]: the decoded body of a 2xx or 3xx answer. *)
Definition decoded {O} (co : codec O) (op : string) (resp : res RawResponse) : res O :=
  match resp with
  | Err err => Err err
  | Ok resp =>
      match unmarshal co (Body resp) with
      | Some out => Ok out
      | None => Err (ETransport "unmarshal" op
                       (Some (EErrorf "decode %s response: %w" [AStr op; AWrap (EStd "json")])) false)
      end
  end.

(** Marshal, [DoSigned], decode. *)
Definition post {I O} (ci : codec I) (co : codec O) (c : Client) (ctx : context) (op : string) (req : I)
    (opts : list (option extraHeaderOpt)) : M (res O) :=
  match marshal ci req with
  | Err err => ret (Err (ESignature "marshal" (Some err)))
  | Ok body =>
      let! resp := DoSigned c ctx "POST" op body opts in
      ret (decoded co op resp)
  end.

(** [DoSignedGET], decode. *)
Definition get {O} (co : codec O) (c : Client) (ctx : context) (op : string) (q : Values) : M (res O) :=
  let! resp := DoSignedGET c ctx op q [] in
  ret (decoded co op resp).

Section Submit.
Context {Req Resp : Type}.
Variables (check : option Service -> option error) (nil_request : string).
Variables (getID : Req -> string) (setID : string -> Req -> Req).
Variable validate : Req -> option error * Req.
Variable call : Client -> Req -> M (res Resp).

(** [if req.RequestID == "" { req.RequestID = s.c.NewRequestID() }] *)
Definition ensureID (c : Client) (req : Req) : M Req :=
  if is_empty (getID req)
  then let! id := NewRequestID c in ret (setID id req)
  else ret req.

(** A method that takes a request by reference; it returns the request as it leaves it.
    [validate] may write to it.  ([check] passes only with a client, so the second branch
    is not taken.) *)
Definition submit (s : option Service) (req : option Req) : M (res Resp * option Req) :=
  match check s, Service_Client s with
  | Some err, _ => ret (Err err, req)
  | None, None => ret (Err (ENew "unreachable: nil Client"), req)
  | None, Some c =>
      match req with
      | None => ret (Err (EValidation "request" nil_request), None)
      | Some req =>
          let! req := ensureID c req in
          match validate req with
          | (Some err, req) => ret (Err err, Some req)
          | (None, req) =>
              let! resp := call c req in
              ret (resp, Some req)
          end
      end
  end.
End Submit.

(** A method without a request id: check, validate, call. *)
Definition fetch {Resp} (check : option Service -> option error) (validated : option error)
    (call : Client -> M (res Resp)) (s : option Service) : M (res Resp) :=
  match check s, Service_Client s with
  | Some err, _ => ret (Err err)
  | None, None => ret (Err (ENew "unreachable: nil Client"))
  | None, Some c =>
      match validated with
      | Some err => ret (Err err)
      | None => call c
      end
  end.

(** * Specification *)

(** A request dispatched to [op] and the answer decoded. *)
Definition called {O} (co : codec O) (c : Client) (op canonical : string) (extra : Header) (pl : request_plan)
    (i : nat) (r : res O) (es : list event) : Prop :=
  exists raw, dispatch_run c op (c_baseURL c +:+ op) canonical extra pl i raw es /\ r = decoded co op raw.

Definition posted {O} (co : codec O) (c : Client) (op body : string) (opts : list (option extraHeaderOpt))
    : nat -> res O -> list event -> Prop :=
  called co c op body (apply_doSigned_options opts)
    (mkRequestPlan "POST" (c_baseURL c +:+ op) "" (Some body)).

Definition fetched {O} (co : codec O) (c : Client) (op : string) (q : Values) : nat -> res O -> list event -> Prop :=
  called co c op (CanonicalQueryFirstValue q) ∅
    (mkRequestPlan "GET" (c_baseURL c +:+ op) (EncodeWireQueryRFC3986 q) None).

(** What submitting [req] does: the request is given an id if it has none, and then
    either rejected by [validate], with no signature and no exchange, or posted, as the
    JSON encoding of the request that is handed back. *)
Definition submitted {I O} (ci : codec I) (co : codec O) (c : Client) (op : string)
    (getID : I -> string) (setID : string -> I -> I) (validate : I -> option error * I)
    (opts : I -> list (option extraHeaderOpt)) (req : I)
    (i : nat) (out : res O * option I) (es : list event) : Prop :=
  exists q ids es', es = ids ++ es' /\
    (if is_empty (getID req) then exists id, q = setID id req /\ ids = [EvRequestID id] else q = req /\ ids = []) /\
    out.2 = Some (validate q).2 /\
    match (validate q).1 with
    | Some err => out.1 = Err err /\ es' = []
    | None => posted co c op (json_print (c_enc ci (validate q).2)) (opts (validate q).2)
                (i + length ids)%nat out.1 es'
    end.

(** * Lemmas *)

Lemma ready_attempts c : client_ready c -> 1 <= MaxAttempts (c_retry c).
Proof. intros Hc. exact (proj1 (proj1 (Validate_None _) (ready_retry _ Hc))). Qed.

Lemma called_map {O} (co : codec O) c op canonical extra pl ctx :
  client_ready c ->
  extends (let! resp := signAndDispatch c ctx op (c_baseURL c +:+ op) canonical extra pl in ret (decoded co op resp))
    (called co c op canonical extra pl).
Proof.
  intros Hc. eapply extends_bind; [apply (signAndDispatch_run c op _ canonical extra pl ctx), ready_attempts, Hc|].
  intros raw _. apply extends_ret. intros _ n es _ Hrun. exists raw. by rewrite app_nil_r.
Qed.

Lemma post_posted {I O} (ci : codec I) (co : codec O) c ctx op req opts :
  client_ready c -> bad_path op = false ->
  extends (post ci co c ctx op req opts) (posted co c op (json_print (c_enc ci req)) opts).
Proof.
  intros Hc Hp. unfold post, marshal, DoSigned. rewrite MarshalSigning_print, Hp. cbn [negb].
  rewrite bool_decide_true by done. cbn [negb]. by apply called_map.
Qed.

Lemma get_fetched {O} (co : codec O) c ctx op q :
  client_ready c -> bad_path op = false -> extends (get co c ctx op q) (fetched co c op q).
Proof. intros Hc Hp. unfold get, DoSignedGET. rewrite Hp. by apply called_map. Qed.

(** Every exchange of a call is the planned request, signed over [canonical]. *)
Lemma called_requests {O} (co : codec O) c op canonical extra pl i r es :
  called co c op canonical extra pl i r es ->
  signed es = [canonical] /\
  exists authValue, Forall (fun x => is_request c authValue extra pl x.1) (exchanges i es).
Proof.
  intros (raw & [err Hs Hx _|s ctx_err sig Hs _ _ Ha] & _); (split; [done|]).
  - exists "". by rewrite Hx.
  - eexists. eapply attempts_requests, Ha.
Qed.

(** A response is the decoding of the last answer. *)
Lemma called_ok {O} (co : codec O) c op canonical extra pl i out es :
  called co c op canonical extra pl i (Ok out) es ->
  exists pre req rs body, exchanges i es = pre ++ [(req, Ok rs)] /\ rs_StatusCode rs < 400 /\
    readAndClose rs (c_maxRespBytes c) = (body, None) /\ unmarshal co body = Some out.
Proof.
  intros (raw & Hrun & Hd). unfold decoded in Hd. destruct raw as [resp|]; [|done].
  destruct (unmarshal co (Body resp)) as [o|] eqn:Eu; [|done]. injection Hd as <-.
  inversion Hrun as [err _ _ He|s ctx_err sig _ _ _ Ha]; subst; [by destruct (_ || _)|].
  destruct (attempts_ok _ _ _ _ _ _ _ _ _ _ Ha eq_refl) as (pre & req & rs & Hx & _ & Hst & Hr). naive_solver.
Qed.

(** It is the network's answer to the planned request. *)
Lemma called_answer {O} (co : codec O) c op canonical extra pl i out es :
  called co c op canonical extra pl i (Ok out) es ->
  exists j authValue req rs body, is_request c authValue extra pl req /\ net j req = Ok rs /\
    rs_StatusCode rs < 400 /\ readAndClose rs (c_maxRespBytes c) = (body, None) /\ unmarshal co body = Some out.
Proof.
  intros Hc. destruct (called_requests _ _ _ _ _ _ _ _ _ Hc) as (_ & authValue & Hreq).
  destruct (called_ok _ _ _ _ _ _ _ _ _ Hc) as (pre & req & rs & body & Hx & Hst & Hr & Hu).
  assert (Hin : (req, Ok rs) ∈ exchanges i es) by (rewrite Hx; apply elem_of_app; right; by left).
  destruct (exchanges_net _ _ _ Hin) as [j Hj]. rewrite Forall_forall in Hreq.
  exists j, authValue, req, rs, body. split_and!; try done. exact (Hreq _ Hin).
Qed.

(** A header the caller adds, other than the SDK's own, reaches the wire. *)
Lemma extra_header c authValue opts k v :
  isReservedHeader (CanonicalHeaderKey k) = false ->
  Header_Get (addExtraHeaders (apply_doSigned_options (opts ++ [Some (WithRequestHeader k v)]))
                (populateHeaders c ∅ authValue)) k = v.
Proof.
  intros Hres. unfold Header_Get. rewrite addExtraHeaders_lookup by apply apply_options_canonical.
  rewrite Hres, apply_options_snoc. unfold applyDoSigned. rewrite Header_Set_lookup. cbn [WithRequestHeader eh_key eh_value].
  by rewrite bool_decide_true.
Qed.

Lemma submit_submitted {I O} (ci : codec I) (co : codec O) check nil_request getID setID validate
    (call : Client -> I -> M (res O)) c op opts req :
  check (Some (mkService (Some c))) = None ->
  (forall q, extends (call c q) (posted co c op (json_print (c_enc ci q)) (opts q))) ->
  extends (submit check nil_request getID setID validate call (Some (mkService (Some c))) (Some req))
    (submitted ci co c op getID setID validate opts req).
Proof.
  intros Hcheck Hcall. unfold submit. rewrite Hcheck. cbn [Service_Client sv_c].
  eapply (extends_bind _ _ (fun _ q es => if is_empty (getID req)
    then exists id, q = setID id req /\ es = [EvRequestID id] else q = req /\ es = [])).
  { unfold ensureID. destruct (is_empty (getID req)).
    - intros w. cbn. split; [lia|]. eexists. split; [done|]. by eexists.
    - by apply extends_ret. }
  intros q _. destruct (validate q) as [[err|] q'] eqn:Ev.
  - apply extends_ret. intros _ n es _ Hq. exists q, es, []. rewrite Ev. by split_and!.
  - eapply extends_bind; [apply Hcall|]. intros r _. apply extends_ret.
    intros _ n' es' _ Hpost n es -> Hq. rewrite app_nil_r in *. exists q, es, es'. rewrite Ev. split_and!; try done.
    cbn [fst snd]. assert (length (effects es) = length es) as <-; [|done].
    destruct (is_empty _); destruct Hq as [? Hq]; [destruct Hq as [_ ->]|subst]; done.
Qed.

Lemma fetch_ok {O} check validated (call : Client -> M (res O)) c (P : nat -> res O -> list event -> Prop) :
  check (Some (mkService (Some c))) = None -> validated = None -> extends (call c) P ->
  extends (fetch check validated call (Some (mkService (Some c)))) P.
Proof. intros Hc -> H. unfold fetch. by rewrite Hc. Qed.

(** A call whose arguments are refused signs and sends nothing. *)
Definition refused {O} (r : M (res O)) : Prop := exists err, r = ret (Err err).

(** A fetching method refines its specification: the arguments the validator accepts are
    fetched, the others refused. *)
Lemma fetch_refines {O} check validated (call : Client -> M (res O)) c (P : nat -> res O -> list event -> Prop) (contract : Prop) :
  (validated = None <-> contract) ->
  check (Some (mkService (Some c))) = None -> (contract -> extends (call c) P) ->
  (contract -> extends (fetch check validated call (Some (mkService (Some c)))) P) /\
  (~ contract -> refused (fetch check validated call (Some (mkService (Some c))))).
Proof.
  intros Hv Hc Hcall. split; intros Hk; [apply fetch_ok; [done|by apply Hv|auto]|].
  unfold fetch, refused. rewrite Hc. cbn [Service_Client sv_c]. destruct validated as [err|]; [by eexists|].
  destruct Hk. by apply Hv.
Qed.

End Service.
