(* ===== verification/PaymentTypes.v ===== *)
(** * PaymentTypes: the requests and responses of [atomefin/payment], with their json tags.

    A slice is a list and a pointer an [option]; fields tagged ["-"] are part of the
    record and not of the encoding. *)
From S2P Require Import Prelude GoStd Errors Json Codec Schema.

(** ** Enumerations *)

Definition PaymentOrderType := string.
Definition OrderTypeTransport : PaymentOrderType := "TRANSPORT".
Definition OrderTypeGrabFood : PaymentOrderType := "GRAB_FOOD".
Definition OrderTypeGrabMart : PaymentOrderType := "GRAB_MART".
Definition PaymentOrderType_IsValid (t : PaymentOrderType) : bool :=
  bool_decide (t ∈ [OrderTypeTransport; OrderTypeGrabFood; OrderTypeGrabMart]).

Definition CreditProfile := string.

Definition Platform := string.
Definition PlatformAndroid : Platform := "ANDROID".
Definition PlatformIOS : Platform := "IOS".
Definition Platform_IsValid (p : Platform) : bool :=
  bool_decide (p = PlatformAndroid) || bool_decide (p = PlatformIOS).

Definition PaymentPlanMode := string.
Definition PaymentPlanModeAsk : PaymentPlanMode := "ask".
Definition PaymentPlanModeGet : PaymentPlanMode := "get".
Definition PaymentPlanMode_IsValid (m : PaymentPlanMode) : bool :=
  bool_decide (m ∈ [PaymentPlanModeAsk; PaymentPlanModeGet]).

Definition IsValidPreviousStatus (s : AccountStatus) : bool :=
  bool_decide (s ∈ [AccountStatusNormal; AccountStatusBlockedOverdue; AccountStatusBlocked]).
Definition IsValidCurrentStatus (s : AccountStatus) : bool :=
  bool_decide (s ∈ [AccountStatusNormal; AccountStatusBlockedOverdue; AccountStatusBlocked; AccountStatusClosed]).

(** ** Sub-orders and SKUs ([payment/types.go]) *)

Record SubOrder := mkSubOrder {
  so_SubOrderID : string; so_MerchantID : string; so_MerchantName : string; so_MerchantCategory : string;
  so_MerchantJoinedDate : string; so_Amount : Amount; so_PeriodType : option Z;
}.
Definition SubOrder_fields : list (field_decl SubOrder) :=
  [ "subOrderId" ~> so_SubOrderID as str omitempty; "merchantId" ~> so_MerchantID as str omitempty;
    "merchantName" ~> so_MerchantName as str omitempty;
    "merchantCategory" ~> so_MerchantCategory as str omitempty;
    "merchantJoinedDate" ~> so_MerchantJoinedDate as str omitempty; "amount" ~> so_Amount as int;
    "periodType" ~> so_PeriodType as (ptr int) omitempty ].
Definition SubOrder_json : codec SubOrder :=
  struct (mkSubOrder "" "" "" "" "" 0 None) SubOrder_fields.
#[export] Instance SubOrder_schema : Schema (c_zero SubOrder_json) SubOrder_fields.
Proof. schema. Qed.

Record SkuInfo := mkSkuInfo {
  sku_SkuID : string; sku_SkuName : string; sku_CategoryID : string; sku_CategoryOneName : string;
  sku_CategoryCodes : list string; sku_Quantity : Z; sku_Amount : Amount;
}.
Definition SkuInfo_fields : list (field_decl SkuInfo) :=
  [ "skuId" ~> sku_SkuID as str omitempty; "skuName" ~> sku_SkuName as str omitempty;
    "categoryId" ~> sku_CategoryID as str omitempty;
    "categoryOneName" ~> sku_CategoryOneName as str omitempty;
    "categoryCodes" ~> sku_CategoryCodes as (slice str) omitempty;
    "quantity" ~> sku_Quantity as int omitempty; "amount" ~> sku_Amount as int omitempty ].
Definition SkuInfo_json : codec SkuInfo :=
  struct (mkSkuInfo "" "" "" "" [] 0 0) SkuInfo_fields.
#[export] Instance SkuInfo_schema : Schema (c_zero SkuInfo_json) SkuInfo_fields.
Proof. schema. Qed.

Record MainOrderExtendInfo := mkMainOrderExtendInfo {
  moei_MerchantID : string; moei_MerchantName : string; moei_SkuInfos : list SkuInfo;
}.
Definition MainOrderExtendInfo_fields : list (field_decl MainOrderExtendInfo) :=
  [ "merchantId" ~> moei_MerchantID as str omitempty; "merchantName" ~> moei_MerchantName as str omitempty;
    "skuInfos" ~> moei_SkuInfos as (slice SkuInfo_json) omitempty ].
Definition MainOrderExtendInfo_json : codec MainOrderExtendInfo :=
  struct (mkMainOrderExtendInfo "" "" []) MainOrderExtendInfo_fields.
#[export] Instance MainOrderExtendInfo_schema : Schema (c_zero MainOrderExtendInfo_json) MainOrderExtendInfo_fields.
Proof. schema. Qed.

(** ** The request-side extendInfo tree ([payment/types.go]) *)

Record GeoPoint := mkGeoPoint {
  gp_Longitude : string; gp_Latitude : string; gp_Time : string;
}.
Definition GeoPoint_fields : list (field_decl GeoPoint) :=
  [ "longitude" ~> gp_Longitude as str omitempty; "latitude" ~> gp_Latitude as str omitempty;
    "time" ~> gp_Time as str omitempty ].
Definition GeoPoint_json : codec GeoPoint :=
  struct (mkGeoPoint "" "" "") GeoPoint_fields.
#[export] Instance GeoPoint_schema : Schema (c_zero GeoPoint_json) GeoPoint_fields.
Proof. schema. Qed.

Record BuildInfo := mkBuildInfo {
  bi_Board : string; bi_Brand : string; bi_CPUABI : string; bi_Device : string; bi_Manufacturer : string;
  bi_Model : string; bi_Product : string;
}.
Definition BuildInfo_fields : list (field_decl BuildInfo) :=
  [ "board" ~> bi_Board as str omitempty; "brand" ~> bi_Brand as str omitempty;
    "cpuAbi" ~> bi_CPUABI as str omitempty; "device" ~> bi_Device as str omitempty;
    "manufacturer" ~> bi_Manufacturer as str omitempty; "model" ~> bi_Model as str omitempty;
    "product" ~> bi_Product as str omitempty ].
Definition BuildInfo_json : codec BuildInfo :=
  struct (mkBuildInfo "" "" "" "" "" "" "") BuildInfo_fields.
#[export] Instance BuildInfo_schema : Schema (c_zero BuildInfo_json) BuildInfo_fields.
Proof. schema. Qed.

Record DeviceProfile := mkDeviceProfile {
  dp_DeviceID : string; dp_GoogleAdvertisingID : string; dp_IDFA : string; dp_IDFV : string;
  dp_UTDID : string; dp_IsRoot : option bool; dp_AndroidID : string; dp_Build : option BuildInfo;
}.
Definition DeviceProfile_fields : list (field_decl DeviceProfile) :=
  [ "deviceId" ~> dp_DeviceID as str omitempty;
    "googleAdvertisingId" ~> dp_GoogleAdvertisingID as str omitempty; "idfa" ~> dp_IDFA as str omitempty;
    "idfv" ~> dp_IDFV as str omitempty; "utdid" ~> dp_UTDID as str omitempty;
    "isRoot" ~> dp_IsRoot as (ptr bool_); "androidId" ~> dp_AndroidID as str omitempty;
    "build" ~> dp_Build as (ptr BuildInfo_json) omitempty ].
Definition DeviceProfile_json : codec DeviceProfile :=
  struct (mkDeviceProfile "" "" "" "" "" None "" None) DeviceProfile_fields.
#[export] Instance DeviceProfile_schema : Schema (c_zero DeviceProfile_json) DeviceProfile_fields.
Proof. schema. Qed.

Record WifiAP := mkWifiAP {
  wifi_SSID : string;
}.
Definition WifiAP_fields : list (field_decl WifiAP) :=
  [ "ssid" ~> wifi_SSID as str ].
Definition WifiAP_json : codec WifiAP :=
  struct (mkWifiAP "") WifiAP_fields.
#[export] Instance WifiAP_schema : Schema (c_zero WifiAP_json) WifiAP_fields.
Proof. schema. Qed.

Record IPAddress := mkIPAddress {
  ipa_EthIP : string; ipa_TrueIP : string;
}.
Definition IPAddress_fields : list (field_decl IPAddress) :=
  [ "ethIp" ~> ipa_EthIP as str omitempty; "trueIp" ~> ipa_TrueIP as str omitempty ].
Definition IPAddress_json : codec IPAddress :=
  struct (mkIPAddress "" "") IPAddress_fields.
#[export] Instance IPAddress_schema : Schema (c_zero IPAddress_json) IPAddress_fields.
Proof. schema. Qed.

Record DeviceInfo := mkDeviceInfo {
  dvi_Platform : Platform; dvi_GPS : option GeoPoint; dvi_Device : option DeviceProfile;
  dvi_WifiList : list WifiAP; dvi_IPAddress : option IPAddress;
}.
Definition DeviceInfo_fields : list (field_decl DeviceInfo) :=
  [ "platform" ~> dvi_Platform as str; "gps" ~> dvi_GPS as (ptr GeoPoint_json) omitempty;
    "device" ~> dvi_Device as (ptr DeviceProfile_json);
    "wifiList" ~> dvi_WifiList as (slice WifiAP_json) omitempty;
    "ipAddress" ~> dvi_IPAddress as (ptr IPAddress_json) omitempty ].
Definition DeviceInfo_json : codec DeviceInfo :=
  struct (mkDeviceInfo "" None None [] None) DeviceInfo_fields.
#[export] Instance DeviceInfo_schema : Schema (c_zero DeviceInfo_json) DeviceInfo_fields.
Proof. schema. Qed.

Record ShippingAddress := mkShippingAddress {
  sa_State : string; sa_City : string; sa_District : string; sa_Address1 : string; sa_Address2 : string;
}.
Definition ShippingAddress_fields : list (field_decl ShippingAddress) :=
  [ "state" ~> sa_State as str omitempty; "city" ~> sa_City as str;
    "district" ~> sa_District as str omitempty; "address1" ~> sa_Address1 as str;
    "address2" ~> sa_Address2 as str omitempty ].
Definition ShippingAddress_json : codec ShippingAddress :=
  struct (mkShippingAddress "" "" "" "" "") ShippingAddress_fields.
#[export] Instance ShippingAddress_schema : Schema (c_zero ShippingAddress_json) ShippingAddress_fields.
Proof. schema. Qed.

Record Address := mkAddress {
  adr_ShippingAddress : option ShippingAddress; adr_ShippingName : string; adr_ShippingPhoneNo : string;
}.
Definition Address_fields : list (field_decl Address) :=
  [ "shippingAddress" ~> adr_ShippingAddress as (ptr ShippingAddress_json);
    "shippingName" ~> adr_ShippingName as str; "shippingPhoneNo" ~> adr_ShippingPhoneNo as str ].
Definition Address_json : codec Address :=
  struct (mkAddress None "" "") Address_fields.
#[export] Instance Address_schema : Schema (c_zero Address_json) Address_fields.
Proof. schema. Qed.

Record DriverInfo := mkDriverInfo {
  dri_AverageRating : option string; dri_IsVerified : option bool;
}.
Definition DriverInfo_fields : list (field_decl DriverInfo) :=
  [ "averageRating" ~> dri_AverageRating as (ptr float) omitempty;
    "isVerified" ~> dri_IsVerified as (ptr bool_) omitempty ].
Definition DriverInfo_json : codec DriverInfo :=
  struct (mkDriverInfo None None) DriverInfo_fields.
#[export] Instance DriverInfo_schema : Schema (c_zero DriverInfo_json) DriverInfo_fields.
Proof. schema. Qed.

Record TripMetadata := mkTripMetadata {
  tm_EstimatedDistance : string; tm_PickupLocation : string;
}.
Definition TripMetadata_fields : list (field_decl TripMetadata) :=
  [ "estimatedDistance" ~> tm_EstimatedDistance as float omitempty;
    "pickupLocation" ~> tm_PickupLocation as str omitempty ].
Definition TripMetadata_json : codec TripMetadata :=
  struct (mkTripMetadata "0" "") TripMetadata_fields.
#[export] Instance TripMetadata_schema : Schema (c_zero TripMetadata_json) TripMetadata_fields.
Proof. schema. Qed.

Record PaymentRiskInfo := mkPaymentRiskInfo {
  pri_DriverInfo : option DriverInfo; pri_TripMetadata : option TripMetadata;
}.
Definition PaymentRiskInfo_fields : list (field_decl PaymentRiskInfo) :=
  [ "driverInfo" ~> pri_DriverInfo as (ptr DriverInfo_json) omitempty;
    "tripMetadata" ~> pri_TripMetadata as (ptr TripMetadata_json) omitempty ].
Definition PaymentRiskInfo_json : codec PaymentRiskInfo :=
  struct (mkPaymentRiskInfo None None) PaymentRiskInfo_fields.
#[export] Instance PaymentRiskInfo_schema : Schema (c_zero PaymentRiskInfo_json) PaymentRiskInfo_fields.
Proof. schema. Qed.

Record RequestExtendInfo := mkRequestExtendInfo {
  rei_OrderType : PaymentOrderType; rei_CreditProfile : CreditProfile; rei_DeviceInfo : option DeviceInfo;
  rei_Address : option Address; rei_RiskInfo : option PaymentRiskInfo;
  rei_MainOrderExtendInfos : list MainOrderExtendInfo;
}.
Definition RequestExtendInfo_fields : list (field_decl RequestExtendInfo) :=
  [ "orderType" ~> rei_OrderType as str; "creditProfile" ~> rei_CreditProfile as str;
    "deviceInfo" ~> rei_DeviceInfo as (ptr DeviceInfo_json);
    "address" ~> rei_Address as (ptr Address_json);
    "riskInfo" ~> rei_RiskInfo as (ptr PaymentRiskInfo_json) omitempty;
    "mainOrderExtendInfos" ~> rei_MainOrderExtendInfos as (slice MainOrderExtendInfo_json) omitempty ].
Definition RequestExtendInfo_json : codec RequestExtendInfo :=
  struct (mkRequestExtendInfo "" "" None None None []) RequestExtendInfo_fields.
#[export] Instance RequestExtendInfo_schema : Schema (c_zero RequestExtendInfo_json) RequestExtendInfo_fields.
Proof. schema. Qed.

(** ** Account changes ([payment/types.go]) *)

Record AccountChanges := mkAccountChanges {
  ac_Version : Z; ac_ExternalReferenceUID : string; ac_PreviousStatus : AccountStatus;
  ac_CurrentStatus : AccountStatus; ac_TotalCreditChange : Amount; ac_UsedCreditChange : Amount;
  ac_FrozenCreditChange : Amount; ac_AvailableCreditChange : Amount; ac_OverpaidAmountChange : Amount;
  ac_LateFeeAmountChange : Amount; ac_InterestAmountChange : Amount;
}.
Definition AccountChanges_fields : list (field_decl AccountChanges) :=
  [ "version" ~> ac_Version as int; "externalReferenceUid" ~> ac_ExternalReferenceUID as str;
    "previousStatus" ~> ac_PreviousStatus as str; "currentStatus" ~> ac_CurrentStatus as str;
    "totalCreditChange" ~> ac_TotalCreditChange as int; "usedCreditChange" ~> ac_UsedCreditChange as int;
    "frozenCreditChange" ~> ac_FrozenCreditChange as int;
    "availableCreditChange" ~> ac_AvailableCreditChange as int;
    "overpaidAmountChange" ~> ac_OverpaidAmountChange as int;
    "lateFeeAmountChange" ~> ac_LateFeeAmountChange as int;
    "interestAmountChange" ~> ac_InterestAmountChange as int ].
Definition AccountChanges_json : codec AccountChanges :=
  struct (mkAccountChanges 0 "" "" "" 0 0 0 0 0 0 0) AccountChanges_fields.
#[export] Instance AccountChanges_schema : Schema (c_zero AccountChanges_json) AccountChanges_fields.
Proof. schema. Qed.

(** ** Installment plans and response-side extendInfo ([payment/types.go]) *)

Record InstallmentDetail := mkInstallmentDetail {
  idt_SubOrderID : string; idt_TotalTenor : Z; idt_CurrentTenor : Z; idt_RepayAmount : Amount;
  idt_PrincipalAmount : Amount; idt_InterestAmount : Amount; idt_BillID : string; idt_BillDate : string;
  idt_DueDate : string;
}.
Definition InstallmentDetail_fields : list (field_decl InstallmentDetail) :=
  [ "subOrderId" ~> idt_SubOrderID as str omitempty; "totalTenor" ~> idt_TotalTenor as int;
    "currentTenor" ~> idt_CurrentTenor as int; "repayAmount" ~> idt_RepayAmount as int;
    "principalAmount" ~> idt_PrincipalAmount as int; "interestAmount" ~> idt_InterestAmount as int;
    "billId" ~> idt_BillID as str; "billDate" ~> idt_BillDate as str; "dueDate" ~> idt_DueDate as str ].
Definition InstallmentDetail_json : codec InstallmentDetail :=
  struct (mkInstallmentDetail "" 0 0 0 0 0 "" "" "") InstallmentDetail_fields.
#[export] Instance InstallmentDetail_schema : Schema (c_zero InstallmentDetail_json) InstallmentDetail_fields.
Proof. schema. Qed.

Record InstallmentPlan := mkInstallmentPlan {
  ip_TotalTenor : Z; ip_OrderRepayAmount : Amount; ip_OrderInterestAmount : Amount;
  ip_InstallmentDetails : list InstallmentDetail;
}.
Definition InstallmentPlan_fields : list (field_decl InstallmentPlan) :=
  [ "totalTenor" ~> ip_TotalTenor as int; "orderRepayAmount" ~> ip_OrderRepayAmount as int;
    "orderInterestAmount" ~> ip_OrderInterestAmount as int;
    "installmentDetails" ~> ip_InstallmentDetails as (slice InstallmentDetail_json) ].
Definition InstallmentPlan_json : codec InstallmentPlan :=
  struct (mkInstallmentPlan 0 0 0 []) InstallmentPlan_fields.
#[export] Instance InstallmentPlan_schema : Schema (c_zero InstallmentPlan_json) InstallmentPlan_fields.
Proof. schema. Qed.

Record SubOrderInstallmentPlans := mkSubOrderInstallmentPlans {
  sip_SubOrderID : string; sip_MerchantID : string; sip_MerchantName : string; sip_OrderAmount : Amount;
  sip_InstallmentPlans : list InstallmentPlan;
}.
Definition SubOrderInstallmentPlans_fields : list (field_decl SubOrderInstallmentPlans) :=
  [ "subOrderId" ~> sip_SubOrderID as str omitempty; "merchantId" ~> sip_MerchantID as str omitempty;
    "merchantName" ~> sip_MerchantName as str omitempty; "orderAmount" ~> sip_OrderAmount as int;
    "installmentPlans" ~> sip_InstallmentPlans as (slice InstallmentPlan_json) ].
Definition SubOrderInstallmentPlans_json : codec SubOrderInstallmentPlans :=
  struct (mkSubOrderInstallmentPlans "" "" "" 0 []) SubOrderInstallmentPlans_fields.
#[export] Instance SubOrderInstallmentPlans_schema : Schema (c_zero SubOrderInstallmentPlans_json) SubOrderInstallmentPlans_fields.
Proof. schema. Qed.

Record AuthExtendInfoResp := mkAuthExtendInfoResp {
  aei_ReapplyTime : option Z;
}.
Definition AuthExtendInfoResp_fields : list (field_decl AuthExtendInfoResp) :=
  [ "reapplyTime" ~> aei_ReapplyTime as (ptr int) omitempty ].
Definition AuthExtendInfoResp_json : codec AuthExtendInfoResp :=
  struct (mkAuthExtendInfoResp None) AuthExtendInfoResp_fields.
#[export] Instance AuthExtendInfoResp_schema : Schema (c_zero AuthExtendInfoResp_json) AuthExtendInfoResp_fields.
Proof. schema. Qed.

Record AgreementRef := mkAgreementRef {
  agr_AgreementURL : option string;
}.
Definition AgreementRef_fields : list (field_decl AgreementRef) :=
  [ "agreementUrl" ~> agr_AgreementURL as (ptr str) omitempty ].
Definition AgreementRef_json : codec AgreementRef :=
  struct (mkAgreementRef None) AgreementRef_fields.
#[export] Instance AgreementRef_schema : Schema (c_zero AgreementRef_json) AgreementRef_fields.
Proof. schema. Qed.

Record CaptureExtendInfoResp := mkCaptureExtendInfoResp {
  cei_ReapplyTime : option Z; cei_Agreement : option AgreementRef;
}.
Definition CaptureExtendInfoResp_fields : list (field_decl CaptureExtendInfoResp) :=
  [ "reapplyTime" ~> cei_ReapplyTime as (ptr int) omitempty;
    "agreement" ~> cei_Agreement as (ptr AgreementRef_json) omitempty ].
Definition CaptureExtendInfoResp_json : codec CaptureExtendInfoResp :=
  struct (mkCaptureExtendInfoResp None None) CaptureExtendInfoResp_fields.
#[export] Instance CaptureExtendInfoResp_schema : Schema (c_zero CaptureExtendInfoResp_json) CaptureExtendInfoResp_fields.
Proof. schema. Qed.

(** ** [/auth] ([payment/auth.go]) *)

Record AuthRequest := mkAuthRequest {
  aq_RequestID : string; aq_ExternalReferenceUID : string; aq_TotalAmount : Amount; aq_PeriodType : Z;
  aq_SubOrders : list SubOrder; aq_ExtendInfo : option RequestExtendInfo; aq_Sessionid : string;
}.
Definition AuthRequest_fields : list (field_decl AuthRequest) :=
  [ "requestId" ~> aq_RequestID as str; "externalReferenceUid" ~> aq_ExternalReferenceUID as str;
    "totalAmount" ~> aq_TotalAmount as int; "periodType" ~> aq_PeriodType as int;
    "subOrders" ~> aq_SubOrders as (slice SubOrder_json);
    "extendInfo" ~> aq_ExtendInfo as (ptr RequestExtendInfo_json) ].
Definition AuthRequest_json : codec AuthRequest :=
  struct (mkAuthRequest "" "" 0 0 [] None "") AuthRequest_fields.
#[export] Instance AuthRequest_prints : Prints AuthRequest_fields.
Proof. prints. Qed.

Record AuthorizationData := mkAuthorizationData {
  ad_RequestID : string; ad_Currency : Currency; ad_AuthOrderID : string; ad_TotalAmount : Amount;
  ad_Status : Status; ad_FailureCode : FailureCode;
  ad_SubOrderInstallmentPlans : list SubOrderInstallmentPlans; ad_AccountChanges : option AccountChanges;
  ad_ExtendInfo : option AuthExtendInfoResp;
}.
Definition AuthorizationData_fields : list (field_decl AuthorizationData) :=
  [ "requestId" ~> ad_RequestID as str; "currency" ~> ad_Currency as str;
    "authOrderId" ~> ad_AuthOrderID as str; "totalAmount" ~> ad_TotalAmount as int;
    "status" ~> ad_Status as str; "failureCode" ~> ad_FailureCode as str omitempty;
    "subOrderInstallmentPlans" ~> ad_SubOrderInstallmentPlans as (slice SubOrderInstallmentPlans_json) omitempty;
    "accountChanges" ~> ad_AccountChanges as (ptr AccountChanges_json) omitempty;
    "extendInfo" ~> ad_ExtendInfo as (ptr AuthExtendInfoResp_json) omitempty ].
Definition AuthorizationData_json : codec AuthorizationData :=
  struct (mkAuthorizationData "" "" "" 0 "" "" [] None None) AuthorizationData_fields.
#[export] Instance AuthorizationData_schema : Schema (c_zero AuthorizationData_json) AuthorizationData_fields.
Proof. schema. Qed.

Record AuthResponse := mkAuthResponse {
  ar_Code : Code; ar_Message : string; ar_Data : option AuthorizationData;
}.
Definition AuthResponse_fields : list (field_decl AuthResponse) :=
  [ "code" ~> ar_Code as str; "message" ~> ar_Message as str;
    "data" ~> ar_Data as (ptr AuthorizationData_json) omitempty ].
Definition AuthResponse_json : codec AuthResponse :=
  struct (mkAuthResponse "" "" None) AuthResponse_fields.
#[export] Instance AuthResponse_schema : Schema (c_zero AuthResponse_json) AuthResponse_fields.
Proof. schema. Qed.

(** ** [/capture] ([payment/capture.go]) *)

Record CaptureRequest := mkCaptureRequest {
  cq_RequestID : string; cq_ExternalReferenceUID : string; cq_AuthOrderID : string;
  cq_TotalAmount : Amount; cq_PeriodType : Z; cq_SubOrders : list SubOrder;
  cq_ExtendInfo : option RequestExtendInfo;
}.
Definition CaptureRequest_fields : list (field_decl CaptureRequest) :=
  [ "requestId" ~> cq_RequestID as str; "externalReferenceUid" ~> cq_ExternalReferenceUID as str;
    "authOrderId" ~> cq_AuthOrderID as str; "totalAmount" ~> cq_TotalAmount as int;
    "periodType" ~> cq_PeriodType as int; "subOrders" ~> cq_SubOrders as (slice SubOrder_json);
    "extendInfo" ~> cq_ExtendInfo as (ptr RequestExtendInfo_json) ].
Definition CaptureRequest_json : codec CaptureRequest :=
  struct (mkCaptureRequest "" "" "" 0 0 [] None) CaptureRequest_fields.
#[export] Instance CaptureRequest_schema : Schema (c_zero CaptureRequest_json) CaptureRequest_fields.
Proof. schema. Qed.

Record PaymentResult := mkPaymentResult {
  pr_RequestID : string; pr_OrderID : string; pr_Currency : Currency; pr_TotalAmount : Amount;
  pr_Status : Status; pr_FailureCode : FailureCode;
  pr_SubOrderInstallmentPlans : list SubOrderInstallmentPlans; pr_AccountChanges : option AccountChanges;
  pr_ExtendInfo : option CaptureExtendInfoResp;
}.
Definition PaymentResult_fields : list (field_decl PaymentResult) :=
  [ "requestId" ~> pr_RequestID as str; "orderId" ~> pr_OrderID as str; "currency" ~> pr_Currency as str;
    "totalAmount" ~> pr_TotalAmount as int; "status" ~> pr_Status as str;
    "failureCode" ~> pr_FailureCode as str omitempty;
    "subOrderInstallmentPlans" ~> pr_SubOrderInstallmentPlans as (slice SubOrderInstallmentPlans_json) omitempty;
    "accountChanges" ~> pr_AccountChanges as (ptr AccountChanges_json) omitempty;
    "extendInfo" ~> pr_ExtendInfo as (ptr CaptureExtendInfoResp_json) omitempty ].
Definition PaymentResult_json : codec PaymentResult :=
  struct (mkPaymentResult "" "" "" 0 "" "" [] None None) PaymentResult_fields.
#[export] Instance PaymentResult_schema : Schema (c_zero PaymentResult_json) PaymentResult_fields.
Proof. schema. Qed.

Record CaptureResultData := mkCaptureResultData {
  crd_PaymentResult : PaymentResult; crd_AuthOrderID : string;
}.
Definition CaptureResultData_fields : list (field_decl CaptureResultData) :=
  map (embed crd_PaymentResult ltac:(setter crd_PaymentResult)) PaymentResult_fields ++ [ "authOrderId" ~> crd_AuthOrderID as str ].
Definition CaptureResultData_json : codec CaptureResultData :=
  struct (mkCaptureResultData (c_zero PaymentResult_json) "") CaptureResultData_fields.
#[export] Instance CaptureResultData_schema : Schema (c_zero CaptureResultData_json) CaptureResultData_fields.
Proof. schema_embedded. Qed.

Record CaptureResponse := mkCaptureResponse {
  cr_Code : Code; cr_Message : string; cr_Data : option CaptureResultData;
}.
Definition CaptureResponse_fields : list (field_decl CaptureResponse) :=
  [ "code" ~> cr_Code as str; "message" ~> cr_Message as str;
    "data" ~> cr_Data as (ptr CaptureResultData_json) omitempty ].
Definition CaptureResponse_json : codec CaptureResponse :=
  struct (mkCaptureResponse "" "" None) CaptureResponse_fields.
#[export] Instance CaptureResponse_schema : Schema (c_zero CaptureResponse_json) CaptureResponse_fields.
Proof. schema. Qed.

(** ** [/reAuth] and [/voidAuth] ([payment/reauth.go], [payment/void.go]) *)

Record ReAuthRequest := mkReAuthRequest {
  rq_RequestID : string; rq_ExternalReferenceUID : string; rq_AuthOrderID : string;
  rq_TotalAmount : Amount; rq_PeriodType : Z; rq_SubOrders : list SubOrder;
  rq_ExtendInfo : option RequestExtendInfo;
}.
Definition ReAuthRequest_fields : list (field_decl ReAuthRequest) :=
  [ "requestId" ~> rq_RequestID as str; "externalReferenceUid" ~> rq_ExternalReferenceUID as str;
    "authOrderId" ~> rq_AuthOrderID as str; "totalAmount" ~> rq_TotalAmount as int;
    "periodType" ~> rq_PeriodType as int; "subOrders" ~> rq_SubOrders as (slice SubOrder_json);
    "extendInfo" ~> rq_ExtendInfo as (ptr RequestExtendInfo_json) ].
Definition ReAuthRequest_json : codec ReAuthRequest :=
  struct (mkReAuthRequest "" "" "" 0 0 [] None) ReAuthRequest_fields.
#[export] Instance ReAuthRequest_schema : Schema (c_zero ReAuthRequest_json) ReAuthRequest_fields.
Proof. schema. Qed.

Record ReAuthResultData := mkReAuthResultData {
  rad_RequestID : string; rad_Currency : Currency; rad_AuthOrderID : string;
  rad_OriginalAuthOrderID : string; rad_TotalAmount : Amount; rad_Status : Status;
  rad_FailureCode : FailureCode; rad_SubOrderInstallmentPlans : list SubOrderInstallmentPlans;
  rad_AccountChanges : option AccountChanges; rad_ExtendInfo : option AuthExtendInfoResp;
}.
Definition ReAuthResultData_fields : list (field_decl ReAuthResultData) :=
  [ "requestId" ~> rad_RequestID as str; "currency" ~> rad_Currency as str;
    "authOrderId" ~> rad_AuthOrderID as str; "originalAuthOrderId" ~> rad_OriginalAuthOrderID as str;
    "totalAmount" ~> rad_TotalAmount as int; "status" ~> rad_Status as str;
    "failureCode" ~> rad_FailureCode as str omitempty;
    "subOrderInstallmentPlans" ~> rad_SubOrderInstallmentPlans as (slice SubOrderInstallmentPlans_json) omitempty;
    "accountChanges" ~> rad_AccountChanges as (ptr AccountChanges_json) omitempty;
    "extendInfo" ~> rad_ExtendInfo as (ptr AuthExtendInfoResp_json) omitempty ].
Definition ReAuthResultData_json : codec ReAuthResultData :=
  struct (mkReAuthResultData "" "" "" "" 0 "" "" [] None None) ReAuthResultData_fields.
#[export] Instance ReAuthResultData_schema : Schema (c_zero ReAuthResultData_json) ReAuthResultData_fields.
Proof. schema. Qed.

Record ReAuthResponse := mkReAuthResponse {
  rr_Code : Code; rr_Message : string; rr_Data : option ReAuthResultData;
}.
Definition ReAuthResponse_fields : list (field_decl ReAuthResponse) :=
  [ "code" ~> rr_Code as str; "message" ~> rr_Message as str;
    "data" ~> rr_Data as (ptr ReAuthResultData_json) omitempty ].
Definition ReAuthResponse_json : codec ReAuthResponse :=
  struct (mkReAuthResponse "" "" None) ReAuthResponse_fields.
#[export] Instance ReAuthResponse_schema : Schema (c_zero ReAuthResponse_json) ReAuthResponse_fields.
Proof. schema. Qed.

Record VoidAuthRequest := mkVoidAuthRequest {
  vq_RequestID : string; vq_ExternalReferenceUID : string; vq_AuthOrderID : string;
}.
Definition VoidAuthRequest_fields : list (field_decl VoidAuthRequest) :=
  [ "requestId" ~> vq_RequestID as str; "externalReferenceUid" ~> vq_ExternalReferenceUID as str;
    "authOrderId" ~> vq_AuthOrderID as str ].
Definition VoidAuthRequest_json : codec VoidAuthRequest :=
  struct (mkVoidAuthRequest "" "" "") VoidAuthRequest_fields.
#[export] Instance VoidAuthRequest_schema : Schema (c_zero VoidAuthRequest_json) VoidAuthRequest_fields.
Proof. schema. Qed.

Record VoidResultData := mkVoidResultData {
  vd_RequestID : string; vd_ExternalReferenceUID : string; vd_AuthOrderID : string;
  vd_AccountChanges : option AccountChanges;
}.
Definition VoidResultData_fields : list (field_decl VoidResultData) :=
  [ "requestId" ~> vd_RequestID as str; "externalReferenceUid" ~> vd_ExternalReferenceUID as str;
    "authOrderId" ~> vd_AuthOrderID as str;
    "accountChanges" ~> vd_AccountChanges as (ptr AccountChanges_json) omitempty ].
Definition VoidResultData_json : codec VoidResultData :=
  struct (mkVoidResultData "" "" "" None) VoidResultData_fields.
#[export] Instance VoidResultData_schema : Schema (c_zero VoidResultData_json) VoidResultData_fields.
Proof. schema. Qed.

Record VoidAuthResponse := mkVoidAuthResponse {
  vr_Code : Code; vr_Message : string; vr_Data : option VoidResultData;
}.
Definition VoidAuthResponse_fields : list (field_decl VoidAuthResponse) :=
  [ "code" ~> vr_Code as str; "message" ~> vr_Message as str;
    "data" ~> vr_Data as (ptr VoidResultData_json) omitempty ].
Definition VoidAuthResponse_json : codec VoidAuthResponse :=
  struct (mkVoidAuthResponse "" "" None) VoidAuthResponse_fields.
#[export] Instance VoidAuthResponse_schema : Schema (c_zero VoidAuthResponse_json) VoidAuthResponse_fields.
Proof. schema. Qed.

(** ** [/payment-plan] ([payment/plan.go]) *)

Record PlanSubOrder := mkPlanSubOrder {
  pso_SubOrderID : string; pso_MerchantID : string; pso_MerchantName : string;
  pso_MerchantCategory : string; pso_MerchantJoinedDate : string; pso_Amount : Amount;
  pso_PeriodType : option Z;
}.
Definition PlanSubOrder_fields : list (field_decl PlanSubOrder) :=
  [ "subOrderId" ~> pso_SubOrderID as str omitempty; "merchantId" ~> pso_MerchantID as str omitempty;
    "merchantName" ~> pso_MerchantName as str omitempty;
    "merchantCategory" ~> pso_MerchantCategory as str omitempty;
    "merchantJoinedDate" ~> pso_MerchantJoinedDate as str omitempty;
    "amount" ~> pso_Amount as int omitempty; "periodType" ~> pso_PeriodType as (ptr int) omitempty ].
Definition PlanSubOrder_json : codec PlanSubOrder :=
  struct (mkPlanSubOrder "" "" "" "" "" 0 None) PlanSubOrder_fields.
#[export] Instance PlanSubOrder_schema : Schema (c_zero PlanSubOrder_json) PlanSubOrder_fields.
Proof. schema. Qed.

Record CheckoutExtendInfo := mkCheckoutExtendInfo {
  chi_OrderType : PaymentOrderType; chi_MainOrderExtendInfos : list MainOrderExtendInfo;
}.
Definition CheckoutExtendInfo_fields : list (field_decl CheckoutExtendInfo) :=
  [ "orderType" ~> chi_OrderType as str;
    "mainOrderExtendInfos" ~> chi_MainOrderExtendInfos as (slice MainOrderExtendInfo_json) omitempty ].
Definition CheckoutExtendInfo_json : codec CheckoutExtendInfo :=
  struct (mkCheckoutExtendInfo "" []) CheckoutExtendInfo_fields.
#[export] Instance CheckoutExtendInfo_schema : Schema (c_zero CheckoutExtendInfo_json) CheckoutExtendInfo_fields.
Proof. schema. Qed.

Record PaymentPlanRequest := mkPaymentPlanRequest {
  ppq_RequestID : string; ppq_PeriodType : Z; ppq_ExternalReferenceUID : string;
  ppq_Mode : PaymentPlanMode; ppq_SessionID : string; ppq_TotalAmount : Amount;
  ppq_SubOrders : list PlanSubOrder; ppq_ExtendInfo : option CheckoutExtendInfo; ppq_Sessionid : string;
}.
Definition PaymentPlanRequest_fields : list (field_decl PaymentPlanRequest) :=
  [ "externalReferenceUid" ~> ppq_ExternalReferenceUID as str; "mode" ~> ppq_Mode as str;
    "sessionId" ~> ppq_SessionID as str omitempty; "totalAmount" ~> ppq_TotalAmount as int;
    "subOrders" ~> ppq_SubOrders as (slice PlanSubOrder_json);
    "extendInfo" ~> ppq_ExtendInfo as (ptr CheckoutExtendInfo_json) ].
Definition PaymentPlanRequest_json : codec PaymentPlanRequest :=
  struct (mkPaymentPlanRequest "" 0 "" "" "" 0 [] None "") PaymentPlanRequest_fields.
#[export] Instance PaymentPlanRequest_prints : Prints PaymentPlanRequest_fields.
Proof. prints. Qed.

Record CommerceInstallmentDetail := mkCommerceInstallmentDetail {
  cid_SubOrderID : string; cid_TotalTenor : Z; cid_CurrentTenor : Z; cid_RepayAmount : Amount;
  cid_PrincipalAmount : Amount; cid_InterestAmount : Amount; cid_DiscountAmount : Amount;
  cid_BillID : string; cid_BillDate : string; cid_DueDate : string;
}.
Definition CommerceInstallmentDetail_fields : list (field_decl CommerceInstallmentDetail) :=
  [ "subOrderId" ~> cid_SubOrderID as str omitempty; "totalTenor" ~> cid_TotalTenor as int;
    "currentTenor" ~> cid_CurrentTenor as int; "repayAmount" ~> cid_RepayAmount as int;
    "principalAmount" ~> cid_PrincipalAmount as int; "interestAmount" ~> cid_InterestAmount as int;
    "discountAmount" ~> cid_DiscountAmount as int omitempty; "billId" ~> cid_BillID as str;
    "billDate" ~> cid_BillDate as str; "dueDate" ~> cid_DueDate as str ].
Definition CommerceInstallmentDetail_json : codec CommerceInstallmentDetail :=
  struct (mkCommerceInstallmentDetail "" 0 0 0 0 0 0 "" "" "") CommerceInstallmentDetail_fields.
#[export] Instance CommerceInstallmentDetail_schema : Schema (c_zero CommerceInstallmentDetail_json) CommerceInstallmentDetail_fields.
Proof. schema. Qed.

Record CommerceInstallmentPlan := mkCommerceInstallmentPlan {
  cip_TotalTenor : Z; cip_OrderRepayAmount : Amount; cip_OrderInterestAmount : Amount;
  cip_OrderDiscountAmount : Amount; cip_InstallmentDetails : list CommerceInstallmentDetail;
}.
Definition CommerceInstallmentPlan_fields : list (field_decl CommerceInstallmentPlan) :=
  [ "totalTenor" ~> cip_TotalTenor as int; "orderRepayAmount" ~> cip_OrderRepayAmount as int;
    "orderInterestAmount" ~> cip_OrderInterestAmount as int;
    "orderDiscountAmount" ~> cip_OrderDiscountAmount as int omitempty;
    "installmentDetails" ~> cip_InstallmentDetails as (slice CommerceInstallmentDetail_json) ].
Definition CommerceInstallmentPlan_json : codec CommerceInstallmentPlan :=
  struct (mkCommerceInstallmentPlan 0 0 0 0 []) CommerceInstallmentPlan_fields.
#[export] Instance CommerceInstallmentPlan_schema : Schema (c_zero CommerceInstallmentPlan_json) CommerceInstallmentPlan_fields.
Proof. schema. Qed.

Record CommerceSubOrderInstallmentPlans := mkCommerceSubOrderInstallmentPlans {
  csoip_SubOrderID : string; csoip_MerchantID : string; csoip_MerchantName : string;
  csoip_OrderAmount : Amount; csoip_InstallmentPlans : list CommerceInstallmentPlan;
}.
Definition CommerceSubOrderInstallmentPlans_fields : list (field_decl CommerceSubOrderInstallmentPlans) :=
  [ "subOrderId" ~> csoip_SubOrderID as str omitempty; "merchantId" ~> csoip_MerchantID as str omitempty;
    "merchantName" ~> csoip_MerchantName as str omitempty; "orderAmount" ~> csoip_OrderAmount as int;
    "installmentPlans" ~> csoip_InstallmentPlans as (slice CommerceInstallmentPlan_json) ].
Definition CommerceSubOrderInstallmentPlans_json : codec CommerceSubOrderInstallmentPlans :=
  struct (mkCommerceSubOrderInstallmentPlans "" "" "" 0 []) CommerceSubOrderInstallmentPlans_fields.
#[export] Instance CommerceSubOrderInstallmentPlans_schema : Schema (c_zero CommerceSubOrderInstallmentPlans_json) CommerceSubOrderInstallmentPlans_fields.
Proof. schema. Qed.

Record SumOrderInstallmentDetail := mkSumOrderInstallmentDetail {
  soid_TotalTenor : Z; soid_CurrentTenor : Z; soid_RepayAmount : Amount; soid_PrincipalAmount : Amount;
  soid_InterestAmount : Amount; soid_DiscountAmount : Amount; soid_BillID : string; soid_BillDate : string;
  soid_DueDate : string;
}.
Definition SumOrderInstallmentDetail_fields : list (field_decl SumOrderInstallmentDetail) :=
  [ "totalTenor" ~> soid_TotalTenor as int; "currentTenor" ~> soid_CurrentTenor as int;
    "repayAmount" ~> soid_RepayAmount as int; "principalAmount" ~> soid_PrincipalAmount as int;
    "interestAmount" ~> soid_InterestAmount as int;
    "discountAmount" ~> soid_DiscountAmount as int omitempty; "billId" ~> soid_BillID as str;
    "billDate" ~> soid_BillDate as str; "dueDate" ~> soid_DueDate as str ].
Definition SumOrderInstallmentDetail_json : codec SumOrderInstallmentDetail :=
  struct (mkSumOrderInstallmentDetail 0 0 0 0 0 0 "" "" "") SumOrderInstallmentDetail_fields.
#[export] Instance SumOrderInstallmentDetail_schema : Schema (c_zero SumOrderInstallmentDetail_json) SumOrderInstallmentDetail_fields.
Proof. schema. Qed.

Record SumOrderInstallmentPlan := mkSumOrderInstallmentPlan {
  soip_TotalTenor : Z; soip_SumOrderRepayAmount : Amount; soip_SumOrderInterestAmount : Amount;
  soip_SumOrderDiscountAmount : Amount; soip_InstallmentDetails : list SumOrderInstallmentDetail;
}.
Definition SumOrderInstallmentPlan_fields : list (field_decl SumOrderInstallmentPlan) :=
  [ "totalTenor" ~> soip_TotalTenor as int; "sumOrderRepayAmount" ~> soip_SumOrderRepayAmount as int;
    "sumOrderInterestAmount" ~> soip_SumOrderInterestAmount as int;
    "sumOrderDiscountAmount" ~> soip_SumOrderDiscountAmount as int omitempty;
    "installmentDetails" ~> soip_InstallmentDetails as (slice SumOrderInstallmentDetail_json) ].
Definition SumOrderInstallmentPlan_json : codec SumOrderInstallmentPlan :=
  struct (mkSumOrderInstallmentPlan 0 0 0 0 []) SumOrderInstallmentPlan_fields.
#[export] Instance SumOrderInstallmentPlan_schema : Schema (c_zero SumOrderInstallmentPlan_json) SumOrderInstallmentPlan_fields.
Proof. schema. Qed.

Record SumOrderInstallmentPlans := mkSumOrderInstallmentPlans {
  soips_SumOrderAmount : Amount; soips_InstallmentPlans : list SumOrderInstallmentPlan;
}.
Definition SumOrderInstallmentPlans_fields : list (field_decl SumOrderInstallmentPlans) :=
  [ "sumOrderAmount" ~> soips_SumOrderAmount as int omitempty;
    "installmentPlans" ~> soips_InstallmentPlans as (slice SumOrderInstallmentPlan_json) omitempty ].
Definition SumOrderInstallmentPlans_json : codec SumOrderInstallmentPlans :=
  struct (mkSumOrderInstallmentPlans 0 []) SumOrderInstallmentPlans_fields.
#[export] Instance SumOrderInstallmentPlans_schema : Schema (c_zero SumOrderInstallmentPlans_json) SumOrderInstallmentPlans_fields.
Proof. schema. Qed.

Record PaymentPlanDataExtendInfo := mkPaymentPlanDataExtendInfo {
  ppde_SessionID : string; ppde_RecommendedTenor : Z;
  ppde_SumOrderInstallmentPlans : option SumOrderInstallmentPlans;
}.
Definition PaymentPlanDataExtendInfo_fields : list (field_decl PaymentPlanDataExtendInfo) :=
  [ "sessionId" ~> ppde_SessionID as str omitempty;
    "recommendedTenor" ~> ppde_RecommendedTenor as int omitempty;
    "sumOrderInstallmentPlans" ~> ppde_SumOrderInstallmentPlans as (ptr SumOrderInstallmentPlans_json) omitempty ].
Definition PaymentPlanDataExtendInfo_json : codec PaymentPlanDataExtendInfo :=
  struct (mkPaymentPlanDataExtendInfo "" 0 None) PaymentPlanDataExtendInfo_fields.
#[export] Instance PaymentPlanDataExtendInfo_schema : Schema (c_zero PaymentPlanDataExtendInfo_json) PaymentPlanDataExtendInfo_fields.
Proof. schema. Qed.

Record PaymentPlanData := mkPaymentPlanData {
  ppd_Currency : Currency; ppd_SubOrderInstallmentPlans : list CommerceSubOrderInstallmentPlans;
  ppd_ExtendInfo : option PaymentPlanDataExtendInfo;
}.
Definition PaymentPlanData_fields : list (field_decl PaymentPlanData) :=
  [ "currency" ~> ppd_Currency as str omitempty;
    "subOrderInstallmentPlans" ~> ppd_SubOrderInstallmentPlans as (slice CommerceSubOrderInstallmentPlans_json);
    "extendInfo" ~> ppd_ExtendInfo as (ptr PaymentPlanDataExtendInfo_json) omitempty ].
Definition PaymentPlanData_json : codec PaymentPlanData :=
  struct (mkPaymentPlanData "" [] None) PaymentPlanData_fields.
#[export] Instance PaymentPlanData_schema : Schema (c_zero PaymentPlanData_json) PaymentPlanData_fields.
Proof. schema. Qed.

Record PaymentPlanResponse := mkPaymentPlanResponse {
  ppr_Code : Code; ppr_Message : string; ppr_Data : option PaymentPlanData;
}.
Definition PaymentPlanResponse_fields : list (field_decl PaymentPlanResponse) :=
  [ "code" ~> ppr_Code as str; "message" ~> ppr_Message as str;
    "data" ~> ppr_Data as (ptr PaymentPlanData_json) omitempty ].
Definition PaymentPlanResponse_json : codec PaymentPlanResponse :=
  struct (mkPaymentPlanResponse "" "" None) PaymentPlanResponse_fields.
#[export] Instance PaymentPlanResponse_schema : Schema (c_zero PaymentPlanResponse_json) PaymentPlanResponse_fields.
Proof. schema. Qed.

(** ** [/payment-precheck] ([payment/precheck.go]) *)

Record PreCheckExtendInfo := mkPreCheckExtendInfo {
  pce_OrderType : PaymentOrderType;
}.
Definition PreCheckExtendInfo_fields : list (field_decl PreCheckExtendInfo) :=
  [ "orderType" ~> pce_OrderType as str omitempty ].
Definition PreCheckExtendInfo_json : codec PreCheckExtendInfo :=
  struct (mkPreCheckExtendInfo "") PreCheckExtendInfo_fields.
#[export] Instance PreCheckExtendInfo_schema : Schema (c_zero PreCheckExtendInfo_json) PreCheckExtendInfo_fields.
Proof. schema. Qed.

Record PaymentPreCheckRequest := mkPaymentPreCheckRequest {
  pcq_ExternalReferenceUID : string; pcq_TotalAmount : Amount; pcq_SubOrders : list PlanSubOrder;
  pcq_ExtendInfo : option PreCheckExtendInfo; pcq_RequestID : string; pcq_PeriodType : Z;
}.
Definition PaymentPreCheckRequest_fields : list (field_decl PaymentPreCheckRequest) :=
  [ "externalReferenceUid" ~> pcq_ExternalReferenceUID as str; "totalAmount" ~> pcq_TotalAmount as int;
    "subOrders" ~> pcq_SubOrders as (slice PlanSubOrder_json) omitempty;
    "extendInfo" ~> pcq_ExtendInfo as (ptr PreCheckExtendInfo_json) omitempty ].
Definition PaymentPreCheckRequest_json : codec PaymentPreCheckRequest :=
  struct (mkPaymentPreCheckRequest "" 0 [] None "" 0) PaymentPreCheckRequest_fields.
#[export] Instance PaymentPreCheckRequest_prints : Prints PaymentPreCheckRequest_fields.
Proof. prints. Qed.

Record PaymentPreCheckDataExtendInfo := mkPaymentPreCheckDataExtendInfo {
  pcde_ReapplyTime : Z;
}.
Definition PaymentPreCheckDataExtendInfo_fields : list (field_decl PaymentPreCheckDataExtendInfo) :=
  [ "reapplyTime" ~> pcde_ReapplyTime as int omitempty ].
Definition PaymentPreCheckDataExtendInfo_json : codec PaymentPreCheckDataExtendInfo :=
  struct (mkPaymentPreCheckDataExtendInfo 0) PaymentPreCheckDataExtendInfo_fields.
#[export] Instance PaymentPreCheckDataExtendInfo_schema : Schema (c_zero PaymentPreCheckDataExtendInfo_json) PaymentPreCheckDataExtendInfo_fields.
Proof. schema. Qed.

Record PaymentPreCheckData := mkPaymentPreCheckData {
  pcd_AvailableCredit : Amount; pcd_ExtendInfo : option PaymentPreCheckDataExtendInfo;
}.
Definition PaymentPreCheckData_fields : list (field_decl PaymentPreCheckData) :=
  [ "availableCredit" ~> pcd_AvailableCredit as int;
    "extendInfo" ~> pcd_ExtendInfo as (ptr PaymentPreCheckDataExtendInfo_json) omitempty ].
Definition PaymentPreCheckData_json : codec PaymentPreCheckData :=
  struct (mkPaymentPreCheckData 0 None) PaymentPreCheckData_fields.
#[export] Instance PaymentPreCheckData_schema : Schema (c_zero PaymentPreCheckData_json) PaymentPreCheckData_fields.
Proof. schema. Qed.

Record PaymentPreCheckResponse := mkPaymentPreCheckResponse {
  pcr_Code : Code; pcr_Message : string; pcr_Data : option PaymentPreCheckData;
}.
Definition PaymentPreCheckResponse_fields : list (field_decl PaymentPreCheckResponse) :=
  [ "code" ~> pcr_Code as str; "message" ~> pcr_Message as str;
    "data" ~> pcr_Data as (ptr PaymentPreCheckData_json) omitempty ].
Definition PaymentPreCheckResponse_json : codec PaymentPreCheckResponse :=
  struct (mkPaymentPreCheckResponse "" "" None) PaymentPreCheckResponse_fields.
#[export] Instance PaymentPreCheckResponse_schema : Schema (c_zero PaymentPreCheckResponse_json) PaymentPreCheckResponse_fields.
Proof. schema. Qed.

(** ** Statuses of responses

    The methods are nil-safe: [None] is a nil response. *)

Definition status_terminal (s : option Status) : bool :=
  match s with Some s => Status_IsTerminal s | None => false end.

Definition AuthResponse_Status (r : option AuthResponse) : option Status :=
  match r with Some r => match ar_Data r with Some d => Some (ad_Status d) | None => None end | None => None end.
Definition AuthResponse_IsTerminal (r : option AuthResponse) : bool := status_terminal (AuthResponse_Status r).
Definition AuthResponse_IsProcessing (r : option AuthResponse) : bool :=
  bool_decide (AuthResponse_Status r = Some StatusProcessing).

Definition CaptureResponse_Status (r : option CaptureResponse) : option Status :=
  match r with
  | Some r => match cr_Data r with Some d => Some (pr_Status (crd_PaymentResult d)) | None => None end
  | None => None
  end.
Definition CaptureResponse_IsTerminal (r : option CaptureResponse) : bool :=
  status_terminal (CaptureResponse_Status r).
Definition CaptureResponse_IsProcessing (r : option CaptureResponse) : bool :=
  bool_decide (CaptureResponse_Status r = Some StatusProcessing).

Definition ReAuthResponse_Status (r : option ReAuthResponse) : option Status :=
  match r with Some r => match rr_Data r with Some d => Some (rad_Status d) | None => None end | None => None end.
Definition ReAuthResponse_IsTerminal (r : option ReAuthResponse) : bool := status_terminal (ReAuthResponse_Status r).
Definition ReAuthResponse_IsSuccess (r : option ReAuthResponse) : bool :=
  bool_decide (ReAuthResponse_Status r = Some StatusSuccess).

Definition VoidAuthResponse_IsTerminal (r : option VoidAuthResponse) : bool :=
  match r with
  | Some r => bool_decide (vr_Code r = CodeSuccess) && bool_decide (is_Some (vr_Data r))
  | None => false
  end.

Definition PaymentPreCheckResponse_IsEligible (r : option PaymentPreCheckResponse) : bool :=
  match r with Some r => bool_decide (pcr_Code r = CodeSuccess) | None => false end.
