(* ===== verification/PaymentRules.v ===== *)
(** * PaymentRules: what a payment request must satisfy before it is sent.

    The validators of [atomefin/payment] ([suborder_validate.go] and the [validate…]
    function of each endpoint), and the contract each of them decides. *)
From S2P Require Import Prelude GoStd Errors Codec Schema PaymentTypes.

Definition validOrderTypesMsg : string := "must be one of TRANSPORT | GRAB_FOOD | GRAB_MART".

(** [fmt.Sprintf("below IDR %d minimum for periodType %d", ..)] *)
Definition below_minimum (minimum : Amount) (note : string) (periodType : Z) : string :=
  "below IDR " +:+ itoa minimum +:+ " minimum " +:+ note +:+ "for periodType " +:+ itoa periodType.

Definition validateCheckoutAmounts (periodType : Z) (totalAmount : Amount) (subOrderAmounts : list Amount)
    : option error :=
  let '(minimumTotal, minimumSubOrder) := if periodType =? 3 then (20000, 3) else (1, 1) in
  reject EValidation "totalAmount" (below_minimum minimumTotal "" periodType) when totalAmount <? minimumTotal ;;
  first_error (fun amount =>
    reject EValidation "subOrders[].amount" (below_minimum minimumSubOrder "" periodType)
      when amount <? minimumSubOrder ;; None) subOrderAmounts.

Definition validateCaptureReAuthAmounts (periodType : Z) (subOrderAmounts : list Amount) : option error :=
  let minimum := if periodType <? 1 then 1 else periodType in
  first_error (fun amount =>
    reject EValidation "subOrders[].amount" (below_minimum minimum "(1 × tenor) " periodType)
      when amount <? minimum ;; None) subOrderAmounts.

Definition errAmount : error := EValidation "subOrders[].amount" "must be > 0 (minor units)".
Definition errNoSubOrders : error := EValidation "subOrders" "must be non-empty".
Definition errOneSubOrder (orderType : string) : error :=
  EValidation "subOrders" ("must contain exactly one entry for " +:+ orderType).

Definition validatePlanSubOrders (orderType : PaymentOrderType) (orders : list PlanSubOrder) : option error :=
  if bool_decide (orderType ∈ [OrderTypeGrabFood; OrderTypeTransport]) then
    match orders with
    | [so] => reject errAmount when pso_Amount so <=? 0 ;; None
    | _ => Some (errOneSubOrder orderType)
    end
  else if bool_decide (orderType = OrderTypeGrabMart) then
    reject errNoSubOrders when (length orders =? 0)%nat ;;
    first_error (fun so =>
      reject EValidation "subOrders[].merchantId" "required for GRAB_MART" when is_empty (pso_MerchantID so) ;;
      reject errAmount when pso_Amount so <=? 0 ;; None) orders
  else
    reject errNoSubOrders when (length orders =? 0)%nat ;; None.

Definition validateFoodMartAuthSubOrder (so : SubOrder) : option error :=
  reject EValidation "subOrders[].subOrderId" "required" when is_empty (so_SubOrderID so) ;;
  reject EValidation "subOrders[].merchantId" "required" when is_empty (so_MerchantID so) ;;
  reject errAmount when so_Amount so <=? 0 ;; None.

Definition validateAuthCaptureSubOrders (orderType : PaymentOrderType) (orders : list SubOrder) : option error :=
  if bool_decide (orderType = OrderTypeTransport) then
    match orders with
    | [so] => reject errAmount when so_Amount so <=? 0 ;; None
    | _ => Some (errOneSubOrder "TRANSPORT")
    end
  else if bool_decide (orderType = OrderTypeGrabFood) then
    match orders with
    | [so] => validateFoodMartAuthSubOrder so
    | _ => Some (errOneSubOrder "GRAB_FOOD")
    end
  else if bool_decide (orderType = OrderTypeGrabMart) then
    reject errNoSubOrders when (length orders =? 0)%nat ;;
    first_error validateFoodMartAuthSubOrder orders
  else
    reject errNoSubOrders when (length orders =? 0)%nat ;; None.

Definition validateCaptureSubOrders (orderType : PaymentOrderType) (orders : list SubOrder) : option error :=
  try validateAuthCaptureSubOrders orderType orders ;;
  if negb (bool_decide (orderType = OrderTypeGrabFood)) && negb (bool_decide (orderType = OrderTypeGrabMart))
  then None
  else first_error (fun so =>
    reject EValidation "subOrders[].merchantName" ("required for " +:+ orderType +:+ " capture")
      when is_empty (so_MerchantName so) ;; None) orders.

Definition validateRequiredSKUInfos (infos : list MainOrderExtendInfo) (scenario : string) : option error :=
  reject EValidation "extendInfo.mainOrderExtendInfos" ("required for " +:+ scenario) when (length infos =? 0)%nat ;;
  first_error (fun info =>
    reject EValidation "extendInfo.mainOrderExtendInfos[].merchantId" "required" when is_empty (moei_MerchantID info) ;;
    reject EValidation "extendInfo.mainOrderExtendInfos[].skuInfos" "required (at least one SKU)"
      when (length (moei_SkuInfos info) =? 0)%nat ;;
    first_error (fun sku =>
      reject EValidation "extendInfo.mainOrderExtendInfos[].skuInfos[].skuId" "required"
        when is_empty (sku_SkuID sku) ;;
      reject EValidation "extendInfo.mainOrderExtendInfos[].skuInfos[].amount" "must be > 0 (minor units)"
        when sku_Amount sku <=? 0 ;; None) (moei_SkuInfos info)) infos.

Definition validatePlanMainOrderExtendInfos (orderType : PaymentOrderType) (infos : list MainOrderExtendInfo)
    : option error :=
  if bool_decide (orderType = OrderTypeGrabMart) then validateRequiredSKUInfos infos "GRAB_MART" else None.

Definition validateAuthCaptureMainOrderExtendInfos (orderType : PaymentOrderType)
    (infos : list MainOrderExtendInfo) : option error :=
  if bool_decide (orderType ∈ [OrderTypeGrabMart; OrderTypeGrabFood])
  then validateRequiredSKUInfos infos orderType else None.

(** Sums are computed in [int64]. *)
Definition sumPlanSubOrderAmount (orders : list PlanSubOrder) : Amount :=
  fold_left (fun sum so => i64 (sum + pso_Amount so)) orders 0.
Definition planSubOrderAmounts (orders : list PlanSubOrder) : list Amount := map pso_Amount orders.
Definition setPlanSubOrderAmounts (orders : list PlanSubOrder) : list Amount :=
  List.filter (fun a => a >? 0) (map pso_Amount orders).
Definition allPlanSubOrderAmountsSet (orders : list PlanSubOrder) : bool :=
  forallb (fun so => negb (pso_Amount so <=? 0)) orders.
Definition sumSubOrderAmount (orders : list SubOrder) : Amount :=
  fold_left (fun sum so => i64 (sum + so_Amount so)) orders 0.
Definition subOrderAmounts (orders : list SubOrder) : list Amount := map so_Amount orders.

(** ** Validators of requests *)

Definition errSum : error := EValidation "totalAmount" "must equal sum of subOrders[].amount".
Definition errTotal : error := EValidation "totalAmount" "must be > 0 (minor units)".
Definition errExtendInfo : error := EValidation "extendInfo" "required (carries orderType)".
Definition errOrderType : error := EValidation "extendInfo.orderType" validOrderTypesMsg.
Definition errMax64 (fld : string) : error := EValidation fld "exceeds spec maxlength 64".

Definition validateAuthRequest (req : AuthRequest) : option error :=
  reject EValidation "requestId" "must be non-empty (use a partner-stable idempotency key)"
    when is_empty (aq_RequestID req) ;;
  reject errMax64 "requestId" when slen (aq_RequestID req) >? 64 ;;
  reject EValidation "externalReferenceUid" "required" when is_empty (aq_ExternalReferenceUID req) ;;
  reject errTotal when aq_TotalAmount req <=? 0 ;;
  try validateCheckoutAmounts (aq_PeriodType req) (aq_TotalAmount req) (subOrderAmounts (aq_SubOrders req)) ;;
  match aq_ExtendInfo req with
  | None => Some errExtendInfo
  | Some e =>
      reject errOrderType when negb (PaymentOrderType_IsValid (rei_OrderType e)) ;;
      try validateAuthCaptureSubOrders (rei_OrderType e) (aq_SubOrders req) ;;
      reject errSum when negb (sumSubOrderAmount (aq_SubOrders req) =? aq_TotalAmount req) ;;
      try validateAuthCaptureMainOrderExtendInfos (rei_OrderType e) (rei_MainOrderExtendInfos e) ;;
      reject EValidation "sessionid"
        "required for /auth (per DESIGN.md §1.3); travels in the HTTP `sessionid` header"
        when is_empty (aq_Sessionid req) ;;
      reject errMax64 "sessionid" when slen (aq_Sessionid req) >? 64 ;; None
  end.

Definition validateCaptureRequest (req : CaptureRequest) : option error :=
  reject EValidation "requestId" "required" when is_empty (cq_RequestID req) ;;
  reject errMax64 "requestId" when slen (cq_RequestID req) >? 64 ;;
  reject EValidation "externalReferenceUid" "required (must mirror the /auth request that produced authOrderId)"
    when is_empty (cq_ExternalReferenceUID req) ;;
  reject EValidation "authOrderId" "required (from prior /auth response)" when is_empty (cq_AuthOrderID req) ;;
  reject errTotal when cq_TotalAmount req <=? 0 ;;
  try validateCaptureReAuthAmounts (cq_PeriodType req) (subOrderAmounts (cq_SubOrders req)) ;;
  match cq_ExtendInfo req with
  | None => Some errExtendInfo
  | Some e =>
      reject errOrderType when negb (PaymentOrderType_IsValid (rei_OrderType e)) ;;
      try validateCaptureSubOrders (rei_OrderType e) (cq_SubOrders req) ;;
      reject errSum when negb (sumSubOrderAmount (cq_SubOrders req) =? cq_TotalAmount req) ;;
      try validateAuthCaptureMainOrderExtendInfos (rei_OrderType e) (rei_MainOrderExtendInfos e) ;; None
  end.

Definition validateReAuthRequest (req : ReAuthRequest) : option error :=
  reject EValidation "requestId" "required" when is_empty (rq_RequestID req) ;;
  reject errMax64 "requestId" when slen (rq_RequestID req) >? 64 ;;
  reject EValidation "externalReferenceUid" "required" when is_empty (rq_ExternalReferenceUID req) ;;
  reject errMax64 "externalReferenceUid" when slen (rq_ExternalReferenceUID req) >? 64 ;;
  reject EValidation "authOrderId" "required (the voided original authorization)" when is_empty (rq_AuthOrderID req) ;;
  reject errTotal when rq_TotalAmount req <=? 0 ;;
  try validateCaptureReAuthAmounts (rq_PeriodType req) (subOrderAmounts (rq_SubOrders req)) ;;
  match rq_ExtendInfo req with
  | None => Some errExtendInfo
  | Some e =>
      reject errOrderType when negb (PaymentOrderType_IsValid (rei_OrderType e)) ;;
      try validateAuthCaptureSubOrders (rei_OrderType e) (rq_SubOrders req) ;;
      reject errSum when negb (sumSubOrderAmount (rq_SubOrders req) =? rq_TotalAmount req) ;;
      try validateAuthCaptureMainOrderExtendInfos (rei_OrderType e) (rei_MainOrderExtendInfos e) ;; None
  end.

Definition validateVoidAuthRequest (req : VoidAuthRequest) : option error :=
  reject EValidation "requestId" "required" when is_empty (vq_RequestID req) ;;
  reject errMax64 "requestId" when slen (vq_RequestID req) >? 64 ;;
  reject EValidation "externalReferenceUid" "required" when is_empty (vq_ExternalReferenceUID req) ;;
  reject EValidation "authOrderId" "required" when is_empty (vq_AuthOrderID req) ;; None.

(** The tenor a plan or pre-check request is judged by: its own, or the one of its
    first sub-order. *)
Definition inferred_periodType (periodType : Z) (orders : list PlanSubOrder) : Z :=
  match orders with
  | so :: _ => if periodType =? 0 then default periodType (pso_PeriodType so) else periodType
  | [] => periodType
  end.

Definition validatePaymentPlanRequest (req : PaymentPlanRequest) : option error :=
  reject EValidation "requestId" "required" when is_empty (ppq_RequestID req) ;;
  reject errMax64 "requestId" when slen (ppq_RequestID req) >? 64 ;;
  reject EValidation "externalReferenceUid" "required" when is_empty (ppq_ExternalReferenceUID req) ;;
  reject EValidation "mode" "must be one of ask | get" when negb (PaymentPlanMode_IsValid (ppq_Mode req)) ;;
  reject errMax64 "sessionId" when slen (ppq_SessionID req) >? 64 ;;
  reject errTotal when ppq_TotalAmount req <=? 0 ;;
  let periodType := inferred_periodType (ppq_PeriodType req) (ppq_SubOrders req) in
  try validateCheckoutAmounts periodType (ppq_TotalAmount req) (planSubOrderAmounts (ppq_SubOrders req)) ;;
  try validateCheckoutAmounts (ppq_PeriodType req) (ppq_TotalAmount req) (planSubOrderAmounts (ppq_SubOrders req)) ;;
  match ppq_ExtendInfo req with
  | None => Some errExtendInfo
  | Some e =>
      reject errOrderType when negb (PaymentOrderType_IsValid (chi_OrderType e)) ;;
      try validatePlanSubOrders (chi_OrderType e) (ppq_SubOrders req) ;;
      reject errSum when negb (sumPlanSubOrderAmount (ppq_SubOrders req) =? ppq_TotalAmount req) ;;
      try validatePlanMainOrderExtendInfos (chi_OrderType e) (chi_MainOrderExtendInfos e) ;;
      reject errMax64 "sessionid" when slen (ppq_Sessionid req) >? 64 ;; None
  end.

Definition set_PeriodType (p : Z) (req : PaymentPreCheckRequest) : PaymentPreCheckRequest :=
  mkPaymentPreCheckRequest (pcq_ExternalReferenceUID req) (pcq_TotalAmount req) (pcq_SubOrders req)
    (pcq_ExtendInfo req) (pcq_RequestID req) p.

(** The order type, when there is an extendInfo. *)
Definition precheck_orderType (req : PaymentPreCheckRequest) : option PaymentOrderType :=
  match pcq_ExtendInfo req with Some e => Some (pce_OrderType e) | None => None end.

(** It stores the tenor it infers in the request, once the guards before that pass. *)
Definition validatePaymentPreCheckRequest (req : PaymentPreCheckRequest)
    : option error * PaymentPreCheckRequest :=
  let before :=
    reject EValidation "externalReferenceUid" "required" when is_empty (pcq_ExternalReferenceUID req) ;;
    reject errTotal when pcq_TotalAmount req <=? 0 ;;
    try validateCheckoutAmounts (pcq_PeriodType req) (pcq_TotalAmount req) (setPlanSubOrderAmounts (pcq_SubOrders req)) ;;
    match precheck_orderType req with
    | Some t =>
        reject errOrderType when negb (is_empty t) && negb (PaymentOrderType_IsValid t) ;;
        reject EValidation "subOrders" ("must contain at most one entry for " +:+ t)
          when bool_decide (t ∈ [OrderTypeGrabFood; OrderTypeTransport]) && (1 <? length (pcq_SubOrders req))%nat ;;
        None
    | None => None
    end in
  match before with
  | Some err => (Some err, req)
  | None =>
      let req := set_PeriodType (inferred_periodType (pcq_PeriodType req) (pcq_SubOrders req)) req in
      (try validateCheckoutAmounts (pcq_PeriodType req) (pcq_TotalAmount req) (setPlanSubOrderAmounts (pcq_SubOrders req)) ;;
       reject errSum when (0 <? length (pcq_SubOrders req))%nat && allPlanSubOrderAmountsSet (pcq_SubOrders req)
                          && negb (sumPlanSubOrderAmount (pcq_SubOrders req) =? pcq_TotalAmount req) ;;
       None, req)
  end.

Definition validateQueryParams (requestID externalReferenceUID : string) : option error :=
  reject EValidation "requestId" "required (the requestId from the prior outbound submission)" when is_empty requestID ;;
  reject errMax64 "requestId" when slen requestID >? 64 ;;
  reject EValidation "externalReferenceUid"
    "required (the partner-side user/account identifier from the prior outbound submission)"
    when is_empty externalReferenceUID ;;
  reject errMax64 "externalReferenceUid" when slen externalReferenceUID >? 64 ;; None.

(** * Contracts

    What the API demands of the parts of a request, per order type; [t] is one of the
    three order types wherever these are used. *)

Definition min_total (periodType : Z) : Amount := if periodType =? 3 then 20000 else 1.
Definition min_sub_order (periodType : Z) : Amount := if periodType =? 3 then 3 else 1.

Definition id64 (s : string) : Prop := 1 <= slen s <= 64.

(** Every order has sub-orders with an amount, exactly one unless it is a mart order;
    food and mart ones name their merchants. *)
Definition sub_orders_contract (t : PaymentOrderType) (orders : list SubOrder) : Prop :=
  orders <> [] /\ (t <> OrderTypeGrabMart -> length orders = 1%nat) /\
  Forall (fun so => 0 < so_Amount so) orders /\
  (t <> OrderTypeTransport -> Forall (fun so => so_SubOrderID so <> "" /\ so_MerchantID so <> "") orders).

Definition sku_list_contract (infos : list MainOrderExtendInfo) : Prop :=
  infos <> [] /\
  Forall (fun i => moei_MerchantID i <> "" /\ moei_SkuInfos i <> [] /\
                   Forall (fun s => sku_SkuID s <> "" /\ 0 < sku_Amount s) (moei_SkuInfos i)) infos.

Definition skus_contract (t : PaymentOrderType) (infos : list MainOrderExtendInfo) : Prop :=
  t <> OrderTypeTransport -> sku_list_contract infos.

(** The exact total, which [int64] arithmetic may miss. *)
Definition total_of (amounts : list Amount) : Z := foldr Z.add 0 amounts.

(** The extendInfo, sub-orders and total that [/auth], [/capture] and [/reAuth] share. *)
Definition order_contract (extendInfo : option RequestExtendInfo) (orders : list SubOrder) (total : Amount) : Prop :=
  exists e, extendInfo = Some e /\ PaymentOrderType_IsValid (rei_OrderType e) = true /\
    sub_orders_contract (rei_OrderType e) orders /\ i64 (total_of (subOrderAmounts orders)) = total /\
    skus_contract (rei_OrderType e) (rei_MainOrderExtendInfos e).

Record auth_contract (req : AuthRequest) : Prop := {
  auth_requestId : id64 (aq_RequestID req);
  auth_uid : aq_ExternalReferenceUID req <> "";
  auth_total : min_total (aq_PeriodType req) <= aq_TotalAmount req;
  auth_amounts : Forall (fun a => min_sub_order (aq_PeriodType req) <= a) (subOrderAmounts (aq_SubOrders req));
  auth_order : order_contract (aq_ExtendInfo req) (aq_SubOrders req) (aq_TotalAmount req);
  auth_sessionid : id64 (aq_Sessionid req);
}.

Record capture_contract (req : CaptureRequest) : Prop := {
  capture_requestId : id64 (cq_RequestID req);
  capture_uid : cq_ExternalReferenceUID req <> "";
  capture_authOrderId : cq_AuthOrderID req <> "";
  capture_total : 0 < cq_TotalAmount req;
  capture_amounts : Forall (fun a => Z.max 1 (cq_PeriodType req) <= a) (subOrderAmounts (cq_SubOrders req));
  capture_order : order_contract (cq_ExtendInfo req) (cq_SubOrders req) (cq_TotalAmount req);
  capture_names : forall e, cq_ExtendInfo req = Some e -> rei_OrderType e <> OrderTypeTransport ->
    Forall (fun so => so_MerchantName so <> "") (cq_SubOrders req);
}.

Record reauth_contract (req : ReAuthRequest) : Prop := {
  reauth_requestId : id64 (rq_RequestID req);
  reauth_uid : id64 (rq_ExternalReferenceUID req);
  reauth_authOrderId : rq_AuthOrderID req <> "";
  reauth_total : 0 < rq_TotalAmount req;
  reauth_amounts : Forall (fun a => Z.max 1 (rq_PeriodType req) <= a) (subOrderAmounts (rq_SubOrders req));
  reauth_order : order_contract (rq_ExtendInfo req) (rq_SubOrders req) (rq_TotalAmount req);
}.

(** ** Lemmas *)

Lemma id64_spec s : id64 s <-> s <> "" /\ slen s <= 64.
Proof. unfold id64. destruct s; cbn [String.length]; intuition (try congruence; lia). Qed.

(** The guards to propositions, as [checks] leaves them. *)
Ltac guards :=
  repeat setoid_rewrite is_empty_false; repeat setoid_rewrite negb_false_iff; repeat setoid_rewrite Z.leb_gt;
  repeat setoid_rewrite Z.ltb_ge; repeat setoid_rewrite Z.gtb_ltb; repeat setoid_rewrite Z.eqb_eq.

Lemma order_types t : PaymentOrderType_IsValid t = true ->
  t = OrderTypeTransport \/ t = OrderTypeGrabFood \/ t = OrderTypeGrabMart.
Proof.
  unfold PaymentOrderType_IsValid. rewrite bool_decide_eq_true, !elem_of_cons, elem_of_nil. tauto.
Qed.

Lemma validateCheckoutAmounts_None p total amounts :
  validateCheckoutAmounts p total amounts = None <->
  min_total p <= total /\ Forall (fun a => min_sub_order p <= a) amounts.
Proof.
  unfold validateCheckoutAmounts, min_total, min_sub_order. destruct (p =? 3); cbv beta iota zeta; rewrite reject_None, first_error_None, Z.ltb_ge;
    (apply and_cong; [tauto|]; apply Forall_proper; [|done]; intros a; rewrite reject_None, Z.ltb_ge; tauto).
Qed.

Lemma validateCaptureReAuthAmounts_None p amounts :
  validateCaptureReAuthAmounts p amounts = None <-> Forall (fun a => Z.max 1 p <= a) amounts.
Proof.
  unfold validateCaptureReAuthAmounts. rewrite first_error_None. apply Forall_proper; [|done]. intros a.
  rewrite reject_None, Z.ltb_ge. destruct (Z.ltb_spec p 1); intuition lia.
Qed.

Lemma FoodMart_None so : validateFoodMartAuthSubOrder so = None <->
  so_SubOrderID so <> "" /\ so_MerchantID so <> "" /\ 0 < so_Amount so.
Proof. unfold validateFoodMartAuthSubOrder. rewrite !reject_None, !is_empty_false, Z.leb_gt. tauto. Qed.

Lemma sub_orders_None t orders : PaymentOrderType_IsValid t = true ->
  validateAuthCaptureSubOrders t orders = None <-> sub_orders_contract t orders.
Proof.
  intros Ht. unfold validateAuthCaptureSubOrders, sub_orders_contract.
  destruct (order_types t Ht) as [->|[->| ->]]; decide_closed.
  - destruct orders as [|so [|so' orders]]; [by split; [|intros (?&?&?)]| |split; [done|intros (_&H&_); by discriminate H]].
    rewrite reject_None, Z.leb_gt, Forall_singleton. naive_solver.
  - destruct orders as [|so [|so' orders]]; [by split; [|intros (?&?&?)]| |split; [done|intros (_&H&_); by discriminate H]].
    rewrite FoodMart_None, !Forall_singleton. naive_solver.
  - rewrite reject_None, first_error_None. setoid_rewrite FoodMart_None. rewrite Nat.eqb_neq.
    split.
    + intros [Hl Ho]. split_and!; [by destruct orders|done|by eapply Forall_impl; [exact Ho|naive_solver]|intros _; by eapply Forall_impl; [exact Ho|naive_solver]].
    + intros (Hl & _ & Ha & Hm). split; [by destruct orders|]. specialize (Hm ltac:(done)).
      rewrite Forall_forall in *. naive_solver.
Qed.

Lemma skus_None infos scenario : validateRequiredSKUInfos infos scenario = None <-> sku_list_contract infos.
Proof.
  unfold validateRequiredSKUInfos, sku_list_contract. rewrite reject_None, Nat.eqb_neq, first_error_None.
  apply and_cong; [by destruct infos|]. apply Forall_proper; [|done]. intros i.
  rewrite !reject_None, is_empty_false, Nat.eqb_neq, first_error_None.
  apply and_iff_compat_l, and_cong; [by destruct (moei_SkuInfos i)|].
  apply Forall_proper; [|done]. intros s. rewrite !reject_None, is_empty_false, Z.leb_gt. tauto.
Qed.

Lemma order_skus_None t infos : PaymentOrderType_IsValid t = true ->
  validateAuthCaptureMainOrderExtendInfos t infos = None <-> skus_contract t infos.
Proof.
  intros Ht. unfold validateAuthCaptureMainOrderExtendInfos, skus_contract.
  destruct (order_types t Ht) as [->|[->| ->]]; decide_closed; rewrite ?skus_None; naive_solver.
Qed.

Lemma i64_sum {A} (f : A -> Amount) l : forall acc,
  in_int64 acc -> fold_left (fun sum x => i64 (sum + f x)) l acc = i64 (acc + total_of (map f l)).
Proof.
  induction l as [|x l IH]; intros acc Hacc; cbn [fold_left map total_of foldr].
  - by rewrite Z.add_0_r, i64_id.
  - rewrite IH by apply i64_range. rewrite i64_add_l. fold (total_of (map f l)). f_equal. lia.
Qed.

Lemma sumSubOrderAmount_total orders : sumSubOrderAmount orders = i64 (total_of (subOrderAmounts orders)).
Proof. unfold sumSubOrderAmount. by rewrite i64_sum by (split; vm_compute; discriminate). Qed.

Lemma sumPlanSubOrderAmount_total orders : sumPlanSubOrderAmount orders = i64 (total_of (planSubOrderAmounts orders)).
Proof. unfold sumPlanSubOrderAmount. by rewrite i64_sum by (split; vm_compute; discriminate). Qed.

Lemma reject_id64 e e' s (k : option error) :
  (reject e when is_empty s ;; reject e' when slen s >? 64 ;; k) = None <-> id64 s /\ k = None.
Proof. rewrite !reject_None, is_empty_false, id64_spec, Z.gtb_ltb, Z.ltb_ge. tauto. Qed.

(** The part [/auth], [/capture] and [/reAuth] share. *)
Lemma order_None extendInfo orders total (subs k : RequestExtendInfo -> option error) (Q : RequestExtendInfo -> Prop) :
  (forall e, PaymentOrderType_IsValid (rei_OrderType e) = true ->
     subs e = None <-> sub_orders_contract (rei_OrderType e) orders /\ Q e) ->
  match extendInfo with
  | None => Some errExtendInfo
  | Some e =>
      reject errOrderType when negb (PaymentOrderType_IsValid (rei_OrderType e)) ;;
      try subs e ;;
      reject errSum when negb (sumSubOrderAmount orders =? total) ;;
      try validateAuthCaptureMainOrderExtendInfos (rei_OrderType e) (rei_MainOrderExtendInfos e) ;;
      k e
  end = None <->
  order_contract extendInfo orders total /\ (forall e, extendInfo = Some e -> Q e /\ k e = None).
Proof.
  intros Hsubs. unfold order_contract. destruct extendInfo as [e|]; [|by split; [|intros [(?&?&?) ?]]].
  rewrite !reject_None, !try_None, reject_None, try_None, !negb_false_iff, Z.eqb_eq, sumSubOrderAmount_total.
  split.
  - intros (Ht & Hs & Hsum & Hsku & Hk). rewrite Hsubs in Hs by done. rewrite order_skus_None in Hsku by done.
    split; [exists e; tauto|]. intros e' [= <-]. tauto.
  - intros [(e' & [= <-] & Ht & Hs & Hsum & Hsku) HQ]. specialize (HQ e eq_refl).
    rewrite Hsubs, order_skus_None by done. tauto.
Qed.

Lemma capture_subs_None t orders : PaymentOrderType_IsValid t = true ->
  validateCaptureSubOrders t orders = None <->
  sub_orders_contract t orders /\ (t <> OrderTypeTransport -> Forall (fun so => so_MerchantName so <> "") orders).
Proof.
  intros Ht. unfold validateCaptureSubOrders. rewrite try_None, sub_orders_None by done. apply and_cong; [done|].
  assert (Hn : forall msg, first_error (fun so => reject EValidation "subOrders[].merchantName" msg
            when is_empty (so_MerchantName so) ;; None) orders = None <-> Forall (fun so => so_MerchantName so <> "") orders).
  { intros msg. rewrite first_error_None. apply Forall_proper; [|done]. intros so. rewrite reject_None, is_empty_false. tauto. }
  destruct (order_types t Ht) as [->|[->| ->]]; decide_closed; rewrite ?Hn; naive_solver.
Qed.

Lemma plan_subs_None t orders : PaymentOrderType_IsValid t = true ->
  validatePlanSubOrders t orders = None <->
  orders <> [] /\ (t <> OrderTypeGrabMart -> length orders = 1%nat) /\ Forall (fun so => 0 < pso_Amount so) orders /\
  (t = OrderTypeGrabMart -> Forall (fun so => pso_MerchantID so <> "") orders).
Proof.
  intros Ht. unfold validatePlanSubOrders.
  destruct (order_types t Ht) as [->|[->| ->]]; decide_closed.
  1-2: destruct orders as [|so [|so' orders]]; [by split; [|intros (?&?&?)]| |split; [done|intros (_&H&_); by discriminate H]];
    rewrite reject_None, Z.leb_gt, Forall_singleton; naive_solver.
  rewrite reject_None, first_error_None, Nat.eqb_neq.
  transitivity (length orders <> 0%nat /\ Forall (fun so => pso_MerchantID so <> "" /\ 0 < pso_Amount so) orders).
  { apply and_cong; [done|]. apply Forall_proper; [|done]. intros so. rewrite !reject_None, is_empty_false, Z.leb_gt. tauto. }
  rewrite Forall_and, length_nonzero. tauto.
Qed.

Record plan_contract (req : PaymentPlanRequest) : Prop := {
  plan_requestId : id64 (ppq_RequestID req);
  plan_uid : ppq_ExternalReferenceUID req <> "";
  plan_mode : ppq_Mode req = PaymentPlanModeAsk \/ ppq_Mode req = PaymentPlanModeGet;
  plan_sessions : slen (ppq_SessionID req) <= 64 /\ slen (ppq_Sessionid req) <= 64;
  plan_amounts : forall p, p = ppq_PeriodType req \/ p = inferred_periodType (ppq_PeriodType req) (ppq_SubOrders req) ->
    min_total p <= ppq_TotalAmount req /\ Forall (fun so => min_sub_order p <= pso_Amount so) (ppq_SubOrders req);
  plan_sum : i64 (total_of (planSubOrderAmounts (ppq_SubOrders req))) = ppq_TotalAmount req;
  plan_order : exists e, ppq_ExtendInfo req = Some e /\ PaymentOrderType_IsValid (chi_OrderType e) = true /\
    (chi_OrderType e <> OrderTypeGrabMart -> length (ppq_SubOrders req) = 1%nat) /\ ppq_SubOrders req <> [] /\
    (chi_OrderType e = OrderTypeGrabMart ->
       Forall (fun so => pso_MerchantID so <> "") (ppq_SubOrders req) /\ sku_list_contract (chi_MainOrderExtendInfos e));
}.

Record precheck_contract (req : PaymentPreCheckRequest) : Prop := {
  precheck_uid : pcq_ExternalReferenceUID req <> "";
  precheck_amounts : forall p, p = pcq_PeriodType req \/ p = inferred_periodType (pcq_PeriodType req) (pcq_SubOrders req) ->
    min_total p <= pcq_TotalAmount req /\
    Forall (fun so => 0 < pso_Amount so -> min_sub_order p <= pso_Amount so) (pcq_SubOrders req);
  precheck_type : forall t, precheck_orderType req = Some t -> t <> "" ->
    PaymentOrderType_IsValid t = true /\ (t <> OrderTypeGrabMart -> (length (pcq_SubOrders req) <= 1)%nat);
  precheck_sum : pcq_SubOrders req <> [] -> Forall (fun so => 0 < pso_Amount so) (pcq_SubOrders req) ->
    i64 (total_of (planSubOrderAmounts (pcq_SubOrders req))) = pcq_TotalAmount req;
}.

Lemma validateAuth_None req : validateAuthRequest req = None <-> auth_contract req.
Proof.
  unfold validateAuthRequest. rewrite reject_id64, !reject_None, try_None, validateCheckoutAmounts_None.
  rewrite (order_None _ _ _ _ (fun _ => _) (fun _ => True)) by (intros e He; rewrite sub_orders_None by done; tauto).
  rewrite is_empty_false, Z.leb_gt. split.
  - intros (Hid & Hu & Ht & (Hmt & Hma) & Ho & Hk). pose proof Ho as (e & He & _).
    destruct (Hk e He) as [_ Hs]. rewrite reject_id64 in Hs. split; tauto.
  - intros [Hid Hu Hm Ha Ho Hs]. split_and!; try done.
    + unfold min_total in Hm. destruct (_ =? 3); lia.
    + intros e _. by rewrite reject_id64.
Qed.

(** * Properties *)

(** C34.  [/auth]'s validator accepts exactly the requests that meet the contract of the
    endpoint: the identifiers' lengths, the tenor's minimums, the shape of the
    sub-orders and SKUs for the order type, the total equal to the [int64] sum of the
    sub-orders, and a session id. *)
Theorem validateAuthRequest_spec req : validateAuthRequest req = None <-> auth_contract req.
Proof. apply validateAuth_None. Qed.

Lemma validateCapture_None req : validateCaptureRequest req = None <-> capture_contract req.
Proof.
  unfold validateCaptureRequest.
  rewrite reject_id64, !reject_None, try_None, validateCaptureReAuthAmounts_None, !is_empty_false, Z.leb_gt.
  rewrite (order_None _ _ _ _ _ (fun e => rei_OrderType e <> OrderTypeTransport ->
    Forall (fun so => so_MerchantName so <> "") (cq_SubOrders req))) by (intros e He; by apply capture_subs_None).
  split; [intros (?&?&?&?&?&?&HQ); split; try tauto; intros e He; by apply HQ|].
  intros []. split_and!; try done. intros e He. split; [eauto|done].
Qed.

Lemma validateReAuth_None req : validateReAuthRequest req = None <-> reauth_contract req.
Proof.
  unfold validateReAuthRequest.
  rewrite !reject_id64, !reject_None, try_None, validateCaptureReAuthAmounts_None, !is_empty_false, Z.leb_gt.
  rewrite (order_None _ _ _ _ _ (fun _ => True)) by (intros e He; rewrite sub_orders_None by done; tauto).
  split; [intros (?&?&?&?&?&?&HQ); split; tauto|]. intros []. by split_and!.
Qed.

Lemma validateVoidAuth_None req : validateVoidAuthRequest req = None <->
  id64 (vq_RequestID req) /\ vq_ExternalReferenceUID req <> "" /\ vq_AuthOrderID req <> "".
Proof. unfold validateVoidAuthRequest. rewrite reject_id64, !reject_None, !is_empty_false. tauto. Qed.

Lemma plan_skus_None t infos : PaymentOrderType_IsValid t = true ->
  validatePlanMainOrderExtendInfos t infos = None <-> (t = OrderTypeGrabMart -> sku_list_contract infos).
Proof.
  intros Ht. unfold validatePlanMainOrderExtendInfos.
  destruct (order_types t Ht) as [->|[->| ->]]; decide_closed; rewrite ?skus_None; naive_solver.
Qed.

Lemma checkout_twice p q total amounts :
  (validateCheckoutAmounts p total amounts = None /\ validateCheckoutAmounts q total amounts = None) <->
  forall r, r = q \/ r = p -> min_total r <= total /\ Forall (fun a => min_sub_order r <= a) amounts.
Proof. rewrite !validateCheckoutAmounts_None. naive_solver. Qed.

Lemma set_amounts_floor p orders :
  Forall (fun a => min_sub_order p <= a) (setPlanSubOrderAmounts orders) <->
  Forall (fun so => 0 < pso_Amount so -> min_sub_order p <= pso_Amount so) orders.
Proof.
  unfold setPlanSubOrderAmounts. rewrite !Forall_forall. setoid_rewrite list_elem_of_In.
  setoid_rewrite List.filter_In. setoid_rewrite in_map_iff. setoid_rewrite Z.gtb_lt. naive_solver.
Qed.

Lemma all_set_spec orders :
  allPlanSubOrderAmountsSet orders = true <-> Forall (fun so => 0 < pso_Amount so) orders.
Proof.
  unfold allPlanSubOrderAmountsSet. rewrite forallb_forall, Forall_forall. setoid_rewrite list_elem_of_In.
  apply forall_proper. intros so. by rewrite negb_true_iff, Z.leb_gt.
Qed.

Lemma plan_mode_None m : PaymentPlanMode_IsValid m = true <-> m = PaymentPlanModeAsk \/ m = PaymentPlanModeGet.
Proof. unfold PaymentPlanMode_IsValid. rewrite bool_decide_eq_true, !elem_of_cons, elem_of_nil. tauto. Qed.

Lemma plan_None req : validatePaymentPlanRequest req = None <-> plan_contract req.
Proof.
  unfold validatePaymentPlanRequest. cbv zeta.
  rewrite reject_id64, !reject_None, !try_None, is_empty_false, negb_false_iff, plan_mode_None, Z.gtb_ltb, Z.ltb_ge, Z.leb_gt.
  set (p := inferred_periodType _ _).
  rewrite (and_assoc (validateCheckoutAmounts p _ _ = None)), checkout_twice.
  unfold planSubOrderAmounts at 1. setoid_rewrite List.Forall_map.
  assert (Htail : forall e, PaymentOrderType_IsValid (chi_OrderType e) = true ->
    (try validatePlanSubOrders (chi_OrderType e) (ppq_SubOrders req) ;;
     reject errSum when negb (sumPlanSubOrderAmount (ppq_SubOrders req) =? ppq_TotalAmount req) ;;
     try validatePlanMainOrderExtendInfos (chi_OrderType e) (chi_MainOrderExtendInfos e) ;;
     reject errMax64 "sessionid" when slen (ppq_Sessionid req) >? 64 ;; None) = None <->
    ((ppq_SubOrders req <> [] /\ (chi_OrderType e <> OrderTypeGrabMart -> length (ppq_SubOrders req) = 1%nat) /\
      Forall (fun so => 0 < pso_Amount so) (ppq_SubOrders req) /\
      (chi_OrderType e = OrderTypeGrabMart -> Forall (fun so => pso_MerchantID so <> "") (ppq_SubOrders req))) /\
     i64 (total_of (planSubOrderAmounts (ppq_SubOrders req))) = ppq_TotalAmount req /\
     (chi_OrderType e = OrderTypeGrabMart -> sku_list_contract (chi_MainOrderExtendInfos e)) /\
     slen (ppq_Sessionid req) <= 64)).
  { intros e He. rewrite !try_None, !reject_None, try_None, reject_None, plan_subs_None, plan_skus_None, negb_false_iff,
      Z.eqb_eq, sumPlanSubOrderAmount_total, Z.gtb_ltb, Z.ltb_ge by done. tauto. }
  split.
  - intros (Hid & Hu & Hm & Hs & Ht & Ha & Ho). destruct (ppq_ExtendInfo req) as [e|] eqn:He; [|done].
    rewrite reject_None, negb_false_iff in Ho. destruct Ho as [Hv Ho]. rewrite Htail in Ho by done.
    destruct Ho as ((?&?&?&?)&?&?&?). split; [done..|]. exists e. split_and!; try done. by auto.
  - intros [Hid Hu Hm [Hs1 Hs2] Ha Hsum (e & -> & Hv & H1 & Hne & HM)]. split_and!; try done.
    + specialize (Ha _ (or_introl eq_refl)) as [Ha _]. unfold min_total in Ha. destruct (_ =? 3); lia.
    + rewrite reject_None, negb_false_iff, Htail by done. specialize (Ha _ (or_introl eq_refl)) as [_ Ha].
      repeat split; try done; try (by apply HM). eapply Forall_impl; [exact Ha|].
      intros so. cbn beta. unfold min_sub_order. destruct (_ =? 3); lia.
Qed.

Lemma precheck_type_None req :
  match precheck_orderType req with
  | Some t =>
      reject errOrderType when negb (is_empty t) && negb (PaymentOrderType_IsValid t) ;;
      reject EValidation "subOrders" ("must contain at most one entry for " +:+ t)
        when bool_decide (t ∈ [OrderTypeGrabFood; OrderTypeTransport]) && (1 <? length (pcq_SubOrders req))%nat ;;
      None
  | None => None
  end = None <->
  forall t, precheck_orderType req = Some t -> t <> "" ->
    PaymentOrderType_IsValid t = true /\ (t <> OrderTypeGrabMart -> (length (pcq_SubOrders req) <= 1)%nat).
Proof.
  destruct (precheck_orderType req) as [t|]; [|naive_solver].
  transitivity (t <> "" -> PaymentOrderType_IsValid t = true /\ (t <> OrderTypeGrabMart -> (length (pcq_SubOrders req) <= 1)%nat));
    [|naive_solver].
  rewrite !reject_None. destruct (decide (t = "")) as [->|Hne]; [decide_closed; naive_solver|].
  rewrite (proj2 (is_empty_false t)) by done. cbn [negb andb]. rewrite negb_false_iff. split.
  - intros (Hv & Hl & _) _. split; [done|]. intros Hm. rewrite andb_false_iff, Nat.ltb_ge in Hl.
    destruct (order_types t Hv) as [->|[->| ->]]; try done; destruct Hl as [Hl|Hl]; try done; by vm_compute in Hl.
  - intros H. destruct (H Hne) as [Hv Hl]. split_and!; [done| |done].
    destruct (order_types t Hv) as [->|[->| ->]]; decide_closed; try done; apply Nat.ltb_ge, Hl; done.
Qed.

Lemma precheck_None req : (validatePaymentPreCheckRequest req).1 = None <-> precheck_contract req.
Proof.
  unfold validatePaymentPreCheckRequest. cbv zeta.
  match goal with |- context [match ?b with Some err => (Some err, req) | None => _ end] => set (before := b) end.
  set (p := inferred_periodType _ _).
  assert (Hb : before = None <-> pcq_ExternalReferenceUID req <> "" /\ 0 < pcq_TotalAmount req /\
     validateCheckoutAmounts (pcq_PeriodType req) (pcq_TotalAmount req) (setPlanSubOrderAmounts (pcq_SubOrders req)) = None /\
     forall t, precheck_orderType req = Some t -> t <> "" ->
       PaymentOrderType_IsValid t = true /\ (t <> OrderTypeGrabMart -> (length (pcq_SubOrders req) <= 1)%nat)).
  { unfold before. rewrite !reject_None, try_None, precheck_type_None, is_empty_false, Z.leb_gt. done. }
  assert (Hs : forall k, (reject errSum when (0 <? length (pcq_SubOrders req))%nat
                 && allPlanSubOrderAmountsSet (pcq_SubOrders req)
                 && negb (sumPlanSubOrderAmount (pcq_SubOrders req) =? pcq_TotalAmount req) ;; k) = None <->
    (pcq_SubOrders req <> [] -> Forall (fun so => 0 < pso_Amount so) (pcq_SubOrders req) ->
     i64 (total_of (planSubOrderAmounts (pcq_SubOrders req))) = pcq_TotalAmount req) /\ k = None).
  { intros k. rewrite reject_None, <- all_set_spec, <- length_nonzero, <- sumPlanSubOrderAmount_total. apply and_cong; [|done].
    rewrite !andb_false_iff, negb_false_iff, Z.eqb_eq, Nat.ltb_ge. destruct (allPlanSubOrderAmountsSet _); [|naive_solver].
    destruct (Nat.eq_dec (length (pcq_SubOrders req)) 0); intuition lia. }
  transitivity (before = None /\ validateCheckoutAmounts p (pcq_TotalAmount req) (setPlanSubOrderAmounts (pcq_SubOrders req)) = None /\
    (pcq_SubOrders req <> [] -> Forall (fun so => 0 < pso_Amount so) (pcq_SubOrders req) ->
     i64 (total_of (planSubOrderAmounts (pcq_SubOrders req))) = pcq_TotalAmount req)).
  { destruct before as [err|]; [naive_solver|]. cbn [fst set_PeriodType pcq_PeriodType pcq_TotalAmount pcq_SubOrders].
    rewrite try_None, Hs. naive_solver. }
  rewrite Hb, !validateCheckoutAmounts_None, !set_amounts_floor. split.
  - intros ((Hu & Ht & H1 & Hty) & H2 & Hsum). split; try done. intros q [->| ->]; done.
  - intros [Hu Ha Hty Hsum]. pose proof (Ha _ (or_introl eq_refl)). pose proof (Ha p (or_intror eq_refl)).
    split_and!; try done; try tauto. unfold min_total in *. destruct (pcq_PeriodType req =? 3); lia.
Qed.

(** C35.  The other validators of the package accept exactly the requests that meet the
    contract of their endpoint.  [/capture] and [/reAuth]: the contract of [/auth] with a
    minimum of one unit per instalment instead of the checkout minimums, without a session
    id, with the authorization's id, and with merchant names on a food or mart capture;
    [/voidAuth]: the ids.  [/payment-plan] and [/payment-precheck]: a pre-check may leave
    amounts out, and is then held to the minimums and the sum only as far as it states
    amounts; the tenor is the request's own or, when that is 0, its first sub-order's,
    which an accepted pre-check records. *)
Theorem payment_validators_spec :
  (forall req, validateCaptureRequest req = None <-> capture_contract req) /\
  (forall req, validateReAuthRequest req = None <-> reauth_contract req) /\
  (forall req, validateVoidAuthRequest req = None <->
     id64 (vq_RequestID req) /\ vq_ExternalReferenceUID req <> "" /\ vq_AuthOrderID req <> "") /\
  (forall req, validatePaymentPlanRequest req = None <-> plan_contract req) /\
  (forall req, (validatePaymentPreCheckRequest req).1 = None <-> precheck_contract req) /\
  (forall req, precheck_contract req -> (validatePaymentPreCheckRequest req).2 =
     set_PeriodType (inferred_periodType (pcq_PeriodType req) (pcq_SubOrders req)) req).
Proof.
  split_and!; [apply validateCapture_None|apply validateReAuth_None|apply validateVoidAuth_None|apply plan_None|
    apply precheck_None|]. intros req Hc%precheck_None.
  unfold validatePaymentPreCheckRequest in *. cbv zeta in *.
  match goal with |- context [match ?b with Some _ => _ | None => _ end] => destruct b end; done.
Qed.

Lemma total_of_nonneg amounts : Forall (fun a => 0 < a) amounts -> 0 <= total_of amounts.
Proof. induction 1; cbn [total_of foldr]; [lia|]. fold (total_of l). lia. Qed.

Lemma order_total extendInfo orders total :
  Forall (fun so => in_int64 (so_Amount so)) orders ->
  order_contract extendInfo orders total ->
  total = total_of (subOrderAmounts orders) \/
  (exists e, extendInfo = Some e /\ rei_OrderType e = OrderTypeGrabMart) /\
  int64_max < total_of (subOrderAmounts orders) /\
  exists k, 0 < k /\ total_of (subOrderAmounts orders) = total + k * 2 ^ 64.
Proof.
  intros Hint (e & He & Ht & (Hne & H1 & Hpos & _) & Hsum & _).
  assert (Hn : 0 <= total_of (subOrderAmounts orders)) by (by apply total_of_nonneg, List.Forall_map).
  destruct (Z.le_gt_cases (total_of (subOrderAmounts orders)) int64_max) as [Hle|Hgt].
  - left. rewrite <- Hsum. apply i64_id. unfold in_int64, int64_min in *. lia.
  - right. split; [|split; [lia|]].
    + exists e. split; [done|]. destruct (decide (rei_OrderType e = OrderTypeGrabMart)) as [|Hm]; [done|].
      specialize (H1 Hm). destruct orders as [|so [|]]; [done| |by discriminate H1]. rewrite Forall_singleton in Hint.
      cbn in Hgt. destruct Hint as [_ Hint]. lia.
    + unfold i64, int64_max in *.
      exists ((total_of (subOrderAmounts orders) + 2 ^ 63) / 2 ^ 64).
      pose proof (Z.div_mod (total_of (subOrderAmounts orders) + 2 ^ 63) (2 ^ 64) ltac:(lia)).
      assert (1 <= (total_of (subOrderAmounts orders) + 2 ^ 63) / 2 ^ 64) by (apply Z.div_le_lower_bound; lia). lia.
Qed.

(** An order that [/auth], [/capture] or [/reAuth] lets through. *)
Inductive accepted : option RequestExtendInfo -> list SubOrder -> Amount -> Prop :=
| accepted_auth req : validateAuthRequest req = None ->
    accepted (aq_ExtendInfo req) (aq_SubOrders req) (aq_TotalAmount req)
| accepted_capture req : validateCaptureRequest req = None ->
    accepted (cq_ExtendInfo req) (cq_SubOrders req) (cq_TotalAmount req)
| accepted_reauth req : validateReAuthRequest req = None ->
    accepted (rq_ExtendInfo req) (rq_SubOrders req) (rq_TotalAmount req).

(** C36.  The total of an accepted order is the sum of its sub-orders, in exact
    arithmetic, as long as that sum is an [int64]; for a transport or food order, always.
    Beyond, only a mart order can be accepted, with a total off by a multiple of 2^64. *)
Theorem accepted_total extendInfo orders total :
  accepted extendInfo orders total ->
  Forall (fun so => in_int64 (so_Amount so)) orders ->
  total = total_of (subOrderAmounts orders) \/
  (exists e, extendInfo = Some e /\ rei_OrderType e = OrderTypeGrabMart) /\
  int64_max < total_of (subOrderAmounts orders) /\
  exists k, 0 < k /\ total_of (subOrderAmounts orders) = total + k * 2 ^ 64.
Proof.
  intros Ha Hint. apply (order_total extendInfo); [done|].
  destruct Ha as [req H|req H|req H]; [by apply validateAuth_None in H as []|by apply validateCapture_None in H as []|
    by apply validateReAuth_None in H as []].
Qed.

(** A mart order of three sub-orders whose total wraps around. *)
Definition wrapping_order : AuthRequest :=
  let so n := mkSubOrder "s" "m" "" "" "" n None in
  mkAuthRequest "r" "u" 1 1 [so (2 ^ 63 - 1); so (2 ^ 63 - 1); so 3]
    (Some (mkRequestExtendInfo OrderTypeGrabMart "" None None None
       [mkMainOrderExtendInfo "m" "" [mkSkuInfo "k" "" "" "" [] 1 1]])) "sid".

Example wrapping_order_accepted : validateAuthRequest wrapping_order = None.
Proof. vm_compute. reflexivity. Qed.

Lemma accepted_total_witness :
  1 = total_of [2 ^ 63 - 1; 2 ^ 63 - 1; 3] \/
  (exists e, aq_ExtendInfo wrapping_order = Some e /\ rei_OrderType e = OrderTypeGrabMart) /\
  int64_max < total_of [2 ^ 63 - 1; 2 ^ 63 - 1; 3] /\
  exists k, 0 < k /\ total_of [2 ^ 63 - 1; 2 ^ 63 - 1; 3] = 1 + k * 2 ^ 64.
Proof.
  apply (accepted_total (aq_ExtendInfo wrapping_order) (aq_SubOrders wrapping_order) 1).
  - exact (accepted_auth wrapping_order wrapping_order_accepted).
  - repeat constructor; vm_compute; discriminate.
Defined.
