(* ===== verification/Payment.v ===== *)
(** * Payment: the calls of [atomefin/payment].

    [Auth], [Capture], [ReAuth], [VoidAuth], [PaymentPlan] and [PaymentPreCheck] submit a
    request; [QueryAuth], [QueryCapture], [QueryVoidAuth] and [QueryReAuth] fetch. *)
From S2P Require Import Prelude GoStd Errors Canonical GoCrypto Sign GoHttp Json Codec Schema Transport World.
From S2P Require Import Client Doer Service PaymentTypes PaymentRules.

Section Payment.
Context {R : RSA} {E : Env} {FC : FloatConv}.

Definition checkConfigured : option Service -> option error :=
  check_service
    "nil *payment.Service (likely from payment.New(nil) — check the *atomefin.Client returned by atomefin.New)"
    "*payment.Service has nil *atomefin.Client".

(** [invoke]; the callers' requests and results are never nil. *)
Definition invoke {I O} (ci : codec I) (co : codec O) (s : option Service) (ctx : context) (op : string)
    (req : option I) (opts : list (option extraHeaderOpt)) : M (res O) :=
  match Service_Client s with
  | None => ret (Err (ENew "atomefin/payment: nil Service or Client"))
  | Some c =>
      match req with
      | None => ret (Err (EValidation "request" "nil request"))
      | Some req => post ci co c ctx op req opts
      end
  end.

Definition invokeGET {O} (co : codec O) (s : option Service) (ctx : context) (op : string) (q : Values) : M (res O) :=
  match Service_Client s with
  | None => ret (Err (ENew "atome-fin/payment: nil Service or Client"))
  | Some c => get co c ctx op q
  end.

(** A validator that leaves the request alone. *)
Definition pure_check {I} (validate : I -> option error) (req : I) : option error * I := (validate req, req).

Definition sessionid_header (sessionid : string) : list (option extraHeaderOpt) :=
  if is_empty sessionid then [] else [Some (WithRequestHeader "sessionid" sessionid)].

(** ** [/auth] *)

Definition set_aq_RequestID (id : string) (q : AuthRequest) : AuthRequest :=
  mkAuthRequest id (aq_ExternalReferenceUID q) (aq_TotalAmount q) (aq_PeriodType q) (aq_SubOrders q)
    (aq_ExtendInfo q) (aq_Sessionid q).

Definition Auth (s : option Service) (ctx : context) : option AuthRequest -> M (res AuthResponse * option AuthRequest) :=
  submit checkConfigured "nil AuthRequest" aq_RequestID set_aq_RequestID (pure_check validateAuthRequest)
    (fun _ req => invoke AuthRequest_json AuthResponse_json s ctx "/auth" (Some req)
                    (sessionid_header (aq_Sessionid req))) s.

(** ** [/capture] *)

Definition set_cq_RequestID (id : string) (q : CaptureRequest) : CaptureRequest :=
  mkCaptureRequest id (cq_ExternalReferenceUID q) (cq_AuthOrderID q) (cq_TotalAmount q) (cq_PeriodType q)
    (cq_SubOrders q) (cq_ExtendInfo q).

Definition Capture (s : option Service) (ctx : context)
    : option CaptureRequest -> M (res CaptureResponse * option CaptureRequest) :=
  submit checkConfigured "nil CaptureRequest" cq_RequestID set_cq_RequestID (pure_check validateCaptureRequest)
    (fun _ req => invoke CaptureRequest_json CaptureResponse_json s ctx "/capture" (Some req) []) s.

(** ** [/reAuth] and [/voidAuth] *)

Definition set_rq_RequestID (id : string) (q : ReAuthRequest) : ReAuthRequest :=
  mkReAuthRequest id (rq_ExternalReferenceUID q) (rq_AuthOrderID q) (rq_TotalAmount q) (rq_PeriodType q)
    (rq_SubOrders q) (rq_ExtendInfo q).

Definition ReAuth (s : option Service) (ctx : context)
    : option ReAuthRequest -> M (res ReAuthResponse * option ReAuthRequest) :=
  submit checkConfigured "nil ReAuthRequest" rq_RequestID set_rq_RequestID (pure_check validateReAuthRequest)
    (fun _ req => invoke ReAuthRequest_json ReAuthResponse_json s ctx "/reAuth" (Some req) []) s.

Definition set_vq_RequestID (id : string) (q : VoidAuthRequest) : VoidAuthRequest :=
  mkVoidAuthRequest id (vq_ExternalReferenceUID q) (vq_AuthOrderID q).

Definition VoidAuth (s : option Service) (ctx : context)
    : option VoidAuthRequest -> M (res VoidAuthResponse * option VoidAuthRequest) :=
  submit checkConfigured "nil VoidAuthRequest" vq_RequestID set_vq_RequestID (pure_check validateVoidAuthRequest)
    (fun _ req => invoke VoidAuthRequest_json VoidAuthResponse_json s ctx "/voidAuth" (Some req) []) s.

(** ** [/payment-plan] and [/payment-precheck] *)

Definition set_ppq_RequestID (id : string) (q : PaymentPlanRequest) : PaymentPlanRequest :=
  mkPaymentPlanRequest id (ppq_PeriodType q) (ppq_ExternalReferenceUID q) (ppq_Mode q) (ppq_SessionID q)
    (ppq_TotalAmount q) (ppq_SubOrders q) (ppq_ExtendInfo q) (ppq_Sessionid q).

Definition PaymentPlan (s : option Service) (ctx : context)
    : option PaymentPlanRequest -> M (res PaymentPlanResponse * option PaymentPlanRequest) :=
  submit checkConfigured "nil PaymentPlanRequest" ppq_RequestID set_ppq_RequestID (pure_check validatePaymentPlanRequest)
    (fun c req => post PaymentPlanRequest_json PaymentPlanResponse_json c ctx "/payment-plan" req
                    (sessionid_header (ppq_Sessionid req))) s.

Definition set_pcq_RequestID (id : string) (q : PaymentPreCheckRequest) : PaymentPreCheckRequest :=
  mkPaymentPreCheckRequest (pcq_ExternalReferenceUID q) (pcq_TotalAmount q) (pcq_SubOrders q) (pcq_ExtendInfo q)
    id (pcq_PeriodType q).

Definition PaymentPreCheck (s : option Service) (ctx : context)
    : option PaymentPreCheckRequest -> M (res PaymentPreCheckResponse * option PaymentPreCheckRequest) :=
  submit checkConfigured "nil PaymentPreCheckRequest" pcq_RequestID set_pcq_RequestID validatePaymentPreCheckRequest
    (fun c req => post PaymentPreCheckRequest_json PaymentPreCheckResponse_json c ctx "/payment-precheck" req []) s.

(** ** Queries *)

Definition query_by_id (requestID externalReferenceUID : string) : Values :=
  {[ "requestId" := [requestID]; "externalReferenceUid" := [externalReferenceUID] ]}.

Definition query {O} (co : codec O) (op : string) (s : option Service) (ctx : context)
    (requestID externalReferenceUID : string) : M (res O) :=
  fetch checkConfigured (validateQueryParams requestID externalReferenceUID)
    (fun _ => invokeGET co s ctx op (query_by_id requestID externalReferenceUID)) s.

Definition QueryAuth := query AuthResponse_json "/query-auth".
Definition QueryCapture := query CaptureResponse_json "/query-capture".
Definition QueryVoidAuth := query VoidAuthResponse_json "/query-voidAuth".
Definition QueryReAuth := query ReAuthResponse_json "/query-reAuth".

(** * Properties *)

Lemma invoke_posted {I O} (ci : codec I) (co : codec O) c ctx op q opts :
  client_ready c -> bad_path op = false ->
  extends (invoke ci co (Some (mkService (Some c))) ctx op (Some q) opts) (posted co c op (json_print (c_enc ci q)) opts).
Proof. apply post_posted. Qed.

End Payment.

Abbreviation service_of c := (Some (mkService (Some c))).

Section Calls.
Context {R : RSA} {E : Env} {FC : FloatConv}.

(** C8.  Every submitting call refines [submitted]: a request without an id gets one,
    which is handed back; a request the validator rejects is neither signed nor sent; any
    other is posted to its endpoint as the JSON encoding of the request handed back, with
    the session header where there is one, through the retry pipeline; and the response
    is the decoded body of the answer. *)
Theorem payment_calls_refine c ctx :
  client_ready c ->
  (forall q, extends (Auth (service_of c) ctx (Some q))
    (submitted AuthRequest_json AuthResponse_json c "/auth" aq_RequestID set_aq_RequestID
       (pure_check validateAuthRequest) (fun q => sessionid_header (aq_Sessionid q)) q)) /\
  (forall q, extends (Capture (service_of c) ctx (Some q))
    (submitted CaptureRequest_json CaptureResponse_json c "/capture" cq_RequestID set_cq_RequestID
       (pure_check validateCaptureRequest) (fun _ => []) q)) /\
  (forall q, extends (ReAuth (service_of c) ctx (Some q))
    (submitted ReAuthRequest_json ReAuthResponse_json c "/reAuth" rq_RequestID set_rq_RequestID
       (pure_check validateReAuthRequest) (fun _ => []) q)) /\
  (forall q, extends (VoidAuth (service_of c) ctx (Some q))
    (submitted VoidAuthRequest_json VoidAuthResponse_json c "/voidAuth" vq_RequestID set_vq_RequestID
       (pure_check validateVoidAuthRequest) (fun _ => []) q)) /\
  (forall q, extends (PaymentPlan (service_of c) ctx (Some q))
    (submitted PaymentPlanRequest_json PaymentPlanResponse_json c "/payment-plan" ppq_RequestID set_ppq_RequestID
       (pure_check validatePaymentPlanRequest) (fun q => sessionid_header (ppq_Sessionid q)) q)) /\
  (forall q, extends (PaymentPreCheck (service_of c) ctx (Some q))
    (submitted PaymentPreCheckRequest_json PaymentPreCheckResponse_json c "/payment-precheck" pcq_RequestID
       set_pcq_RequestID validatePaymentPreCheckRequest (fun _ => []) q)).
Proof.
  intros Hc. split_and!; intros req; apply submit_submitted; try reflexivity; intros q;
    first [by apply invoke_posted|by apply post_posted].
Qed.

(** ** Consequences for [/auth] *)

(** The bytes of a request as the gateway decodes them. *)
Lemma auth_body_parses q :
  c_ok AuthRequest_json q = true -> json_parse (json_print (c_enc AuthRequest_json q)) = Some (c_enc AuthRequest_json q).
Proof.
  intros Hok. destruct (marshal_parses AuthRequest_json q Hok) as (b & Hb & Hp).
  - apply (bool_decide_unpack _). vm_compute. exact I.
  - unfold marshal in Hb. rewrite MarshalSigning_print in Hb. by injection Hb as <-.
Qed.

(** What [/auth] may put on the wire for the request [q] it hands back. *)
Definition auth_wire (q : AuthRequest) (req : http_request) : Prop :=
  auth_contract q /\ rq_Method req = "POST" /\ Header_Get (rq_Header req) "sessionid" = aq_Sessionid q /\
  rq_Body req = Some (json_print (c_enc AuthRequest_json q)) /\
  (c_ok AuthRequest_json q = true ->
     json_parse (json_print (c_enc AuthRequest_json q)) = Some (c_enc AuthRequest_json q)).

(** What [/auth] does, as seen from outside. *)
Definition auth_observed (c : Client) (req : AuthRequest) (i : nat) (out : res AuthResponse * option AuthRequest)
    (es : list event) : Prop :=
  exists q, out.2 = Some q /\
    (if is_empty (aq_RequestID req) then exists id, q = set_aq_RequestID id req else q = req) /\
    Forall (fun x => auth_wire q x.1) (exchanges i es) /\
    (length (signed es) <= 1)%nat /\
    (forall resp, out.1 = Ok resp ->
       exists pre rq rs body, exchanges i es = pre ++ [(rq, Ok rs)] /\ rs_StatusCode rs < 400 /\
         readAndClose rs (c_maxRespBytes c) = (body, None) /\ unmarshal AuthResponse_json body = Some resp).

Lemma Auth_observed c ctx req :
  client_ready c -> extends (Auth (service_of c) ctx (Some req)) (auth_observed c req).
Proof.
  intros Hc. eapply extends_mono.
  { apply (submit_submitted AuthRequest_json AuthResponse_json _ _ aq_RequestID set_aq_RequestID
      (pure_check validateAuthRequest) _ c "/auth" (fun q => sessionid_header (aq_Sessionid q)) req eq_refl).
    intros q. by apply invoke_posted. }
  intros i out es (q & ids & es' & -> & Hq & Hout & Hrest). cbn [pure_check fst snd] in *.
  assert (Hids : silent ids).
  { destruct (is_empty _); [destruct Hq as (id & _ & ->)|destruct Hq as [_ ->]]; done. }
  assert (Hx : exchanges i (ids ++ es') = exchanges (i + length ids) es').
  { rewrite exchanges_app, (proj1 Hids). destruct (is_empty _); [destruct Hq as (id & _ & ->)|destruct Hq as [_ ->]]; done. }
  exists q. rewrite Hx, signed_app, (proj2 Hids). cbn [app].
  split; [done|]. split.
  { destruct (is_empty _); [destruct Hq as (id & -> & _); eauto|apply Hq]. }
  destruct (validateAuthRequest q) as [err|] eqn:Ev.
  - destruct Hrest as [-> ->]. split_and!; [done|simpl; lia|done].
  - destruct (called_requests _ _ _ _ _ _ _ _ _ Hrest) as [Hs (authValue & Hreq)].
    rewrite Hs. split_and!; [|simpl; lia|].
    + eapply Forall_impl; [exact Hreq|]. intros [rq x] (Hm & _ & _ & Hb & Hh). cbn [fst pl_Method pl_Body] in *.
      apply validateAuth_None in Ev as Hcon. split; [done|]. split; [done|]. split.
      * rewrite Hh. unfold sessionid_header. rewrite (proj2 (is_empty_false _)) by (apply id64_spec, Hcon).
        by apply (extra_header c authValue [] "sessionid").
      * split; [exact Hb|apply auth_body_parses].
    + intros resp Hr. rewrite Hr in Hrest. by eapply called_ok.
Qed.

(** C7.  [/auth] end to end.  Whatever the network and the contexts do, every request that
    leaves meets the contract of the endpoint, and its body and session header are those
    of the request handed back, which is the caller's own when that has an id; the body
    parses to the request's encoding; all of it is signed once.  A response the caller gets is the
    decoding of the last answer, of status below 400. *)
Theorem auth_sends_contract c ctx req :
  client_ready c -> extends (Auth (service_of c) ctx (Some req)) (auth_observed c req).
Proof. apply Auth_observed. Qed.

End Calls.

#[local] Existing Instance toy_env.

Lemma payment_calls_refine_witness :
  extends (@VoidAuth toy_RSA toy_env amd64_conv (service_of toy_client) Background (Some (mkVoidAuthRequest "r" "u" "a")))
    (submitted VoidAuthRequest_json VoidAuthResponse_json toy_client "/voidAuth" vq_RequestID set_vq_RequestID
       (pure_check validateVoidAuthRequest) (fun _ => []) (mkVoidAuthRequest "r" "u" "a")).
Proof.
  exact (proj1 (proj2 (proj2 (proj2 (@payment_calls_refine toy_RSA toy_env amd64_conv toy_client Background toy_ready))))
    (mkVoidAuthRequest "r" "u" "a")).
Defined.


Definition toy_auth : AuthRequest :=
  mkAuthRequest "r" "u" 500 1 [mkSubOrder "" "" "" "" "" 500 None]
    (Some (mkRequestExtendInfo OrderTypeTransport "" None None None [])) "sid".

Lemma auth_sends_contract_witness :
  extends (@Auth toy_RSA toy_env amd64_conv (service_of toy_client) Background (Some toy_auth))
    (auth_observed toy_client toy_auth).
Proof. exact (@auth_sends_contract toy_RSA toy_env amd64_conv toy_client Background toy_auth toy_ready). Defined.

(** The hypotheses are met and the call succeeds. *)
Example toy_auth_runs :
  c_ok AuthRequest_json toy_auth = true /\
  is_ok (@Auth toy_RSA toy_env amd64_conv (service_of toy_client) Background (Some toy_auth) (mkWorld 0 [])).1.1 = true.
Proof. split; vm_compute; reflexivity. Qed.
