(* ===== verification/Polling.v ===== *)
(** * Polling: [pollUntilTerminal] ([atomefin/payment/payment.go]) and its wrappers.

    The loop calls a closure until its response is terminal, rejected or failed, or a
    context ends.  The closure may mutate what it captures, so its state is threaded
    ([St]); the wrappers' closures capture the request. *)
From S2P Require Import Prelude GoStd Errors Canonical GoCrypto Sign GoHttp Json Codec Schema Transport World.
From S2P Require Import Client Doer Service PaymentTypes PaymentRules Payment.

Record PollOptions := mkPollOptions { MaxWait : Z; InitialDelay : Z; MaxDelay : Z; Multiplier : float64 }.

Definition withDefaults (p : PollOptions) : PollOptions :=
  mkPollOptions
    (if MaxWait p <=? 0 then 30 * Second else MaxWait p)
    (if InitialDelay p <=? 0 then 250 * Millisecond else InitialDelay p)
    (if MaxDelay p <=? 0 then 8 * Second else MaxDelay p)
    (if flt (Multiplier p) (f64 1) then f64 2 else Multiplier p).

(** [Duration.Round(time.Millisecond)] of a duration that is not negative. *)
Definition round_ms (d : Z) : Z := (d + Millisecond / 2) / Millisecond * Millisecond.

Definition IsSyncRejection (code : Code) (status : Status) : bool :=
  negb (is_empty code) && negb (Code_IsSuccess code) && is_empty status.

Record PollTrace (T : Type) := mkPollTrace {
  pt_Logger : bool;                              (* not nil *)
  pt_Op : string;
  pt_RequestID : string;
  pt_Code : option (T -> Code * string);
}.
Arguments mkPollTrace {T}.
Arguments pt_Logger {T}.
Arguments pt_Op {T}.
Arguments pt_RequestID {T}.
Arguments pt_Code {T}.

Section Polling.
Context {E : Env} {FC : FloatConv}.

(** [sleepWithCtx] *)
Definition sleepWithCtx (ctx : context) (d : Z) : M (option error) :=
  if d <=? 0 then ret None else timer_or_done ctx d.

Context {T St : Type}.
Variables (ctx : context) (opts : PollOptions) (trace : PollTrace T).
Variable getStatus : T -> Status.
Variable getRejection : option (option T -> option (Code * string)).
Variable once : context -> St -> M ((option T * option error) * St).
(** [context.Cause] of the caller's context, where it is another error than [ctx.Err()]. *)
Variable cause : option error.

Definition logged (level msg : string) (kv : list any) : M unit :=
  if pt_Logger trace then log level msg kv else ret tt.

(** The key-value pairs of a log line. *)
Definition fields (start round : Z) (resp : option T) (extra : list any) : M (list any) :=
  let! t := get_now in
  let kv := [VString "op"; VString (pt_Op trace); VString "request_id"; VString (pt_RequestID trace);
             VString "round"; VInt round; VString "elapsed"; VInt (t - start)] in
  let kv := match resp with
            | Some r =>
                kv ++ [VString "status"; VString (getStatus r)] ++
                match pt_Code trace with
                | Some code => let '(code, message) := code r in
                               [VString "code"; VString code; VString "message"; VString message]
                | None => []
                end
            | None => kv
            end in
  ret (kv ++ extra).

Definition report (level msg : string) (start round : Z) (resp : option T) (extra : list any) : M unit :=
  let! kv := fields start round resp extra in
  logged level msg kv.

Definition target : string := if is_empty (pt_Op trace) then "payment.PollUntilTerminal" else pt_Op trace.

(** [context.WithTimeout(ctx, o.MaxWait)] *)
Definition poll_context (start : Z) : context := WithTimeout ctx start (MaxWait (withDefaults opts)).

Definition pollError (start round : Z) (lastResp : option T) : M error :=
  let! t := get_now in
  match ctx_Err ctx t with
  | Some err =>
      let! _ := report "WARN" "atomefin: poll stopped" start round lastResp
                  [VString "reason"; VString "parent_context_done"; VString "err"; VErr err] in
      let! t := get_now in
      let wrapped := EErrorf
        "caller context done after %d round(s), %v elapsed (cancelled or deadlined outside the SDK): %w"
        [AInt round; AInt (round_ms (t - start)); AWrap err] in
      let wrapped := match cause with
                     | Some cause => EErrorf "%w (cause: %w)" [AWrap wrapped; AWrap cause]
                     | None => wrapped
                     end in
      ret (ETransport "poll" target (Some wrapped) false)
  | None =>
      let max_wait := MaxWait (withDefaults opts) in
      let! _ := report "WARN" "atomefin: poll stopped" start round lastResp
                  [VString "reason"; VString "max_wait_exceeded"; VString "max_wait"; VInt max_wait] in
      let! t := get_now in
      ret (ETransport "poll" target (Some (EErrorf "max wait %v exceeded: %w"
             (AInt max_wait :: match ctx_Err (poll_context start) t with Some e => [AWrap e] | None => [] end))) false)
  end.

(** [time.Duration(float64(delay) * o.Multiplier)], capped. *)
Definition next_delay (delay : Z) : Z :=
  let next := f64_to_int64 (fmul (f64 delay) (Multiplier (withDefaults opts))) in
  if next >? MaxDelay (withDefaults opts) then MaxDelay (withDefaults opts) else next.

Definition terminal (resp : option T) : bool :=
  match resp with Some r => Status_IsTerminal (getStatus r) | None => false end.

Definition rejection (resp : option T) : option (Code * string) :=
  match getRejection with Some f => f resp | None => None end.

(** One iteration of the loop; [inr]: go on, with the last response and the next delay. *)
Definition poll_round (start round : Z) (lastResp : option T) (delay : Z) (st : St)
    : M ((option T * option error) * St + (option T * Z * St)) :=
  let pollCtx := poll_context start in
  let! t := get_now in
  if bool_decide (is_Some (ctx_Err pollCtx t)) then
    let! err := pollError start (round - 1) lastResp in
    ret (inl ((lastResp, Some err), st))
  else
    let! (resp, err, st) := once pollCtx st in
    let! t := get_now in
    if bool_decide (is_Some (ctx_Err pollCtx t)) then
      let lastResp := match resp with Some _ => resp | None => lastResp end in
      let! err := pollError start round lastResp in
      ret (inl ((lastResp, Some err), st))
    else match err with
    | Some err =>
        let! _ := report "WARN" "atomefin: poll stopped" start round None
                    [VString "reason"; VString "request_error"; VString "err"; VErr err] in
        ret (inl ((None, Some err), st))
    | None =>
        if terminal resp then
          let! _ := report "INFO" "atomefin: poll finished" start round resp [VString "reason"; VString "terminal"] in
          ret (inl ((resp, None), st))
        else match rejection resp with
        | Some (code, message) =>
            let! _ := report "WARN" "atomefin: poll stopped" start round resp
                        [VString "reason"; VString "business_rejection"] in
            ret (inl ((None, Some (EBusinessRejection code message)), st))
        | None =>
            let! _ := report "DEBUG" "atomefin: poll round" start round resp [VString "next_delay"; VInt delay] in
            let! sleepErr := sleepWithCtx pollCtx delay in
            match sleepErr with
            | Some _ =>
                let! err := pollError start round resp in
                ret (inl ((resp, Some err), st))
            | None => ret (inr (resp, next_delay delay, st))
            end
        end
    end.

(** The [for] loop.  [None]: more than [fuel] rounds. *)
Fixpoint poll_loop (fuel : nat) (start round : Z) (lastResp : option T) (delay : Z) (st : St)
    : M (option ((option T * option error) * St)) :=
  match fuel with
  | O => ret None
  | S fuel =>
      let! r := poll_round start (round + 1) lastResp delay st in
      match r with
      | inl r => ret (Some r)
      | inr (resp, delay, st) => poll_loop fuel start (round + 1) resp delay st
      end
  end.

Definition pollUntilTerminal (fuel : nat) (st : St)
    : M (option ((option T * option error) * St)) :=
  let! start := get_now in
  poll_loop fuel start 0 None (InitialDelay (withDefaults opts)) st.

End Polling.

(** ** The exported forms *)

Definition IsTerminal (s : Status) : bool := Status_IsTerminal s.
Definition IsProcessing (s : Status) : bool := bool_decide (s = StatusProcessing).

Definition PollUntilTerminal {E : Env} {FC : FloatConv} {T St : Type} (ctx : context) (opts : PollOptions)
    (getStatus : T -> Status) (once : context -> St -> M ((option T * option error) * St)) (cause : option error)
    (fuel : nat) (st : St) : M (option ((option T * option error) * St)) :=
  pollUntilTerminal ctx opts (mkPollTrace false "" "" None) getStatus None once cause fuel st.

Definition PollUntilTerminalOrRejected {E : Env} {FC : FloatConv} {T St : Type} (ctx : context) (opts : PollOptions)
    (trace : PollTrace T) (getStatus : T -> Status) (getRejection : option (option T -> option (Code * string)))
    (once : context -> St -> M ((option T * option error) * St)) (cause : option error)
    (fuel : nat) (st : St) : M (option ((option T * option error) * St)) :=
  pollUntilTerminal ctx opts trace getStatus getRejection once cause fuel st.

(** ** How a loop may end *)

Section Outcome.
Context {E : Env} {FC : FloatConv}.
Context {T St : Type}.
Variables (ctx : context) (opts : PollOptions) (trace : PollTrace T).
Variable getStatus : T -> Status.
Variable getRejection : option (option T -> option (Code * string)).
Variable once : context -> St -> M ((option T * option error) * St).
Variable cause : option error.

Abbreviation report := (report trace getStatus).
Abbreviation poll_context := (poll_context ctx opts).
Abbreviation target := (target trace).
Abbreviation terminal := (terminal getStatus).
Abbreviation rejection := (rejection getRejection).
Abbreviation pollError := (pollError ctx opts trace getStatus cause).
Abbreviation poll_round := (poll_round ctx opts trace getStatus getRejection once cause).
Abbreviation poll_loop := (poll_loop ctx opts trace getStatus getRejection once cause).

(** [once] answered [resp] in time. *)
Definition answered (start : Z) (resp : option T) (err : option error) : Prop :=
  exists st w1 st' w2, once (poll_context start) st w1 = (((resp, err), st'), w2) /\
    ctx_Err (poll_context start) (now w2) = None.

(** [t]: the instant at which it ended. *)
Inductive poll_outcome (start t : Z) : option T * option error -> Prop :=
| poll_terminal resp :
    answered start (Some resp) None -> Status_IsTerminal (getStatus resp) = true ->
    poll_outcome start t (Some resp, None)
| poll_rejected resp code message :
    answered start resp None -> terminal resp = false -> rejection resp = Some (code, message) ->
    poll_outcome start t (None, Some (EBusinessRejection code message))
| poll_failed resp err :
    answered start resp (Some err) -> poll_outcome start t (None, Some err)
| poll_caller_done resp err wrapped :
    ctx_Err ctx t = Some err -> (forall s, errors_Is err s = true -> errors_Is wrapped s = true) ->
    poll_outcome start t (resp, Some (ETransport "poll" target (Some wrapped) false))
| poll_max_wait resp wrapped :
    start + MaxWait (withDefaults opts) <= t -> errors_Is wrapped DeadlineExceeded = true ->
    poll_outcome start t (resp, Some (ETransport "poll" target (Some wrapped) false)).

(** ** Lemmas *)

Lemma report_time level msg start round resp extra w :
  now w <= now (report level msg start round resp extra w).2.
Proof. unfold report, logged, fields. cbn. destruct (pt_Logger trace); cbn; lia. Qed.

Lemma poll_context_done start t :
  ctx_Err (poll_context start) t = None -> t < start + MaxWait (withDefaults opts).
Proof.
  unfold poll_context, WithTimeout, ctx_Err. destruct (ctx_done ctx) as [[u e]|] eqn:Ed.
  - destruct (Z.leb_spec u (start + MaxWait (withDefaults opts))) as [Hl|Hl].
    + rewrite Ed. destruct (Z.leb_spec u t); [done|lia].
    + cbn [ctx_done]. destruct (Z.leb_spec (start + MaxWait (withDefaults opts)) t); [done|lia].
  - cbn [ctx_done]. destruct (Z.leb_spec (start + MaxWait (withDefaults opts)) t); [done|lia].
Qed.

(** The poll context ends with the caller's, or at the budget. *)
Lemma poll_context_cases start t err :
  ctx_Err (poll_context start) t = Some err ->
  ctx_Err ctx t = Some err \/
  (start + MaxWait (withDefaults opts) <= t /\
   forall t', t <= t' -> ctx_Err (poll_context start) t' = Some (ESentinel DeadlineExceeded)).
Proof.
  unfold poll_context, WithTimeout. destruct (ctx_done ctx) as [[u e]|] eqn:Ed.
  - destruct (Z.leb_spec u (start + MaxWait (withDefaults opts))); [by left|right].
    unfold ctx_Err in *. cbn [ctx_done] in *.
    destruct (Z.leb_spec (start + MaxWait (withDefaults opts)) t); [|done].
    split; [lia|]. intros t' Ht. destruct (Z.leb_spec (start + MaxWait (withDefaults opts)) t'); [done|lia].
  - right. unfold ctx_Err in *. cbn [ctx_done] in *.
    destruct (Z.leb_spec (start + MaxWait (withDefaults opts)) t); [|done].
    split; [lia|]. intros t' Ht. destruct (Z.leb_spec (start + MaxWait (withDefaults opts)) t'); [done|lia].
Qed.

Lemma pollError_outcome start round lastResp resp w :
  is_Some (ctx_Err (poll_context start) (now w)) ->
  let '(err, w') := pollError start round lastResp w in
  now w <= now w' /\ poll_outcome start (now w') (resp, Some err).
Proof.
  intros [e He]. unfold pollError, bind, get_now. destruct (ctx_Err ctx (now w)) as [err|] eqn:Ec.
  - match goal with |- context [report ?l ?m ?s ?r ?x ?k w] => pose proof (report_time l m s r x k w) as Ht;
      destruct (report l m s r x k w) as [u w1] end.
    cbn [snd] in Ht. split; [done|]. apply (poll_caller_done _ _ _ err); [by eapply ctx_Err_mono|].
    intros s Hs. destruct cause as [c|]; cbn; by rewrite Hs, ?orb_true_r.
  - destruct (poll_context_cases _ _ _ He) as [Hc|[Hd Hm]]; [congruence|].
    match goal with |- context [report ?l ?m ?s ?r ?x ?k w] => pose proof (report_time l m s r x k w) as Ht;
      destruct (report l m s r x k w) as [u w1] end.
    cbn [snd] in Ht. split; [done|]. apply poll_max_wait; [lia|]. by rewrite (Hm (now w1) Ht).
Qed.

(** Time passes during a call that succeeds, and does not go back in one that fails. *)
Hypothesis once_time : forall c st w,
  let '(((_, err), _), w') := once c st w in now w <= now w' /\ (err = None -> now w < now w').

Lemma sleepWithCtx_time c d w :
  let '(r, w') := sleepWithCtx c d w in
  now w <= now w' /\ (is_Some r -> is_Some (ctx_Err c (now w'))).
Proof.
  unfold sleepWithCtx. destruct (Z.leb_spec d 0); [split; [cbn; lia|by intros [? ?]]|].
  pose proof (timer_or_done_spec c d w) as Hs.
  pose proof (extends_timer c d (fun _ _ _ => True) ltac:(lia) ltac:(done) w) as Ht.
  destruct (timer_or_done c d w) as [r w']. split; [apply Ht|]. intros [e ->]. by eexists.
Qed.

Lemma poll_round_outcome start round lastResp delay st w :
  let '(r, w') := poll_round start round lastResp delay st w in
  match r with
  | inl (out, _) => poll_outcome start (now w') out
  | inr _ => now w < start + MaxWait (withDefaults opts) /\ now w < now w'
  end.
Proof.
  unfold poll_round. unfold bind at 1, get_now at 1. cbn beta iota.
  case_bool_decide as Hd.
  { unfold bind. pose proof (pollError_outcome start (round - 1) lastResp lastResp w Hd) as Ho.
    destruct (pollError _ _ _ w) as [err w']. apply Ho. }
  assert (Hlt : now w < start + MaxWait (withDefaults opts)).
  { apply poll_context_done. by destruct (ctx_Err _ _); [destruct Hd; eauto|]. }
  unfold bind at 1. pose proof (once_time (poll_context start) st w) as Ht.
  destruct (once _ st w) as [[[resp err] st'] w1] eqn:Eo. destruct Ht as [Ht Hts].
  unfold bind at 1, get_now at 1. cbn beta iota.
  case_bool_decide as Hd1.
  { unfold bind. set (last := match resp with Some _ => resp | None => lastResp end).
    pose proof (pollError_outcome start round last last w1 Hd1) as Ho.
    destruct (pollError _ _ _ w1) as [err' w']. apply Ho. }
  assert (Hans : answered start resp err).
  { exists st, w, st', w1. split; [done|]. by destruct (ctx_Err _ (now w1)); [destruct Hd1; eauto|]. }
  destruct err as [err|].
  { unfold bind. destruct (report _ _ _ _ _ _ w1) as [u w2]. by eapply poll_failed. }
  destruct (terminal resp) eqn:Et.
  { unfold bind. destruct (report _ _ _ _ _ _ w1) as [u w2]. destruct resp as [resp|]; [|done]. by apply poll_terminal. }
  destruct (rejection resp) as [[code message]|] eqn:Er.
  { unfold bind. destruct (report _ _ _ _ _ _ w1) as [u w2]. by eapply poll_rejected. }
  unfold bind at 1. match goal with |- context [report ?l ?m ?s ?r ?x ?k w1] => pose proof (report_time l m s r x k w1) as Hr;
      destruct (report l m s r x k w1) as [u w2] end. cbn [snd] in Hr.
  unfold bind at 1. pose proof (sleepWithCtx_time (poll_context start) delay w2) as Hs.
  destruct (sleepWithCtx _ delay w2) as [[serr|] w3]; destruct Hs as [Hs1 Hs2].
  - unfold bind. pose proof (pollError_outcome start round resp resp w3 (Hs2 ltac:(eauto))) as Ho.
    destruct (pollError _ _ _ w3) as [err' w']. apply Ho.
  - unfold ret. specialize (Hts eq_refl). split; lia.
Qed.

Lemma poll_loop_outcome fuel start round lastResp delay st w :
  (0 < fuel)%nat -> start + MaxWait (withDefaults opts) - now w < Z.of_nat fuel ->
  exists out st' w', poll_loop fuel start round lastResp delay st w = (Some (out, st'), w') /\ poll_outcome start (now w') out.
Proof.
  revert round lastResp delay st w. induction fuel as [|fuel IH]; intros round lastResp delay st w Hf Hw; [lia|].
  cbn [poll_loop]. unfold bind. pose proof (poll_round_outcome start (round + 1) lastResp delay st w) as Hr.
  destruct (poll_round _ _ _ _ st w) as [[[out st']|[[resp d] st']] w']; [by eexists _, _, _|].
  destruct Hr as [Hlt Hadv]. apply IH; lia.
Qed.

End Outcome.

(** ** What polling puts on the wire *)

Section Wire.
Context {E : Env} {FC : FloatConv}.
Variable Q : http_request -> Prop.

(** Only requests satisfying [Q] leave, and the result satisfies [P]. *)
Definition only {A} (m : M A) (P : A -> Prop) : Prop :=
  extends m (fun i a es => Forall (fun x => Q x.1) (exchanges i es) /\ P a).

Lemma only_ret {A} (a : A) (P : A -> Prop) : P a -> only (ret a) P.
Proof. intros H. apply extends_ret. intros n. by split; [constructor|]. Qed.

Lemma only_bind {A B} (m : M A) (k : A -> M B) P P' :
  only m P -> (forall a, P a -> only (k a) P') -> only (bind m k) P'.
Proof.
  intros Hm Hk. eapply extends_bind; [exact Hm|]. intros a (_ & _ & _ & HP).
  eapply extends_mono; [apply (Hk a HP)|]. intros n' b es' [Hs' HQ] n es -> [Hs _].
  split; [|done]. rewrite exchanges_app. by apply Forall_app.
Qed.

Lemma only_quiet {A} (m : M A) (P : A -> Prop) : quiet m P -> only m P.
Proof.
  intros Hm. eapply extends_mono; [exact Hm|]. intros n a es [[Hx _] HP]. rewrite Hx. by split; [constructor|].
Qed.

Context {T St : Type}.
Variables (ctx : context) (opts : PollOptions) (trace : PollTrace T) (getStatus : T -> Status).
Variable getRejection : option (option T -> option (Code * string)).
Variable once : context -> St -> M ((option T * option error) * St).
Variable cause : option error.
Variable Inv : St -> Prop.
Hypothesis once_only : forall c st, Inv st -> only (once c st) (fun r => Inv r.2).

Lemma report_quiet level msg start round resp extra :
  quiet (report trace getStatus level msg start round resp extra) (fun _ => True).
Proof.
  unfold report, fields. eapply (quiet_bind _ _ (fun _ => True)).
  { eapply quiet_bind; [apply quiet_get_now|]. intros t _. by apply quiet_ret. }
  intros kv _. unfold logged. destruct (pt_Logger trace); [apply quiet_log|by apply quiet_ret].
Qed.

Lemma pollError_quiet start round resp :
  quiet (pollError ctx opts trace getStatus cause start round resp) (fun _ => True).
Proof.
  unfold pollError. eapply quiet_bind; [apply quiet_get_now|]. intros t _.
  destruct (ctx_Err ctx t); (eapply quiet_bind; [apply report_quiet|]); intros u _;
    (eapply quiet_bind; [apply quiet_get_now|]); intros t' _; by apply quiet_ret.
Qed.

Lemma sleepWithCtx_quiet c d : quiet (sleepWithCtx c d) (fun _ => True).
Proof.
  unfold sleepWithCtx. destruct (Z.leb_spec d 0); [by apply quiet_ret|].
  apply extends_timer; [lia|]. done.
Qed.

Lemma poll_round_only start round lastResp delay st :
  Inv st ->
  only (poll_round ctx opts trace getStatus getRejection once cause start round lastResp delay st)
    (fun r => match r with inl (_, st') => Inv st' | inr (_, _, st') => Inv st' end).
Proof.
  intros Hst. unfold poll_round. eapply only_bind; [apply only_quiet, quiet_get_now|]. intros t _.
  case_bool_decide.
  { eapply only_bind; [apply only_quiet, pollError_quiet|]. intros err _. by apply only_ret. }
  eapply only_bind; [by apply once_only|]. intros [[resp err] st'] Hst'. cbn [snd] in Hst'.
  eapply only_bind; [apply only_quiet, quiet_get_now|]. intros t' _.
  case_bool_decide.
  { eapply only_bind; [apply only_quiet, pollError_quiet|]. intros err' _. by apply only_ret. }
  destruct err as [err|].
  { eapply only_bind; [apply only_quiet, report_quiet|]. intros u _. by apply only_ret. }
  destruct (terminal getStatus resp).
  { eapply only_bind; [apply only_quiet, report_quiet|]. intros u _. by apply only_ret. }
  destruct (rejection getRejection resp) as [[code message]|].
  { eapply only_bind; [apply only_quiet, report_quiet|]. intros u _. by apply only_ret. }
  eapply only_bind; [apply only_quiet, report_quiet|]. intros u _.
  eapply only_bind; [apply only_quiet, sleepWithCtx_quiet|]. intros [serr|] _; [|by apply only_ret].
  eapply only_bind; [apply only_quiet, pollError_quiet|]. intros err _. by apply only_ret.
Qed.

Lemma poll_only fuel st :
  Inv st ->
  only (pollUntilTerminal ctx opts trace getStatus getRejection once cause fuel st)
    (fun r => match r with Some (_, st') => Inv st' | None => True end).
Proof.
  intros Hst. unfold pollUntilTerminal. eapply only_bind; [apply only_quiet, quiet_get_now|]. intros start _.
  generalize 0 as round, (@None T) as last, (InitialDelay (withDefaults opts)) as delay. revert st Hst.
  induction fuel as [|fuel IH]; intros st Hst round last delay; [by apply only_ret|].
  cbn [poll_loop]. eapply only_bind; [by apply poll_round_only|].
  intros [[out st']|[[resp d] st']] Hst'; [by apply only_ret|by apply IH].
Qed.

End Wire.

(** ** The wrappers of the endpoints *)

Section Wrappers.
Context {R : RSA} {E : Env} {FC : FloatConv}.

(** [AuthPollUntilTerminal] and its likes: [call] is the endpoint's method, re-submitted
    with the caller's request.  [cause] as in [pollUntilTerminal]. *)
Definition poll_submitted {Req Resp} (check : option Service -> option error) (nil_request : string)
    (getID : Req -> string) (setID : string -> Req -> Req) (op : string) (code : Resp -> Code * string)
    (status : Resp -> Status) (call : context -> option Req -> M (res Resp * option Req)) (cause : option error)
    (fuel : nat) (s : option Service) (ctx : context) (req : option Req) (opts : PollOptions)
    : M (option ((option Resp * option error) * option Req)) :=
  match check s, Service_Client s with
  | Some err, _ => ret (Some ((None, Some err), req))
  | None, None => ret (Some ((None, Some (ENew "unreachable: nil Client")), req))
  | None, Some c =>
      match req with
      | None => ret (Some ((None, Some (EValidation "request" nil_request)), None))
      | Some req =>
          let! req := ensureID getID setID c req in
          pollUntilTerminal ctx opts (mkPollTrace true op (getID req) (Some code)) status
            (Some (fun r => match r with
                            | Some r => if IsSyncRejection (code r).1 (status r) then Some (code r) else None
                            | None => None
                            end))
            (fun c req =>
               let! (r, req) := call c req in
               ret (match r with Ok resp => (Some resp, None) | Err err => (None, Some err) end, req))
            cause fuel (Some req)
      end
  end.

Definition AuthPollUntilTerminal (cause : option error) (fuel : nat) (s : option Service) (ctx : context)
    (req : option AuthRequest) (opts : PollOptions) : M (option ((option AuthResponse * option error) * option AuthRequest)) :=
  poll_submitted checkConfigured "nil AuthRequest" aq_RequestID set_aq_RequestID "/auth"
    (fun r => (ar_Code r, ar_Message r)) (fun r => default "" (AuthResponse_Status (Some r)))
    (Auth s) cause fuel s ctx req opts.

Definition CapturePollUntilTerminal (cause : option error) (fuel : nat) (s : option Service) (ctx : context)
    (req : option CaptureRequest) (opts : PollOptions)
    : M (option ((option CaptureResponse * option error) * option CaptureRequest)) :=
  poll_submitted checkConfigured "nil CaptureRequest" cq_RequestID set_cq_RequestID "/capture"
    (fun r => (cr_Code r, cr_Message r)) (fun r => default "" (CaptureResponse_Status (Some r)))
    (Capture s) cause fuel s ctx req opts.

End Wrappers.

Section Properties.
Context {E : Env} {FC : FloatConv} {T St : Type}.

(** C13.  Polling terminates, and with a known outcome.  If every successful call of the
    closure takes some time, then, whatever the options (a multiplier that is not a
    number, a delay that overflows), a loop of at most [MaxWait] nanoseconds' worth of
    rounds ends: with a terminal response; with the rejection the last response stands
    for; with the closure's own error; with the caller's context done, its error visible
    to [errors.Is]; or no earlier than [MaxWait], as a deadline error. *)
Theorem poll_terminates ctx opts trace getStatus getRejection
    (once : context -> St -> M ((option T * option error) * St)) cause fuel st w :
  (forall c st w, let '(((_, err), _), w') := once c st w in now w <= now w' /\ (err = None -> now w < now w')) ->
  MaxWait (withDefaults opts) < Z.of_nat fuel ->
  exists out st' w', pollUntilTerminal ctx opts trace getStatus getRejection once cause fuel st w = (Some (out, st'), w') /\
    poll_outcome ctx opts trace getStatus getRejection once (now w) (now w') out.
Proof.
  intros Honce Hf. assert (0 < MaxWait (withDefaults opts)).
  { unfold withDefaults. cbn. destruct (Z.leb_spec (MaxWait opts) 0); [done|lia]. }
  unfold pollUntilTerminal, bind, get_now. by apply poll_loop_outcome; [|lia..].
Qed.

End Properties.

(** The delay after 250 ms under a multiplier of 10^12: on amd64 the conversion overflows
    to the smallest integer, which is below the cap, and [sleepWithCtx] does not sleep. *)
Example next_delay_overflow :
  @next_delay amd64_conv (mkPollOptions 0 0 0 (f64 (10 ^ 12))) (250 * Millisecond) = int64_min.
Proof. vm_compute. reflexivity. Qed.

Section Idempotency.
Context {R : RSA} {E : Env} {FC : FloatConv}.

(** C12.  One idempotency key per poll.  However many rounds [AuthPollUntilTerminal] runs
    and however often each is retried, everything it sends carries the same body, that of
    the request handed back, under the same session header: the caller's own request, or
    the caller's with the id minted before the first round. *)
Theorem auth_poll_idempotent c ctx cause fuel req opts :
  client_ready c ->
  aq_RequestID req <> "" \/ (forall n t, c_requestIDGen c n t <> "") ->
  extends (AuthPollUntilTerminal cause fuel (service_of c) ctx (Some req) opts) (fun i r es =>
    exists q, aq_RequestID q <> "" /\
      (if is_empty (aq_RequestID req) then exists id, q = set_aq_RequestID id req else q = req) /\
      Forall (fun x => auth_wire q x.1) (exchanges i es) /\
      match r with Some (_, req') => req' = Some q | None => True end).
Proof.
  intros Hc Hid. unfold AuthPollUntilTerminal, poll_submitted. cbn [Service_Client sv_c checkConfigured check_service].
  eapply (extends_bind _ _ (fun i q es => silent es /\ aq_RequestID q <> "" /\
    if is_empty (aq_RequestID req) then exists id, q = set_aq_RequestID id req else q = req)).
  { unfold ensureID. destruct (is_empty (aq_RequestID req)) eqn:Ee.
    - intros w. cbn. split; [lia|]. eexists. split; [done|]. split; [done|]. split; [|by eexists].
      destruct Hid as [Hne|Hg]; [by apply is_empty_true in Ee|apply Hg].
    - apply extends_ret. intros _. split; [done|]. split; [by apply is_empty_false|done]. }
  intros q (_ & _ & _ & Hne & Hq). eapply extends_mono.
  - apply (poll_only (auth_wire q) _ _ _ _ _ _ _ (fun st => st = Some q)); [|done].
    intros c' st ->. eapply only_bind with (P := fun r => r.2 = Some q).
    + eapply extends_mono; [by apply Auth_observed|]. intros i out es (q' & Hout & Hq' & Hx & _).
      rewrite (proj2 (is_empty_false _) Hne) in Hq'. subst q'. done.
    + intros [r st'] Hst. by apply only_ret.
  - intros i' r es' [Hx Hr] i es -> (Hs & _ & _). exists q. rewrite exchanges_app, (proj1 Hs).
    split_and!; try done.
Qed.

End Idempotency.

(** A closure that answers [PROCESSING] twice and then [SUCCESS]. *)
Definition toy_once (c : context) (left : nat) : M ((option Status * option error) * nat) :=
  let! _ := @emit toy_env (EvOnRequest "poll" 0) in
  ret ((Some (match left with O => StatusSuccess | _ => StatusProcessing end), None), pred left).

Definition toy_poll_options : PollOptions := mkPollOptions 20 5 7 (f64 2).

Lemma poll_terminates_witness :
  exists out st' w',
    @pollUntilTerminal toy_env amd64_conv Status nat Background toy_poll_options (mkPollTrace false "/x" "r" None)
      id None toy_once None 21 2%nat (mkWorld 0 []) = (Some (out, st'), w') /\
    poll_outcome Background toy_poll_options (mkPollTrace false "/x" "r" None) id None toy_once 0 (now w') out.
Proof.
  apply (@poll_terminates toy_env amd64_conv Status nat Background toy_poll_options (mkPollTrace false "/x" "r" None)
           id None toy_once None 21 2%nat (mkWorld 0 [])).
  - intros c st w. cbn. split; [lia|]. intros _. lia.
  - vm_compute. reflexivity.
Defined.

Example toy_poll_runs :
  (@pollUntilTerminal toy_env amd64_conv Status nat Background toy_poll_options (mkPollTrace false "/x" "r" None)
      id None toy_once None 21 2%nat (mkWorld 0 [])).1 = Some ((Some StatusSuccess, None), O).
Proof. vm_compute. reflexivity. Qed.

(** Five nanoseconds, then seven: the delays of that run, capped. *)
Example toy_poll_sleeps :
  omap (fun e => match e with EvSleep d => Some d | _ => None end)
    (World.trace (@pollUntilTerminal toy_env amd64_conv Status nat Background toy_poll_options
       (mkPollTrace false "/x" "r" None) id None toy_once None 21 2%nat (mkWorld 0 [])).2) = [5; 7].
Proof. vm_compute. reflexivity. Qed.

Lemma auth_poll_idempotent_witness :
  @extends _ (@AuthPollUntilTerminal toy_RSA toy_env amd64_conv None 5 (service_of toy_client) Background
                (Some toy_auth) toy_poll_options) (fun i r es =>
    exists q, aq_RequestID q <> "" /\
      (if is_empty (aq_RequestID toy_auth) then exists id, q = set_aq_RequestID id toy_auth else q = toy_auth) /\
      Forall (fun x => auth_wire q x.1) (@exchanges toy_env i es) /\
      match r with Some (_, req') => req' = Some q | None => True end).
Proof.
  apply (@auth_poll_idempotent toy_RSA toy_env amd64_conv toy_client Background None 5 toy_auth toy_poll_options toy_ready).
  left. discriminate.
Defined.
