(* ===== verification/Repayment.v ===== *)
(** * Repayment: [atomefin/repayment].

    [Repayment] submits, [QueryRepayment] fetches, [RepaymentPollUntilTerminal] polls; the
    request types, their validator and its contract. *)
From S2P Require Import Prelude GoStd Errors Canonical GoCrypto Sign GoHttp Json Codec Schema Transport World.
From S2P Require Import Client Doer Service PaymentTypes PaymentRules Payment Polling.

(** ** Types ([repayment/types.go]) *)

Definition RepaymentEvent := string.
Definition RepaymentEventNormal : RepaymentEvent := "NORMAL".
Definition RepaymentEventAtomeRepayment : RepaymentEvent := "ATOME_REPAYMENT".
Definition RepaymentEventOverpaidRepayment : RepaymentEvent := "OVERPAID_REPAYMENT".
Definition RepaymentEvent_IsValid (e : RepaymentEvent) : bool :=
  bool_decide (e ∈ [RepaymentEventNormal; RepaymentEventAtomeRepayment; RepaymentEventOverpaidRepayment]).

Definition RepaymentStatus := string.
Definition StatusRepaid : RepaymentStatus := "REPAID".
Definition StatusUnpaid : RepaymentStatus := "UNPAID".
Definition StatusPartialRepaid : RepaymentStatus := "PARTIAL_REPAID".
Definition RepaymentStatus_IsValid (s : RepaymentStatus) : bool :=
  bool_decide (s ∈ [StatusRepaid; StatusUnpaid; StatusPartialRepaid]).

Record RepaymentParam := mkRepaymentParam {
  rpq_RequestID : string; rpq_ExternalReferenceUID : string; rpq_RepaymentAmount : Amount;
  rpq_RepaymentApplyTime : Z; rpq_ExtendInfo : option (gmap string json);
}.
Definition RepaymentParam_fields : list (field_decl RepaymentParam) :=
  [ "requestId" ~> rpq_RequestID as str; "externalReferenceUid" ~> rpq_ExternalReferenceUID as str;
    "repaymentAmount" ~> rpq_RepaymentAmount as int; "repaymentApplyTime" ~> rpq_RepaymentApplyTime as int;
    "extendInfo" ~> rpq_ExtendInfo as object omitempty ].
Definition RepaymentParam_json : codec RepaymentParam :=
  struct (mkRepaymentParam "" "" 0 0 None) RepaymentParam_fields.
#[export] Instance RepaymentParam_schema : Schema (c_zero RepaymentParam_json) RepaymentParam_fields.
Proof. schema. Qed.

Record CommerceAccountChanges := mkCommerceAccountChanges {
  cac_ExternalReferenceUID : string; cac_PreviousStatus : AccountStatus; cac_CurrentStatus : AccountStatus;
  cac_TotalCreditChange : Amount; cac_UsedCreditChange : Amount; cac_AvailableCreditChange : Amount;
  cac_OverpaidAmountChange : Amount; cac_LateFeeAmountChange : Amount; cac_InterestAmountChange : Amount;
  cac_Version : Z;
}.
Definition CommerceAccountChanges_fields : list (field_decl CommerceAccountChanges) :=
  [ "externalReferenceUid" ~> cac_ExternalReferenceUID as str;
    "previousStatus" ~> cac_PreviousStatus as str omitempty;
    "currentStatus" ~> cac_CurrentStatus as str omitempty;
    "totalCreditChange" ~> cac_TotalCreditChange as int omitempty;
    "usedCreditChange" ~> cac_UsedCreditChange as int omitempty;
    "availableCreditChange" ~> cac_AvailableCreditChange as int omitempty;
    "overpaidAmountChange" ~> cac_OverpaidAmountChange as int omitempty;
    "lateFeeAmountChange" ~> cac_LateFeeAmountChange as int omitempty;
    "interestAmountChange" ~> cac_InterestAmountChange as int omitempty; "version" ~> cac_Version as int ].
Definition CommerceAccountChanges_json : codec CommerceAccountChanges :=
  struct (mkCommerceAccountChanges "" "" "" 0 0 0 0 0 0 0) CommerceAccountChanges_fields.
#[export] Instance CommerceAccountChanges_schema : Schema (c_zero CommerceAccountChanges_json) CommerceAccountChanges_fields.
Proof. schema. Qed.

Record RepaymentResult := mkRepaymentResult {
  rpd_RequestID : string; rpd_RepaymentID : string; rpd_Status : Status; rpd_Currency : Currency;
  rpd_RepaymentAmount : Amount; rpd_RepaymentTime : Z; rpd_Event : RepaymentEvent;
  rpd_AccountChanges : option CommerceAccountChanges;
}.
Definition RepaymentResult_fields : list (field_decl RepaymentResult) :=
  [ "requestId" ~> rpd_RequestID as str; "repaymentId" ~> rpd_RepaymentID as str;
    "status" ~> rpd_Status as str; "currency" ~> rpd_Currency as str;
    "repaymentAmount" ~> rpd_RepaymentAmount as int omitempty;
    "repaymentTime" ~> rpd_RepaymentTime as int omitempty; "event" ~> rpd_Event as str omitempty;
    "accountChanges" ~> rpd_AccountChanges as (ptr CommerceAccountChanges_json) omitempty ].
Definition RepaymentResult_json : codec RepaymentResult :=
  struct (mkRepaymentResult "" "" "" "" 0 0 "" None) RepaymentResult_fields.
#[export] Instance RepaymentResult_schema : Schema (c_zero RepaymentResult_json) RepaymentResult_fields.
Proof. schema. Qed.

Record RepaymentResponse := mkRepaymentResponse {
  rpr_Code : Code; rpr_Message : string; rpr_Data : option RepaymentResult;
}.
Definition RepaymentResponse_fields : list (field_decl RepaymentResponse) :=
  [ "code" ~> rpr_Code as str; "message" ~> rpr_Message as str;
    "data" ~> rpr_Data as (ptr RepaymentResult_json) omitempty ].
Definition RepaymentResponse_json : codec RepaymentResponse :=
  struct (mkRepaymentResponse "" "" None) RepaymentResponse_fields.
#[export] Instance RepaymentResponse_schema : Schema (c_zero RepaymentResponse_json) RepaymentResponse_fields.
Proof. schema. Qed.

Definition RepaymentResponse_Status (r : option RepaymentResponse) : option Status :=
  match r with Some r => match rpr_Data r with Some d => Some (rpd_Status d) | None => None end | None => None end.
Definition RepaymentResponse_IsTerminal (r : option RepaymentResponse) : bool :=
  status_terminal (RepaymentResponse_Status r).
Definition RepaymentResponse_IsProcessing (r : option RepaymentResponse) : bool :=
  bool_decide (RepaymentResponse_Status r = Some StatusProcessing).

(** ** Validation *)

Definition validateRepayment (req : RepaymentParam) : option error :=
  reject EValidation "requestId" "required" when is_empty (rpq_RequestID req) ;;
  reject errMax64 "requestId" when slen (rpq_RequestID req) >? 64 ;;
  reject EValidation "externalReferenceUid" "required" when is_empty (rpq_ExternalReferenceUID req) ;;
  reject errMax64 "externalReferenceUid" when slen (rpq_ExternalReferenceUID req) >? 64 ;;
  reject EValidation "repaymentAmount" "must be > 0 (minor units)" when rpq_RepaymentAmount req <=? 0 ;;
  reject EValidation "repaymentApplyTime" "must be > 0 (Unix timestamp in milliseconds; TZ unspecified — Q11)"
    when rpq_RepaymentApplyTime req <=? 0 ;; None.

(** The guards of [QueryRepayment]. *)
Definition validateQueryRepayment (requestID externalReferenceUID : string) : option error :=
  reject EValidation "requestId" "required (the requestId from the prior /repayment-request submission)"
    when is_empty requestID ;;
  reject errMax64 "requestId" when slen requestID >? 64 ;;
  reject EValidation "externalReferenceUid" "required" when is_empty externalReferenceUID ;;
  reject errMax64 "externalReferenceUid" when slen externalReferenceUID >? 64 ;; None.

(** ** Calls ([repayment/repayment.go]) *)

Section Repayment.
Context {R : RSA} {E : Env} {FC : FloatConv}.

(** [New]; [Service.Client] is [Service_Client]. *)
Definition New : option Client -> option Service := NewService.

Definition checkConfigured : option Service -> option error :=
  check_service "nil *repayment.Service (likely from repayment.New(nil))"
    "*repayment.Service has nil *atomefin.Client".

Definition set_rpq_RequestID (id : string) (q : RepaymentParam) : RepaymentParam :=
  mkRepaymentParam id (rpq_ExternalReferenceUID q) (rpq_RepaymentAmount q) (rpq_RepaymentApplyTime q) (rpq_ExtendInfo q).

Definition Repayment (s : option Service) (ctx : context)
    : option RepaymentParam -> M (res RepaymentResponse * option RepaymentParam) :=
  submit checkConfigured "nil RepaymentParam" rpq_RequestID set_rpq_RequestID (pure_check validateRepayment)
    (fun c req => post RepaymentParam_json RepaymentResponse_json c ctx "/repayment-request" req []) s.

Definition QueryRepayment (s : option Service) (ctx : context) (requestID externalReferenceUID : string)
    : M (res RepaymentResponse) :=
  fetch checkConfigured (validateQueryRepayment requestID externalReferenceUID)
    (fun c => get RepaymentResponse_json c ctx "/repayment-result" (query_by_id requestID externalReferenceUID)) s.

Definition RepaymentPollUntilTerminal (cause : option error) (fuel : nat) (s : option Service) (ctx : context)
    (req : option RepaymentParam) (opts : PollOptions)
    : M (option ((option RepaymentResponse * option error) * option RepaymentParam)) :=
  poll_submitted checkConfigured "nil RepaymentParam" rpq_RequestID set_rpq_RequestID "/repayment-request"
    (fun r => (rpr_Code r, rpr_Message r)) (fun r => default "" (RepaymentResponse_Status (Some r)))
    (Repayment s) cause fuel s ctx req opts.

End Repayment.

(** ** Lemmas *)

Lemma validateRepayment_None req : validateRepayment req = None <->
  id64 (rpq_RequestID req) /\ id64 (rpq_ExternalReferenceUID req) /\
  0 < rpq_RepaymentAmount req /\ 0 < rpq_RepaymentApplyTime req.
Proof. unfold validateRepayment. rewrite !reject_id64, !reject_None, !Z.leb_gt. tauto. Qed.
