(* ===== verification/Refund.v ===== *)
(** * Refund: [atomefin/refund].

    [Refund] submits, [QueryRefund] fetches, [RefundPollUntilTerminal] polls; the request
    types, their validator and its contract. *)
From S2P Require Import Prelude GoStd Errors Canonical GoCrypto Sign GoHttp Json Codec Schema Transport World.
From S2P Require Import Client Doer Service PaymentTypes PaymentRules Payment Polling Repayment.

(** ** Types ([refund/types.go]) *)

Definition OrderType := PaymentOrderType.

Record SubOrderRefundRequest := mkSubOrderRefundRequest {
  sorr_SubOrderID : string; sorr_MerchantID : string; sorr_MerchantName : string; sorr_Quantity : Z;
  sorr_Amount : Amount;
}.
Definition SubOrderRefundRequest_fields : list (field_decl SubOrderRefundRequest) :=
  [ "subOrderId" ~> sorr_SubOrderID as str omitempty; "merchantId" ~> sorr_MerchantID as str omitempty;
    "merchantName" ~> sorr_MerchantName as str omitempty; "quantity" ~> sorr_Quantity as int omitempty;
    "amount" ~> sorr_Amount as int ].
Definition SubOrderRefundRequest_json : codec SubOrderRefundRequest :=
  struct (mkSubOrderRefundRequest "" "" "" 0 0) SubOrderRefundRequest_fields.
#[export] Instance SubOrderRefundRequest_schema : Schema (c_zero SubOrderRefundRequest_json) SubOrderRefundRequest_fields.
Proof. schema. Qed.

Record RefundExtendInfo := mkRefundExtendInfo {
  rfe_OrderType : OrderType;
}.
Definition RefundExtendInfo_fields : list (field_decl RefundExtendInfo) :=
  [ "orderType" ~> rfe_OrderType as str ].
Definition RefundExtendInfo_json : codec RefundExtendInfo :=
  struct (mkRefundExtendInfo "") RefundExtendInfo_fields.
#[export] Instance RefundExtendInfo_schema : Schema (c_zero RefundExtendInfo_json) RefundExtendInfo_fields.
Proof. schema. Qed.

Record RefundParam := mkRefundParam {
  rfq_RequestID : string; rfq_ExternalReferenceUID : string; rfq_OrderID : string;
  rfq_RefundAmount : Amount; rfq_SubOrders : list SubOrderRefundRequest;
  rfq_ExtendInfo : option RefundExtendInfo;
}.
Definition RefundParam_fields : list (field_decl RefundParam) :=
  [ "requestId" ~> rfq_RequestID as str; "externalReferenceUid" ~> rfq_ExternalReferenceUID as str;
    "orderId" ~> rfq_OrderID as str; "refundAmount" ~> rfq_RefundAmount as int;
    "subOrders" ~> rfq_SubOrders as (slice SubOrderRefundRequest_json);
    "extendInfo" ~> rfq_ExtendInfo as (ptr RefundExtendInfo_json) ].
Definition RefundParam_json : codec RefundParam :=
  struct (mkRefundParam "" "" "" 0 [] None) RefundParam_fields.
#[export] Instance RefundParam_schema : Schema (c_zero RefundParam_json) RefundParam_fields.
Proof. schema. Qed.

Record SubOrderRefundInfo := mkSubOrderRefundInfo {
  sori_SubOrderID : string; sori_MerchantID : string; sori_MerchantName : string; sori_Quantity : Z;
  sori_TotalAmount : Amount; sori_PrincipalAmount : Amount; sori_InterestAmount : Amount;
  sori_DiscountAmount : Amount; sori_OverpaidAmountChange : Amount;
  sori_ExtendInfo : option (gmap string json);
}.
Definition SubOrderRefundInfo_fields : list (field_decl SubOrderRefundInfo) :=
  [ "subOrderId" ~> sori_SubOrderID as str omitempty; "merchantId" ~> sori_MerchantID as str omitempty;
    "merchantName" ~> sori_MerchantName as str omitempty; "quantity" ~> sori_Quantity as int omitempty;
    "totalAmount" ~> sori_TotalAmount as int; "principalAmount" ~> sori_PrincipalAmount as int omitempty;
    "interestAmount" ~> sori_InterestAmount as int omitempty;
    "discountAmount" ~> sori_DiscountAmount as int omitempty;
    "overpaidAmountChange" ~> sori_OverpaidAmountChange as int omitempty;
    "extendInfo" ~> sori_ExtendInfo as object omitempty ].
Definition SubOrderRefundInfo_json : codec SubOrderRefundInfo :=
  struct (mkSubOrderRefundInfo "" "" "" 0 0 0 0 0 0 None) SubOrderRefundInfo_fields.
#[export] Instance SubOrderRefundInfo_schema : Schema (c_zero SubOrderRefundInfo_json) SubOrderRefundInfo_fields.
Proof. schema. Qed.

Record RefundResult := mkRefundResult {
  rfd_RequestID : string; rfd_CaptureRequestID : string; rfd_RefundID : string; rfd_RefundAmount : Amount;
  rfd_WaivedInterestAmount : Amount; rfd_RefundDiscountAmount : Amount; rfd_Status : Status;
  rfd_FailureCode : FailureCode; rfd_Currency : Currency; rfd_SubOrders : list SubOrderRefundInfo;
  rfd_AccountChanges : option CommerceAccountChanges;
}.
Definition RefundResult_fields : list (field_decl RefundResult) :=
  [ "requestId" ~> rfd_RequestID as str; "captureRequestId" ~> rfd_CaptureRequestID as str;
    "refundId" ~> rfd_RefundID as str; "refundAmount" ~> rfd_RefundAmount as int;
    "waivedInterestAmount" ~> rfd_WaivedInterestAmount as int omitempty;
    "refundDiscountAmount" ~> rfd_RefundDiscountAmount as int omitempty; "status" ~> rfd_Status as str;
    "failureCode" ~> rfd_FailureCode as str omitempty; "currency" ~> rfd_Currency as str;
    "subOrders" ~> rfd_SubOrders as (slice SubOrderRefundInfo_json) omitempty;
    "accountChanges" ~> rfd_AccountChanges as (ptr CommerceAccountChanges_json) omitempty ].
Definition RefundResult_json : codec RefundResult :=
  struct (mkRefundResult "" "" "" 0 0 0 "" "" "" [] None) RefundResult_fields.
#[export] Instance RefundResult_schema : Schema (c_zero RefundResult_json) RefundResult_fields.
Proof. schema. Qed.

Record RefundResponse := mkRefundResponse {
  rfr_Code : Code; rfr_Message : string; rfr_Data : option RefundResult;
}.
Definition RefundResponse_fields : list (field_decl RefundResponse) :=
  [ "code" ~> rfr_Code as str; "message" ~> rfr_Message as str;
    "data" ~> rfr_Data as (ptr RefundResult_json) omitempty ].
Definition RefundResponse_json : codec RefundResponse :=
  struct (mkRefundResponse "" "" None) RefundResponse_fields.
#[export] Instance RefundResponse_schema : Schema (c_zero RefundResponse_json) RefundResponse_fields.
Proof. schema. Qed.

Definition RefundResponse_Status (r : option RefundResponse) : option Status :=
  match r with Some r => match rfr_Data r with Some d => Some (rfd_Status d) | None => None end | None => None end.
Definition RefundResponse_IsTerminal (r : option RefundResponse) : bool := status_terminal (RefundResponse_Status r).
Definition RefundResponse_IsProcessing (r : option RefundResponse) : bool :=
  bool_decide (RefundResponse_Status r = Some StatusProcessing).

(** ** Validation *)

(** The loop over the sub-orders: every amount positive, their [int64] sum. *)
Fixpoint sum_refunds (orders : list SubOrderRefundRequest) (sum : Amount) : error + Amount :=
  match orders with
  | [] => inr sum
  | so :: orders => if sorr_Amount so <=? 0 then inl errAmount else sum_refunds orders (i64 (sum + sorr_Amount so))
  end.

(** The [switch] on the order type. *)
Definition validate_refund_orders (t : OrderType) (orders : list SubOrderRefundRequest) : option error :=
  if bool_decide (t ∈ [OrderTypeTransport; OrderTypeGrabFood]) then
    reject errOneSubOrder t when negb (length orders =? 1)%nat ;; None
  else if bool_decide (t = OrderTypeGrabMart) then
    first_error (fun so =>
      reject EValidation "subOrders[].merchantId" "required for GRAB_MART" when is_empty (sorr_MerchantID so) ;; None)
      orders
  else Some errOrderType.

Definition validateRefund (req : RefundParam) : option error :=
  reject EValidation "requestId" "required" when is_empty (rfq_RequestID req) ;;
  reject errMax64 "requestId" when slen (rfq_RequestID req) >? 64 ;;
  reject EValidation "externalReferenceUid" "required" when is_empty (rfq_ExternalReferenceUID req) ;;
  reject errMax64 "externalReferenceUid" when slen (rfq_ExternalReferenceUID req) >? 64 ;;
  reject EValidation "orderId" "required (the orderId returned by the prior /capture call)"
    when is_empty (rfq_OrderID req) ;;
  reject EValidation "orderId" "exceeds spec maxlength 32" when slen (rfq_OrderID req) >? 32 ;;
  reject EValidation "refundAmount" "must be > 0 (minor units)" when rfq_RefundAmount req <=? 0 ;;
  reject errNoSubOrders when (length (rfq_SubOrders req) =? 0)%nat ;;
  match sum_refunds (rfq_SubOrders req) 0 with
  | inl err => Some err
  | inr sum =>
      reject EValidation "refundAmount" "must equal sum of subOrders[].amount (Q25 conservative — partner-pending)"
        when negb (sum =? rfq_RefundAmount req) ;;
      match rfq_ExtendInfo req with
      | None => Some (EValidation "extendInfo.orderType" "required")
      | Some e =>
          reject EValidation "extendInfo.orderType" "required" when is_empty (rfe_OrderType e) ;;
          validate_refund_orders (rfe_OrderType e) (rfq_SubOrders req)
      end
  end.

(** The guards of [QueryRefund]. *)
Definition validateQueryRefund (requestID externalReferenceUID : string) : option error :=
  reject EValidation "requestId" "required (the requestId from the prior /refund submission)" when is_empty requestID ;;
  reject errMax64 "requestId" when slen requestID >? 64 ;;
  reject EValidation "externalReferenceUid"
    "required (the partner-side user/account identifier from the prior /refund submission)"
    when is_empty externalReferenceUID ;;
  reject errMax64 "externalReferenceUid" when slen externalReferenceUID >? 64 ;; None.

(** ** Calls ([refund/refund.go]) *)

Section Refund.
Context {R : RSA} {E : Env} {FC : FloatConv}.

(** [New]; [Service.Client] is [Service_Client]. *)
Definition New : option Client -> option Service := NewService.

Definition checkConfigured : option Service -> option error :=
  check_service "nil *refund.Service (likely from refund.New(nil))" "*refund.Service has nil *atomefin.Client".

Definition set_rfq_RequestID (id : string) (q : RefundParam) : RefundParam :=
  mkRefundParam id (rfq_ExternalReferenceUID q) (rfq_OrderID q) (rfq_RefundAmount q) (rfq_SubOrders q) (rfq_ExtendInfo q).

Definition Refund (s : option Service) (ctx : context)
    : option RefundParam -> M (res RefundResponse * option RefundParam) :=
  submit checkConfigured "nil RefundParam" rfq_RequestID set_rfq_RequestID (pure_check validateRefund)
    (fun c req => post RefundParam_json RefundResponse_json c ctx "/refund" req []) s.

Definition QueryRefund (s : option Service) (ctx : context) (requestID externalReferenceUID : string)
    : M (res RefundResponse) :=
  fetch checkConfigured (validateQueryRefund requestID externalReferenceUID)
    (fun c => get RefundResponse_json c ctx "/query-refund" (query_by_id requestID externalReferenceUID)) s.

Definition RefundPollUntilTerminal (cause : option error) (fuel : nat) (s : option Service) (ctx : context)
    (req : option RefundParam) (opts : PollOptions)
    : M (option ((option RefundResponse * option error) * option RefundParam)) :=
  poll_submitted checkConfigured "nil RefundParam" rfq_RequestID set_rfq_RequestID "/refund"
    (fun r => (rfr_Code r, rfr_Message r)) (fun r => default "" (RefundResponse_Status (Some r)))
    (Refund s) cause fuel s ctx req opts.

End Refund.

(** * Contract *)

Record refund_contract (req : RefundParam) : Prop := {
  refund_requestId : id64 (rfq_RequestID req);
  refund_uid : id64 (rfq_ExternalReferenceUID req);
  refund_orderId : 1 <= slen (rfq_OrderID req) <= 32;
  refund_amount : 0 < rfq_RefundAmount req;
  refund_orders : rfq_SubOrders req <> [] /\ Forall (fun so => 0 < sorr_Amount so) (rfq_SubOrders req);
  refund_sum : i64 (total_of (map sorr_Amount (rfq_SubOrders req))) = rfq_RefundAmount req;
  refund_type : exists e, rfq_ExtendInfo req = Some e /\ PaymentOrderType_IsValid (rfe_OrderType e) = true /\
    (rfe_OrderType e <> OrderTypeGrabMart -> length (rfq_SubOrders req) = 1%nat) /\
    (rfe_OrderType e = OrderTypeGrabMart -> Forall (fun so => sorr_MerchantID so <> "") (rfq_SubOrders req));
}.

(** ** Lemmas *)

Lemma sum_refunds_spec orders sum r :
  in_int64 sum ->
  sum_refunds orders sum = inr r <->
  Forall (fun so => 0 < sorr_Amount so) orders /\ r = i64 (sum + total_of (map sorr_Amount orders)).
Proof.
  revert sum. induction orders as [|so orders IH]; intros sum Hs; cbn [sum_refunds map total_of foldr].
  - rewrite Z.add_0_r, i64_id by done. split; [by intros [= ->]|by intros [_ ->]].
  - rewrite Forall_cons. destruct (Z.leb_spec (sorr_Amount so) 0); [split; [done|lia]|].
    rewrite IH by apply i64_range. rewrite i64_add_l. fold (total_of (map sorr_Amount orders)).
    rewrite Z.add_assoc. intuition lia.
Qed.

Lemma refund_orders_None t orders : orders <> [] ->
  validate_refund_orders t orders = None <->
  PaymentOrderType_IsValid t = true /\ (t <> OrderTypeGrabMart -> length orders = 1%nat) /\
  (t = OrderTypeGrabMart -> Forall (fun so => sorr_MerchantID so <> "") orders).
Proof.
  intros Hne. destruct (PaymentOrderType_IsValid t) eqn:Ht.
  - unfold validate_refund_orders. destruct (order_types t Ht) as [->|[->| ->]]; decide_closed.
    1-2: rewrite reject_None, negb_false_iff, Nat.eqb_eq; naive_solver.
    rewrite first_error_None.
    transitivity (Forall (fun so => sorr_MerchantID so <> "") orders); [|naive_solver].
    apply Forall_proper; [|done]. intros so. rewrite reject_None, is_empty_false. tauto.
  - split; [|naive_solver]. unfold validate_refund_orders, PaymentOrderType_IsValid in *.
    rewrite bool_decide_eq_false, !elem_of_cons, elem_of_nil in Ht.
    rewrite !bool_decide_false; [done|tauto|]. rewrite !elem_of_cons, elem_of_nil. tauto.
Qed.

Lemma validateRefund_None req : validateRefund req = None <-> refund_contract req.
Proof.
  unfold validateRefund. rewrite !reject_id64, !reject_None, is_empty_false, Z.gtb_ltb, Z.ltb_ge, Z.leb_gt,
    Nat.eqb_neq, length_nonzero.
  assert (Hlen : rfq_OrderID req <> "" <-> 1 <= slen (rfq_OrderID req)).
  { destruct (rfq_OrderID req); cbn [String.length]; intuition (try congruence; lia). }
  rewrite Hlen. split.
  - intros (Hid & Hu & Ho1 & Ho2 & Ha & Hne & Hrest).
    destruct (sum_refunds (rfq_SubOrders req) 0) as [err|sum] eqn:Es; [done|].
    apply sum_refunds_spec in Es as [Hpos ->]; [|by split].
    rewrite reject_None, negb_false_iff, Z.eqb_eq in Hrest. destruct Hrest as [Hsum Hrest].
    destruct (rfq_ExtendInfo req) as [e|] eqn:He; [|done].
    rewrite reject_None, refund_orders_None in Hrest by done.
    split; try done. exists e. tauto.
  - intros [Hid Hu Ho Ha [Hne Hpos] Hsum (e & He & Ht & H1 & HM)]. split_and!; try done; try apply Ho.
    rewrite (proj2 (sum_refunds_spec (rfq_SubOrders req) 0 _ ltac:(by split)) (conj Hpos eq_refl)).
    rewrite reject_None, negb_false_iff, Z.eqb_eq. split; [done|].
    rewrite He, reject_None, refund_orders_None, is_empty_false by done. split; [|done].
    by intros E'; rewrite E' in Ht.
Qed.

(** * Properties *)

(** [/refund]'s validator accepts exactly the requests that meet the contract of the
    endpoint: identifiers within their lengths, positive sub-order amounts whose [int64]
    sum is the refund, exactly one sub-order unless it is a mart refund, whose sub-orders
    name their merchants. *)
Theorem validateRefund_spec req : validateRefund req = None <-> refund_contract req.
Proof. apply validateRefund_None. Qed.

(** [Refund] and [Repayment] refine [submitted], and their queries [fetched], as the
    payment calls do: reject before signing, or post the encoding of the request handed
    back, or fetch by the pair of identifiers, and decode the answer. *)
Theorem settlement_calls_refine {R : RSA} {E : Env} {FC : FloatConv} c ctx id uid :
  client_ready c ->
  (forall q, extends (Refund (service_of c) ctx (Some q))
    (submitted RefundParam_json RefundResponse_json c "/refund" rfq_RequestID set_rfq_RequestID
       (pure_check validateRefund) (fun _ => []) q)) /\
  (forall q, extends (Repayment.Repayment (service_of c) ctx (Some q))
    (submitted Repayment.RepaymentParam_json Repayment.RepaymentResponse_json c "/repayment-request"
       Repayment.rpq_RequestID Repayment.set_rpq_RequestID (pure_check Repayment.validateRepayment) (fun _ => []) q)) /\
  (id64 id -> id64 uid ->
   extends (QueryRefund (service_of c) ctx id uid) (fetched RefundResponse_json c "/query-refund" (query_by_id id uid)) /\
   extends (Repayment.QueryRepayment (service_of c) ctx id uid)
     (fetched Repayment.RepaymentResponse_json c "/repayment-result" (query_by_id id uid))).
Proof.
  intros Hc. split; [|split].
  - intros req. apply submit_submitted; [done|]. intros q. by apply post_posted.
  - intros req. apply submit_submitted; [done|]. intros q. by apply post_posted.
  - intros Hid Hu. split; (apply fetch_ok; [done| |by apply get_fetched]).
    + unfold validateQueryRefund. by rewrite !reject_id64.
    + unfold Repayment.validateQueryRepayment. by rewrite !reject_id64.
Qed.

Lemma settlement_calls_refine_witness :
  @extends _ (@QueryRefund toy_RSA toy_env amd64_conv (service_of toy_client) Background "r" "u")
    (@fetched toy_RSA toy_env _ RefundResponse_json toy_client "/query-refund" (query_by_id "r" "u")).
Proof.
  assert (Hr : id64 "r") by (split; vm_compute; discriminate).
  assert (Hu : id64 "u") by (split; vm_compute; discriminate).
  exact (proj1 (proj2 (proj2 (@settlement_calls_refine toy_RSA toy_env amd64_conv toy_client Background "r" "u" toy_ready)) Hr Hu)).
Defined.
