(* ===== verification/CreditTypes.v ===== *)
(** * CreditTypes: the requests and responses of [atomefin/credit/types.go], with their
    json tags, and the enumerations of the credit domain.

    A slice is a list and a pointer an [option]; the financial block is embedded. *)
From S2P Require Import Prelude GoStd Errors Json Codec Schema.

(** ** Codes and enumerations *)

Definition CodeActiveAccount : Code := "ACTIVE_ACCOUNT".
Definition CodeCreditApplicationInProgress : Code := "CREDIT_APPLICATION_INPROGESS".
Definition CodeAccountClosed : Code := "ACCOUNT_CLOSED".
Definition CodeUnpaidDebt : Code := "UNPAID_DEBT".
Definition CodeOverpaidUnreturned : Code := "OVERPAID_UNRETURNED".
Definition CodeOngoingWithdrawal : Code := "ONGOING_WITHDRAWAL".
Definition CodeUserAccountNotExist : Code := "USER_ACCOUNT_NOT_EXIST".
Definition CodeFailed : Code := "FAILED".

Definition CreditStatus := string.
Definition CreditStatusSuccess : CreditStatus := "SUCCESS".
Definition CreditStatusFailed : CreditStatus := "FAILED".
Definition CreditStatusProcessing : CreditStatus := "PROCESSING".
Definition CreditStatusDraft : CreditStatus := "DRAFT".
Definition CreditStatus_IsValid (s : CreditStatus) : bool :=
  bool_decide (s ∈ [CreditStatusSuccess; CreditStatusFailed; CreditStatusProcessing; CreditStatusDraft]).
Definition CreditStatus_IsTerminal (s : CreditStatus) : bool :=
  bool_decide (s = CreditStatusSuccess) || bool_decide (s = CreditStatusFailed).

Definition Country := string.
Definition CountryIndonesia : Country := "ID".
Definition Country_IsValid (c : Country) : bool := bool_decide (c = CountryIndonesia).

Definition Language := string.
Definition LanguageEnglish : Language := "en".
Definition LanguageIndonesian : Language := "id".
Definition Language_IsValid (l : Language) : bool := bool_decide (l ∈ [LanguageEnglish; LanguageIndonesian]).

Definition BalanceHistoryType := string.
Definition BalanceHistoryTypeOverpaidChange : BalanceHistoryType := "OVERPAID_CHANGE".
Definition BalanceHistoryTypeCreditLimitAdjustment : BalanceHistoryType := "CREDIT_LIMIT_ADJUSTMENT".
Definition BalanceHistoryTypeTradeAvailableCreditChange : BalanceHistoryType := "TRADE_AVAILABLE_CREDIT_CHANGE".
Definition BalanceHistoryType_IsValid (t : BalanceHistoryType) : bool :=
  bool_decide (t ∈ [BalanceHistoryTypeOverpaidChange; BalanceHistoryTypeCreditLimitAdjustment;
                    BalanceHistoryTypeTradeAvailableCreditChange]).

Definition LoanStatus := string.
Definition LoanStatusNormal : LoanStatus := "NORMAL".
Definition LoanStatusRiskRejected : LoanStatus := "RISK_REJECTED".
Definition LoanStatus_IsValid (s : LoanStatus) : bool := bool_decide (s ∈ [LoanStatusNormal; LoanStatusRiskRejected]).

Definition UserStatus := string.
Definition UserStatusNormal : UserStatus := "NORMAL".
Definition UserStatusAccountBlockedOverdue : UserStatus := "ACCOUNT_BLOCKED_OVERDUE".
Definition UserStatusAccountBlocked : UserStatus := "ACCOUNT_BLOCKED".
Definition UserStatusAccountClosed : UserStatus := "ACCOUNT_CLOSED".
Definition UserStatus_IsValid (s : UserStatus) : bool :=
  bool_decide (s ∈ [UserStatusNormal; UserStatusAccountBlockedOverdue; UserStatusAccountBlocked; UserStatusAccountClosed]).

Definition UserTag := string.
Definition UserTagNewUser : UserTag := "NEW_USER".
Definition UserTagPriorUser : UserTag := "PRIOR_USER".
Definition UserTag_IsValid (t : UserTag) : bool := bool_decide (t ∈ [UserTagNewUser; UserTagPriorUser]).

Definition UserTagStatus := string.
Definition UserTagStatusApprove : UserTagStatus := "APPROVE".
Definition UserTagStatusReject : UserTagStatus := "REJECT".
Definition UserTagStatus_IsValid (s : UserTagStatus) : bool := bool_decide (s ∈ [UserTagStatusApprove; UserTagStatusReject]).

Definition FailReason := string.
Definition FailReasonFraud : FailReason := "FRAUD".
Definition FailReasonTooManyRetry : FailReason := "TOO_MANY_RETRY".
Definition FailReasonBlurredIDPhoto : FailReason := "BLURRED_ID_PHOTO".
Definition FailReasonIDInvalid : FailReason := "ID_INVALID".
Definition FailReasonNameIDNumberIsWrong : FailReason := "NAME_ID_NUMBER_IS_WRONG".
Definition FailReasonWrongPhotoFormat : FailReason := "WRONG_PHOTO_FORMAT".
Definition FailReasonOthers : FailReason := "OTHERS".

Definition CreditSceneType := string.
Definition SceneProductLandingPage : CreditSceneType := "PRODUCT_LANDING_PAGE".
Definition ScenePromoBannerPage : CreditSceneType := "PROMO_BANNER_PAGE".
Definition SceneMarketingPushEntry : CreditSceneType := "MARKETING_PUSH_ENTRY".
Definition SceneCheckoutPage : CreditSceneType := "CHECKOUT_PAGE".
Definition SceneWalletDashboardEntry : CreditSceneType := "WALLET_DASHBOARD_ENTRY".
Definition CreditSceneType_IsValid (t : CreditSceneType) : bool :=
  bool_decide (t ∈ [SceneProductLandingPage; ScenePromoBannerPage; SceneMarketingPushEntry; SceneCheckoutPage;
                    SceneWalletDashboardEntry]).

Definition UserFlag := string.
Definition UserFlagOVO : UserFlag := "OVO".
Definition UserFlagCommon : UserFlag := "COMMON".
Definition UserFlagGrab : UserFlag := "GRAB".
Definition UserFlag_IsValid (f : UserFlag) : bool := bool_decide (f ∈ [UserFlagOVO; UserFlagCommon; UserFlagGrab]).

Definition SCDUserLevel := string.
Definition SCDUserLevel1 : SCDUserLevel := "1".
Definition SCDUserLevel2 : SCDUserLevel := "2".
Definition SCDUserLevel3 : SCDUserLevel := "3".
Definition SCDUserLevel_IsValid (l : SCDUserLevel) : bool := bool_decide (l ∈ [SCDUserLevel1; SCDUserLevel2; SCDUserLevel3]).

(** ** Request bodies *)

Record QueryUserTagParam := mkQueryUserTagParam {
  utq_RequestID : string; utq_MobileNumber : string; utq_Country : Country;
}.
Definition QueryUserTagParam_fields : list (field_decl QueryUserTagParam) :=
  [ "requestId" ~> utq_RequestID as str; "mobileNumber" ~> utq_MobileNumber as str;
    "country" ~> utq_Country as str ].
Definition QueryUserTagParam_json : codec QueryUserTagParam :=
  struct (mkQueryUserTagParam "" "" "") QueryUserTagParam_fields.
#[export] Instance QueryUserTagParam_schema : Schema (c_zero QueryUserTagParam_json) QueryUserTagParam_fields.
Proof. schema. Qed.

Record LivenessCheck := mkLivenessCheck {
  lc_Result : string; lc_SnapshotPhoto : string; lc_LivenessCheckResult01 : string;
  lc_LivenessCheckResult02 : string; lc_LivenessCheckResult03 : string;
}.
Definition LivenessCheck_fields : list (field_decl LivenessCheck) :=
  [ "result" ~> lc_Result as str omitempty; "snapshotPhoto" ~> lc_SnapshotPhoto as str omitempty;
    "livenessCheckResult01" ~> lc_LivenessCheckResult01 as str omitempty;
    "livenessCheckResult02" ~> lc_LivenessCheckResult02 as str omitempty;
    "livenessCheckResult03" ~> lc_LivenessCheckResult03 as str omitempty ].
Definition LivenessCheck_json : codec LivenessCheck :=
  struct (mkLivenessCheck "" "" "" "" "") LivenessCheck_fields.
#[export] Instance LivenessCheck_schema : Schema (c_zero LivenessCheck_json) LivenessCheck_fields.
Proof. schema. Qed.

Record OCRResult := mkOCRResult {
  ocr_IDNumber : string; ocr_FullName : string; ocr_BirthPlace : string; ocr_OCRBloodType : string;
  ocr_OCRReligion : string; ocr_OCRGender : string; ocr_ManuallyBirthDate : string;
  ocr_OCRProvince : string; ocr_OCRCity : string; ocr_OCRDistrict : string; ocr_JobType : string;
  ocr_OCRMaritalStatus : string; ocr_ManuallyExpiredDate : string; ocr_ManuallyCitizenship : string;
  ocr_ManuallyRt : string; ocr_ManuallyRw : string;
}.
Definition OCRResult_fields : list (field_decl OCRResult) :=
  [ "idNumber" ~> ocr_IDNumber as str; "fullName" ~> ocr_FullName as str;
    "birthPlace" ~> ocr_BirthPlace as str; "ocrBloodType" ~> ocr_OCRBloodType as str omitempty;
    "ocrReligion" ~> ocr_OCRReligion as str; "ocrGender" ~> ocr_OCRGender as str;
    "manuallyBirthDate" ~> ocr_ManuallyBirthDate as str; "ocrProvince" ~> ocr_OCRProvince as str;
    "ocrCity" ~> ocr_OCRCity as str; "ocrDistrict" ~> ocr_OCRDistrict as str;
    "jobType" ~> ocr_JobType as str; "ocrMaritalStatus" ~> ocr_OCRMaritalStatus as str omitempty;
    "manuallyExpiredDate" ~> ocr_ManuallyExpiredDate as str;
    "manuallyCitizenship" ~> ocr_ManuallyCitizenship as str; "manuallyRt" ~> ocr_ManuallyRt as str;
    "manuallyRw" ~> ocr_ManuallyRw as str ].
Definition OCRResult_json : codec OCRResult :=
  struct (mkOCRResult "" "" "" "" "" "" "" "" "" "" "" "" "" "" "" "") OCRResult_fields.
#[export] Instance OCRResult_schema : Schema (c_zero OCRResult_json) OCRResult_fields.
Proof. schema. Qed.

Record IndividualProfile := mkIndividualProfile {
  ipr_IDType : string; ipr_OCRResult : option OCRResult; ipr_IDFrontPhoto : string;
  ipr_ManuallyEducation : string; ipr_MotherMaidenName : string; ipr_MaritalStatus : string;
}.
Definition IndividualProfile_fields : list (field_decl IndividualProfile) :=
  [ "idType" ~> ipr_IDType as str; "ocrResult" ~> ipr_OCRResult as (ptr OCRResult_json);
    "idFrontPhoto" ~> ipr_IDFrontPhoto as str;
    "manuallyEducation" ~> ipr_ManuallyEducation as str omitempty;
    "motherMaidenName" ~> ipr_MotherMaidenName as str omitempty;
    "maritalStatus" ~> ipr_MaritalStatus as str omitempty ].
Definition IndividualProfile_json : codec IndividualProfile :=
  struct (mkIndividualProfile "" None "" "" "" "") IndividualProfile_fields.
#[export] Instance IndividualProfile_schema : Schema (c_zero IndividualProfile_json) IndividualProfile_fields.
Proof. schema. Qed.

Record EmergencyContact := mkEmergencyContact {
  ec_Name : string; ec_Phone : string; ec_Relation : string;
}.
Definition EmergencyContact_fields : list (field_decl EmergencyContact) :=
  [ "name" ~> ec_Name as str omitempty; "phone" ~> ec_Phone as str omitempty;
    "relation" ~> ec_Relation as str omitempty ].
Definition EmergencyContact_json : codec EmergencyContact :=
  struct (mkEmergencyContact "" "" "") EmergencyContact_fields.
#[export] Instance EmergencyContact_schema : Schema (c_zero EmergencyContact_json) EmergencyContact_fields.
Proof. schema. Qed.

Record WorkInformation := mkWorkInformation {
  wi_EmployerName : string; wi_WorkSince : string; wi_MonthlyIncome : string; wi_JobIndustry : string;
  wi_JobPosition : string; wi_PayrollPeriod : string;
}.
Definition WorkInformation_fields : list (field_decl WorkInformation) :=
  [ "employerName" ~> wi_EmployerName as str omitempty; "workSince" ~> wi_WorkSince as str omitempty;
    "monthlyIncome" ~> wi_MonthlyIncome as str omitempty; "jobIndustry" ~> wi_JobIndustry as str omitempty;
    "jobPosition" ~> wi_JobPosition as str omitempty; "payrollPeriod" ~> wi_PayrollPeriod as str omitempty ].
Definition WorkInformation_json : codec WorkInformation :=
  struct (mkWorkInformation "" "" "" "" "" "") WorkInformation_fields.
#[export] Instance WorkInformation_schema : Schema (c_zero WorkInformation_json) WorkInformation_fields.
Proof. schema. Qed.

Record ResidentialInformation := mkResidentialInformation {
  ri_Region : string; ri_Province : string; ri_City : string; ri_District : string; ri_Address : string;
}.
Definition ResidentialInformation_fields : list (field_decl ResidentialInformation) :=
  [ "region" ~> ri_Region as str omitempty; "province" ~> ri_Province as str omitempty;
    "city" ~> ri_City as str omitempty; "district" ~> ri_District as str omitempty;
    "address" ~> ri_Address as str omitempty ].
Definition ResidentialInformation_json : codec ResidentialInformation :=
  struct (mkResidentialInformation "" "" "" "" "") ResidentialInformation_fields.
#[export] Instance ResidentialInformation_schema : Schema (c_zero ResidentialInformation_json) ResidentialInformation_fields.
Proof. schema. Qed.

Record PaymentInformation := mkPaymentInformation {
  pin_PayDay : Z;
}.
Definition PaymentInformation_fields : list (field_decl PaymentInformation) :=
  [ "payDay" ~> pin_PayDay as int omitempty ].
Definition PaymentInformation_json : codec PaymentInformation :=
  struct (mkPaymentInformation 0) PaymentInformation_fields.
#[export] Instance PaymentInformation_schema : Schema (c_zero PaymentInformation_json) PaymentInformation_fields.
Proof. schema. Qed.

Record FinancialInformation := mkFinancialInformation {
  fin_EmergencyContact : option EmergencyContact; fin_EmergencyContact2 : option EmergencyContact;
  fin_WorkInformation : option WorkInformation; fin_Residential : option ResidentialInformation;
  fin_PaymentInformation : option PaymentInformation;
}.
Definition FinancialInformation_fields : list (field_decl FinancialInformation) :=
  [ "emergencyContact" ~> fin_EmergencyContact as (ptr EmergencyContact_json) omitempty;
    "emergencyContact_2" ~> fin_EmergencyContact2 as (ptr EmergencyContact_json) omitempty;
    "workInformation" ~> fin_WorkInformation as (ptr WorkInformation_json) omitempty;
    "residential" ~> fin_Residential as (ptr ResidentialInformation_json) omitempty;
    "paymentInformation" ~> fin_PaymentInformation as (ptr PaymentInformation_json) omitempty ].
Definition FinancialInformation_json : codec FinancialInformation :=
  struct (mkFinancialInformation None None None None None) FinancialInformation_fields.
#[export] Instance FinancialInformation_schema : Schema (c_zero FinancialInformation_json) FinancialInformation_fields.
Proof. schema. Qed.

Record GPSSample := mkGPSSample {
  gps_Longitude : string; gps_Latitude : string; gps_Time : string;
}.
Definition GPSSample_fields : list (field_decl GPSSample) :=
  [ "longitude" ~> gps_Longitude as str omitempty; "latitude" ~> gps_Latitude as str omitempty;
    "time" ~> gps_Time as str omitempty ].
Definition GPSSample_json : codec GPSSample :=
  struct (mkGPSSample "" "" "") GPSSample_fields.
#[export] Instance GPSSample_schema : Schema (c_zero GPSSample_json) GPSSample_fields.
Proof. schema. Qed.

Record DeviceBuild := mkDeviceBuild {
  dvb_Board : string; dvb_Brand : string; dvb_CPUAbi : string; dvb_Device : string;
  dvb_Manufacturer : string; dvb_Model : string; dvb_Product : string;
}.
Definition DeviceBuild_fields : list (field_decl DeviceBuild) :=
  [ "board" ~> dvb_Board as str omitempty; "brand" ~> dvb_Brand as str omitempty;
    "cpuAbi" ~> dvb_CPUAbi as str omitempty; "device" ~> dvb_Device as str omitempty;
    "manufacturer" ~> dvb_Manufacturer as str omitempty; "model" ~> dvb_Model as str omitempty;
    "product" ~> dvb_Product as str omitempty ].
Definition DeviceBuild_json : codec DeviceBuild :=
  struct (mkDeviceBuild "" "" "" "" "" "" "") DeviceBuild_fields.
#[export] Instance DeviceBuild_schema : Schema (c_zero DeviceBuild_json) DeviceBuild_fields.
Proof. schema. Qed.

Record Device := mkDevice {
  dev_DeviceID : string; dev_GoogleAdvertisingID : string; dev_IDFA : string; dev_IDFV : string;
  dev_UTDID : string; dev_IsRoot : bool; dev_AndroidID : string; dev_Build : option DeviceBuild;
}.
Definition Device_fields : list (field_decl Device) :=
  [ "deviceId" ~> dev_DeviceID as str omitempty;
    "googleAdvertisingId" ~> dev_GoogleAdvertisingID as str omitempty; "idfa" ~> dev_IDFA as str omitempty;
    "idfv" ~> dev_IDFV as str omitempty; "utdid" ~> dev_UTDID as str omitempty;
    "isRoot" ~> dev_IsRoot as bool_; "androidId" ~> dev_AndroidID as str omitempty;
    "build" ~> dev_Build as (ptr DeviceBuild_json) omitempty ].
Definition Device_json : codec Device :=
  struct (mkDevice "" "" "" "" "" false "" None) Device_fields.
#[export] Instance Device_schema : Schema (c_zero Device_json) Device_fields.
Proof. schema. Qed.

Record WifiAP := mkWifiAP {
  wifi_SSID : string;
}.
Definition WifiAP_fields : list (field_decl WifiAP) :=
  [ "ssid" ~> wifi_SSID as str ].
Definition WifiAP_json : codec WifiAP :=
  struct (mkWifiAP "") WifiAP_fields.
#[export] Instance WifiAP_schema : Schema (c_zero WifiAP_json) WifiAP_fields.
Proof. schema. Qed.

Record IPAddress := mkIPAddress {
  ipa_EthIP : string; ipa_TrueIP : string;
}.
Definition IPAddress_fields : list (field_decl IPAddress) :=
  [ "ethIp" ~> ipa_EthIP as str omitempty; "trueIp" ~> ipa_TrueIP as str omitempty ].
Definition IPAddress_json : codec IPAddress :=
  struct (mkIPAddress "" "") IPAddress_fields.
#[export] Instance IPAddress_schema : Schema (c_zero IPAddress_json) IPAddress_fields.
Proof. schema. Qed.

Record DeviceInfo := mkDeviceInfo {
  dvi_Platform : string; dvi_GPS : option GPSSample; dvi_Device : option Device;
  dvi_WifiList : list WifiAP; dvi_IPAddress : option IPAddress;
}.
Definition DeviceInfo_fields : list (field_decl DeviceInfo) :=
  [ "platform" ~> dvi_Platform as str; "gps" ~> dvi_GPS as (ptr GPSSample_json) omitempty;
    "device" ~> dvi_Device as (ptr Device_json);
    "wifiList" ~> dvi_WifiList as (slice WifiAP_json) omitempty;
    "ipAddress" ~> dvi_IPAddress as (ptr IPAddress_json) omitempty ].
Definition DeviceInfo_json : codec DeviceInfo :=
  struct (mkDeviceInfo "" None None [] None) DeviceInfo_fields.
#[export] Instance DeviceInfo_schema : Schema (c_zero DeviceInfo_json) DeviceInfo_fields.
Proof. schema. Qed.

Record PlatformInformation := mkPlatformInformation {
  pli_CreditProfile : string; pli_LatestGkycTimeStamp : string; pli_UserFlag : UserFlag;
  pli_SCDUserLevel : SCDUserLevel; pli_SceneType : CreditSceneType; pli_DeviceInfo : option DeviceInfo;
}.
Definition PlatformInformation_fields : list (field_decl PlatformInformation) :=
  [ "creditProfile" ~> pli_CreditProfile as str;
    "latestGkycTimeStamp" ~> pli_LatestGkycTimeStamp as str omitempty; "userFlag" ~> pli_UserFlag as str;
    "scdUserLevel" ~> pli_SCDUserLevel as str; "sceneType" ~> pli_SceneType as str;
    "deviceInfo" ~> pli_DeviceInfo as (ptr DeviceInfo_json) ].
Definition PlatformInformation_json : codec PlatformInformation :=
  struct (mkPlatformInformation "" "" "" "" "" None) PlatformInformation_fields.
#[export] Instance PlatformInformation_schema : Schema (c_zero PlatformInformation_json) PlatformInformation_fields.
Proof. schema. Qed.

Record CreditInformationEssentialInfo := mkCreditInformationEssentialInfo {
  ciei_LivenessCheck : option LivenessCheck; ciei_IndividualProfile : option IndividualProfile;
  ciei_FinancialInformation : FinancialInformation; ciei_PlatformInformation : option PlatformInformation;
}.
Definition CreditInformationEssentialInfo_fields : list (field_decl CreditInformationEssentialInfo) :=
  [ "livenessCheck" ~> ciei_LivenessCheck as (ptr LivenessCheck_json) omitempty;
    "individualProfile" ~> ciei_IndividualProfile as (ptr IndividualProfile_json) omitempty ]
  ++ map (embed ciei_FinancialInformation ltac:(setter ciei_FinancialInformation)) FinancialInformation_fields
  ++ [ "platformInformation" ~> ciei_PlatformInformation as (ptr PlatformInformation_json) ].
Definition CreditInformationEssentialInfo_json : codec CreditInformationEssentialInfo :=
  struct (mkCreditInformationEssentialInfo None None (c_zero FinancialInformation_json) None)
  CreditInformationEssentialInfo_fields.
#[export] Instance CreditInformationEssentialInfo_schema : Schema (c_zero CreditInformationEssentialInfo_json) CreditInformationEssentialInfo_fields.
Proof. schema_by ltac:(intros [? ? [] ?]; rebuilt). Qed.

Record CreditInformationExtendInfo := mkCreditInformationExtendInfo {
  cixi_Language : Language;
}.
Definition CreditInformationExtendInfo_fields : list (field_decl CreditInformationExtendInfo) :=
  [ "language" ~> cixi_Language as str omitempty ].
Definition CreditInformationExtendInfo_json : codec CreditInformationExtendInfo :=
  struct (mkCreditInformationExtendInfo "") CreditInformationExtendInfo_fields.
#[export] Instance CreditInformationExtendInfo_schema : Schema (c_zero CreditInformationExtendInfo_json) CreditInformationExtendInfo_fields.
Proof. schema. Qed.

Record CreditInformationParam := mkCreditInformationParam {
  ciq_RequestID : string; ciq_ExternalReferenceUID : string; ciq_MobileNumber : string; ciq_Email : string;
  ciq_Country : Country; ciq_ApplicationEssentialInfo : option CreditInformationEssentialInfo;
  ciq_ExtendInfo : option CreditInformationExtendInfo;
}.
Definition CreditInformationParam_fields : list (field_decl CreditInformationParam) :=
  [ "requestId" ~> ciq_RequestID as str; "externalReferenceUid" ~> ciq_ExternalReferenceUID as str;
    "mobileNumber" ~> ciq_MobileNumber as str; "email" ~> ciq_Email as str;
    "country" ~> ciq_Country as str;
    "applicationEssentialInfo" ~> ciq_ApplicationEssentialInfo as (ptr CreditInformationEssentialInfo_json);
    "extendInfo" ~> ciq_ExtendInfo as (ptr CreditInformationExtendInfo_json) omitempty ].
Definition CreditInformationParam_json : codec CreditInformationParam :=
  struct (mkCreditInformationParam "" "" "" "" "" None None) CreditInformationParam_fields.
#[export] Instance CreditInformationParam_schema : Schema (c_zero CreditInformationParam_json) CreditInformationParam_fields.
Proof. schema. Qed.

Record ApplicationEssentialInfo := mkApplicationEssentialInfo {
  aei_LivenessCheck : option LivenessCheck; aei_IndividualProfile : option IndividualProfile;
  aei_FinancialInformation : FinancialInformation; aei_PlatformInformation : option PlatformInformation;
}.
Definition ApplicationEssentialInfo_fields : list (field_decl ApplicationEssentialInfo) :=
  [ "livenessCheck" ~> aei_LivenessCheck as (ptr LivenessCheck_json) omitempty;
    "individualProfile" ~> aei_IndividualProfile as (ptr IndividualProfile_json) omitempty ]
  ++ map (embed aei_FinancialInformation ltac:(setter aei_FinancialInformation)) FinancialInformation_fields
  ++ [ "platformInformation" ~> aei_PlatformInformation as (ptr PlatformInformation_json) ].
Definition ApplicationEssentialInfo_json : codec ApplicationEssentialInfo :=
  struct (mkApplicationEssentialInfo None None (c_zero FinancialInformation_json) None)
  ApplicationEssentialInfo_fields.
#[export] Instance ApplicationEssentialInfo_schema : Schema (c_zero ApplicationEssentialInfo_json) ApplicationEssentialInfo_fields.
Proof. schema_by ltac:(intros [? ? [] ?]; rebuilt). Qed.

Record CreditApplicationExtendInfo := mkCreditApplicationExtendInfo {
  caxi_CreditInformationRequestID : string;
}.
Definition CreditApplicationExtendInfo_fields : list (field_decl CreditApplicationExtendInfo) :=
  [ "creditInformationRequestId" ~> caxi_CreditInformationRequestID as str ].
Definition CreditApplicationExtendInfo_json : codec CreditApplicationExtendInfo :=
  struct (mkCreditApplicationExtendInfo "") CreditApplicationExtendInfo_fields.
#[export] Instance CreditApplicationExtendInfo_schema : Schema (c_zero CreditApplicationExtendInfo_json) CreditApplicationExtendInfo_fields.
Proof. schema. Qed.

Record CreditApplicationParam := mkCreditApplicationParam {
  caq_RequestID : string; caq_ExternalReferenceUID : string; caq_MobileNumber : string; caq_Email : string;
  caq_Country : Country; caq_ApplicationEssentialInfo : option ApplicationEssentialInfo;
  caq_ExtendInfo : option CreditApplicationExtendInfo;
}.
Definition CreditApplicationParam_fields : list (field_decl CreditApplicationParam) :=
  [ "requestId" ~> caq_RequestID as str; "externalReferenceUid" ~> caq_ExternalReferenceUID as str;
    "mobileNumber" ~> caq_MobileNumber as str; "email" ~> caq_Email as str;
    "country" ~> caq_Country as str;
    "applicationEssentialInfo" ~> caq_ApplicationEssentialInfo as (ptr ApplicationEssentialInfo_json) omitempty;
    "extendInfo" ~> caq_ExtendInfo as (ptr CreditApplicationExtendInfo_json) ].
Definition CreditApplicationParam_json : codec CreditApplicationParam :=
  struct (mkCreditApplicationParam "" "" "" "" "" None None) CreditApplicationParam_fields.
#[export] Instance CreditApplicationParam_schema : Schema (c_zero CreditApplicationParam_json) CreditApplicationParam_fields.
Proof. schema. Qed.

Record CreditApplicationChangeExtendInfo := mkCreditApplicationChangeExtendInfo {
  ccxi_Language : Language;
}.
Definition CreditApplicationChangeExtendInfo_fields : list (field_decl CreditApplicationChangeExtendInfo) :=
  [ "language" ~> ccxi_Language as str omitempty ].
Definition CreditApplicationChangeExtendInfo_json : codec CreditApplicationChangeExtendInfo :=
  struct (mkCreditApplicationChangeExtendInfo "") CreditApplicationChangeExtendInfo_fields.
#[export] Instance CreditApplicationChangeExtendInfo_schema : Schema (c_zero CreditApplicationChangeExtendInfo_json) CreditApplicationChangeExtendInfo_fields.
Proof. schema. Qed.

Record CreditApplicationChangeParam := mkCreditApplicationChangeParam {
  ccq_RequestID : string; ccq_ExternalReferenceUID : string; ccq_MobileNumber : string; ccq_Email : string;
  ccq_ExtendInfo : option CreditApplicationChangeExtendInfo;
}.
Definition CreditApplicationChangeParam_fields : list (field_decl CreditApplicationChangeParam) :=
  [ "requestId" ~> ccq_RequestID as str; "externalReferenceUid" ~> ccq_ExternalReferenceUID as str;
    "mobileNumber" ~> ccq_MobileNumber as str; "email" ~> ccq_Email as str omitempty;
    "extendInfo" ~> ccq_ExtendInfo as (ptr CreditApplicationChangeExtendInfo_json) omitempty ].
Definition CreditApplicationChangeParam_json : codec CreditApplicationChangeParam :=
  struct (mkCreditApplicationChangeParam "" "" "" "" None) CreditApplicationChangeParam_fields.
#[export] Instance CreditApplicationChangeParam_schema : Schema (c_zero CreditApplicationChangeParam_json) CreditApplicationChangeParam_fields.
Proof. schema. Qed.

Record CloseAccountParam := mkCloseAccountParam {
  clq_RequestID : string; clq_ExternalReferenceUID : string;
}.
Definition CloseAccountParam_fields : list (field_decl CloseAccountParam) :=
  [ "requestId" ~> clq_RequestID as str; "externalReferenceUid" ~> clq_ExternalReferenceUID as str ].
Definition CloseAccountParam_json : codec CloseAccountParam :=
  struct (mkCloseAccountParam "" "") CloseAccountParam_fields.
#[export] Instance CloseAccountParam_schema : Schema (c_zero CloseAccountParam_json) CloseAccountParam_fields.
Proof. schema. Qed.

(** ** Responses *)

Record QueryUserTagResult := mkQueryUserTagResult {
  utd_UserTag : UserTag; utd_UserStatus : UserTagStatus; utd_ExtendInfo : option (gmap string json);
}.
Definition QueryUserTagResult_fields : list (field_decl QueryUserTagResult) :=
  [ "userTag" ~> utd_UserTag as str; "userStatus" ~> utd_UserStatus as str;
    "extendInfo" ~> utd_ExtendInfo as object omitempty ].
Definition QueryUserTagResult_json : codec QueryUserTagResult :=
  struct (mkQueryUserTagResult "" "" None) QueryUserTagResult_fields.
#[export] Instance QueryUserTagResult_schema : Schema (c_zero QueryUserTagResult_json) QueryUserTagResult_fields.
Proof. schema. Qed.

Record QueryUserTagResponse := mkQueryUserTagResponse {
  utr_Code : Code; utr_Message : string; utr_Data : option QueryUserTagResult;
}.
Definition QueryUserTagResponse_fields : list (field_decl QueryUserTagResponse) :=
  [ "code" ~> utr_Code as str; "message" ~> utr_Message as str;
    "data" ~> utr_Data as (ptr QueryUserTagResult_json) omitempty ].
Definition QueryUserTagResponse_json : codec QueryUserTagResponse :=
  struct (mkQueryUserTagResponse "" "" None) QueryUserTagResponse_fields.
#[export] Instance QueryUserTagResponse_schema : Schema (c_zero QueryUserTagResponse_json) QueryUserTagResponse_fields.
Proof. schema. Qed.

Record CreditInformationResult := mkCreditInformationResult {
  cird_RequestID : string; cird_ExternalReferenceUID : string; cird_Status : CreditStatus;
  cird_JumpURL : string; cird_FailReason : string; cird_ExtendInfo : option (gmap string json);
}.
Definition CreditInformationResult_fields : list (field_decl CreditInformationResult) :=
  [ "requestId" ~> cird_RequestID as str; "externalReferenceUid" ~> cird_ExternalReferenceUID as str;
    "status" ~> cird_Status as str; "jumpUrl" ~> cird_JumpURL as str;
    "failReason" ~> cird_FailReason as str omitempty; "extendInfo" ~> cird_ExtendInfo as object omitempty ].
Definition CreditInformationResult_json : codec CreditInformationResult :=
  struct (mkCreditInformationResult "" "" "" "" "" None) CreditInformationResult_fields.
#[export] Instance CreditInformationResult_schema : Schema (c_zero CreditInformationResult_json) CreditInformationResult_fields.
Proof. schema. Qed.

Record CreditInformationResponse := mkCreditInformationResponse {
  cir_Code : Code; cir_Message : string; cir_Data : option CreditInformationResult;
}.
Definition CreditInformationResponse_fields : list (field_decl CreditInformationResponse) :=
  [ "code" ~> cir_Code as str; "message" ~> cir_Message as str;
    "data" ~> cir_Data as (ptr CreditInformationResult_json) omitempty ].
Definition CreditInformationResponse_json : codec CreditInformationResponse :=
  struct (mkCreditInformationResponse "" "" None) CreditInformationResponse_fields.
#[export] Instance CreditInformationResponse_schema : Schema (c_zero CreditInformationResponse_json) CreditInformationResponse_fields.
Proof. schema. Qed.

Record CreditInfo := mkCreditInfo {
  cri_TotalCredit : Amount; cri_AvailableCredit : Amount; cri_UsedCredit : Amount;
  cri_LateFeeAmount : Amount; cri_OverpaidAmount : Amount; cri_OverpaidWithdrawAmount : Amount;
  cri_OverpaidWithdrawLink : string; cri_UserStatus : UserStatus; cri_Version : Z;
}.
Definition CreditInfo_fields : list (field_decl CreditInfo) :=
  [ "totalCredit" ~> cri_TotalCredit as int; "availableCredit" ~> cri_AvailableCredit as int;
    "usedCredit" ~> cri_UsedCredit as int; "lateFeeAmount" ~> cri_LateFeeAmount as int omitempty;
    "overpaidAmount" ~> cri_OverpaidAmount as int omitempty;
    "overpaidWithdrawAmount" ~> cri_OverpaidWithdrawAmount as int omitempty;
    "overpaidWithdrawLink" ~> cri_OverpaidWithdrawLink as str omitempty;
    "userStatus" ~> cri_UserStatus as str; "version" ~> cri_Version as int ].
Definition CreditInfo_json : codec CreditInfo :=
  struct (mkCreditInfo 0 0 0 0 0 0 "" "" 0) CreditInfo_fields.
#[export] Instance CreditInfo_schema : Schema (c_zero CreditInfo_json) CreditInfo_fields.
Proof. schema. Qed.

Record LoanCreditInfo := mkLoanCreditInfo {
  lci_LoanStatus : LoanStatus; lci_ReapplyTime : Z;
}.
Definition LoanCreditInfo_fields : list (field_decl LoanCreditInfo) :=
  [ "loanStatus" ~> lci_LoanStatus as str omitempty; "reapplyTime" ~> lci_ReapplyTime as int omitempty ].
Definition LoanCreditInfo_json : codec LoanCreditInfo :=
  struct (mkLoanCreditInfo "" 0) LoanCreditInfo_fields.
#[export] Instance LoanCreditInfo_schema : Schema (c_zero LoanCreditInfo_json) LoanCreditInfo_fields.
Proof. schema. Qed.

Record CreditApplicationResult := mkCreditApplicationResult {
  card_ExternalReferenceUID : string; card_Status : CreditStatus; card_ReapplyTime : Z;
  card_FailReason : list FailReason; card_Currency : Currency; card_CreditInfo : option CreditInfo;
  card_LoanCreditInfo : option LoanCreditInfo; card_BillDay : Z; card_PayDay : Z;
  card_ExtendInfo : option (gmap string json);
}.
Definition CreditApplicationResult_fields : list (field_decl CreditApplicationResult) :=
  [ "externalReferenceUid" ~> card_ExternalReferenceUID as str; "status" ~> card_Status as str;
    "reapplyTime" ~> card_ReapplyTime as int omitempty;
    "failReason" ~> card_FailReason as (slice str) omitempty; "currency" ~> card_Currency as str;
    "creditInfo" ~> card_CreditInfo as (ptr CreditInfo_json) omitempty;
    "loanCreditInfo" ~> card_LoanCreditInfo as (ptr LoanCreditInfo_json) omitempty;
    "billDay" ~> card_BillDay as int omitempty; "payDay" ~> card_PayDay as int omitempty;
    "extendInfo" ~> card_ExtendInfo as object omitempty ].
Definition CreditApplicationResult_json : codec CreditApplicationResult :=
  struct (mkCreditApplicationResult "" "" 0 [] "" None None 0 0 None) CreditApplicationResult_fields.
#[export] Instance CreditApplicationResult_schema : Schema (c_zero CreditApplicationResult_json) CreditApplicationResult_fields.
Proof. schema. Qed.

Record CreditApplicationResponse := mkCreditApplicationResponse {
  car_Code : Code; car_Message : string; car_Data : option CreditApplicationResult;
}.
Definition CreditApplicationResponse_fields : list (field_decl CreditApplicationResponse) :=
  [ "code" ~> car_Code as str; "message" ~> car_Message as str;
    "data" ~> car_Data as (ptr CreditApplicationResult_json) omitempty ].
Definition CreditApplicationResponse_json : codec CreditApplicationResponse :=
  struct (mkCreditApplicationResponse "" "" None) CreditApplicationResponse_fields.
#[export] Instance CreditApplicationResponse_schema : Schema (c_zero CreditApplicationResponse_json) CreditApplicationResponse_fields.
Proof. schema. Qed.

Record CreditApplicationCollectQueryResult := mkCreditApplicationCollectQueryResult {
  cicd_RequestID : string; cicd_ExternalReferenceUID : string; cicd_Status : CreditStatus;
  cicd_FailReason : string; cicd_ExtendInfo : option (gmap string json);
}.
Definition CreditApplicationCollectQueryResult_fields : list (field_decl CreditApplicationCollectQueryResult) :=
  [ "requestId" ~> cicd_RequestID as str; "externalReferenceUid" ~> cicd_ExternalReferenceUID as str;
    "status" ~> cicd_Status as str; "failReason" ~> cicd_FailReason as str omitempty;
    "extendInfo" ~> cicd_ExtendInfo as object omitempty ].
Definition CreditApplicationCollectQueryResult_json : codec CreditApplicationCollectQueryResult :=
  struct (mkCreditApplicationCollectQueryResult "" "" "" "" None)
  CreditApplicationCollectQueryResult_fields.
#[export] Instance CreditApplicationCollectQueryResult_schema : Schema (c_zero CreditApplicationCollectQueryResult_json) CreditApplicationCollectQueryResult_fields.
Proof. schema. Qed.

Record CreditInformationCollectResponse := mkCreditInformationCollectResponse {
  cicr_Code : Code; cicr_Message : string; cicr_Data : option CreditApplicationCollectQueryResult;
}.
Definition CreditInformationCollectResponse_fields : list (field_decl CreditInformationCollectResponse) :=
  [ "code" ~> cicr_Code as str; "message" ~> cicr_Message as str;
    "data" ~> cicr_Data as (ptr CreditApplicationCollectQueryResult_json) omitempty ].
Definition CreditInformationCollectResponse_json : codec CreditInformationCollectResponse :=
  struct (mkCreditInformationCollectResponse "" "" None) CreditInformationCollectResponse_fields.
#[export] Instance CreditInformationCollectResponse_schema : Schema (c_zero CreditInformationCollectResponse_json) CreditInformationCollectResponse_fields.
Proof. schema. Qed.

(** ** Balance history *)

Record BalanceHistoryParams := mkBalanceHistoryParams {
  bhp_ExternalReferenceUID : string; bhp_Type : BalanceHistoryType; bhp_RequestID : string; bhp_Start : Z;
  bhp_Count : Z;
}.

Record RecordInfo := mkRecordInfo {
  rec_RequestID : string; rec_ChangeAmount : string; rec_Event : string; rec_ValidTil : Z; rec_Time : Z;
}.
Definition RecordInfo_fields : list (field_decl RecordInfo) :=
  [ "requestId" ~> rec_RequestID as str omitempty; "changeAmount" ~> rec_ChangeAmount as str omitempty;
    "event" ~> rec_Event as str omitempty; "validTil" ~> rec_ValidTil as int omitempty;
    "time" ~> rec_Time as int omitempty ].
Definition RecordInfo_json : codec RecordInfo :=
  struct (mkRecordInfo "" "" "" 0 0) RecordInfo_fields.
#[export] Instance RecordInfo_schema : Schema (c_zero RecordInfo_json) RecordInfo_fields.
Proof. schema. Qed.

Record Paginator := mkPaginator {
  pg_Start : Z; pg_Count : Z; pg_TotalCount : Z;
}.
Definition Paginator_fields : list (field_decl Paginator) :=
  [ "start" ~> pg_Start as int omitempty; "count" ~> pg_Count as int omitempty;
    "totalCount" ~> pg_TotalCount as int omitempty ].
Definition Paginator_json : codec Paginator :=
  struct (mkPaginator 0 0 0) Paginator_fields.
#[export] Instance Paginator_schema : Schema (c_zero Paginator_json) Paginator_fields.
Proof. schema. Qed.

Record CreditChangeHistoryResponse := mkCreditChangeHistoryResponse {
  bhd_ExternalReferenceUID : string; bhd_Type : BalanceHistoryType; bhd_Currency : Currency;
  bhd_RecordInfo : list RecordInfo; bhd_Paginator : option Paginator;
}.
Definition CreditChangeHistoryResponse_fields : list (field_decl CreditChangeHistoryResponse) :=
  [ "externalReferenceUid" ~> bhd_ExternalReferenceUID as str; "type" ~> bhd_Type as str;
    "currency" ~> bhd_Currency as str; "recordInfo" ~> bhd_RecordInfo as (slice RecordInfo_json);
    "paginator" ~> bhd_Paginator as (ptr Paginator_json) omitempty ].
Definition CreditChangeHistoryResponse_json : codec CreditChangeHistoryResponse :=
  struct (mkCreditChangeHistoryResponse "" "" "" [] None) CreditChangeHistoryResponse_fields.
#[export] Instance CreditChangeHistoryResponse_schema : Schema (c_zero CreditChangeHistoryResponse_json) CreditChangeHistoryResponse_fields.
Proof. schema. Qed.

Record BalanceHistoryResponse := mkBalanceHistoryResponse {
  bhr_Code : Code; bhr_Message : string; bhr_Data : option CreditChangeHistoryResponse;
}.
Definition BalanceHistoryResponse_fields : list (field_decl BalanceHistoryResponse) :=
  [ "code" ~> bhr_Code as str; "message" ~> bhr_Message as str;
    "data" ~> bhr_Data as (ptr CreditChangeHistoryResponse_json) omitempty ].
Definition BalanceHistoryResponse_json : codec BalanceHistoryResponse :=
  struct (mkBalanceHistoryResponse "" "" None) BalanceHistoryResponse_fields.
#[export] Instance BalanceHistoryResponse_schema : Schema (c_zero BalanceHistoryResponse_json) BalanceHistoryResponse_fields.
Proof. schema. Qed.

Record ModifyApplicationInfoResponse := mkModifyApplicationInfoResponse {
  mar_Code : Code; mar_Message : string;
}.
Definition ModifyApplicationInfoResponse_fields : list (field_decl ModifyApplicationInfoResponse) :=
  [ "code" ~> mar_Code as str; "message" ~> mar_Message as str ].
Definition ModifyApplicationInfoResponse_json : codec ModifyApplicationInfoResponse :=
  struct (mkModifyApplicationInfoResponse "" "") ModifyApplicationInfoResponse_fields.
#[export] Instance ModifyApplicationInfoResponse_schema : Schema (c_zero ModifyApplicationInfoResponse_json) ModifyApplicationInfoResponse_fields.
Proof. schema. Qed.

Record CloseAccountResponse := mkCloseAccountResponse {
  clr_Code : Code; clr_Message : string;
}.
Definition CloseAccountResponse_fields : list (field_decl CloseAccountResponse) :=
  [ "code" ~> clr_Code as str; "message" ~> clr_Message as str ].
Definition CloseAccountResponse_json : codec CloseAccountResponse :=
  struct (mkCloseAccountResponse "" "") CloseAccountResponse_fields.
#[export] Instance CloseAccountResponse_schema : Schema (c_zero CloseAccountResponse_json) CloseAccountResponse_fields.
Proof. schema. Qed.

(** ** Statuses of responses; [None] is a nil response. *)

Definition CreditInformationResponse_IsSuccess (r : option CreditInformationResponse) : bool :=
  match r with Some r => bool_decide (cir_Code r = CodeSuccess) | None => false end.
Definition CreditInformationResponse_IsTerminal (r : option CreditInformationResponse) : bool :=
  match r with
  | Some r => match cir_Data r with Some d => CreditStatus_IsTerminal (cird_Status d) | None => false end
  | None => false
  end.

Definition CreditApplicationResponse_IsSuccess (r : option CreditApplicationResponse) : bool :=
  match r with Some r => bool_decide (car_Code r = CodeSuccess) | None => false end.
Definition CreditApplicationResponse_IsTerminal (r : option CreditApplicationResponse) : bool :=
  match r with
  | Some r => match car_Data r with Some d => CreditStatus_IsTerminal (card_Status d) | None => false end
  | None => false
  end.
Definition CreditApplicationResponse_IsProcessing (r : option CreditApplicationResponse) : bool :=
  match r with
  | Some r => match car_Data r with
              | Some d => bool_decide (card_Status d = CreditStatusProcessing)
              | None => false
              end
  | None => false
  end.

Definition CreditInformationCollectResponse_IsSuccess (r : option CreditInformationCollectResponse) : bool :=
  match r with Some r => bool_decide (cicr_Code r = CodeSuccess) | None => false end.
Definition CreditInformationCollectResponse_IsTerminal (r : option CreditInformationCollectResponse) : bool :=
  match r with
  | Some r => match cicr_Data r with Some d => CreditStatus_IsTerminal (cicd_Status d) | None => false end
  | None => false
  end.

Definition QueryUserTagResponse_IsSuccess (r : option QueryUserTagResponse) : bool :=
  match r with Some r => bool_decide (utr_Code r = CodeSuccess) | None => false end.

Definition BalanceHistoryResponse_IsSuccess (r : option BalanceHistoryResponse) : bool :=
  match r with Some r => bool_decide (bhr_Code r = CodeSuccess) | None => false end.

Definition ModifyApplicationInfoResponse_IsSuccess (r : option ModifyApplicationInfoResponse) : bool :=
  match r with Some r => bool_decide (mar_Code r = CodeSuccess) | None => false end.

Definition CloseAccountResponse_IsSuccess (r : option CloseAccountResponse) : bool :=
  match r with Some r => bool_decide (clr_Code r = CodeSuccess) | None => false end.
