(* ===== verification/Credit.v ===== *)
(** * Credit: the calls of [atomefin/credit] and its validators.

    [QueryUserTag], [SubmitInformation] and [SubmitApplication] travel encrypted
    ([submit_encrypted], [invokeEncryptedPost]); [ModifyApplicationInfo] and [CloseAccount] are
    submitted in the clear; [QueryResult], [QueryInformationResult] and [BalanceHistory]
    fetch. *)
From S2P Require Import Prelude GoStd Errors Canonical GoCrypto Sign Encrypt GoHttp Json Codec Schema Transport World.
From S2P Require Import Client Doer Gateway Service PaymentRules Payment CreditTypes.

Definition DefaultStart : Z := 1.
Definition DefaultCount : Z := 10.
Definition MaxCount : Z := 50.

(** ** Validators ([credit/validation.go]) *)

Definition maxRequestID : Z := 64.
Definition maxExternalReferenceUID : Z := 64.
Definition maxEmail : Z := 64.

Definition errRequired (fld : string) : error := EValidation fld "required".

Definition validateCreditApplication (req : CreditApplicationParam) : option error :=
  reject errRequired "requestId" when is_empty (caq_RequestID req) ;;
  reject errMax64 "requestId" when slen (caq_RequestID req) >? maxRequestID ;;
  reject errRequired "externalReferenceUid" when is_empty (caq_ExternalReferenceUID req) ;;
  reject errMax64 "externalReferenceUid" when slen (caq_ExternalReferenceUID req) >? maxExternalReferenceUID ;;
  reject errRequired "mobileNumber" when is_empty (caq_MobileNumber req) ;;
  reject errRequired "email" when is_empty (caq_Email req) ;;
  reject errMax64 "email" when slen (caq_Email req) >? maxEmail ;;
  reject errRequired "country" when is_empty (caq_Country req) ;;
  reject EValidation "country" "only ID is currently supported by the spec"
    when negb (Country_IsValid (caq_Country req)) ;;
  match caq_ExtendInfo req with
  | None => Some (EValidation "extendInfo" "required (carries creditInformationRequestId)")
  | Some e =>
      reject EValidation "extendInfo.creditInformationRequestId"
        "required (the requestId from the prior /credit-information call)"
        when is_empty (caxi_CreditInformationRequestID e) ;;
      reject errMax64 "extendInfo.creditInformationRequestId"
        when slen (caxi_CreditInformationRequestID e) >? maxRequestID ;; None
  end.

Definition validateCreditApplicationChange (req : CreditApplicationChangeParam) : option error :=
  reject errRequired "requestId" when is_empty (ccq_RequestID req) ;;
  reject errMax64 "requestId" when slen (ccq_RequestID req) >? maxRequestID ;;
  reject errRequired "externalReferenceUid" when is_empty (ccq_ExternalReferenceUID req) ;;
  reject errMax64 "externalReferenceUid" when slen (ccq_ExternalReferenceUID req) >? maxExternalReferenceUID ;;
  reject EValidation "mobileNumber" "required (per spec — the modify endpoint always carries the new mobile)"
    when is_empty (ccq_MobileNumber req) ;;
  reject errMax64 "email" when negb (is_empty (ccq_Email req)) && (slen (ccq_Email req) >? maxEmail) ;;
  match ccq_ExtendInfo req with
  | Some e =>
      reject EValidation "extendInfo.language" "must be one of en | id"
        when negb (is_empty (ccxi_Language e)) && negb (Language_IsValid (ccxi_Language e)) ;; None
  | None => None
  end.

Definition validateCloseAccount (req : CloseAccountParam) : option error :=
  reject errRequired "requestId" when is_empty (clq_RequestID req) ;;
  reject errMax64 "requestId" when slen (clq_RequestID req) >? maxRequestID ;;
  reject errRequired "externalReferenceUid" when is_empty (clq_ExternalReferenceUID req) ;;
  reject errMax64 "externalReferenceUid" when slen (clq_ExternalReferenceUID req) >? maxExternalReferenceUID ;; None.

Definition validateBalanceHistoryParams (p : BalanceHistoryParams) : option error :=
  reject errRequired "externalReferenceUid" when is_empty (bhp_ExternalReferenceUID p) ;;
  reject errMax64 "externalReferenceUid" when slen (bhp_ExternalReferenceUID p) >? maxExternalReferenceUID ;;
  reject errRequired "type" when is_empty (bhp_Type p) ;;
  reject EValidation "type" "must be one of OVERPAID_CHANGE | CREDIT_LIMIT_ADJUSTMENT | TRADE_AVAILABLE_CREDIT_CHANGE"
    when negb (BalanceHistoryType_IsValid (bhp_Type p)) ;;
  reject errMax64 "requestId" when negb (is_empty (bhp_RequestID p)) && (slen (bhp_RequestID p) >? maxRequestID) ;;
  reject EValidation "start" "must be >= 0 (0 → default 1)" when bhp_Start p <? 0 ;;
  reject EValidation "count" "must be >= 0 (0 → default 10)" when bhp_Count p <? 0 ;;
  reject EValidation "count" "exceeds spec server cap of 50" when bhp_Count p >? MaxCount ;; None.

(** The guards of [QueryResult] and [QueryInformationResult]. *)
Definition validateQueryResult (externalReferenceUID : string) : option error :=
  reject errRequired "externalReferenceUid" when is_empty externalReferenceUID ;;
  reject errMax64 "externalReferenceUid" when slen externalReferenceUID >? 64 ;; None.

Definition validateQueryInformationResult (externalReferenceUID requestID : string) : option error :=
  reject errRequired "externalReferenceUid" when is_empty externalReferenceUID ;;
  reject errMax64 "externalReferenceUid" when slen externalReferenceUID >? 64 ;;
  reject EValidation "requestId" "required (the requestId from the prior /credit-information submission)"
    when is_empty requestID ;;
  reject errMax64 "requestId" when slen requestID >? 64 ;; None.

Definition buildBalanceHistoryQuery (p : BalanceHistoryParams) : Values :=
  let q := Values_Set ∅ "externalReferenceUid" (bhp_ExternalReferenceUID p) in
  let q := Values_Set q "type" (bhp_Type p) in
  let q := if negb (is_empty (bhp_RequestID p)) then Values_Set q "requestId" (bhp_RequestID p) else q in
  let q := Values_Set q "start" (itoa (or_default (bhp_Start p) DefaultStart)) in
  Values_Set q "count" (itoa (or_default (bhp_Count p) DefaultCount)).

(** ** Calls ([credit/credit.go]) *)

Section Credit.
Context {R : RSA} {A : AES} {E : Env} {FC : FloatConv}.

(** [New]; [Service.Client] is [Service_Client]. *)
Definition New : option Client -> option Service := NewService.

Definition checkConfigured : option Service -> option error :=
  check_service "nil *credit.Service (likely from credit.New(nil))" "*credit.Service has nil *atomefin.Client".

(** A call that generates a key: [None] when the random bytes [Env] supplies run out
    before 32 are accepted. *)
Definition MO (B : Type) : Type := world -> option (B * world).

Definition invokePost {I O} (ci : codec I) (co : codec O) (c : Client) (ctx : context) (op : string) (req : I) : M (res O) :=
  post ci co c ctx op req [].
Definition invokeGet {O} (co : codec O) (c : Client) (ctx : context) (op : string) (q : Values) : M (res O) :=
  get co c ctx op q.

Definition invokeEncryptedPost {I O} (ci : codec I) (co : codec O) (c : Client) (ctx : context) (op : string) (req : I)
    : MO (res O) := fun w =>
  match marshal ci req with
  | Err err => Some (Err (ESignature "marshal" (Some err)), w)
  | Ok body =>
      match DoEncryptedSigned c ctx "POST" op body [] w with
      | None => None
      | Some (resp, w) => Some (decoded co op resp, w)
      end
  end.

(** [submit] for an encrypted call. *)
Definition submit_encrypted {I O} (nil_request : string) (getID : I -> string) (setID : string -> I -> I)
    (validate : I -> option error) (call : Client -> I -> MO (res O)) (s : option Service) (req : option I)
    : MO (res O * option I) := fun w =>
  match checkConfigured s, Service_Client s with
  | Some err, _ => Some ((Err err, req), w)
  | None, None => Some ((Err (ENew "unreachable: nil Client"), req), w)
  | None, Some c =>
      match req with
      | None => Some ((Err (EValidation "request" nil_request), None), w)
      | Some req =>
          let '(req, w) := ensureID getID setID c req w in
          match validate req with
          | Some err => Some ((Err err, Some req), w)
          | None =>
              match call c req w with
              | None => None
              | Some (resp, w) => Some ((resp, Some req), w)
              end
          end
      end
  end.

Definition set_utq_RequestID (id : string) (q : QueryUserTagParam) : QueryUserTagParam :=
  mkQueryUserTagParam id (utq_MobileNumber q) (utq_Country q).

Definition QueryUserTag (s : option Service) (ctx : context)
    : option QueryUserTagParam -> MO (res QueryUserTagResponse * option QueryUserTagParam) :=
  submit_encrypted "nil QueryUserTagParam" utq_RequestID set_utq_RequestID (fun _ => None)
    (fun c => invokeEncryptedPost QueryUserTagParam_json QueryUserTagResponse_json c ctx "/query-user-tag") s.

(** The deprecated alias. *)
Definition GetUserTag (s : option Service) (ctx : context) (req : option QueryUserTagParam)
    : MO (res QueryUserTagResponse * option QueryUserTagParam) := QueryUserTag s ctx req.

Definition set_ciq_RequestID (id : string) (q : CreditInformationParam) : CreditInformationParam :=
  mkCreditInformationParam id (ciq_ExternalReferenceUID q) (ciq_MobileNumber q) (ciq_Email q) (ciq_Country q)
    (ciq_ApplicationEssentialInfo q) (ciq_ExtendInfo q).

Definition SubmitInformation (s : option Service) (ctx : context)
    : option CreditInformationParam -> MO (res CreditInformationResponse * option CreditInformationParam) :=
  submit_encrypted "nil CreditInformationParam" ciq_RequestID set_ciq_RequestID (fun _ => None)
    (fun c => invokeEncryptedPost CreditInformationParam_json CreditInformationResponse_json c ctx "/credit-information") s.

Definition set_caq_RequestID (id : string) (q : CreditApplicationParam) : CreditApplicationParam :=
  mkCreditApplicationParam id (caq_ExternalReferenceUID q) (caq_MobileNumber q) (caq_Email q) (caq_Country q)
    (caq_ApplicationEssentialInfo q) (caq_ExtendInfo q).

Definition SubmitApplication (s : option Service) (ctx : context)
    : option CreditApplicationParam -> MO (res CreditApplicationResponse * option CreditApplicationParam) :=
  submit_encrypted "nil CreditApplicationParam" caq_RequestID set_caq_RequestID validateCreditApplication
    (fun c => invokeEncryptedPost CreditApplicationParam_json CreditApplicationResponse_json c ctx "/credit-application") s.

Definition QueryResult (s : option Service) (ctx : context) (externalReferenceUID : string)
    : M (res CreditApplicationResponse) :=
  fetch checkConfigured (validateQueryResult externalReferenceUID)
    (fun c => invokeGet CreditApplicationResponse_json c ctx "/credit-result"
                {[ "externalReferenceUid" := [externalReferenceUID] ]}) s.

Definition QueryInformationResult (s : option Service) (ctx : context) (externalReferenceUID requestID : string)
    : M (res CreditInformationCollectResponse) :=
  fetch checkConfigured (validateQueryInformationResult externalReferenceUID requestID)
    (fun c => invokeGet CreditInformationCollectResponse_json c ctx "/credit-information-result"
                (query_by_id requestID externalReferenceUID)) s.

Definition BalanceHistory (s : option Service) (ctx : context) (params : option BalanceHistoryParams)
    : M (res BalanceHistoryResponse) :=
  fetch checkConfigured
    (match params with
     | None => Some (EValidation "request" "nil BalanceHistoryParams")
     | Some p => validateBalanceHistoryParams p
     end)
    (fun c => match params with
              | Some p => invokeGet BalanceHistoryResponse_json c ctx "/query-balance-history" (buildBalanceHistoryQuery p)
              | None => ret (Err (ENew "unreachable: nil params"))
              end) s.

Definition set_ccq_RequestID (id : string) (q : CreditApplicationChangeParam) : CreditApplicationChangeParam :=
  mkCreditApplicationChangeParam id (ccq_ExternalReferenceUID q) (ccq_MobileNumber q) (ccq_Email q) (ccq_ExtendInfo q).

Definition ModifyApplicationInfo (s : option Service) (ctx : context)
    : option CreditApplicationChangeParam -> M (res ModifyApplicationInfoResponse * option CreditApplicationChangeParam) :=
  submit checkConfigured "nil CreditApplicationChangeParam" ccq_RequestID set_ccq_RequestID
    (pure_check validateCreditApplicationChange)
    (fun c req => invokePost CreditApplicationChangeParam_json ModifyApplicationInfoResponse_json c ctx
                    "/modify-application-info" req) s.

Definition set_clq_RequestID (id : string) (q : CloseAccountParam) : CloseAccountParam :=
  mkCloseAccountParam id (clq_ExternalReferenceUID q).

Definition CloseAccount (s : option Service) (ctx : context)
    : option CloseAccountParam -> M (res CloseAccountResponse * option CloseAccountParam) :=
  submit checkConfigured "nil CloseAccountParam" clq_RequestID set_clq_RequestID (pure_check validateCloseAccount)
    (fun c req => invokePost CloseAccountParam_json CloseAccountResponse_json c ctx "/close-account" req) s.

End Credit.

(** * Contracts *)

Record application_contract (req : CreditApplicationParam) : Prop := {
  application_requestId : id64 (caq_RequestID req);
  application_uid : id64 (caq_ExternalReferenceUID req);
  application_mobile : caq_MobileNumber req <> "";
  application_email : id64 (caq_Email req);
  application_country : caq_Country req = CountryIndonesia;
  application_link : exists e, caq_ExtendInfo req = Some e /\ id64 (caxi_CreditInformationRequestID e);
}.

Record change_contract (req : CreditApplicationChangeParam) : Prop := {
  change_requestId : id64 (ccq_RequestID req);
  change_uid : id64 (ccq_ExternalReferenceUID req);
  change_mobile : ccq_MobileNumber req <> "";
  change_email : slen (ccq_Email req) <= 64;
  change_language : forall e, ccq_ExtendInfo req = Some e -> ccxi_Language e ∈ [""; LanguageEnglish; LanguageIndonesian];
}.

Record history_contract (p : BalanceHistoryParams) : Prop := {
  history_uid : id64 (bhp_ExternalReferenceUID p);
  history_type : BalanceHistoryType_IsValid (bhp_Type p) = true;
  history_requestId : slen (bhp_RequestID p) <= 64;
  history_start : 0 <= bhp_Start p;
  history_count : 0 <= bhp_Count p <= MaxCount;
}.

(** ** Lemmas *)

(** An optional string of at most [n] bytes. *)
Lemma reject_max (e : error) s n (k : option error) : 0 <= n ->
  (reject e when negb (is_empty s) && (slen s >? n) ;; k) = None <-> slen s <= n /\ k = None.
Proof.
  intros Hn. rewrite reject_None, Z.gtb_ltb, andb_false_iff, negb_false_iff, is_empty_true, Z.ltb_ge.
  split; [|tauto]. by intros [[->|H] Hk].
Qed.

Lemma validateCreditApplication_None req : validateCreditApplication req = None <-> application_contract req.
Proof.
  unfold validateCreditApplication, maxRequestID, maxExternalReferenceUID, maxEmail.
  rewrite !reject_id64, reject_None, reject_id64, !reject_None, !is_empty_false. unfold Country_IsValid.
  rewrite negb_false_iff, bool_decide_eq_true. split.
  - intros (H1 & H2 & H3 & H4 & _ & H6 & Hk). destruct (caq_ExtendInfo req) as [e|] eqn:He; [|done].
    rewrite reject_id64 in Hk. split; try done. exists e. tauto.
  - intros [H1 H2 H3 H4 H5 (e & -> & He)]. rewrite reject_id64. split_and!; try done. by rewrite H5.
Qed.

Lemma validateCreditApplicationChange_None req :
  validateCreditApplicationChange req = None <-> change_contract req.
Proof.
  unfold validateCreditApplicationChange, maxRequestID, maxExternalReferenceUID, maxEmail.
  rewrite !reject_id64, reject_None, is_empty_false, reject_max by done.
  assert (Hl : forall e k, (reject e when negb (is_empty k) && negb (Language_IsValid k) ;; @None error) = None <->
    k ∈ [""; LanguageEnglish; LanguageIndonesian]).
  { intros e k. unfold Language_IsValid.
    rewrite reject_None, andb_false_iff, !negb_false_iff, is_empty_true, bool_decide_eq_true, (elem_of_cons _ _ ""). tauto. }
  split.
  - intros (H1 & H2 & H3 & H4 & Hk). split; try done. intros e He. rewrite He in Hk. by apply Hl in Hk.
  - intros [H1 H2 H3 H4 H5]. split_and!; try done. destruct (ccq_ExtendInfo req) as [e|]; [|done].
    by apply Hl, H5.
Qed.

Lemma validateCloseAccount_None req :
  validateCloseAccount req = None <-> id64 (clq_RequestID req) /\ id64 (clq_ExternalReferenceUID req).
Proof. unfold validateCloseAccount, maxRequestID, maxExternalReferenceUID. rewrite !reject_id64. tauto. Qed.

Lemma validateBalanceHistoryParams_None p : validateBalanceHistoryParams p = None <-> history_contract p.
Proof.
  unfold validateBalanceHistoryParams, maxRequestID, maxExternalReferenceUID.
  rewrite reject_id64, !reject_None, is_empty_false, negb_false_iff, andb_false_iff, negb_false_iff, is_empty_true,
    !Z.ltb_ge, !Z.gtb_ltb, !Z.ltb_ge.
  split.
  - intros (H1 & _ & H2 & H3 & H4 & H5 & H6 & _). split; try done. destruct H3 as [->|H3]; [cbn; lia|done].
  - intros [H1 H2 H3 H4 H5]. split_and!; try done; try apply H5; [|by right].
    intros He. rewrite He in H2. done.
Qed.

Section Encrypted.
Context {R : RSA} {A : AES} {E : Env} {FC : FloatConv}.

(** What an encrypted call does, as seen by the gateway that holds [priv]: the request
    gets an id if it has none; a request [validate] rejects is not sent; whatever is
    posted to [url] verifies, opens to the JSON encoding of the request handed back, and
    decodes to it. *)
Definition encrypted_submitted {I O} (v : rsa2Verifier) (priv : PrivateKey) (url : string) (ci : codec I) (getID : I -> string)
    (setID : string -> I -> I) (validate : I -> option error) (req : I) (w : world)
    (out : res O * option I) (w' : world) : Prop :=
  exists q es, trace w' = trace w ++ es /\ out.2 = Some q /\
    (if is_empty (getID req) then exists id, q = setID id req else q = req) /\
    Forall (fun x => validate q = None /\ (gateway_verify v x.1 = None /\
                     gateway_open priv x.1 = Ok (json_print (c_enc ci q))) /\
                     rq_Method x.1 = "POST" /\ rq_URL x.1 = url) (exchanges (step w) es) /\
    (c_ok ci q = true -> unmarshal ci (json_print (c_enc ci q)) = Some q) /\
    (forall err, validate q = Some err -> out.1 = Err err).

Lemma decodes_back {I} (ci : codec I) `{!Lawful ci} q :
  (c_depth ci <= maxNestingDepth)%nat -> c_ok ci q = true -> unmarshal ci (json_print (c_enc ci q)) = Some q.
Proof.
  intros Hd Hok. destruct (unmarshal_marshal ci q Hok Hd) as (b & Hb & _ & Hu).
  unfold marshal in Hb. rewrite MarshalSigning_print in Hb. by injection Hb as <-.
Qed.

Lemma ensureID_spec {I} (getID : I -> string) setID (c : Client) (req : I) w :
  let '(q, w1) := ensureID getID setID c req w in
  exists ids, trace w1 = trace w ++ ids /\ silent ids /\
    (if is_empty (getID req) then exists id, q = setID id req else q = req).
Proof.
  unfold ensureID. destruct (is_empty (getID req)); cbn.
  - eexists. split; [done|]. split; [done|]. by eexists.
  - exists []. by rewrite app_nil_r.
Qed.

(** An encrypted call returns when the random bytes are enough for a key. *)
Lemma submit_encrypted_total {I O} (c : Client) nil_request getID setID validate (ci : codec I) (co : codec O) ctx op req w :
  (forall n, RandomAESKey (rand_reads n) <> None) ->
  exists out w', submit_encrypted nil_request getID setID validate (fun c => invokeEncryptedPost ci co c ctx op)
    (service_of c) (Some req) w = Some (out, w').
Proof.
  intros Hrand. unfold submit_encrypted. cbn [checkConfigured check_service Service_Client sv_c].
  destruct (ensureID _ _ _ _ _) as [q w1]. destruct (validate q); [by do 2 eexists|].
  unfold invokeEncryptedPost, DoEncryptedSigned. destruct (marshal ci q); [|by do 2 eexists].
  destruct (c_encryptAtomePub c) as [pub|]; [|by do 2 eexists]. destruct (negb _); [by do 2 eexists|].
  destruct (bad_path op); [by do 2 eexists|].
  destruct (Marshal_total (rand_reads (step w1)) (step w1) a (Some pub) (Hrand _)) as [[[[header body]|err] rs] ->];
    [|by do 2 eexists].
  destruct (signAndDispatch _ _ _ _ _ _ _ _). by do 2 eexists.
Qed.
Section Client.
Variables (c : Client) (s : rsa2Signer) (v : rsa2Verifier) (priv : PrivateKey).
Hypothesis c_ready : client_ready c.
Hypothesis c_signs : c_signer c = Some (rsa2Signer_iface s).
Hypothesis c_scheme : c_authScheme c = SchemeRawBase64.
Hypothesis v_key : v_pub v = Public (s_priv s).
Hypothesis c_encrypts : c_encryptAtomePub c = Some (Public priv).

Lemma invokeEncryptedPost_requests `{!RSALaws R} `{!AESLaws A} {I O} (ci : codec I) (co : codec O) ctx op req w r w' :
  invokeEncryptedPost ci co c ctx op req w = Some (r, w') ->
  exists es, trace w' = trace w ++ es /\
    Forall (fun x => (gateway_verify v x.1 = None /\ gateway_open priv x.1 = Ok (json_print (c_enc ci req))) /\
                     rq_Method x.1 = "POST" /\ rq_URL x.1 = c_baseURL c +:+ op) (exchanges (step w) es).
Proof.
  unfold invokeEncryptedPost, marshal. rewrite MarshalSigning_print.
  destruct (DoEncryptedSigned _ _ _ _ _ _ w) as [[resp w1]|] eqn:Ed; [|done]. intros [= _ <-].
  by eapply (DoEncryptedSigned_requests c s v).
Qed.

Lemma submit_encrypted_spec `{!RSALaws R} `{!AESLaws A} {I O} nil_request getID setID validate
    (ci : codec I) (co : codec O) `{!Lawful ci} ctx op req w out w' :
  (c_depth ci <= maxNestingDepth)%nat ->
  submit_encrypted nil_request getID setID validate (fun c => invokeEncryptedPost ci co c ctx op)
    (service_of c) (Some req) w = Some (out, w') ->
  encrypted_submitted v priv (c_baseURL c +:+ op) ci getID setID validate req w out w'.
Proof.
  intros Hdepth. unfold submit_encrypted. cbn [checkConfigured check_service Service_Client sv_c].
  pose proof (ensureID_spec getID setID c req w) as Hid. destruct (ensureID _ _ _ _ _) as [q w1].
  destruct Hid as (ids & Ht & Hs & Hq). destruct (validate q) as [err|] eqn:Ev.
  - intros [= <- <-]. exists q, ids. split_and!; try done.
    + by rewrite (proj1 Hs).
    + by apply decodes_back.
    + intros err' Herr. rewrite Ev in Herr. by injection Herr as <-.
  - destruct (invokeEncryptedPost _ _ _ _ _ _ _) as [[resp w2]|] eqn:Ed; [|done]. intros [= <- <-].
    destruct (invokeEncryptedPost_requests _ _ _ _ _ _ _ _ Ed) as (es & Ht2 & Hx).
    exists q, (ids ++ es). rewrite Ht2, Ht, app_assoc. split_and!; try done; [|by apply decodes_back|by rewrite Ev].
    rewrite exchanges_app, (proj1 Hs). cbn [app].
    assert (step w1 = (step w + length (effects ids))%nat) as <-
      by (unfold step; rewrite Ht, effects_app, length_app; done).
    eapply Forall_impl; [exact Hx|]. by intros x [? ?].
Qed.

End Client.
End Encrypted.

(** * Properties *)

(** C6.  The credit calls that carry personal data travel sealed.  Whatever the network and
    the contexts do, every request [QueryUserTag], [SubmitInformation] and
    [SubmitApplication] put on the wire, retries included, is a POST to its endpoint that
    verifies at the gateway over the bytes received; opened with the gateway's private key, its body is the JSON
    encoding of the request handed back, which decodes to that request; an application is
    sent only if its validator accepts it.  The calls return whenever the random bytes are
    enough to generate a key. *)
Theorem credit_calls_sealed {R : RSA} {A : AES} {E : Env} {FC : FloatConv} `{!RSALaws R} `{!AESLaws A}
    c s v priv ctx :
  client_ready c -> c_signer c = Some (rsa2Signer_iface s) -> c_authScheme c = SchemeRawBase64 ->
  v_pub v = Public (s_priv s) -> c_encryptAtomePub c = Some (Public priv) ->
  (forall q w out w', QueryUserTag (service_of c) ctx (Some q) w = Some (out, w') ->
     encrypted_submitted v priv (c_baseURL c +:+ "/query-user-tag") QueryUserTagParam_json utq_RequestID set_utq_RequestID (fun _ => None) q w out w') /\
  (forall q w out w', SubmitInformation (service_of c) ctx (Some q) w = Some (out, w') ->
     encrypted_submitted v priv (c_baseURL c +:+ "/credit-information") CreditInformationParam_json ciq_RequestID set_ciq_RequestID (fun _ => None) q w out w') /\
  (forall q w out w', SubmitApplication (service_of c) ctx (Some q) w = Some (out, w') ->
     encrypted_submitted v priv (c_baseURL c +:+ "/credit-application") CreditApplicationParam_json caq_RequestID set_caq_RequestID
       validateCreditApplication q w out w') /\
  ((forall n, RandomAESKey (rand_reads n) <> None) ->
   (forall q w, is_Some (QueryUserTag (service_of c) ctx (Some q) w)) /\
   (forall q w, is_Some (SubmitInformation (service_of c) ctx (Some q) w)) /\
   (forall q w, is_Some (SubmitApplication (service_of c) ctx (Some q) w))).
Proof.
  intros Hc Hs Ha Hv Hp. split_and!.
  1-3: intros q w out w' Hrun; refine (submit_encrypted_spec c s v priv Hc Hs Ha Hv Hp _ _ _ _ _ _ _ _ _ _ _ _ _ Hrun);
    apply (bool_decide_unpack _); vm_compute; exact I.
  intros Hrand. split_and!; intros q w.
  - destruct (submit_encrypted_total c "nil QueryUserTagParam" utq_RequestID set_utq_RequestID (fun _ => None)
      QueryUserTagParam_json QueryUserTagResponse_json ctx "/query-user-tag" q w Hrand) as (out & w' & H). by eexists.
  - destruct (submit_encrypted_total c "nil CreditInformationParam" ciq_RequestID set_ciq_RequestID (fun _ => None)
      CreditInformationParam_json CreditInformationResponse_json ctx "/credit-information" q w Hrand)
      as (out & w' & H). by eexists.
  - destruct (submit_encrypted_total c "nil CreditApplicationParam" caq_RequestID set_caq_RequestID
      validateCreditApplication CreditApplicationParam_json CreditApplicationResponse_json ctx "/credit-application"
      q w Hrand) as (out & w' & H). by eexists.
Qed.

(** The credit validators accept exactly the requests that meet the contract of their
    endpoint: identifiers, e-mail addresses and links within their lengths, Indonesia, the
    two languages, the three kinds of history and pages of at most 50. *)
Theorem credit_validators_spec :
  (forall req, validateCreditApplication req = None <-> application_contract req) /\
  (forall req, validateCreditApplicationChange req = None <-> change_contract req) /\
  (forall req, validateCloseAccount req = None <-> id64 (clq_RequestID req) /\ id64 (clq_ExternalReferenceUID req)) /\
  (forall p, validateBalanceHistoryParams p = None <-> history_contract p).
Proof.
  split_and!; intros; [apply validateCreditApplication_None|apply validateCreditApplicationChange_None|
    apply validateCloseAccount_None|apply validateBalanceHistoryParams_None].
Qed.

(** The other credit calls refine their specifications: a change of the application and
    the closing of an account are submitted as [/auth] is; the result of an application, of
    an information request and the balance history are fetched, the history with both page
    parameters always on the wire. *)
Theorem credit_calls_refine {R : RSA} {E : Env} {FC : FloatConv} c ctx uid id :
  client_ready c ->
  (forall q, extends (ModifyApplicationInfo (service_of c) ctx (Some q))
    (submitted CreditApplicationChangeParam_json ModifyApplicationInfoResponse_json c "/modify-application-info"
       ccq_RequestID set_ccq_RequestID (pure_check validateCreditApplicationChange) (fun _ => []) q)) /\
  (forall q, extends (CloseAccount (service_of c) ctx (Some q))
    (submitted CloseAccountParam_json CloseAccountResponse_json c "/close-account" clq_RequestID set_clq_RequestID
       (pure_check validateCloseAccount) (fun _ => []) q)) /\
  (id64 uid -> extends (QueryResult (service_of c) ctx uid)
    (fetched CreditApplicationResponse_json c "/credit-result" {[ "externalReferenceUid" := [uid] ]})) /\
  (id64 uid -> id64 id -> extends (QueryInformationResult (service_of c) ctx uid id)
    (fetched CreditInformationCollectResponse_json c "/credit-information-result" (query_by_id id uid))) /\
  (forall p, history_contract p -> extends (BalanceHistory (service_of c) ctx (Some p))
    (fetched BalanceHistoryResponse_json c "/query-balance-history" (buildBalanceHistoryQuery p))) /\
  (forall p, buildBalanceHistoryQuery p !! "start" = Some [itoa (Z.max 1 (bhp_Start p))] /\
     buildBalanceHistoryQuery p !! "count" = Some [itoa (if bhp_Count p <=? 0 then 10 else bhp_Count p)]).
Proof.
  intros Hc. split_and!.
  - intros req. apply submit_submitted; [done|]. intros q. by apply post_posted.
  - intros req. apply submit_submitted; [done|]. intros q. by apply post_posted.
  - intros Hu. apply fetch_ok; [done| |by apply get_fetched]. unfold validateQueryResult. by rewrite reject_id64.
  - intros Hu Hid. apply fetch_ok; [done| |by apply get_fetched].
    unfold validateQueryInformationResult. by rewrite !reject_id64.
  - intros p Hp. apply fetch_ok; [done| |by apply get_fetched]. by apply validateBalanceHistoryParams_None.
  - intros p. unfold buildBalanceHistoryQuery, Values_Set. split.
    + rewrite lookup_insert_ne by done. rewrite lookup_insert_eq. do 3 f_equal.
      unfold or_default, DefaultStart. destruct (Z.leb_spec (bhp_Start p) 0); lia.
    + by rewrite lookup_insert_eq.
Qed.

#[local] Existing Instance toy_env.

Lemma credit_calls_refine_witness :
  extends (@CloseAccount toy_RSA toy_env amd64_conv (service_of toy_client) Background (Some (mkCloseAccountParam "r" "u")))
    (submitted CloseAccountParam_json CloseAccountResponse_json toy_client "/close-account" clq_RequestID
       set_clq_RequestID (pure_check validateCloseAccount) (fun _ => []) (mkCloseAccountParam "r" "u")).
Proof.
  exact (proj1 (proj2 (@credit_calls_refine toy_RSA toy_env amd64_conv toy_client Background "u" "r" toy_ready))
    (mkCloseAccountParam "r" "u")).
Defined.

Definition toy_application : CreditApplicationParam :=
  mkCreditApplicationParam "" "u" "+628" "a@b" "ID" None (Some (mkCreditApplicationExtendInfo "i")).

Lemma credit_calls_sealed_witness :
  exists out w', @SubmitApplication toy_RSA toy_AES toy_env amd64_conv (service_of toy_rsa_client) Background
      (Some toy_application) (mkWorld 0 []) = Some (out, w') /\ is_ok out.1 = true /\
    @encrypted_submitted toy_RSA toy_AES toy_env _ _ (@mkRsa2Verifier toy_RSA (7%nat, 2048)) (5%nat, 2048)
      (c_baseURL toy_rsa_client +:+ "/credit-application") CreditApplicationParam_json caq_RequestID set_caq_RequestID validateCreditApplication toy_application
      (mkWorld 0 []) out w'.
Proof.
  assert (Hrun : exists out w', @SubmitApplication toy_RSA toy_AES toy_env amd64_conv (service_of toy_rsa_client) Background
      (Some toy_application) (mkWorld 0 []) = Some (out, w') /\ is_ok out.1 = true).
  { do 2 eexists. split; [vm_compute; reflexivity|reflexivity]. }
  destruct Hrun as (out & w' & Hrun & Hok). exists out, w'. split; [exact Hrun|]. split; [exact Hok|].
  exact (proj1 (proj2 (proj2 (@credit_calls_sealed toy_RSA toy_AES toy_env amd64_conv toy_RSALaws toy_AESLaws
    toy_rsa_client (@mkRsa2Signer toy_RSA (7%nat, 2048) "") (@mkRsa2Verifier toy_RSA (7%nat, 2048)) (5%nat, 2048)
    Background toy_rsa_ready eq_refl eq_refl eq_refl eq_refl))) toy_application (mkWorld 0 []) out w' Hrun).
Defined.
