(* ===== verification/Callback.v ===== *)
(** * Callback: the receiving side, [atomefin/callback].

    A [Verifier] holds the keys a callback may be signed with and the mode (RSA2, or
    OVO.HMAC with an optional replay window).  [handle] is the HTTP handler: method, body
    limit, signature, decoding, the partner's function, acknowledgement.  The partner's
    function is any transformer of the partner's state [S]. *)
From S2P Require Import Prelude GoStd Errors GoCrypto Sign GoHttp Json Codec Schema Transport World Client.
From S2P Require Import PaymentTypes Repayment Refund CreditTypes.

Definition DefaultBodyLimit : Z := Z.shiftl 1 20.

(** ** The verifier ([callback/verifier.go]) *)

(** [clock] gives the reading at an instant; [None] is the nil function. *)
Record Verifier := mkVerifier {
  cv_verifiers : list Sign.Verifier;
  cv_bodyLimit : Z;
  cv_clock : option (Z -> Z);
  cv_hmacClientID : string;
  cv_hmacClockSkew : Z;
}.

Definition VerifierOption := Verifier -> Verifier.

Definition WithBodyLimit (n : Z) : VerifierOption := fun v =>
  if 0 <? n
  then mkVerifier (cv_verifiers v) n (cv_clock v) (cv_hmacClientID v) (cv_hmacClockSkew v)
  else v.

Definition WithClock (now : option (Z -> Z)) : VerifierOption := fun v =>
  match now with
  | Some _ => mkVerifier (cv_verifiers v) (cv_bodyLimit v) now (cv_hmacClientID v) (cv_hmacClockSkew v)
  | None => v
  end.

Definition WithHMACTimeWindow (n : Z) : VerifierOption := fun v =>
  if 0 <? n
  then mkVerifier (cv_verifiers v) (cv_bodyLimit v) (cv_clock v) (cv_hmacClientID v) n
  else v.

(** The first nil verifier, by position. *)
Fixpoint check_nil (i : Z) (verifiers : list (option Sign.Verifier)) : res (list Sign.Verifier) :=
  match verifiers with
  | [] => Ok []
  | None :: _ => Err (EErrorf "atomefin/callback: NewVerifier: verifier[%d] is nil" [AInt i])
  | Some sv :: verifiers => let* svs := check_nil (i + 1) verifiers in Ok (sv :: svs)
  end.

Definition NewVerifier (verifiers : list (option Sign.Verifier)) (opts : list (option VerifierOption)) : res Verifier :=
  match verifiers with
  | [] => Err (ENew "atomefin/callback: NewVerifier requires at least one sign.Verifier")
  | _ =>
      let* svs := check_nil 0 verifiers in
      let v := mkVerifier svs DefaultBodyLimit (Some (fun now => now)) "" 0 in
      Ok (fold_left (fun v o => match o with Some o => o v | None => v end) opts v)
  end.

Definition FromClient {R : RSA} (c : option Client) (opts : list (option VerifierOption)) : res Verifier :=
  match c with
  | None => Err (ENew "atomefin/callback: FromClient: nil *Client")
  | Some c =>
      match c_verifier c with
      | None => Err (ENew "atomefin/callback: FromClient: Client has no Atome public key configured (use atomefin.WithAtomePublicKey)")
      | Some sv => NewVerifier [Some sv] opts
      end
  end.

(** The loops of [FromCertPEMs] and [FromHMACSecret]. *)
Fixpoint build_verifiers {A} (format : string) (mk : A -> res Sign.Verifier) (i : Z) (l : list A)
    : res (list (option Sign.Verifier)) :=
  match l with
  | [] => Ok []
  | x :: l =>
      match mk x with
      | Err err => Err (EErrorf format [AInt i; AWrap err])
      | Ok sv => let* svs := build_verifiers format mk (i + 1) l in Ok (Some sv :: svs)
      end
  end.

Definition cert_verifier `{X : X509} (pem : string) : res Sign.Verifier :=
  let* key := LoadPublicCertPEM pem in
  let* sv := NewRSA2Verifier (Some key) [] in
  Ok (rsa2Verifier_iface sv).

Definition FromCertPEMs `{X : X509} (pems : list string) (opts : list (option VerifierOption)) : res Verifier :=
  match pems with
  | [] => Err (ENew "atomefin/callback: FromCertPEMs: no PEMs provided")
  | _ =>
      let* verifiers := build_verifiers "atomefin/callback: FromCertPEMs[%d]: %w" cert_verifier 0 pems in
      NewVerifier verifiers opts
  end.

Definition secret_verifier (secret : string) : res Sign.Verifier :=
  let* sv := NewOVOHMACVerifier secret in Ok (ovoHMACVerifier_iface sv).

Definition FromHMACSecret (clientID : string) (clientSecrets : list string) (opts : list (option VerifierOption))
    : res Verifier :=
  if is_empty clientID then Err (ENew "atomefin/callback: FromHMACSecret: empty clientID")
  else match clientSecrets with
  | [] => Err (ENew "atomefin/callback: FromHMACSecret: no client secrets provided")
  | _ =>
      let* verifiers := build_verifiers "atomefin/callback: FromHMACSecret[%d]: %w" secret_verifier 0 clientSecrets in
      let* v := NewVerifier verifiers opts in
      Ok (mkVerifier (cv_verifiers v) (cv_bodyLimit v) (cv_clock v) clientID (cv_hmacClockSkew v))
  end.

Definition IsHMAC (v : option Verifier) : bool :=
  match v with Some v => negb (is_empty (cv_hmacClientID v)) | None => false end.

(** Each verifier in turn; [ctx_err i] is [ctx.Err()] when the [i]-th asks. *)
Fixpoint verify_any (ctx_err : nat -> option error) (i : nat) (verifiers : list Sign.Verifier)
    (body signature : string) (last : option error) : option error :=
  match verifiers with
  | [] => Some (default (ESentinel ErrSignature) last)
  | sv :: verifiers =>
      match Sign.Verify sv (ctx_err i) body signature with
      | None => None
      | Some err => verify_any ctx_err (S i) verifiers body signature (Some err)
      end
  end.

Definition Verify (v : option Verifier) (ctx_err : nat -> option error) (body signature : string) : option error :=
  match v with
  | None => Some (ENew "atomefin/callback: Verifier not configured")
  | Some v =>
      reject ENew "atomefin/callback: Verifier not configured" when bool_decide (cv_verifiers v = []) ;;
      reject EErrorf "%w: empty signature" [AWrap (ESentinel ErrSignature)] when is_empty signature ;;
      verify_any ctx_err 0 (cv_verifiers v) body signature None
  end.

(** [strconv.ParseInt(s, 10, 64)] of any string. *)
Definition strconv_ParseInt (s : string) : option Z :=
  let '(neg, digits) := match s with
                        | String "+" d => (false, d)
                        | String "-" d => (true, d)
                        | _ => (false, s)
                        end in
  if is_empty digits then None
  else match pv 0 digits with
       | Some z =>
           let z := if neg then - z else z in
           if (int64_min <=? z) && (z <=? int64_max) then Some z else None
       | None => None
       end.

(** [now] is the instant; a [time.Time] is its nanoseconds since the epoch. *)
Definition verifyHMACTime (v : option Verifier) (now : Z) (timeMillis : string) : option error :=
  match v with
  | None => None
  | Some v =>
      if cv_hmacClockSkew v <=? 0 then None
      else match strconv_ParseInt timeMillis with
      | None => Some (EErrorf "atomefin/callback: OVO.HMAC time header is not epoch milliseconds: %q" [AStr timeMillis])
      | Some t =>
          let now := match cv_clock v with Some clock => clock now | None => now end in
          let nowMs := i64 (now / Millisecond) in
          let skewMs := Z.quot (cv_hmacClockSkew v) Millisecond in
          let skewMs := if skewMs <? 0 then 0 else skewMs in
          reject EErrorf "atomefin/callback: OVO.HMAC time header outside replay window: header=%dms now=%dms window=%dms"
                   [AInt t; AInt nowMs; AInt skewMs]
            when (t >? i64 (nowMs + skewMs)) || (t <? i64 (nowMs - skewMs)) ;; None
      end
  end.

Definition BodyLimit (v : option Verifier) : Z := match v with Some v => cv_bodyLimit v | None => 0 end.
Definition KeyCount (v : option Verifier) : Z :=
  match v with Some v => Z.of_nat (length (cv_verifiers v)) | None => 0 end.

(** ** Acknowledgements and events ([callback/types.go], [account_change_types.go]) *)

Record AckResponse := mkAckResponse {
  ack_Code : Code; ack_Message : string;
}.
Definition AckResponse_fields : list (field_decl AckResponse) :=
  [ "code" ~> ack_Code as str; "message" ~> ack_Message as str omitempty ].
Definition AckResponse_json : codec AckResponse :=
  struct (mkAckResponse "" "") AckResponse_fields.
#[export] Instance AckResponse_schema : Schema (c_zero AckResponse_json) AckResponse_fields.
Proof. schema. Qed.

Definition AckSuccess : AckResponse := mkAckResponse CodeSuccess "ack".
Definition AckBadSignature : AckResponse := mkAckResponse CodeInvalidSignature "signature did not verify".
Definition AckServerError (reason : string) : AckResponse :=
  mkAckResponse CodeServerError (if is_empty reason then "internal handler error" else reason).
Definition AckParamsWrong (reason : string) : AckResponse :=
  mkAckResponse CodeWrongParamsFormat (if is_empty reason then "request rejected" else reason).

Definition AccountChangeEventType := string.
Definition AccountEventOverdue : AccountChangeEventType := "ACCOUNT_OVERDUE".
Definition AccountEventLateFeeIncrease : AccountChangeEventType := "LATE_FEE_INCREASE".
Definition AccountEventLateFeeDecrease : AccountChangeEventType := "LATE_FEE_DECREASE".
Definition AccountEventFixedCreditLimitBoost : AccountChangeEventType := "FIXED_CREDIT_LIMIT_BOOST".
Definition AccountEventFixedCreditLimitLower : AccountChangeEventType := "FIXED_CREDIT_LIMIT_DECREASE".
Definition AccountEventTempCreditLimitBoost : AccountChangeEventType := "TEMP_CREDIT_LIMIT_BOOST".
Definition AccountEventTempCreditLimitLower : AccountChangeEventType := "TEMP_CREDIT_LIMIT_DECREASE".
Definition AccountEventAtomeControl : AccountChangeEventType := "ATOME_CONTROL".
Definition AccountChangeEventType_IsValid (t : AccountChangeEventType) : bool :=
  bool_decide (t ∈ [AccountEventOverdue; AccountEventLateFeeIncrease; AccountEventLateFeeDecrease;
                    AccountEventFixedCreditLimitBoost; AccountEventFixedCreditLimitLower;
                    AccountEventTempCreditLimitBoost; AccountEventTempCreditLimitLower; AccountEventAtomeControl]).

Definition AccountChangeScene := string.
Definition AccountSceneStatusChange : AccountChangeScene := "ACCOUNT_STATUS_CHANGE".
Definition AccountSceneLateFeeChange : AccountChangeScene := "LATE_FEE_CHANGE".
Definition AccountSceneOverpaidChange : AccountChangeScene := "OVERPAID_CHANGE".
Definition AccountSceneCreditLimitAdjustment : AccountChangeScene := "CREDIT_LIMIT_ADJUSTMENT".
Definition AccountChangeScene_IsValid (s : AccountChangeScene) : bool :=
  bool_decide (s ∈ [AccountSceneStatusChange; AccountSceneLateFeeChange; AccountSceneOverpaidChange; AccountSceneCreditLimitAdjustment]).

Record AccountChangeCreditInfo := mkAccountChangeCreditInfo {
  acci_TotalCredit : Amount; acci_AvailableCredit : Amount; acci_UsedCredit : Amount;
  acci_LateFeeAmount : Amount; acci_OverpaidAmount : Amount; acci_UserStatus : AccountStatus;
}.
Definition AccountChangeCreditInfo_fields : list (field_decl AccountChangeCreditInfo) :=
  [ "totalCredit" ~> acci_TotalCredit as int; "availableCredit" ~> acci_AvailableCredit as int;
    "usedCredit" ~> acci_UsedCredit as int; "lateFeeAmount" ~> acci_LateFeeAmount as int omitempty;
    "overpaidAmount" ~> acci_OverpaidAmount as int omitempty; "userStatus" ~> acci_UserStatus as str ].
Definition AccountChangeCreditInfo_json : codec AccountChangeCreditInfo :=
  struct (mkAccountChangeCreditInfo 0 0 0 0 0 "") AccountChangeCreditInfo_fields.
#[export] Instance AccountChangeCreditInfo_schema : Schema (c_zero AccountChangeCreditInfo_json) AccountChangeCreditInfo_fields.
Proof. schema. Qed.

Record AccountChangeExtendInfo := mkAccountChangeExtendInfo {
  acei_TempCreditLimitAdjustmentValidTil : Z; acei_CreditLimitAdjustmentReason : string;
}.
Definition AccountChangeExtendInfo_fields : list (field_decl AccountChangeExtendInfo) :=
  [ "tempCreditLimitAdjustmentValidTil" ~> acei_TempCreditLimitAdjustmentValidTil as int omitempty;
    "creditLimitAdjustmentReason" ~> acei_CreditLimitAdjustmentReason as str omitempty ].
Definition AccountChangeExtendInfo_json : codec AccountChangeExtendInfo :=
  struct (mkAccountChangeExtendInfo 0 "") AccountChangeExtendInfo_fields.
#[export] Instance AccountChangeExtendInfo_schema : Schema (c_zero AccountChangeExtendInfo_json) AccountChangeExtendInfo_fields.
Proof. schema. Qed.

Record AccountChangeEvent := mkAccountChangeEvent {
  ace_CallbackRequestID : string; ace_ExternalReferenceUID : string; ace_ExternalRequestID : string;
  ace_Event : AccountChangeEventType; ace_Scene : AccountChangeScene; ace_PreviousStatus : AccountStatus;
  ace_CurrentStatus : AccountStatus; ace_Currency : Currency; ace_AmountChange : option Amount;
  ace_Version : Z; ace_CreditInfo : option AccountChangeCreditInfo;
  ace_ExtendInfo : option AccountChangeExtendInfo;
}.
Definition AccountChangeEvent_fields : list (field_decl AccountChangeEvent) :=
  [ "callbackRequestId" ~> ace_CallbackRequestID as str;
    "externalReferenceUid" ~> ace_ExternalReferenceUID as str;
    "externalRequestId" ~> ace_ExternalRequestID as str omitempty; "event" ~> ace_Event as str;
    "scene" ~> ace_Scene as str; "previousStatus" ~> ace_PreviousStatus as str omitempty;
    "currentStatus" ~> ace_CurrentStatus as str omitempty; "currency" ~> ace_Currency as str;
    "amountChange" ~> ace_AmountChange as (ptr int) omitempty; "version" ~> ace_Version as int omitempty;
    "creditInfo" ~> ace_CreditInfo as (ptr AccountChangeCreditInfo_json);
    "extendInfo" ~> ace_ExtendInfo as (ptr AccountChangeExtendInfo_json) omitempty ].
Definition AccountChangeEvent_json : codec AccountChangeEvent :=
  struct (mkAccountChangeEvent "" "" "" "" "" "" "" "" None 0 None None) AccountChangeEvent_fields.
#[export] Instance AccountChangeEvent_schema : Schema (c_zero AccountChangeEvent_json) AccountChangeEvent_fields.
Proof. schema. Qed.

Definition HasIdentity (e : option AccountChangeEvent) : bool :=
  match e with Some e => negb (is_empty (ace_CallbackRequestID e)) | None => false end.

(** The other events are responses of the synchronous calls. *)
Definition AuthEvent := AuthResponse.
Definition CaptureEvent := CaptureResponse.
Definition RefundEvent := RefundResult.
Definition RepaymentEvent := RepaymentResult.
Definition CreditApplicationEvent := CreditApplicationResult.
Definition CreditInformationEvent := CreditInformationCollectResponse.

(** ** The handler ([callback/handler.go]) *)

Definition AuthorizationHeader : string := "Authorization".
Definition HMACClientIDHeader : string := "client-id".
Definition HMACTimeHeader : string := "time".
Definition HMACSignatureHeader : string := "signature".

(** An incoming request: its body delivers bytes and then fails, or ends; a nil body is
    [None].  [in_now] is the instant the handler reads the clock, [in_ctx_err i] what
    [ctx.Err()] is when the [i]-th verifier asks. *)
Record inbound := mkInbound {
  in_Method : string;
  in_RequestURI : string;   (* r.URL.RequestURI() *)
  in_Header : Header;
  in_Body : option (string * option error);
  in_now : Z;
  in_ctx_err : nat -> option error;
}.

Record reply := mkReply { rp_status : Z; rp_Header : Header; rp_body : string }.

(** Texts of the standard library: [%q] quoting, and the error [Decode] reports. *)
Class Texts := { quote : string -> string; decode_error : string -> string }.

(** [io.ReadAll(io.LimitReader(r, limit+1))]; a limit that is not positive reads nothing. *)
Definition readLimited (r : option (string * option error)) (limit : Z) : res string :=
  match r with
  | None => Err (ENew "missing request body")
  | Some (data, read_error) =>
      let n := i64 (limit + 1) in
      let buf := take (Z.to_nat n) (chars data) in
      match (if n <=? slen data then None else read_error) with
      | Some err => Err (EErrorf "read body: %w" [AWrap err])
      | None =>
          if Z.of_nat (length buf) >? limit then Err (EErrorf "body exceeds %d bytes" [AInt limit])
          else Ok (of_chars buf)
      end
  end.

(** [json.Decoder.Decode]: the first value of the input; what follows it is not read. *)
Definition strictDecode {T} (c : codec T) (b : string) : option T :=
  match parse (2 * String.length b + 2) PValue 0 (chars b) with
  | None => None
  | Some (v, _) => let '(out, ok) := c_dec c v (c_zero c) in if ok then Some out else None
  end.

Definition writeAck (status : Z) (ack : AckResponse) : reply :=
  let '(body, status) :=
    match marshal AckResponse_json ack with
    | Ok body => (body, status)
    | Err _ => (json_print (JObj [("code", JStr "SERVER_ERROR"); ("message", JStr "ack marshal failed")]), 500)
    end in
  let h := Header_Set ∅ "Content-Type" "application/json; charset=utf-8" in
  let h := Header_Set h "X-Content-Type-Options" "nosniff" in
  mkReply status h body.

Section Handler.
Context {X : Texts}.

(** The bytes to verify and the signature over them; an error is a 401. *)
Definition signed_input (v : Verifier) (r : inbound) (body : string) : result unit (string * string) :=
  if negb (is_empty (cv_hmacClientID v)) then
    let sig := Header_Get (in_Header r) HMACSignatureHeader in
    let timeMs := Header_Get (in_Header r) HMACTimeHeader in
    let clientID := Header_Get (in_Header r) HMACClientIDHeader in
    if is_empty sig || is_empty timeMs || negb (bool_decide (clientID = cv_hmacClientID v)) then Err tt
    else match verifyHMACTime (Some v) (in_now r) timeMs with
         | Some _ => Err tt
         | None => Ok (OVOHMACCanonical clientID timeMs (in_Method r) (in_RequestURI r) body, sig)
         end
  else
    let sig := Header_Get (in_Header r) AuthorizationHeader in
    if is_empty sig then Err tt else Ok (body, sig).

(** [handle]: the reply, and the partner's state after it. *)
Definition handle {T S : Type} (c : codec T) (v : option Verifier) (fn : option (T -> S -> option error * S))
    (r : inbound) (s : S) : reply * S :=
  match v, fn with
  | None, _ => (writeAck 500 (AckServerError "callback handler missing Verifier"), s)
  | Some _, None => (writeAck 500 (AckServerError "callback handler missing user function"), s)
  | Some v, Some fn =>
      let limit := if cv_bodyLimit v <=? 0 then DefaultBodyLimit else cv_bodyLimit v in
      if negb (bool_decide (in_Method r = "POST")) then (writeAck 405 (AckParamsWrong "method not allowed"), s)
      else match readLimited (in_Body r) limit with
      | Err err => (writeAck 400 (AckParamsWrong (Error quote err)), s)
      | Ok body =>
          match signed_input v r body with
          | Err _ => (writeAck 401 AckBadSignature, s)
          | Ok (canonical, sig) =>
              match Verify (Some v) (in_ctx_err r) canonical sig with
              | Some _ => (writeAck 401 AckBadSignature, s)
              | None =>
                  match strictDecode c body with
                  | None => (writeAck 400 (AckParamsWrong ("decode failed: " +:+ decode_error body)), s)
                  | Some event =>
                      let '(err, s) := fn event s in
                      match err with
                      | Some err => (writeAck 500 (AckServerError (Error quote err)), s)
                      | None => (writeAck 200 AckSuccess, s)
                      end
                  end
              end
          end
      end
  end.

(** The typed handlers; a nil function stays nil. *)
Section Typed.
Context {S : Type}.
Definition AuthHandler (v : option Verifier) (fn : option (AuthEvent -> S -> option error * S)) :=
  handle AuthResponse_json v fn.
Definition CaptureHandler (v : option Verifier) (fn : option (CaptureEvent -> S -> option error * S)) :=
  handle CaptureResponse_json v fn.
Definition RefundHandler (v : option Verifier) (fn : option (RefundEvent -> S -> option error * S)) :=
  handle RefundResult_json v fn.
Definition RepaymentHandler (v : option Verifier) (fn : option (RepaymentEvent -> S -> option error * S)) :=
  handle RepaymentResult_json v fn.
Definition AccountChangeHandler (v : option Verifier) (fn : option (AccountChangeEvent -> S -> option error * S)) :=
  handle AccountChangeEvent_json v fn.
Definition CreditApplicationHandler (v : option Verifier) (fn : option (CreditApplicationEvent -> S -> option error * S)) :=
  handle CreditApplicationResult_json v fn.
Definition CreditInformationHandler (v : option Verifier) (fn : option (CreditInformationEvent -> S -> option error * S)) :=
  handle CreditInformationCollectResponse_json v fn.
End Typed.

End Handler.

(** * Lemmas *)

Lemma chars_length s : length (chars s) = String.length s.
Proof. by rewrite <- length_of_chars, of_chars_chars. Qed.

Lemma take_chars_all (n : nat) s : (String.length s <= n)%nat -> of_chars (take n (chars s)) = s.
Proof.
  intros H. rewrite take_ge; [apply of_chars_chars|]. by rewrite chars_length.
Qed.

Lemma writeAck_eq status ack :
  rp_status (writeAck status ack) = status /\ rp_body (writeAck status ack) = json_print (c_enc AckResponse_json ack).
Proof. unfold writeAck, marshal. by rewrite MarshalSigning_print. Qed.

(** Within the representable limits, a body is read whole or refused. *)
Lemma readLimited_Ok b limit buf : 0 < limit < int64_max ->
  readLimited b limit = Ok buf <-> b = Some (buf, None) /\ slen buf <= limit.
Proof.
  intros Hl. unfold int64_max in Hl. unfold readLimited. destruct b as [[data e]|]; [|split; [done|by intros [? _]]].
  rewrite i64_id by (unfold in_int64, int64_min, int64_max; lia). cbv zeta.
  destruct (Z.leb_spec (limit + 1) (slen data)) as [Hn|Hn].
  - rewrite length_take, chars_length. destruct (Z.gtb_spec (Z.of_nat (Z.to_nat (limit + 1) `min` String.length data)) limit); [|lia].
    split; [done|]. intros [[= -> ->] ?]. lia.
  - destruct e as [e|]; [split; [done|by intros [[=] _]]|].
    rewrite length_take, chars_length. destruct (Z.gtb_spec (Z.of_nat (Z.to_nat (limit + 1) `min` String.length data)) limit); [lia|].
    rewrite take_chars_all by lia. split; [intros [= <-]; split; [done|lia]|by intros [[= ->] _]].
Qed.

Lemma verify_any_None ctx_err i svs body signature last :
  verify_any ctx_err i svs body signature last = None <->
  exists k sv, svs !! k = Some sv /\ Sign.Verify sv (ctx_err (i + k)%nat) body signature = None.
Proof.
  revert i last. induction svs as [|sv svs IH]; intros i last; cbn [verify_any].
  - split; [done|]. by intros (k & sv & H & _).
  - destruct (Sign.Verify sv (ctx_err i) body signature) as [err|] eqn:E.
    + rewrite IH. split.
      * intros (k & sv' & Hk & Hv). exists (S k), sv'. split; [done|]. by rewrite Nat.add_succ_r.
      * intros ([|k] & sv' & Hk & Hv); [injection Hk as <-; rewrite Nat.add_0_r in Hv; congruence|].
        exists k, sv'. split; [done|]. by rewrite Nat.add_succ_r in Hv.
    + split; [|done]. intros _. exists 0%nat, sv. by rewrite Nat.add_0_r.
Qed.

(** Any configured key will do. *)
Lemma Verify_None v ctx_err body signature :
  Verify (Some v) ctx_err body signature = None <->
  signature <> "" /\
  exists k sv, cv_verifiers v !! k = Some sv /\ Sign.Verify sv (ctx_err k) body signature = None.
Proof.
  unfold Verify. rewrite !reject_None, bool_decide_eq_false, is_empty_false, verify_any_None.
  split; [tauto|]. intros [H (k & sv & Hk & Hv)]. split_and!; [|done|by exists k, sv].
  by intros Hn; rewrite Hn in Hk.
Qed.

(** Decoding the first value agrees with [json.Unmarshal] on a document. *)
Lemma strictDecode_Unmarshal {T} (c : codec T) b a : unmarshal c b = Some a -> strictDecode c b = Some a.
Proof.
  unfold unmarshal, json_Unmarshal, json_parse, strictDecode.
  destruct (parse _ _ _ _) as [[v rest]|]; [|done]. by destruct (skip_ws rest).
Qed.

Lemma strictDecode_print {T} (c : codec T) `{!Lawful c} event :
  c_ok c event = true -> (c_depth c <= maxNestingDepth)%nat -> strictDecode c (json_print (c_enc c event)) = Some event.
Proof.
  intros Hok Hd. apply strictDecode_Unmarshal. destruct (unmarshal_marshal c event Hok Hd) as (b & Hb & _ & Hu).
  unfold marshal in Hb. rewrite MarshalSigning_print in Hb. by injection Hb as <-.
Qed.

Lemma strconv_ParseInt_itoa z : in_int64 z -> strconv_ParseInt (itoa z) = Some z.
Proof.
  intros [H1 H2]. unfold strconv_ParseInt, itoa. destruct (Z.ltb_spec z 0).
  - change ("-" +:+ format_nat (- z)) with (String "-" (format_nat (- z))). cbv iota beta.
    destruct (format_nat_shape (- z) ltac:(lia)) as (c & s & Heq & _). rewrite format_nat_pv, Heq by lia.
    change (is_empty (String c s)) with false. cbv iota zeta. rewrite Z.opp_involutive.
    destruct (Z.leb_spec int64_min z); [|lia]. destruct (Z.leb_spec z int64_max); [done|lia].
  - pose proof (format_nat_pv z ltac:(lia)) as Hpv.
    destruct (format_nat_shape z ltac:(lia)) as (c & s & Heq & Hc & _). rewrite Heq in *.
    assert (match String c s with String "+" d => (false, d) | String "-" d => (true, d) | _ => (false, String c s) end
            = (false, String c s)) as ->.
    { destruct c as [[] [] [] [] [] [] [] []]; done. }
    change (is_empty (String c s)) with false. cbv iota zeta. rewrite Hpv.
    destruct (Z.leb_spec int64_min z); [|lia]. destruct (Z.leb_spec z int64_max); [done|lia].
Qed.

(** The reading of the verifier's clock, in milliseconds. *)
Definition clock_ms (v : Verifier) (now : Z) : Z :=
  match cv_clock v with Some clock => clock now | None => now end / Millisecond.

Lemma verifyHMACTime_None v now s : Z.abs (clock_ms v now) < 2 ^ 62 -> cv_hmacClockSkew v <= int64_max ->
  verifyHMACTime (Some v) now s = None <->
  cv_hmacClockSkew v <= 0 \/
  exists t, strconv_ParseInt s = Some t /\ Z.abs (t - clock_ms v now) <= cv_hmacClockSkew v / Millisecond.
Proof.
  intros Hc Hs. unfold verifyHMACTime. destruct (Z.leb_spec (cv_hmacClockSkew v) 0) as [|Hpos]; [tauto|].
  destruct (strconv_ParseInt s) as [t|]; [|split; [done|by intros [?|(t & [=] & _)]; lia]].
  cbv zeta. fold (clock_ms v now). rewrite Z.quot_div_nonneg by (unfold Millisecond; lia).
  set (w := cv_hmacClockSkew v / Millisecond).
  assert (0 <= w < 2 ^ 62).
  { unfold w, Millisecond, int64_max in *. split; [apply Z.div_pos; lia|]. apply Z.div_lt_upper_bound; lia. }
  destruct (Z.ltb_spec w 0); [lia|].
  assert (Hi : forall z, Z.abs z < 2 ^ 63 -> i64 z = z) by (intros z Hz; apply i64_id; unfold in_int64, int64_min, int64_max; lia).
  rewrite (Hi (clock_ms v now)), !Hi by lia. rewrite reject_None, orb_false_iff, Z.gtb_ltb, !Z.ltb_ge. split.
  - intros [[H1 H2] _]. right. exists t. split; [done|]. lia.
  - intros [?|(t' & [= <-] & Hw)]; [lia|]. split; [lia|done].
Qed.

(** * Specification *)

(** The bytes the signature [sig] of a request is over, in each mode. *)
Definition signed_over (v : Verifier) (r : inbound) (body canonical sig : string) : Prop :=
  sig <> "" /\
  if decide (cv_hmacClientID v = "")
  then canonical = body /\ sig = Header_Get (in_Header r) AuthorizationHeader
  else exists t,
    t = Header_Get (in_Header r) HMACTimeHeader /\ t <> "" /\ verifyHMACTime (Some v) (in_now r) t = None /\
    Header_Get (in_Header r) HMACClientIDHeader = cv_hmacClientID v /\
    canonical = OVOHMACCanonical (cv_hmacClientID v) t (in_Method r) (in_RequestURI r) body /\
    sig = Header_Get (in_Header r) HMACSignatureHeader.

(** A configured key verifies the signature the request carries. *)
Definition authentic (v : Verifier) (r : inbound) (body : string) : Prop :=
  exists canonical sig k sv, signed_over v r body canonical sig /\
    cv_verifiers v !! k = Some sv /\ Sign.Verify sv (in_ctx_err r k) canonical sig = None.

(** The body arrived whole and within the limit. *)
Definition received (v : Verifier) (r : inbound) (body : string) : Prop :=
  in_Body r = Some (body, None) /\ slen body <= cv_bodyLimit v.

(** What the constructors guarantee. *)
Record verifier_ok (v : Verifier) : Prop := {
  ok_keys : cv_verifiers v <> [];
  ok_limit : 0 < cv_bodyLimit v;
  ok_skew : 0 <= cv_hmacClockSkew v;
  ok_clock : is_Some (cv_clock v);
}.

Lemma signed_input_Ok v r body canonical sig :
  signed_input v r body = Ok (canonical, sig) <-> signed_over v r body canonical sig.
Proof.
  unfold signed_input, signed_over. destruct (is_empty (cv_hmacClientID v)) eqn:Em; to_prop; cbn [negb].
  - rewrite decide_True by done. destruct (is_empty (Header_Get _ _)) eqn:Es; to_prop.
    + split; [done|]. by intros (Hne & _ & ->).
    + split; [by intros [= <- <-]|]. by intros (_ & -> & ->).
  - rewrite decide_False by done.
    destruct (is_empty _ || is_empty _ || negb _) eqn:Eg; to_prop.
    + split; [done|]. intros (Hs & t & -> & Ht & _ & Hc & _ & ->). naive_solver.
    + destruct Eg as [[Hs Ht] Hc]. rewrite Hc. destruct (verifyHMACTime _ _ _) eqn:Ev.
      * split; [done|]. intros (_ & t & -> & _ & Hv & _). congruence.
      * split; [intros [= <- <-]; eauto 10|]. by intros (_ & t & -> & _ & _ & _ & -> & ->).
Qed.

Lemma authentic_iff v r body :
  authentic v r body <->
  exists canonical sig, signed_input v r body = Ok (canonical, sig) /\ Verify (Some v) (in_ctx_err r) canonical sig = None.
Proof.
  unfold authentic. setoid_rewrite signed_input_Ok. setoid_rewrite Verify_None. split.
  - intros (canonical & sig & k & sv & Hs & Hk & Hv). exists canonical, sig. split; [done|].
    split; [apply Hs|eauto].
  - intros (canonical & sig & Hs & _ & k & sv & Hk & Hv). by exists canonical, sig, k, sv.
Qed.

Section HandlerFacts.
Context {X : Texts} {T S : Type} (c : codec T).

(** The request is a callback carrying [event]. *)
Definition delivers (v : Verifier) (r : inbound) (event : T) : Prop :=
  in_Method r = "POST" /\ exists body, received v r body /\ authentic v r body /\ strictDecode c body = Some event.

(** What the handler does with a request. *)
Definition handled (v : Verifier) (fn : T -> S -> option error * S) (r : inbound) (s : S) (rp : reply) (s' : S) : Prop :=
  (exists event, delivers v r event /\ s' = (fn event s).2 /\
     rp = match (fn event s).1 with
          | None => writeAck 200 AckSuccess
          | Some err => writeAck 500 (AckServerError (Error quote err))
          end) \/
  s' = s /\ (forall event, ~ delivers v r event) /\
  ((in_Method r <> "POST" /\ rp = writeAck 405 (AckParamsWrong "method not allowed")) \/
   (in_Method r = "POST" /\
    ((exists body, received v r body /\ ~ authentic v r body /\ rp = writeAck 401 AckBadSignature) \/
     (exists reason, rp = writeAck 400 (AckParamsWrong reason) /\
        ((forall body, ~ received v r body) \/
         exists body, received v r body /\ authentic v r body /\ strictDecode c body = None))))).

Lemma received_iff v r body : 0 < cv_bodyLimit v < int64_max ->
  readLimited (in_Body r) (if cv_bodyLimit v <=? 0 then DefaultBodyLimit else cv_bodyLimit v) = Ok body <->
  received v r body.
Proof. intros Hl. destruct (Z.leb_spec (cv_bodyLimit v) 0); [lia|]. by apply readLimited_Ok. Qed.

Lemma received_unique v r b b' : received v r b -> received v r b' -> b = b'.
Proof. intros [H _] [H' _]. congruence. Qed.

Lemma handle_handled v fn r s : 0 < cv_bodyLimit v < int64_max ->
  handled v fn r s (handle c (Some v) (Some fn) r s).1 (handle c (Some v) (Some fn) r s).2.
Proof.
  intros Hl. assert (H : let '(rp, s') := handle c (Some v) (Some fn) r s in handled v fn r s rp s'); [|by destruct (handle _ _ _ _ _)].
  unfold handle. cbv zeta. case_bool_decide as Hm; cbn [negb].
  2: { right. split; [done|]. split; [by intros event [? _]|]. by left. }
  assert (Hd : forall event, delivers v r event ->
    exists body, received v r body /\ authentic v r body /\ strictDecode c body = Some event) by (by intros event [_ ?]).
  destruct (readLimited _ _) as [body|err] eqn:Er.
  2: { assert (Hno : forall body, ~ received v r body).
       { intros body Hb. apply (received_iff v r body Hl) in Hb. congruence. }
       right. split; [done|]. split; [intros event (body & Hb & _)%Hd; by apply (Hno body)|].
       right. split; [done|]. right. eexists. split; [done|]. by left. }
  apply received_iff in Er as Hrec; [|done].
  assert (Hau : authentic v r body <-> exists canonical sig, signed_input v r body = Ok (canonical, sig) /\
    Verify (Some v) (in_ctx_err r) canonical sig = None) by apply authentic_iff.
  assert (Hreject : ~ authentic v r body -> handled v fn r s (writeAck 401 AckBadSignature) s).
  { intros Hn. right. split; [done|]. split.
    - intros event (b & Hb & Ha & _)%Hd. by rewrite (received_unique _ _ _ _ Hb Hrec) in Ha.
    - right. split; [done|]. left. by exists body. }
  destruct (signed_input v r body) as [[canonical sig]|] eqn:Es; [|apply Hreject; rewrite Hau; naive_solver].
  destruct (Verify _ _ canonical sig) eqn:Ev; [apply Hreject; rewrite Hau; naive_solver|].
  assert (Ha : authentic v r body) by (apply Hau; eauto).
  destruct (strictDecode c body) as [event|] eqn:Edec.
  - destruct (fn event s) as [[err|] s'] eqn:Ef; left; exists event; rewrite Ef; (split; [split; [done|eauto]|done]).
  - right. split; [done|]. split.
    + intros event (b & Hb & _ & Hdec)%Hd. rewrite (received_unique _ _ _ _ Hb Hrec) in Hdec. congruence.
    + right. split; [done|]. right. eexists. split; [done|]. right. by exists body.
Qed.
End HandlerFacts.

(** ** Constructors *)

(** The options the package exports. *)
Inductive sdk_option : VerifierOption -> Prop :=
| sdk_BodyLimit n : sdk_option (WithBodyLimit n)
| sdk_Clock now : sdk_option (WithClock now)
| sdk_HMACTimeWindow n : sdk_option (WithHMACTimeWindow n).

Definition sdk_options (opts : list (option VerifierOption)) : Prop :=
  Forall (fun o => forall f, o = Some f -> sdk_option f) opts.

Lemma sdk_option_keeps o v : sdk_option o -> verifier_ok v ->
  verifier_ok (o v) /\ cv_verifiers (o v) = cv_verifiers v /\ cv_hmacClientID (o v) = cv_hmacClientID v.
Proof.
  intros [n|now|n] [H1 H2 H3 H4].
  - unfold WithBodyLimit. destruct (Z.ltb_spec 0 n); by repeat split.
  - unfold WithClock. destruct now; by repeat split.
  - unfold WithHMACTimeWindow. destruct (Z.ltb_spec 0 n); repeat split; cbn; try done. lia.
Qed.

Lemma sdk_options_keep opts v : sdk_options opts -> verifier_ok v ->
  let v' := fold_left (fun v o => match o with Some o => o v | None => v end) opts v in
  verifier_ok v' /\ cv_verifiers v' = cv_verifiers v /\ cv_hmacClientID v' = cv_hmacClientID v.
Proof.
  intros Ho. revert v. induction Ho as [|[o|] opts Hf _ IH]; intros v Hv; cbn [fold_left]; [done| |by apply IH].
  destruct (sdk_option_keeps o v (Hf o eq_refl) Hv) as (Hv' & <- & <-). by apply IH.
Qed.

Lemma check_nil_Ok i vs svs : check_nil i vs = Ok svs <-> vs = map Some svs.
Proof.
  revert i svs. induction vs as [|[sv|] vs IH]; intros i svs; cbn [check_nil].
  - split; [by intros [= <-]|]. by destruct svs.
  - destruct (check_nil (i + 1) vs) as [svs'|] eqn:E; cbn [result_bind].
    + apply IH in E as ->. split; [by intros [= <-]|]. destruct svs as [|sv' svs]; [done|]. cbn.
      intros [= -> H]. do 2 f_equal. by apply (inj (map Some)) in H.
    + split; [done|]. destruct svs as [|sv' svs]; [done|]. intros [= -> ->].
      exfalso. assert (check_nil (i + 1) (map Some svs) = Ok svs) by (by apply IH). congruence.
  - split; [done|]. by destruct svs.
Qed.

Lemma NewVerifier_Ok vs opts v : sdk_options opts -> NewVerifier vs opts = Ok v ->
  verifier_ok v /\ map Some (cv_verifiers v) = vs /\ cv_hmacClientID v = "".
Proof.
  intros Ho H. unfold NewVerifier in H. destruct vs as [|sv0 vs]; [done|].
  destruct (check_nil 0 (sv0 :: vs)) as [svs|] eqn:E; [|done]. cbn [result_bind] in H. injection H as <-.
  apply check_nil_Ok in E.
  destruct (sdk_options_keep opts (mkVerifier svs DefaultBodyLimit (Some (fun now => now)) "" 0) Ho) as (Hv & -> & ->).
  - split; cbn; try done; by destruct svs.
  - by rewrite E.
Qed.

Lemma build_verifiers_Ok {A} format (mk : A -> res Sign.Verifier) i l svs :
  build_verifiers format mk i l = Ok (map Some svs) -> Forall2 (fun x sv => mk x = Ok sv) l svs.
Proof.
  revert i svs. induction l as [|x l IH]; intros i svs; cbn [build_verifiers].
  - destruct svs; [by constructor|done].
  - destruct (mk x) as [sv|] eqn:Ex; [|done]. destruct (build_verifiers format mk (i + 1) l) as [svs'|] eqn:E; [|done].
    destruct svs as [|sv' svs]; [done|]. intros [= -> ->]. constructor; [done|]. by eapply IH.
Qed.

(** A verifier made of certificates holds their keys, in order, and the default limit. *)
Lemma FromCertPEMs_Ok {R : RSA} {X : X509} pems v : FromCertPEMs pems [] = Ok v ->
  cv_bodyLimit v = DefaultBodyLimit /\ Forall2 (fun pem sv => cert_verifier pem = Ok sv) pems (cv_verifiers v).
Proof.
  unfold FromCertPEMs. destruct pems as [|pem0 pems]; [done|]. destruct (build_verifiers _ _ _ _) as [vs|] eqn:E; [|done].
  cbn [result_bind]. unfold NewVerifier. destruct vs as [|sv0 vs]; [done|].
  destruct (check_nil 0 (sv0 :: vs)) as [svs|] eqn:En; [|done]. intros [= <-]. split; [done|].
  apply check_nil_Ok in En. rewrite En in E. by eapply build_verifiers_Ok.
Qed.

(** A request that delivers an event runs the function on it, and the reply is its verdict. *)
Lemma handle_delivers {X : Texts} {T S : Type} (c : codec T) v (fn : T -> S -> option error * S) r s event :
  0 < cv_bodyLimit v < int64_max -> delivers c v r event ->
  handle c (Some v) (Some fn) r s =
    (match (fn event s).1 with
     | None => writeAck 200 AckSuccess
     | Some err => writeAck 500 (AckServerError (Error quote err))
     end, (fn event s).2).
Proof.
  intros Hl Hdel. pose proof (handle_handled c v fn r s Hl) as H.
  destruct (handle c (Some v) (Some fn) r s) as [rp s']. cbn [fst snd] in H.
  destruct H as [(event' & Hdel' & -> & ->)|(_ & Hno & _)]; [|by destruct (Hno event)].
  assert (event' = event) as ->; [|done].
  destruct Hdel as (_ & b & Hb & _ & Hdec), Hdel' as (_ & b' & Hb' & _ & Hdec').
  rewrite (received_unique _ _ _ _ Hb' Hb) in Hdec'. congruence.
Qed.

(** ** A genuine callback *)

(** The sender's side: a POST of the event's encoding, signed with the signers of [Sign]
    in the mode of the receiver under a key it holds, while the receiver's context lives. *)
Definition sent_rsa `{R : RSA} (v : Verifier) (r : inbound) (body : string) : Prop :=
  cv_hmacClientID v = "" /\
  exists k rv s rnd, cv_verifiers v !! k = Some (rsa2Verifier_iface rv) /\ v_pub rv = Public (s_priv s) /\
    rsa2Signer_Sign s rnd None body = Ok (Header_Get (in_Header r) AuthorizationHeader).

Definition sent_hmac (v : Verifier) (r : inbound) (body : string) : Prop :=
  cv_hmacClientID v <> "" /\
  exists k secret hs hv t rnd, cv_verifiers v !! k = Some (ovoHMACVerifier_iface hv) /\
    NewOVOHMACVerifier secret = Ok hv /\ NewOVOHMACSigner secret = Ok hs /\
    Header_Get (in_Header r) HMACClientIDHeader = cv_hmacClientID v /\
    Header_Get (in_Header r) HMACTimeHeader = itoa t /\ in_int64 t /\
    ovoHMACSigner_Sign hs rnd None
      (OVOHMACCanonical (cv_hmacClientID v) (itoa t) "POST" (in_RequestURI r) body)
      = Ok (Header_Get (in_Header r) HMACSignatureHeader) /\
    (cv_hmacClockSkew v = 0 \/ Z.abs (t - clock_ms v (in_now r)) <= cv_hmacClockSkew v / Millisecond).

Lemma itoa_nonempty z : itoa z <> "".
Proof. intros H. pose proof (itoa_valid_number z) as Hv. rewrite H in Hv. done. Qed.

Lemma rsa_authentic `{R : RSA} `{!RSALaws R} v r body :
  (forall i, in_ctx_err r i = None) -> sent_rsa v r body -> authentic v r body.
Proof.
  intros Hctx (Hm & k & rv & s & rnd & Hk & Hp & Hs).
  pose proof (rsa2_signed_verifies s rv rnd None body _ Hp Hs) as Hv.
  exists body, (Header_Get (in_Header r) AuthorizationHeader), k, (rsa2Verifier_iface rv). split; [|split; [done|by rewrite Hctx]].
  apply rsa2_verify_None in Hv as (_ & Hne & _). split; [done|]. by rewrite decide_True.
Qed.

Lemma hmac_authentic v r body :
  in_Method r = "POST" -> (forall i, in_ctx_err r i = None) ->
  Z.abs (clock_ms v (in_now r)) < 2 ^ 62 -> 0 <= cv_hmacClockSkew v <= int64_max ->
  sent_hmac v r body -> authentic v r body.
Proof.
  intros Hm Hctx Hc Hsk (Hmode & k & secret & hs & hv & t & rnd & Hk & Hv & Hs & Hid & Ht & Hin & Hsig & Hw).
  set (sig := Header_Get (in_Header r) HMACSignatureHeader) in *.
  unfold NewOVOHMACVerifier, NewOVOHMACSigner in *. destruct (is_empty secret); [done|].
  injection Hv as <-. injection Hs as <-. cbn in Hsig. injection Hsig as Hsig.
  assert (Hne : sig <> "").
  { intros He. pose proof (ovoHMAC_length (OVOHMACKey secret)
      (OVOHMACCanonical (cv_hmacClientID v) (itoa t) "POST" (in_RequestURI r) body)) as Hl.
    rewrite Hsig, He in Hl. done. }
  eexists _, sig, k, _. split; [|split; [exact Hk|]].
  - split; [done|]. rewrite decide_False by done. exists (itoa t). split_and!; try done; [apply itoa_nonempty|].
    apply verifyHMACTime_None; [done|lia|].
    destruct Hw as [->|Hw]; [by left|right]. exists t. split; [by apply strconv_ParseInt_itoa|done].
  - cbn. rewrite Hctx, Hm. apply ovoHMAC_verify_None. by split_and!.
Qed.

(** ** Examples *)

(** A body after which there is more is decoded to its first value. *)
Example strictDecode_trailing :
  strictDecode AckResponse_json
    ("{" +:+ dqs "code" +:+ ":" +:+ dqs "SUCCESS" +:+ "} and more") = Some (mkAckResponse "SUCCESS" "").
Proof. vm_compute. reflexivity. Qed.

(** With the largest limit, the limit plus one wraps around, and every body reads as empty. *)
Example readLimited_overflow data : readLimited (Some (data, None)) int64_max = Ok "".
Proof. unfold readLimited. destruct (Z.leb_spec (i64 (int64_max + 1)) (slen data)); reflexivity. Qed.

(** A clock that stands still, and a window: a callback of the next day is refused. *)
Example frozen_clock :
  is_Some (verifyHMACTime (Some (mkVerifier [] 1 (Some (fun _ => 0)) "c" (300 * Second))) (86400 * Second) "86400000").
Proof. eexists. vm_compute. reflexivity. Qed.

(** * Properties *)

(** C3.  The handler, on every request.  The partner's function runs exactly when the
    request is a POST whose body arrived whole within the limit, whose signature a
    configured key verifies over those bytes, and whose body decodes; it runs once, on
    the decoded event, and decides between 200 and 500.  In every other case the partner's
    state is untouched and the reply is 405, 401 for a request that is not authentic, or
    400 for a body that is refused or does not decode.  A reply carries its status and the
    JSON of its acknowledgement. *)
Theorem handle_spec {X : Texts} {T S : Type} (c : codec T) v (fn : T -> S -> option error * S) r s :
  0 < cv_bodyLimit v < int64_max ->
  handled c v fn r s (handle c (Some v) (Some fn) r s).1 (handle c (Some v) (Some fn) r s).2 /\
  (forall status ack, rp_status (writeAck status ack) = status /\
     rp_body (writeAck status ack) = json_print (c_enc AckResponse_json ack)) /\
  (forall fn', rp_status (handle c None fn' r s).1 = 500 /\ (handle c None fn' r s).2 = s) /\
  (rp_status (handle c (Some v) (@None (T -> S -> option error * S)) r s).1 = 500).
Proof.
  intros Hl. split; [by apply handle_handled|]. split; [intros; apply writeAck_eq|].
  split; [intros fn'; split; [apply writeAck_eq|done]|apply writeAck_eq].
Qed.

(** C4.  Every genuine callback is delivered.  An event that its type can hold, encoded and
    signed by the other side with the SDK's own signers, RSA2 or OVO.HMAC, under any of
    the keys the receiver is configured with (an old or a new one during a rotation), and
    inside the replay window if there is one, reaches the partner's function as that
    event, and the reply is the function's verdict. *)
Theorem callback_delivered {R : RSA} `{!RSALaws R} {X : Texts} {T S : Type} (c : codec T) `{!Lawful c} v
    (fn : T -> S -> option error * S) r s event :
  0 < cv_bodyLimit v < int64_max -> 0 <= cv_hmacClockSkew v <= int64_max ->
  Z.abs (clock_ms v (in_now r)) < 2 ^ 62 ->
  c_ok c event = true -> (c_depth c <= maxNestingDepth)%nat ->
  in_Method r = "POST" -> received v r (json_print (c_enc c event)) -> (forall i, in_ctx_err r i = None) ->
  sent_rsa v r (json_print (c_enc c event)) \/ sent_hmac v r (json_print (c_enc c event)) ->
  handle c (Some v) (Some fn) r s =
    (match (fn event s).1 with
     | None => writeAck 200 AckSuccess
     | Some err => writeAck 500 (AckServerError (Error quote err))
     end, (fn event s).2).
Proof.
  intros Hl Hsk Hck Hok Hd Hm Hrec Hctx Hsent. apply handle_delivers; [done|]. split; [done|].
  exists (json_print (c_enc c event)). split_and!; [done| |by apply strictDecode_print].
  destruct Hsent; [by apply rsa_authentic|by apply hmac_authentic].
Qed.

(** C30.  The replay window.  Without one every time header passes; with one, exactly those
    that are decimal [int64] milliseconds no further from the verifier's clock than the
    window in whole milliseconds, in either direction. *)
Theorem verifyHMACTime_spec v now s :
  Z.abs (clock_ms v now) < 2 ^ 62 -> cv_hmacClockSkew v <= int64_max ->
  verifyHMACTime (Some v) now s = None <->
  cv_hmacClockSkew v <= 0 \/
  exists t, strconv_ParseInt s = Some t /\ Z.abs (t - clock_ms v now) <= cv_hmacClockSkew v / Millisecond.
Proof. apply verifyHMACTime_None. Qed.

(** Constructed verifiers.  Whatever options of the package are given, a verifier a
    constructor returns has at least one key, a positive body limit, a window that is not
    negative and a clock; its keys are exactly those given, in their order, and it is in
    OVO.HMAC mode exactly when it was built from secrets.  No keys, a nil key, an empty
    client id or secret, a certificate that does not load: no verifier. *)
Theorem verifier_constructors {R : RSA} {X : X509} opts :
  sdk_options opts ->
  (forall vs v, NewVerifier vs opts = Ok v ->
     verifier_ok v /\ map Some (cv_verifiers v) = vs /\ IsHMAC (Some v) = false) /\
  (forall pems v, FromCertPEMs pems opts = Ok v ->
     verifier_ok v /\ Forall2 (fun pem sv => cert_verifier pem = Ok sv) pems (cv_verifiers v) /\
     IsHMAC (Some v) = false) /\
  (forall clientID secrets v, FromHMACSecret clientID secrets opts = Ok v ->
     verifier_ok v /\ cv_hmacClientID v = clientID /\ IsHMAC (Some v) = true /\
     Forall2 (fun secret sv => secret <> "" /\
       sv = ovoHMACVerifier_iface (mkOvoHMACVerifier (OVOHMACKey secret))) secrets (cv_verifiers v)).
Proof.
  intros Ho. unfold IsHMAC. split_and!.
  - intros vs v H. destruct (NewVerifier_Ok _ _ _ Ho H) as (? & ? & ->). done.
  - intros pems v H. unfold FromCertPEMs in H. destruct pems as [|pem0 pems]; [done|].
    destruct (build_verifiers _ _ _ _) as [svs|] eqn:E in H; [|done]. cbn [result_bind] in H.
    destruct (NewVerifier_Ok _ _ _ Ho H) as (Hv & <- & ->). split_and!; [done| |done].
    by eapply build_verifiers_Ok.
  - intros clientID secrets v H. unfold FromHMACSecret in H. destruct (is_empty clientID) eqn:Ec; [done|].
    destruct secrets as [|s0 secrets]; [done|].
    destruct (build_verifiers _ _ _ _) as [svs|] eqn:E in H; [|done]. cbn [result_bind] in H.
    destruct (NewVerifier svs opts) as [v'|] eqn:En; [|done]. injection H as <-.
    destruct (NewVerifier_Ok _ _ _ Ho En) as (Hv & Hvs & _). cbn. rewrite Ec. split_and!; try done.
    + by destruct Hv.
    + rewrite <- Hvs in E. apply build_verifiers_Ok in E. eapply Forall2_impl; [exact E|].
      intros secret sv. unfold secret_verifier, NewOVOHMACVerifier. destruct (is_empty secret) eqn:Es; [done|].
      to_prop. by intros [= <-].
Qed.

(** A receiver with an old and a new key, and a callback signed with the new one. *)
Definition toy_texts : Texts := {| quote s := s; decode_error _ := "json" |}.

Definition toy_verifier : Verifier :=
  mkVerifier [rsa2Verifier_iface (@mkRsa2Verifier toy_RSA (5%nat, 2048)); rsa2Verifier_iface (@mkRsa2Verifier toy_RSA (7%nat, 2048))]
    DefaultBodyLimit (Some (fun now => now)) "" 0.

Definition toy_event : RefundEvent := c_zero RefundResult_json.
Definition toy_body : string := json_print (c_enc RefundResult_json toy_event).

Definition toy_callback : inbound :=
  mkInbound "POST" "/refund"
    (Header_Set ∅ AuthorizationHeader
       (match rsa2Signer_Sign (R:=toy_RSA) (@mkRsa2Signer toy_RSA (7%nat, 2048) "") 0%nat None toy_body with
        | Ok sig => sig | Err _ => "" end))
    (Some (toy_body, None)) 0 (fun _ => None).

(** The partner records the events it is given. *)
Definition record_event : RefundEvent -> list RefundEvent -> option error * list RefundEvent :=
  fun event seen => (None, event :: seen).

Lemma handle_spec_witness :
  @handled toy_texts RefundEvent (list RefundEvent) RefundResult_json toy_verifier record_event toy_callback []
    (@handle toy_texts RefundEvent (list RefundEvent) RefundResult_json (Some toy_verifier) (Some record_event) toy_callback []).1
    (@handle toy_texts RefundEvent (list RefundEvent) RefundResult_json (Some toy_verifier) (Some record_event) toy_callback []).2.
Proof.
  exact (proj1 (@handle_spec toy_texts RefundEvent (list RefundEvent) RefundResult_json toy_verifier record_event
    toy_callback [] ltac:(split; reflexivity))).
Defined.

Lemma callback_delivered_witness :
  @handle toy_texts _ _ RefundResult_json (Some toy_verifier) (Some record_event) toy_callback []
  = (writeAck 200 AckSuccess, [toy_event]).
Proof.
  refine (@callback_delivered toy_RSA toy_RSALaws toy_texts RefundEvent (list RefundEvent) RefundResult_json _
    toy_verifier record_event toy_callback [] toy_event _ _ _ _ _ _ _ _ _).
  - split; reflexivity.
  - split; [reflexivity|discriminate].
  - reflexivity.
  - vm_compute. reflexivity.
  - apply (bool_decide_unpack _). vm_compute. exact I.
  - reflexivity.
  - split; [reflexivity|]. vm_compute. discriminate.
  - reflexivity.
  - left. split; [reflexivity|].
    exists 1%nat, (@mkRsa2Verifier toy_RSA (7%nat, 2048)), (@mkRsa2Signer toy_RSA (7%nat, 2048) ""), 0%nat.
    split; [reflexivity|]. split; [reflexivity|]. vm_compute. reflexivity.
Defined.

Lemma verifyHMACTime_spec_witness :
  verifyHMACTime (Some (mkVerifier [] 1 None "c" (300 * Second))) (1000 * Second) "900000" = None.
Proof.
  apply (verifyHMACTime_spec (mkVerifier [] 1 None "c" (300 * Second)) (1000 * Second) "900000");
    [reflexivity|discriminate|].
  right. exists 900000. split; [reflexivity|]. vm_compute. discriminate.
Defined.

Lemma verifier_constructors_witness :
  exists v, FromHMACSecret "c" ["old"; "new"] [Some (WithHMACTimeWindow (300 * Second))] = Ok v /\
    verifier_ok v /\ cv_hmacClientID v = "c".
Proof.
  assert (Hv : exists v, FromHMACSecret "c" ["old"; "new"] [Some (WithHMACTimeWindow (300 * Second))] = Ok v)
    by (eexists; reflexivity).
  assert (Ho : sdk_options [Some (WithHMACTimeWindow (300 * Second))]).
  { constructor; [|constructor]. intros f [= <-]. constructor. }
  destruct Hv as [v Hv]. exists v. split; [exact Hv|].
  destruct (proj2 (proj2 (@verifier_constructors toy_RSA toy_X509 _ Ho)) "c" ["old"; "new"] v Hv) as (Hok & Hid & _).
  split; [exact Hok|exact Hid].
Defined.
