(* ===== verification/Bill.v ===== *)
(** * Bill: [atomefin/bill], the bill queries.

    The types with their json tags, then [Bills], [BillDetail], [BillsUnpaid] and what
    they put in the query. *)
From S2P Require Import Prelude GoStd Errors Canonical GoCrypto Sign GoHttp Json Codec Schema Transport World.
From S2P Require Import Client Doer Service PaymentTypes Payment.

(** ** Types ([bill/types.go]) *)

Definition OverdueStatus := string.
Definition OverdueStatusNotOverdue : OverdueStatus := "NOT_OVERDUE".
Definition OverdueStatusOverdue : OverdueStatus := "OVERDUE".
Definition OverdueStatus_IsValid (s : OverdueStatus) : bool := bool_decide (s ∈ [OverdueStatusNotOverdue; OverdueStatusOverdue]).
Definition BillStatus := string.
Definition BillStatusBilled : BillStatus := "BILLED".
Definition BillStatusUnbilled : BillStatus := "UNBILLED".
Definition RefundStatus := string.
Definition RefundStatusFullRefunded : RefundStatus := "FULL_REFUNDED".
Definition RefundStatusPartialRefunded : RefundStatus := "PARTIAL_REFUNDED".
Definition RefundStatusNotRefunded : RefundStatus := "NOT_REFUNDED".
Definition RepaymentStatus := string.
Definition RepaymentStatusRepaid : RepaymentStatus := "REPAID".
Definition RepaymentStatusUnpaid : RepaymentStatus := "UNPAID".
Definition RepaymentStatusPartialRepaid : RepaymentStatus := "PARTIAL_REPAID".
Definition RepaymentStatus_IsValid (s : RepaymentStatus) : bool :=
  bool_decide (s ∈ [RepaymentStatusRepaid; RepaymentStatusUnpaid; RepaymentStatusPartialRepaid]).
Definition RepaymentEvent := string.
Definition RepaymentEventNormal : RepaymentEvent := "NORMAL".
Definition RepaymentEventAtomeRepayment : RepaymentEvent := "ATOME_REPAYMENT".
Definition RepaymentEventOverpaidRepaymt : RepaymentEvent := "OVERPAID_REPAYMENT".

Record BillDiscounts := mkBillDiscounts {
  bdi_DiscountAmount : Amount; bdi_InterestAmountAfterDiscount : Amount;
  bdi_BillTotalAmountAfterDiscount : Amount; bdi_RepaidAmountExcludeDiscount : Amount;
}.
Definition BillDiscounts_fields : list (field_decl BillDiscounts) :=
  [ "discountAmount" ~> bdi_DiscountAmount as int omitempty;
    "interestAmountAfterDiscount" ~> bdi_InterestAmountAfterDiscount as int omitempty;
    "billTotalAmountAfterDiscount" ~> bdi_BillTotalAmountAfterDiscount as int omitempty;
    "repaidAmountExcludeDiscount" ~> bdi_RepaidAmountExcludeDiscount as int omitempty ].
Definition BillDiscounts_json : codec BillDiscounts :=
  struct (mkBillDiscounts 0 0 0 0) BillDiscounts_fields.
#[export] Instance BillDiscounts_schema : Schema (c_zero BillDiscounts_json) BillDiscounts_fields.
Proof. schema. Qed.

Record Bill := mkBill {
  b_BillID : string; b_BillMonth : string; b_BillStartDate : string; b_BillEndDate : string;
  b_BillTotalAmount : Amount; b_OutstandingAmount : Amount; b_RepaidAmount : Amount;
  b_PrincipalAmount : Amount; b_InterestAmount : Amount; b_LateFeeAmount : Amount; b_RefundAmount : Amount;
  b_DueDate : string; b_DaysPastDue : Z; b_GracePeriod : Z; b_Status : BillStatus;
  b_RefundStatus : RefundStatus; b_Currency : Currency; b_RepaymentStatus : RepaymentStatus;
  b_OverdueStatus : OverdueStatus; b_Discounts : option BillDiscounts;
}.
Definition Bill_fields : list (field_decl Bill) :=
  [ "billId" ~> b_BillID as str; "billMonth" ~> b_BillMonth as str;
    "billStartDate" ~> b_BillStartDate as str; "billEndDate" ~> b_BillEndDate as str;
    "billTotalAmount" ~> b_BillTotalAmount as int; "outstandingAmount" ~> b_OutstandingAmount as int;
    "repaidAmount" ~> b_RepaidAmount as int; "principalAmount" ~> b_PrincipalAmount as int;
    "interestAmount" ~> b_InterestAmount as int; "lateFeeAmount" ~> b_LateFeeAmount as int;
    "refundAmount" ~> b_RefundAmount as int; "dueDate" ~> b_DueDate as str;
    "daysPastDue" ~> b_DaysPastDue as int; "gracePeriod" ~> b_GracePeriod as int;
    "status" ~> b_Status as str; "refundStatus" ~> b_RefundStatus as str; "currency" ~> b_Currency as str;
    "repaymentStatus" ~> b_RepaymentStatus as str; "overdueStatus" ~> b_OverdueStatus as str;
    "discounts" ~> b_Discounts as (ptr BillDiscounts_json) omitempty ].
Definition Bill_json : codec Bill :=
  struct (mkBill "" "" "" "" 0 0 0 0 0 0 0 "" 0 0 "" "" "" "" "" None) Bill_fields.
#[export] Instance Bill_schema : Schema (c_zero Bill_json) Bill_fields.
Proof. schema. Qed.

Record BillsResponseItem := mkBillsResponseItem {
  bi_Bill : Bill;
}.
Definition BillsResponseItem_fields : list (field_decl BillsResponseItem) :=
  map (embed bi_Bill ltac:(setter bi_Bill)) Bill_fields.
Definition BillsResponseItem_json : codec BillsResponseItem :=
  struct (mkBillsResponseItem (c_zero Bill_json)) BillsResponseItem_fields.
#[export] Instance BillsResponseItem_schema : Schema (c_zero BillsResponseItem_json) BillsResponseItem_fields.
Proof. schema_embedded. Qed.

Record RepaymentDetail := mkRepaymentDetail {
  rpd_RepaymentRequestID : string; rpd_RepaymentAmount : Amount; rpd_RepaidPrincipalAmount : Amount;
  rpd_RepaidInterestAmount : Amount; rpd_RepaidLateFeeAmount : Amount; rpd_RepaymentTime : Z;
  rpd_Event : RepaymentEvent;
}.
Definition RepaymentDetail_fields : list (field_decl RepaymentDetail) :=
  [ "repaymentRequestId" ~> rpd_RepaymentRequestID as str omitempty;
    "repaymentAmount" ~> rpd_RepaymentAmount as int omitempty;
    "repaidPrincipalAmount" ~> rpd_RepaidPrincipalAmount as int omitempty;
    "repaidInterestAmount" ~> rpd_RepaidInterestAmount as int omitempty;
    "repaidLateFeeAmount" ~> rpd_RepaidLateFeeAmount as int omitempty;
    "repaymentTime" ~> rpd_RepaymentTime as int omitempty; "event" ~> rpd_Event as str omitempty ].
Definition RepaymentDetail_json : codec RepaymentDetail :=
  struct (mkRepaymentDetail "" 0 0 0 0 0 "") RepaymentDetail_fields.
#[export] Instance RepaymentDetail_schema : Schema (c_zero RepaymentDetail_json) RepaymentDetail_fields.
Proof. schema. Qed.

Record BillMainOrder := mkBillMainOrder {
  mo_OrderID : string; mo_RequestID : string; mo_MerchantID : string; mo_MerchantName : string;
  mo_OrderType : PaymentOrderType; mo_SubOrderID : string; mo_CreateTime : Z; mo_PeriodType : Z;
  mo_CurrentPeriod : Z; mo_TotalAmount : Amount; mo_OutstandingAmount : Amount; mo_RepaidAmount : Amount;
  mo_PrincipalAmount : Amount; mo_InterestAmount : Amount; mo_RefundAmount : Amount; mo_GracePeriod : Z;
  mo_DueDate : string; mo_Status : BillStatus; mo_RepaymentStatus : RepaymentStatus;
  mo_OverdueStatus : OverdueStatus; mo_RefundStatus : RefundStatus; mo_Discounts : option BillDiscounts;
}.
Definition BillMainOrder_fields : list (field_decl BillMainOrder) :=
  [ "orderId" ~> mo_OrderID as str; "requestId" ~> mo_RequestID as str;
    "merchantId" ~> mo_MerchantID as str omitempty; "merchantName" ~> mo_MerchantName as str omitempty;
    "orderType" ~> mo_OrderType as str; "subOrderId" ~> mo_SubOrderID as str omitempty;
    "createTime" ~> mo_CreateTime as int; "periodType" ~> mo_PeriodType as int;
    "currentPeriod" ~> mo_CurrentPeriod as int; "totalAmount" ~> mo_TotalAmount as int;
    "outstandingAmount" ~> mo_OutstandingAmount as int; "repaidAmount" ~> mo_RepaidAmount as int;
    "principalAmount" ~> mo_PrincipalAmount as int; "interestAmount" ~> mo_InterestAmount as int;
    "refundAmount" ~> mo_RefundAmount as int; "gracePeriod" ~> mo_GracePeriod as int;
    "dueDate" ~> mo_DueDate as str; "status" ~> mo_Status as str;
    "repaymentStatus" ~> mo_RepaymentStatus as str; "overdueStatus" ~> mo_OverdueStatus as str;
    "refundStatus" ~> mo_RefundStatus as str;
    "discounts" ~> mo_Discounts as (ptr BillDiscounts_json) omitempty ].
Definition BillMainOrder_json : codec BillMainOrder :=
  struct (mkBillMainOrder "" "" "" "" "" "" 0 0 0 0 0 0 0 0 0 0 "" "" "" "" "" None) BillMainOrder_fields.
#[export] Instance BillMainOrder_schema : Schema (c_zero BillMainOrder_json) BillMainOrder_fields.
Proof. schema. Qed.

Record Paginator := mkPaginator {
  pg_Start : Z; pg_Count : Z; pg_TotalCount : Z;
}.
Definition Paginator_fields : list (field_decl Paginator) :=
  [ "start" ~> pg_Start as int; "count" ~> pg_Count as int; "totalCount" ~> pg_TotalCount as int ].
Definition Paginator_json : codec Paginator :=
  struct (mkPaginator 0 0 0) Paginator_fields.
#[export] Instance Paginator_schema : Schema (c_zero Paginator_json) Paginator_fields.
Proof. schema. Qed.

Record BillDetail := mkBillDetail {
  bd_Currency : Currency; bd_Bill : option Bill; bd_RepaymentDetails : list RepaymentDetail;
  bd_MainOrders : list BillMainOrder; bd_Paginator : option Paginator;
  bd_Orders : list (option (gmap string json));
}.
Definition BillDetail_fields : list (field_decl BillDetail) :=
  [ "currency" ~> bd_Currency as str; "bill" ~> bd_Bill as (ptr Bill_json);
    "repaymentDetails" ~> bd_RepaymentDetails as (slice RepaymentDetail_json) omitempty;
    "mainOrders" ~> bd_MainOrders as (slice BillMainOrder_json);
    "paginator" ~> bd_Paginator as (ptr Paginator_json); "orders" ~> bd_Orders as (slice object) omitempty ].
Definition BillDetail_json : codec BillDetail :=
  struct (mkBillDetail "" None [] [] None []) BillDetail_fields.
#[export] Instance BillDetail_schema : Schema (c_zero BillDetail_json) BillDetail_fields.
Proof. schema. Qed.

Record BillsParams := mkBillsParams {
  bsp_ExternalReferenceUID : string; bsp_StartMonth : string; bsp_EndMonth : string;
  bsp_Status : list BillStatus; bsp_RepaymentStatus : list RepaymentStatus;
  bsp_OverdueStatus : list OverdueStatus; bsp_RefundStatus : list RefundStatus;
}.

Record BillsUnpaidParams := mkBillsUnpaidParams {
  bup_ExternalReferenceUID : string;
}.

Record BillDetailParams := mkBillDetailParams {
  bdp_BillID : string; bdp_ExternalReferenceUID : string; bdp_Start : Z; bdp_Count : Z;
}.

Record BillsResponse := mkBillsResponse {
  bsr_Code : Code; bsr_Message : string; bsr_Data : list BillsResponseItem;
}.
Definition BillsResponse_fields : list (field_decl BillsResponse) :=
  [ "code" ~> bsr_Code as str; "message" ~> bsr_Message as str;
    "data" ~> bsr_Data as (slice BillsResponseItem_json) ].
Definition BillsResponse_json : codec BillsResponse :=
  struct (mkBillsResponse "" "" []) BillsResponse_fields.
#[export] Instance BillsResponse_schema : Schema (c_zero BillsResponse_json) BillsResponse_fields.
Proof. schema. Qed.

Record BillDetailResponse := mkBillDetailResponse {
  bdr_Code : Code; bdr_Message : string; bdr_Data : option BillDetail;
}.
Definition BillDetailResponse_fields : list (field_decl BillDetailResponse) :=
  [ "code" ~> bdr_Code as str; "message" ~> bdr_Message as str;
    "data" ~> bdr_Data as (ptr BillDetail_json) omitempty ].
Definition BillDetailResponse_json : codec BillDetailResponse :=
  struct (mkBillDetailResponse "" "" None) BillDetailResponse_fields.
#[export] Instance BillDetailResponse_schema : Schema (c_zero BillDetailResponse_json) BillDetailResponse_fields.
Proof. schema. Qed.

Record BillUnpaid := mkBillUnpaid {
  bu_BilledAmountToBeRepaid : Amount; bu_BilledPrincipalAmountToBeRepaid : Amount;
  bu_BilledInterestAmountToBeRepaid : Amount; bu_BilledLateFeeAmountToBeRepaid : Amount;
  bu_BilledCurrentBillID : string; bu_OverdueStatus : OverdueStatus; bu_DaysPastDue : Z;
  bu_BilledCurrentDueDate : string; bu_BilledCurrentBillDate : string; bu_BilledCurrentStartDate : string;
  bu_BilledCurrentEndDate : string; bu_TotalAmountToBeRepaid : Amount;
  bu_TotalPrincipalAmountToBeRepaid : Amount; bu_TotalInterestAmountToBeRepaid : Amount;
  bu_TotalLateFeeAmountToBeRepaid : Amount;
}.
Definition BillUnpaid_fields : list (field_decl BillUnpaid) :=
  [ "billedAmountToBeRepaid" ~> bu_BilledAmountToBeRepaid as int;
    "billedPrincipalAmountToBeRepaid" ~> bu_BilledPrincipalAmountToBeRepaid as int;
    "billedInterestAmountToBeRepaid" ~> bu_BilledInterestAmountToBeRepaid as int;
    "billedLateFeeAmountToBeRepaid" ~> bu_BilledLateFeeAmountToBeRepaid as int;
    "billedCurrentBillId" ~> bu_BilledCurrentBillID as str; "overdueStatus" ~> bu_OverdueStatus as str;
    "daysPastDue" ~> bu_DaysPastDue as int; "billedCurrentDueDate" ~> bu_BilledCurrentDueDate as str;
    "billedCurrentBillDate" ~> bu_BilledCurrentBillDate as str;
    "billedCurrentStartDate" ~> bu_BilledCurrentStartDate as str;
    "billedCurrentEndDate" ~> bu_BilledCurrentEndDate as str;
    "totalAmountToBeRepaid" ~> bu_TotalAmountToBeRepaid as int;
    "totalPrincipalAmountToBeRepaid" ~> bu_TotalPrincipalAmountToBeRepaid as int;
    "totalInterestAmountToBeRepaid" ~> bu_TotalInterestAmountToBeRepaid as int;
    "totalLateFeeAmountToBeRepaid" ~> bu_TotalLateFeeAmountToBeRepaid as int ].
Definition BillUnpaid_json : codec BillUnpaid :=
  struct (mkBillUnpaid 0 0 0 0 "" "" 0 "" "" "" "" 0 0 0 0) BillUnpaid_fields.
#[export] Instance BillUnpaid_schema : Schema (c_zero BillUnpaid_json) BillUnpaid_fields.
Proof. schema. Qed.

Record BillUnpaidResponse := mkBillUnpaidResponse {
  bur_Code : Code; bur_Message : string; bur_Data : option BillUnpaid;
}.
Definition BillUnpaidResponse_fields : list (field_decl BillUnpaidResponse) :=
  [ "code" ~> bur_Code as str; "message" ~> bur_Message as str;
    "data" ~> bur_Data as (ptr BillUnpaid_json) omitempty ].
Definition BillUnpaidResponse_json : codec BillUnpaidResponse :=
  struct (mkBillUnpaidResponse "" "" None) BillUnpaidResponse_fields.
#[export] Instance BillUnpaidResponse_schema : Schema (c_zero BillUnpaidResponse_json) BillUnpaidResponse_fields.
Proof. schema. Qed.

Definition BillsResponse_IsSuccess (r : option BillsResponse) : bool :=
  match r with Some r => bool_decide (bsr_Code r = CodeSuccess) | None => false end.
Definition BillDetailResponse_IsSuccess (r : option BillDetailResponse) : bool :=
  match r with Some r => bool_decide (bdr_Code r = CodeSuccess) | None => false end.
Definition BillUnpaidResponse_IsSuccess (r : option BillUnpaidResponse) : bool :=
  match r with Some r => bool_decide (bur_Code r = CodeSuccess) | None => false end.

(** ** Validation and queries ([bill/bill.go]) *)

Definition DefaultStart : Z := 1.
Definition DefaultCount : Z := 10.
Definition MaxCount : Z := 50.

Definition validateBillsParams (p : BillsParams) : option error :=
  reject EValidation "externalReferenceUid" "required" when is_empty (bsp_ExternalReferenceUID p) ;;
  reject EValidation "startMonth" "required" when is_empty (bsp_StartMonth p) ;;
  reject EValidation "endMonth" "required" when is_empty (bsp_EndMonth p) ;; None.

Definition validateBillsUnpaidParams (p : BillsUnpaidParams) : option error :=
  reject EValidation "externalReferenceUid" "required" when is_empty (bup_ExternalReferenceUID p) ;; None.

(** The first message quotes an example. *)
Definition validateBillDetailParams (p : BillDetailParams) : option error :=
  reject EValidation "billId" ("required (format yyyyMM, e.g. " +:+ dqs "202607" +:+ ")") when is_empty (bdp_BillID p) ;;
  reject EValidation "externalReferenceUid" "required (the partner-side user identifier)"
    when is_empty (bdp_ExternalReferenceUID p) ;;
  reject EValidation "start" "must be >= 0 (0 omits the param and uses server default 1)" when bdp_Start p <? 0 ;;
  reject EValidation "count" "must be >= 0 (0 omits the param and uses server default 10)" when bdp_Count p <? 0 ;;
  reject EValidation "count" "must be <= 50" when bdp_Count p >? MaxCount ;; None.

Definition set_nonempty (q : Values) (key value : string) : Values :=
  if negb (is_empty value) then Values_Set q key value else q.

Definition add_all (q : Values) (key : string) (values : list string) : Values :=
  fold_left (fun q v => Values_Add q key v) values q.

Definition buildBillsQuery (p : BillsParams) : Values :=
  let q := set_nonempty ∅ "externalReferenceUid" (bsp_ExternalReferenceUID p) in
  let q := set_nonempty q "startMonth" (bsp_StartMonth p) in
  let q := set_nonempty q "endMonth" (bsp_EndMonth p) in
  let q := add_all q "status" (bsp_Status p) in
  let q := add_all q "repaymentStatus" (bsp_RepaymentStatus p) in
  let q := add_all q "overdueStatus" (bsp_OverdueStatus p) in
  add_all q "refundStatus" (bsp_RefundStatus p).

Definition buildBillDetailQuery (p : BillDetailParams) : Values :=
  let q := {[ "billId" := [bdp_BillID p]; "externalReferenceUid" := [bdp_ExternalReferenceUID p] ]} in
  let q := if 0 <? bdp_Start p then Values_Set q "start" (itoa (bdp_Start p)) else q in
  if 0 <? bdp_Count p then Values_Set q "count" (itoa (bdp_Count p)) else q.

Definition buildBillsUnpaidQuery (p : BillsUnpaidParams) : Values :=
  set_nonempty ∅ "externalReferenceUid" (bup_ExternalReferenceUID p).

(** ** Calls *)

Section Bill.
Context {R : RSA} {E : Env} {FC : FloatConv}.

(** [New]; [Service.Client] is [Service_Client]. *)
Definition New : option Client -> option Service := NewService.

Definition checkConfigured : option Service -> option error :=
  check_service "nil *bill.Service (likely from bill.New(nil))" "*bill.Service has nil *atomefin.Client".

(** Nil parameters are zero ones. *)
Definition Bills (s : option Service) (ctx : context) (params : option BillsParams) : M (res BillsResponse) :=
  let params := default (mkBillsParams "" "" "" [] [] [] []) params in
  fetch checkConfigured (validateBillsParams params)
    (fun c => get BillsResponse_json c ctx "/bills" (buildBillsQuery params)) s.

Definition BillDetailWithParams (s : option Service) (ctx : context) (params : option BillDetailParams)
    : M (res BillDetailResponse) :=
  fetch checkConfigured
    (match params with
     | None => Some (EValidation "request" "nil BillDetailParams")
     | Some p => validateBillDetailParams p
     end)
    (fun c => match params with
              | Some p => get BillDetailResponse_json c ctx "/billDetail" (buildBillDetailQuery p)
              | None => ret (Err (ENew "unreachable: nil params"))
              end) s.

Definition BillDetail_ (s : option Service) (ctx : context) (billID externalReferenceUID : string)
    : M (res BillDetailResponse) :=
  BillDetailWithParams s ctx (Some (mkBillDetailParams billID externalReferenceUID 0 0)).

Definition BillsUnpaid (s : option Service) (ctx : context) (params : option BillsUnpaidParams)
    : M (res BillUnpaidResponse) :=
  let params := default (mkBillsUnpaidParams "") params in
  fetch checkConfigured (validateBillsUnpaidParams params)
    (fun c => get BillUnpaidResponse_json c ctx "/billUnpaid" (buildBillsUnpaidQuery params)) s.

Definition BillsAll (s : option Service) (ctx : context) (params : option BillsParams)
    : M (res (list BillsResponseItem)) :=
  match checkConfigured s with
  | Some err => ret (Err err)
  | None =>
      let! resp := Bills s ctx params in
      ret (let* resp := resp in Ok (bsr_Data resp))
  end.

End Bill.

(** * Specification: what the parameters must meet *)

Definition bills_contract (p : BillsParams) : Prop :=
  bsp_ExternalReferenceUID p <> "" /\ bsp_StartMonth p <> "" /\ bsp_EndMonth p <> "".
Definition bill_detail_contract (p : BillDetailParams) : Prop :=
  bdp_BillID p <> "" /\ bdp_ExternalReferenceUID p <> "" /\ 0 <= bdp_Start p /\ 0 <= bdp_Count p <= 50.

Lemma validateBillsParams_None p : validateBillsParams p = None <-> bills_contract p.
Proof. unfold validateBillsParams, bills_contract. rewrite !reject_None, !is_empty_false. tauto. Qed.

Lemma validateBillDetailParams_None p : validateBillDetailParams p = None <-> bill_detail_contract p.
Proof.
  unfold validateBillDetailParams, bill_detail_contract, MaxCount.
  rewrite !reject_None, !is_empty_false, !Z.ltb_ge, Z.gtb_ltb, Z.ltb_ge. tauto.
Qed.

Lemma validateBillsUnpaidParams_None p : validateBillsUnpaidParams p = None <-> bup_ExternalReferenceUID p <> "".
Proof. unfold validateBillsUnpaidParams. rewrite !reject_None, !is_empty_false. tauto. Qed.

(** * Specification: what a query carries

    A query is described by its parameters in the order of the source, each with its
    values; one without values is not sent. *)

Definition given (s : string) : list string := if is_empty s then [] else [s].
Definition given_if (b : bool) (s : string) : list string := if b then [s] else [].
Definition query_of (l : list (string * list string)) : Values := drop_empty (list_to_map l).

Definition bills_filters (p : BillsParams) : list (string * list string) :=
  [("externalReferenceUid", given (bsp_ExternalReferenceUID p)); ("startMonth", given (bsp_StartMonth p));
   ("endMonth", given (bsp_EndMonth p)); ("status", bsp_Status p); ("repaymentStatus", bsp_RepaymentStatus p);
   ("overdueStatus", bsp_OverdueStatus p); ("refundStatus", bsp_RefundStatus p)].

Definition bill_detail_filters (p : BillDetailParams) : list (string * list string) :=
  [("billId", [bdp_BillID p]); ("externalReferenceUid", [bdp_ExternalReferenceUID p]);
   ("start", given_if (0 <? bdp_Start p) (itoa (bdp_Start p))); ("count", given_if (0 <? bdp_Count p) (itoa (bdp_Count p)))].

Lemma Values_Set_total q k v k' : Values_Set q k v !!! k' = if decide (k' = k) then [v] else q !!! k'.
Proof.
  unfold Values_Set. case_decide; [subst; apply lookup_total_insert_eq|by apply lookup_total_insert_ne].
Qed.

Lemma set_nonempty_total q k v k' :
  set_nonempty q k v !!! k' = if decide (k' = k) then (if is_empty v then q !!! k' else [v]) else q !!! k'.
Proof. unfold set_nonempty. destruct (is_empty v); cbn [negb]; [by case_decide|apply Values_Set_total]. Qed.

Lemma add_all_total q k vs k' : add_all q k vs !!! k' = if decide (k' = k) then q !!! k' ++ vs else q !!! k'.
Proof.
  unfold add_all. revert q. induction vs as [|v vs IH]; intros q; cbn [fold_left].
  - case_decide; by rewrite ?app_nil_r.
  - rewrite IH, Values_Add_total. case_decide as Hk; [|done]. by rewrite Hk, <- app_assoc.
Qed.

Lemma query_of_cons k vs l k' : query_of ((k, vs) :: l) !!! k' = if decide (k' = k) then vs else query_of l !!! k'.
Proof. unfold query_of. rewrite !drop_empty_total. cbn [list_to_map]. case_decide; [subst; apply lookup_total_insert_eq|by apply lookup_total_insert_ne]. Qed.

Lemma query_of_nil k : query_of [] !!! k = [].
Proof. unfold query_of. by rewrite drop_empty_total. Qed.

Lemma query_of_nin l k : k ∉ l.*1 -> query_of l !!! k = [].
Proof.
  induction l as [|[i vs] l IH]; intros Hk; [apply query_of_nil|].
  cbn in Hk. apply not_elem_of_cons in Hk as [Hi Hk]. rewrite query_of_cons, decide_False by done. by apply IH.
Qed.

Lemma query_of_in l f : NoDup l.*1 -> f ∈ l -> query_of l !!! f.1 = f.2.
Proof.
  intros Hnd Hf. unfold query_of. rewrite drop_empty_total, lookup_total_alt.
  rewrite (proj1 (elem_of_list_to_map l f.1 f.2 Hnd)) by by destruct f. done.
Qed.

(** Encoding a described query loses nothing. *)
Lemma drop_empty_query l : drop_empty (query_of l) = query_of l.
Proof. apply Values_ext; [apply drop_empty_no_empty..|]. intros k. apply drop_empty_total. Qed.

Lemma no_empty_Set q k v : no_empty q -> no_empty (Values_Set q k v).
Proof. intros H i. unfold Values_Set. rewrite lookup_insert_Some. intros [[_ ?]|[_ ?]]; [done|by eapply H]. Qed.

Lemma no_empty_set q k v : no_empty q -> no_empty (set_nonempty q k v).
Proof. unfold set_nonempty. destruct (is_empty v); [done|apply no_empty_Set]. Qed.

Lemma no_empty_add q k vs : no_empty q -> no_empty (add_all q k vs).
Proof.
  unfold add_all. revert q. induction vs as [|v vs IH]; intros q Hq; [done|]. apply IH. intros i.
  unfold Values_Add. rewrite lookup_insert_Some. intros [[_ ?]|[_ ?]]; [by destruct (q !!! k)|by eapply Hq].
Qed.

Lemma no_empty_nil : no_empty ∅.
Proof. by intros k. Qed.

Lemma no_empty_if (b : bool) q q' : no_empty q -> no_empty q' -> no_empty (if b then q else q').
Proof. by destruct b. Qed.

Lemma if_total (b : bool) (q q' : Values) k : (if b then q else q') !!! k = if b then q !!! k else q' !!! k.
Proof. by destruct b. Qed.

(** A query built by the functions above is the one described: they have the same values
    under each key. *)
Ltac query_ext :=
  apply Values_ext;
  [repeat first [apply no_empty_if | apply no_empty_add | apply no_empty_set | apply no_empty_Set | apply no_empty_nil]
  |apply drop_empty_no_empty|];
  intros k; rewrite !query_of_cons;
  repeat rewrite ?if_total, ?add_all_total, ?set_nonempty_total, ?Values_Set_total, ?lookup_total_empty;
  rewrite ?query_of_nil;
  unfold given, given_if; repeat case_decide; simplify_eq; try done;
  repeat match goal with |- context [if ?b then _ else _] => destruct b end; done.

Lemma buildBillsQuery_of p : buildBillsQuery p = query_of (bills_filters p).
Proof. unfold buildBillsQuery, bills_filters. query_ext. Qed.

Lemma buildBillDetailQuery_of p : buildBillDetailQuery p = query_of (bill_detail_filters p).
Proof.
  unfold buildBillDetailQuery, bill_detail_filters.
  change ({[ "billId" := [bdp_BillID p]; "externalReferenceUid" := [bdp_ExternalReferenceUID p] ]} : Values)
    with (Values_Set (Values_Set ∅ "externalReferenceUid" (bdp_ExternalReferenceUID p)) "billId" (bdp_BillID p)).
  query_ext.
Qed.

(** The signature covers the first value of each parameter. *)
Lemma query_of_heads l l' :
  l.*1 = l'.*1 -> NoDup l.*1 ->
  (CanonicalQueryFirstValue (query_of l) = CanonicalQueryFirstValue (query_of l') <->
   map (fun f => head f.2) l = map (fun f => head f.2) l').
Proof.
  intros Hk Hnd. rewrite canonical_eq.
  assert (Hext : first_values (query_of l) = first_values (query_of l') <->
    forall k, head (query_of l !!! k) = head (query_of l' !!! k)).
  { split; [intros He k; by rewrite !first_values_head, He|].
    intros He. apply map_eq. intros k. rewrite <- !first_values_head. apply He. }
  rewrite Hext. clear Hext. revert l' Hk Hnd. induction l as [|[k vs] l IH]; intros [|[k' vs'] l'] Hk Hnd; try done.
  cbn in Hk. injection Hk as <- Hk. cbn in Hnd. apply NoDup_cons in Hnd as [Hnin Hnd]. cbn [map]. split.
  - intros He. f_equal; [specialize (He k); by rewrite !query_of_cons, !decide_True in He|].
    apply (proj1 (IH l' Hk Hnd)). intros i. specialize (He i). rewrite !query_of_cons in He. case_decide as Hi; [|done].
    subst i. by rewrite !query_of_nin by (by rewrite <- ?Hk).
  - intros [= Hh Ht] i. rewrite !query_of_cons. case_decide; [done|]. by apply (proj2 (IH l' Hk Hnd)).
Qed.

Lemma filters_NoDup p : NoDup (bills_filters p).*1.
Proof. apply (bool_decide_unpack _). exact I. Qed.
Lemma detail_NoDup p : NoDup (bill_detail_filters p).*1.
Proof. apply (bool_decide_unpack _). exact I. Qed.

(** * Claims *)

(** What the bill queries say.  The gateway parses the wire query of [/bills] and
    [/billDetail] back to exactly the parameters that were set, every value of a repeated
    filter in the caller's order; the signature covers the first value of each, so two
    calls have the same signed string exactly when they agree on those. *)
Theorem bill_queries :
  (forall p, ParseQuery (EncodeWireQueryRFC3986 (buildBillsQuery p)) = (query_of (bills_filters p), true)) /\
  (forall p, ParseQuery (EncodeWireQueryRFC3986 (buildBillDetailQuery p)) = (query_of (bill_detail_filters p), true)) /\
  (forall p f k, f ∈ bills_filters p -> f.1 = k -> buildBillsQuery p !!! k = f.2) /\
  (forall p p', CanonicalQueryFirstValue (buildBillsQuery p) = CanonicalQueryFirstValue (buildBillsQuery p') <->
     map (fun f => head f.2) (bills_filters p) = map (fun f => head f.2) (bills_filters p')) /\
  (forall p p', CanonicalQueryFirstValue (buildBillDetailQuery p) = CanonicalQueryFirstValue (buildBillDetailQuery p') <->
     map (fun f => head f.2) (bill_detail_filters p) = map (fun f => head f.2) (bill_detail_filters p')).
Proof.
  split_and!.
  - intros p. by rewrite ParseQuery_wire, buildBillsQuery_of, drop_empty_query.
  - intros p. by rewrite ParseQuery_wire, buildBillDetailQuery_of, drop_empty_query.
  - intros p f k Hf <-. rewrite buildBillsQuery_of. by apply query_of_in; [apply filters_NoDup|].
  - intros p p'. rewrite !buildBillsQuery_of. apply query_of_heads; [done|apply filters_NoDup].
  - intros p p'. rewrite !buildBillDetailQuery_of. apply query_of_heads; [done|apply detail_NoDup].
Qed.

(** The second value of a filter is on the wire and not under the signature. *)
Example second_status_unsigned :
  let p l := mkBillsParams "u" "202601" "202602" l [] [] [] in
  CanonicalQueryFirstValue (buildBillsQuery (p ["BILLED"])) = CanonicalQueryFirstValue (buildBillsQuery (p ["BILLED"; "UNBILLED"])) /\
  EncodeWireQueryRFC3986 (buildBillsQuery (p ["BILLED"])) <> EncodeWireQueryRFC3986 (buildBillsQuery (p ["BILLED"; "UNBILLED"])).
Proof. by vm_compute. Qed.
