(* ===== verification/Transaction.v ===== *)
(** * Transaction: [atomefin/transaction], the transaction queries and the pagination of
    [TransactionsAll]. *)
From S2P Require Import Prelude GoStd Errors Canonical GoCrypto Sign GoHttp Json Codec Schema Transport World.
From S2P Require Import Client Doer Service PaymentTypes Payment Bill.

(** ** Types ([transaction/types.go]) *)

Definition TransactionType := string.
Definition TransactionTypePayment : TransactionType := "PAYMENT".
Definition TransactionTypeRefund : TransactionType := "REFUND".
Definition TransactionTypeRepayment : TransactionType := "REPAYMENT".
Definition TransactionType_IsValid (t : TransactionType) : bool :=
  bool_decide (t ∈ [TransactionTypePayment; TransactionTypeRefund; TransactionTypeRepayment]).
Definition RefundType := string.
Definition RefundTypeNormal : RefundType := "NORMAL".
Definition RefundTypeChargeback : RefundType := "CHARGEBACK".
Definition RefundTypeOverpaid : RefundType := "OVERPAID".
Definition RefundTypeAtomeRepayment : RefundType := "ATOME_REPAYMENT".
Definition RefundType_IsValid (t : RefundType) : bool :=
  bool_decide (t ∈ [RefundTypeNormal; RefundTypeChargeback; RefundTypeOverpaid; RefundTypeAtomeRepayment]).
Definition SubOrderRefundStatus := string.
Definition SubOrderRefundStatusFull : SubOrderRefundStatus := "FULL_REFUND".
Definition SubOrderRefundStatusPartial : SubOrderRefundStatus := "PARTIAL_REFUND".

Record TransactionsParams := mkTransactionsParams {
  tp_ExternalReferenceUID : string; tp_TransactionType : TransactionType; tp_StartDate : string;
  tp_EndDate : string; tp_Start : Z; tp_Count : Z;
}.

Record TradeSubOrder := mkTradeSubOrder {
  tso_SubOrderID : string; tso_MerchantID : string; tso_MerchantName : string;
  tso_PrincipalAmount : Amount; tso_InterestAmount : Amount; tso_DiscountAmount : Amount;
}.
Definition TradeSubOrder_fields : list (field_decl TradeSubOrder) :=
  [ "subOrderId" ~> tso_SubOrderID as str omitempty; "merchantId" ~> tso_MerchantID as str omitempty;
    "merchantName" ~> tso_MerchantName as str omitempty; "principalAmount" ~> tso_PrincipalAmount as int;
    "interestAmount" ~> tso_InterestAmount as int omitempty;
    "discountAmount" ~> tso_DiscountAmount as int omitempty ].
Definition TradeSubOrder_json : codec TradeSubOrder :=
  struct (mkTradeSubOrder "" "" "" 0 0 0) TradeSubOrder_fields.
#[export] Instance TradeSubOrder_schema : Schema (c_zero TradeSubOrder_json) TradeSubOrder_fields.
Proof. schema. Qed.

Record TradePaymentInfo := mkTradePaymentInfo {
  tpi_PaymentRequestID : string; tpi_OrderID : string; tpi_OrderType : PaymentOrderType;
  tpi_TotalTenor : Z; tpi_CreateTime : Z; tpi_SubOrders : list TradeSubOrder;
}.
Definition TradePaymentInfo_fields : list (field_decl TradePaymentInfo) :=
  [ "paymentRequestId" ~> tpi_PaymentRequestID as str; "orderId" ~> tpi_OrderID as str;
    "orderType" ~> tpi_OrderType as str; "totalTenor" ~> tpi_TotalTenor as int omitempty;
    "createTime" ~> tpi_CreateTime as int;
    "subOrders" ~> tpi_SubOrders as (slice TradeSubOrder_json) omitempty ].
Definition TradePaymentInfo_json : codec TradePaymentInfo :=
  struct (mkTradePaymentInfo "" "" "" 0 0 []) TradePaymentInfo_fields.
#[export] Instance TradePaymentInfo_schema : Schema (c_zero TradePaymentInfo_json) TradePaymentInfo_fields.
Proof. schema. Qed.

Record TradeRefundSubOrder := mkTradeRefundSubOrder {
  trso_SubOrderID : string; trso_MerchantID : string; trso_MerchantName : string;
  trso_RefundStatus : SubOrderRefundStatus; trso_PrincipalAmount : Amount;
  trso_WaivedInterestAmount : Amount; trso_AvailableCreditChange : Amount; trso_DiscountAmount : Amount;
  trso_OverpaidAmountChange : Amount;
}.
Definition TradeRefundSubOrder_fields : list (field_decl TradeRefundSubOrder) :=
  [ "subOrderId" ~> trso_SubOrderID as str omitempty; "merchantId" ~> trso_MerchantID as str omitempty;
    "merchantName" ~> trso_MerchantName as str omitempty; "refundStatus" ~> trso_RefundStatus as str;
    "principalAmount" ~> trso_PrincipalAmount as int;
    "waivedInterestAmount" ~> trso_WaivedInterestAmount as int omitempty;
    "availableCreditChange" ~> trso_AvailableCreditChange as int omitempty;
    "discountAmount" ~> trso_DiscountAmount as int omitempty;
    "overpaidAmountChange" ~> trso_OverpaidAmountChange as int omitempty ].
Definition TradeRefundSubOrder_json : codec TradeRefundSubOrder :=
  struct (mkTradeRefundSubOrder "" "" "" "" 0 0 0 0 0) TradeRefundSubOrder_fields.
#[export] Instance TradeRefundSubOrder_schema : Schema (c_zero TradeRefundSubOrder_json) TradeRefundSubOrder_fields.
Proof. schema. Qed.

Record TradeRefundInfo := mkTradeRefundInfo {
  tri_RefundRequestID : string; tri_PaymentRequestID : string; tri_RefundAmount : Amount;
  tri_RefundDiscountAmount : Amount; tri_WaivedInterestAmount : Amount; tri_OverpaidAmountChange : Amount;
  tri_AvailableCreditChange : Amount; tri_LateFeeAmountChange : Amount; tri_RefundType : RefundType;
  tri_CreateTime : Z; tri_SubOrders : list TradeRefundSubOrder;
}.
Definition TradeRefundInfo_fields : list (field_decl TradeRefundInfo) :=
  [ "refundRequestId" ~> tri_RefundRequestID as str; "paymentRequestId" ~> tri_PaymentRequestID as str;
    "refundAmount" ~> tri_RefundAmount as int;
    "refundDiscountAmount" ~> tri_RefundDiscountAmount as int omitempty;
    "waivedInterestAmount" ~> tri_WaivedInterestAmount as int omitempty;
    "overpaidAmountChange" ~> tri_OverpaidAmountChange as int omitempty;
    "availableCreditChange" ~> tri_AvailableCreditChange as int omitempty;
    "lateFeeAmountChange" ~> tri_LateFeeAmountChange as int omitempty;
    "refundType" ~> tri_RefundType as str; "createTime" ~> tri_CreateTime as int;
    "subOrders" ~> tri_SubOrders as (slice TradeRefundSubOrder_json) omitempty ].
Definition TradeRefundInfo_json : codec TradeRefundInfo :=
  struct (mkTradeRefundInfo "" "" 0 0 0 0 0 0 "" 0 []) TradeRefundInfo_fields.
#[export] Instance TradeRefundInfo_schema : Schema (c_zero TradeRefundInfo_json) TradeRefundInfo_fields.
Proof. schema. Qed.

Record TradeRepaymentDetail := mkTradeRepaymentDetail {
  tyd_BillID : string; tyd_DueDate : string; tyd_BillStartDate : string; tyd_BillEndDate : string;
  tyd_RepaymentAmount : Amount;
}.
Definition TradeRepaymentDetail_fields : list (field_decl TradeRepaymentDetail) :=
  [ "billId" ~> tyd_BillID as str; "dueDate" ~> tyd_DueDate as str;
    "billStartDate" ~> tyd_BillStartDate as str; "billEndDate" ~> tyd_BillEndDate as str;
    "repaymentAmount" ~> tyd_RepaymentAmount as int ].
Definition TradeRepaymentDetail_json : codec TradeRepaymentDetail :=
  struct (mkTradeRepaymentDetail "" "" "" "" 0) TradeRepaymentDetail_fields.
#[export] Instance TradeRepaymentDetail_schema : Schema (c_zero TradeRepaymentDetail_json) TradeRepaymentDetail_fields.
Proof. schema. Qed.

Record TradeRepaymentInfo := mkTradeRepaymentInfo {
  tyi_RepaymentRequestID : string; tyi_RepaymentAmount : Amount; tyi_OverpaidAmountChange : Amount;
  tyi_Event : RepaymentEvent; tyi_CreateTime : Z; tyi_RepaymentDetails : list TradeRepaymentDetail;
}.
Definition TradeRepaymentInfo_fields : list (field_decl TradeRepaymentInfo) :=
  [ "repaymentRequestId" ~> tyi_RepaymentRequestID as str; "repaymentAmount" ~> tyi_RepaymentAmount as int;
    "overpaidAmountChange" ~> tyi_OverpaidAmountChange as int omitempty; "event" ~> tyi_Event as str;
    "createTime" ~> tyi_CreateTime as int;
    "repaymentDetails" ~> tyi_RepaymentDetails as (slice TradeRepaymentDetail_json) omitempty ].
Definition TradeRepaymentInfo_json : codec TradeRepaymentInfo :=
  struct (mkTradeRepaymentInfo "" 0 0 "" 0 []) TradeRepaymentInfo_fields.
#[export] Instance TradeRepaymentInfo_schema : Schema (c_zero TradeRepaymentInfo_json) TradeRepaymentInfo_fields.
Proof. schema. Qed.

Record Paginator := mkPaginator {
  pg_Start : Z; pg_Count : Z; pg_TotalCount : Z;
}.
Definition Paginator_fields : list (field_decl Paginator) :=
  [ "start" ~> pg_Start as int; "count" ~> pg_Count as int; "totalCount" ~> pg_TotalCount as int ].
Definition Paginator_json : codec Paginator :=
  struct (mkPaginator 0 0 0) Paginator_fields.
#[export] Instance Paginator_schema : Schema (c_zero Paginator_json) Paginator_fields.
Proof. schema. Qed.

Record TransactionsData := mkTransactionsData {
  td_Currency : Currency; td_PaymentInfo : list TradePaymentInfo; td_RefundInfo : list TradeRefundInfo;
  td_RepaymentInfo : list TradeRepaymentInfo; td_Paginator : option Paginator;
}.
Definition TransactionsData_fields : list (field_decl TransactionsData) :=
  [ "currency" ~> td_Currency as str;
    "paymentInfo" ~> td_PaymentInfo as (slice TradePaymentInfo_json) omitempty;
    "refundInfo" ~> td_RefundInfo as (slice TradeRefundInfo_json) omitempty;
    "repaymentInfo" ~> td_RepaymentInfo as (slice TradeRepaymentInfo_json) omitempty;
    "paginator" ~> td_Paginator as (ptr Paginator_json) ].
Definition TransactionsData_json : codec TransactionsData :=
  struct (mkTransactionsData "" [] [] [] None) TransactionsData_fields.
#[export] Instance TransactionsData_schema : Schema (c_zero TransactionsData_json) TransactionsData_fields.
Proof. schema. Qed.

Record TransactionsResponse := mkTransactionsResponse {
  tr_Code : Code; tr_Message : string; tr_Data : option TransactionsData;
}.
Definition TransactionsResponse_fields : list (field_decl TransactionsResponse) :=
  [ "code" ~> tr_Code as str; "message" ~> tr_Message as str;
    "data" ~> tr_Data as (ptr TransactionsData_json) omitempty ].
Definition TransactionsResponse_json : codec TransactionsResponse :=
  struct (mkTransactionsResponse "" "" None) TransactionsResponse_fields.
#[export] Instance TransactionsResponse_schema : Schema (c_zero TransactionsResponse_json) TransactionsResponse_fields.
Proof. schema. Qed.

Record TradeBillDetail := mkTradeBillDetail {
  tbd_BillID : string; tbd_BillDate : string; tbd_DueDate : string; tbd_BillStartDate : string;
  tbd_BillEndDate : string; tbd_TotalAmount : Amount; tbd_OutstandingAmount : Amount;
  tbd_RepaidAmount : Amount; tbd_PrincipalAmount : Amount; tbd_InterestAmount : Amount;
  tbd_Status : BillStatus; tbd_RepaymentStatus : RepaymentStatus; tbd_OverdueStatus : OverdueStatus;
  tbd_Discounts : option BillDiscounts;
}.
Definition TradeBillDetail_fields : list (field_decl TradeBillDetail) :=
  [ "billId" ~> tbd_BillID as str; "billDate" ~> tbd_BillDate as str; "dueDate" ~> tbd_DueDate as str;
    "billStartDate" ~> tbd_BillStartDate as str omitempty;
    "billEndDate" ~> tbd_BillEndDate as str omitempty; "totalAmount" ~> tbd_TotalAmount as int;
    "outstandingAmount" ~> tbd_OutstandingAmount as int omitempty;
    "repaidAmount" ~> tbd_RepaidAmount as int; "principalAmount" ~> tbd_PrincipalAmount as int;
    "interestAmount" ~> tbd_InterestAmount as int; "status" ~> tbd_Status as str;
    "repaymentStatus" ~> tbd_RepaymentStatus as str; "overdueStatus" ~> tbd_OverdueStatus as str;
    "discounts" ~> tbd_Discounts as (ptr BillDiscounts_json) omitempty ].
Definition TradeBillDetail_json : codec TradeBillDetail :=
  struct (mkTradeBillDetail "" "" "" "" "" 0 0 0 0 0 "" "" "" None) TradeBillDetail_fields.
#[export] Instance TradeBillDetail_schema : Schema (c_zero TradeBillDetail_json) TradeBillDetail_fields.
Proof. schema. Qed.

Record TradeRefundInfoDetail := mkTradeRefundInfoDetail {
  trid_RefundRequestID : string; trid_PrincipalAmount : Amount; trid_DiscountAmount : Amount;
  trid_WaivedInterestAmount : Amount; trid_AvailableCreditChange : Amount;
  trid_LateFeeAmountChange : Amount; trid_RefundStatus : SubOrderRefundStatus;
  trid_OverpaidAmountChange : Amount; trid_Event : RefundType; trid_CreateTime : Z;
}.
Definition TradeRefundInfoDetail_fields : list (field_decl TradeRefundInfoDetail) :=
  [ "refundRequestId" ~> trid_RefundRequestID as str; "principalAmount" ~> trid_PrincipalAmount as int;
    "discountAmount" ~> trid_DiscountAmount as int omitempty;
    "waivedInterestAmount" ~> trid_WaivedInterestAmount as int omitempty;
    "availableCreditChange" ~> trid_AvailableCreditChange as int omitempty;
    "lateFeeAmountChange" ~> trid_LateFeeAmountChange as int omitempty;
    "refundStatus" ~> trid_RefundStatus as str omitempty;
    "overpaidAmountChange" ~> trid_OverpaidAmountChange as int omitempty;
    "event" ~> trid_Event as str omitempty; "createTime" ~> trid_CreateTime as int ].
Definition TradeRefundInfoDetail_json : codec TradeRefundInfoDetail :=
  struct (mkTradeRefundInfoDetail "" 0 0 0 0 0 "" 0 "" 0) TradeRefundInfoDetail_fields.
#[export] Instance TradeRefundInfoDetail_schema : Schema (c_zero TradeRefundInfoDetail_json) TradeRefundInfoDetail_fields.
Proof. schema. Qed.

Record TradeSubOrderDetail := mkTradeSubOrderDetail {
  tsod_SubOrderID : string; tsod_MerchantID : string; tsod_MerchantName : string;
  tsod_PrincipalAmount : Amount; tsod_InterestAmount : Amount; tsod_DiscountAmount : Amount;
  tsod_BillOrderDetails : list TradeBillDetail; tsod_RefundInfo : list TradeRefundInfoDetail;
}.
Definition TradeSubOrderDetail_fields : list (field_decl TradeSubOrderDetail) :=
  [ "subOrderId" ~> tsod_SubOrderID as str omitempty; "merchantId" ~> tsod_MerchantID as str omitempty;
    "merchantName" ~> tsod_MerchantName as str omitempty; "principalAmount" ~> tsod_PrincipalAmount as int;
    "interestAmount" ~> tsod_InterestAmount as int omitempty;
    "discountAmount" ~> tsod_DiscountAmount as int omitempty;
    "billOrderDetails" ~> tsod_BillOrderDetails as (slice TradeBillDetail_json) omitempty;
    "refundInfo" ~> tsod_RefundInfo as (slice TradeRefundInfoDetail_json) omitempty ].
Definition TradeSubOrderDetail_json : codec TradeSubOrderDetail :=
  struct (mkTradeSubOrderDetail "" "" "" 0 0 0 [] []) TradeSubOrderDetail_fields.
#[export] Instance TradeSubOrderDetail_schema : Schema (c_zero TradeSubOrderDetail_json) TradeSubOrderDetail_fields.
Proof. schema. Qed.

Record PaymentTransactionExtendInfo := mkPaymentTransactionExtendInfo {
  ptei_Agreement : option AgreementRef;
}.
Definition PaymentTransactionExtendInfo_fields : list (field_decl PaymentTransactionExtendInfo) :=
  [ "agreement" ~> ptei_Agreement as (ptr AgreementRef_json) omitempty ].
Definition PaymentTransactionExtendInfo_json : codec PaymentTransactionExtendInfo :=
  struct (mkPaymentTransactionExtendInfo None) PaymentTransactionExtendInfo_fields.
#[export] Instance PaymentTransactionExtendInfo_schema : Schema (c_zero PaymentTransactionExtendInfo_json) PaymentTransactionExtendInfo_fields.
Proof. schema. Qed.

Record TradePaymentInfoDetail := mkTradePaymentInfoDetail {
  tpid_CaptureRequestID : string; tpid_OrderID : string; tpid_OrderType : PaymentOrderType;
  tpid_TotalTenor : Z; tpid_CreateTime : Z; tpid_PrincipalAmount : Amount; tpid_InterestAmount : Amount;
  tpid_DiscountAmount : Amount; tpid_SubOrders : list TradeSubOrderDetail;
  tpid_ExtendInfo : option PaymentTransactionExtendInfo;
}.
Definition TradePaymentInfoDetail_fields : list (field_decl TradePaymentInfoDetail) :=
  [ "captureRequestId" ~> tpid_CaptureRequestID as str; "orderId" ~> tpid_OrderID as str;
    "orderType" ~> tpid_OrderType as str; "totalTenor" ~> tpid_TotalTenor as int omitempty;
    "createTime" ~> tpid_CreateTime as int; "principalAmount" ~> tpid_PrincipalAmount as int;
    "interestAmount" ~> tpid_InterestAmount as int omitempty;
    "discountAmount" ~> tpid_DiscountAmount as int omitempty;
    "subOrders" ~> tpid_SubOrders as (slice TradeSubOrderDetail_json) omitempty;
    "extendInfo" ~> tpid_ExtendInfo as (ptr PaymentTransactionExtendInfo_json) omitempty ].
Definition TradePaymentInfoDetail_json : codec TradePaymentInfoDetail :=
  struct (mkTradePaymentInfoDetail "" "" "" 0 0 0 0 0 [] None) TradePaymentInfoDetail_fields.
#[export] Instance TradePaymentInfoDetail_schema : Schema (c_zero TradePaymentInfoDetail_json) TradePaymentInfoDetail_fields.
Proof. schema. Qed.

Record RefundInfoDetail := mkRefundInfoDetail {
  rid_RefundRequestID : string; rid_PaymentRequestID : string; rid_RefundAmount : Amount;
  rid_RefundDiscountAmount : Amount; rid_WaivedInterestAmount : Amount; rid_LateFeeAmountChange : Amount;
  rid_AvailableCreditChange : Amount; rid_OverpaidAmountChange : Amount; rid_RefundType : RefundType;
  rid_CreateTime : Z; rid_SubOrders : list TradeRefundSubOrder;
}.
Definition RefundInfoDetail_fields : list (field_decl RefundInfoDetail) :=
  [ "refundRequestId" ~> rid_RefundRequestID as str; "paymentRequestId" ~> rid_PaymentRequestID as str;
    "refundAmount" ~> rid_RefundAmount as int;
    "refundDiscountAmount" ~> rid_RefundDiscountAmount as int omitempty;
    "waivedInterestAmount" ~> rid_WaivedInterestAmount as int omitempty;
    "lateFeeAmountChange" ~> rid_LateFeeAmountChange as int omitempty;
    "availableCreditChange" ~> rid_AvailableCreditChange as int omitempty;
    "overpaidAmountChange" ~> rid_OverpaidAmountChange as int omitempty;
    "refundType" ~> rid_RefundType as str; "createTime" ~> rid_CreateTime as int;
    "subOrders" ~> rid_SubOrders as (slice TradeRefundSubOrder_json) omitempty ].
Definition RefundInfoDetail_json : codec RefundInfoDetail :=
  struct (mkRefundInfoDetail "" "" 0 0 0 0 0 0 "" 0 []) RefundInfoDetail_fields.
#[export] Instance RefundInfoDetail_schema : Schema (c_zero RefundInfoDetail_json) RefundInfoDetail_fields.
Proof. schema. Qed.

Record TradeDetailRepaymentDetail := mkTradeDetailRepaymentDetail {
  tdyd_BillID : string; tdyd_DueDate : string; tdyd_BillStartDate : string; tdyd_BillEndDate : string;
  tdyd_RepaymentAmount : Amount; tdyd_RepaidPrincipalAmount : Amount; tdyd_RepaidInterestAmount : Amount;
}.
Definition TradeDetailRepaymentDetail_fields : list (field_decl TradeDetailRepaymentDetail) :=
  [ "billId" ~> tdyd_BillID as str; "dueDate" ~> tdyd_DueDate as str;
    "billStartDate" ~> tdyd_BillStartDate as str; "billEndDate" ~> tdyd_BillEndDate as str;
    "repaymentAmount" ~> tdyd_RepaymentAmount as int;
    "repaidPrincipalAmount" ~> tdyd_RepaidPrincipalAmount as int omitempty;
    "repaidInterestAmount" ~> tdyd_RepaidInterestAmount as int omitempty ].
Definition TradeDetailRepaymentDetail_json : codec TradeDetailRepaymentDetail :=
  struct (mkTradeDetailRepaymentDetail "" "" "" "" 0 0 0) TradeDetailRepaymentDetail_fields.
#[export] Instance TradeDetailRepaymentDetail_schema : Schema (c_zero TradeDetailRepaymentDetail_json) TradeDetailRepaymentDetail_fields.
Proof. schema. Qed.

Record TradeRepaymentInfoDetail := mkTradeRepaymentInfoDetail {
  tyid_RepaymentRequestID : string; tyid_RepaymentAmount : Amount; tyid_OverpaidAmountChange : Amount;
  tyid_LateFeeAmountChange : Amount; tyid_Event : RepaymentEvent; tyid_CreateTime : Z;
  tyid_RepaymentDetails : list TradeDetailRepaymentDetail;
}.
Definition TradeRepaymentInfoDetail_fields : list (field_decl TradeRepaymentInfoDetail) :=
  [ "repaymentRequestId" ~> tyid_RepaymentRequestID as str;
    "repaymentAmount" ~> tyid_RepaymentAmount as int;
    "overpaidAmountChange" ~> tyid_OverpaidAmountChange as int omitempty;
    "lateFeeAmountChange" ~> tyid_LateFeeAmountChange as int omitempty; "event" ~> tyid_Event as str;
    "createTime" ~> tyid_CreateTime as int;
    "repaymentDetails" ~> tyid_RepaymentDetails as (slice TradeDetailRepaymentDetail_json) omitempty ].
Definition TradeRepaymentInfoDetail_json : codec TradeRepaymentInfoDetail :=
  struct (mkTradeRepaymentInfoDetail "" 0 0 0 "" 0 []) TradeRepaymentInfoDetail_fields.
#[export] Instance TradeRepaymentInfoDetail_schema : Schema (c_zero TradeRepaymentInfoDetail_json) TradeRepaymentInfoDetail_fields.
Proof. schema. Qed.

Record TradeDetail := mkTradeDetail {
  tdd_Currency : Currency; tdd_PaymentInfo : option TradePaymentInfoDetail;
  tdd_RefundInfo : option RefundInfoDetail; tdd_RepaymentInfo : option TradeRepaymentInfoDetail;
}.
Definition TradeDetail_fields : list (field_decl TradeDetail) :=
  [ "currency" ~> tdd_Currency as str;
    "paymentInfo" ~> tdd_PaymentInfo as (ptr TradePaymentInfoDetail_json) omitempty;
    "refundInfo" ~> tdd_RefundInfo as (ptr RefundInfoDetail_json) omitempty;
    "repaymentInfo" ~> tdd_RepaymentInfo as (ptr TradeRepaymentInfoDetail_json) omitempty ].
Definition TradeDetail_json : codec TradeDetail :=
  struct (mkTradeDetail "" None None None) TradeDetail_fields.
#[export] Instance TradeDetail_schema : Schema (c_zero TradeDetail_json) TradeDetail_fields.
Proof. schema. Qed.

Record TransactionDetailResponse := mkTransactionDetailResponse {
  tdr_Code : Code; tdr_Message : string; tdr_Data : option TradeDetail;
}.
Definition TransactionDetailResponse_fields : list (field_decl TransactionDetailResponse) :=
  [ "code" ~> tdr_Code as str; "message" ~> tdr_Message as str;
    "data" ~> tdr_Data as (ptr TradeDetail_json) omitempty ].
Definition TransactionDetailResponse_json : codec TransactionDetailResponse :=
  struct (mkTransactionDetailResponse "" "" None) TransactionDetailResponse_fields.
#[export] Instance TransactionDetailResponse_schema : Schema (c_zero TransactionDetailResponse_json) TransactionDetailResponse_fields.
Proof. schema. Qed.

Definition TransactionsResponse_IsSuccess (r : option TransactionsResponse) : bool :=
  match r with Some r => bool_decide (tr_Code r = CodeSuccess) | None => false end.
Definition TransactionDetailResponse_IsSuccess (r : option TransactionDetailResponse) : bool :=
  match r with Some r => bool_decide (tdr_Code r = CodeSuccess) | None => false end.

(** ** Validation and queries ([transaction/transaction.go]) *)

Definition DefaultStart : Z := 1.
Definition DefaultCount : Z := 10.
Definition MaxCount : Z := 50.

Definition validateTransactionsParams (p : TransactionsParams) : option error :=
  reject EValidation "externalReferenceUid" "required" when is_empty (tp_ExternalReferenceUID p) ;;
  reject EValidation "startDate" "required" when is_empty (tp_StartDate p) ;;
  reject EValidation "endDate" "required" when is_empty (tp_EndDate p) ;;
  reject EValidation "transactionType" "required" when is_empty (tp_TransactionType p) ;;
  reject EValidation "start" "must be >= 0 (0 → default 1)" when tp_Start p <? 0 ;;
  reject EValidation "count" "must be >= 0 (0 → default 10)" when tp_Count p <? 0 ;;
  reject EValidation "count" "must be <= 50" when tp_Count p >? MaxCount ;; None.

(** The guards of [TransactionDetail]. *)
Definition validateTransactionDetail (requestID externalReferenceUID : string) (transactionType : TransactionType)
    : option error :=
  reject EValidation "requestId" "required (the original payment / refund / repayment requestId)"
    when is_empty requestID ;;
  reject EValidation "externalReferenceUid" "required (the partner-side user identifier)"
    when is_empty externalReferenceUID ;;
  reject EValidation "transactionType" "required (PAYMENT / REFUND / REPAYMENT)" when is_empty transactionType ;; None.

Definition buildTransactionsQuery (p : TransactionsParams) : Values :=
  let q := Values_Set ∅ "start" (itoa (or_default (tp_Start p) DefaultStart)) in
  let q := Values_Set q "count" (itoa (or_default (tp_Count p) DefaultCount)) in
  let q := set_nonempty q "externalReferenceUid" (tp_ExternalReferenceUID p) in
  let q := set_nonempty q "transactionType" (tp_TransactionType p) in
  let q := set_nonempty q "startDate" (tp_StartDate p) in
  set_nonempty q "endDate" (tp_EndDate p).

(** ** Pages *)

Definition zero_params : TransactionsParams := mkTransactionsParams "" "" "" "" 0 0.
Definition zero_data : TransactionsData := c_zero TransactionsData_json.

Definition page_rows (d : TransactionsData) : Z :=
  Z.of_nat (length (td_PaymentInfo d)) + Z.of_nat (length (td_RefundInfo d)) + Z.of_nat (length (td_RepaymentInfo d)).

(** What a page adds to the result so far. *)
Definition add_page (out d : TransactionsData) : TransactionsData :=
  mkTransactionsData (if is_empty (td_Currency out) then td_Currency d else td_Currency out)
    (td_PaymentInfo out ++ td_PaymentInfo d) (td_RefundInfo out ++ td_RefundInfo d)
    (td_RepaymentInfo out ++ td_RepaymentInfo d) (td_Paginator d).

(** The three reasons to stop after the page [d], [out] including it. *)
Definition last_page (cur : TransactionsParams) (out d : TransactionsData) : bool :=
  (page_rows d <? tp_Count cur)
  || match td_Paginator d with
     | Some p => (0 <? pg_TotalCount p) && (page_rows out >=? pg_TotalCount p)
     | None => false
     end
  || (tp_Count cur <=? 0).

Definition set_page (p : TransactionsParams) (start count : Z) : TransactionsParams :=
  mkTransactionsParams (tp_ExternalReferenceUID p) (tp_TransactionType p) (tp_StartDate p) (tp_EndDate p) start count.

(** [cur.Start += cur.Count] *)
Definition advance (cur : TransactionsParams) : TransactionsParams :=
  set_page cur (i64 (tp_Start cur + tp_Count cur)) (tp_Count cur).

(** ** Calls *)

Section Transaction.
Context {R : RSA} {E : Env} {FC : FloatConv}.

(** [New]; [Service.Client] is [Service_Client]. *)
Definition New : option Client -> option Service := NewService.

Definition checkConfigured : option Service -> option error :=
  check_service "nil *transaction.Service (likely from transaction.New(nil))"
    "*transaction.Service has nil *atomefin.Client".

Definition Transactions (s : option Service) (ctx : context) (params : option TransactionsParams)
    : M (res TransactionsResponse) :=
  let params := default zero_params params in
  fetch checkConfigured (validateTransactionsParams params)
    (fun c => get TransactionsResponse_json c ctx "/transactions" (buildTransactionsQuery params)) s.

Definition TransactionDetail (s : option Service) (ctx : context) (requestID externalReferenceUID : string)
    (transactionType : TransactionType) : M (res TransactionDetailResponse) :=
  fetch checkConfigured (validateTransactionDetail requestID externalReferenceUID transactionType)
    (fun c => get TransactionDetailResponse_json c ctx "/transactionDetail"
                {[ "requestId" := [requestID]; "externalReferenceUid" := [externalReferenceUID];
                   "transactionType" := [transactionType] ]}) s.

(** The loop of [TransactionsAll]; [None] when the fuel, the number of rounds, is used up. *)
Fixpoint all_loop (fuel : nat) (s : option Service) (ctx : context) (cur : TransactionsParams) (out : TransactionsData)
    : M (option (TransactionsData * option error)) :=
  match fuel with
  | O => ret None
  | S fuel =>
      let! t := get_now in
      match ctx_Err ctx t with
      | Some err => ret (Some (out, Some err))
      | None =>
          let! page := Transactions s ctx (Some cur) in
          match page with
          | Err err => ret (Some (out, Some err))
          | Ok page =>
              match tr_Data page with
              | None => ret (Some (out, None))
              | Some d =>
                  let out := add_page out d in
                  if last_page cur out d then ret (Some (out, None))
                  else all_loop fuel s ctx (advance cur) out
              end
          end
      end
  end.

(** The parameters of the first page. *)
Definition first_page (params : option TransactionsParams) : TransactionsParams :=
  let p := default zero_params params in
  set_page p (or_default (tp_Start p) DefaultStart) (or_default (tp_Count p) DefaultCount).

Definition TransactionsAll (fuel : nat) (s : option Service) (ctx : context) (params : option TransactionsParams)
    : M (option (option TransactionsData * option error)) :=
  match checkConfigured s with
  | Some err => ret (Some (None, Some err))
  | None =>
      let! r := all_loop fuel s ctx (first_page params) zero_data in
      ret (match r with Some (out, err) => Some (Some out, err) | None => None end)
  end.

End Transaction.

(** * Specification *)

Section Walk.
Context {R : RSA} {E : Env} {FC : FloatConv}.
Variables (c : Client) (ctx : context).

(** One page requested at [cur]. *)
Abbreviation page_fetched cur i r es :=
  (fetched TransactionsResponse_json c "/transactions" (buildTransactionsQuery cur) i r es).

(** A walk from the page [cur] with the result [out] so far: the pages it receives, with
    the parameters each was requested with, and how it ends. *)
Inductive walk : TransactionsParams -> TransactionsData -> list (TransactionsParams * option TransactionsData) ->
    nat -> TransactionsData * option error -> list event -> Prop :=
| walk_done cur out i t err :
    ctx_Err ctx t = Some err -> walk cur out [] i (out, Some err) []
| walk_invalid cur out i err :
    validateTransactionsParams cur = Some err -> walk cur out [] i (out, Some err) []
| walk_error cur out i err es :
    validateTransactionsParams cur = None -> page_fetched cur i (Err err) es -> walk cur out [] i (out, Some err) es
| walk_empty cur out i page es :
    validateTransactionsParams cur = None -> page_fetched cur i (Ok page) es -> tr_Data page = None ->
    walk cur out [(cur, None)] i (out, None) es
| walk_last cur out i page d es :
    validateTransactionsParams cur = None -> page_fetched cur i (Ok page) es -> tr_Data page = Some d ->
    last_page cur (add_page out d) d = true ->
    walk cur out [(cur, Some d)] i (add_page out d, None) es
| walk_more cur out i page d es log r es' :
    validateTransactionsParams cur = None -> page_fetched cur i (Ok page) es -> tr_Data page = Some d ->
    last_page cur (add_page out d) d = false ->
    walk (advance cur) (add_page out d) log (i + length (effects es))%nat r es' ->
    walk cur out ((cur, Some d) :: log) i r (es ++ es').

Lemma Transactions_fetched cur : client_ready c -> validateTransactionsParams cur = None ->
  extends (Transactions (service_of c) ctx (Some cur)) (fetched TransactionsResponse_json c "/transactions" (buildTransactionsQuery cur)).
Proof. intros Hc Hv. apply fetch_ok; [done|done|by apply get_fetched]. Qed.

Lemma Transactions_invalid s cur err : validateTransactionsParams cur = Some err ->
  exists err', Transactions s ctx (Some cur) = ret (Err err').
Proof.
  intros Hv. unfold Transactions, fetch. change (default zero_params (Some cur)) with cur. cbv zeta. rewrite Hv.
  destruct (checkConfigured s), (Service_Client s); by eexists.
Qed.

Lemma all_loop_walk fuel cur out : client_ready c ->
  extends (all_loop fuel (service_of c) ctx cur out)
    (fun i r es => forall res, r = Some res -> exists log, walk cur out log i res es).
Proof.
  intros Hc. revert cur out. induction fuel as [|fuel IH]; intros cur out; cbn [all_loop].
  { by apply extends_ret. }
  eapply (extends_bind _ _ (fun _ _ es => es = [])); [by apply extends_get_now|]. intros t _.
  destruct (ctx_Err ctx t) as [err|] eqn:Et.
  { apply extends_ret. intros _ n es -> -> res [= <-]. exists []. by eapply walk_done. }
  destruct (validateTransactionsParams cur) as [verr|] eqn:Ev.
  - assert (Transactions (service_of c) ctx (Some cur) = ret (Err verr)) as ->.
    { unfold Transactions, fetch. cbn [checkConfigured check_service Service_Client sv_c].
      change (default zero_params (Some cur)) with cur. cbv zeta. by rewrite Ev. }
    eapply (extends_bind _ _ (fun _ r es => r = Err verr /\ es = [])); [by apply extends_ret|].
    intros r (_ & _ & -> & _). apply extends_ret. intros _ n es _ [_ ->] n' es' _ -> res [= <-].
    exists []. by apply walk_invalid.
  - eapply extends_bind; [by apply Transactions_fetched|]. intros [page|err] _.
    2: { apply extends_ret. intros _ n es _ Hf n' es' -> -> res [= <-]. exists [].
         rewrite app_nil_r, Nat.add_0_r in *. by apply walk_error. }
    destruct (tr_Data page) as [d|] eqn:Ed.
    2: { apply extends_ret. intros _ n es _ Hf n' es' -> -> res [= <-]. exists [(cur, None)].
         rewrite app_nil_r, Nat.add_0_r in *. by eapply walk_empty. }
    cbv zeta. destruct (last_page cur (add_page out d) d) eqn:El.
    + apply extends_ret. intros _ n es _ Hf n' es' -> -> res [= <-]. exists [(cur, Some d)].
      rewrite app_nil_r, Nat.add_0_r in *. by eapply walk_last.
    + eapply extends_mono; [apply IH|]. intros n r es Hw n1 es1 -> Hf n2 es2 -> -> res Hres.
      destruct (Hw res Hres) as [log Hlog]. exists ((cur, Some d) :: log).
      rewrite Nat.add_0_r in *. cbn [app]. by eapply walk_more.
Qed.

(** Every round advances by at least one row, and the row number is an [int64]. *)
Lemma all_loop_terminates n s cur out w :
  0 < tp_Count cur -> tp_Start cur <= int64_max -> 2 ^ 63 <= tp_Start cur + Z.of_nat n * tp_Count cur ->
  (all_loop (S n) s ctx cur out w).1 <> None.
Proof.
  revert cur out w. induction n as [|n IH]; intros cur out w Hcnt Hmax Hn; [unfold int64_max in *; lia|].
  cbn [all_loop]. unfold bind at 1, get_now at 1. destruct (ctx_Err ctx (now w)); [done|].
  unfold bind at 1. destruct (Transactions s ctx (Some cur) w) as [[page|err] w1] eqn:Et; [|done].
  destruct (tr_Data page) as [d|]; [|done]. cbv zeta. destruct (last_page _ _ _) eqn:El; [done|].
  destruct (validateTransactionsParams cur) as [verr|] eqn:Ev.
  { destruct (Transactions_invalid s cur verr Ev) as [err' He]. rewrite He in Et. done. }
  assert (Hcnt50 : 0 <= tp_Start cur /\ tp_Count cur <= 50).
  { unfold validateTransactionsParams, MaxCount in Ev.
    rewrite !reject_None, Z.gtb_ltb, !Z.ltb_ge in Ev. lia. }
  destruct (Z.leb_spec (tp_Start cur + tp_Count cur) int64_max) as [Hle|Hgt].
  - apply IH; cbn [advance set_page tp_Count tp_Start].
    + done.
    + apply i64_range.
    + rewrite i64_id by (unfold in_int64, int64_min; lia). lia.
  - (* the row number wraps around and is refused *)
    set (cur' := advance cur). cbn [all_loop].
    unfold bind at 1, get_now at 1. destruct (ctx_Err ctx (now w1)); [done|]. unfold bind at 1.
    assert (Hneg : tp_Start cur' < 0).
    { unfold cur', advance, i64, int64_max in *. cbn [set_page tp_Start].
      rewrite <- (Z.mod_unique_pos (tp_Start cur + tp_Count cur + 2 ^ 63) (2 ^ 64) 1
        (tp_Start cur + tp_Count cur - 2 ^ 63)); lia. }
    destruct (validateTransactionsParams cur') as [verr|] eqn:Ev'.
    + destruct (Transactions_invalid s cur' verr Ev') as [err' ->]. done.
    + unfold validateTransactionsParams in Ev'. rewrite !reject_None, !Z.ltb_ge in Ev'. lia.
Qed.
(** More fuel does not change a run that ends. *)
Lemma all_loop_fuel n k s cur out w r w' :
  all_loop n s ctx cur out w = (Some r, w') -> all_loop (n + k) s ctx cur out w = (Some r, w').
Proof.
  revert cur out w. induction n as [|n IH]; intros cur out w; [done|]. cbn [all_loop Nat.add].
  unfold bind at 1 3, get_now. destruct (ctx_Err ctx (now w)); [done|].
  unfold bind at 1 2. destruct (Transactions s ctx (Some cur) w) as [[page|err] w1]; [|done].
  destruct (tr_Data page) as [d|]; [|done]. cbv zeta. destruct (last_page _ _ _); [done|]. apply IH.
Qed.
End Walk.

(** ** An honest server

    The server's ledger is one list of rows of the three kinds; a page holds the rows
    from [start] (counted from 1), at most [count] of them, grouped by kind, and may say
    how many rows there are. *)

Inductive row := RowPayment (r : TradePaymentInfo) | RowRefund (r : TradeRefundInfo) | RowRepayment (r : TradeRepaymentInfo).

Definition payments : list row -> list TradePaymentInfo :=
  omap (fun r => match r with RowPayment r => Some r | _ => None end).
Definition refunds : list row -> list TradeRefundInfo :=
  omap (fun r => match r with RowRefund r => Some r | _ => None end).
Definition repayments : list row -> list TradeRepaymentInfo :=
  omap (fun r => match r with RowRepayment r => Some r | _ => None end).

(** [d] groups the rows [l]. *)
Definition groups (d : TransactionsData) (l : list row) : Prop :=
  td_PaymentInfo d = payments l /\ td_RefundInfo d = refunds l /\ td_RepaymentInfo d = repayments l.

Definition slice_of (ledger : list row) (start count : Z) : list row :=
  take (Z.to_nat count) (drop (Z.to_nat (start - 1)) ledger).

Definition honest_page (ledger : list row) (cur : TransactionsParams) (d : TransactionsData) : Prop :=
  groups d (slice_of ledger (tp_Start cur) (tp_Count cur)) /\
  (forall p, td_Paginator d = Some p -> 0 < pg_TotalCount p -> pg_TotalCount p = Z.of_nat (length ledger)).

Lemma groups_app d1 d2 l1 l2 : groups d1 l1 -> groups d2 l2 -> groups (add_page d1 d2) (l1 ++ l2).
Proof.
  unfold groups, payments, refunds, repayments. cbn. intros (-> & -> & ->) (-> & -> & ->). by rewrite !omap_app.
Qed.

Lemma groups_rows d l : groups d l -> page_rows d = Z.of_nat (length l).
Proof.
  unfold groups, page_rows. intros (-> & -> & ->). unfold payments, refunds, repayments.
  induction l as [|[r|r|r] l IH]; cbn [omap list_omap length] in *; lia.
Qed.

Lemma slice_slice ledger start count :
  1 <= start -> 0 <= count ->
  slice_of ledger start count ++ drop (Z.to_nat (start + count - 1)) ledger = drop (Z.to_nat (start - 1)) ledger.
Proof.
  intros Hs Hc. unfold slice_of. replace (Z.to_nat (start + count - 1)) with (Z.to_nat (start - 1) + Z.to_nat count)%nat by lia.
  rewrite <- drop_drop. apply take_drop.
Qed.

(** The page number [k], from 0, of a walk that begins with [p]. *)
Definition page_at (p : TransactionsParams) (k : nat) : TransactionsParams :=
  set_page p (tp_Start p + Z.of_nat k * tp_Count p) (tp_Count p).

(** The pages a walk over a ledger asks for: the first, and those that begin at most one
    row past the end. *)
Definition in_ledger (ledger : list row) (p : TransactionsParams) (k : nat) : Prop :=
  k = 0%nat \/ tp_Start (page_at p k) <= Z.of_nat (length ledger) + 1.

Section Complete.
Context {R : RSA} {E : Env} {FC : FloatConv}.
Variables (c : Client) (ctx : context) (ledger : list row) (p : TransactionsParams).

(** Whatever decodes of the network's answers to the requests for its pages is an honest page. *)
Definition honest_server : Prop := forall k j req rs body resp,
  in_ledger ledger p k ->
  rq_RawQuery req = EncodeWireQueryRFC3986 (buildTransactionsQuery (page_at p k)) ->
  net j req = Ok rs -> rs_StatusCode rs < 400 -> readAndClose rs (c_maxRespBytes c) = (body, None) ->
  unmarshal TransactionsResponse_json body = Some resp ->
  exists d, tr_Data resp = Some d /\ honest_page ledger (page_at p k) d.

Hypothesis start_pos : 1 <= tp_Start p.
Hypothesis count_pos : 0 < tp_Count p <= MaxCount.
Hypothesis rows_fit : Z.of_nat (length ledger) + tp_Start p + 100 <= int64_max.
Hypothesis honest : honest_server.

Abbreviation rest := (drop (Z.to_nat (tp_Start p - 1)) ledger).

(** The walk is at its page number [k] and has collected the rows before it. *)
Definition collected (k : nat) (cur : TransactionsParams) (out : TransactionsData) : Prop :=
  cur = page_at p k /\ in_ledger ledger p k /\
  exists l, groups out l /\ l ++ drop (Z.to_nat (tp_Start cur - 1)) ledger = rest.

Lemma served k cur out i page es :
  collected k cur out -> fetched TransactionsResponse_json c "/transactions" (buildTransactionsQuery cur) i (Ok page) es ->
  exists d, tr_Data page = Some d /\ honest_page ledger cur d.
Proof.
  intros (-> & Hk & _) Hf. destruct (called_answer _ _ _ _ _ _ _ _ _ Hf) as (j & a & req & rs & body & Hreq & Hnet & Hst & Hr & Hu).
  destruct Hreq as (_ & _ & Hq & _). by eapply honest.
Qed.

(** A page that is not the last is full, and keeps the invariant. *)
Lemma collected_advance k cur out d :
  collected k cur out -> honest_page ledger cur d -> last_page cur (add_page out d) d = false ->
  collected (S k) (advance cur) (add_page out d).
Proof.
  intros (-> & Hk & l & Hg & Hl) [Hd Ht] Hlast. unfold last_page in Hlast.
  rewrite !orb_false_iff, Z.ltb_ge, Z.leb_gt in Hlast. destruct Hlast as [[Hfull _] _].
  rewrite (groups_rows _ _ Hd) in Hfull. unfold slice_of in Hfull. rewrite length_take, length_drop in Hfull.
  unfold collected, in_ledger, advance, MaxCount in *. cbn [page_at set_page tp_Start tp_Count] in *.
  rewrite i64_id by (unfold in_int64, int64_min; lia). split_and!.
  - unfold page_at, set_page. f_equal. lia.
  - right. lia.
  - exists (l ++ slice_of ledger (tp_Start p + Z.of_nat k * tp_Count p) (tp_Count p)). split; [by apply groups_app|].
    rewrite <- app_assoc, slice_slice by lia. exact Hl.
Qed.

(** The last page ends the ledger. *)
Lemma collected_last k cur out d :
  collected k cur out -> honest_page ledger cur d -> last_page cur (add_page out d) d = true ->
  groups (add_page out d) rest.
Proof.
  intros (-> & Hk & l & Hg & Hl) [Hd Ht] Hlast.
  pose proof (groups_app _ _ _ _ Hg Hd) as Hout. set (cur := page_at p k) in *.
  assert (Hs : 1 <= tp_Start cur /\ tp_Count cur = tp_Count p) by (unfold cur, page_at; cbn; lia).
  pose proof (slice_slice ledger (tp_Start cur) (tp_Count cur) ltac:(lia) ltac:(lia)) as Hsl.
  assert (Hend : drop (Z.to_nat (tp_Start cur + tp_Count cur - 1)) ledger = []).
  { pose proof (f_equal length Hl) as Hlen. pose proof (f_equal length Hsl) as Hlen'.
    rewrite !length_app, !length_drop in Hlen, Hlen'.
    apply nil_length_inv. rewrite length_drop.
    unfold last_page in Hlast. rewrite !orb_true_iff, Z.ltb_lt, Z.leb_le in Hlast. destruct Hlast as [[Hfew|Htot]|]; [| |lia].
    - rewrite (groups_rows _ _ Hd) in Hfew. unfold slice_of in *. rewrite length_take, length_drop in Hfew, Hlen'. lia.
    - destruct (td_Paginator d) as [pg|]; [|done]. rewrite andb_true_iff, Z.ltb_lt, Z.geb_le in Htot.
      destruct Htot as [Hpos Htot]. rewrite (Ht pg eq_refl Hpos), (groups_rows _ _ Hout), length_app in Htot. lia. }
  rewrite Hend, app_nil_r in Hsl. rewrite Hsl, Hl in Hout. exact Hout.
Qed.

(** The rows collected on the way are a prefix of the ledger from the first page; a walk
    that ends without an error has them all. *)
Lemma walk_complete k cur out log i res es :
  walk c ctx cur out log i res es -> collected k cur out ->
  exists l, groups res.1 l /\ l `prefix_of` rest /\ (res.2 = None -> l = rest).
Proof.
  intros Hw. revert k. induction Hw as [cur out|cur out|cur out|cur out i page es Hv Hf Hd|cur out i page d es Hv Hf Hd Hlast
    |cur out i page d es log r es' Hv Hf Hd Hlast Hw IH]; intros k Hcol.
  1-3: destruct Hcol as (_ & _ & l & Hg & Hl); exists l; split_and!; [exact Hg|rewrite <- Hl; by eexists|done].
  all: destruct (served _ _ _ _ _ _ Hcol Hf) as (d' & Hd' & Hh); rewrite Hd in Hd'; simplify_eq.
  - exists rest. split_and!; [by eapply collected_last|by exists []; rewrite app_nil_r|done].
  - by eapply IH, collected_advance.
Qed.

(** The walk asks for its pages in order. *)
Lemma walk_pages k cur out log i res es :
  walk c ctx cur out log i res es -> collected k cur out -> log.*1 = map (page_at p) (seq k (length log)).
Proof.
  intros Hw. revert k. induction Hw as [| | |cur out i pg es Hv Hf Hd|cur out i pg d es Hv Hf Hd Hlast
    |cur out i pg d es log r es' Hv Hf Hd Hlast Hw IH]; intros k Hcol; try done.
  1-2: by destruct Hcol as [-> _].
  destruct (served _ _ _ _ _ _ Hcol Hf) as (d' & Hd' & Hh). rewrite Hd in Hd'. injection Hd' as <-.
  cbn. rewrite (IH (S k)) by (by eapply collected_advance). by destruct Hcol as [-> _].
Qed.

Lemma collected_first : collected 0 p zero_data.
Proof.
  clear start_pos count_pos rows_fit honest. unfold collected, in_ledger, page_at. split_and!; [|by left|by exists []].
  destruct p. unfold set_page. cbn. f_equal. lia.
Qed.
End Complete.

(** ** The single calls *)

Definition transactions_contract (p : TransactionsParams) : Prop :=
  tp_ExternalReferenceUID p <> "" /\ tp_StartDate p <> "" /\ tp_EndDate p <> "" /\ tp_TransactionType p <> "" /\
  0 <= tp_Start p /\ 0 <= tp_Count p <= 50.

Lemma validateTransactionsParams_None p : validateTransactionsParams p = None <-> transactions_contract p.
Proof.
  unfold validateTransactionsParams, transactions_contract, MaxCount.
  rewrite !reject_None, !is_empty_false, !Z.ltb_ge, Z.gtb_ltb, Z.ltb_ge. tauto.
Qed.

Lemma validateTransactionDetail_None id uid ty :
  validateTransactionDetail id uid ty = None <-> id <> "" /\ uid <> "" /\ ty <> "".
Proof. unfold validateTransactionDetail. rewrite !reject_None, !is_empty_false. tauto. Qed.

Definition transactions_filters (p : TransactionsParams) : list (string * list string) :=
  [("externalReferenceUid", given (tp_ExternalReferenceUID p)); ("transactionType", given (tp_TransactionType p));
   ("startDate", given (tp_StartDate p)); ("endDate", given (tp_EndDate p));
   ("start", [itoa (or_default (tp_Start p) 1)]); ("count", [itoa (or_default (tp_Count p) 10)])].

Lemma buildTransactionsQuery_of p : buildTransactionsQuery p = query_of (transactions_filters p).
Proof. unfold buildTransactionsQuery, transactions_filters, DefaultStart, DefaultCount. query_ext. Qed.

(** * Claims *)

Lemma first_page_positive params : 1 <= tp_Start (first_page params) /\ 0 < tp_Count (first_page params).
Proof.
  unfold first_page, set_page, or_default, DefaultStart, DefaultCount. cbn.
  destruct (Z.leb_spec (tp_Start (default zero_params params)) 0), (Z.leb_spec (tp_Count (default zero_params params)) 0); lia.
Qed.

(** Every bill and transaction call refines the specification of a fetching call:
    arguments that meet its contract are fetched, with the query described, through the
    retry pipeline, and the answer decoded; any others are refused before signing.  Nil
    parameters are zero ones. *)
Theorem bill_transaction_calls_refine {R : RSA} {E : Env} {FC : FloatConv} c ctx :
  client_ready c ->
  (forall p, let m := Bills (service_of c) ctx (Some p) in
    (bills_contract p -> extends m (fetched BillsResponse_json c "/bills" (query_of (bills_filters p)))) /\
    (~ bills_contract p -> refused m)) /\
  (forall p, let m := BillDetailWithParams (service_of c) ctx (Some p) in
    (bill_detail_contract p -> extends m (fetched BillDetailResponse_json c "/billDetail" (query_of (bill_detail_filters p)))) /\
    (~ bill_detail_contract p -> refused m)) /\
  (forall uid, let m := BillsUnpaid (service_of c) ctx (Some (mkBillsUnpaidParams uid)) in
    (uid <> "" -> extends m (fetched BillUnpaidResponse_json c "/billUnpaid" {[ "externalReferenceUid" := [uid] ]})) /\
    (~ uid <> "" -> refused m)) /\
  (forall p, let m := Transactions (service_of c) ctx (Some p) in
    (transactions_contract p ->
     extends m (fetched TransactionsResponse_json c "/transactions" (query_of (transactions_filters p)))) /\
    (~ transactions_contract p -> refused m)) /\
  (forall id uid ty, let m := TransactionDetail (service_of c) ctx id uid ty in
    (id <> "" /\ uid <> "" /\ ty <> "" -> extends m (fetched TransactionDetailResponse_json c "/transactionDetail"
       {[ "requestId" := [id]; "externalReferenceUid" := [uid]; "transactionType" := [ty] ]})) /\
    (~ (id <> "" /\ uid <> "" /\ ty <> "") -> refused m)) /\
  (refused (Bills (service_of c) ctx None) /\ refused (BillDetailWithParams (service_of c) ctx None) /\
   refused (BillsUnpaid (service_of c) ctx None) /\ refused (Transactions (service_of c) ctx None)).
Proof.
  intros Hc. split_and!.
  - intros p m. rewrite <- buildBillsQuery_of.
    apply fetch_refines; [apply validateBillsParams_None|done|]. intros _. by apply get_fetched.
  - intros p m. rewrite <- buildBillDetailQuery_of.
    apply fetch_refines; [apply validateBillDetailParams_None|done|]. intros _. by apply get_fetched.
  - intros uid m. apply fetch_refines; [apply validateBillsUnpaidParams_None|done|]. intros Hu.
    apply is_empty_false in Hu. assert (buildBillsUnpaidQuery (mkBillsUnpaidParams uid) = {[ "externalReferenceUid" := [uid] ]})
      as <- by (unfold buildBillsUnpaidQuery, set_nonempty; cbn [bup_ExternalReferenceUID]; by rewrite Hu).
    by apply get_fetched.
  - intros p m. rewrite <- buildTransactionsQuery_of.
    apply fetch_refines; [apply validateTransactionsParams_None|done|]. intros _. by apply get_fetched.
  - intros id uid ty m. apply fetch_refines; [apply validateTransactionDetail_None|done|]. intros _. by apply get_fetched.
  - by eexists.
  - by eexists.
  - by eexists.
  - by eexists.
Qed.

(** C15.  [TransactionsAll] returns, whatever the server answers: after at most the pages that
    fit below the largest [int], and no fuel beyond that changes its result. *)
Theorem TransactionsAll_terminates {R : RSA} {E : Env} {FC : FloatConv} s ctx params n w :
  tp_Start (first_page params) <= int64_max ->
  2 ^ 63 <= tp_Start (first_page params) + Z.of_nat n * tp_Count (first_page params) ->
  exists r w', forall fuel, (n < fuel)%nat -> TransactionsAll fuel s ctx params w = (Some r, w').
Proof.
  intros Hmax Hn. unfold TransactionsAll. destruct (checkConfigured s) as [err|]; [by do 2 eexists|].
  pose proof (all_loop_terminates ctx n s (first_page params) zero_data w (proj2 (first_page_positive params)) Hmax Hn) as Ht.
  destruct (all_loop (S n) s ctx (first_page params) zero_data w) as [[[out err]|] w'] eqn:Er; [|done].
  exists (Some out, err), w'. intros fuel Hf. replace fuel with (S n + (fuel - S n))%nat by lia.
  unfold bind. by rewrite (all_loop_fuel _ _ _ _ _ _ _ _ _ Er).
Qed.

(** C5.  [TransactionsAll] misses no transaction and repeats none: against a server whose
    pages are the slices of a ledger of rows, grouped by kind, it asks for consecutive pages
    from the first, what it returns groups a prefix of the ledger from there, and without an
    error groups all of it, in order. *)
Theorem TransactionsAll_complete {R : RSA} {E : Env} {FC : FloatConv} c ctx params ledger fuel w out err w' :
  let p := first_page params in
  client_ready c -> tp_Count p <= MaxCount -> Z.of_nat (length ledger) + tp_Start p + 100 <= int64_max ->
  honest_server c ledger p ->
  TransactionsAll fuel (service_of c) ctx params w = (Some (Some out, err), w') ->
  exists l log es, trace w' = trace w ++ es /\
    walk c ctx p zero_data log (step w) (out, err) es /\ log.*1 = map (page_at p) (seq 0 (length log)) /\
    groups out l /\ l `prefix_of` drop (Z.to_nat (tp_Start p - 1)) ledger /\
    (err = None -> l = drop (Z.to_nat (tp_Start p - 1)) ledger).
Proof.
  intros p Hc Hcnt Hfit Hh. unfold TransactionsAll, bind. cbn [checkConfigured check_service sv_c].
  pose proof (all_loop_walk c ctx fuel p zero_data Hc w) as Hw. fold p.
  destruct (all_loop fuel (service_of c) ctx p zero_data w) as [[[out' err']|] w1]; intros [= <- <- <-].
  destruct Hw as (_ & es & Ht & Hw). destruct (Hw _ eq_refl) as [log Hlog].
  destruct (first_page_positive params) as [Hs Hpos].
  destruct (walk_complete c ctx ledger p Hs (conj Hpos Hcnt) Hfit Hh 0 _ _ _ _ _ _ Hlog (collected_first ledger p))
    as (l & Hg & Hpre & Hall).
  pose proof (walk_pages c ctx ledger p Hs (conj Hpos Hcnt) Hfit Hh 0 _ _ _ _ _ _ Hlog (collected_first ledger p)) as Hpages.
  by exists l, log, es.
Qed.

(** ** A server with three rows, two to a page *)

Definition toy_ledger : list row :=
  [RowPayment (mkTradePaymentInfo "p1" "o1" "" 1 100 []); RowRefund (c_zero TradeRefundInfo_json);
   RowPayment (mkTradePaymentInfo "p2" "o2" "" 3 200 [])].
Definition toy_params : TransactionsParams := mkTransactionsParams "u" "PAYMENT" "20260101" "20260131" 0 2.

Definition toy_page (cur : TransactionsParams) : TransactionsResponse :=
  let l := slice_of toy_ledger (tp_Start cur) (tp_Count cur) in
  mkTransactionsResponse "SUCCESS" "" (Some (mkTransactionsData "IDR" (payments l) (refunds l) (repayments l)
    (Some (mkPaginator (tp_Start cur) (tp_Count cur) 3)))).

Definition paging_env : Env := {|
  elapse _ _ := 1%nat;
  net _ req :=
    match List.find (fun k => bool_decide (rq_RawQuery req =
            EncodeWireQueryRFC3986 (buildTransactionsQuery (page_at (first_page (Some toy_params)) k)))) [0%nat; 1%nat] with
    | Some k => Ok (mkResponse 200 ∅ (json_print (c_enc TransactionsResponse_json
                     (toy_page (page_at (first_page (Some toy_params)) k)))) None)
    | None => Ok (mkResponse 404 ∅ "" None)
    end;
  panics _ := None;
  rand_bytes _ n := Err (EStd "rand");
  rand_reads _ := [];
  select_done _ := true;
  NewRequest_error _ _ := None;
|}.
Definition paging_client : @Client toy_RSA :=
  set_baseURL "https://x" (set_signer (Some toy_signer) (@defaultConfig toy_RSA paging_env)).

Lemma paging_ready : client_ready paging_client.
Proof. split; simpl; try (by eexists); done. Qed.

Definition toy_run : option (option TransactionsData * option error) * world :=
  @TransactionsAll toy_RSA paging_env amd64_conv 3 (service_of paging_client) Background (Some toy_params) (mkWorld 0 []).

Example toy_run_rows :
  match toy_run.1 with
  | Some (Some out, None) => groups out toy_ledger
  | _ => False
  end.
Proof. vm_compute. done. Qed.

(** What it serves for a page decodes to that page. *)
Lemma toy_page_served k req rs body resp : k = 0%nat \/ k = 1%nat ->
  rq_RawQuery req = EncodeWireQueryRFC3986 (buildTransactionsQuery (page_at (first_page (Some toy_params)) k)) ->
  @net paging_env 0%nat req = Ok rs -> readAndClose rs (c_maxRespBytes paging_client) = (body, None) ->
  unmarshal TransactionsResponse_json body = Some resp -> resp = toy_page (page_at (first_page (Some toy_params)) k).
Proof.
  intros Hk Hq Hnet Hr Hu. cbn [net paging_env] in Hnet. rewrite Hq in Hnet.
  destruct Hk as [-> | ->]; vm_compute in Hnet; injection Hnet as <-;
    vm_compute in Hr; injection Hr as <-; vm_compute in Hu; injection Hu as <-; vm_compute; reflexivity.
Qed.

Lemma toy_honest : @honest_server toy_RSA paging_env paging_client toy_ledger (first_page (Some toy_params)).
Proof.
  intros k j req rs body resp Hk Hq Hnet _ Hr Hu.
  assert (Hk01 : k = 0%nat \/ k = 1%nat).
  { destruct Hk as [->|Hk]; [by left|]. change (1 + Z.of_nat k * 2 <= 4) in Hk. lia. }
  rewrite (toy_page_served k req rs body resp Hk01 Hq Hnet Hr Hu).
  unfold toy_page. cbn [tr_Data]. eexists. split; [reflexivity|]. unfold honest_page, groups.
  cbn [td_PaymentInfo td_RefundInfo td_RepaymentInfo td_Paginator]. split; [by split_and!|].
  intros pg Hpg _. apply (inj Some) in Hpg. subst pg. reflexivity.
Qed.

Lemma TransactionsAll_complete_witness :
  exists out w', toy_run = (Some (Some out, None), w') /\ groups out toy_ledger.
Proof.
  assert (Hrun : exists out w', toy_run = (Some (Some out, None), w')) by (do 2 eexists; vm_compute; reflexivity).
  destruct Hrun as (out & w' & Hrun). exists out, w'. split; [exact Hrun|].
  destruct (@TransactionsAll_complete toy_RSA paging_env amd64_conv paging_client Background (Some toy_params) toy_ledger
    3 (mkWorld 0 []) out None w' paging_ready ltac:(vm_compute; discriminate) ltac:(vm_compute; discriminate) toy_honest Hrun)
    as (l & log & es & _ & _ & _ & Hg & _ & Hl).
  rewrite (Hl eq_refl) in Hg. exact Hg.
Defined.

(** A walk that begins ten rows below the largest [int] ends after two rounds. *)
Lemma TransactionsAll_terminates_witness :
  let params := Some (set_page toy_params (int64_max - 9) 10) in
  exists r w', forall fuel, (1 < fuel)%nat ->
    @TransactionsAll toy_RSA paging_env amd64_conv fuel (service_of paging_client) Background params (mkWorld 0 []) = (Some r, w').
Proof.
  intros params.
  exact (@TransactionsAll_terminates toy_RSA paging_env amd64_conv (service_of paging_client) Background params 1 (mkWorld 0 [])
    ltac:(vm_compute; discriminate) ltac:(vm_compute; discriminate)).
Defined.

Lemma bill_transaction_calls_refine_witness :
  let p := mkBillsParams "u" "202601" "202602" ["BILLED"; "UNBILLED"] [] [] [] in
  extends (@Bills toy_RSA paging_env amd64_conv (service_of paging_client) Background (Some p))
    (@fetched toy_RSA paging_env _ BillsResponse_json paging_client "/bills" (query_of (bills_filters p))).
Proof.
  intros p. refine (proj1 (proj1 (@bill_transaction_calls_refine toy_RSA paging_env amd64_conv paging_client Background
    paging_ready) p) _).
  split_and!; discriminate.
Defined.
