(* ===== verification/VirtualAccount.v ===== *)
(** * VirtualAccount: [atomefin/virtualaccount], the banks and the virtual account of a
    user at one of them. *)
From S2P Require Import Prelude GoStd Errors Canonical GoCrypto Sign GoHttp Json Codec Schema Transport World.
From S2P Require Import Client Doer Service PaymentTypes Payment.

(** ** Types *)

Definition BankCode := string.
Definition BankBCA : BankCode := "BCA".
Definition BankMandiri : BankCode := "MANDIRI".
Definition BankBRI : BankCode := "BRI".
Definition BankBNI : BankCode := "BNI".
Definition BankPermata : BankCode := "PERMATA".
Definition BankSahabatSampoerna : BankCode := "SAHABAT_SAMPOERNA".
Definition BankCodes : list BankCode :=
  [BankBCA; BankMandiri; BankBRI; BankBNI; BankPermata; BankSahabatSampoerna].
Definition BankCode_IsValid (c : BankCode) : bool := bool_decide (c ∈ BankCodes).

Record VirtualAccountRequest := mkVirtualAccountRequest {
  var_ExternalReferenceUID : string; var_BankCode : BankCode;
}.
Definition VirtualAccountRequest_fields : list (field_decl VirtualAccountRequest) :=
  [ "externalReferenceUid" ~> var_ExternalReferenceUID as str; "bankCode" ~> var_BankCode as str ].
Definition VirtualAccountRequest_json : codec VirtualAccountRequest :=
  struct (mkVirtualAccountRequest "" "") VirtualAccountRequest_fields.
#[export] Instance VirtualAccountRequest_schema : Schema (c_zero VirtualAccountRequest_json) VirtualAccountRequest_fields.
Proof. schema. Qed.

Record VirtualAccount := mkVirtualAccount {
  va_VANumber : string; va_BankCode : BankCode; va_CreateTime : Z;
}.
Definition VirtualAccount_fields : list (field_decl VirtualAccount) :=
  [ "vaNumber" ~> va_VANumber as str; "bankCode" ~> va_BankCode as str;
    "createTime" ~> va_CreateTime as int omitempty ].
Definition VirtualAccount_json : codec VirtualAccount :=
  struct (mkVirtualAccount "" "" 0) VirtualAccount_fields.
#[export] Instance VirtualAccount_schema : Schema (c_zero VirtualAccount_json) VirtualAccount_fields.
Proof. schema. Qed.

Record VirtualAccountListResponse := mkVirtualAccountListResponse {
  valr_Code : Code; valr_Message : string; valr_Data : list BankCode;
}.
Definition VirtualAccountListResponse_fields : list (field_decl VirtualAccountListResponse) :=
  [ "code" ~> valr_Code as str; "message" ~> valr_Message as str; "data" ~> valr_Data as (slice str) ].
Definition VirtualAccountListResponse_json : codec VirtualAccountListResponse :=
  struct (mkVirtualAccountListResponse "" "" []) VirtualAccountListResponse_fields.
#[export] Instance VirtualAccountListResponse_schema : Schema (c_zero VirtualAccountListResponse_json) VirtualAccountListResponse_fields.
Proof. schema. Qed.

Record VirtualAccountResponse := mkVirtualAccountResponse {
  vars_Code : Code; vars_Message : string; vars_Data : option VirtualAccount;
}.
Definition VirtualAccountResponse_fields : list (field_decl VirtualAccountResponse) :=
  [ "code" ~> vars_Code as str; "message" ~> vars_Message as str;
    "data" ~> vars_Data as (ptr VirtualAccount_json) ].
Definition VirtualAccountResponse_json : codec VirtualAccountResponse :=
  struct (mkVirtualAccountResponse "" "" None) VirtualAccountResponse_fields.
#[export] Instance VirtualAccountResponse_schema : Schema (c_zero VirtualAccountResponse_json) VirtualAccountResponse_fields.
Proof. schema. Qed.

(** [struct{}] *)
Definition empty_json : codec unit := struct tt [].

Definition VirtualAccountListResponse_IsSuccess (r : option VirtualAccountListResponse) : bool :=
  match r with Some r => bool_decide (valr_Code r = CodeSuccess) | None => false end.
Definition VirtualAccountResponse_IsSuccess (r : option VirtualAccountResponse) : bool :=
  match r with Some r => bool_decide (vars_Code r = CodeSuccess) | None => false end.

Definition validateVirtualAccountRequest (req : VirtualAccountRequest) : option error :=
  reject EValidation "externalReferenceUid" "required" when is_empty (var_ExternalReferenceUID req) ;;
  reject EValidation "externalReferenceUid" "exceeds spec maxlength 64" when slen (var_ExternalReferenceUID req) >? 64 ;;
  reject EValidation "bankCode" "must be one of BCA | MANDIRI | BRI | BNI | PERMATA | SAHABAT_SAMPOERNA"
    when negb (BankCode_IsValid (var_BankCode req)) ;; None.

(** ** Calls *)

Section VirtualAccount.
Context {R : RSA} {E : Env} {FC : FloatConv}.

(** [New]; [Service.Client] is [Service_Client]. *)
Definition New : option Client -> option Service := NewService.

Definition checkConfigured : option Service -> option error :=
  check_service "nil *virtualaccount.Service (likely from virtualaccount.New(nil))"
    "*virtualaccount.Service has nil *atomefin.Client".

Definition ListBanks (s : option Service) (ctx : context) : M (res VirtualAccountListResponse) :=
  fetch checkConfigured None (fun c => post empty_json VirtualAccountListResponse_json c ctx "/va/getList" tt []) s.

Definition GetOrCreate (s : option Service) (ctx : context) (req : option VirtualAccountRequest)
    : M (res VirtualAccountResponse) :=
  fetch checkConfigured
    (match req with
     | None => Some (EValidation "request" "nil VirtualAccountRequest")
     | Some req => validateVirtualAccountRequest req
     end)
    (fun c => match req with
              | Some req => post VirtualAccountRequest_json VirtualAccountResponse_json c ctx "/va/vaCodeByBank" req []
              | None => ret (Err (ENew "unreachable: nil request"))
              end) s.

End VirtualAccount.

(** * Specification *)

Definition account_contract (req : VirtualAccountRequest) : Prop :=
  var_ExternalReferenceUID req <> "" /\ slen (var_ExternalReferenceUID req) <= 64 /\ var_BankCode req ∈ BankCodes.

Lemma validateVirtualAccountRequest_None req : validateVirtualAccountRequest req = None <-> account_contract req.
Proof.
  unfold validateVirtualAccountRequest, account_contract, BankCode_IsValid.
  rewrite !reject_None, is_empty_false, Z.gtb_ltb, Z.ltb_ge, negb_false_iff, bool_decide_eq_true. tauto.
Qed.

(** What a request of the accepted form is on the wire.  Its members are not optional, so
    none is left out. *)
Lemma request_body uid bank :
  json_print (c_enc VirtualAccountRequest_json (mkVirtualAccountRequest uid bank))
  = json_print (JObj [("externalReferenceUid", JStr uid); ("bankCode", JStr bank)]).
Proof. done. Qed.

(** The virtual-account calls: [ListBanks] posts the empty object; [GetOrCreate] posts
    exactly the requests that name a user of at most 64 bytes and one of the six banks, both
    members on the wire and under the signature, and refuses the others before signing;
    both decode the answer. *)
Theorem virtual_account_calls {R : RSA} {E : Env} {FC : FloatConv} c ctx :
  client_ready c ->
  extends (ListBanks (service_of c) ctx) (posted VirtualAccountListResponse_json c "/va/getList" "{}" []) /\
  (forall uid bank, let req := mkVirtualAccountRequest uid bank in
    (account_contract req -> extends (GetOrCreate (service_of c) ctx (Some req))
       (posted VirtualAccountResponse_json c "/va/vaCodeByBank"
          (json_print (JObj [("externalReferenceUid", JStr uid); ("bankCode", JStr bank)])) [])) /\
    (~ account_contract req -> refused (GetOrCreate (service_of c) ctx (Some req)))) /\
  refused (GetOrCreate (service_of c) ctx None) /\
  (forall s, check_service "nil *virtualaccount.Service (likely from virtualaccount.New(nil))"
     "*virtualaccount.Service has nil *atomefin.Client" s <> None ->
     refused (ListBanks s ctx) /\ forall req, refused (GetOrCreate s ctx req)).
Proof.
  intros Hc. split_and!.
  - apply fetch_ok; [done|done|]. change "{}" with (json_print (c_enc empty_json tt)). by apply post_posted.
  - intros uid bank req. rewrite <- request_body.
    apply fetch_refines; [apply validateVirtualAccountRequest_None|done|]. intros _. by apply post_posted.
  - by eexists.
  - intros s Hs. split; [|intros req]; unfold ListBanks, GetOrCreate, fetch, refused, checkConfigured;
      (destruct (check_service _ _ s) as [err|]; [by eexists|done]).
Qed.

#[local] Existing Instance toy_env.

Lemma virtual_account_calls_witness :
  extends (@GetOrCreate toy_RSA toy_env amd64_conv (service_of toy_client) Background (Some (mkVirtualAccountRequest "u" "BCA")))
    (posted VirtualAccountResponse_json toy_client "/va/vaCodeByBank"
       (json_print (JObj [("externalReferenceUid", JStr "u"); ("bankCode", JStr "BCA")])) []).
Proof.
  refine (proj1 (proj1 (proj2 (@virtual_account_calls toy_RSA toy_env amd64_conv toy_client Background toy_ready)) "u" "BCA") _).
  split_and!; [discriminate|vm_compute; discriminate|left].
Defined.
