(* ===== verification/Heartbeat.v ===== *)
(** * Heartbeat: [atomefin/heartbeat.go], the liveness probe of the gateway. *)
From S2P Require Import Prelude GoStd Errors Canonical GoCrypto Sign GoHttp Json Codec Schema Transport World.
From S2P Require Import Client Doer Service.

Record HeartBeatResponse := mkHeartBeatResponse {
  hb_Code : Code; hb_Message : string; hb_Data : option (gmap string json);
}.
Definition HeartBeatResponse_fields : list (field_decl HeartBeatResponse) :=
  [ "code" ~> hb_Code as str; "message" ~> hb_Message as str omitempty;
    "data" ~> hb_Data as object omitempty ].
Definition HeartBeatResponse_json : codec HeartBeatResponse :=
  struct (mkHeartBeatResponse "" "" None) HeartBeatResponse_fields.
#[export] Instance HeartBeatResponse_schema : Schema (c_zero HeartBeatResponse_json) HeartBeatResponse_fields.
Proof. schema. Qed.

Definition HeartBeatResponse_IsSuccess (r : option HeartBeatResponse) : bool :=
  match r with Some r => bool_decide (hb_Code r = CodeSuccess) | None => false end.

Section Heartbeat.
Context {R : RSA} {E : Env} {FC : FloatConv}.
Variable decode_error : string -> error.   (* what [json.Decoder] reports of a body it rejects *)

Definition heartbeat_error (err : error) : error := ETransport "decode" "/heart-beat" (Some err) false.

(** The two [Decode] calls of [HeartBeatStatus]: the first value, then only blanks, so
    that the second reports [io.EOF]. *)
Definition decodeHeartBeat (body : string) : res HeartBeatResponse :=
  let malformed := Err (heartbeat_error (EErrorf "decode /heart-beat response: %w" [AWrap (decode_error body)])) in
  match parse (2 * String.length body + 2) PValue 0 (chars body) with
  | None => malformed
  | Some (v, rest) =>
      let '(out, ok) := c_dec HeartBeatResponse_json v (c_zero HeartBeatResponse_json) in
      if ok then
        match skip_ws rest with
        | [] => Ok out
        | _ => Err (heartbeat_error (EErrorf "decode /heart-beat response: trailing data after JSON value" []))
        end
      else malformed
  end.

Definition HeartBeat (c : option Client) (ctx : context) : M (option error) :=
  match c with
  | None => ret (Some (ENew "atomefin: HeartBeat called on nil *Client"))
  | Some c =>
      let! raw := DoSignedGET c ctx "/heart-beat" ∅ [] in
      ret (match raw with Ok _ => None | Err err => Some err end)
  end.

Definition HeartBeatStatus (c : option Client) (ctx : context) : M (res HeartBeatResponse) :=
  match c with
  | None => ret (Err (ENew "atomefin: HeartBeatStatus called on nil *Client"))
  | Some c =>
      let! raw := DoSignedGET c ctx "/heart-beat" ∅ [] in
      ret (let* raw := raw in decodeHeartBeat (Body raw))
  end.

(** * Specification *)

(** A probe: a signed GET of [/heart-beat] without a query, the signature over no bytes. *)
Definition probed (c : Client) (i : nat) (raw : res RawResponse) (es : list event) : Prop :=
  dispatch_run c "/heart-beat" (c_baseURL c +:+ "/heart-beat") "" ∅
    (mkRequestPlan "GET" (c_baseURL c +:+ "/heart-beat") "" None) i raw es.

(** The two calls accept exactly the bodies [json.Unmarshal] accepts. *)
Lemma decodeHeartBeat_Ok body out :
  decodeHeartBeat body = Ok out <-> unmarshal HeartBeatResponse_json body = Some out.
Proof.
  unfold decodeHeartBeat, unmarshal, json_Unmarshal, json_parse. cbv zeta.
  destruct (parse _ _ _ _) as [[v rest]|]; [|done].
  destruct (c_dec _ _ _) as [out' ok] eqn:Ed.
  destruct (skip_ws rest) as [|ch rest'].
  - rewrite Ed. destruct ok; [|done]. split; congruence.
  - by destruct ok.
Qed.

Lemma probe c ctx {B} (f : res RawResponse -> B) : client_ready c ->
  extends (let! raw := DoSignedGET c ctx "/heart-beat" ∅ [] in ret (f raw))
    (fun i r es => exists raw, probed c i raw es /\ r = f raw).
Proof.
  intros Hc. eapply extends_bind.
  - unfold DoSignedGET. cbn [bad_path]. apply (signAndDispatch_run c), ready_attempts, Hc.
  - intros raw _. apply extends_ret. intros _ n es _ Hrun. exists raw. by rewrite app_nil_r.
Qed.
End Heartbeat.

(** The heart-beat calls probe the gateway with a signed GET over the empty canonical
    string.  [HeartBeat] succeeds exactly when the dispatch does; [HeartBeatStatus] returns
    a value exactly when the body of the answer is one JSON document of its type, as
    [json.Unmarshal] decides, and reports any other body as a transport error that is not
    retried; a nil client is refused. *)
Theorem heartbeat_spec {R : RSA} {E : Env} {FC : FloatConv} decode_error c ctx :
  client_ready c ->
  extends (HeartBeat (Some c) ctx) (fun i r es =>
    exists raw, probed c i raw es /\ match r with None => is_ok raw = true | Some err => raw = Err err end) /\
  extends (HeartBeatStatus decode_error (Some c) ctx) (fun i r es =>
    exists raw, probed c i raw es /\
    match raw, r with
    | Err err, r => r = Err err
    | Ok resp, Ok out => unmarshal HeartBeatResponse_json (Body resp) = Some out
    | Ok resp, Err err => unmarshal HeartBeatResponse_json (Body resp) = None /\
        exists inner, err = ETransport "decode" "/heart-beat" (Some inner) false
    end) /\
  (exists err, HeartBeat None ctx = ret (Some err)) /\ refused (HeartBeatStatus decode_error None ctx).
Proof.
  intros Hc. split_and!; [| |by eexists|by eexists].
  - eapply extends_mono; [by apply probe|]. intros i r es (raw & Hp & ->). exists raw. split; [done|]. by destruct raw.
  - eapply extends_mono; [by apply probe|]. intros i r es (raw & Hp & ->). exists raw. split; [done|].
    destruct raw as [resp|]; [|done]. cbn [result_bind].
    destruct (decodeHeartBeat decode_error (Body resp)) as [out|err] eqn:Ed; [by apply decodeHeartBeat_Ok in Ed|].
    split.
    + destruct (unmarshal _ _) as [out|] eqn:Eu; [|done]. apply (decodeHeartBeat_Ok decode_error) in Eu. congruence.
    + unfold decodeHeartBeat in Ed. destruct (parse _ _ _ _) as [[v rest]|]; [|injection Ed as <-; by eexists].
      destruct (c_dec _ _ _) as [out' []]; [destruct (skip_ws rest)|]; simplify_eq; by eexists.
Qed.

#[local] Existing Instance toy_env.

Lemma heartbeat_spec_witness :
  extends (@HeartBeat toy_RSA toy_env amd64_conv (Some toy_client) Background) (fun i r es =>
    exists raw, probed toy_client i raw es /\ match r with None => is_ok raw = true | Some err => raw = Err err end).
Proof.
  exact (proj1 (@heartbeat_spec toy_RSA toy_env amd64_conv (fun _ => EStd "json") toy_client Background toy_ready)).
Defined.

(** Text after the first value is refused here, although [Decode] alone would accept it. *)
Example heartbeat_trailing :
  is_ok (decodeHeartBeat (fun _ => EStd "json") (json_print (JObj [("code", JStr "SUCCESS")]) +:+ " x")) = false /\
  is_ok (decodeHeartBeat (fun _ => EStd "json") (json_print (JObj [("code", JStr "SUCCESS")]) +:+ " ")) = true.
Proof. by vm_compute. Qed.
