(* ===== verification/Decoding.v ===== *)
(** * Decoding: what the decoder guarantees of whatever it is given.

    The round trips of [Json] and [Schema] start from a value; here the bytes come
    first.  Everything [json_parse] accepts is well formed ([parse_wf]: strings of valid
    UTF-8, since [unquote] replaces what is not; number literals of the grammar), and a
    type is [Sound] when decoding keeps its values well typed ([c_ok]): an [int64] in
    range, strings of valid UTF-8, whatever the document. *)
From S2P Require Import Prelude GoStd GoCrypto Errors GoHttp Json Codec Schema.

(** ** Strings are valid UTF-8 *)

Lemma lit_value z : 0 <= z < 256 -> byte_of (lit z) = z.
Proof.
  intros H. unfold byte_of, lit, byte_lit. rewrite Z.mod_small, nat_ascii_embedding by lia. lia.
Qed.

Lemma byte_in_lit lo z hi : 0 <= z < 256 -> byte_in lo (lit z) hi = (lo <=? z) && (z <=? hi).
Proof. intros H. unfold byte_in. by rewrite lit_value. Qed.

(** Decide the comparisons of a rune's bytes with the bounds of [first_rune]. *)
Ltac rune_bytes :=
  unfold is_rune, first_rune, utf8_2, utf8_3, utf8_4, cont, is_ascii;
  rewrite ?byte_in_lit, ?lit_value by lia;
  repeat match goal with
  | |- context [?a <=? ?b] => destruct (Z.leb_spec a b); try lia
  | |- context [?a <? ?b] => destruct (Z.ltb_spec a b); try lia
  end; try (by rewrite bool_decide_true).

Lemma rune_2 a b : 0xC2 <= a <= 0xDF -> 0x80 <= b <= 0xBF -> is_rune [lit a; lit b] = true.
Proof. intros. rune_bytes. Qed.

Lemma rune_3 a b c : 0xE0 <= a <= 0xEF -> 0x80 <= b <= 0xBF -> 0x80 <= c <= 0xBF ->
  (a = 0xE0 -> 0xA0 <= b) -> (a = 0xED -> b <= 0x9F) -> is_rune [lit a; lit b; lit c] = true.
Proof. intros. rune_bytes. Qed.

Lemma rune_4 a b c d : 0xF0 <= a <= 0xF4 -> 0x80 <= b <= 0xBF -> 0x80 <= c <= 0xBF -> 0x80 <= d <= 0xBF ->
  (a = 0xF0 -> 0x90 <= b) -> (a = 0xF4 -> b <= 0x8F) -> is_rune [lit a; lit b; lit c; lit d] = true.
Proof. intros. rune_bytes. Qed.

Lemma rune_ascii c : is_ascii c = true -> is_rune [c] = true.
Proof. intros H. unfold is_rune, first_rune. rewrite H. by rewrite bool_decide_true. Qed.

(** The digits of a code point in base 64. *)
Lemma base64_digits r : 0 <= r -> exists a b c d,
  r = ((a * 64 + b) * 64 + c) * 64 + d /\ 0 <= a /\ 0 <= b < 64 /\ 0 <= c < 64 /\ 0 <= d < 64 /\
  r / 262144 = a /\ r / 4096 = a * 64 + b /\ r / 64 = (a * 64 + b) * 64 + c /\
  r / 4096 mod 64 = b /\ r / 64 mod 64 = c /\ r mod 64 = d.
Proof.
  intros Hr. exists (r / 64 / 64 / 64), (r / 64 / 64 mod 64), (r / 64 mod 64), (r mod 64).
  change 262144 with (64 * 64 * 64). change 4096 with (64 * 64). rewrite <- !Z.div_div by lia.
  pose proof (Z.div_mod r 64). pose proof (Z.div_mod (r / 64) 64). pose proof (Z.div_mod (r / 64 / 64) 64).
  pose proof (Z.mod_pos_bound r 64). pose proof (Z.mod_pos_bound (r / 64) 64). pose proof (Z.mod_pos_bound (r / 64 / 64) 64).
  split_and!; lia.
Qed.

(** [utf8.AppendRune] appends one rune, U+FFFD when it is given none. *)
Lemma encode_rune_rune r : 0 <= r -> is_rune (encode_rune r) = true.
Proof.
  intros Hr. destruct (base64_digits r Hr) as (a & b & c & d & E & Ha & Hb & Hc & Hd & E1 & E2 & E3 & E4 & E5 & E6).
  unfold encode_rune. rewrite E4, E5, E6, E1, E2, E3. clear E1 E2 E3 E4 E5 E6.
  destruct (Z.leb_spec r 0x7F); [apply rune_ascii; unfold is_ascii; rewrite lit_value by lia; apply Z.ltb_lt; lia|].
  destruct (Z.leb_spec r 0x7FF); [apply rune_2; lia|].
  destruct (Z.ltb_spec 0x10FFFF r); [by vm_compute|]. cbn [orb].
  destruct ((0xD800 <=? r) && (r <=? 0xDFFF)) eqn:Es; [by vm_compute|].
  apply andb_false_iff in Es. rewrite !Z.leb_gt in Es.
  destruct (Z.leb_spec r 0xFFFF); [apply rune_3|apply rune_4]; lia.
Qed.

Lemma unhex_nonneg c n : unhex c = Some n -> 0 <= n.
Proof.
  unfold unhex, byte_between. repeat case_match; intros; simplify_eq; to_prop;
    repeat match goal with H : _ = true |- _ => apply andb_true_iff in H as [?%Z.leb_le _] end; lia.
Qed.

Lemma hex4_nonneg a b c d n : hex4 a b c d = Some n -> 0 <= n.
Proof.
  unfold hex4. destruct (unhex a) eqn:Ea, (unhex b) eqn:Eb, (unhex c) eqn:Ec, (unhex d) eqn:Ed; try done.
  apply unhex_nonneg in Ea, Eb, Ec, Ed. intros [= <-]. lia.
Qed.

Lemma getu4_nonneg l r : getu4 l = Some r -> 0 <= r.
Proof. unfold getu4. intros H. rune_cases. by eapply hex4_nonneg. Qed.

Lemma decode_pair_nonneg r1 r2 r : decode_pair r1 r2 = Some r -> 0 <= r.
Proof.
  unfold decode_pair. case_match eqn:E; [|done]. intros [= <-].
  rewrite !andb_true_iff, !Z.leb_le in E. lia.
Qed.

Lemma simple_escape_ascii e c : simple_escape e = Some c -> is_ascii c = true.
Proof. unfold simple_escape. intros H. repeat case_match; by simplify_eq. Qed.

Lemma unquote_utf8 fuel l : utf8 (unquote fuel l).
Proof.
  revert l. induction fuel as [|fuel IH]; intros l; [constructor|]. destruct l as [|c l]; [constructor|].
  cbn [unquote]. destruct (bool_decide (c = backslash)).
  - destruct (getu4 (c :: l)) as [r|] eqn:E.
    + apply getu4_nonneg in E. cbv zeta. destruct (is_surrogate r).
      * destruct (getu4 (drop 6 (c :: l))) as [r2|]; [|by constructor].
        destruct (decode_pair r r2) as [d|] eqn:Ed; [|by constructor].
        apply decode_pair_nonneg in Ed. constructor; [by apply encode_rune_rune|apply IH].
      * constructor; [by apply encode_rune_rune|apply IH].
    + destruct l as [|e l]; [constructor|]. destruct (simple_escape e) as [x|] eqn:Ex; [|constructor].
      apply (utf8_cons [x]); [by eapply rune_ascii, simple_escape_ascii|apply IH].
  - destruct (first_rune (c :: l)) as [p|] eqn:E; [|by constructor].
    constructor; [by eapply first_rune_rune|apply IH].
Qed.

Lemma utf8_valid l fuel : utf8 l -> (length l <= fuel)%nat -> valid_utf8 fuel l = true.
Proof.
  intros Hl. revert fuel. induction Hl as [|p l Hp _ IH]; intros fuel Hf; [by destruct fuel|].
  destruct (rune_cons p Hp) as (c & q & ->). rewrite length_app in Hf. cbn [length] in Hf.
  destruct fuel as [|fuel]; [lia|].
  change (valid_utf8 (S fuel) ((c :: q) ++ l)) with
    (match first_rune ((c :: q) ++ l) with
     | Some p => valid_utf8 fuel (drop (length p) ((c :: q) ++ l))
     | None => false
     end).
  rewrite is_rune_app, drop_app_length by done. apply IH. lia.
Qed.

Lemma unquote_string_valid raw : valid_string (unquote_string raw) = true.
Proof.
  unfold valid_string, unquote_string. rewrite chars_of_chars.
  apply utf8_valid; [apply unquote_utf8|]. by rewrite length_of_chars.
Qed.

(** ** Numbers are literals of the grammar *)

(** A literal that a digit does not follow: what [span_digits] stops at. *)
Definition no_digit (l : list ascii) : bool := match l with c :: _ => negb (is_digit c) | [] => true end.

Lemma span_digits_spec l d r : span_digits l = (d, r) ->
  forall rest, no_digit rest = true -> span_digits (d ++ rest) = (d, rest).
Proof.
  revert d r. induction l as [|c l IH]; intros d r; cbn [span_digits].
  - intros [= <- <-] [|x rest] Hr; [done|]. cbn [app span_digits no_digit] in *. by destruct (is_digit x).
  - destruct (is_digit c) eqn:E.
    + destruct (span_digits l) as [d' r'] eqn:El. intros [= <- <-] rest Hr. cbn [app span_digits].
      by rewrite E, (IH _ _ eq_refl).
    + intros [= <- <-] [|x rest] Hr; [done|]. cbn [app span_digits no_digit] in *. by destruct (is_digit x).
Qed.

(** What is no digit starts a fraction or an exponent. *)
Lemma scan_exp_spec l e r : scan_exp l = Some (e, r) ->
  scan_exp e = Some (e, []) /\ match e with [] => True | c :: _ => c = "e"%char \/ c = "E"%char end.
Proof.
  destruct l as [|c l]; [by intros [= <- <-]|]. cbn [scan_exp].
  destruct (bool_decide (c = "e"%char) || bool_decide (c = "E"%char)) eqn:Ec; [|by intros [= <- <-]].
  assert (Hc : c = "e"%char \/ c = "E"%char) by (rewrite orb_true_iff, !bool_decide_eq_true in Ec; exact Ec).
  destruct l as [|s l]; [done|].
  destruct (bool_decide (s = "+"%char) || bool_decide (s = "-"%char)) eqn:Es.
  - destruct (span_digits l) as [d r'] eqn:Ed. destruct d as [|x d]; [done|]. intros [= <- <-].
    split; [|exact Hc]. cbn [app scan_exp]. rewrite Ec, Es.
    pose proof (span_digits_spec _ _ _ Ed [] eq_refl) as Hd. rewrite app_nil_r in Hd. by rewrite Hd.
  - destruct (span_digits (s :: l)) as [d r'] eqn:Ed. destruct d as [|x d]; [done|]. intros [= <- <-].
    split; [|exact Hc]. cbn [app scan_exp]. rewrite Ec.
    assert (x = s) as ->.
    { cbn [span_digits] in Ed. destruct (is_digit s), (span_digits l); by simplify_eq. }
    rewrite Es. pose proof (span_digits_spec _ _ _ Ed [] eq_refl) as Hd. rewrite app_nil_r in Hd. by rewrite Hd.
Qed.

Lemma scan_frac_spec l f r : scan_frac l = Some (f, r) ->
  match f with [] => True | c :: _ => c = "."%char end /\
  (forall e, match e with [] => True | c :: _ => c = "e"%char \/ c = "E"%char end -> scan_frac (f ++ e) = Some (f, e)).
Proof.
  assert (Hno : forall e, match e with [] => True | c :: _ => c = "e"%char \/ c = "E"%char end ->
    scan_frac e = Some ([], e) /\ no_digit e = true).
  { intros [|c e] He; [done|]. by destruct He as [-> | ->]. }
  destruct l as [|c l]; cbn [scan_frac]; [intros [= <- <-]; split; [done|intros e He; by apply Hno]|].
  destruct (bool_decide (c = "."%char)) eqn:Ec; [|intros [= <- <-]; split; [done|intros e He; by apply Hno]].
  destruct (span_digits l) as [d r'] eqn:Ed. destruct d as [|x d]; [done|]. intros [= <- <-].
  split; [by apply bool_decide_eq_true in Ec|]. intros e He. change ((c :: x :: d) ++ e) with (c :: (x :: d) ++ e).
  cbn [scan_frac]. rewrite Ec, (span_digits_spec _ _ _ Ed) by (by apply Hno). done.
Qed.

Lemma scan_number_valid l n r : scan_number l = Some (n, r) -> scan_number n = Some (n, []).
Proof.
  assert (Hmain : forall sign l,
    match l with
    | c :: l' =>
        if negb (is_digit c) then None
        else
          let '(int, r) := if bool_decide (c = "0"%char) then ([c], l')
                           else let '(d, r) := span_digits l' in (c :: d, r) in
          match scan_frac r with
          | None => None
          | Some (frac, r) =>
              match scan_exp r with
              | None => None
              | Some (exp, r) => Some (sign ++ int ++ frac ++ exp, r)
              end
          end
    | [] => None
    end = Some (n, r) ->
    exists c m, n = sign ++ c :: m /\ is_digit c = true /\
      (let '(int, r) := if bool_decide (c = "0"%char) then ([c], m)
                           else let '(d, r) := span_digits m in (c :: d, r) in
          match scan_frac r with
          | None => None
          | Some (frac, r) =>
              match scan_exp r with
              | None => None
              | Some (exp, r) => Some (sign ++ int ++ frac ++ exp, r)
              end
          end) = Some (n, [])).
  { intros sign [|c l']; [done|]. destruct (is_digit c) eqn:Ec; [|done]. cbn [negb].
    destruct (if bool_decide _ then _ else _) as [int r1] eqn:Ei.
    destruct (scan_frac r1) as [[frac r2]|] eqn:Ef; [|done].
    destruct (scan_exp r2) as [[exp r3]|] eqn:Ee; [|done]. intros [= <- <-].
    destruct (scan_exp_spec _ _ _ Ee) as [He Hexp]. destruct (scan_frac_spec _ _ _ Ef) as [Hfrac Hf].
    assert (Hno : no_digit (frac ++ exp) = true).
    { destruct frac as [|x frac]; [|by subst x]. destruct exp as [|x exp]; [done|]. by destruct Hexp as [-> | ->]. }
    assert (exists d, int = c :: d /\
      (if bool_decide (c = "0"%char) then ([c], d ++ frac ++ exp)
       else let '(d, r) := span_digits (d ++ frac ++ exp) in (c :: d, r)) = (int, frac ++ exp)) as (d & -> & Hint).
    { destruct (bool_decide (c = "0"%char)); [injection Ei as <- <-; by exists []|].
      destruct (span_digits l') as [d r'] eqn:Ed. injection Ei as <- <-. exists d. split; [done|].
      by rewrite (span_digits_spec _ _ _ Ed). }
    exists c, (d ++ frac ++ exp). split_and!; [done|done|]. rewrite Hint, Hf by exact Hexp. by rewrite He. }
  unfold scan_number at 1. destruct l as [|c l]; [done|]. cbv zeta.
  destruct (bool_decide (c = "-"%char)) eqn:Ec; intros H;
    [destruct (Hmain [c] l H) as (x & m & -> & Hx & Hn)|destruct (Hmain [] (c :: l) H) as (x & m & -> & Hx & Hn)].
  - apply bool_decide_eq_true in Ec as ->. cbn [app]. unfold scan_number. rewrite bool_decide_true by done. by rewrite Hx.
  - cbn [app] in *. unfold scan_number. rewrite digit_not_minus by done. by rewrite Hx.
Qed.

(** ** Documents are well formed *)

Lemma parse_wf fuel ph depth l v r : parse fuel ph depth l = Some (v, r) -> json_wf v = true.
Proof.
  revert ph depth l v r. induction fuel as [|fuel IH]; intros ph depth l v r; [done|]. cbn [parse]. destruct ph.
  - destruct (skip_ws l) as [|c l']; [done|].
    destruct (bool_decide (c = quote_char)).
    { destruct (scan_string l') as [[raw rest]|]; [|done]. intros [= <- <-]. apply unquote_string_valid. }
    destruct (bool_decide (c = "{"%char)).
    { destruct (_ <=? _)%nat; [done|]. destruct (skip_ws l') as [|d rest]; [done|].
      case_match; [by intros [= <- <-]|apply IH]. }
    destruct (bool_decide (c = "["%char)).
    { destruct (_ <=? _)%nat; [done|]. destruct (skip_ws l') as [|d rest]; [done|].
      case_match; [by intros [= <- <-]|apply IH]. }
    repeat (case_match; [case_match; [by intros [= <- <-]|done]|]).
    case_match; [|done]. case_match. intros [= <- <-]. cbn [json_wf]. apply bool_decide_eq_true.
    rewrite chars_of_chars. by eapply scan_number_valid.
  - destruct (skip_ws l) as [|q l']; [done|]. destruct (negb _); [done|].
    destruct (scan_string l') as [[raw r1]|]; [|done]. destruct (skip_ws r1) as [|colon r2]; [done|].
    destruct (negb _); [done|]. destruct (parse fuel PValue depth r2) as [[w r3]|] eqn:Ew; [|done].
    apply IH in Ew. destruct (skip_ws r3) as [|d r4]; [done|]. case_match.
    + intros [= <- <-]. cbn [json_wf forallb fst snd]. by rewrite unquote_string_valid, Ew.
    + case_match; [|done]. destruct (parse fuel PMembers depth r4) as [[ms r5]|] eqn:Em; [|done].
      apply IH in Em. destruct ms; try done. intros [= <- <-]. cbn [json_wf forallb fst snd] in *.
      by rewrite unquote_string_valid, Ew, Em.
  - destruct (parse fuel PValue depth l) as [[w r3]|] eqn:Ew; [|done].
    apply IH in Ew. destruct (skip_ws r3) as [|d r4]; [done|]. case_match.
    + intros [= <- <-]. cbn [json_wf forallb]. by rewrite Ew.
    + case_match; [|done]. destruct (parse fuel PElements depth r4) as [[ms r5]|] eqn:Em; [|done].
      apply IH in Em. destruct ms; try done. intros [= <- <-]. cbn [json_wf forallb] in *. by rewrite Ew, Em.
Qed.

Lemma json_parse_wf s v : json_parse s = Some v -> json_wf v = true.
Proof.
  unfold json_parse. destruct (parse _ _ _ _) as [[w r]|] eqn:E; [|done]. apply parse_wf in E.
  destruct (skip_ws r); [by intros [= <-]|done].
Qed.

(** ** Types decoding respects *)

(** Whatever the document and whatever is decoded over, errors included, the value left
    is one the type may hold. *)
Class Sound {B} (c : codec B) : Prop := {
  sound_zero : c_ok c (c_zero c) = true;
  sound_decode : forall d v old, json_wf v = true -> c_ok c old = true -> c_ok c (c_decode c d v old).1 = true;
}.

#[export] Instance str_sound : Sound str.
Proof. split; [done|]. by intros d [] old. Qed.

Lemma ParseInt_range n z : ParseInt n = Some z -> in_int64 z.
Proof.
  unfold ParseInt. cbv zeta. destruct (match n with String "-" s => _ | _ => _ end) as [x|]; [|done].
  destruct ((int64_min <=? x) && (x <=? int64_max)) eqn:E; [|done]. intros [= <-].
  apply andb_true_iff in E as [?%Z.leb_le ?%Z.leb_le]. done.
Qed.

#[export] Instance int_sound : Sound int.
Proof.
  split; [done|]. intros d [| |n| | |] old; try done. cbn [int c_decode c_ok dec_int64]. intros _ Hold.
  destruct (ParseInt n) as [z|] eqn:E; [|done]. apply ParseInt_range in E as [H1 H2]. cbn [fst].
  by rewrite (proj2 (Z.leb_le _ _) H1), (proj2 (Z.leb_le _ _) H2).
Qed.

#[export] Instance bool_sound : Sound bool_.
Proof. split; done. Qed.

#[export] Instance ptr_sound {B} (c : codec B) `{!Sound c} : Sound (ptr c).
Proof.
  split; [done|]. intros d v old Hv Hold. cbn [ptr c_decode c_ok] in *. unfold dec_ptr.
  assert (H : c_ok c (c_decode c d v (default (c_zero c) old)).1 = true).
  { apply sound_decode; [done|]. destruct old as [b|]; [exact Hold|apply sound_zero]. }
  destruct v; [done|..]; destruct (c_decode c d _ _) as [a ok]; exact H.
Qed.

#[export] Instance slice_sound {B} (c : codec B) `{!Sound c} : Sound (slice c).
Proof.
  split; [done|]. intros d v old Hv Hold. cbn [slice c_decode c_ok] in *. unfold dec_slice.
  destruct v as [| | | |vs|]; try done. cbn [json_wf] in Hv.
  revert old Hold Hv. induction vs as [|v vs IH]; intros old Hold Hv; [done|]. cbn [dec_elements forallb] in *.
  apply andb_true_iff in Hv as [Hv Hvs].
  assert (H : c_ok c (c_decode c d v (default (c_zero c) (head old))).1 = true).
  { apply sound_decode; [done|]. destruct old as [|b old]; [apply sound_zero|]. by apply andb_true_iff in Hold as [? _]. }
  assert (Htl : forallb (c_ok c) (tail old) = true) by (destruct old; [done|]; by apply andb_true_iff in Hold as [_ ?]).
  specialize (IH _ Htl Hvs). destruct (c_decode c d v _) as [b ok], (dec_elements d c vs _) as [bs ok'].
  cbn [fst forallb] in *. by rewrite H, IH.
Qed.

(** Fields that are distinct parts of the struct: what is set is got, and setting one
    leaves the others. *)
Fixpoint independent {A} (fs : list (field_decl A)) : Prop :=
  match fs with
  | [] => True
  | f :: fs =>
      (forall a b, f_get f (f_set f b a) = b) /\
      Forall (fun g => (forall a b, f_get g (f_set f b a) = f_get g a) /\
                       (forall a b, f_get f (f_set g b a) = f_get f a)) fs /\
      independent fs
  end.

Class SoundFields {A} (zero : A) (fs : list (field_decl A)) : Prop := {
  sound_types : Forall (fun f => Sound (f_codec f)) fs;
  sound_independent : independent fs;
  sound_fields_zero : struct_ok fs zero = true;
}.

Lemma set_struct_ok {A} (fs : list (field_decl A)) f a b :
  independent fs -> f ∈ fs -> c_ok (f_codec f) b = true -> struct_ok fs a = true -> struct_ok fs (f_set f b a) = true.
Proof.
  intros Hi Hf Hb. induction fs as [|g fs IH]; [by apply not_elem_of_nil in Hf|].
  cbn [independent struct_ok forallb] in *. destruct Hi as (Hset & Hrest & Hi). rewrite !andb_true_iff.
  intros [Hg Hfs]. rewrite Forall_forall in Hrest. apply elem_of_cons in Hf as [->|Hf].
  - rewrite Hset. split; [done|]. rewrite forallb_forall in *. intros h Hh.
    destruct (Hrest h ltac:(by apply list_elem_of_In)) as [-> _]. by apply Hfs.
  - destruct (Hrest f Hf) as [_ ->]. split; [done|]. by apply IH.
Qed.

#[export] Instance struct_sound {A} (zero : A) fs `{!SoundFields zero fs} : Sound (struct zero fs).
Proof.
  split; [apply sound_fields_zero|]. intros d v old Hv Hold. cbn [struct c_decode c_ok] in *.
  unfold decode_struct. destruct v as [| | | | |ms]; try done. cbn [json_wf] in Hv.
  generalize true at 1. revert old Hold Hv. induction ms as [|[k v] ms IH]; intros a Ha Hv ok; [done|].
  cbn [forallb fold_left fst snd] in *. rewrite !andb_true_iff in Hv. destruct Hv as [[_ Hv] Hms].
  assert (Hstep : forall n, struct_ok fs (dec_member d fs n v a).1 = true).
  { intros n. unfold dec_member. destruct (List.find _ fs) as [f|] eqn:E; [|done].
    apply find_some in E as [Hf%list_elem_of_In _]. unfold dec_field.
    pose proof (proj1 (Forall_forall _ _) sound_types f Hf) as Hs.
    cbv beta in Hs.
    assert (Hok : c_ok (f_codec f) (f_get f a) = true).
    { unfold struct_ok in Ha. rewrite forallb_forall in Ha. by apply Ha, list_elem_of_In. }
    pose proof (sound_decode d v (f_get f a) Hv Hok). destruct (c_decode _ _ _ _) as [b okb].
    apply set_struct_ok; [apply (sound_independent (zero := zero))|done..]. }
  destruct (field_for _ k) as [n|]; [|by apply IH]. specialize (Hstep n).
  destruct (dec_member d fs n v a) as [a' ok']. by apply IH.
Qed.

(** Whatever bytes decode, decode to a value of the type; and marshalled, it is decoded
    to itself. *)
Lemma unmarshal_sound {B} (c : codec B) `{!Sound c} data a : unmarshal c data = Some a -> c_ok c a = true.
Proof.
  unfold unmarshal, json_Unmarshal, c_dec. destruct (json_parse data) as [v|] eqn:E; [|done].
  pose proof (sound_decode standard v (c_zero c) (json_parse_wf _ _ E) sound_zero).
  destruct (c_decode _ _ _ _) as [b []]; [by intros [= <-]|done].
Qed.

Lemma unmarshal_stable {B} (c : codec B) `{!Sound c, !Lawful c} data a :
  (c_depth c <= maxNestingDepth)%nat -> unmarshal c data = Some a ->
  exists b, marshal c a = Ok b /\ unmarshal c b = Some a.
Proof.
  intros Hd Ha. apply (unmarshal_sound c) in Ha. destruct (unmarshal_marshal c a Ha Hd) as (b & Hb & _ & Hu). by exists b.
Qed.

(** ** Automation *)

(** [split] destructs the struct, [flat] unfolds the fields of an embedded one. *)
Ltac sound_by split flat :=
  match goal with |- Sound ?c => let c' := eval unfold c in c in change (Sound c') end; apply struct_sound;
  match goal with |- SoundFields ?z ?fs => let fs' := eval unfold fs in fs in change (SoundFields z fs') end;
  flat; cbn [map app]; apply Build_SoundFields;
  [repeat apply Forall_cons_2; try apply Forall_nil_2; apply _
  |cbn [independent]; split_and?; repeat apply Forall_cons_2; try apply Forall_nil_2; split_and?;
   first [exact I|let a := fresh in intros a; split a; reflexivity]
  |vm_compute; reflexivity].
(** The instance of a declared type. *)
Ltac sound := sound_by ltac:(fun a => destruct a) idtac.
(** When the first field is an embedded struct, of the fields [fs]. *)
Ltac sound_embedded fs := sound_by ltac:(fun a => let e := fresh in destruct a as [e]; destruct e) ltac:(unfold fs).
