(* ===== verification/Responses.v ===== *)
(** * Responses: what the SDK hands its caller is well typed.

    The response and event types of [response_types] are [Sound]: whatever bytes a server
    or a notifier sends, a value that is decoded holds [int64]s in range and strings of
    valid UTF-8, which is what the round trips of [Schema] suppose.  The types with a
    [map\[string\]any] are not listed: user tags, the credit information and application,
    the bill detail, refunds and the heart-beat. *)
From S2P Require Import Prelude GoStd GoCrypto Errors GoHttp Json Codec Schema Decoding.
From S2P Require Import CreditTypes PaymentTypes Repayment Refund Callback Bill Transaction VirtualAccount.

#[export] Instance InstallmentDetail_sound : Sound InstallmentDetail_json.
Proof. sound. Qed.
#[export] Instance InstallmentPlan_sound : Sound InstallmentPlan_json.
Proof. sound. Qed.
#[export] Instance SubOrderInstallmentPlans_sound : Sound SubOrderInstallmentPlans_json.
Proof. sound. Qed.
#[export] Instance AccountChanges_sound : Sound AccountChanges_json.
Proof. sound. Qed.
#[export] Instance AuthExtendInfoResp_sound : Sound AuthExtendInfoResp_json.
Proof. sound. Qed.
#[export] Instance AuthorizationData_sound : Sound AuthorizationData_json.
Proof. sound. Qed.
#[export] Instance AuthResponse_sound : Sound AuthResponse_json.
Proof. sound. Qed.
#[export] Instance AgreementRef_sound : Sound AgreementRef_json.
Proof. sound. Qed.
#[export] Instance CaptureExtendInfoResp_sound : Sound CaptureExtendInfoResp_json.
Proof. sound. Qed.
#[export] Instance PaymentResult_sound : Sound PaymentResult_json.
Proof. sound. Qed.
#[export] Instance CaptureResultData_sound : Sound CaptureResultData_json.
Proof. sound_embedded PaymentResult_fields. Qed.
#[export] Instance CaptureResponse_sound : Sound CaptureResponse_json.
Proof. sound. Qed.
#[export] Instance ReAuthResultData_sound : Sound ReAuthResultData_json.
Proof. sound. Qed.
#[export] Instance ReAuthResponse_sound : Sound ReAuthResponse_json.
Proof. sound. Qed.
#[export] Instance VoidResultData_sound : Sound VoidResultData_json.
Proof. sound. Qed.
#[export] Instance VoidAuthResponse_sound : Sound VoidAuthResponse_json.
Proof. sound. Qed.
#[export] Instance CommerceInstallmentDetail_sound : Sound CommerceInstallmentDetail_json.
Proof. sound. Qed.
#[export] Instance CommerceInstallmentPlan_sound : Sound CommerceInstallmentPlan_json.
Proof. sound. Qed.
#[export] Instance CommerceSubOrderInstallmentPlans_sound : Sound CommerceSubOrderInstallmentPlans_json.
Proof. sound. Qed.
#[export] Instance SumOrderInstallmentDetail_sound : Sound SumOrderInstallmentDetail_json.
Proof. sound. Qed.
#[export] Instance SumOrderInstallmentPlan_sound : Sound SumOrderInstallmentPlan_json.
Proof. sound. Qed.
#[export] Instance SumOrderInstallmentPlans_sound : Sound SumOrderInstallmentPlans_json.
Proof. sound. Qed.
#[export] Instance PaymentPlanDataExtendInfo_sound : Sound PaymentPlanDataExtendInfo_json.
Proof. sound. Qed.
#[export] Instance PaymentPlanData_sound : Sound PaymentPlanData_json.
Proof. sound. Qed.
#[export] Instance PaymentPlanResponse_sound : Sound PaymentPlanResponse_json.
Proof. sound. Qed.
#[export] Instance PaymentPreCheckDataExtendInfo_sound : Sound PaymentPreCheckDataExtendInfo_json.
Proof. sound. Qed.
#[export] Instance PaymentPreCheckData_sound : Sound PaymentPreCheckData_json.
Proof. sound. Qed.
#[export] Instance PaymentPreCheckResponse_sound : Sound PaymentPreCheckResponse_json.
Proof. sound. Qed.
#[export] Instance CommerceAccountChanges_sound : Sound CommerceAccountChanges_json.
Proof. sound. Qed.
#[export] Instance RepaymentResult_sound : Sound RepaymentResult_json.
Proof. sound. Qed.
#[export] Instance RepaymentResponse_sound : Sound RepaymentResponse_json.
Proof. sound. Qed.
#[export] Instance AccountChangeCreditInfo_sound : Sound AccountChangeCreditInfo_json.
Proof. sound. Qed.
#[export] Instance AccountChangeExtendInfo_sound : Sound AccountChangeExtendInfo_json.
Proof. sound. Qed.
#[export] Instance AccountChangeEvent_sound : Sound AccountChangeEvent_json.
Proof. sound. Qed.
#[export] Instance BillDiscounts_sound : Sound BillDiscounts_json.
Proof. sound. Qed.
#[export] Instance Bill_sound : Sound Bill_json.
Proof. sound. Qed.
#[export] Instance BillsResponseItem_sound : Sound BillsResponseItem_json.
Proof. sound_embedded Bill_fields. Qed.
#[export] Instance BillsResponse_sound : Sound BillsResponse_json.
Proof. sound. Qed.
#[export] Instance BillUnpaid_sound : Sound BillUnpaid_json.
Proof. sound. Qed.
#[export] Instance BillUnpaidResponse_sound : Sound BillUnpaidResponse_json.
Proof. sound. Qed.
#[export] Instance TradeSubOrder_sound : Sound TradeSubOrder_json.
Proof. sound. Qed.
#[export] Instance TradePaymentInfo_sound : Sound TradePaymentInfo_json.
Proof. sound. Qed.
#[export] Instance TradeRefundSubOrder_sound : Sound TradeRefundSubOrder_json.
Proof. sound. Qed.
#[export] Instance TradeRefundInfo_sound : Sound TradeRefundInfo_json.
Proof. sound. Qed.
#[export] Instance TradeRepaymentDetail_sound : Sound TradeRepaymentDetail_json.
Proof. sound. Qed.
#[export] Instance TradeRepaymentInfo_sound : Sound TradeRepaymentInfo_json.
Proof. sound. Qed.
#[export] Instance Transaction_Paginator_sound : Sound Transaction.Paginator_json.
Proof. sound. Qed.
#[export] Instance TransactionsData_sound : Sound TransactionsData_json.
Proof. sound. Qed.
#[export] Instance TransactionsResponse_sound : Sound TransactionsResponse_json.
Proof. sound. Qed.
#[export] Instance TradeBillDetail_sound : Sound TradeBillDetail_json.
Proof. sound. Qed.
#[export] Instance TradeRefundInfoDetail_sound : Sound TradeRefundInfoDetail_json.
Proof. sound. Qed.
#[export] Instance TradeSubOrderDetail_sound : Sound TradeSubOrderDetail_json.
Proof. sound. Qed.
#[export] Instance PaymentTransactionExtendInfo_sound : Sound PaymentTransactionExtendInfo_json.
Proof. sound. Qed.
#[export] Instance TradePaymentInfoDetail_sound : Sound TradePaymentInfoDetail_json.
Proof. sound. Qed.
#[export] Instance RefundInfoDetail_sound : Sound RefundInfoDetail_json.
Proof. sound. Qed.
#[export] Instance TradeDetailRepaymentDetail_sound : Sound TradeDetailRepaymentDetail_json.
Proof. sound. Qed.
#[export] Instance TradeRepaymentInfoDetail_sound : Sound TradeRepaymentInfoDetail_json.
Proof. sound. Qed.
#[export] Instance TradeDetail_sound : Sound TradeDetail_json.
Proof. sound. Qed.
#[export] Instance TransactionDetailResponse_sound : Sound TransactionDetailResponse_json.
Proof. sound. Qed.
#[export] Instance VirtualAccountListResponse_sound : Sound VirtualAccountListResponse_json.
Proof. sound. Qed.
#[export] Instance VirtualAccount_sound : Sound VirtualAccount_json.
Proof. sound. Qed.
#[export] Instance VirtualAccountResponse_sound : Sound VirtualAccountResponse_json.
Proof. sound. Qed.

#[export] Instance RecordInfo_sound : Sound RecordInfo_json.
Proof. sound. Qed.
#[export] Instance CreditTypes_Paginator_sound : Sound CreditTypes.Paginator_json.
Proof. sound. Qed.
#[export] Instance CreditChangeHistoryResponse_sound : Sound CreditChangeHistoryResponse_json.
Proof. sound. Qed.
#[export] Instance BalanceHistoryResponse_sound : Sound BalanceHistoryResponse_json.
Proof. sound. Qed.
#[export] Instance ModifyApplicationInfoResponse_sound : Sound ModifyApplicationInfoResponse_json.
Proof. sound. Qed.
#[export] Instance CloseAccountResponse_sound : Sound CloseAccountResponse_json.
Proof. sound. Qed.

(** ** The types *)

(** The answers of endpoints (those of authorisation and capture are events too), and the
    events of repayments and account changes. *)

Definition response_types : list {B : Type & codec B} :=
  [ existT _ AuthResponse_json; existT _ CaptureResponse_json; existT _ ReAuthResponse_json;
    existT _ VoidAuthResponse_json; existT _ PaymentPlanResponse_json; existT _ PaymentPreCheckResponse_json;
    existT _ RepaymentResponse_json; existT _ BillsResponse_json; existT _ BillUnpaidResponse_json;
    existT _ TransactionsResponse_json; existT _ TransactionDetailResponse_json;
    existT _ VirtualAccountListResponse_json; existT _ VirtualAccountResponse_json;
    existT _ BalanceHistoryResponse_json; existT _ ModifyApplicationInfoResponse_json; existT _ CloseAccountResponse_json;
    existT _ RepaymentResult_json; existT _ AccountChangeEvent_json ].

(** A value the SDK decodes from [data]: a response's body, or a notification's. *)
Definition decodes {B} (c : codec B) (data : string) (a : B) : Prop :=
  unmarshal c data = Some a \/ strictDecode c data = Some a.

Lemma decodes_sound {B} (c : codec B) `{!Sound c} data a : decodes c data a -> c_ok c a = true.
Proof.
  intros [H|H]; [by eapply unmarshal_sound|]. unfold strictDecode, c_dec in H.
  destruct (parse _ _ _ _) as [[v r]|] eqn:E; [|done]. apply parse_wf in E.
  pose proof (sound_decode standard v (c_zero c) E sound_zero). destruct (c_decode _ _ _ _) as [b []]; by simplify_eq.
Qed.

Lemma response_types_sound :
  Forall (fun t => Sound (projT2 t) /\ Lawful (projT2 t) /\ (c_depth (projT2 t) <= maxNestingDepth)%nat) response_types.
Proof.
  repeat apply Forall_cons_2; try apply Forall_nil_2; cbn [projT2];
    (split_and!; [apply _|apply _|apply Nat.leb_le; vm_compute; reflexivity]).
Qed.

(** * Properties *)

(** C14.  Whatever bytes are answered or notified, what is decoded from them into one of
    the eighteen [response_types] is a value of that type (integers in the range of [int64],
    strings of valid UTF-8, at every level), so that marshalling it succeeds and the bytes
    decode to the same value, where an empty slice is the same as nil. *)
Theorem responses_well_typed (t : {B : Type & codec B}) data a :
  t ∈ response_types -> decodes (projT2 t) data a ->
  c_ok (projT2 t) a = true /\
  exists b, marshal (projT2 t) a = Ok b /\ unmarshal (projT2 t) b = Some a.
Proof.
  intros Ht Ha. destruct (proj1 (Forall_forall _ _) response_types_sound t Ht) as (Hs & Hl & Hd).
  pose proof (decodes_sound _ _ _ Ha) as Hok. split; [exact Hok|].
  destruct (unmarshal_marshal _ a Hok Hd) as (b & Hb & _ & Hu). by exists b.
Qed.

(** A body with an invalid byte and a lone surrogate: each is decoded to U+FFFD. *)
Definition odd_body : string :=
  "{" +:+ dqs "code" +:+ ":" +:+ dqs (of_chars ["255"; "o"]%char) +:+ "," +:+ dqs "data" +:+ ":{" +:+
  dqs "requestId" +:+ ":" +:+ dqs "\ud800" +:+ "}}".
Definition odd_answer : VoidAuthResponse :=
  mkVoidAuthResponse (of_chars (rune_error ++ ["o"%char])) ""
    (Some (mkVoidResultData (of_chars rune_error) "" "" None)).

Lemma responses_well_typed_witness :
  decodes VoidAuthResponse_json odd_body odd_answer /\
  c_ok VoidAuthResponse_json odd_answer = true /\
  exists b, marshal VoidAuthResponse_json odd_answer = Ok b /\ unmarshal VoidAuthResponse_json b = Some odd_answer.
Proof.
  assert (H : decodes VoidAuthResponse_json odd_body odd_answer) by (left; vm_compute; reflexivity).
  split; [exact H|].
  exact (responses_well_typed (existT _ VoidAuthResponse_json) odd_body odd_answer ltac:(do 3 right; left) H).
Defined.
