(* ===== verification/MockCache.v ===== *)
(** * MockCache: the replay cache of the mock server ([mock/server_options.go]).

    A map from keys to the elements of a doubly linked list, in order of use.  The
    elements are shared between the two, so they are pointers here: the list and the map
    hold identities, [ic_values] what each element carries.  The specification is the list
    of entries, most recently used first, cut to the capacity. *)
From S2P Require Import Prelude GoStd GoHttp.

Record cacheEntry := mkCacheEntry { ce_key : string; ce_status : Z; ce_body : string; ce_headers : Header }.

(** [container/list] *)
Definition list_Remove (elem : nat) (l : list nat) : list nat := filter (fun x => x <> elem) l.
Definition MoveToFront (elem : nat) (l : list nat) : list nat :=
  if bool_decide (elem ∈ l) then elem :: list_Remove elem l else l.

Record idempotencyCache := mkCache {
  ic_cap : Z;
  ic_items : gmap string nat;
  ic_order : list nat;                (* the elements, front first *)
  ic_values : gmap nat cacheEntry;    (* elem.Value *)
  ic_next : nat;                      (* the next element to be allocated *)
}.

Definition newIdempotencyCache (capacity : Z) : idempotencyCache :=
  mkCache (if capacity <=? 0 then 1024 else capacity) ∅ [] ∅ 0.

Definition Get (c : idempotencyCache) (key : string) : option cacheEntry * idempotencyCache :=
  match ic_items c !! key with
  | Some elem =>
      (ic_values c !! elem, mkCache (ic_cap c) (ic_items c) (MoveToFront elem (ic_order c)) (ic_values c) (ic_next c))
  | None => (None, c)
  end.

(** Drop the least recently used entry, under the key the entry carries. *)
Definition evict (c : idempotencyCache) : idempotencyCache :=
  match last (ic_order c) with
  | Some oldest =>
      mkCache (ic_cap c)
        (match ic_values c !! oldest with Some e => delete (ce_key e) (ic_items c) | None => ic_items c end)
        (list_Remove oldest (ic_order c)) (ic_values c) (ic_next c)
  | None => c
  end.

Definition Put (c : idempotencyCache) (key : string) (e : cacheEntry) : idempotencyCache :=
  match ic_items c !! key with
  | Some elem =>
      mkCache (ic_cap c) (ic_items c) (MoveToFront elem (ic_order c)) (<[elem := e]> (ic_values c)) (ic_next c)
  | None =>
      let c := if Z.of_nat (length (ic_order c)) >=? ic_cap c then evict c else c in
      mkCache (ic_cap c) (<[key := ic_next c]> (ic_items c)) (ic_next c :: ic_order c)
        (<[ic_next c := e]> (ic_values c)) (S (ic_next c))
  end.

Definition Reset_ (c : idempotencyCache) : idempotencyCache :=
  mkCache (ic_cap c) ∅ [] (ic_values c) (ic_next c).

(** * Specification *)

(** The entries, most recently used first. *)
Abbreviation lru := (list cacheEntry).

Definition without (k : string) (l : lru) : lru := filter (fun e => ce_key e <> k) l.
Definition holds (k : string) (l : lru) : option cacheEntry := List.find (fun e => bool_decide (ce_key e = k)) l.

Definition lru_get (l : lru) (k : string) : option cacheEntry * lru :=
  match holds k l with
  | Some e => (Some e, e :: without k l)
  | None => (None, l)
  end.

Definition lru_put (cap : nat) (l : lru) (e : cacheEntry) : lru := e :: take (cap - 1) (without (ce_key e) l).

(** The cache [c] represents [l]: each entry has one element, which the map finds. *)
Record represents (c : idempotencyCache) (l : lru) : Prop := {
  rep_cap : 0 < ic_cap c;
  rep_size : Z.of_nat (length l) <= ic_cap c;
  rep_pairs : exists ps : list (nat * cacheEntry),
    ic_order c = ps.*1 /\ l = ps.*2 /\ NoDup ps.*1 /\ NoDup (ce_key <$> ps.*2) /\
    (forall i e, (i, e) ∈ ps -> ic_values c !! i = Some e /\ (i < ic_next c)%nat) /\
    (forall k i, ic_items c !! k = Some i <-> exists e, (i, e) ∈ ps /\ ce_key e = k);
}.

(** ** Lemmas on lists of entries *)

Lemma filter_in_ext {A} (P Q : A -> Prop) `{!forall x, Decision (P x), !forall x, Decision (Q x)} (l : list A) :
  (forall x, x ∈ l -> P x <-> Q x) -> filter P l = filter Q l.
Proof.
  induction l as [|x l IH]; intros Hl; [done|]. rewrite !filter_cons.
  rewrite IH by (intros y Hy; apply Hl; by right).
  pose proof (Hl x ltac:(by left)) as Hx. do 2 case_decide; tauto || done.
Qed.

Lemma holds_Some k l e : NoDup (ce_key <$> l) -> holds k l = Some e <-> e ∈ l /\ ce_key e = k.
Proof.
  unfold holds. induction l as [|x l IH]; intros Hnd; cbn [List.find fmap list_fmap] in *.
  - split; [done|]. intros [[]%elem_of_nil _].
  - apply NoDup_cons in Hnd as [Hx Hnd]. case_bool_decide as Hk.
    + split; [intros [= ->]; split; [by left|done]|]. intros [He Hke]. apply elem_of_cons in He as [->|He]; [done|].
      destruct Hx. rewrite Hk, <- Hke. by apply list_elem_of_fmap_2.
    + rewrite IH by done. rewrite elem_of_cons. split; [tauto|]. intros [[->|He] Hke]; [done|tauto].
Qed.

Lemma holds_None k l : holds k l = None <-> k ∉ ce_key <$> l.
Proof.
  unfold holds. induction l as [|x l IH]; cbn [List.find fmap list_fmap]; [split; [intros _ []%elem_of_nil|done]|].
  rewrite not_elem_of_cons. case_bool_decide as Hk; [|rewrite IH; intuition congruence].
  split; [done|]. by intros [H _].
Qed.

Lemma without_keys k l : ce_key <$> without k l = filter (fun x => x <> k) (ce_key <$> l).
Proof.
  unfold without. induction l as [|x l IH]; [done|]. rewrite fmap_cons, filter_cons, filter_cons.
  destruct (decide (ce_key x = k)); [rewrite decide_False, decide_False by tauto|rewrite decide_True, decide_True by done].
  - exact IH.
  - cbn. f_equal. exact IH.
Qed.

Lemma without_id k l : k ∉ ce_key <$> l -> without k l = l.
Proof.
  induction l as [|x l IH]; intros H; [done|]. cbn in H. apply not_elem_of_cons in H as [Hx H].
  unfold without in *. rewrite filter_cons, decide_True by done. by rewrite IH.
Qed.

Lemma filter_fmap_in {A B} (f : A -> B) (P : B -> Prop) (Q : A -> Prop) `{!forall x, Decision (P x), !forall x, Decision (Q x)}
    (l : list A) :
  (forall x, x ∈ l -> P (f x) <-> Q x) -> filter P (f <$> l) = f <$> filter Q l.
Proof.
  induction l as [|x l IH]; intros Hl; [done|]. rewrite fmap_cons, !filter_cons.
  rewrite IH by (intros y Hy; apply Hl; by right).
  pose proof (Hl x ltac:(by left)) as Hx. do 2 case_decide; tauto || done.
Qed.

(** ** Pairs of elements and entries *)

Section Pairs.
Variable ps : list (nat * cacheEntry).
Hypothesis nodup_elems : NoDup ps.*1.
Hypothesis nodup_keys : NoDup (ce_key <$> ps.*2).

Lemma key_unique x y : x ∈ ps -> y ∈ ps -> ce_key x.2 = ce_key y.2 -> x = y.
Proof.
  rewrite <- list_fmap_compose in nodup_keys. intros Hx Hy He.
  apply list_elem_of_lookup in Hx as [i Hi], Hy as [j Hj]. assert (i = j) as ->; [|congruence].
  eapply (NoDup_lookup _ _ _ _ nodup_keys); rewrite list_lookup_fmap, ?Hi, ?Hj; cbn; [done|by rewrite He].
Qed.

Lemma elem_unique x y : x ∈ ps -> y ∈ ps -> x.1 = y.1 -> x = y.
Proof.
  intros Hx Hy He.
  apply list_elem_of_lookup in Hx as [i Hi], Hy as [j Hj]. assert (i = j) as ->; [|congruence].
  eapply (NoDup_lookup _ _ _ _ nodup_elems); rewrite list_lookup_fmap, ?Hi, ?Hj; cbn; [done|by rewrite He].
Qed.

(** Removing the pair of a key removes its element and its entry. *)
Lemma remove_pair i e :
  (i, e) ∈ ps ->
  list_Remove i ps.*1 = (filter (fun x => x.1 <> i) ps).*1 /\
  without (ce_key e) ps.*2 = (filter (fun x => x.1 <> i) ps).*2.
Proof.
  intros Hin. unfold list_Remove, without. split; apply filter_fmap_in; intros x Hx; [done|].
  split; intros Hne Heq; apply Hne.
  - by rewrite (elem_unique x (i, e) Hx Hin Heq).
  - by rewrite (key_unique x (i, e) Hx Hin Heq).
Qed.

Lemma NoDup_filter_pairs (P : nat * cacheEntry -> Prop) `{!forall x, Decision (P x)} :
  NoDup (filter P ps).*1 /\ NoDup (ce_key <$> (filter P ps).*2).
Proof.
  rewrite <- list_fmap_compose in *. split; (eapply sublist_NoDup; [|apply fmap_sublist, sublist_filter]); done.
Qed.
End Pairs.

(** ** The operations refine their specifications *)

Lemma new_represents cap : represents (newIdempotencyCache cap) [].
Proof.
  unfold newIdempotencyCache. split; cbn; [destruct (Z.leb_spec cap 0); lia..|].
  exists []. split_and!; try done; [constructor..|by intros ?? []%elem_of_nil|].
  intros k i. rewrite lookup_empty. split; [done|]. by intros (e & []%elem_of_nil & _).
Qed.

Lemma Reset_represents c l : represents c l -> represents (Reset_ c) [].
Proof.
  intros [Hc _ _]. split; cbn; [done|lia|].
  exists []. split_and!; try done; [constructor..|by intros ?? []%elem_of_nil|].
  intros k i. rewrite lookup_empty. split; [done|]. by intros (e & []%elem_of_nil & _).
Qed.

(** What the map knows of a key. *)
Lemma items_holds c l k : represents c l ->
  match ic_items c !! k with
  | Some i => exists e, holds k l = Some e /\ ic_values c !! i = Some e
  | None => holds k l = None
  end.
Proof.
  intros [_ _ (ps & _ & -> & Hi & Hk & Hv & Hm)]. destruct (ic_items c !! k) as [i|] eqn:E.
  - apply Hm in E as (e & Hin & Hke). exists e. split; [|by apply Hv].
    apply holds_Some; [done|]. split; [|done]. exact (list_elem_of_fmap_2 snd _ _ Hin).
  - apply holds_None. rewrite <- list_fmap_compose. intros ([i e] & Hke & Hin)%list_elem_of_fmap.
    assert (ic_items c !! k = Some i) by (apply Hm; by exists e). congruence.
Qed.

(** Moving the element [i] of a present key to the front, with the entry [e'] under the
    same key. *)
Lemma move_represents c l k i e e' :
  represents c l -> ic_items c !! k = Some i -> holds k l = Some e -> ce_key e' = k ->
  represents (mkCache (ic_cap c) (ic_items c) (MoveToFront i (ic_order c)) (<[i := e']> (ic_values c)) (ic_next c))
    (e' :: without k l).
Proof.
  intros [Hc Hs (ps & Ho & -> & Hi & Hk & Hv & Hm)] E Hh He'.
  apply Hm in E as (e0 & Hin & Hke0).
  assert (e0 = e) as ->.
  { apply holds_Some in Hh as [Hel Hke]; [|done]. apply list_elem_of_fmap in Hel as ([i' e1] & -> & Hin1).
    by injection (key_unique ps Hk _ _ Hin Hin1 (eq_trans Hke0 (eq_sym Hke))). }
  destruct (remove_pair ps Hi Hk i e Hin) as [Hr1 Hr2]. rewrite Hke0 in Hr2.
  destruct (NoDup_filter_pairs ps Hi Hk (fun x => x.1 <> i)) as [Hn1 Hn2].
  assert (Hni : i ∉ (filter (fun x => x.1 <> i) ps).*1).
  { rewrite <- Hr1. unfold list_Remove. rewrite list_elem_of_filter. tauto. }
  assert (Hnk : k ∉ ce_key <$> (filter (fun x => x.1 <> i) ps).*2).
  { rewrite <- Hr2, without_keys, list_elem_of_filter. tauto. }
  assert (Hlen : (length (filter (fun x => x.1 <> i) ps) < length ps)%nat) by (eapply length_filter_lt; [exact Hin|cbn; tauto]).
  split; cbn [ic_cap ic_order ic_items ic_values ic_next].
  - done.
  - rewrite Hr2. cbn [length]. rewrite length_fmap in *. lia.
  - exists ((i, e') :: filter (fun x => x.1 <> i) ps). unfold MoveToFront. rewrite Ho, bool_decide_true.
    2: { exact (list_elem_of_fmap_2 fst _ _ Hin). }
    rewrite Hr1, Hr2. cbn [fmap list_fmap fst snd]. split_and!; try done.
    + by constructor.
    + cbn. rewrite He'. by constructor.
    + intros j x. rewrite elem_of_cons, list_elem_of_filter. intros [[= -> ->]|[Hj Hx]].
      * rewrite lookup_insert_eq. split; [done|]. by eapply Hv.
      * cbn in Hj. rewrite lookup_insert_ne by done. by apply Hv.
    + intros k' j. rewrite Hm. split.
      * intros (x & Hx & Hkx). destruct (decide (j = i)) as [->|Hj].
        -- exists e'. split; [by left|]. injection (elem_unique ps Hi _ _ Hx Hin eq_refl) as ->. congruence.
        -- exists x. split; [|done]. right. by apply list_elem_of_filter.
      * intros (x & Hx & Hkx). apply elem_of_cons in Hx as [[= -> ->]|[_ Hx]%list_elem_of_filter]; [|by exists x].
        exists e. split; [done|congruence].
Qed.

Lemma Get_refines c l k : represents c l ->
  (Get c k).1 = (lru_get l k).1 /\ represents (Get c k).2 (lru_get l k).2.
Proof.
  intros H. pose proof (items_holds c l k H) as Hk. unfold Get, lru_get.
  destruct (ic_items c !! k) as [i|] eqn:E; [|by rewrite Hk].
  destruct Hk as (e & Hh & Hv). rewrite Hh. split; [done|]. cbn [snd].
  replace (ic_values c) with (<[i := e]> (ic_values c)) by by apply insert_id.
  eapply move_represents; [done..|]. by apply holds_Some in Hh as [_ ?]; [|destruct H as [_ _ (ps & _ & -> & _ & ? & _)]].
Qed.

Lemma evict_represents c l e : represents c (l ++ [e]) -> represents (evict c) l.
Proof.
  intros [Hc Hs (ps & Ho & Hl & Hi & Hk & Hv & Hm)].
  destruct ps as [|[i x] ps _] using rev_ind; [by destruct l|].
  rewrite fmap_app in Hl. apply app_inj_tail in Hl as [-> Hx]. cbn in Hx. subst x.
  assert (Hin : (i, e) ∈ ps ++ [(i, e)]) by (apply elem_of_app; right; by left).
  destruct (remove_pair _ Hi Hk i e Hin) as [Hr1 _].
  assert (Hrest : filter (fun x : nat * cacheEntry => x.1 <> i) (ps ++ [(i, e)]) = ps).
  { rewrite filter_app, filter_cons, decide_False, filter_nil, app_nil_r by (cbn; tauto).
    rewrite fmap_app in Hi. apply NoDup_app in Hi as (_ & Hd & _). clear - Hd.
    induction ps as [|[j x] ps IH]; [done|]. rewrite filter_cons, decide_True, IH; [done| |].
    - intros y Hy. apply Hd. by right.
    - cbn. intros ->. apply (Hd i); [by left|by left]. }
  rewrite Hrest in Hr1. rewrite length_app in Hs. cbn in Hs.
  unfold evict. rewrite Ho, fmap_app. cbn [fmap list_fmap fst]. rewrite last_snoc, (proj1 (Hv i e Hin)).
  split; cbn [ic_cap ic_order ic_items ic_values ic_next]; [done|lia|].
  exists ps. rewrite fmap_app in Hi, Hr1. rewrite (fmap_app snd), fmap_app in Hk. cbn [fmap list_fmap fst] in Hr1.
  rewrite Hr1. apply NoDup_app in Hi as (Hi & _ & _), Hk as (Hk & Hdk & _). split_and!; try done.
  - intros j x Hx. apply Hv, elem_of_app. by left.
  - intros k j. rewrite lookup_delete_Some, Hm. split.
    + intros [Hne (x & Hx & Hkx)]. exists x. split; [|done].
      apply elem_of_app in Hx as [Hx|Hx]; [done|]. apply list_elem_of_singleton in Hx as [= -> ->]. done.
    + intros (x & Hx & Hkx). split; [|exists x; split; [apply elem_of_app; by left|done]].
      intros Hek. apply (Hdk k); [rewrite <- Hkx; by apply list_elem_of_fmap_2, (list_elem_of_fmap_2 snd _ (j, x))|].
      rewrite <- Hek. by left.
Qed.

Lemma push_represents c l e : represents c l -> ce_key e ∉ ce_key <$> l -> Z.of_nat (length l) < ic_cap c ->
  represents (mkCache (ic_cap c) (<[ce_key e := ic_next c]> (ic_items c)) (ic_next c :: ic_order c)
                (<[ic_next c := e]> (ic_values c)) (S (ic_next c))) (e :: l).
Proof.
  intros [Hc Hs (ps & Ho & -> & Hi & Hk & Hv & Hm)] Hnew Hlen.
  assert (Hfresh : ic_next c ∉ ps.*1).
  { intros ([i x] & Heq & Hin)%list_elem_of_fmap. cbn in Heq. subst i. destruct (Hv _ _ Hin). lia. }
  split; cbn [ic_cap ic_order ic_items ic_values ic_next]; [done|cbn [length]; lia|].
  exists ((ic_next c, e) :: ps). rewrite Ho. cbn [fmap list_fmap fst snd]. split_and!; try done.
  - by constructor.
  - cbn. by constructor.
  - intros i x. rewrite elem_of_cons. intros [[= -> ->]|Hin]; [rewrite lookup_insert_eq; split; [done|lia]|].
    destruct (Hv _ _ Hin) as [Hx Hb]. rewrite lookup_insert_ne by lia. split; [done|lia].
  - intros k i. rewrite lookup_insert_Some, Hm. split.
    + intros [[<- <-]|[Hne (x & Hx & Hkx)]]; [exists e; split; [by left|done]|exists x; split; [by right|done]].
    + intros (x & Hx & Hkx). apply elem_of_cons in Hx as [[= -> ->]|Hx]; [by left|]. right. split; [|by exists x].
      intros Heq. apply Hnew. rewrite Heq, <- Hkx. by apply list_elem_of_fmap_2, (list_elem_of_fmap_2 snd _ (i, x)).
Qed.

Lemma without_length k l e : holds k l = Some e -> (length (without k l) < length l)%nat.
Proof.
  intros H. apply find_some in H as [Hin He%bool_decide_eq_true].
  eapply length_filter_lt; [by apply list_elem_of_In|cbn; tauto].
Qed.

Lemma Put_refines c l e : represents c l ->
  ic_cap (Put c (ce_key e) e) = ic_cap c /\ represents (Put c (ce_key e) e) (lru_put (Z.to_nat (ic_cap c)) l e).
Proof.
  intros H. pose proof (items_holds c l (ce_key e) H) as Hk. pose proof (rep_cap _ _ H) as Hc. pose proof (rep_size _ _ H) as Hs.
  unfold Put, lru_put. destruct (ic_items c !! ce_key e) as [i|] eqn:E.
  - destruct Hk as (x & Hh & Hv). split; [done|]. pose proof (without_length _ _ _ Hh).
    rewrite take_ge by lia. by eapply move_represents.
  - pose proof Hk as Hnew. rewrite holds_None in Hnew. rewrite without_id by done.
    assert (Hlen : length (ic_order c) = length l).
    { destruct H as [_ _ (ps & -> & -> & _)]. by rewrite !length_fmap. }
    rewrite Hlen. destruct (Z.geb_spec (Z.of_nat (length l)) (ic_cap c)).
    + destruct l as [|x l _] using rev_ind; [cbn in *; lia|]. rewrite length_app in *. cbn in *.
      rewrite take_app_le, take_ge by lia.
      assert (Hcap : ic_cap (evict c) = ic_cap c) by (unfold evict; by destruct (last (ic_order c))).
      rewrite <- Hcap. split; [done|]. apply push_represents; [by eapply evict_represents| |rewrite Hcap; lia].
      intros Hin. apply Hnew. rewrite fmap_app. apply elem_of_app. by left.
    + rewrite take_ge by lia. split; [done|]. by apply push_represents; [| |lia].
Qed.

(** ** Sequences of operations *)

Inductive cache_op := OpGet (k : string) | OpPut (e : cacheEntry) | OpReset.

Definition op_key (op : cache_op) : option string :=
  match op with OpGet k => Some k | OpPut e => Some (ce_key e) | OpReset => None end.

(** One operation, as the server issues it: an entry is stored under its own key. *)
Definition cache_step (c : idempotencyCache) (op : cache_op) : option cacheEntry * idempotencyCache :=
  match op with
  | OpGet k => Get c k
  | OpPut e => (None, Put c (ce_key e) e)
  | OpReset => (None, Reset_ c)
  end.

Definition lru_step (cap : nat) (l : lru) (op : cache_op) : option cacheEntry * lru :=
  match op with
  | OpGet k => lru_get l k
  | OpPut e => (None, lru_put cap l e)
  | OpReset => (None, [])
  end.

Fixpoint run {S : Type} (stp : S -> cache_op -> option cacheEntry * S) (ops : list cache_op) (s : S)
    : list (option cacheEntry) * S :=
  match ops with
  | [] => ([], s)
  | op :: ops => let '(o, s) := stp s op in let '(os, s) := run stp ops s in (o :: os, s)
  end.

Lemma cache_step_refines c l op : represents c l ->
  let cap := Z.to_nat (ic_cap c) in
  ic_cap (cache_step c op).2 = ic_cap c /\
  (cache_step c op).1 = (lru_step cap l op).1 /\ represents (cache_step c op).2 (lru_step cap l op).2.
Proof.
  intros H cap. destruct op as [k|e|]; cbn [cache_step lru_step fst snd].
  - split; [unfold Get; by destruct (ic_items c !! k)|]. by apply Get_refines.
  - destruct (Put_refines c l e H). done.
  - split_and!; [done..|by eapply Reset_represents].
Qed.

Lemma run_refines ops c l : represents c l ->
  let cap := Z.to_nat (ic_cap c) in
  ic_cap (run cache_step ops c).2 = ic_cap c /\
  (run cache_step ops c).1 = (run (lru_step cap) ops l).1 /\
  represents (run cache_step ops c).2 (run (lru_step cap) ops l).2.
Proof.
  revert c l. induction ops as [|op ops IH]; intros c l H cap; cbn [run]; [done|].
  destruct (cache_step_refines c l op H) as (Hc & Ho & Hr). fold cap in Ho, Hr.
  destruct (cache_step c op) as [o c'], (lru_step cap l op) as [o' l']. cbn [fst snd] in *. subst o'.
  destruct (IH c' l' Hr) as (Hc' & Hos & Hr'). rewrite Hc in *. fold cap in Hos, Hr'.
  destruct (run cache_step ops c'), (run (lru_step cap) ops l'). cbn [fst snd] in *. by subst.
Qed.

(** ** How long an entry stays *)

Section Retention.
Variables (e : cacheEntry) (cap : nat) (T : gset string).
Hypothesis few : (size T < cap)%nat.
Hypothesis other : ce_key e ∉ T.

(** Before [e] come only entries under the keys of [T]. *)
Definition near (l : lru) : Prop :=
  exists pre post, l = pre ++ e :: post /\ NoDup (ce_key <$> pre) /\ forall k, k ∈ ce_key <$> pre -> k ∈ T.

Lemma without_split k pre post : k <> ce_key e -> without k (pre ++ e :: post) = without k pre ++ e :: without k post.
Proof. intros Hk. unfold without. by rewrite filter_app, filter_cons, decide_True by done. Qed.

Lemma push_near k x pre : ce_key x = k -> k ∈ T -> NoDup (ce_key <$> pre) -> (forall i, i ∈ ce_key <$> pre -> i ∈ T) ->
  NoDup (ce_key <$> x :: without k pre) /\ (forall i, i ∈ ce_key <$> x :: without k pre -> i ∈ T) /\
  (length (x :: without k pre) <= size T)%nat.
Proof.
  intros Hx Hk Hnd HT. rewrite fmap_cons, Hx, without_keys.
  assert (Hn : NoDup (k :: filter (fun i => i <> k) (ce_key <$> pre))).
  { constructor; [rewrite list_elem_of_filter; tauto|by apply NoDup_filter]. }
  assert (Hs : forall i, i ∈ k :: filter (fun i => i <> k) (ce_key <$> pre) -> i ∈ T).
  { intros i. rewrite elem_of_cons, list_elem_of_filter. intros [->|[_ Hi]]; [done|by apply HT]. }
  split_and!; [done..|].
  replace (length (x :: without k pre)) with (length (k :: filter (fun i => i <> k) (ce_key <$> pre))).
  2: { rewrite <- without_keys. cbn [length]. by rewrite length_fmap. }
  rewrite <- (size_list_to_set (C := gset string)) by done. apply subseteq_size. intros i.
  rewrite elem_of_list_to_set. apply Hs.
Qed.

Lemma holds_near pre post : (forall k, k ∈ ce_key <$> pre -> k ∈ T) -> holds (ce_key e) (pre ++ e :: post) = Some e.
Proof.
  intros HT. induction pre as [|x pre IH]; unfold holds; cbn [app List.find]; [by rewrite bool_decide_true|].
  rewrite bool_decide_false; [apply IH; intros k Hk; apply HT; by right|].
  intros Hx. apply other. rewrite <- Hx. apply HT. by left.
Qed.

Lemma near_step l op :
  near l -> op <> OpReset -> (forall x, op = OpPut x -> ce_key x <> ce_key e) ->
  (forall k, op_key op = Some k -> k ∈ T \/ k = ce_key e) -> near (lru_step cap l op).2.
Proof.
  intros (pre & post & -> & Hnd & HT) Hr Hp Hk. destruct op as [k|x|]; [| |done]; cbn [lru_step op_key snd] in *.
  - unfold lru_get. destruct (decide (k = ce_key e)) as [->|Hne].
    { rewrite holds_near by done. exists [], (without (ce_key e) (pre ++ e :: post)).
      split_and!; [done|constructor|by intros ? []%elem_of_nil]. }
    destruct (holds k (pre ++ e :: post)) as [x|] eqn:Eh; [|by exists pre, post].
    cbn [snd]. apply find_some in Eh as [_ Hkx%bool_decide_eq_true].
    destruct (Hk k eq_refl) as [HkT|]; [|done].
    destruct (push_near k x pre Hkx HkT Hnd HT) as (Hnd' & HT' & _).
    exists (x :: without k pre), (without k post). split_and!; try done. by rewrite without_split.
  - assert (Hne : ce_key x <> ce_key e) by by apply Hp. destruct (Hk (ce_key x) eq_refl) as [HkT|]; [|done].
    destruct (push_near (ce_key x) x pre eq_refl HkT Hnd HT) as (Hnd' & HT' & Hlen). cbn [length] in Hlen.
    unfold lru_put. rewrite without_split by done. rewrite take_app_ge by lia.
    replace (cap - 1 - length (without (ce_key x) pre))%nat with (S (cap - 2 - length (without (ce_key x) pre))) by lia.
    eexists (x :: without (ce_key x) pre), _. by split_and!.
Qed.

Lemma near_run ops l :
  near l -> OpReset ∉ ops -> (forall x, OpPut x ∈ ops -> ce_key x <> ce_key e) ->
  (forall op k, op ∈ ops -> op_key op = Some k -> k ∈ T \/ k = ce_key e) -> near (run (lru_step cap) ops l).2.
Proof.
  revert l. induction ops as [|op ops IH]; intros l Hl Hr Hp Hk; cbn [run]; [done|].
  apply not_elem_of_cons in Hr as [Hop Hr].
  assert (Hs : near (lru_step cap l op).2).
  { apply near_step; [done|by intros ->|intros x ->; apply Hp; by left|intros k; apply Hk; by left]. }
  destruct (lru_step cap l op) as [o l']. cbn [snd] in Hs.
  specialize (IH l' Hs Hr ltac:(intros x Hx; apply Hp; by right) ltac:(intros op' k Hin; apply Hk; by right)).
  by destruct (run (lru_step cap) ops l').
Qed.
End Retention.

(** The keys, other than [k], that a sequence of operations names. *)
Definition other_keys (k : string) (ops : list cache_op) : gset string := list_to_set (omap op_key ops) ∖ {[k]}.

Lemma retained c l e ops :
  represents c l -> OpReset ∉ ops -> (forall x, OpPut x ∈ ops -> ce_key x <> ce_key e) ->
  Z.of_nat (size (other_keys (ce_key e) ops)) < ic_cap c ->
  (Get (run cache_step ops (Put c (ce_key e) e)).2 (ce_key e)).1 = Some e.
Proof.
  intros H Hr Hp Hfew. destruct (Put_refines c l e H) as [Hcap Hrep].
  destruct (run_refines ops _ _ Hrep) as (Hcap' & _ & Hrep'). rewrite Hcap in *.
  set (cap := Z.to_nat (ic_cap c)) in *. set (T := other_keys (ce_key e) ops) in *.
  rewrite (proj1 (Get_refines _ _ (ce_key e) Hrep')). unfold lru_get.
  destruct (near_run e cap T ltac:(lia) ltac:(unfold T, other_keys; set_solver) ops (lru_put cap l e)) as (pre & post & -> & _ & HT).
  - exists [], (take (cap - 1) (without (ce_key e) l)). split_and!; [done|constructor|by intros ? []%elem_of_nil].
  - done.
  - done.
  - intros op k Hin Hop. destruct (decide (k = ce_key e)); [by right|left]. unfold T, other_keys.
    apply elem_of_difference. split; [|by rewrite elem_of_singleton]. apply elem_of_list_to_set, list_elem_of_omap. eauto.
  - rewrite (holds_near e T) by (done || (unfold T, other_keys; set_solver)). done.
Qed.

(** * Claims *)

(** C20.  The replay cache is a bounded least-recently-used cache.  From a new cache, every
    sequence of lookups, stores and resets answers as the list of entries in order of use
    cut to the capacity does, and never holds more than the capacity.  An entry stored in
    any such state is found, as it was stored, until it is stored over, the cache is reset,
    or as many other keys as the capacity have been named. *)
Theorem cache_lru :
  (forall capacity ops,
     let c := newIdempotencyCache capacity in
     let cap := if capacity <=? 0 then 1024%nat else Z.to_nat capacity in
     (run cache_step ops c).1 = (run (lru_step cap) ops []).1 /\
     Z.of_nat (length (ic_order (run cache_step ops c).2)) <= ic_cap c /\
     (exists l, represents (run cache_step ops c).2 l)) /\
  (forall c l e ops,
     represents c l -> OpReset ∉ ops -> (forall x, OpPut x ∈ ops -> ce_key x <> ce_key e) ->
     Z.of_nat (size (other_keys (ce_key e) ops)) < ic_cap c ->
     (Get (run cache_step ops (Put c (ce_key e) e)).2 (ce_key e)).1 = Some e).
Proof.
  split; [|intros; by eapply retained].
  intros capacity ops c cap. destruct (run_refines ops c [] (new_represents capacity)) as (Hc & Ho & Hr).
  assert (Hcap : Z.to_nat (ic_cap c) = cap) by (unfold c, cap, newIdempotencyCache; by destruct (capacity <=? 0)).
  rewrite Hcap in *. split; [done|]. split; [|by eexists].
  rewrite <- Hc. destruct Hr as [_ Hs (ps & -> & Hl & _)]. rewrite Hl in Hs. by rewrite !length_fmap in *.
Qed.

Definition toy_entry (k : string) : cacheEntry := mkCacheEntry k 200 ("body of " +:+ k) ∅.

(** In a cache of two, an entry survives the traffic of one other key, and not of two. *)
Lemma cache_lru_witness :
  let c := newIdempotencyCache 2 in
  (Get (run cache_step [OpPut (toy_entry "b"); OpGet "b"; OpPut (toy_entry "b")] (Put c "a" (toy_entry "a"))).2 "a").1
    = Some (toy_entry "a") /\
  (Get (run cache_step [OpPut (toy_entry "b"); OpPut (toy_entry "c")] (Put c "a" (toy_entry "a"))).2 "a").1 = None.
Proof.
  intros c. split; [|by vm_compute].
  refine (proj2 cache_lru c [] (toy_entry "a") _ (new_represents 2) _ _ _).
  - rewrite !not_elem_of_cons. split_and!; [discriminate..|by intros []%elem_of_nil].
  - intros x Hx. assert (x = toy_entry "b") as ->; [|discriminate].
    rewrite !elem_of_cons in Hx. by destruct Hx as [[= ->]|[|[[= ->]|[]%elem_of_nil]]].
  - vm_compute. reflexivity.
Defined.
