(* ===== verification/Spec.v ===== *)
(** * Spec: [internal/spec], what the mock server knows of the pinned specification.

    A [Spec] maps operations to their required members; [SpecWalker] reads it from the
    swagger file.  [ValidateBody] is the presence check of [dispatch.go]. *)
From S2P Require Import Prelude GoStd GoCrypto GoHttp Json.

Record Operation := mkOperation {
  op_Method : string; op_Path : string;
  op_RequiredBody : list string; op_RequiredQuery : list string; op_RequiredHeader : list string;
}.

(** [strings.ToUpper] of an HTTP method: a token, so ASCII. *)
Definition ToUpper (s : string) : string := of_chars (map to_upper (chars s)).

Definition OpKey (method path : string) : string := ToUpper method +:+ " " +:+ path.

(** [Spec.Operations] *)
Definition Spec := gmap string Operation.
Definition Op (s : option Spec) (method path : string) : option Operation :=
  match s with Some ops => ops !! OpKey method path | None => None end.

(** ** Decoding into [any]

    [json.Unmarshal] into an [any] reads a document and converts its numbers to
    [float64], failing on one out of range. *)

Definition Unmarshal_any (body : string) : option json :=
  match json_parse body with
  | Some j => if numbers_in_range j then Some j else None
  | None => None
  end.

(** ** Presence *)

(** A nil [any] is [JNull].  Of the members of an object with one name the last counts. *)
Definition childOf (node : json) (key : string) : json :=
  match node with
  | JObj ms => match List.find (fun kv => bool_decide (kv.1 = key)) (rev ms) with Some (_, v) => v | None => JNull end
  | _ => JNull
  end.

Definition is_null (j : json) : bool := match j with JNull => true | _ => false end.

Definition splitPath (p : string) : list string := if is_empty p then [] else split_on "." p.

Definition joinRendered (prefix seg : string) : string :=
  if is_empty prefix then seg
  else match seg with
       | String "[" _ => prefix +:+ seg
       | _ => prefix +:+ "." +:+ seg
       end.

(** [strings.TrimSuffix(seg, "[]")], if the suffix is there. *)
Definition array_segment (seg : string) : option string :=
  match rev (chars seg) with
  | "]"%char :: "["%char :: l => Some (of_chars (rev l))
  | _ => None
  end.

(** The first element for which [f], given its index, reports something. *)
Fixpoint first_missing (f : nat -> json -> string) (idx : nat) (l : list json) : string :=
  match l with
  | [] => ""
  | elem :: l => let missing := f idx elem in if is_empty missing then first_missing f (S idx) l else missing
  end.

(** The index into the segments is the list of those left. *)
Fixpoint descend (node : json) (segs : list string) (rendered : string) : string :=
  match segs with
  | [] => if is_null node then rendered else ""
  | seg :: rest =>
      match array_segment seg with
      | Some propName =>
          match childOf node propName with
          | JArr arr =>
              first_missing (fun idx elem =>
                descend elem rest (joinRendered (joinRendered rendered propName) ("[" +:+ itoa (Z.of_nat idx) +:+ "]"))) 0 arr
          | _ => ""
          end
      | None =>
          let next := childOf node seg in
          let r := joinRendered rendered seg in
          match rest with
          | [] => if is_null next then r else ""
          | _ => if is_null next then "" else descend next rest r
          end
      end
  end.

Definition findMissing (doc : json) (path : string) : string := descend doc (splitPath path) "".

(** The first missing path, [""] for none; an error for a body that is not JSON. *)
Definition ValidateBody (body : string) (required : list string) : option string :=
  match required with
  | [] => Some ""
  | _ =>
      match Unmarshal_any body with
      | None => None
      | Some doc => Some (default "" (List.find (fun m => negb (is_empty m)) (map (findMissing doc) required)))
      end
  end.

(** * Lemmas *)

(** What a required path asks of a document: that the member at its end is there, in every
    element of the arrays on the way; a parent that is absent asks nothing. *)
Fixpoint satisfied (node : json) (segs : list string) : Prop :=
  match segs with
  | [] => node <> JNull
  | seg :: rest =>
      match array_segment seg with
      | Some propName => forall arr elem, childOf node propName = JArr arr -> elem ∈ arr -> satisfied elem rest
      | None => if decide (rest = []) then childOf node seg <> JNull
                else childOf node seg <> JNull -> satisfied (childOf node seg) rest
      end
  end.

Lemma is_null_false j : is_null j = false <-> j <> JNull.
Proof. by destruct j. Qed.

Lemma first_missing_nil f i l :
  first_missing f i l = "" <-> forall k elem, l !! k = Some elem -> f (i + k)%nat elem = "".
Proof.
  revert i. induction l as [|x l IH]; intros i; cbn [first_missing].
  - split; [intros _ k elem Hk; by rewrite lookup_nil in Hk|done].
  - destruct (is_empty (f i x)) eqn:E.
    + apply is_empty_true in E. rewrite IH. split.
      * intros Hl [|k] elem Hk; [injection Hk as <-; by rewrite Nat.add_0_r|]. specialize (Hl k elem Hk). by rewrite Nat.add_succ_r.
      * intros Hl k elem Hk. specialize (Hl (S k) elem Hk). by rewrite Nat.add_succ_r in Hl.
    + apply is_empty_false in E. split; [done|]. intros Hl. specialize (Hl 0%nat x eq_refl). by rewrite Nat.add_0_r in Hl.
Qed.

Lemma joinRendered_nonempty prefix seg : seg <> "" -> joinRendered prefix seg <> "".
Proof.
  intros Hs. unfold joinRendered. destruct (is_empty prefix) eqn:E; [done|]. apply is_empty_false in E.
  destruct prefix as [|c p]; [done|]. destruct seg as [|[[] [] [] [] [] [] [] []] seg]; discriminate.
Qed.

(** The check finds nothing exactly in the documents that satisfy the path. *)
Lemma descend_satisfied segs node rendered :
  Forall (fun s => s <> "") segs -> segs <> [] \/ rendered <> "" ->
  descend node segs rendered = "" <-> satisfied node segs.
Proof.
  revert node rendered. induction segs as [|seg rest IH]; intros node rendered Hs Hr; cbn [descend satisfied].
  - destruct Hr as [|Hr]; [done|]. rewrite <- is_null_false. by destruct (is_null node).
  - apply Forall_cons in Hs as [Hseg Hs]. destruct (array_segment seg) as [prop|].
    + destruct (childOf node prop) as [| | | |arr|]; try (split; [by intros _ ? ? [=]|done]).
      rewrite first_missing_nil. split.
      * intros Hall arr' elem [= <-] [k Hk]%list_elem_of_lookup.
        eapply IH; [done| |by apply (Hall k)]. right. by apply joinRendered_nonempty.
      * intros Hall k elem Hk. apply IH; [done|right; by apply joinRendered_nonempty|].
        eapply Hall; [done|]. by eapply list_elem_of_lookup_2.
    + pose proof (joinRendered_nonempty rendered seg Hseg) as Hj. destruct rest as [|seg' rest'].
      * rewrite decide_True by done. rewrite <- is_null_false. by destruct (is_null (childOf node seg)).
      * rewrite decide_False by done. destruct (is_null (childOf node seg)) eqn:En.
        -- split; [|done]. intros _ Hn. apply is_null_false in Hn. congruence.
        -- apply is_null_false in En. rewrite IH by (done || (by left)). tauto.
Qed.

Example nested_path :
  ValidateBody (json_print (JObj [("subOrders", JArr [JObj [("id", JNum "1")]; JObj []])])) ["subOrders[].id"]
  = Some "subOrders[1].id".
Proof. by vm_compute. Qed.
