(* ===== verification/SpecWalker.v ===== *)
(** * SpecWalker: how [internal/spec] reads the pinned specification ([walker.go],
    [spec.go]).

    The YAML parser yields a tree of nodes; reading the file, parsing it and listing its
    directory are parameters.  [collectRequired] walks a schema, following references,
    and gathers the paths of the members it requires; its recursion is bounded by the
    depth the code counts, which is the fuel here.  The specification is the relation
    [requires]. *)
From S2P Require Import Prelude GoStd Errors GoCrypto GoHttp Json Spec.

(** ** Nodes ([yaml.Node]) *)

Inductive node_kind := DocumentNode | SequenceNode | MappingNode | ScalarNode | AliasNode.

(** A mapping has its keys and values in turn. *)
Inductive node := mkNode (kind : node_kind) (value : string) (content : list node).
Definition n_Kind (n : node) : node_kind := let 'mkNode k _ _ := n in k.
Definition n_Value (n : node) : string := let 'mkNode _ v _ := n in v.
Definition n_Content (n : node) : list node := let 'mkNode _ _ c := n in c.

#[export] Instance node_kind_eq_dec : EqDecision node_kind.
Proof. solve_decision. Defined.

(** [for i := 0; i < len(c); i += 2]: the keys and values of a mapping, in order. *)
Fixpoint pairs (content : list node) : list (node * node) :=
  match content with
  | k :: v :: content => (k, v) :: pairs content
  | _ => []
  end.

Definition find_key (key : string) (content : list node) : option node :=
  option_map snd (List.find (fun kv => bool_decide (n_Value kv.1 = key)) (pairs content)).

Definition mappingChild (n : option node) (key : string) : option node :=
  match n with
  | None => None
  | Some n =>
      let n := match n_Kind n, n_Content n with DocumentNode, c :: _ => c | _, _ => n end in
      match n_Kind n with MappingNode => find_key key (n_Content n) | _ => None end
  end.

Definition scalarChild (n : option node) (key : string) : string :=
  match mappingChild n key with
  | Some v => if bool_decide (n_Kind v = ScalarNode) then n_Value v else ""
  | None => ""
  end.

Fixpoint firstMappingChild (n : option node) (keys : list string) : option node :=
  match keys with
  | [] => None
  | key :: keys => match mappingChild n key with Some child => Some child | None => firstMappingChild n keys end
  end.

(** The parsed document; [Paths] in the order the map is ranged over. *)
Record components := mkComponents { RequestBodies : gmap string node; Schemas : gmap string node }.
Record rawSpec := mkRawSpec { raw_Paths : list (string * node); raw_Components : components }.

(** ** Strings *)

Definition TrimPrefix (s prefix : string) : string :=
  if String.prefix prefix s then String.substring (String.length prefix) (String.length s - String.length prefix) s else s.

(** Both branches of the source are the same. *)
Definition joinPath (prefix name : string) : string := if is_empty prefix then name else prefix +:+ "." +:+ name.

(** [a] in the order of [a]. *)
Definition intersectPaths (a b : list string) : list string :=
  let set : gset string := list_to_set b in filter (fun p => p ∈ set) a.

(** The inner loop of [stableSort]: sift the element at [j] down. *)
Fixpoint sift (s : list string) (j : nat) : list string :=
  match j with
  | 0%nat => s
  | S j' =>
      match s !! j', s !! j with
      | Some a, Some b => if decide (String.le a b) then s else sift (<[j' := b]> (<[j := a]> s)) j'
      | _, _ => s
      end
  end.
Definition stableSort (s : list string) : list string := fold_left sift (seq 1 (length s - 1)) s.

(** ** The walk over a schema *)

(** [#/components/schemas/Name] and [#/components/requestBodies/Name] only. *)
Definition resolveRef (s : components) (ref : string) : option node :=
  if String.prefix "#/components/schemas/" ref then Schemas s !! TrimPrefix ref "#/components/schemas/"
  else if String.prefix "#/components/requestBodies/" ref
  then RequestBodies s !! TrimPrefix ref "#/components/requestBodies/"
  else None.

(** The node itself, or the one it refers to; one hop. *)
Definition deref (s : components) (n : node) : option node :=
  let ref := scalarChild (Some n) "$ref" in
  if is_empty ref then Some n else resolveRef s ref.

(** The paths collected, and the set of them. *)
Definition collected : Type := list string * gset string.

Definition add_path (st : collected) (path : string) : collected :=
  let '(out, seen) := st in
  if decide (path ∈ seen) then st else (out ++ [path], {[path]} ∪ seen).

Definition children (k : node_kind) (n : option node) : list node :=
  match n with
  | Some n => if decide (n_Kind n = k) then n_Content n else []
  | None => []
  end.

Section Steps.
Variable walk : node -> string -> collected -> collected.   (* the recursive call *)

Definition branch_paths (child : node) (prefix : string) : list string := (walk child prefix ([], ∅)).1.

(** [oneOf] or [anyOf]: what every branch requires. *)
Definition collect_combo (n : node) (prefix : string) (st : collected) : collected :=
  match children SequenceNode (firstMappingChild (Some n) ["oneOf"; "anyOf"]) with
  | [] => st
  | child :: rest =>
      let inter := fold_left (fun inter child => intersectPaths inter (branch_paths child prefix)) rest (branch_paths child prefix) in
      fold_left add_path inter st
  end.

Definition collect_allOf (n : node) (prefix : string) (st : collected) : collected :=
  fold_left (fun st child => walk child prefix st) (children SequenceNode (mappingChild (Some n) "allOf")) st.

Definition collect_required (n : node) (prefix : string) (st : collected) : collected :=
  fold_left (fun st name => add_path st (joinPath prefix (n_Value name)))
    (children SequenceNode (mappingChild (Some n) "required")) st.

Definition collect_properties (n : node) (prefix : string) (st : collected) : collected :=
  fold_left (fun st kv => walk kv.2 (joinPath prefix (n_Value kv.1)) st)
    (pairs (children MappingNode (mappingChild (Some n) "properties"))) st.

Definition collect_items (n : node) (prefix : string) (st : collected) : collected :=
  if bool_decide (scalarChild (Some n) "type" = "array") then
    match mappingChild (Some n) "items" with
    | Some items => walk items (prefix +:+ "[]") st
    | None => st
    end
  else st.

Definition collect_node (n : node) (prefix : string) (st : collected) : collected :=
  collect_items n prefix (collect_properties n prefix (collect_required n prefix
    (collect_allOf n prefix (collect_combo n prefix st)))).
End Steps.

(** [levels] is how many the depth bound leaves, this one included. *)
Fixpoint collectRequired (s : components) (levels : nat) (n : node) (prefix : string) (st : collected) : collected :=
  match levels with
  | 0%nat => st
  | S levels =>
      match deref s n with
      | None => st
      | Some n => collect_node (collectRequired s levels) n prefix st
      end
  end.

Definition maxDepth : nat := 12.

(** ** Operations *)

(** [None] for a body without a JSON schema. *)
Definition bodySchema (s : components) (body : node) : res (option node) :=
  let ref := scalarChild (Some body) "$ref" in
  let* body :=
    (if is_empty ref then Ok body
     else match RequestBodies s !! TrimPrefix ref "#/components/requestBodies/" with
          | Some rb => Ok rb
          | None => Err (EErrorf "$ref %q: requestBody not found in components" [AStr ref])
          end) in
  Ok (mappingChild (mappingChild (mappingChild (Some body) "content") "application/json") "schema").

(** The names of the required parameters at [loc]. *)
Definition parameter (loc : string) (p : node) : option string :=
  let name := scalarChild (Some p) "name" in
  if negb (bool_decide (scalarChild (Some p) "required" = "true")) || is_empty name then None
  else if bool_decide (scalarChild (Some p) "in" = loc) then Some name else None.

Definition parameters (opNode : node) : list node :=
  match mappingChild (Some opNode) "parameters" with Some params => n_Content params | None => [] end.

Definition parseOperation (s : components) (method path : string) (opNode : node) : res Operation :=
  let query := omap (parameter "query") (parameters opNode) in
  let header := filter (fun name => name <> "Authorization") (omap (parameter "header") (parameters opNode)) in
  let* body :=
    (match mappingChild (Some opNode) "requestBody" with
     | None => Ok []
     | Some body =>
         match bodySchema s body with
         | Err err => Err (EErrorf "requestBody: %w" [AWrap err])
         | Ok None => Ok []
         | Ok (Some schema) => Ok (collectRequired s (S maxDepth) schema "" ([], ∅)).1
         end
     end) in
  Ok (mkOperation method path (stableSort body) (stableSort query) (stableSort header)).

Definition is_method (method : string) : bool := bool_decide (method ∈ ["GET"; "POST"; "PUT"; "DELETE"; "PATCH"]).

(** [s.Operations] as the map it is. *)
Definition walk_method (s : components) (path : string) (ops : res (gmap string Operation)) (kv : node * node)
    : res (gmap string Operation) :=
  let* ops := ops in
  let method := ToUpper (n_Value kv.1) in
  if is_method method then
    match parseOperation s method path kv.2 with
    | Err err => Err (EErrorf "%s %s: %w" [AStr method; AStr path; AWrap err])
    | Ok op => Ok (<[OpKey method path := op]> ops)
    end
  else Ok ops.

Definition walk_path (s : components) (ops : res (gmap string Operation)) (p : string * node) : res (gmap string Operation) :=
  match n_Kind p.2 with
  | MappingNode => fold_left (walk_method s p.1) (pairs (n_Content p.2)) ops
  | _ => ops
  end.

Definition walk (s : rawSpec) : res (gmap string Operation) := fold_left (walk_path (raw_Components s)) (raw_Paths s) (Ok ∅).

(** ** Loading ([spec.go]) *)

(** The keys of the map, in the order it is ranged over. *)
Definition Endpoints (s : option Spec) : list string :=
  match s with Some ops => stableSort (map_to_list ops).*1 | None => [] end.

Section Load.
Variable filepath_Abs : string -> res string.
Variable os_ReadFile : string -> res string.
Variable yaml_Unmarshal : string -> res rawSpec.
Variable os_ReadDir : string -> res (list (string * bool)).   (* name, is a directory *)
Variable testdata_dir : res string.                            (* beside the source file *)
Variable filepath_Join : string -> string -> string.

Definition Load (path : string) : res Spec :=
  match filepath_Abs path with
  | Err err => Err (EErrorf "specserver: resolve %q: %w" [AStr path; AWrap err])
  | Ok abs =>
      match os_ReadFile abs with
      | Err err => Err (EErrorf "specserver: read %q: %w" [AStr abs; AWrap err])
      | Ok data =>
          match yaml_Unmarshal data with
          | Err err => Err (EErrorf "specserver: parse %q: %w" [AStr abs; AWrap err])
          | Ok raw =>
              if bool_decide (raw_Paths raw = [])
              then Err (EErrorf "specserver: %q: no paths section (not an OpenAPI document?)" [AStr abs])
              else match walk raw with
                   | Err err => Err (EErrorf "specserver: walk %q: %w" [AStr abs; AWrap err])
                   | Ok ops => Ok ops
                   end
          end
      end
  end.

Definition has_suffix (s suffix : string) : bool :=
  bool_decide (drop (String.length s - String.length suffix) (chars s) = chars suffix).

Definition is_swagger (e : string * bool) : bool :=
  negb e.2 && String.prefix "swagger-" e.1 && (has_suffix e.1 ".yaml" || has_suffix e.1 ".yml").

(** The one swagger file of the directory. *)
Definition pick (dir : string) (pinned : res string) (e : string * bool) : res string :=
  let* pinned := pinned in
  if is_swagger e then
    if is_empty pinned then Ok e.1
    else Err (EErrorf "specserver: multiple pinned swagger files in %q (have %q and %q); ship exactly one" [AStr dir; AStr pinned; AStr e.1])
  else Ok pinned.

Definition LoadDefault : res Spec :=
  let* dir := testdata_dir in
  match os_ReadDir dir with
  | Err err => Err (EErrorf "specserver: read testdata dir %q: %w" [AStr dir; AWrap err])
  | Ok entries =>
      let* pinned := fold_left (pick dir) entries (Ok "") in
      if is_empty pinned then Err (EErrorf "specserver: no pinned swagger-*.yaml in %q" [AStr dir])
      else Load (filepath_Join dir pinned)
  end.

Definition PinnedPath : res string :=
  let* dir := testdata_dir in
  match os_ReadDir dir with
  | Err err => Err (EErrorf "specserver: read testdata dir %q: %w" [AStr dir; AWrap err])
  | Ok entries =>
      match List.find is_swagger entries with
      | Some e => Ok (filepath_Join dir e.1)
      | None => Err (EErrorf "specserver: no pinned swagger-*.yaml in %q" [AStr dir])
      end
  end.
End Load.

(** * Lemmas *)

(** ** [stableSort] sorts *)

Lemma sift_inserts l x r : StronglySorted String.le l ->
  exists l1 l2, l = l1 ++ l2 /\ sift (l ++ x :: r) (length l) = (l1 ++ x :: l2) ++ r /\
    StronglySorted String.le (l1 ++ x :: l2).
Proof.
  revert r. induction l as [|a l IH] using rev_ind; intros r Hs.
  - exists [], []. split_and!; [done|done|]. repeat constructor.
  - assert (Ha : forall y, y ∈ l -> String.le y a).
    { intros y Hy. eapply (StronglySorted_app_1_elem_of _ l [a]); [done|done|by left]. }
    assert (Hl : StronglySorted String.le l) by (by eapply StronglySorted_app_1_l).
    rewrite length_app, Nat.add_1_r. cbn [sift].
    rewrite <- app_assoc. cbn [app].
    rewrite (list_lookup_middle l (x :: r) a) by done.
    replace (l ++ a :: x :: r) with ((l ++ [a]) ++ x :: r) by (by rewrite <- app_assoc).
    rewrite (list_lookup_middle (l ++ [a]) r x) by (rewrite length_app, Nat.add_1_r; done).
    destruct (decide (String.le a x)) as [Hle|Hgt].
    + exists (l ++ [a]), []. split_and!; [by rewrite app_nil_r|by rewrite <- !app_assoc|].
      apply StronglySorted_app_2; [|done|repeat constructor]. intros y z Hy ->%list_elem_of_singleton.
      apply elem_of_app in Hy as [Hy| ->%list_elem_of_singleton]; [|done]. etrans; [by apply Ha|done].
    + rewrite <- app_assoc. cbn [app].
      replace (<[length l:=x]> (<[S (length l):=a]> (l ++ a :: x :: r))) with (l ++ x :: a :: r).
      2: { rewrite insert_app_r_alt by lia. replace (S (length l) - length l)%nat with 1%nat by lia. cbn.
           rewrite insert_app_r_alt by lia. by rewrite Nat.sub_diag. }
      destruct (IH (a :: r) Hl) as (l1 & l2 & -> & -> & Hs'). exists l1, (l2 ++ [a]).
      split_and!; [by rewrite <- app_assoc| |].
      * rewrite <- !app_assoc. cbn [app]. by rewrite <- app_assoc.
      * change (l1 ++ x :: l2 ++ [a]) with (l1 ++ (x :: l2) ++ [a]). rewrite app_assoc.
        apply StronglySorted_app_2; [|done|repeat constructor]. intros y z Hy ->%list_elem_of_singleton.
        assert (Hx : String.le x a) by (destruct (total String.le x a); [done|contradiction]).
        apply elem_of_app in Hy as [Hy|Hy]; [apply Ha; set_solver|].
        apply elem_of_cons in Hy as [->|Hy]; [done|apply Ha; set_solver].
Qed.

Lemma fold_sift l r : StronglySorted String.le l -> l <> [] ->
  fold_left sift (seq (length l) (length r)) (l ++ r) ≡ₚ l ++ r /\
  StronglySorted String.le (fold_left sift (seq (length l) (length r)) (l ++ r)).
Proof.
  revert l. induction r as [|x r IH]; intros l Hs Hne; cbn [length seq fold_left].
  - rewrite app_nil_r. by split.
  - destruct (sift_inserts l x r Hs) as (l1 & l2 & -> & -> & Hs').
    replace (S (length (l1 ++ l2))) with (length (l1 ++ x :: l2)) by (rewrite !length_app; cbn; lia).
    destruct (IH (l1 ++ x :: l2) Hs') as [Hp Hq]; [by destruct l1|]. split; [|done].
    rewrite Hp, <- !app_assoc. apply Permutation_app_head, Permutation_middle.
Qed.

(** The insertion sort in place is the sort of [Prelude]. *)
Lemma stableSort_sorts s : stableSort s = sort_strings s.
Proof.
  unfold stableSort. destruct s as [|x s]; [done|]. cbn [length].
  replace (S (length s) - 1)%nat with (length s) by lia.
  destruct (fold_sift [x] s) as [Hp Hs]; [repeat constructor|done|]. cbn [length app] in *.
  apply (StronglySorted_unique String.le); [done|apply sort_strings_sorted|]. by rewrite Hp, sort_strings_perm.
Qed.

Lemma elem_of_stableSort p s : p ∈ stableSort s <-> p ∈ s.
Proof. by rewrite stableSort_sorts, sort_strings_perm. Qed.

(** ** Collecting *)

Definition st_ok (st : collected) : Prop := NoDup st.1 /\ forall p, p ∈ st.2 <-> p ∈ st.1.

(** A step that adds the paths of [P], each once. *)
Definition adds (f : collected -> collected) (P : string -> Prop) : Prop :=
  forall st, st_ok st -> st_ok (f st) /\ forall p, p ∈ (f st).1 <-> p ∈ st.1 \/ P p.

Lemma adds_nothing : adds (fun st => st) (fun _ => False).
Proof. intros st Hst. split; [done|]. tauto. Qed.

Lemma adds_ext f P Q : (forall p, P p <-> Q p) -> adds f P -> adds f Q.
Proof. intros He Hf st Hst. destruct (Hf st Hst) as [Ho Hp]. split; [done|]. intros p. by rewrite Hp, He. Qed.

Lemma adds_comp f g P Q : adds f P -> adds g Q -> adds (fun st => g (f st)) (fun p => P p \/ Q p).
Proof.
  intros Hf Hg st Hst. destruct (Hf st Hst) as [Ho Hp], (Hg (f st) Ho) as [Ho' Hq]. split; [done|].
  intros p. rewrite Hq, Hp. tauto.
Qed.

Lemma adds_path path : adds (fun st => add_path st path) (fun p => p = path).
Proof.
  intros [out seen] [Hn Hs]. cbn in *. unfold add_path. destruct (decide (path ∈ seen)) as [Hin|Hin]; cbn.
  - split; [done|]. intros p. split; [tauto|intros [| ->]; [done|by apply Hs]].
  - split; [split; cbn|].
    + apply NoDup_app. split_and!; [done| |apply NoDup_singleton]. intros x Hx ->%list_elem_of_singleton. by apply Hin, Hs.
    + intros p. rewrite elem_of_union, elem_of_singleton, elem_of_app, list_elem_of_singleton, Hs. tauto.
    + intros p. by rewrite elem_of_app, list_elem_of_singleton.
Qed.

Lemma adds_fold {A} (f : collected -> A -> collected) (P : A -> string -> Prop) l :
  (forall x, x ∈ l -> adds (fun st => f st x) (P x)) ->
  adds (fun st => fold_left f l st) (fun p => exists x, x ∈ l /\ P x p).
Proof.
  induction l as [|x l IH]; intros Hl; cbn [fold_left].
  - eapply adds_ext; [|apply adds_nothing]. intros p. split; [done|]. by intros (x & []%elem_of_nil & _).
  - eapply adds_ext; [|apply (adds_comp _ (fun st => fold_left f l st)); [apply Hl; by left|apply IH; intros y Hy; apply Hl; by right]].
    intros p. split.
    + intros [Hp|(y & Hy & Hp)]; [exists x; split; [by left|done]|exists y; split; [by right|done]].
    + intros (y & [->|Hy]%elem_of_cons & Hp); [by left|right; by exists y].
Qed.

(** *** What a schema requires

    A member is required when the schema, or the one it refers to, requires it in every
    branch of a choice, in some part of a conjunction, by name, in a property, or in the
    elements of an array. *)
Definition choices (n : node) : list node := children SequenceNode (firstMappingChild (Some n) ["oneOf"; "anyOf"]).
Definition parts (n : node) : list node := children SequenceNode (mappingChild (Some n) "allOf").
Definition required_names (n : node) : list node := children SequenceNode (mappingChild (Some n) "required").
Definition properties (n : node) : list (node * node) := pairs (children MappingNode (mappingChild (Some n) "properties")).
Definition items (n : node) : option node :=
  if bool_decide (scalarChild (Some n) "type" = "array") then mappingChild (Some n) "items" else None.

Inductive requires (s : components) : nat -> node -> string -> string -> Prop :=
| requires_choice levels n n' prefix path :
    deref s n = Some n' -> choices n' <> [] ->
    (forall child, child ∈ choices n' -> requires s levels child prefix path) ->
    requires s (S levels) n prefix path
| requires_part levels n n' child prefix path :
    deref s n = Some n' -> child ∈ parts n' -> requires s levels child prefix path ->
    requires s (S levels) n prefix path
| requires_name levels n n' name prefix :
    deref s n = Some n' -> name ∈ required_names n' ->
    requires s (S levels) n prefix (joinPath prefix (n_Value name))
| requires_property levels n n' name child prefix path :
    deref s n = Some n' -> (name, child) ∈ properties n' ->
    requires s levels child (joinPath prefix (n_Value name)) path ->
    requires s (S levels) n prefix path
| requires_item levels n n' child prefix path :
    deref s n = Some n' -> items n' = Some child -> requires s levels child (prefix +:+ "[]") path ->
    requires s (S levels) n prefix path.

(** Deeper walks require more. *)
Lemma requires_deeper s levels levels' n prefix path :
  (levels <= levels')%nat -> requires s levels n prefix path -> requires s levels' n prefix path.
Proof.
  intros Hle H. revert levels' Hle. induction H; intros [|levels'] Hle; try lia.
  - eapply requires_choice; eauto with lia.
  - eapply requires_part; eauto with lia.
  - by eapply requires_name.
  - eapply requires_property; eauto with lia.
  - eapply requires_item; eauto with lia.
Qed.

Lemma st_ok_empty : st_ok ([], ∅).
Proof. split; [constructor|]. intros p. cbn. by rewrite elem_of_empty, elem_of_nil. Qed.

Lemma elem_of_intersectPaths a b p : p ∈ intersectPaths a b <-> p ∈ a /\ p ∈ b.
Proof. unfold intersectPaths. cbv zeta. rewrite list_elem_of_filter, elem_of_list_to_set. tauto. Qed.

Lemma elem_of_intersection (f : node -> list string) l a p :
  p ∈ fold_left (fun inter child => intersectPaths inter (f child)) l a <-> p ∈ a /\ forall child, child ∈ l -> p ∈ f child.
Proof.
  revert a. induction l as [|x l IH]; intros a; cbn [fold_left].
  - split; [|by intros []]. intros Ha. split; [done|]. by intros ? []%elem_of_nil.
  - rewrite IH, elem_of_intersectPaths. split.
    + intros [[Ha Hx] Hl]. split; [done|]. intros c [->|Hc]%elem_of_cons; [done|by apply Hl].
    + intros [Ha Hl]. split_and!; [done|apply Hl; by left|intros c Hc; apply Hl; by right].
Qed.

Section Steps.
Variables (walk : node -> string -> collected -> collected) (P : node -> string -> string -> Prop).
Hypothesis walk_adds : forall n prefix, adds (walk n prefix) (P n prefix).

Lemma elem_of_branch child prefix p : p ∈ branch_paths walk child prefix <-> P child prefix p.
Proof.
  unfold branch_paths. destruct (walk_adds child prefix _ st_ok_empty) as [_ ->]. cbn.
  rewrite elem_of_nil. tauto.
Qed.

Lemma combo_adds n prefix : adds (collect_combo walk n prefix)
  (fun p => choices n <> [] /\ forall child, child ∈ choices n -> P child prefix p).
Proof.
  unfold collect_combo. fold (choices n). destruct (choices n) as [|child rest].
  - eapply adds_ext; [|apply adds_nothing]. intros p. split; [done|by intros []].
  - eapply adds_ext; [|apply (adds_fold add_path (fun path p => p = path)); intros path _; apply adds_path].
    intros p. split.
    + intros (x & [Hb Hr]%elem_of_intersection & ->). split; [done|].
      intros c [->|Hc]%elem_of_cons; apply elem_of_branch; [done|by apply Hr].
    + intros [_ Hc]. exists p. split; [|done]. apply elem_of_intersection. split; [apply elem_of_branch, Hc; by left|].
      intros c Hin. apply elem_of_branch, Hc. by right.
Qed.

Lemma allOf_adds n prefix : adds (collect_allOf walk n prefix) (fun p => exists child, child ∈ parts n /\ P child prefix p).
Proof. apply (adds_fold (fun st child => walk child prefix st)). intros x _. apply walk_adds. Qed.

Lemma required_adds n prefix : adds (collect_required n prefix)
  (fun p => exists name, name ∈ required_names n /\ p = joinPath prefix (n_Value name)).
Proof. apply (adds_fold (fun st name => add_path st (joinPath prefix (n_Value name)))). intros x _. apply adds_path. Qed.

Lemma properties_adds n prefix : adds (collect_properties walk n prefix)
  (fun p => exists kv, kv ∈ properties n /\ P kv.2 (joinPath prefix (n_Value kv.1)) p).
Proof. apply (adds_fold (fun st kv => walk kv.2 (joinPath prefix (n_Value kv.1)) st)). intros x _. apply walk_adds. Qed.

Lemma items_adds n prefix : adds (collect_items walk n prefix)
  (fun p => exists child, items n = Some child /\ P child (prefix +:+ "[]") p).
Proof.
  unfold collect_items, items. destruct (bool_decide _); [destruct (mappingChild _ _) as [child|]|].
  - eapply adds_ext; [|apply walk_adds]. intros p. split; [intros H; by exists child|by intros (c & [= <-] & H)].
  - eapply adds_ext; [|apply adds_nothing]. intros p. split; [done|by intros (c & [=] & _)].
  - eapply adds_ext; [|apply adds_nothing]. intros p. split; [done|by intros (c & [=] & _)].
Qed.
End Steps.

(** The walk collects exactly what the schema requires, each path once. *)
Lemma collectRequired_adds s levels n prefix :
  adds (collectRequired s levels n prefix) (requires s levels n prefix).
Proof.
  revert n prefix. induction levels as [|levels IH]; intros n prefix; cbn [collectRequired].
  - eapply adds_ext; [|apply adds_nothing]. intros p. split; [done|]. intros H. inversion H.
  - destruct (deref s n) as [n'|] eqn:En.
    2: { eapply adds_ext; [|apply adds_nothing]. intros p. split; [done|]. intros H. inversion H; congruence. }
    unfold collect_node. eapply adds_ext; [|repeat first
      [ apply (adds_comp _ (collect_items _ n' prefix)); [|by apply items_adds]
      | apply (adds_comp _ (collect_properties _ n' prefix)); [|by apply properties_adds]
      | apply (adds_comp _ (collect_required n' prefix)); [|by apply required_adds]
      | apply (adds_comp _ (collect_allOf _ n' prefix)); [by apply combo_adds|by apply allOf_adds]]].
    intros p. split.
    + intros [[[[[Hne Hc]|(c & Hc & Hp)]|(name & Hn & ->)]|([k c] & Hkv & Hp)]|(c & Hc & Hp)].
      * by eapply requires_choice.
      * by eapply requires_part.
      * by eapply requires_name.
      * by eapply requires_property.
      * by eapply requires_item.
    + intros H. inversion H; subst; simplify_eq; eauto 12.
Qed.

(** ** Operations *)

(** The schema of an operation's JSON body. *)
Definition body_schema (s : components) (opNode : node) : option node :=
  match mappingChild (Some opNode) "requestBody" with
  | Some body => match bodySchema s body with Ok schema => schema | Err _ => None end
  | None => None
  end.

(** The parameters an operation requires at [loc]. *)
Definition requires_parameter (opNode : node) (loc name : string) : Prop :=
  name <> "" /\ exists p, p ∈ parameters opNode /\ scalarChild (Some p) "required" = "true" /\
    scalarChild (Some p) "in" = loc /\ scalarChild (Some p) "name" = name.

(** What an operation that was parsed from a node records. *)
Record operation_of (s : components) (opNode : node) (op : Operation) : Prop := {
  of_body_sorted : StronglySorted String.le (op_RequiredBody op);
  of_body_once : NoDup (op_RequiredBody op);
  of_body : forall p, p ∈ op_RequiredBody op <->
    exists schema, body_schema s opNode = Some schema /\ requires s (S maxDepth) schema "" p;
  of_query_sorted : StronglySorted String.le (op_RequiredQuery op);
  of_query : forall name, name ∈ op_RequiredQuery op <-> requires_parameter opNode "query" name;
  of_header_sorted : StronglySorted String.le (op_RequiredHeader op);
  of_header : forall name, name ∈ op_RequiredHeader op <->
    requires_parameter opNode "header" name /\ name <> "Authorization";
}.

Lemma elem_of_parameters opNode loc name :
  name ∈ omap (parameter loc) (parameters opNode) <-> requires_parameter opNode loc name.
Proof.
  rewrite list_elem_of_omap. unfold requires_parameter, parameter. split.
  - intros (p & Hp & Hx). case_match eqn:E; [done|]. to_prop.
    case_bool_decide as Hl; [|done]. injection Hx as <-. split; [tauto|]. exists p. tauto.
  - intros [Hne (p & Hp & Hr & Hl & Hn)]. exists p. split; [done|]. rewrite Hr, Hl, Hn.
    rewrite (proj2 (is_empty_false name) Hne). by rewrite !bool_decide_true by done.
Qed.

Lemma sorted_stableSort l : StronglySorted String.le (stableSort l).
Proof. rewrite stableSort_sorts. apply sort_strings_sorted. Qed.

Lemma parseOperation_of s method path opNode op :
  parseOperation s method path opNode = Ok op -> operation_of s opNode op.
Proof.
  unfold parseOperation. intros H.
  assert (Hb : exists body, NoDup body /\
    (forall p, p ∈ body <-> exists schema, body_schema s opNode = Some schema /\ requires s (S maxDepth) schema "" p) /\
    op = mkOperation method path (stableSort body) (stableSort (omap (parameter "query") (parameters opNode)))
      (stableSort (filter (fun name => name <> "Authorization") (omap (parameter "header") (parameters opNode))))).
  { unfold body_schema. destruct (mappingChild (Some opNode) "requestBody") as [body|]; cbn [result_bind] in H.
    - destruct (bodySchema s body) as [[schema|]|]; [| |done]; cbn [result_bind] in H; injection H as <-.
      + destruct (collectRequired_adds s (S maxDepth) schema "" _ st_ok_empty) as [[Hn _] Hp].
        eexists. split; [exact Hn|]. split; [|done]. intros p. rewrite Hp. cbn. split.
        * intros [[]%elem_of_nil|Hr]. by exists schema.
        * intros (? & [= <-] & Hr). by right.
      + exists []. split; [constructor|]. split; [|done]. intros p. split; [by intros []%elem_of_nil|by intros (? & [=] & _)].
    - injection H as <-. exists []. split; [constructor|]. split; [|done]. intros p.
      split; [by intros []%elem_of_nil|by intros (? & [=] & _)]. }
  destruct Hb as (body & Hn & Hp & ->).
  split; cbn; try apply sorted_stableSort.
  - by rewrite stableSort_sorts, sort_strings_perm.
  - intros p. by rewrite elem_of_stableSort.
  - intros name. by rewrite elem_of_stableSort, elem_of_parameters.
  - intros name. rewrite elem_of_stableSort, list_elem_of_filter, elem_of_parameters. tauto.
Qed.

Lemma split_on_nonempty sep s : split_on sep s <> [].
Proof. destruct s as [|c s]; [done|]. cbn [split_on]. destruct (bool_decide _); [done|]. by destruct (split_on sep s). Qed.

(** The check of a body against the paths of an operation. *)
Lemma ValidateBody_satisfied body doc required :
  Unmarshal_any body = Some doc ->
  (forall p, p ∈ required -> p <> "" /\ Forall (fun seg => seg <> "") (splitPath p)) ->
  ValidateBody body required = Some "" <-> forall p, p ∈ required -> satisfied doc (splitPath p).
Proof.
  intros Hd Hc. assert (Hm : forall p, p ∈ required -> findMissing doc p = "" <-> satisfied doc (splitPath p)).
  { intros p Hp. destruct (Hc p Hp) as [Hne Hseg]. apply descend_satisfied; [done|]. left.
    unfold splitPath. rewrite (proj2 (is_empty_false p) Hne). apply split_on_nonempty. }
  unfold ValidateBody. destruct required as [|p0 required']; [split; [by intros _ ? []%elem_of_nil|done]|].
  set (required := p0 :: required') in *. rewrite Hd. clearbody required. split.
  - intros H p Hp. apply Hm; [done|]. destruct (List.find _ _) as [m|] eqn:Ef.
    + apply List.find_some in Ef as [_ Hne]. cbn in H. injection H as ->. done.
    + pose proof (List.find_none _ _ Ef (findMissing doc p)) as Hf. cbv beta in Hf.
      apply is_empty_true, negb_false_iff, Hf, list_elem_of_In, list_elem_of_fmap. by exists p.
  - intros Hall. destruct (List.find _ _) as [m|] eqn:Ef; [|done]. exfalso.
    apply List.find_some in Ef as [(p & -> & Hp)%list_elem_of_In%list_elem_of_fmap Hne].
    by rewrite (proj2 (Hm p Hp) (Hall p Hp)) in Hne.
Qed.

(** ** The walk over the operations *)

Lemma walk_method_Err s path l err : fold_left (walk_method s path) l (Err err) = Err err.
Proof. induction l as [|kv l IH]; [done|]. cbn [fold_left]. exact IH. Qed.

Lemma walk_path_Err s paths err : fold_left (walk_path s) paths (Err err) = Err err.
Proof.
  induction paths as [|p paths IH]; [done|]. cbn [fold_left]. unfold walk_path at 2.
  destruct (n_Kind p.2); try exact IH. by rewrite walk_method_Err.
Qed.

(** The operations of one path, over any others. *)
Lemma fold_methods s path l d ops :
  fold_left (walk_method s path) l (Ok (d ∪ ops)) =
  (let* d := fold_left (walk_method s path) l (Ok d) in Ok (d ∪ ops)).
Proof.
  revert d. induction l as [|kv l IH]; intros d; [done|]. cbn [fold_left]. unfold walk_method at 2 4. cbn [result_bind]. cbv zeta.
  destruct (is_method _); [|apply IH]. destruct (parseOperation s _ path kv.2) as [op|err].
  - rewrite insert_union_l. apply IH.
  - by rewrite !walk_method_Err.
Qed.

Lemma walk_path_over s p ops : walk_path s (Ok ops) p = (let* d := walk_path s (Ok ∅) p in Ok (d ∪ ops)).
Proof.
  unfold walk_path. destruct (n_Kind p.2); try (cbn; by rewrite map_empty_union).
  rewrite <- (map_empty_union ops) at 1. apply fold_methods.
Qed.

(** Each operation of a path was parsed from one of its members. *)
Lemma fold_methods_from s path l d d' :
  fold_left (walk_method s path) l (Ok d) = Ok d' ->
  forall key op, d' !! key = Some op -> d !! key = Some op \/
    exists kv, kv ∈ l /\ is_method (ToUpper (n_Value kv.1)) = true /\ key = OpKey (ToUpper (n_Value kv.1)) path /\
      parseOperation s (ToUpper (n_Value kv.1)) path kv.2 = Ok op.
Proof.
  revert d. induction l as [|kv l IH]; intros d; cbn [fold_left]; [intros [= <-]; by left|].
  unfold walk_method at 2. cbn [result_bind]. cbv zeta. intros H key op Hk.
  destruct (is_method (ToUpper (n_Value kv.1))) eqn:Em.
  - destruct (parseOperation s _ path kv.2) as [op'|err] eqn:Ep; [|by rewrite walk_method_Err in H].
    destruct (IH _ H key op Hk) as [Hd|(kv' & Hin & Hr)]; [|right; exists kv'; split; [by right|done]].
    apply lookup_insert_Some in Hd as [[<- <-]|[_ Hd]]; [|by left]. right. exists kv. split; [by left|done].
  - destruct (IH _ H key op Hk) as [Hd|(kv' & Hin & Hr)]; [by left|]. right. exists kv'. split; [by right|done].
Qed.

(** The source of an operation. *)
Definition declared (s : components) (p : string * node) (key : string) (op : Operation) : Prop :=
  exists kv, kv ∈ pairs (n_Content p.2) /\ is_method (ToUpper (n_Value kv.1)) = true /\
    key = OpKey (ToUpper (n_Value kv.1)) p.1 /\ parseOperation s (ToUpper (n_Value kv.1)) p.1 kv.2 = Ok op.

Lemma walk_path_declared s p d : walk_path s (Ok ∅) p = Ok d ->
  forall key op, d !! key = Some op -> declared s p key op.
Proof.
  unfold walk_path. intros H key op Hk.
  destruct (n_Kind p.2); try (injection H as <-; by rewrite lookup_empty in Hk).
  destruct (fold_methods_from s p.1 _ ∅ d H key op Hk) as [He|Hd]; [by rewrite lookup_empty in He|done].
Qed.

Lemma OpKey_path m m' path path' : is_method m = true -> is_method m' = true ->
  OpKey m path = OpKey m' path' -> path = path'.
Proof.
  unfold is_method. rewrite !bool_decide_eq_true. intros Hm Hm'.
  repeat (apply elem_of_cons in Hm as [->|Hm]; [repeat (apply elem_of_cons in Hm' as [->|Hm']; [intros H; by injection H|]); by apply elem_of_nil in Hm'|]).
  by apply elem_of_nil in Hm.
Qed.

Lemma declared_disjoint s p q key op op' : p.1 <> q.1 -> declared s p key op -> declared s q key op' -> False.
Proof.
  intros Hne (kv & _ & Hm & -> & _) (kv' & _ & Hm' & He & _). apply Hne. eapply OpKey_path; [exact Hm|exact Hm'|done].
Qed.

(** The walk succeeds when every path does, and has the operations of each. *)
Lemma walk_fold s paths acc ops : NoDup paths.*1 ->
  (forall p key op, p ∈ paths -> declared s p key op -> acc !! key = None) ->
  fold_left (walk_path s) paths (Ok acc) = Ok ops <->
  (forall p, p ∈ paths -> is_ok (walk_path s (Ok ∅) p) = true) /\
  (forall key op, ops !! key = Some op <-> acc !! key = Some op \/
     exists p d, p ∈ paths /\ walk_path s (Ok ∅) p = Ok d /\ d !! key = Some op).
Proof.
  revert acc. induction paths as [|p paths IH]; intros acc Hn Hacc; cbn [fold_left].
  - split.
    + intros [= <-]. split; [by intros p []%elem_of_nil|]. intros key op.
      split; [by left|]. by intros [|(p & d & []%elem_of_nil & _)].
    + intros [_ Hops]. f_equal. apply map_eq. intros key. apply option_eq. intros op. rewrite Hops.
      split; [by left|]. by intros [|(p & d & []%elem_of_nil & _)].
  - rewrite walk_path_over. cbn [fmap list_fmap] in Hn. apply NoDup_cons in Hn as [Hp Hn].
    destruct (walk_path s (Ok ∅) p) as [d|err] eqn:Ed; cbn [result_bind].
    2: { rewrite walk_path_Err. split; [done|]. intros [Hok _]. specialize (Hok p ltac:(by left)). by rewrite Ed in Hok. }
    pose proof (walk_path_declared s p d Ed) as Hd.
    assert (Hdisj : d ##ₘ acc).
    { apply map_disjoint_spec. intros key op op' H1 H2. by rewrite (Hacc p key op ltac:(by left) (Hd key op H1)) in H2. }
    rewrite IH; [|done|].
    + setoid_rewrite lookup_union_Some; [|done]. split.
      * intros [Hok Hops]. split; [intros q [->|Hq]%elem_of_cons; [by rewrite Ed|by apply Hok]|].
        intros key op. rewrite Hops. split.
        -- intros [[H|H]|(q & d' & Hq & H)]; [right; exists p, d; split; [by left|done]|by left|].
           right. exists q, d'. split; [by right|done].
        -- intros [H|(q & d' & [->|Hq]%elem_of_cons & He & H)]; [by left; right| |right; by exists q, d'].
           rewrite Ed in He. injection He as <-. by left; left.
      * intros [Hok Hops]. split; [intros q Hq; apply Hok; by right|]. intros key op. rewrite Hops. split.
        -- intros [H|(q & d' & [->|Hq]%elem_of_cons & He & H)]; [by left; right| |right; by exists q, d'].
           rewrite Ed in He. injection He as <-. by left; left.
        -- intros [[H|H]|(q & d' & Hq & H)]; [right; exists p, d; split; [by left|done]|by left|].
           right. exists q, d'. split; [by right|done].
    + intros q key op Hq Hdecl. apply lookup_union_None. split; [|eapply Hacc; [by right|done]].
      apply eq_None_not_Some. intros [op' H]. eapply (declared_disjoint s p q); [|by apply Hd|exact Hdecl].
      intros He. apply Hp. rewrite He. by apply list_elem_of_fmap_2.
Qed.

Lemma walk_Ok s ops : NoDup (raw_Paths s).*1 ->
  walk s = Ok ops <->
  (forall p, p ∈ raw_Paths s -> is_ok (walk_path (raw_Components s) (Ok ∅) p) = true) /\
  (forall key op, ops !! key = Some op <->
     exists p d, p ∈ raw_Paths s /\ walk_path (raw_Components s) (Ok ∅) p = Ok d /\ d !! key = Some op).
Proof.
  intros Hn. unfold walk. rewrite walk_fold; [|done|by intros; apply lookup_empty].
  setoid_rewrite lookup_empty. split; intros [H Hops]; (split; [done|]); intros key op; rewrite Hops; naive_solver.
Qed.

(** A method of a path that was walked has its operation. *)
Lemma fold_methods_has s path l d d' kv :
  fold_left (walk_method s path) l (Ok d) = Ok d' ->
  (forall key, is_Some (d !! key) -> is_Some (d' !! key)) /\
  (kv ∈ l -> is_method (ToUpper (n_Value kv.1)) = true -> is_Some (d' !! OpKey (ToUpper (n_Value kv.1)) path)).
Proof.
  revert d. induction l as [|kv' l IH]; intros d; cbn [fold_left].
  - intros [= <-]. split; [done|by intros []%elem_of_nil].
  - unfold walk_method at 2. cbn [result_bind]. cbv zeta. intros H.
    destruct (is_method (ToUpper (n_Value kv'.1))) eqn:Em.
    + destruct (parseOperation s _ path kv'.2) as [op|]; [|by rewrite walk_method_Err in H].
      destruct (IH _ H) as [Hk Hin]. split.
      * intros key Hd. apply Hk. apply lookup_insert_is_Some'. by right.
      * intros [->|Hin']%elem_of_cons; [|by apply Hin]. intros _. apply Hk. rewrite lookup_insert_eq. by eexists.
    + destruct (IH _ H) as [Hk Hin]. split; [done|].
      intros [->|Hin']%elem_of_cons; [by rewrite Em|by apply Hin].
Qed.

(** * Claims *)

(** C21.  Reading the specification.  The operations found do not depend on the order in
    which the map of paths is ranged over: every method of every path has one, and each
    was read from such a method.  An operation lists, sorted and each once, exactly the
    paths its JSON schema requires down to the depth bound (through references, in every
    branch of a choice, in some part of a conjunction, by name, in properties and in array
    elements), and its required query and header parameters but the signature.  A body is
    accepted exactly when its document satisfies every listed path. *)
Theorem walk_spec s ops :
  NoDup (raw_Paths s).*1 -> walk s = Ok ops ->
  (forall paths, paths ≡ₚ raw_Paths s -> walk (mkRawSpec paths (raw_Components s)) = Ok ops) /\
  (forall p kv, p ∈ raw_Paths s -> n_Kind p.2 = MappingNode -> kv ∈ pairs (n_Content p.2) ->
     is_method (ToUpper (n_Value kv.1)) = true -> is_Some (ops !! OpKey (ToUpper (n_Value kv.1)) p.1)) /\
  (forall key op, ops !! key = Some op ->
     (exists p kv, p ∈ raw_Paths s /\ kv ∈ pairs (n_Content p.2) /\ key = OpKey (ToUpper (n_Value kv.1)) p.1 /\
        operation_of (raw_Components s) kv.2 op) /\
     (forall body doc, Unmarshal_any body = Some doc ->
        (forall p, p ∈ op_RequiredBody op -> p <> "" /\ Forall (fun seg => seg <> "") (splitPath p)) ->
        ValidateBody body (op_RequiredBody op) = Some "" <->
        forall p, p ∈ op_RequiredBody op -> satisfied doc (splitPath p))).
Proof.
  intros Hn Hw. apply walk_Ok in Hw as [Hok Hops]; [|done]. split_and!.
  - intros paths Hp. apply walk_Ok; cbn [raw_Paths raw_Components]; [by rewrite Hp|].
    setoid_rewrite Hp. by split.
  - intros p kv Hp Hk Hkv Hm. specialize (Hok p Hp).
    destruct (walk_path (raw_Components s) (Ok ∅) p) as [d|] eqn:Ed; [|done].
    assert (Hd : is_Some (d !! OpKey (ToUpper (n_Value kv.1)) p.1)).
    { unfold walk_path in Ed. rewrite Hk in Ed. by apply (fold_methods_has _ _ _ _ _ kv Ed). }
    destruct Hd as [op Hd]. exists op. apply Hops. by exists p, d.
  - intros key op (p & d & Hp & Hd & Hk)%Hops. split; [|intros; by apply ValidateBody_satisfied].
    destruct (walk_path_declared _ _ _ Hd key op Hk) as (kv & Hkv & _ & -> & Hparse).
    exists p, kv. split_and!; [done..|]. by eapply parseOperation_of.
Qed.

(** ** A document *)

Definition scalar (v : string) : node := mkNode ScalarNode v [].
Definition sequence (l : list node) : node := mkNode SequenceNode "" l.
Definition mapping (l : list (string * node)) : node :=
  mkNode MappingNode "" (flat_map (fun kv => [scalar kv.1; kv.2]) l).
Definition json_body (schema : node) : node := mapping [("content", mapping [("application/json", mapping [("schema", schema)])])].

(** An order, whose sub-orders have an id, and a signed header. *)
Definition toy_order : node :=
  mapping [("required", sequence [scalar "requestId"; scalar "subOrders"]);
           ("properties", mapping
             [("subOrders", mapping
                [("type", scalar "array"); ("items", mapping [("$ref", scalar "#/components/schemas/SubOrder")])]);
              ("extendInfo", mapping
                [("oneOf", sequence [mapping [("required", sequence [scalar "orderType"; scalar "car"])];
                                     mapping [("required", sequence [scalar "orderType"])]])])])].
Definition toy_components : components :=
  mkComponents {[ "Order" := json_body toy_order ]}
    {[ "SubOrder" := mapping [("required", sequence [scalar "id"])] ]}.
Definition toy_param (loc name : string) : node :=
  mapping [("in", scalar loc); ("name", scalar name); ("required", scalar "true")].
Definition toy_spec : rawSpec :=
  mkRawSpec
    [("/auth", mapping
       [("summary", scalar "an endpoint");
        ("post", mapping [("parameters", sequence [toy_param "header" "Authorization"; toy_param "header" "Encrypt"]);
                          ("requestBody", mapping [("$ref", scalar "#/components/requestBodies/Order")])])]);
     ("/query", mapping [("get", mapping [("parameters", sequence [toy_param "query" "b"; toy_param "query" "a"])])])]
    toy_components.

Example toy_walk : exists ops, walk toy_spec = Ok ops /\
  ops !! "POST /auth" = Some (mkOperation "POST" "/auth"
    ["extendInfo.orderType"; "requestId"; "subOrders"; "subOrders[].id"] [] ["Encrypt"]) /\
  ops !! "GET /query" = Some (mkOperation "GET" "/query" [] ["a"; "b"] []).
Proof. eexists. split; [reflexivity|]. split; vm_compute; reflexivity. Qed.

(** The members required in the elements of an array within an array, or of a body that is
    an array, are listed, and no document is refused for want of them. *)
Example nested_array_unchecked :
  (collectRequired toy_components (S maxDepth)
     (mapping [("type", scalar "array"); ("items", mapping [("required", sequence [scalar "id"])])]) "" ([], ∅)).1 = ["[].id"] /\
  ValidateBody "[{}]" ["[].id"] = Some "" /\
  ValidateBody (json_print (JObj [("m", JArr [JArr [JObj []]])])) ["m[][].id"] = Some "".
Proof. by vm_compute. Qed.

(** The two orders of the paths give the same operations. *)
Lemma walk_spec_witness : exists ops, walk toy_spec = Ok ops /\
  walk (mkRawSpec (rev (raw_Paths toy_spec)) toy_components) = Ok ops /\ is_Some (ops !! "POST /auth").
Proof.
  assert (Hw : exists ops, walk toy_spec = Ok ops) by (eexists; reflexivity).
  destruct Hw as [ops Hw]. exists ops. split; [exact Hw|].
  assert (Hn : NoDup (raw_Paths toy_spec).*1).
  { apply (bool_decide_unpack _). vm_compute. exact I. }
  destruct (walk_spec toy_spec ops Hn Hw) as (Hperm & Hhas & _). split.
  - apply Hperm. symmetry. apply Permutation_rev.
  - change "POST /auth" with (OpKey (ToUpper (n_Value (scalar "post"))) "/auth").
    eapply (Hhas ("/auth", _) (scalar "post", _)).
    + apply list_elem_of_here.
    + reflexivity.
    + apply list_elem_of_further, list_elem_of_here.
    + reflexivity.
Defined.
