(* ===== verification/PinnedSpec.v ===== *)
(** * PinnedSpec: the specification the repository pins
    ([internal/spec/testdata/swagger-2026-10-28-20f9be8f.yaml]), as the tree the YAML
    parser gives, with the members the walk reads: [parameters] with their [in], [name]
    and [required], [requestBody], [$ref], the JSON schema of a body, and of a schema its
    [type], [required], [properties], [items], [oneOf] and [allOf].  Descriptions,
    examples, responses, formats and the components that no request refers to are left
    out: [SpecWalker] never looks at them.  [pinned_walk] is what the walk makes of it. *)
From S2P Require Import Prelude GoStd Errors Spec SpecWalker.

Definition typed (t : string) : node := mapping [("type", scalar t)].
Definition names (l : list string) : node := sequence (map scalar l).
Definition schemaRef (name : string) : node := mapping [("$ref", scalar ("#/components/schemas/" +:+ name))].
Definition bodyRef (name : string) : node := mapping [("$ref", scalar ("#/components/requestBodies/" +:+ name))].

(** A parameter; [required] is left out where it is [""]. *)
Definition param (loc name required : string) : node :=
  mapping ([("in", scalar loc); ("name", scalar name)] ++
           (if is_empty required then [] else [("required", scalar required)])).

(** ** The schemas *)

Definition schema_AccountChangeCreditInfo : node :=
  mapping
    [("type", scalar "object");
     ("properties", mapping
          [("totalCredit", typed "integer"); ("availableCredit", typed "integer");
           ("usedCredit", typed "integer"); ("lateFeeAmount", typed "integer");
           ("overpaidAmount", typed "integer"); ("userStatus", typed "string")]);
     ("required", names ["userStatus"; "totalCredit"; "availableCredit"; "usedCredit"])].

Definition schema_AccountChangeExtendInfo : node :=
  mapping
    [("type", scalar "object");
     ("properties", mapping
          [("tempCreditLimitAdjustmentValidTil", typed "integer");
           ("creditLimitAdjustmentReason", typed "string")])].

Definition schema_AccountChanges : node :=
  mapping
    [("type", scalar "object");
     ("properties", mapping
          [("externalReferenceUid", typed "string"); ("previousStatus", typed "string");
           ("currentStatus", typed "string"); ("totalCreditChange", typed "integer");
           ("usedCreditChange", typed "integer"); ("frozenCreditChange", typed "integer");
           ("availableCreditChange", typed "integer"); ("overpaidAmountChange", typed "integer");
           ("lateFeeAmountChange", typed "integer"); ("interestAmountChange", typed "integer");
           ("version", typed "integer")]);
     ("required", names ["externalReferenceUid"; "version"])].

Definition schema_AccountNotification : node :=
  mapping
    [("type", scalar "object");
     ("properties", mapping
          [("callbackRequestId", typed "string"); ("externalReferenceUid", typed "string");
           ("externalRequestId", typed "string"); ("event", typed "string"); ("scene", typed "string");
           ("previousStatus", typed "string"); ("currentStatus", typed "string");
           ("currency", schemaRef "CurrencyCode"); ("amountChange", typed "integer");
           ("version", typed "integer"); ("creditInfo", schemaRef "AccountChangeCreditInfo");
           ("extendInfo", schemaRef "AccountChangeExtendInfo")]);
     ("required", names ["callbackRequestId"; "externalReferenceUid"; "event"; "scene"; "creditInfo"; "currency"])].

Definition schema_ApplicationEssentialInfo : node :=
  mapping
    [("type", scalar "object"); ("required", names ["platformInformation"]);
     ("properties", mapping
          [("livenessCheck", mapping
                [("type", scalar "object");
                 ("properties", mapping
                      [("result", typed "string"); ("snapshotPhoto", typed "string");
                       ("livenessCheckResult01", typed "string"); ("livenessCheckResult02", typed "string");
                       ("livenessCheckResult03", typed "string")])]);
           ("individualProfile", mapping
                [("type", scalar "object"); ("required", names ["idType"; "ocrResult"; "idFrontPhoto"]);
                 ("properties", mapping
                      [("idType", typed "string");
                       ("ocrResult", mapping
                            [("type", scalar "object");
                             ("required", names ["idNumber"; "fullName"; "birthPlace"; "manuallyBirthDate"; "jobType"; "ocrProvince"; "ocrCity"; "ocrDistrict"; "ocrGender"; "ocrReligion"; "manuallyRt"; "manuallyRw"; "manuallyExpiredDate"; "manuallyCitizenship"]);
                             ("properties", mapping
                                  [("idNumber", typed "string"); ("fullName", typed "string");
                                   ("birthPlace", typed "string"); ("ocrBloodType", typed "string");
                                   ("ocrReligion", typed "string"); ("ocrGender", typed "string");
                                   ("manuallyBirthDate", typed "string"); ("ocrProvince", typed "string");
                                   ("ocrCity", typed "string"); ("ocrDistrict", typed "string");
                                   ("jobType", typed "string"); ("ocrMaritalStatus", typed "string");
                                   ("manuallyExpiredDate", typed "string");
                                   ("manuallyCitizenship", typed "string"); ("manuallyRt", typed "string");
                                   ("manuallyRw", typed "string")])]);
                       ("idFrontPhoto", typed "string"); ("manuallyEducation", typed "string");
                       ("motherMaidenName", typed "string"); ("maritalStatus", typed "string")])]);
           ("emergencyContact", schemaRef "EmergencyContact");
           ("emergencyContact_2", schemaRef "EmergencyContact");
           ("workInformation", schemaRef "WorkInformation");
           ("residential", schemaRef "ResidentialInformation");
           ("paymentInformation", schemaRef "PaymentInformation");
           ("platformInformation", mapping
                [("type", scalar "object");
                 ("required", names ["sceneType"; "deviceInfo"; "creditProfile"; "userFlag"; "scdUserLevel"]);
                 ("properties", mapping
                      [("creditProfile", schemaRef "CreditProfile");
                       ("latestGkycTimeStamp", typed "string"); ("userFlag", typed "string");
                       ("scdUserLevel", typed "string"); ("sceneType", schemaRef "CreditSceneType");
                       ("deviceInfo", schemaRef "PlatformDeviceInfo")])])])].

Definition schema_ApplicationEssentialInfoNonOverlap : node :=
  mapping
    [("allOf", sequence
          [schemaRef "ApplicationEssentialInfo";
           mapping
             [("type", scalar "object"); ("required", names ["individualProfile"; "platformInformation"]);
              ("properties", mapping
                   [("platformInformation", mapping [("type", scalar "object"); ("required", names ["latestGkycTimeStamp"])])])]])].

Definition schema_ApplicationEssentialInfoOverlap : node :=
  mapping
    [("allOf", sequence
          [schemaRef "ApplicationEssentialInfo";
           mapping [("type", scalar "object"); ("required", names ["platformInformation"])]])].

Definition schema_AuthAckResponse : node :=
  mapping
    [("type", scalar "object"); ("required", names ["code"; "message"]);
     ("properties", mapping
          [("code", typed "string"); ("message", typed "string");
           ("data", mapping
                [("oneOf", sequence
                      [schemaRef "MartAuthAuthorizationData";
                       schemaRef "FoodAuthAuthorizationData";
                       schemaRef "TransportAuthAuthorizationData"])])])].

Definition schema_AuthAuthorizationData : node :=
  mapping
    [("type", scalar "object");
     ("required", names ["requestId"; "currency"; "authOrderId"; "totalAmount"; "status"]);
     ("properties", mapping
          [("requestId", typed "string"); ("currency", schemaRef "CurrencyCode");
           ("authOrderId", typed "string"); ("totalAmount", typed "integer"); ("status", typed "string");
           ("failureCode", typed "string");
           ("subOrderInstallmentPlans", mapping [("type", scalar "array"); ("items", schemaRef "SubOrderInstallmentPlans")]);
           ("accountChanges", schemaRef "AccountChanges");
           ("extendInfo", mapping [("type", scalar "object"); ("properties", mapping [("reapplyTime", typed "integer")])])])].

Definition schema_AuthCaptureExtendInfo : node :=
  mapping
    [("allOf", sequence
          [schemaRef "AuthCaptureExtendInfoBase";
           mapping
             [("type", scalar "object");
              ("properties", mapping
                   [("mainOrderExtendInfos", mapping [("type", scalar "array"); ("items", schemaRef "MainOrderExtendInfo")])])]])].

Definition schema_AuthCaptureExtendInfoBase : node :=
  mapping
    [("type", scalar "object");
     ("properties", mapping
          [("orderType", schemaRef "PaymentOrderType"); ("creditProfile", schemaRef "CreditProfile");
           ("deviceInfo", schemaRef "PlatformDeviceInfo");
           ("address", mapping
                [("type", scalar "object");
                 ("properties", mapping
                      [("shippingAddress", mapping
                            [("type", scalar "object");
                             ("properties", mapping
                                  [("state", typed "string"); ("city", typed "string");
                                   ("district", typed "string"); ("address1", typed "string");
                                   ("address2", typed "string")]);
                             ("required", names ["city"; "address1"])]);
                       ("shippingName", typed "string"); ("shippingPhoneNo", typed "string")]);
                 ("required", names ["shippingAddress"; "shippingName"; "shippingPhoneNo"])]);
           ("riskInfo", schemaRef "PaymentRiskInfo")]);
     ("required", names ["orderType"; "creditProfile"; "deviceInfo"; "address"])].

Definition schema_AuthRequestBody : node :=
  mapping
    [("oneOf", sequence [schemaRef "MartAuthRequest"; schemaRef "FoodAuthRequest"; schemaRef "TransportAuthRequest"])].

Definition schema_BaseAuthCaptureRequest : node :=
  mapping
    [("type", scalar "object");
     ("properties", mapping
          [("requestId", typed "string"); ("externalReferenceUid", typed "string");
           ("totalAmount", typed "integer"); ("periodType", typed "integer");
           ("subOrders", mapping [("type", scalar "array"); ("items", schemaRef "MerchantSubOrder")]);
           ("extendInfo", schemaRef "AuthCaptureExtendInfo")]);
     ("required", names ["requestId"; "externalReferenceUid"; "totalAmount"; "periodType"; "subOrders"; "extendInfo"])].

Definition schema_BaseCaptureRequest : node :=
  mapping
    [("allOf", sequence
          [schemaRef "BaseAuthCaptureRequest";
           mapping
             [("type", scalar "object"); ("properties", mapping [("authOrderId", typed "string")]);
              ("required", names ["authOrderId"])]])].

Definition schema_BasePaymentPlanRequest : node :=
  mapping
    [("type", scalar "object");
     ("properties", mapping
          [("externalReferenceUid", typed "string"); ("mode", schemaRef "PaymentPlanMode");
           ("sessionId", typed "string"); ("totalAmount", typed "integer");
           ("subOrders", mapping [("type", scalar "array"); ("items", schemaRef "MerchantSubOrder")]);
           ("extendInfo", schemaRef "PaymentPlanExtendInfoBase")]);
     ("required", names ["externalReferenceUid"; "mode"; "totalAmount"; "subOrders"; "extendInfo"])].

Definition schema_BasePaymentPrecheckRequest : node :=
  mapping
    [("type", scalar "object");
     ("properties", mapping
          [("externalReferenceUid", typed "string"); ("totalAmount", typed "integer");
           ("subOrders", mapping [("type", scalar "array"); ("items", schemaRef "PrecheckMerchantSubOrder")]);
           ("extendInfo", schemaRef "PaymentPrecheckExtendInfo")]);
     ("required", names ["externalReferenceUid"; "totalAmount"])].

Definition schema_BaseRefundRequest : node :=
  mapping
    [("type", scalar "object");
     ("properties", mapping
          [("requestId", typed "string"); ("externalReferenceUid", typed "string");
           ("orderId", typed "string"); ("refundAmount", typed "integer");
           ("subOrders", mapping [("type", scalar "array"); ("items", schemaRef "SubOrderRefundRequest")]);
           ("extendInfo", schemaRef "RefundExtendInfo")]);
     ("required", names ["requestId"; "externalReferenceUid"; "orderId"; "refundAmount"; "subOrders"; "extendInfo"])].

Definition schema_CaptureAckResponse : node :=
  mapping
    [("type", scalar "object"); ("required", names ["code"; "message"]);
     ("properties", mapping
          [("code", typed "string"); ("message", typed "string");
           ("data", mapping
                [("oneOf", sequence
                      [schemaRef "MartCaptureResultData";
                       schemaRef "FoodCaptureResultData";
                       schemaRef "TransportCaptureResultData"])])])].

Definition schema_CaptureRequestBody : node :=
  mapping
    [("oneOf", sequence
          [schemaRef "MartCaptureRequest";
           schemaRef "FoodCaptureRequest";
           schemaRef "TransportCaptureRequest"])].

Definition schema_CaptureResultData : node :=
  mapping
    [("allOf", sequence
          [schemaRef "PaymentResult";
           mapping
             [("type", scalar "object"); ("required", names ["authOrderId"]);
              ("properties", mapping [("authOrderId", typed "string")])]])].

Definition schema_CommerceAccountChanges : node :=
  mapping
    [("type", scalar "object");
     ("properties", mapping
          [("externalReferenceUid", typed "string"); ("previousStatus", typed "string");
           ("currentStatus", typed "string"); ("totalCreditChange", typed "integer");
           ("usedCreditChange", typed "integer"); ("availableCreditChange", typed "integer");
           ("overpaidAmountChange", typed "integer"); ("lateFeeAmountChange", typed "integer");
           ("interestAmountChange", typed "integer"); ("version", typed "integer")]);
     ("required", names ["externalReferenceUid"; "version"])].

Definition schema_CreditApplicationResult : node :=
  mapping
    [("type", scalar "object");
     ("properties", mapping
          [("externalReferenceUid", typed "string"); ("status", typed "string");
           ("reapplyTime", typed "integer");
           ("failReason", mapping [("type", scalar "array"); ("items", typed "string")]);
           ("currency", schemaRef "CurrencyCode"); ("creditInfo", schemaRef "CreditInfo");
           ("loanCreditInfo", schemaRef "LoanCreditInfo"); ("billDay", typed "integer");
           ("payDay", typed "integer"); ("extendInfo", typed "object")]);
     ("required", names ["externalReferenceUid"; "status"; "currency"])].

Definition schema_CreditInfo : node :=
  mapping
    [("type", scalar "object");
     ("properties", mapping
          [("totalCredit", typed "integer"); ("availableCredit", typed "integer");
           ("usedCredit", typed "integer"); ("lateFeeAmount", typed "integer");
           ("overpaidAmount", typed "integer"); ("overpaidWithdrawAmount", typed "integer");
           ("userStatus", typed "string"); ("overpaidWithdrawLink", typed "string");
           ("version", typed "integer")]);
     ("required", names ["userStatus"; "totalCredit"; "availableCredit"; "usedCredit"; "version"])].

Definition schema_CreditInformationNonOverlapRequest : node :=
  mapping
    [("allOf", sequence
          [schemaRef "CreditInformationRequestBase";
           mapping
             [("type", scalar "object");
              ("properties", mapping [("applicationEssentialInfo", schemaRef "ApplicationEssentialInfoNonOverlap")]);
              ("required", names ["applicationEssentialInfo"])]])].

Definition schema_CreditInformationOverlapRequest : node :=
  mapping
    [("allOf", sequence
          [schemaRef "CreditInformationRequestBase";
           mapping
             [("type", scalar "object");
              ("properties", mapping [("applicationEssentialInfo", schemaRef "ApplicationEssentialInfoOverlap")]);
              ("required", names ["applicationEssentialInfo"])]])].

Definition schema_CreditInformationRequestBase : node :=
  mapping
    [("type", scalar "object");
     ("properties", mapping
          [("requestId", typed "string"); ("externalReferenceUid", typed "string");
           ("mobileNumber", typed "string"); ("email", typed "string"); ("country", typed "string");
           ("extendInfo", mapping [("type", scalar "object"); ("properties", mapping [("language", typed "string")])])]);
     ("required", names ["requestId"; "externalReferenceUid"; "mobileNumber"; "email"; "country"; "applicationEssentialInfo"])].

Definition schema_CreditProfile : node :=
  typed "string".

Definition schema_CreditSceneType : node :=
  typed "string".

Definition schema_CurrencyCode : node :=
  typed "string".

Definition schema_EmergencyContact : node :=
  mapping
    [("type", scalar "object");
     ("properties", mapping [("name", typed "string"); ("phone", typed "string"); ("relation", typed "string")])].

Definition schema_FoodAuthAuthorizationData : node :=
  mapping
    [("allOf", sequence
          [schemaRef "AuthAuthorizationData";
           mapping
             [("type", scalar "object");
              ("properties", mapping
                   [("subOrderInstallmentPlans", mapping
                         [("type", scalar "array");
                          ("items", schemaRef "FoodAuthCaptureSubOrderInstallmentPlans")])])]])].

Definition schema_FoodAuthCaptureExtendInfo : node :=
  mapping
    [("allOf", sequence
          [schemaRef "AuthCaptureExtendInfoBase";
           mapping
             [("type", scalar "object");
              ("properties", mapping
                   [("orderType", typed "string");
                    ("mainOrderExtendInfos", mapping
                         [("type", scalar "array");
                          ("items", schemaRef "FoodAuthCaptureMainOrderExtendInfo")])]);
              ("required", names ["mainOrderExtendInfos"])]])].

Definition schema_FoodAuthCaptureMainOrderExtendInfo : node :=
  mapping
    [("allOf", sequence
          [schemaRef "MainOrderExtendInfo";
           mapping
             [("type", scalar "object");
              ("properties", mapping
                   [("skuInfos", mapping [("type", scalar "array"); ("items", schemaRef "FoodAuthSkuInfo")])])]])].

Definition schema_FoodAuthCaptureSubOrderInstallmentPlans : node :=
  mapping
    [("allOf", sequence
          [schemaRef "SubOrderInstallmentPlans";
           mapping [("type", scalar "object"); ("required", names ["subOrderId"; "merchantId"])]])].

Definition schema_FoodAuthExtendInfo : node :=
  mapping
    [("allOf", sequence
          [schemaRef "AuthCaptureExtendInfoBase";
           mapping
             [("type", scalar "object");
              ("properties", mapping
                   [("orderType", typed "string");
                    ("mainOrderExtendInfos", mapping
                         [("type", scalar "array");
                          ("items", schemaRef "FoodAuthCaptureMainOrderExtendInfo")])]);
              ("required", names ["mainOrderExtendInfos"])]])].

Definition schema_FoodAuthMerchantSubOrder : node :=
  mapping
    [("allOf", sequence
          [schemaRef "MerchantSubOrder";
           mapping [("type", scalar "object"); ("required", names ["subOrderId"; "merchantId"; "amount"])]])].

Definition schema_FoodAuthRequest : node :=
  mapping
    [("allOf", sequence
          [schemaRef "BaseAuthCaptureRequest";
           mapping
             [("type", scalar "object");
              ("properties", mapping
                   [("subOrders", mapping [("type", scalar "array"); ("items", schemaRef "FoodAuthMerchantSubOrder")]);
                    ("extendInfo", schemaRef "FoodAuthExtendInfo")])]])].

Definition schema_FoodAuthSkuInfo : node :=
  mapping
    [("allOf", sequence [schemaRef "SkuInfo"; mapping [("type", scalar "object"); ("required", names ["skuId"])]])].

Definition schema_FoodCaptureMerchantSubOrder : node :=
  mapping
    [("allOf", sequence
          [schemaRef "MerchantSubOrder";
           mapping
             [("type", scalar "object");
              ("required", names ["subOrderId"; "merchantId"; "merchantName"; "amount"])]])].

Definition schema_FoodCaptureRequest : node :=
  mapping
    [("allOf", sequence
          [schemaRef "BaseCaptureRequest";
           mapping
             [("type", scalar "object");
              ("properties", mapping
                   [("subOrders", mapping [("type", scalar "array"); ("items", schemaRef "FoodCaptureMerchantSubOrder")]);
                    ("extendInfo", schemaRef "FoodAuthCaptureExtendInfo")])]])].

Definition schema_FoodCaptureResultData : node :=
  mapping
    [("allOf", sequence
          [schemaRef "CaptureResultData";
           mapping
             [("type", scalar "object");
              ("properties", mapping
                   [("subOrderInstallmentPlans", mapping
                         [("type", scalar "array");
                          ("items", schemaRef "FoodAuthCaptureSubOrderInstallmentPlans")])])]])].

Definition schema_FoodPaymentPlanExtendInfo : node :=
  mapping
    [("type", scalar "object");
     ("properties", mapping
          [("orderType", typed "string");
           ("mainOrderExtendInfos", mapping [("type", scalar "array"); ("items", schemaRef "FoodPlanMainOrderExtendInfo")])]);
     ("required", names ["orderType"])].

Definition schema_FoodPaymentPlanRequest : node :=
  mapping
    [("allOf", sequence
          [schemaRef "BasePaymentPlanRequest";
           mapping
             [("type", scalar "object");
              ("properties", mapping
                   [("subOrders", mapping [("type", scalar "array"); ("items", schemaRef "MinimalMerchantSubOrder")]);
                    ("extendInfo", schemaRef "FoodPaymentPlanExtendInfo")])]])].

Definition schema_FoodPlanMainOrderExtendInfo : node :=
  mapping
    [("type", scalar "object");
     ("properties", mapping
          [("merchantId", typed "string"); ("merchantName", typed "string");
           ("skuInfos", mapping [("type", scalar "array"); ("items", schemaRef "FoodPlanSkuInfo")])])].

Definition schema_FoodPlanSkuInfo : node :=
  mapping
    [("type", scalar "object");
     ("properties", mapping
          [("skuId", typed "string"); ("skuName", typed "string"); ("categoryId", typed "string");
           ("categoryOneName", typed "string");
           ("categoryCodes", mapping [("type", scalar "array"); ("items", typed "string")]);
           ("quantity", typed "integer"); ("amount", typed "integer")])].

Definition schema_FoodReAuthRequest : node :=
  mapping
    [("allOf", sequence
          [schemaRef "BaseCaptureRequest";
           mapping
             [("type", scalar "object");
              ("properties", mapping
                   [("subOrders", mapping [("type", scalar "array"); ("items", schemaRef "FoodAuthMerchantSubOrder")]);
                    ("extendInfo", schemaRef "FoodAuthCaptureExtendInfo")])]])].

Definition schema_FoodRefundExtendInfo : node :=
  mapping
    [("allOf", sequence
          [schemaRef "RefundExtendInfo";
           mapping [("type", scalar "object"); ("properties", mapping [("orderType", typed "string")])]])].

Definition schema_FoodRefundRequest : node :=
  mapping
    [("allOf", sequence
          [schemaRef "BaseRefundRequest";
           mapping
             [("type", scalar "object");
              ("properties", mapping
                   [("subOrders", mapping [("type", scalar "array"); ("items", schemaRef "SubOrderRefundRequest")]);
                    ("extendInfo", schemaRef "FoodRefundExtendInfo")])]])].

Definition schema_FoodRefundResult : node :=
  mapping
    [("allOf", sequence
          [schemaRef "RefundResult";
           mapping
             [("type", scalar "object");
              ("properties", mapping
                   [("subOrders", mapping [("type", scalar "array"); ("items", schemaRef "FoodSubOrderRefundInfo")])])]])].

Definition schema_FoodSubOrderRefundInfo : node :=
  mapping [("allOf", sequence [schemaRef "SubOrderRefundInfo"])].

Definition schema_FullMerchantSubOrder : node :=
  mapping
    [("allOf", sequence
          [schemaRef "MerchantSubOrder";
           mapping [("type", scalar "object"); ("required", names ["subOrderId"; "merchantId"; "amount"])]])].

Definition schema_InstallmentDetail : node :=
  mapping
    [("type", scalar "object");
     ("properties", mapping
          [("subOrderId", typed "string"); ("totalTenor", typed "integer");
           ("currentTenor", typed "integer"); ("repayAmount", typed "integer");
           ("principalAmount", typed "integer"); ("interestAmount", typed "integer");
           ("billId", typed "string"); ("billDate", typed "string"); ("dueDate", typed "string")]);
     ("required", names ["totalTenor"; "currentTenor"; "repayAmount"; "principalAmount"; "interestAmount"; "billId"; "billDate"; "dueDate"])].

Definition schema_InstallmentPlan : node :=
  mapping
    [("type", scalar "object");
     ("properties", mapping
          [("totalTenor", typed "integer"); ("orderRepayAmount", typed "integer");
           ("orderInterestAmount", typed "integer");
           ("installmentDetails", mapping [("type", scalar "array"); ("items", schemaRef "InstallmentDetail")])]);
     ("required", names ["totalTenor"; "installmentDetails"; "orderRepayAmount"; "orderInterestAmount"])].

Definition schema_LoanCreditInfo : node :=
  mapping
    [("type", scalar "object");
     ("properties", mapping [("loanStatus", typed "string"); ("reapplyTime", typed "integer")])].

Definition schema_MainOrderExtendInfo : node :=
  mapping
    [("type", scalar "object");
     ("properties", mapping
          [("merchantId", typed "string"); ("merchantName", typed "string");
           ("skuInfos", mapping [("type", scalar "array"); ("items", schemaRef "SkuInfo")])]);
     ("required", names ["merchantId"; "skuInfos"])].

Definition schema_MartAuthAuthorizationData : node :=
  mapping
    [("allOf", sequence
          [schemaRef "AuthAuthorizationData";
           mapping
             [("type", scalar "object");
              ("properties", mapping
                   [("subOrderInstallmentPlans", mapping
                         [("type", scalar "array");
                          ("items", schemaRef "MartAuthCaptureSubOrderInstallmentPlans")])])]])].

Definition schema_MartAuthCaptureExtendInfo : node :=
  mapping
    [("allOf", sequence
          [schemaRef "AuthCaptureExtendInfoBase";
           mapping
             [("type", scalar "object");
              ("properties", mapping
                   [("orderType", typed "string");
                    ("mainOrderExtendInfos", mapping
                         [("type", scalar "array");
                          ("items", schemaRef "MartAuthCaptureMainOrderExtendInfo")])]);
              ("required", names ["mainOrderExtendInfos"])]])].

Definition schema_MartAuthCaptureMainOrderExtendInfo : node :=
  mapping
    [("allOf", sequence
          [schemaRef "MainOrderExtendInfo";
           mapping
             [("type", scalar "object");
              ("properties", mapping
                   [("skuInfos", mapping [("type", scalar "array"); ("items", schemaRef "MartAuthCaptureSkuInfo")])])]])].

Definition schema_MartAuthCaptureSkuInfo : node :=
  mapping
    [("allOf", sequence [schemaRef "SkuInfo"; mapping [("type", scalar "object"); ("required", names ["skuId"])]])].

Definition schema_MartAuthCaptureSubOrderInstallmentPlans : node :=
  mapping
    [("allOf", sequence
          [schemaRef "SubOrderInstallmentPlans";
           mapping [("type", scalar "object"); ("required", names ["subOrderId"; "merchantId"])]])].

Definition schema_MartAuthRequest : node :=
  mapping
    [("allOf", sequence
          [schemaRef "BaseAuthCaptureRequest";
           mapping
             [("type", scalar "object");
              ("properties", mapping
                   [("subOrders", mapping [("type", scalar "array"); ("items", schemaRef "FullMerchantSubOrder")]);
                    ("extendInfo", schemaRef "MartAuthCaptureExtendInfo")])]])].

Definition schema_MartCaptureMerchantSubOrder : node :=
  mapping
    [("allOf", sequence
          [schemaRef "MerchantSubOrder";
           mapping
             [("type", scalar "object");
              ("required", names ["subOrderId"; "merchantId"; "merchantName"; "amount"])]])].

Definition schema_MartCaptureRequest : node :=
  mapping
    [("allOf", sequence
          [schemaRef "BaseCaptureRequest";
           mapping
             [("type", scalar "object");
              ("properties", mapping
                   [("subOrders", mapping [("type", scalar "array"); ("items", schemaRef "MartCaptureMerchantSubOrder")]);
                    ("extendInfo", schemaRef "MartAuthCaptureExtendInfo")])]])].

Definition schema_MartCaptureResultData : node :=
  mapping
    [("allOf", sequence
          [schemaRef "CaptureResultData";
           mapping
             [("type", scalar "object");
              ("properties", mapping
                   [("subOrderInstallmentPlans", mapping
                         [("type", scalar "array");
                          ("items", schemaRef "MartAuthCaptureSubOrderInstallmentPlans")])])]])].

Definition schema_MartPaymentPlanExtendInfo : node :=
  mapping
    [("type", scalar "object");
     ("properties", mapping
          [("orderType", typed "string");
           ("mainOrderExtendInfos", mapping [("type", scalar "array"); ("items", schemaRef "MartPlanMainOrderExtendInfo")])]);
     ("required", names ["orderType"; "mainOrderExtendInfos"])].

Definition schema_MartPaymentPlanRequest : node :=
  mapping
    [("allOf", sequence
          [schemaRef "BasePaymentPlanRequest";
           mapping
             [("type", scalar "object");
              ("properties", mapping
                   [("subOrders", mapping [("type", scalar "array"); ("items", schemaRef "PlanMerchantSubOrder")]);
                    ("extendInfo", schemaRef "MartPaymentPlanExtendInfo")])]])].

Definition schema_MartPlanMainOrderExtendInfo : node :=
  mapping
    [("allOf", sequence
          [schemaRef "MainOrderExtendInfo";
           mapping
             [("type", scalar "object");
              ("properties", mapping
                   [("skuInfos", mapping [("type", scalar "array"); ("items", schemaRef "MartPlanSkuInfo")])])]])].

Definition schema_MartPlanSkuInfo : node :=
  mapping
    [("allOf", sequence [schemaRef "SkuInfo"; mapping [("type", scalar "object"); ("required", names ["skuId"])]])].

Definition schema_MartReAuthRequest : node :=
  mapping
    [("allOf", sequence
          [schemaRef "BaseCaptureRequest";
           mapping
             [("type", scalar "object");
              ("properties", mapping
                   [("subOrders", mapping [("type", scalar "array"); ("items", schemaRef "FullMerchantSubOrder")]);
                    ("extendInfo", schemaRef "MartAuthCaptureExtendInfo")])]])].

Definition schema_MartRefundExtendInfo : node :=
  mapping
    [("allOf", sequence
          [schemaRef "RefundExtendInfo";
           mapping [("type", scalar "object"); ("properties", mapping [("orderType", typed "string")])]])].

Definition schema_MartRefundRequest : node :=
  mapping
    [("allOf", sequence
          [schemaRef "BaseRefundRequest";
           mapping
             [("type", scalar "object");
              ("properties", mapping
                   [("subOrders", mapping
                         [("type", scalar "array"); ("items", schemaRef "MerchantSubOrderRefundRequest")]);
                    ("extendInfo", schemaRef "MartRefundExtendInfo")])]])].

Definition schema_MartRefundResult : node :=
  mapping
    [("allOf", sequence
          [schemaRef "RefundResult";
           mapping
             [("type", scalar "object");
              ("properties", mapping
                   [("subOrders", mapping [("type", scalar "array"); ("items", schemaRef "MartSubOrderRefundInfo")])])]])].

Definition schema_MartSubOrderRefundInfo : node :=
  mapping
    [("allOf", sequence
          [schemaRef "SubOrderRefundInfo";
           mapping [("type", scalar "object"); ("required", names ["merchantId"])]])].

Definition schema_MerchantSubOrder : node :=
  mapping
    [("type", scalar "object");
     ("properties", mapping
          [("subOrderId", typed "string"); ("merchantId", typed "string"); ("merchantName", typed "string");
           ("merchantCategory", typed "string"); ("merchantJoinedDate", typed "string");
           ("amount", typed "integer"); ("periodType", typed "integer")])].

Definition schema_MerchantSubOrderRefundRequest : node :=
  mapping
    [("allOf", sequence
          [schemaRef "SubOrderRefundRequest";
           mapping [("type", scalar "object"); ("required", names ["merchantId"])]])].

Definition schema_MinimalMerchantSubOrder : node :=
  mapping
    [("allOf", sequence
          [schemaRef "MerchantSubOrder";
           mapping [("type", scalar "object"); ("required", names ["amount"])]])].

Definition schema_PaymentInformation : node :=
  mapping [("type", scalar "object"); ("properties", mapping [("payDay", typed "integer")])].

Definition schema_PaymentOrderType : node :=
  typed "string".

Definition schema_PaymentPlanExtendInfoBase : node :=
  mapping
    [("type", scalar "object"); ("properties", mapping [("orderType", schemaRef "PaymentOrderType")]);
     ("required", names ["orderType"])].

Definition schema_PaymentPlanMode : node :=
  typed "string".

Definition schema_PaymentPlanRequest : node :=
  mapping
    [("oneOf", sequence
          [schemaRef "MartPaymentPlanRequest";
           schemaRef "FoodPaymentPlanRequest";
           schemaRef "TransportPaymentPlanRequest"])].

Definition schema_PaymentPrecheckExtendInfo : node :=
  mapping [("type", scalar "object"); ("properties", mapping [("orderType", schemaRef "PaymentOrderType")])].

Definition schema_PaymentPrecheckRequest : node :=
  mapping [("allOf", sequence [schemaRef "BasePaymentPrecheckRequest"])].

Definition schema_PaymentResult : node :=
  mapping
    [("type", scalar "object");
     ("properties", mapping
          [("requestId", typed "string"); ("currency", schemaRef "CurrencyCode");
           ("orderId", typed "string"); ("totalAmount", typed "integer"); ("status", typed "string");
           ("failureCode", typed "string");
           ("subOrderInstallmentPlans", mapping [("type", scalar "array"); ("items", schemaRef "SubOrderInstallmentPlans")]);
           ("accountChanges", mapping [("allOf", sequence [schemaRef "AccountChanges"])]);
           ("extendInfo", mapping
                [("type", scalar "object");
                 ("properties", mapping
                      [("reapplyTime", typed "integer");
                       ("agreement", mapping
                            [("type", scalar "object");
                             ("properties", mapping [("agreementUrl", typed "string")])])])])]);
     ("required", names ["requestId"; "orderId"; "status"; "totalAmount"; "currency"])].

Definition schema_PaymentRiskInfo : node :=
  mapping
    [("type", scalar "object");
     ("properties", mapping
          [("driverInfo", mapping
                [("type", scalar "object");
                 ("properties", mapping [("averageRating", typed "number"); ("isVerified", typed "boolean")])]);
           ("tripMetadata", mapping
                [("type", scalar "object");
                 ("properties", mapping [("estimatedDistance", typed "number"); ("pickupLocation", typed "string")])])])].

Definition schema_PlanMerchantSubOrder : node :=
  mapping
    [("allOf", sequence
          [schemaRef "MerchantSubOrder";
           mapping [("type", scalar "object"); ("required", names ["merchantId"; "amount"])]])].

Definition schema_PlatformDeviceInfo : node :=
  mapping
    [("type", scalar "object"); ("required", names ["platform"; "device"]);
     ("properties", mapping
          [("platform", typed "string");
           ("gps", mapping
                [("type", scalar "object");
                 ("properties", mapping
                      [("longitude", typed "string"); ("latitude", typed "string");
                       ("time", typed "string")])]);
           ("device", mapping
                [("type", scalar "object"); ("required", names ["isRoot"]);
                 ("properties", mapping
                      [("deviceId", typed "string"); ("googleAdvertisingId", typed "string");
                       ("idfa", typed "string"); ("idfv", typed "string"); ("utdid", typed "string");
                       ("isRoot", typed "boolean"); ("androidId", typed "string");
                       ("build", mapping
                            [("type", scalar "object");
                             ("properties", mapping
                                  [("board", typed "string"); ("brand", typed "string");
                                   ("cpuAbi", typed "string"); ("device", typed "string");
                                   ("manufacturer", typed "string"); ("model", typed "string");
                                   ("product", typed "string")])])])]);
           ("wifiList", mapping
                [("type", scalar "array");
                 ("items", mapping
                      [("type", scalar "object"); ("required", names ["ssid"]);
                       ("properties", mapping [("ssid", typed "string")])])]);
           ("ipAddress", mapping
                [("type", scalar "object");
                 ("properties", mapping [("ethIp", typed "string"); ("trueIp", typed "string")])])])].

Definition schema_PrecheckMerchantSubOrder : node :=
  mapping [("allOf", sequence [schemaRef "MerchantSubOrder"])].

Definition schema_ReAuthRequestBody : node :=
  mapping
    [("oneOf", sequence
          [schemaRef "MartReAuthRequest";
           schemaRef "FoodReAuthRequest";
           schemaRef "TransportReAuthRequest"])].

Definition schema_RefundExtendInfo : node :=
  mapping
    [("type", scalar "object"); ("properties", mapping [("orderType", schemaRef "PaymentOrderType")]);
     ("required", names ["orderType"])].

Definition schema_RefundRequestBody : node :=
  mapping
    [("oneOf", sequence
          [schemaRef "MartRefundRequest";
           schemaRef "FoodRefundRequest";
           schemaRef "TransportRefundRequest"])].

Definition schema_RefundResult : node :=
  mapping
    [("type", scalar "object");
     ("properties", mapping
          [("requestId", typed "string"); ("captureRequestId", typed "string");
           ("refundId", typed "string"); ("refundAmount", typed "integer");
           ("waivedInterestAmount", typed "integer"); ("refundDiscountAmount", typed "integer");
           ("status", typed "string"); ("failureCode", typed "string");
           ("currency", schemaRef "CurrencyCode");
           ("subOrders", mapping [("type", scalar "array"); ("items", schemaRef "SubOrderRefundInfo")]);
           ("accountChanges", schemaRef "CommerceAccountChanges")]);
     ("required", names ["requestId"; "captureRequestId"; "refundId"; "status"; "refundAmount"; "currency"])].

Definition schema_RepaymentResult : node :=
  mapping
    [("type", scalar "object");
     ("properties", mapping
          [("requestId", typed "string"); ("repaymentId", typed "string"); ("status", typed "string");
           ("currency", schemaRef "CurrencyCode"); ("repaymentAmount", typed "integer");
           ("repaymentTime", typed "integer"); ("event", typed "string");
           ("accountChanges", schemaRef "CommerceAccountChanges")]);
     ("required", names ["requestId"; "repaymentId"; "status"; "currency"])].

Definition schema_ResidentialInformation : node :=
  mapping
    [("type", scalar "object");
     ("properties", mapping
          [("region", typed "string"); ("province", typed "string"); ("city", typed "string");
           ("district", typed "string"); ("address", typed "string")])].

Definition schema_SkuInfo : node :=
  mapping
    [("type", scalar "object");
     ("properties", mapping
          [("skuId", typed "string"); ("skuName", typed "string"); ("categoryId", typed "string");
           ("categoryOneName", typed "string");
           ("categoryCodes", mapping [("type", scalar "array"); ("items", typed "string")]);
           ("quantity", typed "integer"); ("amount", typed "integer")]);
     ("required", names ["amount"])].

Definition schema_SubOrderInstallmentPlans : node :=
  mapping
    [("type", scalar "object");
     ("properties", mapping
          [("subOrderId", typed "string"); ("merchantId", typed "string"); ("merchantName", typed "string");
           ("orderAmount", typed "integer");
           ("installmentPlans", mapping [("type", scalar "array"); ("items", schemaRef "InstallmentPlan")])]);
     ("required", names ["orderAmount"; "installmentPlans"])].

Definition schema_SubOrderRefundInfo : node :=
  mapping
    [("type", scalar "object");
     ("properties", mapping
          [("subOrderId", typed "string"); ("merchantId", typed "string"); ("merchantName", typed "string");
           ("quantity", typed "integer"); ("totalAmount", typed "integer");
           ("principalAmount", typed "integer"); ("interestAmount", typed "integer");
           ("discountAmount", typed "integer"); ("overpaidAmountChange", typed "integer");
           ("extendInfo", typed "object")]);
     ("required", names ["totalAmount"])].

Definition schema_SubOrderRefundRequest : node :=
  mapping
    [("type", scalar "object");
     ("properties", mapping
          [("subOrderId", typed "string"); ("merchantId", typed "string"); ("merchantName", typed "string");
           ("quantity", typed "integer"); ("amount", typed "integer")]);
     ("required", names ["amount"])].

Definition schema_TransportAuthAuthorizationData : node :=
  mapping
    [("allOf", sequence
          [schemaRef "AuthAuthorizationData";
           mapping
             [("type", scalar "object");
              ("properties", mapping
                   [("subOrderInstallmentPlans", mapping
                         [("type", scalar "array");
                          ("items", schemaRef "TransportAuthCaptureSubOrderInstallmentPlans")])])]])].

Definition schema_TransportAuthCaptureExtendInfo : node :=
  mapping
    [("allOf", sequence
          [schemaRef "AuthCaptureExtendInfoBase";
           mapping [("type", scalar "object"); ("properties", mapping [("orderType", typed "string")])]])].

Definition schema_TransportAuthCaptureSubOrderInstallmentPlans : node :=
  mapping [("allOf", sequence [schemaRef "SubOrderInstallmentPlans"])].

Definition schema_TransportAuthRequest : node :=
  mapping
    [("allOf", sequence
          [schemaRef "BaseAuthCaptureRequest";
           mapping
             [("type", scalar "object");
              ("properties", mapping
                   [("subOrders", mapping [("type", scalar "array"); ("items", schemaRef "MinimalMerchantSubOrder")]);
                    ("extendInfo", schemaRef "TransportAuthCaptureExtendInfo")])]])].

Definition schema_TransportCaptureRequest : node :=
  mapping
    [("allOf", sequence
          [schemaRef "BaseCaptureRequest";
           mapping
             [("type", scalar "object");
              ("properties", mapping
                   [("subOrders", mapping [("type", scalar "array"); ("items", schemaRef "MinimalMerchantSubOrder")]);
                    ("extendInfo", schemaRef "TransportAuthCaptureExtendInfo")])]])].

Definition schema_TransportCaptureResultData : node :=
  mapping
    [("allOf", sequence
          [schemaRef "CaptureResultData";
           mapping
             [("type", scalar "object");
              ("properties", mapping
                   [("subOrderInstallmentPlans", mapping
                         [("type", scalar "array");
                          ("items", schemaRef "TransportAuthCaptureSubOrderInstallmentPlans")])])]])].

Definition schema_TransportPaymentPlanExtendInfo : node :=
  mapping
    [("allOf", sequence
          [schemaRef "PaymentPlanExtendInfoBase";
           mapping [("type", scalar "object"); ("properties", mapping [("orderType", typed "string")])]])].

Definition schema_TransportPaymentPlanRequest : node :=
  mapping
    [("allOf", sequence
          [schemaRef "BasePaymentPlanRequest";
           mapping
             [("type", scalar "object");
              ("properties", mapping
                   [("subOrders", mapping [("type", scalar "array"); ("items", schemaRef "MinimalMerchantSubOrder")]);
                    ("extendInfo", schemaRef "TransportPaymentPlanExtendInfo")])]])].

Definition schema_TransportReAuthRequest : node :=
  mapping
    [("allOf", sequence
          [schemaRef "BaseCaptureRequest";
           mapping
             [("type", scalar "object");
              ("properties", mapping
                   [("subOrders", mapping [("type", scalar "array"); ("items", schemaRef "MinimalMerchantSubOrder")]);
                    ("extendInfo", schemaRef "TransportAuthCaptureExtendInfo")])]])].

Definition schema_TransportRefundExtendInfo : node :=
  mapping
    [("allOf", sequence
          [schemaRef "RefundExtendInfo";
           mapping [("type", scalar "object"); ("properties", mapping [("orderType", typed "string")])]])].

Definition schema_TransportRefundRequest : node :=
  mapping
    [("allOf", sequence
          [schemaRef "BaseRefundRequest";
           mapping
             [("type", scalar "object");
              ("properties", mapping
                   [("subOrders", mapping [("type", scalar "array"); ("items", schemaRef "SubOrderRefundRequest")]);
                    ("extendInfo", schemaRef "TransportRefundExtendInfo")])]])].

Definition schema_TransportRefundResult : node :=
  mapping
    [("allOf", sequence
          [schemaRef "RefundResult";
           mapping
             [("type", scalar "object");
              ("properties", mapping
                   [("subOrders", mapping [("type", scalar "array"); ("items", schemaRef "TransportSubOrderRefundInfo")])])]])].

Definition schema_TransportSubOrderRefundInfo : node :=
  mapping [("allOf", sequence [schemaRef "SubOrderRefundInfo"])].

Definition schema_VirtualAccountBankCode : node :=
  typed "string".

Definition schema_VirtualAccountRequest : node :=
  mapping
    [("type", scalar "object");
     ("properties", mapping [("externalReferenceUid", typed "string"); ("bankCode", schemaRef "VirtualAccountBankCode")]);
     ("required", names ["externalReferenceUid"; "bankCode"])].

Definition schema_WorkInformation : node :=
  mapping
    [("type", scalar "object");
     ("properties", mapping
          [("employerName", typed "string"); ("workSince", typed "string");
           ("monthlyIncome", typed "string"); ("jobIndustry", typed "string");
           ("jobPosition", typed "string"); ("payrollPeriod", typed "string")])].

(** ** The request bodies *)

Definition body_AuthCallbackRequest : node :=
  json_body (schemaRef "AuthAckResponse").

Definition body_AuthRequest : node :=
  json_body (schemaRef "AuthRequestBody").

Definition body_CaptureCallbackRequest : node :=
  json_body (schemaRef "CaptureAckResponse").

Definition body_CaptureRequest : node :=
  json_body (schemaRef "CaptureRequestBody").

Definition body_CreditApplication : node :=
  json_body (mapping
    [("type", scalar "object");
     ("properties", mapping
          [("requestId", typed "string"); ("externalReferenceUid", typed "string");
           ("mobileNumber", typed "string"); ("email", typed "string"); ("country", typed "string");
           ("applicationEssentialInfo", schemaRef "ApplicationEssentialInfo");
           ("extendInfo", mapping
                [("type", scalar "object");
                 ("properties", mapping [("creditInformationRequestId", typed "string")]);
                 ("required", names ["creditInformationRequestId"])])]);
     ("required", names ["requestId"; "externalReferenceUid"; "mobileNumber"; "email"; "country"; "extendInfo"])]).

Definition body_CreditApplicationChange : node :=
  json_body (mapping
    [("type", scalar "object");
     ("properties", mapping
          [("requestId", typed "string"); ("externalReferenceUid", typed "string");
           ("mobileNumber", typed "string"); ("email", typed "string");
           ("extendInfo", mapping [("type", scalar "object"); ("properties", mapping [("language", typed "string")])])]);
     ("required", names ["requestId"; "externalReferenceUid"; "mobileNumber"])]).

Definition body_CreditInformation : node :=
  json_body (mapping
    [("oneOf", sequence [schemaRef "CreditInformationNonOverlapRequest"; schemaRef "CreditInformationOverlapRequest"])]).

Definition body_CreditResult : node :=
  json_body (schemaRef "CreditApplicationResult").

Definition body_PaymentPlanParam : node :=
  json_body (schemaRef "PaymentPlanRequest").

Definition body_QueryUserTag : node :=
  json_body (mapping
    [("type", scalar "object");
     ("properties", mapping [("requestId", typed "string"); ("mobileNumber", typed "string"); ("country", typed "string")]);
     ("required", names ["requestId"; "mobileNumber"; "country"])]).

Definition body_ReAuthRequest : node :=
  json_body (schemaRef "ReAuthRequestBody").

Definition body_RefundParam : node :=
  json_body (schemaRef "RefundRequestBody").

Definition body_RefundResult : node :=
  json_body (mapping
    [("oneOf", sequence
          [schemaRef "MartRefundResult";
           schemaRef "FoodRefundResult";
           schemaRef "TransportRefundResult"])]).

Definition body_RepaymentParam : node :=
  json_body (mapping
    [("type", scalar "object");
     ("properties", mapping
          [("requestId", typed "string"); ("externalReferenceUid", typed "string");
           ("repaymentAmount", typed "integer"); ("repaymentApplyTime", typed "integer");
           ("extendInfo", typed "object")]);
     ("required", names ["requestId"; "externalReferenceUid"; "repaymentAmount"; "repaymentApplyTime"])]).

Definition body_VoidRequest : node :=
  json_body (mapping
    [("type", scalar "object");
     ("properties", mapping
          [("requestId", typed "string"); ("externalReferenceUid", typed "string");
           ("authOrderId", typed "string")]);
     ("required", names ["requestId"; "externalReferenceUid"; "authOrderId"])]).

(** ** The operations *)

Definition path_heart_beat : node :=
  mapping [("get", mapping
    [])].

Definition path_query_user_tag : node :=
  mapping [("post", mapping
    [("parameters", sequence
      [param "header" "Authorization" "true";
       param "header" "Encrypt" "true"]);
     ("requestBody", bodyRef "QueryUserTag")])].

Definition path_credit_information : node :=
  mapping [("post", mapping
    [("parameters", sequence
      [param "header" "Authorization" "true";
       param "header" "Encrypt" "true"]);
     ("requestBody", bodyRef "CreditInformation")])].

Definition path_credit_application : node :=
  mapping [("post", mapping
    [("parameters", sequence
      [param "header" "Authorization" "true";
       param "header" "Encrypt" "true"]);
     ("requestBody", bodyRef "CreditApplication")])].

Definition path_credit_result : node :=
  mapping [("get", mapping
    [("parameters", sequence
      [param "header" "Authorization" "true";
       param "query" "externalReferenceUid" "true"])])].

Definition path_credit_information_result : node :=
  mapping [("get", mapping
    [("parameters", sequence
      [param "header" "Authorization" "true";
       param "query" "externalReferenceUid" "true";
       param "query" "requestId" "true"])])].

Definition path__creditApplicationNotifyUrl_ : node :=
  mapping [("post", mapping
    [("parameters", sequence
      [param "header" "client-id" "true";
       param "header" "time" "true";
       param "header" "signature" "true"]);
     ("requestBody", bodyRef "CreditResult")])].

Definition path_query_balance_history : node :=
  mapping [("get", mapping
    [("parameters", sequence
      [param "header" "Authorization" "true";
       param "query" "externalReferenceUid" "true";
       param "query" "type" "true";
       param "query" "requestId" "false";
       param "query" "start" "";
       param "query" "count" ""])])].

Definition path_modify_application_info : node :=
  mapping [("post", mapping
    [("parameters", sequence
      [param "header" "Authorization" "true"]);
     ("requestBody", bodyRef "CreditApplicationChange")])].

Definition path_close_account : node :=
  mapping [("post", mapping
    [("parameters", sequence
      [param "header" "Authorization" "true"]);
     ("requestBody", json_body (mapping
        [("type", scalar "object");
         ("properties", mapping [("requestId", typed "string"); ("externalReferenceUid", typed "string")]);
         ("required", names ["requestId"; "externalReferenceUid"])]))])].

Definition path_payment_precheck : node :=
  mapping [("post", mapping
    [("parameters", sequence
      [param "header" "Authorization" "true"]);
     ("requestBody", json_body (schemaRef "PaymentPrecheckRequest"))])].

Definition path_payment_plan : node :=
  mapping [("post", mapping
    [("parameters", sequence
      [param "header" "Authorization" "true";
       param "header" "sessionid" "false"]);
     ("requestBody", bodyRef "PaymentPlanParam")])].

Definition path_auth : node :=
  mapping [("post", mapping
    [("parameters", sequence
      [param "header" "Authorization" "true";
       param "header" "sessionid" "true"]);
     ("requestBody", bodyRef "AuthRequest")])].

Definition path_query_auth : node :=
  mapping [("get", mapping
    [("parameters", sequence
      [param "header" "Authorization" "true";
       param "query" "requestId" "true";
       param "query" "externalReferenceUid" "true"])])].

Definition path__authNotifyUrl_ : node :=
  mapping [("post", mapping
    [("parameters", sequence
      [param "header" "client-id" "true";
       param "header" "time" "true";
       param "header" "signature" "true"]);
     ("requestBody", bodyRef "AuthCallbackRequest")])].

Definition path_capture : node :=
  mapping [("post", mapping
    [("parameters", sequence
      [param "header" "Authorization" "true"]);
     ("requestBody", bodyRef "CaptureRequest")])].

Definition path_query_capture : node :=
  mapping [("get", mapping
    [("parameters", sequence
      [param "header" "Authorization" "true";
       param "query" "requestId" "true";
       param "query" "externalReferenceUid" "true"])])].

Definition path__captureNotifyUrl_ : node :=
  mapping [("post", mapping
    [("parameters", sequence
      [param "header" "client-id" "true";
       param "header" "time" "true";
       param "header" "signature" "true"]);
     ("requestBody", bodyRef "CaptureCallbackRequest")])].

Definition path_voidAuth : node :=
  mapping [("post", mapping
    [("parameters", sequence
      [param "header" "Authorization" "true"]);
     ("requestBody", bodyRef "VoidRequest")])].

Definition path_query_voidAuth : node :=
  mapping [("get", mapping
    [("parameters", sequence
      [param "header" "Authorization" "true";
       param "query" "requestId" "true";
       param "query" "externalReferenceUid" "true"])])].

Definition path_reAuth : node :=
  mapping [("post", mapping
    [("parameters", sequence
      [param "header" "Authorization" "true"]);
     ("requestBody", bodyRef "ReAuthRequest")])].

Definition path_query_reAuth : node :=
  mapping [("get", mapping
    [("parameters", sequence
      [param "header" "Authorization" "true";
       param "query" "requestId" "true";
       param "query" "externalReferenceUid" "true"])])].

Definition path_refund : node :=
  mapping [("post", mapping
    [("parameters", sequence
      [param "header" "Authorization" "true"]);
     ("requestBody", bodyRef "RefundParam")])].

Definition path_query_refund : node :=
  mapping [("get", mapping
    [("parameters", sequence
      [param "header" "Authorization" "true";
       param "query" "requestId" "true";
       param "query" "externalReferenceUid" "true"])])].

Definition path__refundNotifyUrl_ : node :=
  mapping [("post", mapping
    [("parameters", sequence
      [param "header" "client-id" "true";
       param "header" "time" "true";
       param "header" "signature" "true"]);
     ("requestBody", bodyRef "RefundResult")])].

Definition path_bills : node :=
  mapping [("get", mapping
    [("parameters", sequence
      [param "header" "Authorization" "true";
       param "query" "externalReferenceUid" "true";
       param "query" "startMonth" "true";
       param "query" "endMonth" "true";
       param "query" "status" "false";
       param "query" "repaymentStatus" "false";
       param "query" "overdueStatus" "false";
       param "query" "refundStatus" "false"])])].

Definition path_billDetail : node :=
  mapping [("get", mapping
    [("parameters", sequence
      [param "header" "Authorization" "true";
       param "query" "billId" "true";
       param "query" "externalReferenceUid" "true";
       param "query" "start" "";
       param "query" "count" ""])])].

Definition path_billUnpaid : node :=
  mapping [("get", mapping
    [("parameters", sequence
      [param "header" "Authorization" "true";
       param "query" "externalReferenceUid" "true"])])].

Definition path_transactions : node :=
  mapping [("get", mapping
    [("parameters", sequence
      [param "header" "Authorization" "true";
       param "query" "externalReferenceUid" "true";
       param "query" "startDate" "true";
       param "query" "endDate" "true";
       param "query" "transactionType" "true";
       param "query" "start" "";
       param "query" "count" ""])])].

Definition path_transactionDetail : node :=
  mapping [("get", mapping
    [("parameters", sequence
      [param "header" "Authorization" "true";
       param "query" "externalReferenceUid" "true";
       param "query" "transactionType" "true";
       param "query" "requestId" "true"])])].

Definition path_va_getList : node :=
  mapping [("post", mapping
    [("parameters", sequence
      [param "header" "Authorization" "true"]);
     ("requestBody", json_body (typed "object"))])].

Definition path_va_vaCodeByBank : node :=
  mapping [("post", mapping
    [("parameters", sequence
      [param "header" "Authorization" "true"]);
     ("requestBody", json_body (schemaRef "VirtualAccountRequest"))])].

Definition path_repayment_request : node :=
  mapping [("post", mapping
    [("parameters", sequence
      [param "header" "Authorization" "true"]);
     ("requestBody", bodyRef "RepaymentParam")])].

Definition path_repayment_result : node :=
  mapping [("get", mapping
    [("parameters", sequence
      [param "header" "Authorization" "true";
       param "query" "requestId" "true";
       param "query" "externalReferenceUid" "true"])])].

Definition path_repayment_callback : node :=
  mapping [("post", mapping
    [("parameters", sequence
      [param "header" "client-id" "true";
       param "header" "time" "true";
       param "header" "signature" "true"]);
     ("requestBody", json_body (schemaRef "RepaymentResult"))])].

Definition path_account_change_callback : node :=
  mapping [("post", mapping
    [("parameters", sequence
      [param "header" "client-id" "true";
       param "header" "time" "true";
       param "header" "signature" "true"]);
     ("requestBody", json_body (schemaRef "AccountNotification"))])].

(** ** The document *)

Definition pinned_schemas : list (string * node) :=
  [("AccountChangeCreditInfo", schema_AccountChangeCreditInfo);
   ("AccountChangeExtendInfo", schema_AccountChangeExtendInfo);
   ("AccountChanges", schema_AccountChanges);
   ("AccountNotification", schema_AccountNotification);
   ("ApplicationEssentialInfo", schema_ApplicationEssentialInfo);
   ("ApplicationEssentialInfoNonOverlap", schema_ApplicationEssentialInfoNonOverlap);
   ("ApplicationEssentialInfoOverlap", schema_ApplicationEssentialInfoOverlap);
   ("AuthAckResponse", schema_AuthAckResponse);
   ("AuthAuthorizationData", schema_AuthAuthorizationData);
   ("AuthCaptureExtendInfo", schema_AuthCaptureExtendInfo);
   ("AuthCaptureExtendInfoBase", schema_AuthCaptureExtendInfoBase);
   ("AuthRequestBody", schema_AuthRequestBody);
   ("BaseAuthCaptureRequest", schema_BaseAuthCaptureRequest);
   ("BaseCaptureRequest", schema_BaseCaptureRequest);
   ("BasePaymentPlanRequest", schema_BasePaymentPlanRequest);
   ("BasePaymentPrecheckRequest", schema_BasePaymentPrecheckRequest);
   ("BaseRefundRequest", schema_BaseRefundRequest);
   ("CaptureAckResponse", schema_CaptureAckResponse);
   ("CaptureRequestBody", schema_CaptureRequestBody);
   ("CaptureResultData", schema_CaptureResultData);
   ("CommerceAccountChanges", schema_CommerceAccountChanges);
   ("CreditApplicationResult", schema_CreditApplicationResult);
   ("CreditInfo", schema_CreditInfo);
   ("CreditInformationNonOverlapRequest", schema_CreditInformationNonOverlapRequest);
   ("CreditInformationOverlapRequest", schema_CreditInformationOverlapRequest);
   ("CreditInformationRequestBase", schema_CreditInformationRequestBase);
   ("CreditProfile", schema_CreditProfile);
   ("CreditSceneType", schema_CreditSceneType);
   ("CurrencyCode", schema_CurrencyCode);
   ("EmergencyContact", schema_EmergencyContact);
   ("FoodAuthAuthorizationData", schema_FoodAuthAuthorizationData);
   ("FoodAuthCaptureExtendInfo", schema_FoodAuthCaptureExtendInfo);
   ("FoodAuthCaptureMainOrderExtendInfo", schema_FoodAuthCaptureMainOrderExtendInfo);
   ("FoodAuthCaptureSubOrderInstallmentPlans", schema_FoodAuthCaptureSubOrderInstallmentPlans);
   ("FoodAuthExtendInfo", schema_FoodAuthExtendInfo);
   ("FoodAuthMerchantSubOrder", schema_FoodAuthMerchantSubOrder);
   ("FoodAuthRequest", schema_FoodAuthRequest);
   ("FoodAuthSkuInfo", schema_FoodAuthSkuInfo);
   ("FoodCaptureMerchantSubOrder", schema_FoodCaptureMerchantSubOrder);
   ("FoodCaptureRequest", schema_FoodCaptureRequest);
   ("FoodCaptureResultData", schema_FoodCaptureResultData);
   ("FoodPaymentPlanExtendInfo", schema_FoodPaymentPlanExtendInfo);
   ("FoodPaymentPlanRequest", schema_FoodPaymentPlanRequest);
   ("FoodPlanMainOrderExtendInfo", schema_FoodPlanMainOrderExtendInfo);
   ("FoodPlanSkuInfo", schema_FoodPlanSkuInfo);
   ("FoodReAuthRequest", schema_FoodReAuthRequest);
   ("FoodRefundExtendInfo", schema_FoodRefundExtendInfo);
   ("FoodRefundRequest", schema_FoodRefundRequest);
   ("FoodRefundResult", schema_FoodRefundResult);
   ("FoodSubOrderRefundInfo", schema_FoodSubOrderRefundInfo);
   ("FullMerchantSubOrder", schema_FullMerchantSubOrder);
   ("InstallmentDetail", schema_InstallmentDetail);
   ("InstallmentPlan", schema_InstallmentPlan);
   ("LoanCreditInfo", schema_LoanCreditInfo);
   ("MainOrderExtendInfo", schema_MainOrderExtendInfo);
   ("MartAuthAuthorizationData", schema_MartAuthAuthorizationData);
   ("MartAuthCaptureExtendInfo", schema_MartAuthCaptureExtendInfo);
   ("MartAuthCaptureMainOrderExtendInfo", schema_MartAuthCaptureMainOrderExtendInfo);
   ("MartAuthCaptureSkuInfo", schema_MartAuthCaptureSkuInfo);
   ("MartAuthCaptureSubOrderInstallmentPlans", schema_MartAuthCaptureSubOrderInstallmentPlans);
   ("MartAuthRequest", schema_MartAuthRequest);
   ("MartCaptureMerchantSubOrder", schema_MartCaptureMerchantSubOrder);
   ("MartCaptureRequest", schema_MartCaptureRequest);
   ("MartCaptureResultData", schema_MartCaptureResultData);
   ("MartPaymentPlanExtendInfo", schema_MartPaymentPlanExtendInfo);
   ("MartPaymentPlanRequest", schema_MartPaymentPlanRequest);
   ("MartPlanMainOrderExtendInfo", schema_MartPlanMainOrderExtendInfo);
   ("MartPlanSkuInfo", schema_MartPlanSkuInfo);
   ("MartReAuthRequest", schema_MartReAuthRequest);
   ("MartRefundExtendInfo", schema_MartRefundExtendInfo);
   ("MartRefundRequest", schema_MartRefundRequest);
   ("MartRefundResult", schema_MartRefundResult);
   ("MartSubOrderRefundInfo", schema_MartSubOrderRefundInfo);
   ("MerchantSubOrder", schema_MerchantSubOrder);
   ("MerchantSubOrderRefundRequest", schema_MerchantSubOrderRefundRequest);
   ("MinimalMerchantSubOrder", schema_MinimalMerchantSubOrder);
   ("PaymentInformation", schema_PaymentInformation);
   ("PaymentOrderType", schema_PaymentOrderType);
   ("PaymentPlanExtendInfoBase", schema_PaymentPlanExtendInfoBase);
   ("PaymentPlanMode", schema_PaymentPlanMode);
   ("PaymentPlanRequest", schema_PaymentPlanRequest);
   ("PaymentPrecheckExtendInfo", schema_PaymentPrecheckExtendInfo);
   ("PaymentPrecheckRequest", schema_PaymentPrecheckRequest);
   ("PaymentResult", schema_PaymentResult);
   ("PaymentRiskInfo", schema_PaymentRiskInfo);
   ("PlanMerchantSubOrder", schema_PlanMerchantSubOrder);
   ("PlatformDeviceInfo", schema_PlatformDeviceInfo);
   ("PrecheckMerchantSubOrder", schema_PrecheckMerchantSubOrder);
   ("ReAuthRequestBody", schema_ReAuthRequestBody);
   ("RefundExtendInfo", schema_RefundExtendInfo);
   ("RefundRequestBody", schema_RefundRequestBody);
   ("RefundResult", schema_RefundResult);
   ("RepaymentResult", schema_RepaymentResult);
   ("ResidentialInformation", schema_ResidentialInformation);
   ("SkuInfo", schema_SkuInfo);
   ("SubOrderInstallmentPlans", schema_SubOrderInstallmentPlans);
   ("SubOrderRefundInfo", schema_SubOrderRefundInfo);
   ("SubOrderRefundRequest", schema_SubOrderRefundRequest);
   ("TransportAuthAuthorizationData", schema_TransportAuthAuthorizationData);
   ("TransportAuthCaptureExtendInfo", schema_TransportAuthCaptureExtendInfo);
   ("TransportAuthCaptureSubOrderInstallmentPlans", schema_TransportAuthCaptureSubOrderInstallmentPlans);
   ("TransportAuthRequest", schema_TransportAuthRequest);
   ("TransportCaptureRequest", schema_TransportCaptureRequest);
   ("TransportCaptureResultData", schema_TransportCaptureResultData);
   ("TransportPaymentPlanExtendInfo", schema_TransportPaymentPlanExtendInfo);
   ("TransportPaymentPlanRequest", schema_TransportPaymentPlanRequest);
   ("TransportReAuthRequest", schema_TransportReAuthRequest);
   ("TransportRefundExtendInfo", schema_TransportRefundExtendInfo);
   ("TransportRefundRequest", schema_TransportRefundRequest);
   ("TransportRefundResult", schema_TransportRefundResult);
   ("TransportSubOrderRefundInfo", schema_TransportSubOrderRefundInfo);
   ("VirtualAccountBankCode", schema_VirtualAccountBankCode);
   ("VirtualAccountRequest", schema_VirtualAccountRequest);
   ("WorkInformation", schema_WorkInformation)].

Definition pinned_bodies : list (string * node) :=
  [("AuthCallbackRequest", body_AuthCallbackRequest);
   ("AuthRequest", body_AuthRequest);
   ("CaptureCallbackRequest", body_CaptureCallbackRequest);
   ("CaptureRequest", body_CaptureRequest);
   ("CreditApplication", body_CreditApplication);
   ("CreditApplicationChange", body_CreditApplicationChange);
   ("CreditInformation", body_CreditInformation);
   ("CreditResult", body_CreditResult);
   ("PaymentPlanParam", body_PaymentPlanParam);
   ("QueryUserTag", body_QueryUserTag);
   ("ReAuthRequest", body_ReAuthRequest);
   ("RefundParam", body_RefundParam);
   ("RefundResult", body_RefundResult);
   ("RepaymentParam", body_RepaymentParam);
   ("VoidRequest", body_VoidRequest)].

Definition pinned_paths : list (string * node) :=
  [("/heart-beat", path_heart_beat);
   ("/query-user-tag", path_query_user_tag);
   ("/credit-information", path_credit_information);
   ("/credit-application", path_credit_application);
   ("/credit-result", path_credit_result);
   ("/credit-information-result", path_credit_information_result);
   ("/<creditApplicationNotifyUrl>", path__creditApplicationNotifyUrl_);
   ("/query-balance-history", path_query_balance_history);
   ("/modify-application-info", path_modify_application_info);
   ("/close-account", path_close_account);
   ("/payment-precheck", path_payment_precheck);
   ("/payment-plan", path_payment_plan);
   ("/auth", path_auth);
   ("/query-auth", path_query_auth);
   ("/<authNotifyUrl>", path__authNotifyUrl_);
   ("/capture", path_capture);
   ("/query-capture", path_query_capture);
   ("/<captureNotifyUrl>", path__captureNotifyUrl_);
   ("/voidAuth", path_voidAuth);
   ("/query-voidAuth", path_query_voidAuth);
   ("/reAuth", path_reAuth);
   ("/query-reAuth", path_query_reAuth);
   ("/refund", path_refund);
   ("/query-refund", path_query_refund);
   ("/<refundNotifyUrl>", path__refundNotifyUrl_);
   ("/bills", path_bills);
   ("/billDetail", path_billDetail);
   ("/billUnpaid", path_billUnpaid);
   ("/transactions", path_transactions);
   ("/transactionDetail", path_transactionDetail);
   ("/va/getList", path_va_getList);
   ("/va/vaCodeByBank", path_va_vaCodeByBank);
   ("/repayment-request", path_repayment_request);
   ("/repayment-result", path_repayment_result);
   ("/repayment-callback", path_repayment_callback);
   ("/account_change_callback", path_account_change_callback)].

Definition pinned : rawSpec :=
  mkRawSpec pinned_paths (mkComponents (list_to_map pinned_bodies) (list_to_map pinned_schemas)).

(** ** What the walk makes of it *)

Definition pinned_operations : list Operation :=
  [mkOperation "GET" "/heart-beat"
     []
     [] [];
   mkOperation "POST" "/query-user-tag"
     ["country"; "mobileNumber"; "requestId"]
     [] ["Encrypt"];
   mkOperation "POST" "/credit-information"
     ["applicationEssentialInfo"; "applicationEssentialInfo.individualProfile.idFrontPhoto";
      "applicationEssentialInfo.individualProfile.idType";
      "applicationEssentialInfo.individualProfile.ocrResult";
      "applicationEssentialInfo.individualProfile.ocrResult.birthPlace";
      "applicationEssentialInfo.individualProfile.ocrResult.fullName";
      "applicationEssentialInfo.individualProfile.ocrResult.idNumber";
      "applicationEssentialInfo.individualProfile.ocrResult.jobType";
      "applicationEssentialInfo.individualProfile.ocrResult.manuallyBirthDate";
      "applicationEssentialInfo.individualProfile.ocrResult.manuallyCitizenship";
      "applicationEssentialInfo.individualProfile.ocrResult.manuallyExpiredDate";
      "applicationEssentialInfo.individualProfile.ocrResult.manuallyRt";
      "applicationEssentialInfo.individualProfile.ocrResult.manuallyRw";
      "applicationEssentialInfo.individualProfile.ocrResult.ocrCity";
      "applicationEssentialInfo.individualProfile.ocrResult.ocrDistrict";
      "applicationEssentialInfo.individualProfile.ocrResult.ocrGender";
      "applicationEssentialInfo.individualProfile.ocrResult.ocrProvince";
      "applicationEssentialInfo.individualProfile.ocrResult.ocrReligion";
      "applicationEssentialInfo.platformInformation";
      "applicationEssentialInfo.platformInformation.creditProfile";
      "applicationEssentialInfo.platformInformation.deviceInfo";
      "applicationEssentialInfo.platformInformation.deviceInfo.device";
      "applicationEssentialInfo.platformInformation.deviceInfo.device.isRoot";
      "applicationEssentialInfo.platformInformation.deviceInfo.platform";
      "applicationEssentialInfo.platformInformation.deviceInfo.wifiList[].ssid";
      "applicationEssentialInfo.platformInformation.scdUserLevel";
      "applicationEssentialInfo.platformInformation.sceneType";
      "applicationEssentialInfo.platformInformation.userFlag"; "country"; "email"; "externalReferenceUid";
      "mobileNumber"; "requestId"]
     [] ["Encrypt"];
   mkOperation "POST" "/credit-application"
     ["applicationEssentialInfo.individualProfile.idFrontPhoto";
      "applicationEssentialInfo.individualProfile.idType";
      "applicationEssentialInfo.individualProfile.ocrResult";
      "applicationEssentialInfo.individualProfile.ocrResult.birthPlace";
      "applicationEssentialInfo.individualProfile.ocrResult.fullName";
      "applicationEssentialInfo.individualProfile.ocrResult.idNumber";
      "applicationEssentialInfo.individualProfile.ocrResult.jobType";
      "applicationEssentialInfo.individualProfile.ocrResult.manuallyBirthDate";
      "applicationEssentialInfo.individualProfile.ocrResult.manuallyCitizenship";
      "applicationEssentialInfo.individualProfile.ocrResult.manuallyExpiredDate";
      "applicationEssentialInfo.individualProfile.ocrResult.manuallyRt";
      "applicationEssentialInfo.individualProfile.ocrResult.manuallyRw";
      "applicationEssentialInfo.individualProfile.ocrResult.ocrCity";
      "applicationEssentialInfo.individualProfile.ocrResult.ocrDistrict";
      "applicationEssentialInfo.individualProfile.ocrResult.ocrGender";
      "applicationEssentialInfo.individualProfile.ocrResult.ocrProvince";
      "applicationEssentialInfo.individualProfile.ocrResult.ocrReligion";
      "applicationEssentialInfo.platformInformation";
      "applicationEssentialInfo.platformInformation.creditProfile";
      "applicationEssentialInfo.platformInformation.deviceInfo";
      "applicationEssentialInfo.platformInformation.deviceInfo.device";
      "applicationEssentialInfo.platformInformation.deviceInfo.device.isRoot";
      "applicationEssentialInfo.platformInformation.deviceInfo.platform";
      "applicationEssentialInfo.platformInformation.deviceInfo.wifiList[].ssid";
      "applicationEssentialInfo.platformInformation.scdUserLevel";
      "applicationEssentialInfo.platformInformation.sceneType";
      "applicationEssentialInfo.platformInformation.userFlag"; "country"; "email"; "extendInfo";
      "extendInfo.creditInformationRequestId"; "externalReferenceUid"; "mobileNumber"; "requestId"]
     [] ["Encrypt"];
   mkOperation "GET" "/credit-result"
     []
     ["externalReferenceUid"] [];
   mkOperation "GET" "/credit-information-result"
     []
     ["externalReferenceUid"; "requestId"] [];
   mkOperation "POST" "/<creditApplicationNotifyUrl>"
     ["creditInfo.availableCredit"; "creditInfo.totalCredit"; "creditInfo.usedCredit";
      "creditInfo.userStatus"; "creditInfo.version"; "currency"; "externalReferenceUid"; "status"]
     [] ["client-id"; "signature"; "time"];
   mkOperation "GET" "/query-balance-history"
     []
     ["externalReferenceUid"; "type"] [];
   mkOperation "POST" "/modify-application-info"
     ["externalReferenceUid"; "mobileNumber"; "requestId"]
     [] [];
   mkOperation "POST" "/close-account"
     ["externalReferenceUid"; "requestId"]
     [] [];
   mkOperation "POST" "/payment-precheck"
     ["externalReferenceUid"; "totalAmount"]
     [] [];
   mkOperation "POST" "/payment-plan"
     ["extendInfo"; "extendInfo.orderType"; "externalReferenceUid"; "mode"; "subOrders";
      "subOrders[].amount"; "totalAmount"]
     [] [];
   mkOperation "POST" "/auth"
     ["extendInfo"; "extendInfo.address"; "extendInfo.address.shippingAddress";
      "extendInfo.address.shippingAddress.address1"; "extendInfo.address.shippingAddress.city";
      "extendInfo.address.shippingName"; "extendInfo.address.shippingPhoneNo"; "extendInfo.creditProfile";
      "extendInfo.deviceInfo"; "extendInfo.deviceInfo.device"; "extendInfo.deviceInfo.device.isRoot";
      "extendInfo.deviceInfo.platform"; "extendInfo.deviceInfo.wifiList[].ssid";
      "extendInfo.mainOrderExtendInfos[].merchantId"; "extendInfo.mainOrderExtendInfos[].skuInfos";
      "extendInfo.mainOrderExtendInfos[].skuInfos[].amount"; "extendInfo.orderType";
      "externalReferenceUid"; "periodType"; "requestId"; "subOrders"; "subOrders[].amount"; "totalAmount"]
     [] ["sessionid"];
   mkOperation "GET" "/query-auth"
     []
     ["externalReferenceUid"; "requestId"] [];
   mkOperation "POST" "/<authNotifyUrl>"
     ["code"; "data.accountChanges.externalReferenceUid"; "data.accountChanges.version";
      "data.authOrderId"; "data.currency"; "data.requestId"; "data.status";
      "data.subOrderInstallmentPlans[].installmentPlans";
      "data.subOrderInstallmentPlans[].installmentPlans[].installmentDetails";
      "data.subOrderInstallmentPlans[].installmentPlans[].installmentDetails[].billDate";
      "data.subOrderInstallmentPlans[].installmentPlans[].installmentDetails[].billId";
      "data.subOrderInstallmentPlans[].installmentPlans[].installmentDetails[].currentTenor";
      "data.subOrderInstallmentPlans[].installmentPlans[].installmentDetails[].dueDate";
      "data.subOrderInstallmentPlans[].installmentPlans[].installmentDetails[].interestAmount";
      "data.subOrderInstallmentPlans[].installmentPlans[].installmentDetails[].principalAmount";
      "data.subOrderInstallmentPlans[].installmentPlans[].installmentDetails[].repayAmount";
      "data.subOrderInstallmentPlans[].installmentPlans[].installmentDetails[].totalTenor";
      "data.subOrderInstallmentPlans[].installmentPlans[].orderInterestAmount";
      "data.subOrderInstallmentPlans[].installmentPlans[].orderRepayAmount";
      "data.subOrderInstallmentPlans[].installmentPlans[].totalTenor";
      "data.subOrderInstallmentPlans[].orderAmount"; "data.totalAmount"; "message"]
     [] ["client-id"; "signature"; "time"];
   mkOperation "POST" "/capture"
     ["authOrderId"; "extendInfo"; "extendInfo.address"; "extendInfo.address.shippingAddress";
      "extendInfo.address.shippingAddress.address1"; "extendInfo.address.shippingAddress.city";
      "extendInfo.address.shippingName"; "extendInfo.address.shippingPhoneNo"; "extendInfo.creditProfile";
      "extendInfo.deviceInfo"; "extendInfo.deviceInfo.device"; "extendInfo.deviceInfo.device.isRoot";
      "extendInfo.deviceInfo.platform"; "extendInfo.deviceInfo.wifiList[].ssid";
      "extendInfo.mainOrderExtendInfos[].merchantId"; "extendInfo.mainOrderExtendInfos[].skuInfos";
      "extendInfo.mainOrderExtendInfos[].skuInfos[].amount"; "extendInfo.orderType";
      "externalReferenceUid"; "periodType"; "requestId"; "subOrders"; "subOrders[].amount"; "totalAmount"]
     [] [];
   mkOperation "GET" "/query-capture"
     []
     ["externalReferenceUid"; "requestId"] [];
   mkOperation "POST" "/<captureNotifyUrl>"
     ["code"; "data.accountChanges.externalReferenceUid"; "data.accountChanges.version";
      "data.authOrderId"; "data.currency"; "data.orderId"; "data.requestId"; "data.status";
      "data.subOrderInstallmentPlans[].installmentPlans";
      "data.subOrderInstallmentPlans[].installmentPlans[].installmentDetails";
      "data.subOrderInstallmentPlans[].installmentPlans[].installmentDetails[].billDate";
      "data.subOrderInstallmentPlans[].installmentPlans[].installmentDetails[].billId";
      "data.subOrderInstallmentPlans[].installmentPlans[].installmentDetails[].currentTenor";
      "data.subOrderInstallmentPlans[].installmentPlans[].installmentDetails[].dueDate";
      "data.subOrderInstallmentPlans[].installmentPlans[].installmentDetails[].interestAmount";
      "data.subOrderInstallmentPlans[].installmentPlans[].installmentDetails[].principalAmount";
      "data.subOrderInstallmentPlans[].installmentPlans[].installmentDetails[].repayAmount";
      "data.subOrderInstallmentPlans[].installmentPlans[].installmentDetails[].totalTenor";
      "data.subOrderInstallmentPlans[].installmentPlans[].orderInterestAmount";
      "data.subOrderInstallmentPlans[].installmentPlans[].orderRepayAmount";
      "data.subOrderInstallmentPlans[].installmentPlans[].totalTenor";
      "data.subOrderInstallmentPlans[].orderAmount"; "data.totalAmount"; "message"]
     [] ["client-id"; "signature"; "time"];
   mkOperation "POST" "/voidAuth"
     ["authOrderId"; "externalReferenceUid"; "requestId"]
     [] [];
   mkOperation "GET" "/query-voidAuth"
     []
     ["externalReferenceUid"; "requestId"] [];
   mkOperation "POST" "/reAuth"
     ["authOrderId"; "extendInfo"; "extendInfo.address"; "extendInfo.address.shippingAddress";
      "extendInfo.address.shippingAddress.address1"; "extendInfo.address.shippingAddress.city";
      "extendInfo.address.shippingName"; "extendInfo.address.shippingPhoneNo"; "extendInfo.creditProfile";
      "extendInfo.deviceInfo"; "extendInfo.deviceInfo.device"; "extendInfo.deviceInfo.device.isRoot";
      "extendInfo.deviceInfo.platform"; "extendInfo.deviceInfo.wifiList[].ssid";
      "extendInfo.mainOrderExtendInfos[].merchantId"; "extendInfo.mainOrderExtendInfos[].skuInfos";
      "extendInfo.mainOrderExtendInfos[].skuInfos[].amount"; "extendInfo.orderType";
      "externalReferenceUid"; "periodType"; "requestId"; "subOrders"; "subOrders[].amount"; "totalAmount"]
     [] [];
   mkOperation "GET" "/query-reAuth"
     []
     ["externalReferenceUid"; "requestId"] [];
   mkOperation "POST" "/refund"
     ["extendInfo"; "extendInfo.orderType"; "externalReferenceUid"; "orderId"; "refundAmount"; "requestId";
      "subOrders"; "subOrders[].amount"]
     [] [];
   mkOperation "GET" "/query-refund"
     []
     ["externalReferenceUid"; "requestId"] [];
   mkOperation "POST" "/<refundNotifyUrl>"
     ["accountChanges.externalReferenceUid"; "accountChanges.version"; "captureRequestId"; "currency";
      "refundAmount"; "refundId"; "requestId"; "status"; "subOrders[].totalAmount"]
     [] ["client-id"; "signature"; "time"];
   mkOperation "GET" "/bills"
     []
     ["endMonth"; "externalReferenceUid"; "startMonth"] [];
   mkOperation "GET" "/billDetail"
     []
     ["billId"; "externalReferenceUid"] [];
   mkOperation "GET" "/billUnpaid"
     []
     ["externalReferenceUid"] [];
   mkOperation "GET" "/transactions"
     []
     ["endDate"; "externalReferenceUid"; "startDate"; "transactionType"] [];
   mkOperation "GET" "/transactionDetail"
     []
     ["externalReferenceUid"; "requestId"; "transactionType"] [];
   mkOperation "POST" "/va/getList"
     []
     [] [];
   mkOperation "POST" "/va/vaCodeByBank"
     ["bankCode"; "externalReferenceUid"]
     [] [];
   mkOperation "POST" "/repayment-request"
     ["externalReferenceUid"; "repaymentAmount"; "repaymentApplyTime"; "requestId"]
     [] [];
   mkOperation "GET" "/repayment-result"
     []
     ["externalReferenceUid"; "requestId"] [];
   mkOperation "POST" "/repayment-callback"
     ["accountChanges.externalReferenceUid"; "accountChanges.version"; "currency"; "repaymentId";
      "requestId"; "status"]
     [] ["client-id"; "signature"; "time"];
   mkOperation "POST" "/account_change_callback"
     ["callbackRequestId"; "creditInfo"; "creditInfo.availableCredit"; "creditInfo.totalCredit";
      "creditInfo.usedCredit"; "creditInfo.userStatus"; "currency"; "event"; "externalReferenceUid"; "scene"]
     [] ["client-id"; "signature"; "time"]].

(** [Spec.Operations] of the pinned document. *)
Definition pinned_spec : gmap string Operation :=
  list_to_map (map (fun op => (OpKey (op_Method op) (op_Path op), op)) pinned_operations).

Lemma pinned_walk : walk pinned = Ok pinned_spec.
Proof. vm_cast_no_check (@eq_refl (res (gmap string Operation)) (Ok pinned_spec)). Qed.

(** Every required path is made of non-empty segments. *)
Lemma pinned_paths_segmented key op p : pinned_spec !! key = Some op -> p ∈ op_RequiredBody op ->
  p <> "" /\ Forall (fun seg => seg <> "") (splitPath p).
Proof.
  intros Hop Hp.
  assert (Hall : forallb (fun op => forallb (fun p => negb (is_empty p) && forallb (fun seg => negb (is_empty seg)) (splitPath p))
      (op_RequiredBody op)) pinned_operations = true) by (by vm_compute).
  apply elem_of_list_to_map_2, list_elem_of_fmap in Hop as (op' & [= _ ->] & Hin).
  rewrite forallb_forall in Hall. specialize (Hall _ (proj1 (list_elem_of_In _ _) Hin)). cbv beta in Hall.
  rewrite forallb_forall in Hall. specialize (Hall _ (proj1 (list_elem_of_In _ _) Hp)). cbv beta in Hall.
  apply andb_true_iff in Hall as [He Hs]. split; [by apply is_empty_false, negb_true_iff|].
  rewrite forallb_forall in Hs. apply List.Forall_forall. intros seg Hseg. specialize (Hs seg Hseg).
  by apply is_empty_false, negb_true_iff.
Qed.
