(* ===== verification/Mock.v ===== *)
(** * Mock: the mock server ([mock/transport.go], [scenarios.go], [server_options.go],
    [server_dispatch.go], [sign_helper.go]).

    A request to the server is one step of its state: the transport's log and counters,
    the replay cache, what it reported to the test, and the state of the partner whose
    callback handlers it calls.  The mutexes make each part of the step atomic; the steps
    here are taken one after the other, and their parts interleave in [MockOverlap].  A
    scenario is any function of the request and of how many came before. *)
From S2P Require Import Prelude GoStd Errors Canonical GoCrypto Sign Encrypt GoHttp Json Codec Schema Transport World.
From S2P Require Import Client PaymentTypes Refund Repayment CreditTypes Callback MockCache Spec.

(** ** [json.Marshal]: the escaping of HTML is on *)

Definition html_escape (c : ascii) : list ascii :=
  if bool_decide (c = "<"%char) then chars "\u003c"
  else if bool_decide (c = ">"%char) then chars "\u003e"
  else if bool_decide (c = "&"%char) then chars "\u0026"
  else [c].

(** Outside its strings a compact document has none of these characters, so escaping
    the whole escapes the strings. *)
Definition json_Marshal (j : json) : string := of_chars (flat_map html_escape (chars (json_print j))).

(** ** Requests, responses, scenarios *)

Record mock_request := mkMockRequest {
  mq_Method : string; mq_Path : string; mq_RawQuery : string; mq_Header : Header; mq_Body : string;
}.
(** The body is what reading it to the end yields ([readAndReset]). *)
Record mock_response := mkMockResponse { mp_StatusCode : Z; mp_Header : Header; mp_Body : string }.

Record callbackPayload := mkCallbackPayload { cp_handlerKey : string; cp_path : string; cp_body : string }.

(** [Scenario], with the optional capability [autoCallbackCarrier]: [None] for a scenario
    that does not implement it. *)
Record Scenario := mkScenario {
  Respond : nat -> mock_request -> res mock_response;
  AutoCallback : option (string -> string -> string -> option callbackPayload);
}.

Definition ScenarioFunc (f : nat -> mock_request -> res mock_response) : Scenario := mkScenario f None.

Definition jsonHeader : Header := {[ "Content-Type" := ["application/json; charset=utf-8"] ]}.
Definition jsonResponse (status : Z) (body : string) : mock_response := mkMockResponse status jsonHeader body.
Definition JSONResponse (status : Z) (v : json) : res mock_response := Ok (jsonResponse status (json_Marshal v)).

Definition obj (ms : list (string * string)) : string :=
  "{" +:+ String.concat "," (map (fun kv => dqs kv.1 +:+ ":" +:+ kv.2) ms) +:+ "}".

Definition success_body : string := obj [("code", dqs "SUCCESS"); ("message", dqs "ok")].

Definition AlwaysSuccess : Scenario := ScenarioFunc (fun _ _ => Ok (jsonResponse 200 success_body)).

Definition AlwaysProcessing : Scenario :=
  ScenarioFunc (fun _ _ => Ok (jsonResponse 200
    (obj [("code", dqs "SUCCESS"); ("message", dqs "ok"); ("data", obj [("status", dqs "PROCESSING")])]))).

Section Quoted.
Context {X : Texts}.
Definition AlwaysFailed (code : FailureCode) : Scenario :=
  ScenarioFunc (fun _ _ => Ok (jsonResponse 200
    (obj [("code", dqs "SUCCESS"); ("message", dqs "ok");
          ("data", obj (("status", dqs "FAILED") :: if negb (is_empty code) then [("failureCode", quote code)] else []))]))).

Definition AlwaysAPIError (httpStatus : Z) (code : Code) (msg : string) : Scenario :=
  ScenarioFunc (fun _ _ => Ok (jsonResponse httpStatus (obj [("code", quote code); ("message", quote msg)]))).
End Quoted.

(** A nil scenario under a key is [None]. *)
Definition PerEndpoint (byOp : gmap string (option Scenario)) (fallback : option Scenario) : Scenario :=
  let fallback := default AlwaysSuccess fallback in
  let at_op key := match byOp !! key with Some (Some s) => Some s | _ => None end in
  mkScenario
    (fun n r => Respond (default fallback (at_op (ToUpper (mq_Method r) +:+ " " +:+ mq_Path r))) n r)
    (Some (fun op reqBody respBody =>
       match (let* s := from_option Ok (Err tt) (at_op op) in from_option Ok (Err tt) (AutoCallback s)) with
       | Ok carrier => carrier op reqBody respBody
       | Err _ =>
           match AutoCallback fallback with
           | Some carrier => carrier op reqBody respBody
           | None => None
           end
       end)).

(** ** The transport ([mock/transport.go]) *)

Record RecordedRequest := mkRecorded {
  rc_Method : string; rc_Path : string; rc_Headers : Header; rc_Query : string; rc_Body : string;
}.

Record MockTransport := mkTransport {
  t_scenario : Scenario;
  t_requests : list RecordedRequest;
  t_hits : gmap string Z;
}.

(** A nil scenario ends the test. *)
Definition NewTransport (scenario : option Scenario) : res MockTransport :=
  match scenario with
  | None => Err (ENew "mock.NewTransport: nil Scenario")
  | Some s => Ok (mkTransport s [] ∅)
  end.

Definition SetScenario (t : MockTransport) (scenario : option Scenario) : res MockTransport :=
  match scenario with
  | None => Err (ENew "mock.Transport.SetScenario: nil Scenario")
  | Some s => Ok (mkTransport s (t_requests t) (t_hits t))
  end.

Definition Hits (t : MockTransport) (op : string) : Z := default 0 (t_hits t !! op).
Definition Requests (t : MockTransport) : list RecordedRequest := t_requests t.
Definition ResetTransport (t : MockTransport) : MockTransport := mkTransport (t_scenario t) [] ∅.

(** A body by its reads: the bytes each one yields, with its error; past the last one
    lies [io.EOF]. *)
Definition reads := list (string * option error).

Fixpoint drain (body : string) (rs : reads) : string :=
  match rs with
  | [] => body
  | (chunk, err) :: rs =>
      let body := body +:+ chunk in
      match err with Some _ => body | None => drain body rs end
  end.

(** The reads of a [bytes.Reader], through a buffer of 4096 bytes; each takes one at least. *)
Fixpoint bytes_reads (fuel : nat) (l : list ascii) : reads :=
  match fuel, l with
  | S fuel, _ :: _ => (of_chars (take 4096 l), None) :: bytes_reads fuel (drop 4096 l)
  | _, _ => []
  end.
Definition newNopCloserBytes (b : string) : reads := bytes_reads (length (chars b)) (chars b).

(** The bytes read, and the body the request is left with. *)
Definition readAndReset (b : option reads) : string * option reads :=
  match b with
  | None => ("", None)
  | Some rs => let body := drain "" rs in (body, Some (newNopCloserBytes body))
  end.

Lemma drain_bytes fuel l body : (length l <= fuel)%nat -> drain body (bytes_reads fuel l) = body +:+ of_chars l.
Proof.
  revert l body. induction fuel as [|fuel IH]; intros [|a l] body Hl; cbn [bytes_reads drain length] in *; try lia.
  1,2: by rewrite str_app_nil_r.
  rewrite IH by (rewrite length_drop; cbn [length]; lia).
  by rewrite str_app_assoc, <- of_chars_app, take_drop.
Qed.

(** Who reads the body next, the server after the transport say, reads the same bytes. *)
Lemma readAndReset_again b : (readAndReset (readAndReset b).2).1 = (readAndReset b).1.
Proof.
  destruct b as [rs|]; [|done]. cbn [readAndReset fst snd]. unfold newNopCloserBytes.
  rewrite drain_bytes by done. apply of_chars_chars.
Qed.

Definition RoundTrip (t : MockTransport) (r : mock_request) : res mock_response * MockTransport :=
  let rec := mkRecorded (mq_Method r) (mq_Path r) (mq_Header r) (mq_RawQuery r) (mq_Body r) in
  let op := mq_Method r +:+ " " +:+ mq_Path r in
  (Respond (t_scenario t) (length (t_requests t)) r,
   mkTransport (t_scenario t) (t_requests t ++ [rec]) (<[op := i64 (Hits t op + 1)]> (t_hits t))).

(** The part of a body that names the request. *)
Record blob := mkBlob { blob_RequestID : string }.
Definition blob_json : codec blob := struct (mkBlob "") [ "requestId" ~> blob_RequestID as str ].
Definition blob_requestId (body : string) : string :=
  match unmarshal blob_json body with Some b => blob_RequestID b | None => "" end.

(** ** Options of the server ([mock/server_options.go]) *)

(** [normalizeOpKey]: the method in upper case. *)
Fixpoint normalize_chars (seen l : list ascii) : option (list ascii) :=
  match l with
  | [] => None
  | c :: l' => if bool_decide (c = " "%char) then Some (map to_upper (rev seen) ++ l) else normalize_chars (c :: seen) l'
  end.
Definition normalizeOpKey (op : string) : string :=
  match normalize_chars [] (chars op) with Some l => of_chars l | None => op end.

Section Server.
Context {X : Texts} {R : RSA} {P : X509} {A : AES} {S : Type}.

(** A partner's callback handler: its reply, or the value it panics with, and the partner's
    state after it. *)
Definition http_Handler : Type := inbound -> S -> result string reply * S.

Record serverConfig := mkServerConfig {
  sc_specValidation : bool;
  sc_idempotency : bool;
  sc_idempotencyCacheSize : Z;
  sc_idempotencyDecryptPEM : string;
  sc_autoCallbackHandlers : gmap string http_Handler;
  sc_autoCallbackURL : string;
  sc_autoCallbackDelay : Z;
  sc_autoCallbackSignerPEM : string;
  sc_responseSigningKeyPEM : string;
}.
Definition ServerOption : Type := serverConfig -> serverConfig.

Definition WithSpecValidation : ServerOption := fun c =>
  mkServerConfig true (sc_idempotency c) (sc_idempotencyCacheSize c) (sc_idempotencyDecryptPEM c)
    (sc_autoCallbackHandlers c) (sc_autoCallbackURL c) (sc_autoCallbackDelay c) (sc_autoCallbackSignerPEM c)
    (sc_responseSigningKeyPEM c).
Definition WithIdempotency : ServerOption := fun c =>
  mkServerConfig (sc_specValidation c) true
    (if sc_idempotencyCacheSize c =? 0 then 1024 else sc_idempotencyCacheSize c) (sc_idempotencyDecryptPEM c)
    (sc_autoCallbackHandlers c) (sc_autoCallbackURL c) (sc_autoCallbackDelay c) (sc_autoCallbackSignerPEM c)
    (sc_responseSigningKeyPEM c).
Definition WithIdempotencyCacheSize (n : Z) : ServerOption := fun c =>
  if 0 <? n then
    mkServerConfig (sc_specValidation c) (sc_idempotency c) n (sc_idempotencyDecryptPEM c)
      (sc_autoCallbackHandlers c) (sc_autoCallbackURL c) (sc_autoCallbackDelay c) (sc_autoCallbackSignerPEM c)
      (sc_responseSigningKeyPEM c)
  else c.
Definition WithIdempotencyDecryptKey (privPEM : string) : ServerOption := fun c =>
  mkServerConfig (sc_specValidation c) (sc_idempotency c) (sc_idempotencyCacheSize c) privPEM
    (sc_autoCallbackHandlers c) (sc_autoCallbackURL c) (sc_autoCallbackDelay c) (sc_autoCallbackSignerPEM c)
    (sc_responseSigningKeyPEM c).

(** The map is ranged over in an order of its own: the list. *)
Definition WithAutoCallback (handlerByOp : list (string * http_Handler)) : ServerOption := fun c =>
  mkServerConfig (sc_specValidation c) (sc_idempotency c) (sc_idempotencyCacheSize c) (sc_idempotencyDecryptPEM c)
    (fold_left (fun out kh => <[normalizeOpKey kh.1 := kh.2]> out) handlerByOp ∅) (sc_autoCallbackURL c)
    (sc_autoCallbackDelay c) (sc_autoCallbackSignerPEM c) (sc_responseSigningKeyPEM c).
Definition WithCallbackURL (url : string) : ServerOption := fun c =>
  mkServerConfig (sc_specValidation c) (sc_idempotency c) (sc_idempotencyCacheSize c) (sc_idempotencyDecryptPEM c)
    (sc_autoCallbackHandlers c) url (sc_autoCallbackDelay c) (sc_autoCallbackSignerPEM c) (sc_responseSigningKeyPEM c).
Definition WithCallbackDelay (d : Z) : ServerOption := fun c =>
  mkServerConfig (sc_specValidation c) (sc_idempotency c) (sc_idempotencyCacheSize c) (sc_idempotencyDecryptPEM c)
    (sc_autoCallbackHandlers c) (sc_autoCallbackURL c) d (sc_autoCallbackSignerPEM c) (sc_responseSigningKeyPEM c).
Definition WithAutoCallbackKey (privPEM : string) : ServerOption := fun c =>
  mkServerConfig (sc_specValidation c) (sc_idempotency c) (sc_idempotencyCacheSize c) (sc_idempotencyDecryptPEM c)
    (sc_autoCallbackHandlers c) (sc_autoCallbackURL c) (sc_autoCallbackDelay c) privPEM (sc_responseSigningKeyPEM c).
Definition WithResponseSigning (privPEM : string) : ServerOption := fun c =>
  mkServerConfig (sc_specValidation c) (sc_idempotency c) (sc_idempotencyCacheSize c) (sc_idempotencyDecryptPEM c)
    (sc_autoCallbackHandlers c) (sc_autoCallbackURL c) (sc_autoCallbackDelay c) (sc_autoCallbackSignerPEM c) privPEM.

Definition zero_config : serverConfig := mkServerConfig false false 0 "" ∅ "" 0 "" "".

(** ** The server *)

Record Server := mkServer {
  ms_transport : MockTransport;
  ms_idem : option idempotencyCache;
  ms_failures : list error;            (* tb.Errorf *)
  ms_posts : list (string * Header * string);   (* callbacks POSTed: URL, header, body *)
  ms_partner : S;
}.

Definition NewServer (scenario : option Scenario) (opts : list (option ServerOption)) (partner : S)
    : res (serverConfig * Server) :=
  match scenario with
  | None => Err (ENew "mock.NewServer: nil Scenario")
  | Some _ =>
      let cfg := fold_left (fun c o => match o with Some o => o c | None => c end) opts zero_config in
      let* tr := NewTransport scenario in
      Ok (cfg, mkServer tr (if sc_idempotency cfg then Some (newIdempotencyCache (sc_idempotencyCacheSize cfg)) else None)
                 [] [] partner)
  end.

Definition ResetServer (s : Server) : Server :=
  mkServer (ResetTransport (ms_transport s)) (Reset_ <$> ms_idem s) (ms_failures s) (ms_posts s) (ms_partner s).

Definition Errorf (s : Server) (err : error) : Server :=
  mkServer (ms_transport s) (ms_idem s) (ms_failures s ++ [err]) (ms_posts s) (ms_partner s).
Definition set_idem (s : Server) (c : idempotencyCache) : Server :=
  mkServer (ms_transport s) (Some c) (ms_failures s) (ms_posts s) (ms_partner s).
Definition set_transport (s : Server) (t : MockTransport) : Server :=
  mkServer t (ms_idem s) (ms_failures s) (ms_posts s) (ms_partner s).
Definition set_partner (s : Server) (p : S) : Server :=
  mkServer (ms_transport s) (ms_idem s) (ms_failures s) (ms_posts s) p.
Definition add_post (s : Server) (post : string * Header * string) : Server :=
  mkServer (ms_transport s) (ms_idem s) (ms_failures s) (ms_posts s ++ [post]) (ms_partner s).

(** What the outside does during one request: the error of the request's context when the
    response and when the callback is signed, the randomness of the two signatures, the
    instant the callback handler reads its clock, and how building and sending a callback
    to a URL go. *)
Record dispatch_env := mkDispatchEnv {
  de_sign_ctx : option error; de_sign_rnd : nat;
  de_callback_ctx : option error; de_callback_rnd : nat;
  de_now : Z;
  de_request_error : option error; de_post_error : option error;
}.

(** [signBodyWithPEM] *)
Definition signBodyWithPEM (ctx_err : option error) (rnd : nat) (body privPEM : string) : res string :=
  let* priv := LoadPrivateKeyPEM privPEM [] in
  let* signer := NewRSA2Signer (Some priv) [] in
  rsa2Signer_Sign signer rnd ctx_err body.

(** ** The dispatch ([mock/server_dispatch.go]) *)

Definition Values_Get (q : Values) (key : string) : string := default "" (head (q !!! key)).

Definition writeJSONErrorMock (status : Z) (code message : string) : reply :=
  mkReply status jsonHeader (json_Marshal (JObj [("code", JStr code); ("message", JStr message)]) +:+ String "010" "").

(** The required headers, in order; whether [Encrypt] is among them. *)
Fixpoint check_headers (names : list string) (h : Header) : result string bool :=
  match names with
  | [] => Ok false
  | name :: names =>
      if is_empty (Header_Get h name) then Err name
      else let* encrypted := check_headers names h in Ok (bool_decide (name = "Encrypt") || encrypted)
  end.

(** [None]: valid; else the status, code and message to reply with. *)
Definition specValidate (spec : res Spec) (s : Server) (r : mock_request) : option (Z * string * string) * Server :=
  match spec with
  | Err err => (None, Errorf s (EErrorf "mock.Server: WithSpecValidation: load: %v" [AErr err]))
  | Ok spec =>
      (match Op (Some spec) (mq_Method r) (mq_Path r) with
       | None => None
       | Some op =>
           match check_headers (op_RequiredHeader op) (mq_Header r) with
           | Err name => Some (400, "PARAMS_MISSING", "missing required header " +:+ quote name)
           | Ok encrypted =>
               if bool_decide (mq_Method r = "GET") then
                 match List.find (fun name => is_empty (Values_Get (ParseQuery (mq_RawQuery r)).1 name)) (op_RequiredQuery op) with
                 | Some name => Some (400, "PARAMS_MISSING", "missing required query param " +:+ quote name)
                 | None => None
                 end
               else if bool_decide (mq_Method r = "POST") && negb encrypted then
                 match ValidateBody (mq_Body r) (op_RequiredBody op) with
                 | None => Some (400, "WRONG_PARAMS_FORMAT", "invalid JSON body: " +:+ decode_error (mq_Body r))
                 | Some missing =>
                     if is_empty missing then None
                     else Some (400, "PARAMS_MISSING", "missing required body field " +:+ quote missing)
                 end
               else None
           end
       end, s)
  end.

Definition requestIDFromEncryptedBody (cfg : serverConfig) (s : Server) (encryptHeader body : string) : string * Server :=
  match LoadPrivateKeyPEM (sc_idempotencyDecryptPEM cfg) [] with
  | Err err => ("", Errorf s (EErrorf "mock.Server: WithIdempotencyDecryptKey: load: %v" [AErr err]))
  | Ok priv =>
      (match Encrypt.Unmarshal encryptHeader body (Some priv) with
       | Err _ => ""
       | Ok plain => blob_requestId plain
       end, s)
  end.

(** The cache key; [""] for a request without a request id. *)
Definition idemKey (cfg : serverConfig) (s : Server) (op : string) (r : mock_request) : string * Server :=
  let encryptHeader := Header_Get (mq_Header r) "Encrypt" in
  let key rid := if is_empty rid then "" else op +:+ "::" +:+ rid in
  if negb (is_empty encryptHeader) then
    if is_empty (sc_idempotencyDecryptPEM cfg) then ("", s)
    else let '(rid, s) := requestIDFromEncryptedBody cfg s encryptHeader (mq_Body r) in (key rid, s)
  else if bool_decide (mq_Method r = "GET") then (key (Values_Get (ParseQuery (mq_RawQuery r)).1 "requestId"), s)
  else if bool_decide (mq_Method r = "POST") then (key (blob_requestId (mq_Body r)), s)
  else ("", s).

Definition replay (e : cacheEntry) : reply :=
  mkReply (ce_status e) (Header_Set (ce_headers e) "X-Mock-Replay" "1") (ce_body e).

(** [http.Error] *)
Definition http_Error (msg : string) (status : Z) : reply :=
  mkReply status {[ "Content-Type" := ["text/plain; charset=utf-8"]; "X-Content-Type-Options" := ["nosniff"] ]}
    (msg +:+ String "010" "").

(** [r.URL.RequestURI()] of a request made for one of the package's callback paths. *)
Definition path_char (c : ascii) : string :=
  if isUnreserved c || str_contains c "$&+,/:;=@" then String c ""
  else rfc3986Escape (String c "").
Definition EscapedPath (path : string) : string := String.concat "" (map path_char (chars path)).

Variable MockSigningPrivKeyPEM : string.   (* the key file embedded in the package *)

Definition signCallback (cfg : serverConfig) (e : dispatch_env) (body : string) : res string :=
  let keyPEM := if is_empty (sc_autoCallbackSignerPEM cfg) then MockSigningPrivKeyPEM else sc_autoCallbackSignerPEM cfg in
  signBodyWithPEM (de_callback_ctx e) (de_callback_rnd e) body keyPEM.

Definition callback_header (authz : string) : Header :=
  Header_Set (Header_Set ∅ "Content-Type" "application/json") "Authorization" authz.

(** The request [httptest.NewRequest] makes; its context is the background one. *)
Definition callback_request (path body authz : string) (now : Z) : inbound :=
  mkInbound "POST" (EscapedPath path) (callback_header authz) (Some (body, None)) now (fun _ => None).

Definition fireCallbackInProcess (cfg : serverConfig) (e : dispatch_env) (s : Server) (h : http_Handler)
    (payload : callbackPayload) : Server :=
  match signCallback cfg e (cp_body payload) with
  | Err err => Errorf s (EErrorf "mock.Server: auto-callback sign: %v" [AErr err])
  | Ok authz =>
      let '(result, partner) := h (callback_request (cp_path payload) (cp_body payload) authz (de_now e)) (ms_partner s) in
      let s := set_partner s partner in
      match result with
      | Ok _ => s
      | Err panic => Errorf s (EErrorf "mock.Server: auto-callback handler panicked: %v" [AStr panic])
      end
  end.

Definition fireCallbackToURL (cfg : serverConfig) (e : dispatch_env) (s : Server) (payload : callbackPayload) : Server :=
  match signCallback cfg e (cp_body payload) with
  | Err err => Errorf s (EErrorf "mock.Server: auto-callback sign: %v" [AErr err])
  | Ok authz =>
      match de_request_error e with
      | Some err => Errorf s (EErrorf "mock.Server: auto-callback build request: %v" [AErr err])
      | None =>
          let s := add_post s (sc_autoCallbackURL cfg, callback_header authz, cp_body payload) in
          match de_post_error e with
          | Some err => Errorf s (EErrorf "mock.Server: auto-callback POST: %v" [AErr err])
          | None => s
          end
      end
  end.

(** The delay before the callback is part of [de_now]. *)
Definition fireAutoCallback (cfg : serverConfig) (e : dispatch_env) (s : Server) (op reqBody respBody : string) : Server :=
  match AutoCallback (t_scenario (ms_transport s)) with
  | None => s
  | Some carrier =>
      match carrier op reqBody respBody with
      | None => s
      | Some payload =>
          match sc_autoCallbackHandlers cfg !! normalizeOpKey (cp_handlerKey payload) with
          | Some h => fireCallbackInProcess cfg e s h payload
          | None => if negb (is_empty (sc_autoCallbackURL cfg)) then fireCallbackToURL cfg e s payload else s
          end
      end
  end.

(** Steps 4 to 6: the scenario's response, signed, remembered under [key] and written;
    then the callback. *)
Definition dispatch (cfg : serverConfig) (e : dispatch_env) (s : Server) (op key : string) (r : mock_request)
    : reply * Server :=
  let '(resp, tr) := RoundTrip (ms_transport s) r in
  let s := set_transport s tr in
  match resp with
  | Err err => (http_Error (Error quote err) 500, s)
  | Ok resp =>
      let '(hdr, s) :=
        if is_empty (sc_responseSigningKeyPEM cfg) then (mp_Header resp, s)
        else match signBodyWithPEM (de_sign_ctx e) (de_sign_rnd e) (mp_Body resp) (sc_responseSigningKeyPEM cfg) with
             | Ok authz => (Header_Set (mp_Header resp) "Authorization" authz, s)
             | Err err => (mp_Header resp, Errorf s (EErrorf "mock.Server: WithResponseSigning: %v" [AErr err]))
             end in
      let s := match ms_idem s with
               | Some c => if is_empty key then s
                           else set_idem s (Put c key (mkCacheEntry key (mp_StatusCode resp) (mp_Body resp) hdr))
               | None => s
               end in
      let rp := mkReply (mp_StatusCode resp) hdr (mp_Body resp) in
      (rp, if negb (bool_decide (sc_autoCallbackHandlers cfg = ∅)) || negb (is_empty (sc_autoCallbackURL cfg))
           then fireAutoCallback cfg e s op (mq_Body r) (mp_Body resp) else s)
  end.

Definition serveHTTP (spec : res Spec) (cfg : serverConfig) (e : dispatch_env) (s : Server) (r : mock_request)
    : reply * Server :=
  let op := OpKey (mq_Method r) (mq_Path r) in
  let '(invalid, s) := if sc_specValidation cfg then specValidate spec s r else (None, s) in
  match invalid with
  | Some (status, code, msg) => (writeJSONErrorMock status code msg, s)
  | None =>
      match ms_idem s with
      | None => dispatch cfg e s op "" r
      | Some _ =>
          let '(key, s) := idemKey cfg s op r in
          match ms_idem s with
          | None => dispatch cfg e s op key r
          | Some c =>
              if is_empty key then dispatch cfg e s op key r
              else let '(hit, c) := Get c key in
                   let s := set_idem s c in
                   match hit with
                   | Some entry => (replay entry, s)
                   | None => dispatch cfg e s op key r
                   end
          end
      end
  end.

(** * Lemmas *)

(** States that differ in what was reported to the test only. *)
Definition same_but_failures (s s' : Server) : Prop :=
  ms_transport s' = ms_transport s /\ ms_idem s' = ms_idem s /\ ms_posts s' = ms_posts s /\ ms_partner s' = ms_partner s.

Lemma specValidate_state spec s r : same_but_failures s (specValidate spec s r).2.
Proof. by destruct spec. Qed.

Lemma specValidate_answer spec s s' r : (specValidate spec s r).1 = (specValidate spec s' r).1.
Proof. by destruct spec. Qed.

(** The key of a request. *)
Definition key_of (cfg : serverConfig) (r : mock_request) : string :=
  let key rid := if is_empty rid then "" else OpKey (mq_Method r) (mq_Path r) +:+ "::" +:+ rid in
  if negb (is_empty (Header_Get (mq_Header r) "Encrypt")) then
    if is_empty (sc_idempotencyDecryptPEM cfg) then ""
    else match LoadPrivateKeyPEM (sc_idempotencyDecryptPEM cfg) [] with
         | Err _ => ""
         | Ok priv => match Encrypt.Unmarshal (Header_Get (mq_Header r) "Encrypt") (mq_Body r) (Some priv) with
                      | Err _ => ""
                      | Ok plain => key (blob_requestId plain)
                      end
         end
  else if bool_decide (mq_Method r = "GET") then key (Values_Get (ParseQuery (mq_RawQuery r)).1 "requestId")
  else if bool_decide (mq_Method r = "POST") then key (blob_requestId (mq_Body r))
  else "".

Lemma idemKey_eq cfg s r :
  (idemKey cfg s (OpKey (mq_Method r) (mq_Path r)) r).1 = key_of cfg r /\
  same_but_failures s (idemKey cfg s (OpKey (mq_Method r) (mq_Path r)) r).2.
Proof.
  unfold idemKey, key_of, requestIDFromEncryptedBody. cbv zeta.
  destruct (is_empty (Header_Get (mq_Header r) "Encrypt")); cbn [negb].
  - by destruct (bool_decide (mq_Method r = "GET")), (bool_decide (mq_Method r = "POST")).
  - destruct (is_empty (sc_idempotencyDecryptPEM cfg)); [done|].
    destruct (LoadPrivateKeyPEM _ _); [|done]. by destruct (Encrypt.Unmarshal _ _ _).
Qed.

Lemma fire_idem cfg e s op b b' : ms_idem (fireAutoCallback cfg e s op b b') = ms_idem s.
Proof.
  unfold fireAutoCallback, fireCallbackInProcess, fireCallbackToURL.
  destruct (AutoCallback _) as [carrier|]; [|done]. destruct (carrier op b b') as [payload|]; [|done].
  destruct (sc_autoCallbackHandlers cfg !! _) as [h|].
  - destruct (signCallback cfg e _); [|done]. by destruct (h _ _) as [[] ?].
  - destruct (negb _); [|done]. destruct (signCallback cfg e _); [|done].
    by destruct (de_request_error e), (de_post_error e).
Qed.

(** What a dispatch remembers: an answer of the scenario, under the key. *)
Lemma dispatch_idem cfg e s op key r :
  let '(rp, s') := dispatch cfg e s op key r in
  match (RoundTrip (ms_transport s) r).1 with
  | Err _ => ms_idem s' = ms_idem s
  | Ok _ => ms_idem s' =
      match ms_idem s with
      | Some c => Some (if is_empty key then c else Put c key (mkCacheEntry key (rp_status rp) (rp_body rp) (rp_Header rp)))
      | None => None
      end
  end.
Proof.
  unfold dispatch. destruct (RoundTrip (ms_transport s) r) as [[resp|err] tr]; [|done]. cbn [fst].
  destruct (is_empty (sc_responseSigningKeyPEM cfg)); [|destruct (signBodyWithPEM _ _ _ _)];
    (cbn [rp_status rp_body rp_Header]; destruct (negb _ || negb _); rewrite ?fire_idem;
     cbn [ms_idem set_transport set_idem Errorf]; destruct (ms_idem s) eqn:E, (is_empty key); cbn; congruence).
Qed.

(** ** Serving while an entry is remembered *)

Section Remembered.
Variables (spec : res Spec) (cfg : serverConfig) (entry : cacheEntry) (cap : nat) (T : gset string).
Hypothesis few : (size T < cap)%nat.
Hypothesis other : ce_key entry ∉ T.
Hypothesis key_nonempty : ce_key entry <> "".

(** The cache holds the entry, and before it entries under the keys of [T] only. *)
Definition remembers (s : Server) : Prop :=
  exists c l, ms_idem s = Some c /\ represents c l /\ near entry T l /\ Z.to_nat (ic_cap c) = cap.

Lemma remembers_Get s c k : remembers s -> ms_idem s = Some c -> k ∈ T \/ k = ce_key entry ->
  remembers (set_idem s (Get c k).2) /\ (k = ce_key entry -> (Get c k).1 = Some entry).
Proof.
  intros (c' & l & Hc & Hr & Hn & Hcap) Hc' Hk. rewrite Hc in Hc'. injection Hc' as ->.
  destruct (Get_refines c l k Hr) as [Ho Hr']. split.
  - exists (Get c k).2, (lru_get l k).2. split_and!; [done|done| |unfold Get; by destruct (ic_items c !! k)].
    apply (near_step entry cap T few other l (OpGet k)); [done|done|done|]. by intros k' [= <-].
  - intros ->. rewrite Ho. unfold lru_get. destruct Hn as (pre & post & -> & _ & HT). by rewrite (holds_near entry T).
Qed.

Lemma remembers_Put s c e : remembers s -> ms_idem s = Some c -> ce_key e ∈ T ->
  remembers (set_idem s (Put c (ce_key e) e)).
Proof.
  intros (c' & l & Hc & Hr & Hn & Hcap) Hc' Hk. rewrite Hc in Hc'. injection Hc' as ->.
  destruct (Put_refines c l e Hr) as [Hcap' Hr']. exists (Put c (ce_key e) e), (lru_put (Z.to_nat (ic_cap c)) l e).
  split_and!; [done|done| |by rewrite Hcap']. rewrite Hcap.
  apply (near_step entry cap T few other l (OpPut e)); [done|done| |].
  - intros x [= <-] He. by rewrite He in Hk.
  - intros k [= <-]. by left.
Qed.

Lemma remembers_idem s s' : ms_idem s' = ms_idem s -> remembers s -> remembers s'.
Proof. intros He (c & l & Hc & H). exists c, l. by rewrite He. Qed.

(** A dispatch under a key of [T], or none, does not forget the entry. *)
Lemma dispatch_remembers e s op key r : remembers s -> key = "" \/ key ∈ T -> remembers (dispatch cfg e s op key r).2.
Proof.
  intros Hs Hk. pose proof (dispatch_idem cfg e s op key r) as Hd. destruct (dispatch cfg e s op key r) as [rp s']. cbn [snd].
  destruct (RoundTrip (ms_transport s) r).1 as [resp|err]; [|by eapply remembers_idem].
  pose proof Hs as (c & l & Hc & _). rewrite Hc in Hd. destruct (is_empty key) eqn:Ek.
  - eapply remembers_idem; [|exact Hs]. congruence.
  - apply is_empty_false in Ek. destruct Hk as [->|Hk]; [done|].
    eapply remembers_idem; [|apply (remembers_Put s c (mkCacheEntry key (rp_status rp) (rp_body rp) (rp_Header rp))); done].
    by rewrite Hd.
Qed.

(** Serving a request: one under the key of the entry and admitted is answered from the
    cache, with no trace at the transport, at the callback URL or with the partner. *)
Lemma serve_remembers e s r : remembers s ->
  key_of cfg r = "" \/ key_of cfg r ∈ T \/ key_of cfg r = ce_key entry ->
  remembers (serveHTTP spec cfg e s r).2 /\
  (key_of cfg r = ce_key entry -> sc_specValidation cfg = false \/ (specValidate spec s r).1 = None ->
   (serveHTTP spec cfg e s r).1 = replay entry /\
   ms_transport (serveHTTP spec cfg e s r).2 = ms_transport s /\ ms_posts (serveHTTP spec cfg e s r).2 = ms_posts s /\
   ms_partner (serveHTTP spec cfg e s r).2 = ms_partner s).
Proof.
  intros Hs Hk. unfold serveHTTP. cbv zeta.
  pose proof (specValidate_state spec s r) as Hsv.
  set (vs := if sc_specValidation cfg then specValidate spec s r else (None, s)).
  assert (Hvs : same_but_failures s vs.2) by (unfold vs; destruct (sc_specValidation cfg); [exact Hsv|done]).
  assert (Hva : sc_specValidation cfg = false \/ (specValidate spec s r).1 = None -> vs.1 = None).
  { unfold vs. destruct (sc_specValidation cfg); [intros [[=]|]; done|done]. }
  clearbody vs. clear Hsv. destruct vs as [invalid s1]. cbn [fst snd] in *.
  destruct Hvs as (Ht1 & Hi1 & Hp1 & Hpa1). pose proof (remembers_idem s s1 Hi1 Hs) as Hs1.
  destruct invalid as [[[status code] msg]|]; [split; [done|]; intros _ Hadm; by specialize (Hva Hadm)|].
  pose proof Hs1 as (c & l & Hc & _). rewrite Hc.
  destruct (idemKey_eq cfg s1 r) as [Hkey (Ht2 & Hi2 & Hp2 & Hpa2)].
  destruct (idemKey cfg s1 (OpKey (mq_Method r) (mq_Path r)) r) as [key s2]. cbn [fst snd] in *. subst key.
  pose proof (remembers_idem s1 s2 Hi2 Hs1) as Hs2. rewrite Hc in Hi2. rewrite Hi2.
  destruct (is_empty (key_of cfg r)) eqn:Ek.
  - apply is_empty_true in Ek. rewrite Ek. split; [by apply dispatch_remembers; [|left]|]. intros He. congruence.
  - apply is_empty_false in Ek. destruct Hk as [|Hk]; [done|].
    destruct (remembers_Get s2 c (key_of cfg r) Hs2 Hi2 Hk) as [Hs3 Hhit].
    destruct (Get c (key_of cfg r)) as [hit c']. cbn [fst snd] in *.
    destruct (decide (key_of cfg r = ce_key entry)) as [He|Hne].
    + rewrite (Hhit He). split; [done|]. intros _ _. cbn [fst snd set_idem ms_transport ms_posts ms_partner].
      split_and!; [done|congruence..].
    + split; [|done]. destruct hit; [done|]. apply dispatch_remembers; [done|]. right. by destruct Hk.
Qed.
End Remembered.

(** The first answer under a key is remembered. *)
Lemma serve_first spec cfg e s r c l T :
  ms_idem s = Some c -> represents c l -> key_of cfg r <> "" ->
  sc_specValidation cfg = false \/ (specValidate spec s r).1 = None -> is_ok (RoundTrip (ms_transport s) r).1 = true ->
  let '(rp, s') := serveHTTP spec cfg e s r in
  exists entry, ce_key entry = key_of cfg r /\
    replay entry = mkReply (rp_status rp) (Header_Set (rp_Header rp) "X-Mock-Replay" "1") (rp_body rp) /\
    remembers entry (Z.to_nat (ic_cap c)) T s'.
Proof.
  intros Hc Hl Hk Hadm Hrt. unfold serveHTTP. cbv zeta. pose proof (specValidate_state spec s r) as Hsv.
  set (vs := if sc_specValidation cfg then specValidate spec s r else (None, s)).
  assert (Hvs : same_but_failures s vs.2) by (unfold vs; destruct (sc_specValidation cfg); [exact Hsv|done]).
  assert (Hva : vs.1 = None) by (unfold vs; destruct (sc_specValidation cfg); [by destruct Hadm|done]).
  clearbody vs. clear Hsv. destruct vs as [invalid s1]. cbn [fst snd] in *. subst invalid.
  destruct Hvs as (Ht1 & Hi1 & _). rewrite Hc in Hi1. rewrite Hi1.
  destruct (idemKey_eq cfg s1 r) as [Hkey (Ht2 & Hi2 & _)].
  destruct (idemKey cfg s1 (OpKey (mq_Method r) (mq_Path r)) r) as [key s2]. cbn [fst snd] in *. subst key.
  rewrite Hi1 in Hi2. rewrite Hi2, (proj2 (is_empty_false _) Hk).
  destruct (Get_refines c l (key_of cfg r) Hl) as [Ho Hr'].
  assert (Hcap : ic_cap (Get c (key_of cfg r)).2 = ic_cap c) by (unfold Get; by destruct (ic_items c !! key_of cfg r)).
  destruct (Get c (key_of cfg r)) as [hit c'] eqn:Eg. cbn [fst snd] in *.
  unfold lru_get in Ho, Hr'. destruct (holds (key_of cfg r) l) as [e0|] eqn:Eh; cbn [fst snd] in *; subst hit.
  - apply holds_Some in Eh as [_ Hke]; [|destruct Hl as [_ _ (ps & _ & -> & _ & ? & _)]; done].
    exists e0. split; [done|]. split.
    + unfold replay. cbn. f_equal. unfold Header_Set. by rewrite insert_insert_eq.
    + exists c', (e0 :: without (key_of cfg r) l). split_and!; [done|done| |by rewrite Hcap].
      exists [], (without (key_of cfg r) l). split_and!; [done|constructor|by intros ? []%elem_of_nil].
  - pose proof (dispatch_idem cfg e (set_idem s2 c') (OpKey (mq_Method r) (mq_Path r)) (key_of cfg r) r) as Hd.
    destruct (dispatch cfg e (set_idem s2 c') _ _ r) as [rp s'].
    cbn [ms_transport ms_idem set_idem] in Hd. rewrite Ht2, Ht1 in Hd.
    destruct (RoundTrip (ms_transport s) r).1 as [resp|]; [|done].
    rewrite (proj2 (is_empty_false _) Hk) in Hd.
    set (entry := mkCacheEntry (key_of cfg r) (rp_status rp) (rp_body rp) (rp_Header rp)) in *.
    destruct (Put_refines c' l entry Hr') as [Hcap' Hr'']. cbn [ce_key entry] in *.
    exists entry. split; [done|]. split; [done|]. eexists _, _. split; [exact Hd|]. split; [exact Hr''|]. split.
    + exists [], (take (Z.to_nat (ic_cap c') - 1) (without (key_of cfg r) l)).
      split_and!; [done|constructor|by intros ? []%elem_of_nil].
    + by rewrite Hcap', Hcap.
Qed.

(** What may happen to a server between two requests. *)
Inductive mock_action :=
| Serve (e : dispatch_env) (r : mock_request)
| Swap (scenario : Scenario).

Definition act (spec : res Spec) (cfg : serverConfig) (s : Server) (a : mock_action) : Server :=
  match a with
  | Serve e r => (serveHTTP spec cfg e s r).2
  | Swap scenario =>
      set_transport s (mkTransport scenario (t_requests (ms_transport s)) (t_hits (ms_transport s)))
  end.

Definition action_key (cfg : serverConfig) (a : mock_action) : option string :=
  match a with Serve _ r => Some (key_of cfg r) | Swap _ => None end.

(** The keys, other than [k], that the requests of [actions] have. *)
Definition keys_between (cfg : serverConfig) (k : string) (actions : list mock_action) : gset string :=
  list_to_set (omap (action_key cfg) actions) ∖ {[k; ""]}.

Lemma act_remembers spec cfg entry cap T actions s :
  (size T < cap)%nat -> ce_key entry ∉ T -> ce_key entry <> "" ->
  remembers entry cap T s ->
  (forall a k, a ∈ actions -> action_key cfg a = Some k -> k = "" \/ k ∈ T \/ k = ce_key entry) ->
  remembers entry cap T (fold_left (act spec cfg) actions s).
Proof.
  intros Hf Ho Hne. revert s. induction actions as [|a actions IH]; intros s Hs Hk; [done|]. cbn [fold_left].
  apply IH; [|intros a' k Ha; apply Hk; by right]. destruct a as [e r|sc]; cbn [act].
  - apply serve_remembers; [done..|]. eapply Hk; [by left|done].
  - by eapply remembers_idem; [|exact Hs].
Qed.

End Server.
Arguments Server : clear implicits.
Arguments serverConfig : clear implicits.

(** * Claims *)

(** C16.  The mock server with [WithIdempotency] replays.  Once a request with a request id
    has been answered, any later request with the same method, path and request id gets
    the same status, body and header, marked as a replay, whatever scenario is active by
    then and whatever was served in between, unless as many other request ids as the cache
    holds came in between; a replay is not counted, does not reach the scenario and fires
    no callback. *)
Theorem server_replay {X : Texts} {R : RSA} {P : X509} {A : AES} {S : Type} key
    spec cfg (s : Server S) c l e1 r1 actions e2 r2 :
  ms_idem s = Some c -> represents c l -> is_ok (RoundTrip (ms_transport s) r1).1 = true ->
  key_of cfg r1 <> "" -> key_of cfg r2 = key_of cfg r1 ->
  sc_specValidation cfg = false \/ (forall s' : Server S, (specValidate spec s' r1).1 = None /\ (specValidate spec s' r2).1 = None) ->
  Z.of_nat (size (keys_between cfg (key_of cfg r1) actions)) < ic_cap c ->
  let first := serveHTTP key spec cfg e1 s r1 in
  let s2 := fold_left (act key spec cfg) actions first.2 in
  let again := serveHTTP key spec cfg e2 s2 r2 in
  rp_status again.1 = rp_status first.1 /\ rp_body again.1 = rp_body first.1 /\
  rp_Header again.1 = Header_Set (rp_Header first.1) "X-Mock-Replay" "1" /\
  ms_transport again.2 = ms_transport s2 /\ ms_posts again.2 = ms_posts s2 /\ ms_partner again.2 = ms_partner s2.
Proof.
  intros Hc Hl Hrt Hk Hk2 Hadm Hfew first s2 again. set (T := keys_between cfg (key_of cfg r1) actions) in *.
  pose proof (serve_first key spec cfg e1 s r1 c l T Hc Hl Hk) as Hfirst. fold first in Hfirst.
  destruct first as [rp1 s1]. cbn [fst snd] in *.
  destruct Hfirst as (entry & Hke & Hrp & Hrem); [by destruct Hadm as [|Ha]; [left|right; apply Ha]|done|].
  assert (Ho : ce_key entry ∉ T) by (unfold T, keys_between; rewrite Hke; set_solver).
  assert (Hrem2 : remembers entry (Z.to_nat (ic_cap c)) T s2).
  { apply act_remembers; [lia|done|by rewrite Hke|done|]. intros a k Ha Hka. unfold T, keys_between. rewrite Hke.
    destruct (decide (k = "")), (decide (k = key_of cfg r1)); [by left..|by right; right|right; left].
    apply elem_of_difference. split; [|set_solver]. apply elem_of_list_to_set, list_elem_of_omap. eauto. }
  destruct (serve_remembers key spec cfg entry (Z.to_nat (ic_cap c)) T ltac:(lia) Ho ltac:(by rewrite Hke) e2 s2 r2 Hrem2)
    as [_ Hhit]; [rewrite Hk2, <- Hke; by right; right|].
  destruct Hhit as (Hr & Ht & Hp & Hpa); [by rewrite Hk2|by destruct Hadm as [|Ha]; [left|right; apply Ha]|].
  unfold again. rewrite Hr, Hrp. cbn. by split_and!.
Qed.

(** ** A server with idempotency, asked twice *)

Definition toy_dispatch_env : dispatch_env := mkDispatchEnv None 0 None 0 0 None None.
Definition toy_auth (id : string) : mock_request :=
  mkMockRequest "POST" "/auth" "" ∅ (json_print (JObj [("requestId", JStr id)])).
Definition toy_mock : res (serverConfig unit * Server unit) :=
  NewServer (Some AlwaysSuccess) [Some WithIdempotency; None; Some (WithIdempotencyCacheSize 2)] tt.

(** The second answer is the first, though the scenario has changed by then. *)
Lemma server_replay_witness :
  exists cfg s c, toy_mock = Ok (cfg, s) /\ ms_idem s = Some c /\
  let serve := @serveHTTP toy_texts toy_RSA toy_X509 toy_AES unit "" (Ok ∅) cfg toy_dispatch_env in
  let actions := [Swap AlwaysProcessing; Serve toy_dispatch_env (toy_auth "other")] in
  let s2 := fold_left (@act toy_texts toy_RSA toy_X509 toy_AES unit "" (Ok ∅) cfg) actions (serve s (toy_auth "r")).2 in
  rp_body (serve s2 (toy_auth "r")).1 = success_body /\ Hits (ms_transport (serve s2 (toy_auth "r")).2) "POST /auth" = 2.
Proof.
  do 3 eexists. split; [reflexivity|]. split; [reflexivity|]. cbv zeta.
  match goal with |- rp_body (serveHTTP _ _ ?cfg _ (fold_left _ ?actions (serveHTTP _ _ _ _ ?s _).2) _).1 = _ /\ _ =>
    pose proof (@server_replay toy_texts toy_RSA toy_X509 toy_AES unit "" (Ok ∅) cfg s _ [] toy_dispatch_env
      (toy_auth "r") actions toy_dispatch_env (toy_auth "r") eq_refl (new_represents 2)) as H end.
  cbv zeta in H. destruct H as (_ & Hb & _ & Ht & _).
  - vm_compute. reflexivity.
  - vm_compute. discriminate.
  - reflexivity.
  - by left.
  - vm_compute. reflexivity.
  - rewrite Hb, Ht. split; vm_compute; reflexivity.
Defined.
