(* ===== verification/MockScenarios.v ===== *)
(** * MockScenarios: the typed scenarios of the mock server ([mock/scenarios_typed.go]):
    the answer to the request and the event of the callback that follows it. *)
From S2P Require Import Prelude GoStd Errors Canonical GoCrypto Sign Encrypt GoHttp Json Codec Schema Transport World.
From S2P Require Import Client PaymentTypes Payment Refund Repayment CreditTypes Callback MockCache Spec Mock.

(** [callbackEvent] is the encoding of the event, [None] for none. *)
Record typedScenario := mkTypedScenario {
  ts_respStatus : Z;
  ts_respBody : string;
  ts_callbackEvent : option json;
  ts_callbackHandlerKey : string;
  ts_callbackPath : string;
}.

Definition typed_AutoCallback (t : typedScenario) (_ _ _ : string) : option callbackPayload :=
  match ts_callbackEvent t with
  | None => None
  | Some event => Some (mkCallbackPayload (ts_callbackHandlerKey t) (ts_callbackPath t) (json_Marshal event))
  end.

(** The scenario a builder returns. *)
Definition typed (t : typedScenario) : Scenario :=
  mkScenario (fun _ _ => Ok (jsonResponse (ts_respStatus t) (ts_respBody t))) (Some (typed_AutoCallback t)).

Definition jsonOK {T} (c : codec T) (v : T) : Z * string := (200, json_Marshal (c_enc c v)).

Definition answer_only {T} (c : codec T) (resp : T) : typedScenario :=
  let '(status, body) := jsonOK c resp in mkTypedScenario status body None "" "".
(** The literal the builders write out: the answer and an event for the handler at [path]. *)
Definition answer_and_event {T U} (c : codec T) (resp : T) (ce : codec U) (event : U) (path : string) : typedScenario :=
  let '(status, body) := jsonOK c resp in
  mkTypedScenario status body (Some (c_enc ce event)) ("POST " +:+ path) path.

Definition auth_data (authOrderID : string) (status : Status) (failureCode : FailureCode) : AuthResponse :=
  mkAuthResponse CodeSuccess "ok"
    (Some (mkAuthorizationData "" CurrencyIDR authOrderID 0 status failureCode [] None None)).
Definition AuthSuccess (authOrderID : string) : typedScenario :=
  let resp := auth_data authOrderID StatusSuccess "" in
  answer_and_event AuthResponse_json resp AuthResponse_json resp "/<authNotifyUrl>".
Definition AuthProcessing : typedScenario := answer_only AuthResponse_json (auth_data "" StatusProcessing "").
Definition AuthFailed (failureCode : FailureCode) : typedScenario :=
  let resp := auth_data "" StatusFailed failureCode in
  answer_and_event AuthResponse_json resp AuthResponse_json resp "/<authNotifyUrl>".

Definition capture_data (authOrderID : string) : CaptureResponse :=
  mkCaptureResponse CodeSuccess "ok" (Some (mkCaptureResultData (c_zero PaymentResult_json) authOrderID)).
Definition CaptureSuccess (authOrderID : string) : typedScenario :=
  let resp := capture_data authOrderID in
  answer_and_event CaptureResponse_json resp CaptureResponse_json resp "/<captureNotifyUrl>".
Definition CaptureProcessing : typedScenario := answer_only CaptureResponse_json (capture_data "").
Definition CaptureFailed (failureCode : FailureCode) : typedScenario :=
  let resp := capture_data "" in
  answer_and_event CaptureResponse_json resp CaptureResponse_json resp "/<captureNotifyUrl>".

Definition void_data : VoidAuthResponse := mkVoidAuthResponse CodeSuccess "ok" (Some (c_zero VoidResultData_json)).
Definition VoidAuthSuccess : typedScenario := answer_only VoidAuthResponse_json void_data.
Definition VoidAuthFailed (failureCode : FailureCode) : typedScenario := answer_only VoidAuthResponse_json void_data.

Definition refund_data (refundOrderID : string) (status : Status) (failureCode : FailureCode) : RefundResponse :=
  mkRefundResponse CodeSuccess "ok"
    (Some (mkRefundResult "" "" refundOrderID 0 0 0 status failureCode CurrencyIDR [] None)).
Definition RefundSuccess (refundOrderID : string) : typedScenario :=
  let resp := refund_data refundOrderID StatusSuccess "" in
  answer_and_event RefundResponse_json resp RefundResponse_json resp "/<refundNotifyUrl>".
Definition RefundProcessing : typedScenario := answer_only RefundResponse_json (refund_data "" StatusProcessing "").
Definition RefundFailed (failureCode : FailureCode) : typedScenario :=
  let resp := refund_data "" StatusFailed failureCode in
  answer_and_event RefundResponse_json resp RefundResponse_json resp "/<refundNotifyUrl>".

Definition repayment_data (repaymentID : string) (status : Status) : RepaymentResponse :=
  mkRepaymentResponse CodeSuccess "ok" (Some (mkRepaymentResult "" repaymentID status CurrencyIDR 0 0 "" None)).
Definition RepaymentSuccess (repaymentID : string) : typedScenario :=
  let resp := repayment_data repaymentID StatusSuccess in
  answer_and_event RepaymentResponse_json resp RepaymentResponse_json resp "/repayment-callback".
Definition RepaymentProcessing : typedScenario := answer_only RepaymentResponse_json (repayment_data "" StatusProcessing).
Definition RepaymentFailed (failureCode : FailureCode) : typedScenario :=
  let resp := repayment_data "" StatusFailed in
  answer_and_event RepaymentResponse_json resp RepaymentResponse_json resp "/repayment-callback".

Definition application_data (status : CreditStatus) : CreditApplicationResponse :=
  mkCreditApplicationResponse CodeSuccess "ok"
    (Some (mkCreditApplicationResult "" status 0 [] CurrencyIDR None None 0 0 None)).
Definition CreditApplicationSuccess : typedScenario :=
  let resp := application_data "SUCCESS" in
  answer_and_event CreditApplicationResponse_json resp CreditApplicationResponse_json resp "/<creditApplicationNotifyUrl>".
Definition CreditApplicationProcessing : typedScenario :=
  answer_only CreditApplicationResponse_json (application_data "PROCESSING").
Definition CreditApplicationFailed : typedScenario :=
  let resp := application_data "FAILED" in
  answer_and_event CreditApplicationResponse_json resp CreditApplicationResponse_json resp "/<creditApplicationNotifyUrl>".

Definition information_data : CreditInformationResponse := mkCreditInformationResponse CodeSuccess "ok" None.
Definition information_event (status : CreditStatus) : CreditInformationEvent :=
  mkCreditInformationCollectResponse CodeSuccess "ok" (Some (mkCreditApplicationCollectQueryResult "" "" status "" None)).
Definition CreditInformationSuccess : typedScenario :=
  answer_and_event CreditInformationResponse_json information_data CreditInformationCollectResponse_json
    (information_event "SUCCESS") "/<creditInformationNotifyUrl>".
Definition CreditInformationProcessing : typedScenario := answer_only CreditInformationResponse_json information_data.
Definition CreditInformationFailed : typedScenario :=
  answer_and_event CreditInformationResponse_json information_data CreditInformationCollectResponse_json
    (information_event "FAILED") "/<creditInformationNotifyUrl>".

(** * What the handlers make of the events *)

(** The event a handler for [c] decodes from a scenario's callback. *)
Definition received_event {T} (c : codec T) (t : typedScenario) : option T :=
  match typed_AutoCallback t "" "" "" with Some p => strictDecode c (cp_body p) | None => None end.

(** The authorization events arrive. *)
Example auth_event :
  received_event AuthResponse_json (AuthSuccess "order-1") = Some (auth_data "order-1" StatusSuccess "") /\
  received_event CreditInformationCollectResponse_json CreditInformationSuccess = Some (information_event "SUCCESS").
Proof. by vm_compute. Qed.

(** The events of a refund, a repayment and a credit application are sent in the envelope
    of a response, while their handlers decode the bare result: every field is lost. *)
Example refund_event_lost :
  received_event RefundResult_json (RefundSuccess "refund-1") = Some (c_zero RefundResult_json) /\
  received_event RepaymentResult_json (RepaymentSuccess "repayment-1") = Some (c_zero RepaymentResult_json) /\
  received_event CreditApplicationResult_json CreditApplicationSuccess = Some (c_zero CreditApplicationResult_json).
Proof. by vm_compute. Qed.

(** The capture scenarios set no status: neither success nor failure is terminal, and
    nothing of the failure code is sent. *)
Example capture_not_terminal failureCode :
  CaptureSuccess "" = CaptureFailed failureCode /\
  option_map (fun r => CaptureResponse_IsTerminal (Some r)) (unmarshal CaptureResponse_json (ts_respBody (CaptureSuccess "o"))) = Some false.
Proof. split; [done|]. by vm_compute. Qed.

(** A failed void is a successful one. *)
Example void_not_failed failureCode : VoidAuthFailed failureCode = VoidAuthSuccess.
Proof. done. Qed.
