(* ===== verification/MockCallback.v ===== *)
(** * MockCallback: firing callbacks at a partner's handler ([mock/callback.go]).

    A [Fire*Callback] encodes an event, signs it and runs the handler on the request.
    [t.Fatalf] ends the test; what [t.Errorf] reports is collected. *)
From S2P Require Import Prelude GoStd Errors GoCrypto Sign GoHttp Json Codec Schema Transport World Client.
From S2P Require Import PaymentTypes Refund Repayment CreditTypes Callback MockCache Spec Mock.

Record fireConfig := mkFireConfig {
  signerKeyPEM : string; allowMockKey : bool; verifyCount : Z; skipResponseAssertion : bool;
}.
Definition FireOption : Type := fireConfig -> fireConfig.

Definition WithFireSignerKeyPEM (priv : string) : FireOption := fun c =>
  mkFireConfig priv (allowMockKey c) (verifyCount c) (skipResponseAssertion c).
Definition WithFireMockKey : FireOption := fun c =>
  mkFireConfig (signerKeyPEM c) true (verifyCount c) (skipResponseAssertion c).
Definition WithFireVerifyCount (n : Z) : FireOption := fun c =>
  mkFireConfig (signerKeyPEM c) (allowMockKey c) n (skipResponseAssertion c).
Definition WithFireSkipResponseCheck : FireOption := fun c =>
  mkFireConfig (signerKeyPEM c) (allowMockKey c) (verifyCount c) true.

Definition fire_config (opts : list (option FireOption)) : fireConfig :=
  fold_left (fun c o => match o with Some o => o c | None => c end) opts (mkFireConfig "" false 0 false).

(** [bytes.Contains] *)
Definition contains (needle s : string) : bool := bool_decide (is_Some (String.index 0 needle s)).

(** What is reported when the reply is not a success. *)
Definition assertSuccessAck (path : string) (resp : reply) : list error :=
  if negb (rp_status resp =? 200) then
    [EErrorf "mock.Fire*Callback %s: status = %d, want 200; body: %s" [AStr path; AInt (rp_status resp); AStr (rp_body resp)]]
  else if (0 <? slen (rp_body resp)) && negb (contains "SUCCESS" (rp_body resp)) then
    [EErrorf "mock.Fire*Callback %s: ack body does not contain SUCCESS: %s" [AStr path; AStr (rp_body resp)]]
  else [].

(** How a call ends: the test is over, the handler's panic goes through, or the reply is
    returned with what was reported. *)
Inductive fire_outcome :=
| Fatal (err : error)
| Panicked (value : string)
| Fired (resp : reply) (failures : list error).

Section Fire.
Context {X : Texts} {R : RSA} {P : X509} {S : Type}.
Variable MockSigningPrivKeyPEM : string.   (* the key file embedded in the package *)

Definition resolveFireKeyPEM (cfg : fireConfig) : res string :=
  if 0 <? slen (signerKeyPEM cfg) then Ok (signerKeyPEM cfg)
  else if allowMockKey cfg then Ok MockSigningPrivKeyPEM
  else Err (ENew "mock.Fire*Callback: no signing key supplied — pass WithFireSignerKeyPEM(priv) or opt-in via WithFireMockKey").

(** [now] is the instant the handler reads its clock, [rnd] the randomness of the
    signature; signing has the background context. *)
Definition fire {T} (c : codec T) (h : option (http_Handler (S:=S))) (path : string) (event : T)
    (opts : list (option FireOption)) (now : Z) (rnd : nat) (s : S) : fire_outcome * S :=
  let cfg := fire_config opts in
  match h with
  | None => (Fatal (ENew "mock.Fire*Callback: nil http.Handler"), s)
  | Some h =>
      match (let* body := marshal c event in
             let* keyPEM := resolveFireKeyPEM cfg in
             let* authz := signBodyWithPEM None rnd body keyPEM in
             Ok (body, authz)) with
      | Err err => (Fatal err, s)
      | Ok (body, authz) =>
          let '(result, s) := h (callback_request path body authz now) s in
          match result with
          | Err panic => (Panicked panic, s)
          | Ok resp =>
              let count := if 0 <? verifyCount cfg then 1 else 0 in
              (Fired resp
                 ((if (0 <? verifyCount cfg) && negb (count =? verifyCount cfg)
                   then [EErrorf "mock.Fire*Callback: handler invocation count = %d, want %d" [AInt count; AInt (verifyCount cfg)]]
                   else []) ++
                  (if skipResponseAssertion cfg then [] else assertSuccessAck path resp)), s)
          end
      end
  end.

(** A nil event ends the test. *)
Definition fire_event {T} (c : codec T) (name path : string) (h : option http_Handler) (event : option T)
    (opts : list (option FireOption)) (now : Z) (rnd : nat) (s : S) : fire_outcome * S :=
  match event with
  | None => (Fatal (ENew ("mock." +:+ name +:+ ": nil event")), s)
  | Some event => fire c h path event opts now rnd s
  end.

Definition FireAuthCallback := fire_event AuthResponse_json "FireAuthCallback" "/<authNotifyUrl>".
Definition FireCaptureCallback := fire_event CaptureResponse_json "FireCaptureCallback" "/<captureNotifyUrl>".
Definition FireRefundCallback := fire_event RefundResult_json "FireRefundCallback" "/<refundNotifyUrl>".
Definition FireRepaymentCallback := fire_event RepaymentResult_json "FireRepaymentCallback" "/repayment-callback".
Definition FireAccountChangeCallback :=
  fire_event AccountChangeEvent_json "FireAccountChangeCallback" "/account_change_callback".
Definition FireCreditApplicationCallback :=
  fire_event CreditApplicationResult_json "FireCreditApplicationCallback" "/<creditApplicationNotifyUrl>".
Definition FireCreditInformationCallback :=
  fire_event CreditInformationCollectResponse_json "FireCreditInformationCallback" "/<creditInformationNotifyUrl>".

(** ** The partner's handler of [callback] as an [http.Handler] *)

Definition callback_handler {T} (c : codec T) (v : option Verifier) (fn : option (T -> S -> option error * S)) : http_Handler :=
  fun r s => let '(rp, s) := handle c v fn r s in (Ok rp, s).

(** * Lemmas *)

Lemma LoadPrivateKeyPEM_bits pem priv : LoadPrivateKeyPEM pem [] = Ok priv -> MinKeyBits <= BitLen (Public priv).
Proof.
  unfold LoadPrivateKeyPEM. cbn [existsb]. destruct (pem_Decode pem) as [block|]; [|done].
  destruct (bool_decide _); [done|]. destruct (if bool_decide _ then _ else _) as [k|]; [|done].
  cbn [result_bind]. unfold check_bits. intros Hk. destruct (Z.ltb_spec (BitLen (Public k)) MinKeyBits); [done|]. by injection Hk as <-.
Qed.

(** The signature made with a key that loads. *)
Lemma signBodyWithPEM_Ok rnd body pem priv sig :
  LoadPrivateKeyPEM pem [] = Ok priv -> SignPKCS1v15 rnd priv (sha256 body) = Ok sig ->
  exists s authz, s_priv s = priv /\ rsa2Signer_Sign s rnd None body = Ok authz /\
    signBodyWithPEM None rnd body pem = Ok authz.
Proof.
  intros Hp Hs. pose proof (LoadPrivateKeyPEM_bits pem priv Hp) as Hb. exists (mkRsa2Signer priv ""), (b64_encode sig).
  unfold signBodyWithPEM. rewrite Hp. cbn [result_bind]. unfold NewRSA2Signer.
  destruct (Z.ltb_spec (BitLen (Public priv)) MinKeyBits); [lia|]. cbn [apply_options result_bind].
  unfold rsa2Signer_Sign. cbn [s_priv]. by rewrite Hs.
Qed.

(** The reply of a handler whose function accepts passes the check; another does not. *)
Lemma assert_ack path ack : assertSuccessAck path (writeAck 200 AckSuccess) = [] /\ assertSuccessAck path (writeAck 500 ack) <> [].
Proof.
  split; [reflexivity|]. unfold assertSuccessAck. destruct (writeAck_eq 500 ack) as [-> _]. done.
Qed.

(** What firing is, once the event is signed. *)
Lemma fire_signed {T} (c : codec T) h path event opts now rnd (s : S) keyPEM authz :
  let cfg := fire_config opts in
  let body := json_print (c_enc c event) in
  resolveFireKeyPEM cfg = Ok keyPEM -> signBodyWithPEM None rnd body keyPEM = Ok authz -> verifyCount cfg <= 1 ->
  fire c (Some h) path event opts now rnd s =
    (match (h (callback_request path body authz now) s).1 with
     | Err panic => Panicked panic
     | Ok resp => Fired resp (if skipResponseAssertion cfg then [] else assertSuccessAck path resp)
     end, (h (callback_request path body authz now) s).2).
Proof.
  intros cfg body Hk Hs Hv. unfold fire. fold cfg. unfold marshal. rewrite MarshalSigning_print. fold body.
  cbn [result_bind]. rewrite Hk. cbn [result_bind]. rewrite Hs. cbn [result_bind].
  destruct (h _ s) as [[resp|panic] s']; cbn [fst snd]; [|done].
  destruct (Z.ltb_spec 0 (verifyCount cfg)); [|done].
  by replace (verifyCount cfg) with 1 by lia.
Qed.

End Fire.

(** * Claims *)

(** C19.  A fired callback arrives.  An event that its type can hold, fired with any key that
    loads at a handler of the package [callback] that has the public half among its keys,
    runs the partner's function once, on that event; the reply is the function's verdict,
    and a failure is reported exactly when the function refuses and the check of the reply
    is on. *)
Theorem fire_delivers {R : RSA} `{!RSALaws R} {X : Texts} {P : X509} {T S : Type} mockKey (c : codec T) `{!Lawful c}
    v (fn : T -> S -> option error * S) path event opts now rnd s keyPEM priv sig k rv :
  let body := json_print (c_enc c event) in
  0 < cv_bodyLimit v < int64_max -> cv_hmacClientID v = "" ->
  c_ok c event = true -> (c_depth c <= maxNestingDepth)%nat -> slen body <= cv_bodyLimit v ->
  resolveFireKeyPEM mockKey (fire_config opts) = Ok keyPEM -> LoadPrivateKeyPEM keyPEM [] = Ok priv ->
  SignPKCS1v15 rnd priv (sha256 body) = Ok sig -> verifyCount (fire_config opts) <= 1 ->
  cv_verifiers v !! k = Some (rsa2Verifier_iface rv) -> v_pub rv = Public priv ->
  exists failures,
    fire mockKey c (Some (callback_handler c (Some v) (Some fn))) path event opts now rnd s =
      (Fired (match (fn event s).1 with
              | None => writeAck 200 AckSuccess
              | Some err => writeAck 500 (AckServerError (Error quote err))
              end) failures, (fn event s).2) /\
    (failures = [] <-> skipResponseAssertion (fire_config opts) = true \/ (fn event s).1 = None).
Proof.
  intros body Hl Hm Hok Hd Hlen Hkey Hload Hsig Hcount Hk Hpub.
  destruct (signBodyWithPEM_Ok rnd body keyPEM priv sig Hload Hsig) as (sg & authz & Hsg & Hsign & Hpem).
  rewrite (fire_signed mockKey c _ path event opts now rnd s keyPEM authz Hkey Hpem Hcount). fold body.
  assert (Hdel : delivers c v (callback_request path body authz now) event).
  { split; [done|]. exists body. split_and!; [done| |by apply strictDecode_print]. apply rsa_authentic; [done|].
    split; [done|]. exists k, rv, sg, rnd. split_and!; [done|by rewrite Hsg|].
    unfold callback_request, callback_header. cbn [in_Header]. unfold AuthorizationHeader. by rewrite Header_Get_Set. }
  unfold callback_handler. rewrite (handle_delivers c v fn _ s event Hl Hdel). cbn [fst snd].
  eexists. split; [reflexivity|].
  destruct (skipResponseAssertion _); [by split; [left|]|]. destruct (fn event s).1 as [err|].
  - split; [intros []%assert_ack|by intros []].
  - split; [by right|intros _; by apply (assert_ack path AckSuccess)].
Qed.

(** ** A refund fired at a receiver with an old and a new key *)

(** Every document is the key of the receiver's second certificate. *)
Definition toy_keys : @X509 toy_RSA :=
  Build_X509 toy_RSA (fun data => Some (mkBlock "RSA PRIVATE KEY" ∅ data)) (fun _ => Ok (7%nat, 2048)) (fun _ => Err (EStd "asn1"))
    (fun _ => Err (EStd "asn1")) (fun _ => Err (EStd "asn1")) (fun _ => Err (EStd "asn1")).

Lemma fire_delivers_witness : exists failures,
  @FireRefundCallback toy_RSA toy_keys (list RefundEvent) "key"
    (Some (@callback_handler toy_texts (list RefundEvent) _ RefundResult_json (Some toy_verifier) (Some record_event)))
    (Some toy_event) [None; Some WithFireMockKey; Some (WithFireVerifyCount 1)] 0 0%nat []
  = (Fired (writeAck 200 AckSuccess) failures, [toy_event]) /\ failures = [].
Proof.
  assert (Hs : exists sig, SignPKCS1v15 (RSA:=toy_RSA) 0%nat (7%nat, 2048) (sha256 toy_body) = Ok sig) by (eexists; reflexivity).
  destruct Hs as [sig Hs].
  destruct (@fire_delivers toy_RSA toy_RSALaws toy_texts toy_keys RefundEvent (list RefundEvent) "key" RefundResult_json _
    toy_verifier record_event "/<refundNotifyUrl>" toy_event
    [None; Some WithFireMockKey; Some (WithFireVerifyCount 1)] 0 0%nat [] "key" (7%nat, 2048) sig 1%nat
    (@mkRsa2Verifier toy_RSA (7%nat, 2048))) as (failures & Hf & Hn).
  - split; reflexivity.
  - reflexivity.
  - vm_compute. reflexivity.
  - apply (bool_decide_unpack _). vm_compute. exact I.
  - vm_compute. discriminate.
  - reflexivity.
  - reflexivity.
  - exact Hs.
  - vm_compute. discriminate.
  - reflexivity.
  - reflexivity.
  - exists failures. split; [exact Hf|]. apply Hn. right. reflexivity.
Defined.
