(* ===== verification/MockClient.v ===== *)
(** * MockClient: a client wired to the mock transport ([mock/client.go]).

    [tb.Fatalf] ends the test: the construction is an error. *)
From S2P Require Import Prelude GoStd Errors GoCrypto Sign GoHttp Transport World Client Mock.

(** PEM bytes are an option: [None] is the nil slice. *)
Record mock_config := mkMockConfig {
  mc_scenario : Scenario;
  mc_environment : Environment;
  mc_baseURL : string;
  mc_signingPriv : option string;
  mc_encryptPub : option string;
  mc_encryptPriv : option string;
  mc_allowMockKeys : bool;
  mc_verifierPubPEM : option string;
}.
Definition mock_Option : Type := mock_config -> res mock_config.

Definition WithScenario (s : option Scenario) : mock_Option := fun c =>
  match s with
  | None => Err (ENew "mock: WithScenario: nil Scenario")
  | Some s => Ok (mkMockConfig s (mc_environment c) (mc_baseURL c) (mc_signingPriv c) (mc_encryptPub c) (mc_encryptPriv c)
                    (mc_allowMockKeys c) (mc_verifierPubPEM c))
  end.
Definition WithEnvironment_mock (env : Environment) : mock_Option := fun c =>
  Ok (mkMockConfig (mc_scenario c) env "" (mc_signingPriv c) (mc_encryptPub c) (mc_encryptPriv c)
        (mc_allowMockKeys c) (mc_verifierPubPEM c)).
Definition WithBaseURL_mock (url : string) : mock_Option := fun c =>
  Ok (mkMockConfig (mc_scenario c) (mc_environment c) url (mc_signingPriv c) (mc_encryptPub c) (mc_encryptPriv c)
        (mc_allowMockKeys c) (mc_verifierPubPEM c)).
Definition WithSigningKeyPEM (privPEM : string) : mock_Option := fun c =>
  if is_empty privPEM then Err (ENew "mock: WithSigningKeyPEM: empty PEM")
  else Ok (mkMockConfig (mc_scenario c) (mc_environment c) (mc_baseURL c) (Some privPEM) (mc_encryptPub c) (mc_encryptPriv c)
             (mc_allowMockKeys c) (mc_verifierPubPEM c)).
Definition WithEncryptKeyPair (atomePubPEM partnerPrivPEM : option string) : mock_Option := fun c =>
  Ok (mkMockConfig (mc_scenario c) (mc_environment c) (mc_baseURL c) (mc_signingPriv c) atomePubPEM partnerPrivPEM
        (mc_allowMockKeys c) (mc_verifierPubPEM c)).
Definition WithVerifierPubCertPEM (pem : option string) : mock_Option := fun c =>
  Ok (mkMockConfig (mc_scenario c) (mc_environment c) (mc_baseURL c) (mc_signingPriv c) (mc_encryptPub c) (mc_encryptPriv c)
        (mc_allowMockKeys c) pem).
Definition WithMockKeysAllowed : mock_Option := fun c =>
  Ok (mkMockConfig (mc_scenario c) (mc_environment c) (mc_baseURL c) (mc_signingPriv c) (mc_encryptPub c) (mc_encryptPriv c)
        true (mc_verifierPubPEM c)).

Fixpoint apply_mock_options (opts : list (option mock_Option)) (c : mock_config) : res mock_config :=
  match opts with
  | [] => Ok c
  | None :: opts => apply_mock_options opts c
  | Some o :: opts =>
      match o c with
      | Err err => Err (EErrorf "mock.NewClient: %v" [AErr err])
      | Ok c => apply_mock_options opts c
      end
  end.

Definition mock_defaults : mock_config :=
  mkMockConfig AlwaysSuccess EnvPre "https://mock.atome-fin.test" None None None false None.

(** The bundled key where none was given and it is allowed. *)
Definition bundled (cfg : mock_config) (given : option string) (key : string) : option string :=
  match given with None => if mc_allowMockKeys cfg then Some key else None | Some _ => given end.

Section MockClient.
Context {R : RSA} {P : X509} {U : URLParse} {RT : Runtime} {E : Env}.

(** The key files embedded in the package, the PEM of a generated key, and the handle of
    an [http.Client] over a transport. *)
Variables MockSigningPrivKeyPEM MockSigningPubCertPEM MockEncryptPrivKeyPEM MockEncryptPubCertPEM : string.
Variable mustGenerateRSAPrivPEM : res string.
Variable http_client : MockTransport -> nat.

(** The options of the SDK that a configuration stands for. *)
Definition key_options (cfg : mock_config) : list (option Client.Option) :=
  let given (pem : option string) (opt : string -> Client.Option) := match pem with Some pem => [Some (opt pem)] | None => [] end in
  (if negb (is_empty (mc_baseURL cfg)) then [Some (WithBaseURL (mc_baseURL cfg))] else []) ++
  given (bundled cfg (mc_verifierPubPEM cfg) MockSigningPubCertPEM) WithAtomePublicCertPEM ++
  given (bundled cfg (mc_encryptPub cfg) MockEncryptPubCertPEM) WithEncryptAtomePublicCertPEM ++
  given (bundled cfg (mc_encryptPriv cfg) MockEncryptPrivKeyPEM) (fun pem => WithEncryptPrivateKeyPEM pem []).
Definition atomefin_options (cfg : mock_config) (signingPriv : string) (transport : MockTransport) : list (option Client.Option) :=
  Some (WithEnvironment (mc_environment cfg)) ::
  Some (WithPrivateKeyPEM signingPriv []) ::
  Some (WithHTTPClient (Some (http_client transport))) :: key_options cfg.

(** The client, and the transport its requests go to. *)
Definition NewClient (opts : list (option mock_Option)) : res (Client * MockTransport) :=
  let* cfg := apply_mock_options opts mock_defaults in
  if bool_decide (mc_environment cfg = EnvProd)
  then Err (ENew "mock.NewClient: EnvProd is REFUSED — mock clients must not co-exist with a production environment configuration. Pass WithEnvironment(atomefin.EnvPre) instead.")
  else
    let* signingPriv :=
      (match bundled cfg (mc_signingPriv cfg) MockSigningPrivKeyPEM with
       | Some pem => Ok pem
       | None => mustGenerateRSAPrivPEM
       end) in
    let* transport := NewTransport (Some (mc_scenario cfg)) in
    match New (atomefin_options cfg signingPriv transport) with
    | Err err => Err (EErrorf "mock.NewClient: atomefin.New: %v" [AErr err])
    | Ok c => Ok (c, transport)
    end.

(** * Lemmas *)

Lemma atomefin_options_sdk cfg signingPriv transport :
  Forall (fun o => forall f, o = Some f -> sdk_option f) (atomefin_options cfg signingPriv transport).
Proof.
  unfold atomefin_options. do 3 (constructor; [intros f [= <-]; constructor|]). unfold key_options.
  rewrite !Forall_app. split_and!.
  - destruct (negb _); repeat constructor. intros f [= <-]; constructor.
  - destruct (bundled _ _ _); repeat constructor. intros f [= <-]; constructor.
  - destruct (bundled _ _ _); repeat constructor. intros f [= <-]; constructor.
  - destruct (bundled _ _ _); repeat constructor. intros f [= <-]; constructor.
Qed.

(** What the options after the environment and the transport leave alone. *)
Definition same_target (c c' : config) : Prop :=
  c_environment c' = c_environment c /\ c_httpClient c' = c_httpClient c.

Lemma run_options_target i opts c c' :
  Forall (fun o => forall f c c', o = Some f -> f c = Ok c' -> same_target c c') opts ->
  run_options i opts c = Ok c' -> same_target c c'.
Proof.
  intros Ho. revert i c. induction Ho as [|[f|] opts Hf _ IH]; intros i c; simpl; [by intros [= <-]| |done].
  destruct (f c) as [c1|] eqn:Ef; simpl; [|done]. intros H%IH.
  destruct (Hf f c c1 eq_refl Ef) as [He Hh], H as [He' Hh']. split; congruence.
Qed.

Lemma finalizeConfig_target cfg c : finalizeConfig cfg = Ok c -> same_target cfg c.
Proof.
  unfold finalizeConfig. destruct (c_signer cfg) as [s|]; [|done]. cbv zeta.
  destruct (c_keyIDSet cfg); cbn [c_baseURL set_signer];
    (destruct (is_empty (c_baseURL cfg));
     [destruct (BaseURL _); [|done]|]; cbn [result_bind];
     destruct (is_empty (c_userAgent _)); (destruct (Validate _); [done|]); by intros [= <-]).
Qed.

(** The options after the first three. *)
Lemma key_options_target cfg :
  Forall (fun o => forall f c c', o = Some f -> f c = Ok c' -> same_target c c') (key_options cfg).
Proof.
  unfold key_options, bundled. rewrite !Forall_app. unfold same_target. split_and!; repeat case_match; try done.
  all: apply Forall_singleton; intros f c c' [= <-];
    unfold WithBaseURL, WithAtomePublicCertPEM, WithEncryptAtomePublicCertPEM, WithEncryptPrivateKeyPEM; intros; go_cases.
Qed.

Lemma atomefin_options_target cfg signingPriv transport c :
  run_options 0 (atomefin_options cfg signingPriv transport) defaultConfig = Ok c ->
  c_environment c = mc_environment cfg /\ c_httpClient c = http_client transport.
Proof.
  unfold atomefin_options. cbn [run_options]. unfold WithEnvironment. destruct (BaseURL _); [|done]. cbn [result_bind].
  unfold WithPrivateKeyPEM. cbn [c_signer set_environment defaultConfig].
  destruct (LoadPrivateKeyPEM _ _) as [key|]; [|done]. destruct (NewRSA2Signer _ _) as [s|]; [|done]. cbn [result_bind WithHTTPClient].
  intros H. destruct (run_options_target _ _ _ _ (key_options_target cfg) H) as [-> ->]. done.
Qed.

(** A mock client is ready to dispatch, is not one of production, whatever the options,
    and sends its requests to its own transport, which no request has reached. *)
Lemma NewClient_target opts c transport :
  NewClient opts = Ok (c, transport) ->
  client_ready c /\ c_environment c <> EnvProd /\ c_httpClient c = http_client transport /\
  Requests transport = [] /\ t_hits transport = ∅.
Proof.
  unfold NewClient. destruct (apply_mock_options opts mock_defaults) as [cfg|]; [|done]. cbn [result_bind].
  destruct (bool_decide_reflect (mc_environment cfg = EnvProd)) as [|Hprod]; [done|].
  destruct (match bundled _ _ _ with Some _ => _ | None => _ end) as [priv|]; [|done].
  cbn [result_bind NewTransport]. set (tr := mkTransport _ _ _).
  destruct (New _) as [c'|] eqn:En; [|done]. intros [= <- <-]. unfold New in En.
  destruct (run_options 0 _ defaultConfig) as [c1|] eqn:Er; [|done]. cbn [result_bind] in En.
  destruct (finalizeConfig_target _ _ En) as [-> ->], (atomefin_options_target _ _ _ _ Er) as [-> ->].
  split_and!; [|done..]. eapply finalize_ready; [|exact En].
  eapply run_options_inv; [apply atomefin_options_sdk|exact Er|apply default_inv].
Qed.
End MockClient.
