(* ===== verification/MockOverlap.v ===== *)
(** * MockOverlap: requests to the mock server that overlap in time
    ([mock/server_dispatch.go], [mock/transport.go], [mock/server_options.go]).

    [net/http] serves every request in a goroutine of its own.  A call goes through the
    phases of [serveHTTP]; between two phases lies at most one critical section (of the
    transport's mutex or of the cache's) or one report to the test, so a step of one call
    is atomic and the steps of the calls interleave freely, with each other and with the
    test swapping the scenario.  A scenario answers at the moment its request is recorded,
    and a callback handler runs as one step. *)
From S2P Require Import Prelude GoStd Errors Canonical GoCrypto Sign Encrypt GoHttp Json Codec Schema Transport World.
From S2P Require Import Client PaymentTypes Callback MockCache Spec Mock.

Section Overlap.
Context {X : Texts} {R : RSA} {P : X509} {A : AES} {Partner : Type}.
Variable MockSigningPrivKeyPEM : string.
Variables (spec : res Spec) (cfg : serverConfig Partner) (cap : Z).

(** How a reply came about. *)
Inductive manner := Refused | Replayed (entry : cacheEntry) | Failed | Served (key : string).

(** Where a call stands in [serveHTTP]. *)
Inductive phase :=
| Entered
| Validated
| Keyed (key : string)
| Missed (key : string)
| Answered (key : string) (resp : mock_response)
| Signed (key : string) (resp : mock_response) (hdr : Header)
| Written (key : string) (rp : reply)
| Firing (key : string) (rp : reply) (payload : callbackPayload)
| Done (how : manner) (rp : reply).

(** The handler or the URL a payload goes to. *)
Definition fire_payload (e : dispatch_env) (s : Server Partner) (payload : callbackPayload) : Server Partner :=
  match sc_autoCallbackHandlers cfg !! normalizeOpKey (cp_handlerKey payload) with
  | Some h => fireCallbackInProcess MockSigningPrivKeyPEM cfg e s h payload
  | None => if negb (is_empty (sc_autoCallbackURL cfg)) then fireCallbackToURL MockSigningPrivKeyPEM cfg e s payload else s
  end.

(** One step of a call. *)
Definition advance (e : dispatch_env) (r : mock_request) (ph : phase) (s : Server Partner) : phase * Server Partner :=
  let op := OpKey (mq_Method r) (mq_Path r) in
  match ph with
  | Entered =>
      let '(invalid, s) := if sc_specValidation cfg then specValidate spec s r else (None, s) in
      (match invalid with
       | Some (status, code, msg) => Done Refused (writeJSONErrorMock status code msg)
       | None => Validated
       end, s)
  | Validated =>
      match ms_idem s with
      | None => (Missed "", s)
      | Some _ => let '(key, s) := idemKey cfg s op r in (Keyed key, s)
      end
  | Keyed key =>
      match ms_idem s with
      | None => (Missed key, s)
      | Some c =>
          if is_empty key then (Missed key, s)
          else let '(hit, c) := Get c key in
               (match hit with Some entry => Done (Replayed entry) (replay entry) | None => Missed key end, set_idem s c)
      end
  | Missed key =>
      let '(resp, tr) := RoundTrip (ms_transport s) r in
      (match resp with Err err => Done Failed (http_Error (Error quote err) 500) | Ok resp => Answered key resp end,
       set_transport s tr)
  | Answered key resp =>
      if is_empty (sc_responseSigningKeyPEM cfg) then (Signed key resp (mp_Header resp), s)
      else match signBodyWithPEM (de_sign_ctx e) (de_sign_rnd e) (mp_Body resp) (sc_responseSigningKeyPEM cfg) with
           | Ok authz => (Signed key resp (Header_Set (mp_Header resp) "Authorization" authz), s)
           | Err err => (Signed key resp (mp_Header resp), Errorf s (EErrorf "mock.Server: WithResponseSigning: %v" [AErr err]))
           end
  | Signed key resp hdr =>
      (Written key (mkReply (mp_StatusCode resp) hdr (mp_Body resp)),
       match ms_idem s with
       | Some c => if is_empty key then s
                   else set_idem s (Put c key (mkCacheEntry key (mp_StatusCode resp) (mp_Body resp) hdr))
       | None => s
       end)
  | Written key rp =>
      if negb (bool_decide (sc_autoCallbackHandlers cfg = ∅)) || negb (is_empty (sc_autoCallbackURL cfg)) then
        match AutoCallback (t_scenario (ms_transport s)) with
        | None => (Done (Served key) rp, s)
        | Some carrier =>
            match carrier op (mq_Body r) (rp_body rp) with
            | None => (Done (Served key) rp, s)
            | Some payload => (Firing key rp payload, s)
            end
        end
      else (Done (Served key) rp, s)
  | Firing key rp payload => (Done (Served key) rp, fire_payload e s payload)
  | Done how rp => (Done how rp, s)
  end.

(** A call with nothing in between. *)
Fixpoint alone (n : nat) (e : dispatch_env) (r : mock_request) (ph : phase) (s : Server Partner) : phase * Server Partner :=
  match n with
  | O => (ph, s)
  | S n => let '(ph, s) := advance e r ph s in alone n e r ph s
  end.

(** ** Configurations *)

Record call := mkCall { cl_env : dispatch_env; cl_req : mock_request; cl_phase : phase }.

Definition at_phase (cl : call) (ph : phase) : call := mkCall (cl_env cl) (cl_req cl) ph.

Definition conf : Type := Server Partner * list call.

Inductive move : conf -> conf -> Prop :=
| move_enter s cs e r : move (s, cs) (s, cs ++ [mkCall e r Entered])
| move_call s cs i cl ph s' : cs !! i = Some cl -> advance (cl_env cl) (cl_req cl) (cl_phase cl) s = (ph, s') ->
    move (s, cs) (s', <[i := at_phase cl ph]> cs)
| move_swap s cs sc t : SetScenario (ms_transport s) sc = Ok t -> move (s, cs) (set_transport s t, cs).

(** A schedule, to run the relation. *)
Inductive choice := Enter (e : dispatch_env) (r : mock_request) | Step (i : nat) | Swaps (sc : Scenario).

Definition choose (c : conf) (ch : choice) : conf :=
  match ch with
  | Enter e r => (c.1, c.2 ++ [mkCall e r Entered])
  | Step i =>
      match c.2 !! i with
      | Some cl => let '(ph, s) := advance (cl_env cl) (cl_req cl) (cl_phase cl) c.1 in (s, <[i := at_phase cl ph]> c.2)
      | None => c
      end
  | Swaps sc => (set_transport c.1 (mkTransport sc (t_requests (ms_transport c.1)) (t_hits (ms_transport c.1))), c.2)
  end.

Lemma choose_moves c chs : rtc move c (fold_left choose chs c).
Proof.
  revert c. induction chs as [|ch chs IH]; intros [s cs]; [constructor|]. cbn [fold_left]. etrans; [|apply IH].
  destruct ch as [e r|i|sc]; cbn [choose fst snd].
  - apply rtc_once. constructor.
  - destruct (cs !! i) as [cl|] eqn:Ei; [|constructor]. destruct (advance _ _ _ _) as [ph s'] eqn:Ea.
    apply rtc_once. by econstructor.
  - apply rtc_once. by apply (move_swap s cs (Some sc)).
Qed.

(** ** A call on its own *)

Lemma alone_done n e r how rp s : alone n e r (Done how rp) s = (Done how rp, s).
Proof. by induction n. Qed.

Lemma fire_is e s op b b' :
  fireAutoCallback MockSigningPrivKeyPEM cfg e s op b b' =
  match AutoCallback (t_scenario (ms_transport s)) with
  | None => s
  | Some carrier => match carrier op b b' with None => s | Some payload => fire_payload e s payload end
  end.
Proof. reflexivity. Qed.

Lemma alone_written n e r key rp s :
  exists how, alone (2 + n) e r (Written key rp) s =
    (Done how rp, if negb (bool_decide (sc_autoCallbackHandlers cfg = ∅)) || negb (is_empty (sc_autoCallbackURL cfg))
                  then fireAutoCallback MockSigningPrivKeyPEM cfg e s (OpKey (mq_Method r) (mq_Path r)) (mq_Body r) (rp_body rp)
                  else s).
Proof.
  exists (Served key). cbn [alone plus advance]. rewrite fire_is. destruct (_ || _); [|exact (alone_done (S n) e r _ _ _)].
  destruct (AutoCallback _) as [carrier|]; [|exact (alone_done (S n) e r _ _ _)].
  destruct (carrier _ _ _) as [payload|]; [exact (alone_done n e r _ _ _)|exact (alone_done (S n) e r _ _ _)].
Qed.

Lemma alone_step n e r ph s ph' s' : advance e r ph s = (ph', s') -> alone (S n) e r ph s = alone n e r ph' s'.
Proof. intros Ha. cbn [alone]. by rewrite Ha. Qed.

(** From the scenario on, a call does what [dispatch] does. *)
Lemma alone_dispatch n e r key s :
  exists how, alone (5 + n) e r (Missed key) s =
    (Done how (dispatch MockSigningPrivKeyPEM cfg e s (OpKey (mq_Method r) (mq_Path r)) key r).1,
     (dispatch MockSigningPrivKeyPEM cfg e s (OpKey (mq_Method r) (mq_Path r)) key r).2).
Proof.
  unfold dispatch. destruct (RoundTrip (ms_transport s) r) as [[resp|err] tr] eqn:Er.
  2: { exists Failed. erewrite (alone_step (4 + n)) by (cbn [advance]; by rewrite Er). apply alone_done. }
  erewrite (alone_step (4 + n)) by (cbn [advance]; by rewrite Er). cbv beta iota zeta.
  destruct (is_empty (sc_responseSigningKeyPEM cfg)) eqn:Ek;
    [|destruct (signBodyWithPEM (de_sign_ctx e) (de_sign_rnd e) (mp_Body resp) (sc_responseSigningKeyPEM cfg)) eqn:Es];
    (erewrite (alone_step (3 + n)) by (cbn [advance]; rewrite Ek, ?Es; reflexivity);
     erewrite (alone_step (2 + n)) by reflexivity;
     edestruct alone_written as (how & Hw); exists how; exact Hw).
Qed.

(** Undisturbed, a call is the step [serveHTTP] takes. *)
Lemma alone_serves e r s :
  exists how, alone 8 e r Entered s =
    (Done how (serveHTTP MockSigningPrivKeyPEM spec cfg e s r).1, (serveHTTP MockSigningPrivKeyPEM spec cfg e s r).2).
Proof.
  unfold serveHTTP. cbv zeta.
  destruct (if sc_specValidation cfg then specValidate spec s r else (None, s)) as [[[[st code] msg]|] s1] eqn:Ev.
  { exists Refused. erewrite (alone_step 7) by (cbn [advance]; by rewrite Ev). apply alone_done. }
  erewrite (alone_step 7) by (cbn [advance]; by rewrite Ev).
  destruct (ms_idem s1) as [c0|] eqn:Ei.
  2: { erewrite (alone_step 6) by (cbn [advance]; by rewrite Ei). apply (alone_dispatch 1). }
  destruct (idemKey cfg s1 (OpKey (mq_Method r) (mq_Path r)) r) as [key s2] eqn:Ekey.
  erewrite (alone_step 6) by (cbn [advance]; rewrite Ei, Ekey; reflexivity).
  destruct (ms_idem s2) as [c|] eqn:Ec.
  2: { erewrite (alone_step 5) by (cbn [advance]; by rewrite Ec). apply (alone_dispatch 0). }
  destruct (is_empty key) eqn:Ee.
  { erewrite (alone_step 5) by (cbn [advance]; rewrite Ec, Ee; reflexivity). apply (alone_dispatch 0). }
  destruct (Get c key) as [[entry|] c'] eqn:Eg.
  - exists (Replayed entry). erewrite (alone_step 5) by (cbn [advance]; rewrite Ec, Ee, Eg; reflexivity). apply alone_done.
  - erewrite (alone_step 5) by (cbn [advance]; rewrite Ec, Ee, Eg; reflexivity). apply (alone_dispatch 0).
Qed.

(** ** What the calls have done *)

(** The key under which the server knows a request. *)
Definition call_key (cl : call) : string := key_of cfg (cl_req cl).

(** The call has reached the scenario: it is in the transport's log and counted. *)
Definition recorded (cl : call) : bool :=
  match cl_phase cl with
  | Answered _ _ | Signed _ _ _ | Written _ _ | Firing _ _ _ | Done Failed _ | Done (Served _) _ => true
  | _ => false
  end.

(** The call has its answer, from the scenario. *)
Definition answer (cl : call) : option reply :=
  match cl_phase cl with
  | Written _ rp | Firing _ rp _ | Done (Served _) rp => Some rp
  | _ => None
  end.

(** The call has not looked for its key in the cache, or found its answer there, or was
    refused before that: it has not reached the scenario, and is not on its way there. *)
Definition waiting (cl : call) : bool :=
  match cl_phase cl with Entered | Validated | Keyed _ => true | _ => false end.
Definition unserved (cl : call) : bool :=
  waiting cl || match cl_phase cl with Done Refused _ | Done (Replayed _) _ => true | _ => false end.

Definition record_of (r : mock_request) : RecordedRequest :=
  mkRecorded (mq_Method r) (mq_Path r) (mq_Header r) (mq_RawQuery r) (mq_Body r).
Definition hit_of (r : mock_request) : string := mq_Method r +:+ " " +:+ mq_Path r.

(** The requests recorded, in the order of their calls. *)
Definition log_of (cs : list call) : list mock_request := map cl_req (List.filter recorded cs).

Definition hits_of (cs : list call) (op : string) : Z :=
  Z.of_nat (length (List.filter (fun r => bool_decide (hit_of r = op)) (log_of cs))).

(** An entry of the cache is the answer some call got, under that call's key. *)
Definition remembered (cs : list call) (entry : cacheEntry) : Prop :=
  exists cl rp, cl ∈ cs /\ answer cl = Some rp /\ call_key cl = ce_key entry /\
    entry = mkCacheEntry (ce_key entry) (rp_status rp) (rp_body rp) (rp_Header rp).

(** The key a call carries is that of its request; a replay is of a remembered entry. *)
Definition call_ok (cs : list call) (cl : call) : Prop :=
  match cl_phase cl with
  | Keyed key | Missed key | Answered key _ | Signed key _ _ | Written key _ | Firing key _ _ | Done (Served key) _ =>
      key = call_key cl
  | Done (Replayed entry) rp => ce_key entry = call_key cl /\ rp = replay entry /\ remembered cs entry
  | _ => True
  end.

Record coherent (c : conf) : Prop := {
  coh_log : t_requests (ms_transport c.1) ≡ₚ map record_of (log_of c.2);
  coh_hits : forall op, Hits (ms_transport c.1) op = i64 (hits_of c.2 op);
  coh_cache : exists cache l, ms_idem c.1 = Some cache /\ represents cache l /\ ic_cap cache = cap /\ forall e, e ∈ l -> remembered c.2 e;
  coh_calls : Forall (call_ok c.2) c.2;
}.

(** ** One step of a call *)

Lemma fire_payload_keeps e s payload :
  ms_transport (fire_payload e s payload) = ms_transport s /\ ms_idem (fire_payload e s payload) = ms_idem s.
Proof.
  unfold fire_payload, fireCallbackInProcess, fireCallbackToURL.
  destruct (_ !! _) as [h|]; [|destruct (negb _); [|done]]; destruct (signCallback _ _ _); try done.
  - by destruct (h _ _) as [[] ?].
  - by destruct (de_request_error e), (de_post_error e).
Qed.

Lemma advance_transport e r ph s : ms_transport (advance e r ph s).2 =
  match ph with Missed _ => (RoundTrip (ms_transport s) r).2 | _ => ms_transport s end.
Proof.
  destruct ph as [| |key|key|key resp|key resp hdr|key rp|key rp payload|how rp]; cbn [advance].
  - destruct (sc_specValidation cfg); [|done]. pose proof (specValidate_state spec s r) as (Ht & _).
    by destruct (specValidate spec s r) as [[[[]]|] ?].
  - destruct (ms_idem s); [|done]. pose proof (idemKey_eq cfg s r) as (_ & Ht & _). by destruct (idemKey _ _ _ _).
  - destruct (ms_idem s); [|done]. destruct (is_empty key); [done|]. by destruct (Get _ _).
  - by destruct (RoundTrip _ _).
  - destruct (is_empty _); [done|]. by destruct (signBodyWithPEM _ _ _ _).
  - destruct (ms_idem s); [|done]. by destruct (is_empty key).
  - destruct (_ || _); [|done]. destruct (AutoCallback _); [|done]. by destruct (o _ _ _).
  - apply fire_payload_keeps.
  - done.
Qed.

Lemma advance_idem e r ph s c : ms_idem s = Some c -> ms_idem (advance e r ph s).2 = Some
  match ph with
  | Keyed key => if is_empty key then c else (Get c key).2
  | Signed key resp hdr => if is_empty key then c else Put c key (mkCacheEntry key (mp_StatusCode resp) (mp_Body resp) hdr)
  | _ => c
  end.
Proof.
  intros Hc. destruct ph as [| |key|key|key resp|key resp hdr|key rp|key rp payload|how rp]; cbn [advance].
  - destruct (sc_specValidation cfg); [|done]. pose proof (specValidate_state spec s r) as (_ & Hi & _).
    rewrite <- Hc, <- Hi. by destruct (specValidate spec s r) as [[[[]]|] ?].
  - rewrite Hc. pose proof (idemKey_eq cfg s r) as (_ & _ & Hi & _). rewrite <- Hc, <- Hi. by destruct (idemKey _ _ _ _).
  - rewrite Hc. destruct (is_empty key); [done|]. by destruct (Get _ _).
  - by destruct (RoundTrip _ _).
  - destruct (is_empty _); [done|]. by destruct (signBodyWithPEM _ _ _ _).
  - rewrite Hc. by destruct (is_empty key).
  - destruct (_ || _); [|done]. destruct (AutoCallback _); [|done]. by destruct (o _ _ _).
  - etrans; [apply fire_payload_keeps|done].
  - done.
Qed.

(** What becomes of a call: recorded by the scenario's step only; its answer stays. *)
Lemma advance_phase cl s : let ph := (advance (cl_env cl) (cl_req cl) (cl_phase cl) s).1 in
  recorded (at_phase cl ph) = match cl_phase cl with Missed _ => true | _ => recorded cl end /\
  (forall rp, answer cl = Some rp -> answer (at_phase cl ph) = Some rp).
Proof.
  destruct cl as [e r ph]. unfold recorded, answer, at_phase.
  destruct ph as [| |key|key|key resp|key resp hdr|key rp|key rp payload|how rp]; cbn [advance cl_env cl_req cl_phase];
    (split; try done).
  - destruct (if sc_specValidation cfg then _ else _) as [[[[]]|] ?]; done.
  - destruct (ms_idem s); [|done]. by destruct (idemKey _ _ _ _).
  - destruct (ms_idem s); [|done]. destruct (is_empty key); [done|]. by destruct (Get _ _) as [[] ?].
  - by destruct (RoundTrip _ _) as [[] ?].
  - destruct (is_empty _); [done|]. by destruct (signBodyWithPEM _ _ _ _).
  - destruct (_ || _); [|done]. destruct (AutoCallback _); [|done]. by destruct (o _ _ _).
  - intros rp' [= ->]. destruct (_ || _); [|done]. destruct (AutoCallback _); [|done]. by destruct (o _ _ _).
Qed.

(** ** Lists of calls *)

Lemma insert_split (cs : list call) i cl cl' : cs !! i = Some cl ->
  cs = take i cs ++ cl :: drop (S i) cs /\ <[i := cl']> cs = take i cs ++ cl' :: drop (S i) cs.
Proof.
  intros Hi. split; [by rewrite take_drop_middle|]. apply insert_take_drop. by eapply lookup_lt_Some.
Qed.

Lemma log_app cs cs' : log_of (cs ++ cs') = log_of cs ++ log_of cs'.
Proof. unfold log_of. by rewrite List.filter_app, map_app. Qed.

Lemma log_unchanged cs i cl ph : cs !! i = Some cl -> recorded (at_phase cl ph) = recorded cl ->
  log_of (<[i := at_phase cl ph]> cs) = log_of cs.
Proof.
  intros Hi Hr. destruct (insert_split cs i cl (at_phase cl ph) Hi) as [Hs ->]. rewrite Hs at 3.
  rewrite !log_app. f_equal. unfold log_of. cbn [List.filter]. rewrite Hr. by destruct (recorded cl).
Qed.

Lemma log_more cs i cl ph : cs !! i = Some cl -> recorded cl = false -> recorded (at_phase cl ph) = true ->
  log_of (<[i := at_phase cl ph]> cs) ≡ₚ log_of cs ++ [cl_req cl].
Proof.
  intros Hi Hr Hr'. destruct (insert_split cs i cl (at_phase cl ph) Hi) as [Hs ->]. rewrite Hs at 3.
  rewrite !log_app. unfold log_of. cbn [List.filter]. rewrite Hr, Hr'. cbn [map at_phase cl_req].
  rewrite <- !app_assoc. apply Permutation_app_head. apply Permutation_cons_append.
Qed.

(** The answers of [cs] are still there in [cs']. *)
Definition keeps (cs cs' : list call) : Prop := forall cl rp, cl ∈ cs -> answer cl = Some rp ->
  exists cl', cl' ∈ cs' /\ answer cl' = Some rp /\ call_key cl' = call_key cl.

Lemma keeps_app cs cs' : keeps cs (cs ++ cs').
Proof. intros cl rp Hin Ha. exists cl. split; [apply elem_of_app; by left|done]. Qed.

Lemma keeps_insert cs i cl ph : cs !! i = Some cl -> (forall rp, answer cl = Some rp -> answer (at_phase cl ph) = Some rp) ->
  keeps cs (<[i := at_phase cl ph]> cs).
Proof.
  intros Hi Hph cl0 rp Hin Ha. destruct (insert_split cs i cl (at_phase cl ph) Hi) as [Hs ->]. rewrite Hs in Hin.
  apply elem_of_app in Hin as [Hin|[->|Hin]%elem_of_cons].
  - exists cl0. split; [apply elem_of_app; by left|done].
  - exists (at_phase cl ph). split; [apply elem_of_app; right; by left|]. split; [by apply Hph|done].
  - exists cl0. split; [apply elem_of_app; right; by right|done].
Qed.

Lemma remembered_keeps cs cs' entry : keeps cs cs' -> remembered cs entry -> remembered cs' entry.
Proof.
  intros Hk (cl & rp & Hin & Ha & Hkey & He). destruct (Hk cl rp Hin Ha) as (cl' & Hin' & Ha' & Hkey').
  exists cl', rp. split_and!; [done|done|congruence|done].
Qed.

Lemma call_ok_keeps cs cs' cl : keeps cs cs' -> call_ok cs cl -> call_ok cs' cl.
Proof.
  intros Hk. unfold call_ok. destruct (cl_phase cl) as [| | | | | | | |[]]; try done.
  intros (Hkey & Hrp & Hr). split_and!; [done..|by eapply remembered_keeps].
Qed.

(** ** Coherence is kept *)

Lemma hits_snoc (cs : list call) l r op : log_of cs ≡ₚ l ++ [r] ->
  hits_of cs op = Z.of_nat (length (List.filter (fun r => bool_decide (hit_of r = op)) l)) + (if decide (hit_of r = op) then 1 else 0).
Proof.
  intros Hp. unfold hits_of.
  assert (Hl : length (List.filter (fun r => bool_decide (hit_of r = op)) (log_of cs)) =
               length (List.filter (fun r => bool_decide (hit_of r = op)) (l ++ [r]))).
  { generalize (fun r => bool_decide (hit_of r = op)). intros f. induction Hp; cbn [List.filter]; repeat case_match; cbn; congruence. }
  rewrite Hl, List.filter_app, length_app. cbn [List.filter]. case_decide.
  - rewrite bool_decide_true by done. cbn. lia.
  - rewrite bool_decide_false by done. cbn. lia.
Qed.

Lemma lru_get_in l k e : e ∈ (lru_get l k).2 -> e ∈ l.
Proof.
  unfold lru_get. destruct (holds k l) as [x|] eqn:Eh; [|done]. cbn [snd]. apply find_some in Eh as [Hx _].
  rewrite elem_of_cons. intros [->|He]; [by apply list_elem_of_In|]. unfold without in He. by apply list_elem_of_filter in He as [_ He].
Qed.

Lemma lru_put_in n l x e : e ∈ lru_put n l x -> e = x \/ e ∈ l.
Proof.
  unfold lru_put. rewrite elem_of_cons. intros [->|He]; [by left|]. right.
  apply elem_of_take in He as (i & Hi & _). apply list_elem_of_lookup_2 in Hi. unfold without in Hi.
  by apply list_elem_of_filter in Hi as [_ Hi].
Qed.

(** What a look in the cache finds is remembered, under the key. *)
Lemma Get_remembered cs cache l k entry : represents cache l -> (forall e, e ∈ l -> remembered cs e) ->
  (Get cache k).1 = Some entry -> ce_key entry = k /\ remembered cs entry.
Proof.
  intros Hr Hl Hg. rewrite (proj1 (Get_refines _ _ _ Hr)) in Hg. unfold lru_get in Hg.
  destruct (holds k l) as [x|] eqn:Eh; [|done]. injection Hg as ->. apply find_some in Eh as [Hx Hk%bool_decide_eq_true].
  split; [done|]. by apply Hl, list_elem_of_In.
Qed.

(** The moved call keeps the invariant of calls. *)
Lemma advance_ok cs s cl cache l : ms_idem s = Some cache -> represents cache l -> (forall e, e ∈ l -> remembered cs e) ->
  call_ok cs cl -> call_ok cs (at_phase cl (advance (cl_env cl) (cl_req cl) (cl_phase cl) s).1).
Proof.
  intros Hc Hr Hl. destruct cl as [e r ph]. unfold call_ok, call_key, at_phase. cbn [cl_env cl_req cl_phase].
  destruct ph as [| |key|key|key resp|key resp hdr|key rp|key rp payload|how rp]; cbn [advance]; intros Hok.
  - destruct (if sc_specValidation cfg then _ else _) as [[[[]]|] ?]; done.
  - rewrite Hc. pose proof (idemKey_eq cfg s r) as (Hk & _). by destruct (idemKey _ _ _ _).
  - rewrite Hc. destruct (is_empty key); [done|]. pose proof (Get_remembered cs cache l key) as Hg.
    destruct (Get cache key) as [[entry|] ?]; [|done]. cbn in *. destruct (Hg entry Hr Hl eq_refl) as [Hk Hm].
    split_and!; [congruence|done|done].
  - by destruct (RoundTrip _ _) as [[] ?].
  - destruct (is_empty _); [done|]. by destruct (signBodyWithPEM _ _ _ _).
  - done.
  - destruct (_ || _); [|done]. destruct (AutoCallback _); [|done]. by destruct (o _ _ _).
  - done.
  - done.
Qed.

(** The cache after a step: the entries of before, or the answer just stamped. *)
Lemma advance_cache cs s cl i cache l : cs !! i = Some cl ->
  ms_idem s = Some cache -> represents cache l -> ic_cap cache = cap -> (forall e, e ∈ l -> remembered cs e) -> call_ok cs cl ->
  let a := advance (cl_env cl) (cl_req cl) (cl_phase cl) s in
  exists cache' l', ms_idem a.2 = Some cache' /\ represents cache' l' /\ ic_cap cache' = cap /\
    forall e, e ∈ l' -> remembered (<[i := at_phase cl a.1]> cs) e.
Proof.
  intros Hi Hc Hr Hcap Hl Hok a. assert (Hkeep : keeps cs (<[i := at_phase cl a.1]> cs)) by (apply keeps_insert; [done|apply advance_phase]).
  assert (Hold : forall e, e ∈ l -> remembered (<[i := at_phase cl a.1]> cs) e) by (intros e He; eapply remembered_keeps; eauto).
  pose proof (advance_idem (cl_env cl) (cl_req cl) (cl_phase cl) s cache Hc) as Ha. fold a in Ha.
  destruct (cl_phase cl) as [| |key|key|key resp|key resp hdr|key rp|key rp payload|how rp] eqn:Eph; try by exists cache, l.
  - destruct (is_empty key); [by exists cache, l|]. exists (Get cache key).2, (lru_get l key).2.
    split_and!; [done|by apply Get_refines|unfold Get; by destruct (ic_items cache !! key)|].
    intros e He%lru_get_in. by apply Hold.
  - destruct (is_empty key); [by exists cache, l|]. set (entry := mkCacheEntry key _ _ _) in *.
    destruct (Put_refines cache l entry Hr) as [Hcap' Hr']. cbn [ce_key entry] in *.
    eexists _, _. split; [exact Ha|]. split; [exact Hr'|]. split; [congruence|].
    intros e [->|He]%lru_put_in; [|by apply Hold]. exists (at_phase cl a.1), (mkReply (mp_StatusCode resp) hdr (mp_Body resp)).
    assert (Hph : a.1 = Written key (mkReply (mp_StatusCode resp) hdr (mp_Body resp))) by (unfold a; reflexivity).
    split_and!; [|by unfold answer, at_phase; rewrite Hph| |done].
    + destruct (insert_split cs i cl (at_phase cl a.1) Hi) as [_ ->]. apply elem_of_app. right. by left.
    + unfold call_ok in Hok. rewrite Eph in Hok. exact (eq_sym Hok).
Qed.

Lemma coherent_move c c' : coherent c -> move c c' -> coherent c'.
Proof.
  intros [Hlog Hhits (cache & l & Hc & Hr & Hcap & Hl) Hcalls] Hm.
  destruct Hm as [s cs e r|s cs i cl ph s' Hi Ha|s cs sc t Ht]; cbn [fst snd] in *.
  - assert (Hsame : log_of (cs ++ [mkCall e r Entered]) = log_of cs) by (rewrite log_app; apply app_nil_r).
    split; cbn [fst snd]; [by rewrite Hsame|intros op; unfold hits_of; rewrite Hsame; apply Hhits| |].
    + exists cache, l. split_and!; [done..|]. intros x Hx. eapply remembered_keeps; [apply keeps_app|by apply Hl].
    + apply Forall_app. split; [|by constructor]. eapply Forall_impl; [exact Hcalls|]. intros cl. apply call_ok_keeps, keeps_app.
  - pose proof (proj1 (Forall_lookup _ _) Hcalls i cl Hi) as Hok.
    pose proof (advance_transport (cl_env cl) (cl_req cl) (cl_phase cl) s) as Htr.
    pose proof (advance_phase cl s) as [Hrec Hans]. pose proof (advance_ok cs s cl cache l Hc Hr Hl Hok) as Hok'.
    pose proof (advance_cache cs s cl i cache l Hi Hc Hr Hcap Hl Hok) as Hcache. rewrite Ha in *. cbn [fst snd] in *.
    assert (Hkeep : keeps cs (<[i := at_phase cl ph]> cs)) by by apply keeps_insert.
    assert (Hcalls' : Forall (call_ok (<[i := at_phase cl ph]> cs)) (<[i := at_phase cl ph]> cs)).
    { apply Forall_insert; [eapply Forall_impl; [exact Hcalls|]; intros x; by apply call_ok_keeps|by eapply call_ok_keeps]. }
    assert (Hm : (exists key, cl_phase cl = Missed key) \/ ~ (exists key, cl_phase cl = Missed key))
      by (destruct (cl_phase cl); (left; by eexists) || (right; by intros [? ?])).
    destruct Hm as [[key Hk]|Hk].
    + rewrite Hk in Htr, Hrec. cbn in Htr.
      assert (Hlog' : log_of (<[i := at_phase cl ph]> cs) ≡ₚ log_of cs ++ [cl_req cl]).
      { apply log_more; [done| |done]. unfold recorded. by rewrite Hk. }
      split; cbn [fst snd]; [| |done|done].
      * rewrite Htr. cbn [t_requests]. rewrite Hlog', map_app. by rewrite <- Hlog.
      * intros op. rewrite Htr. rewrite (hits_snoc _ _ _ op Hlog'). unfold Hits at 1. cbn [t_hits].
        change (mq_Method (cl_req cl) +:+ " " +:+ mq_Path (cl_req cl)) with (hit_of (cl_req cl)).
        destruct (decide (hit_of (cl_req cl) = op)) as [<-|Hne].
        -- rewrite lookup_insert_eq. cbn [default]. rewrite Hhits. apply i64_add_l.
        -- rewrite lookup_insert_ne by done. rewrite Z.add_0_r. apply Hhits.
    + assert (Hsame : log_of (<[i := at_phase cl ph]> cs) = log_of cs).
      { apply log_unchanged; [done|]. rewrite Hrec. destruct (cl_phase cl); try done. destruct Hk. by eexists. }
      assert (ms_transport s' = ms_transport s) as Hts by (rewrite Htr; destruct (cl_phase cl); try done; destruct Hk; by eexists).
      split; cbn [fst snd]; [by rewrite Hsame, Hts|intros op; unfold hits_of; rewrite Hsame, Hts; apply Hhits|done|done].
  - destruct sc as [sc|]; [|done]. injection Ht as <-. split; cbn [fst snd]; [done..| |done]. by exists cache, l.
Qed.

Lemma coherent_moves c c' : coherent c -> rtc move c c' -> coherent c'.
Proof. intros Hc Hm. induction Hm; [done|]. eauto using coherent_move. Qed.

(** ** Once a key has an answer *)

Definition keys_of (cs : list call) : gset string := list_to_set (map call_key cs).

Lemma elem_of_keys_of k cs : k ∈ keys_of cs <-> exists cl, cl ∈ cs /\ call_key cl = k.
Proof.
  unfold keys_of. rewrite elem_of_list_to_set, list_elem_of_In, in_map_iff. setoid_rewrite list_elem_of_In. naive_solver.
Qed.

Lemma keys_of_insert cs i cl ph : cs !! i = Some cl -> keys_of (<[i := at_phase cl ph]> cs) = keys_of cs.
Proof.
  intros Hi. destruct (insert_split cs i cl (at_phase cl ph) Hi) as [Hs ->]. rewrite Hs at 3.
  unfold keys_of. by rewrite !map_app.
Qed.

Lemma keys_of_move c c' : move c c' -> keys_of c.2 ⊆ keys_of c'.2.
Proof.
  intros Hm. destruct Hm as [s cs e r|s cs i cl ph s' Hi Ha|]; cbn [snd]; [|by rewrite keys_of_insert|done].
  unfold keys_of. rewrite map_app, list_to_set_app. set_solver.
Qed.

Section Held.
Variables (k : string) (T : gset string).
Hypothesis few : Z.of_nat (size T) < cap.
Hypothesis other : k ∉ T.
Hypothesis k_nonempty : k <> "".

(** The cache holds an entry under [k], and before it entries under the keys of [T] only. *)
Definition held (s : Server Partner) : Prop :=
  exists c l e, ms_idem s = Some c /\ represents c l /\ ic_cap c = cap /\ ce_key e = k /\ near e T l.

(** The keys of the calls are those of [T], [k] and the empty one. *)
Definition within (cs : list call) : Prop := keys_of cs ⊆ T ∪ {[k; ""]}.

Lemma held_advance cs s cl : held s -> call_ok cs cl -> call_key cl ∈ T ∪ {[k; ""]} ->
  held (advance (cl_env cl) (cl_req cl) (cl_phase cl) s).2.
Proof.
  intros (c & l & e & Hc & Hr & Hcap & He & Hn) Hok Hkey.
  pose proof (advance_idem (cl_env cl) (cl_req cl) (cl_phase cl) s c Hc) as Ha. unfold call_ok in Hok.
  assert (Hin : call_key cl <> "" -> call_key cl ∈ T \/ call_key cl = ce_key e) by (rewrite He; set_solver).
  destruct (cl_phase cl) as [| |key|key|key resp|key resp hdr|key rp|key rp payload|how rp]; try by exists c, l, e.
  - destruct (is_empty key) eqn:Ee; [by exists c, l, e|]. apply is_empty_false in Ee. subst key.
    exists (Get c (call_key cl)).2, (lru_get l (call_key cl)).2, e.
    split_and!; [done|by apply Get_refines|unfold Get; by destruct (ic_items c !! _)|done|].
    apply (near_step e (Z.to_nat cap) T ltac:(lia) ltac:(by rewrite He) l (OpGet (call_key cl))); [done|done|done|].
    intros k' [= <-]. by apply Hin.
  - destruct (is_empty key) eqn:Ee; [by exists c, l, e|]. apply is_empty_false in Ee. subst key.
    set (x := mkCacheEntry (call_key cl) _ _ _) in *. destruct (Put_refines c l x Hr) as [Hcap' Hr']. cbn [ce_key x] in *.
    destruct (decide (call_key cl = k)) as [Hk|Hk].
    + eexists _, _, x. split_and!; [exact Ha|exact Hr'|congruence|done|].
      exists [], (take (Z.to_nat (ic_cap c) - 1) (without (ce_key x) l)). split_and!; [done|constructor|by intros ? []%elem_of_nil].
    + eexists _, _, e. split_and!; [exact Ha|exact Hr'|congruence|done|]. rewrite Hcap.
      apply (near_step e (Z.to_nat cap) T ltac:(lia) ltac:(by rewrite He) l (OpPut x)); [done|done| |].
      * intros y [= <-]. cbn. congruence.
      * intros k' [= <-]. by apply Hin.
Qed.

(** The step that stamps the first answer. *)
Lemma stamp_held s cl key resp hdr c l : cl_phase cl = Signed key resp hdr -> key = k ->
  ms_idem s = Some c -> represents c l -> ic_cap c = cap -> held (advance (cl_env cl) (cl_req cl) (cl_phase cl) s).2.
Proof.
  intros Hph -> Hc Hr Hcap. pose proof (advance_idem (cl_env cl) (cl_req cl) (cl_phase cl) s c Hc) as Ha. rewrite Hph in *.
  rewrite (proj2 (is_empty_false _) k_nonempty) in Ha. set (x := mkCacheEntry k _ _ _) in *.
  destruct (Put_refines c l x Hr) as [Hcap' Hr']. cbn [ce_key x] in *. eexists _, _, x. split_and!; [exact Ha|exact Hr'|congruence|done|].
  exists [], (take (Z.to_nat (ic_cap c) - 1) (without (ce_key x) l)). split_and!; [done|constructor|by intros ? []%elem_of_nil].
Qed.

(** Some call under [k] has its answer. *)
Definition answered (cs : list call) : Prop := exists cl, cl ∈ cs /\ is_Some (answer cl) /\ call_key cl = k.

Lemma answered_move s cs i cl ph s' : cs !! i = Some cl -> advance (cl_env cl) (cl_req cl) (cl_phase cl) s = (ph, s') ->
  answered (<[i := at_phase cl ph]> cs) ->
  answered cs \/ (call_key cl = k /\ exists key resp hdr, cl_phase cl = Signed key resp hdr).
Proof.
  intros Hi Ha (x & Hx & Hans & Hk). destruct (insert_split cs i cl (at_phase cl ph) Hi) as [Hs He]. rewrite He in Hx.
  assert (Hold : forall y, y ∈ cs -> is_Some (answer y) -> call_key y = k -> answered cs) by (intros y; by exists y).
  apply elem_of_app in Hx as [Hx|[->|Hx]%elem_of_cons].
  - left. apply (Hold x); [|done..]. rewrite Hs. apply elem_of_app. by left.
  - destruct (decide (is_Some (answer cl))) as [Hc|Hc]; [left; apply (Hold cl); [by eapply list_elem_of_lookup_2|done..]|].
    right. split; [done|]. clear Hold Hs He. destruct cl as [e r cph]. unfold answer, at_phase in *. cbn [cl_phase cl_env cl_req] in *.
    destruct cph as [| |key|key|key resp|key resp hdr|key rp|key rp payload|how rp]; cbn [advance] in Ha.
    + destruct (if sc_specValidation cfg then _ else _) as [[[[]]|] ?]; injection Ha as <- <-; by destruct Hans.
    + destruct (ms_idem s); [destruct (idemKey _ _ _ _)|]; injection Ha as <- <-; by destruct Hans.
    + destruct (ms_idem s); [destruct (is_empty key); [|destruct (Get _ _) as [[] ?]]|]; injection Ha as <- <-; by destruct Hans.
    + destruct (RoundTrip _ _) as [[] ?]; injection Ha as <- <-; by destruct Hans.
    + destruct (is_empty _); [|destruct (signBodyWithPEM _ _ _ _)]; injection Ha as <- <-; by destruct Hans.
    + by eexists _, _, _.
    + by destruct Hc.
    + by destruct Hc.
    + injection Ha as <- <-. done.
  - left. apply (Hold x); [|done..]. rewrite Hs. apply elem_of_app. right. by right.
Qed.

Lemma held_move c c' : coherent c -> move c c' -> within c'.2 -> (answered c.2 -> held c.1) -> answered c'.2 -> held c'.1.
Proof.
  intros Hcoh Hm Hw Hheld Hans.
  destruct Hm as [s cs e r|s cs i cl ph s' Hi Ha|s cs sc t Ht]; cbn [fst snd] in *.
  - apply Hheld. destruct Hans as (cl & [Hcl| ->%list_elem_of_singleton]%elem_of_app & Ho & Hk); [by exists cl|by destruct Ho].
  - unfold within in Hw. rewrite keys_of_insert in Hw by done.
    assert (Hkey : call_key cl ∈ T ∪ {[k; ""]}).
    { apply Hw, elem_of_keys_of. exists cl. split; [by eapply list_elem_of_lookup_2|done]. }
    pose proof (proj1 (Forall_lookup _ _) (coh_calls _ Hcoh) i cl Hi) as Hok. cbn [snd] in Hok.
    replace s' with (advance (cl_env cl) (cl_req cl) (cl_phase cl) s).2 by by rewrite Ha.
    destruct (answered_move s cs i cl ph s' Hi Ha Hans) as [Hold|(Hk & key & resp & hdr & Hph)].
    + eapply held_advance; [by apply Hheld|done|done].
    + destruct (coh_cache _ Hcoh) as (c & l & Hc & Hr & Hcap & _). eapply stamp_held; [done| |done|done|done].
      unfold call_ok in Hok. rewrite Hph in Hok. congruence.
  - destruct (Hheld Hans) as (c & l & e & H). by exists c, l, e.
Qed.

(** A call that has not been answered from the scenario stays so. *)
Lemma unserved_advance cs s cl : held s -> call_ok cs cl -> call_key cl = k -> unserved cl = true ->
  unserved (at_phase cl (advance (cl_env cl) (cl_req cl) (cl_phase cl) s).1) = true.
Proof.
  intros (c & l & e & Hc & Hr & Hcap & He & Hn) Hok Hk Hu. unfold call_ok in Hok. destruct cl as [env r ph].
  unfold unserved, waiting, at_phase, call_key in *. cbn [cl_env cl_req cl_phase] in *.
  destruct ph as [| |key|key|key resp|key resp hdr|key rp|key rp payload|how rp]; cbn [advance]; try done.
  - by destruct (if sc_specValidation cfg then _ else _) as [[[[]]|] ?].
  - rewrite Hc. by destruct (idemKey _ _ _ _).
  - rewrite Hc, Hok, Hk, (proj2 (is_empty_false _) k_nonempty).
    assert (Hg : (Get c k).1 = Some e).
    { rewrite (proj1 (Get_refines _ _ k Hr)). unfold lru_get. destruct Hn as (pre & post & -> & _ & HT).
      rewrite <- He, (holds_near e T); [done|by rewrite He|done]. }
    destruct (Get c k) as [hit ?]. cbn in Hg. by subst hit.
Qed.

(** [k] has an answer, and the calls of [W] under it are not served by the scenario. *)
Definition untouched (W : nat -> Prop) (c : conf) : Prop :=
  answered c.2 /\ held c.1 /\ forall i cl, c.2 !! i = Some cl -> call_key cl = k -> W i -> unserved cl = true.

Lemma answered_keeps cs cs' : keeps cs cs' -> answered cs -> answered cs'.
Proof.
  intros Hk (cl & Hin & [rp Ha] & Hkey). destruct (Hk cl rp Hin Ha) as (cl' & Hin' & Ha' & Hkey').
  exists cl'. split_and!; [done|by exists rp|congruence].
Qed.

Lemma untouched_move W c c' : coherent c -> move c c' -> within c'.2 -> untouched W c -> untouched W c'.
Proof.
  intros Hcoh Hm Hw (Hans & Hheld & Hun).
  assert (Hans' : answered c'.2).
  { destruct Hm as [s cs e r|s cs i cl ph s' Hi Ha|]; cbn [snd] in *; [|eapply answered_keeps; [|exact Hans]|done].
    - eapply answered_keeps; [apply keeps_app|done].
    - apply keeps_insert; [done|]. replace ph with (advance (cl_env cl) (cl_req cl) (cl_phase cl) s).1 by by rewrite Ha.
      apply advance_phase. }
  split; [done|]. split; [eapply held_move; eauto|].
  destruct Hm as [s cs e r|s cs i cl ph s' Hi Ha|]; cbn [fst snd] in *; [| |exact Hun].
  - intros j x [Hj|[_ Hj]]%lookup_app_Some; [by apply (Hun j)|]. by apply list_lookup_singleton_Some in Hj as [_ <-].
  - intros j x [(-> & <- & _)|[Hne Hj]]%list_lookup_insert_Some; [|by apply (Hun j)].
    intros Hkey HW. replace ph with (advance (cl_env cl) (cl_req cl) (cl_phase cl) s).1 by by rewrite Ha.
    apply (unserved_advance cs); [done| |exact Hkey|by apply (Hun j)].
    exact (proj1 (Forall_lookup _ _) (coh_calls _ Hcoh) j cl Hi).
Qed.
End Held.

(** A property of the runs under few keys, by induction on the run. *)
Lemma moves_within k T (Q : conf -> Prop) c c' :
  (forall a b, coherent a -> move a b -> within k T b.2 -> Q a -> Q b) ->
  coherent c -> rtc move c c' -> Q c -> within k T c'.2 -> Q c'.
Proof.
  intros Hstep Hcoh Hm HQ Hw. apply rtc_ind_r with (P := fun a => coherent a /\ (within k T a.2 -> Q a)) in Hm as [_ H]; [by apply H|done|].
  intros a b _ Hab [Ha Himp]. split; [by eapply coherent_move|]. intros Hb. eapply Hstep; [done..|].
  apply Himp. intros x Hx. apply Hb. by eapply keys_of_move.
Qed.

(** Calls under [k] that look for their key after it has an answer do not reach the
    scenario. *)
Lemma unserved_moves k c0 c1 c2 : k <> "" ->
  coherent c0 -> c0.2 = [] -> rtc move c0 c1 -> answered k c1.2 -> rtc move c1 c2 ->
  Z.of_nat (size (keys_of c2.2 ∖ {[k; ""]})) < cap ->
  forall i cl, c2.2 !! i = Some cl -> call_key cl = k -> (forall cl1, c1.2 !! i = Some cl1 -> waiting cl1 = true) ->
  unserved cl = true.
Proof.
  intros Hk Hc0 Hnil H01 Hans H12 Hfew. set (T := keys_of c2.2 ∖ {[k; ""]}) in *.
  assert (Hother : k ∉ T) by (unfold T; set_solver).
  assert (Hw2 : within k T c2.2) by (unfold within, T; intros x Hx; destruct (decide (x ∈ ({[k; ""]} : gset string))); set_solver).
  assert (Hw1 : within k T c1.2).
  { clear - H12 Hw2. induction H12 as [|c c' c'' Hm _ IH]; [done|]. intros x Hx. eapply IH; [done|]. by eapply keys_of_move. }
  pose proof (coherent_moves _ _ Hc0 H01) as Hc1.
  assert (Hheld : held k T c1.1).
  { apply (moves_within k T (fun c => answered k c.2 -> held k T c.1) c0 c1); [|done..| |done|done].
    - intros a b Ha Hab Hw HQ. by eapply held_move.
    - rewrite Hnil. by intros (? & []%elem_of_nil & _). }
  apply (moves_within k T (untouched k T (fun i => forall cl1, c1.2 !! i = Some cl1 -> waiting cl1 = true)) c1 c2); [|done..| |done].
  - intros a b Ha Hab Hw HQ. by eapply untouched_move.
  - split; [done|]. split; [done|]. intros i cl Hi _ Hwait. unfold unserved. by rewrite (Hwait cl Hi).
Qed.

(** A new server is coherent. *)
Lemma new_coherent scenario opts partner s :
  NewServer scenario opts partner = Ok (cfg, s) -> sc_idempotency cfg = true ->
  cap = ic_cap (newIdempotencyCache (sc_idempotencyCacheSize cfg)) -> coherent (s, []).
Proof.
  unfold NewServer. destruct scenario as [sc|]; [|done]. cbv zeta. cbn [NewTransport result_bind].
  intros [= Hcfg <-] Hid Hcap. rewrite Hcfg, Hid.
  split; cbn [fst snd ms_transport ms_idem t_requests]; [done|by intros op| |constructor].
  exists (newIdempotencyCache (sc_idempotencyCacheSize cfg)), []. split_and!; [done|apply new_represents|done|].
  by intros e []%elem_of_nil.
Qed.

End Overlap.

(** * Properties *)

(** C18.  Requests that overlap.  Undisturbed, the steps of a call are the step [serveHTTP].
    Interleaved in any way, with each other and with swaps of the scenario, the calls of a
    new server with [WithIdempotency] lose and invent nothing: the transport's log is that
    of the calls which reached the scenario and its counters count them, and a replay has
    the status, body and header, marked, of the answer the scenario gave to a call under
    the same key. *)
Theorem overlap_coherent {X : Texts} {R : RSA} {P : X509} {A : AES} {Partner : Type} key spec
    cfg scenario opts (partner : Partner) s0 s cs :
  NewServer scenario opts partner = Ok (cfg, s0) -> sc_idempotency cfg = true ->
  rtc (move key spec cfg) (s0, []) (s, cs) ->
  Requests (ms_transport s) ≡ₚ map record_of (log_of cs) /\
  (forall op, Hits (ms_transport s) op = i64 (hits_of cs op)) /\
  (forall cl entry rp, cl ∈ cs -> cl_phase cl = Done (Replayed entry) rp ->
     exists cl' rp', cl' ∈ cs /\ answer cl' = Some rp' /\ call_key cfg cl' = call_key cfg cl /\
       rp = mkReply (rp_status rp') (Header_Set (rp_Header rp') "X-Mock-Replay" "1") (rp_body rp')) /\
  (forall e r s, exists how, alone key spec cfg 8 e r Entered s =
     (Done how (serveHTTP key spec cfg e s r).1, (serveHTTP key spec cfg e s r).2)).
Proof.
  intros Hnew Hid Hm. set (cap := ic_cap (newIdempotencyCache (sc_idempotencyCacheSize cfg))).
  pose proof (new_coherent cfg cap scenario opts partner s0 Hnew Hid eq_refl) as Hc.
  destruct (coherent_moves key spec cfg cap _ _ Hc Hm) as [Hlog Hhits _ Hcalls]. cbn [fst snd] in *.
  split; [exact Hlog|]. split; [exact Hhits|]. split; [|apply alone_serves].
  intros cl entry rp Hin Hph. apply (Forall_forall _ _) with (x := cl) in Hcalls; [|done].
  unfold call_ok in Hcalls. rewrite Hph in Hcalls. destruct Hcalls as (Hk & -> & cl' & rp' & Hin' & Ha & Hk' & He).
  exists cl', rp'. split_and!; [done|done|congruence|]. by rewrite He.
Qed.

(** C17.  Overlapping requests are replayed.  Once one call under a request id has its answer,
    a call under that id which has not looked for it in the cache by then never reaches the
    scenario: it is not counted, fires no callback and, when it is done and not refused by
    the validation, has replayed an answer given under the id.  The calls of the run may
    overlap in any way, as long as they have fewer other request ids than the cache holds.
    (Calls that have all looked before the first answer may be served more than once:
    [overlap_served_twice].) *)
Theorem overlap_replays {X : Texts} {R : RSA} {P : X509} {A : AES} {Partner : Type} key spec
    cfg scenario opts (partner : Partner) s0 c1 c2 k i cl :
  NewServer scenario opts partner = Ok (cfg, s0) -> sc_idempotency cfg = true -> k <> "" ->
  rtc (move key spec cfg) (s0, []) c1 -> answered cfg k c1.2 -> rtc (move key spec cfg) c1 c2 ->
  Z.of_nat (size (keys_of cfg c2.2 ∖ {[k; ""]})) < ic_cap (newIdempotencyCache (sc_idempotencyCacheSize cfg)) ->
  c2.2 !! i = Some cl -> call_key cfg cl = k -> (forall cl1, c1.2 !! i = Some cl1 -> waiting cl1 = true) ->
  recorded cl = false /\
  match cl_phase cl with
  | Entered | Validated | Keyed _ | Done Refused _ => True
  | Done (Replayed entry) rp => rp = replay entry /\ remembered cfg c2.2 entry /\ ce_key entry = k
  | _ => False
  end.
Proof.
  intros Hnew Hid Hk H01 Hans H12 Hfew Hi Hkey Hwait. set (cap := ic_cap _) in *.
  pose proof (new_coherent cfg cap scenario opts partner s0 Hnew Hid eq_refl) as Hc.
  pose proof (unserved_moves key spec cfg cap k _ c1 c2 Hk Hc eq_refl H01 Hans H12 Hfew i cl Hi Hkey Hwait) as Hu.
  pose proof (coh_calls _ _ _ (coherent_moves key spec cfg cap _ _ (coherent_moves key spec cfg cap _ _ Hc H01) H12)) as Hcalls.
  apply (Forall_lookup _ _) with (i := i) (x := cl) in Hcalls; [|done].
  unfold unserved, waiting, recorded, call_ok in *. destruct (cl_phase cl) as [| | | | | | | |[]]; try done.
  destruct Hcalls as (He & -> & Hr). by rewrite He, Hkey.
Qed.

(** ** A server with two calls under one request id *)

Definition toy_overlap_cfg : serverConfig unit := WithIdempotencyCacheSize 2 (WithIdempotency zero_config).
Definition toy_overlap_server : Server unit :=
  mkServer (mkTransport AlwaysSuccess [] ∅) (Some (newIdempotencyCache 2)) [] [] tt.
Definition toy_play (c : conf (Partner := unit)) (chs : list choice) : conf :=
  fold_left (@choose toy_texts toy_RSA toy_X509 toy_AES unit "" (Ok ∅) toy_overlap_cfg) chs c.

(** The first call runs to its end; the scenario is swapped; the second one replays. *)
Definition toy_enter : choice := Enter toy_dispatch_env (toy_auth "r").
Definition toy_first : list choice := toy_enter :: repeat (Step 0) 8.
Definition toy_second : list choice := [Swaps AlwaysProcessing; toy_enter] ++ repeat (Step 1) 3.

Lemma overlap_replays_witness :
  exists c1 c2 cl entry, toy_play (toy_overlap_server, []) toy_first = c1 /\ toy_play c1 toy_second = c2 /\
    c2.2 !! 1%nat = Some cl /\ recorded cl = false /\ cl_phase cl = Done (Replayed entry) (replay entry) /\
    remembered (R := toy_RSA) (P := toy_X509) (A := toy_AES) toy_overlap_cfg c2.2 entry /\ rp_body (replay entry) = success_body.
Proof.
  set (c1 := toy_play (toy_overlap_server, []) toy_first). set (c2 := toy_play c1 toy_second).
  destruct (c2.2 !! 1%nat) as [cl|] eqn:Ecl; [|vm_compute in Ecl; discriminate Ecl].
  pose proof (@overlap_replays toy_texts toy_RSA toy_X509 toy_AES unit "" (Ok ∅) toy_overlap_cfg (Some AlwaysSuccess)
    [Some WithIdempotency; Some (WithIdempotencyCacheSize 2)] tt toy_overlap_server c1 c2 "POST /auth::r" 1%nat cl
    eq_refl eq_refl ltac:(discriminate) (choose_moves _ _ _ _ _)) as H.
  assert (Hph : match cl_phase cl with Done (Replayed e) rp => rp_body (replay e) = success_body | _ => False end).
  { assert (Hc : match c2.2 !! 1%nat with Some x => match cl_phase x with Done (Replayed e) rp => rp_body (replay e) = success_body | _ => False end | None => False end)
      by (vm_compute; reflexivity). rewrite Ecl in Hc. exact Hc. }
  destruct H as [Hrec H].
  - eexists (mkCall _ _ _). split; [vm_compute; left|]. split; [vm_compute; by eexists|vm_compute; reflexivity].
  - apply choose_moves.
  - vm_compute. reflexivity.
  - exact Ecl.
  - assert (Hk : match c2.2 !! 1%nat with Some x => call_key (R := toy_RSA) (P := toy_X509) (A := toy_AES) toy_overlap_cfg x = "POST /auth::r" | None => False end)
      by (vm_compute; reflexivity). rewrite Ecl in Hk. exact Hk.
  - intros cl1 Hcl1. vm_compute in Hcl1. discriminate Hcl1.
  - destruct (cl_phase cl) as [| | | | | | | |[|entry| |] rp] eqn:Eph; try contradiction. destruct H as (-> & Hr & _).
    exists c1, c2, cl, entry. split_and!; [reflexivity|reflexivity|exact Ecl|exact Hrec|exact Eph|exact Hr|exact Hph].
Defined.

(** The scenario is swapped between the two lookups and the two answers: both calls are
    served, with different answers, and counted twice. *)
Definition toy_race : list choice :=
  [toy_enter; toy_enter] ++ repeat (Step 0) 3 ++ repeat (Step 1) 3 ++ repeat (Step 0) 5 ++ [Swaps AlwaysProcessing] ++ repeat (Step 1) 5.

Example overlap_served_twice :
  let c := toy_play (toy_overlap_server, []) toy_race in
  Hits (ms_transport c.1) "POST /auth" = 2 /\
  match c.2 with
  | [cl1; cl2] => exists rp1 rp2, answer cl1 = Some rp1 /\ answer cl2 = Some rp2 /\ rp_body rp1 <> rp_body rp2
  | _ => False
  end.
Proof. split; [vm_compute; reflexivity|]. vm_compute. do 2 eexists. split; [reflexivity|]. split; [reflexivity|discriminate]. Qed.

Lemma overlap_coherent_witness :
  let c := toy_play (toy_overlap_server, []) (toy_first ++ toy_second) in
  Hits (ms_transport c.1) "POST /auth" = 1 /\
  exists cl entry rp cl' rp', cl ∈ c.2 /\ cl_phase cl = Done (Replayed entry) rp /\ cl' ∈ c.2 /\ answer cl' = Some rp' /\
    rp_body rp = rp_body rp'.
Proof.
  set (c := toy_play (toy_overlap_server, []) (toy_first ++ toy_second)). cbv zeta.
  pose proof (@overlap_coherent toy_texts toy_RSA toy_X509 toy_AES unit "" (Ok ∅) toy_overlap_cfg (Some AlwaysSuccess)
    [Some WithIdempotency; Some (WithIdempotencyCacheSize 2)] tt toy_overlap_server c.1 c.2 eq_refl eq_refl) as H.
  destruct H as (_ & Hh & Hr & _); [rewrite <- surjective_pairing; apply choose_moves|].
  split; [rewrite Hh; vm_compute; reflexivity|].
  destruct (c.2 !! 1%nat) as [cl|] eqn:Ecl; [|vm_compute in Ecl; discriminate Ecl].
  assert (Hph : match c.2 !! 1%nat with Some x => match cl_phase x with Done (Replayed _) _ => True | _ => False end | None => False end)
    by (vm_compute; exact I).
  rewrite Ecl in Hph. destruct (cl_phase cl) as [| | | | | | | |[|entry| |] rp] eqn:Eph; try contradiction.
  assert (Hin : cl ∈ c.2) by (eapply list_elem_of_lookup_2; exact Ecl).
  destruct (Hr cl entry rp Hin Eph) as (cl' & rp' & Hin' & Ha & _ & ->).
  exists cl, entry, (mkReply (rp_status rp') (Header_Set (rp_Header rp') "X-Mock-Replay" "1") (rp_body rp')), cl', rp'.
  split_and!; [exact Hin|exact Eph|exact Hin'|exact Ha|reflexivity].
Defined.
