(* ===== verification/SpecServer.v ===== *)
(** * SpecServer: the spec-validating test server of the SDK's own suites
    ([qa/specserver/server.go], [runner.go]).

    The server is a state: fixtures, hit counts, the failures it recorded and the paths
    it was told to skip.  A request is one step ([handle]; the mutex makes its parts
    atomic, and they interleave in [SpecOverlap]).  A test case is a finite dialogue with the server ([call]), and [RunCases]
    gives what each subtest reports.  Generating the keys of [MustClient], the client it
    builds and the files of the fixtures are parameters. *)
From S2P Require Import Prelude GoStd Errors GoCrypto Sign GoHttp Json Codec Transport World Client Callback Mock Spec.

(** ** State *)

Record Failure := mkFailure {
  fl_Op : string; fl_Reason : string; fl_Field : string; fl_Body : string; fl_Query : string; fl_SpecPath : string;
}.

(** [srv_Spec] and [srv_Path] are the document and where it was read from. *)
Record Server := mkServer {
  srv_Spec : gmap string Operation;
  srv_Path : string;
  srv_fixtures : gmap string string;
  srv_hits : gmap string Z;
  srv_failures : list Failure;
  srv_skipReq : gmap string (gset string);
}.

Definition NewWithSpec (spec : gmap string Operation) (path : string) : Server := mkServer spec path ∅ ∅ [] ∅.

(** [New], with [LoadDefault] as its argument; an error ends the test. *)
Definition New (loaded : res (gmap string Operation * string)) : res Server :=
  match loaded with
  | Err err => Err (EErrorf "specserver.New: %v" [AErr err])
  | Ok (spec, path) => Ok (NewWithSpec spec path)
  end.

(** [normalizeOpKey]: the method in upper case, the path as it is. *)
Definition normalizeOpKey (op : string) : string :=
  if lacks " " op then op else let '(method, path) := cut " " op in ToUpper method +:+ String " " path.

Definition set_fixtures (s : Server) (f : gmap string string) : Server :=
  mkServer (srv_Spec s) (srv_Path s) f (srv_hits s) (srv_failures s) (srv_skipReq s).

Definition SetFixtureRaw (s : Server) (op body : string) : Server :=
  set_fixtures s (<[normalizeOpKey op := body]> (srv_fixtures s)).

(** [json.Valid] is that the document parses. *)
Definition SetFixture (os_ReadFile : string -> res string) (s : Server) (op path : string) : res Server :=
  match os_ReadFile path with
  | Err err => Err (EErrorf "specserver: load fixture %q: %w" [AStr path; AWrap err])
  | Ok data =>
      match json_parse data with
      | None => Err (EErrorf "specserver: fixture %q is not valid JSON" [AStr path])
      | Some _ => Ok (SetFixtureRaw s op data)
      end
  end.

(** [set\[p\] = true] for each path, in the set of the operation, created when missing. *)
Definition SkipRequired (s : Server) (op : string) (paths : list string) : Server :=
  let key := normalizeOpKey op in
  mkServer (srv_Spec s) (srv_Path s) (srv_fixtures s) (srv_hits s) (srv_failures s)
    (<[key := list_to_set paths ∪ default ∅ (srv_skipReq s !! key)]> (srv_skipReq s)).

(** What is required of [op], in order: body, query, header. *)
Definition effectiveRequired (s : Server) (op : Operation) : list string * list string * list string :=
  let skip : gset string := default ∅ (srv_skipReq s !! OpKey (op_Method op) (op_Path op)) in
  if bool_decide (skip = ∅) then (op_RequiredBody op, op_RequiredQuery op, op_RequiredHeader op)
  else (filter (fun p => p ∉ skip) (op_RequiredBody op), filter (fun p => p ∉ skip) (op_RequiredQuery op),
        filter (fun p => p ∉ skip) (op_RequiredHeader op)).

Definition Hits (s : Server) (op : string) : Z := default 0 (srv_hits s !! normalizeOpKey op).
Definition Failures (s : Server) : list Failure := srv_failures s.
Definition Reset_ (s : Server) : Server :=
  mkServer (srv_Spec s) (srv_Path s) (srv_fixtures s) ∅ [] (srv_skipReq s).

Definition hit (s : Server) (op : string) : Server :=
  mkServer (srv_Spec s) (srv_Path s) (srv_fixtures s) (<[op := i64 (default 0 (srv_hits s !! op) + 1)]> (srv_hits s))
    (srv_failures s) (srv_skipReq s).
Definition recordFailure (s : Server) (f : Failure) : Server :=
  mkServer (srv_Spec s) (srv_Path s) (srv_fixtures s) (srv_hits s) (srv_failures s ++ [f]) (srv_skipReq s).

(** ** Replies *)

Definition writeFixture (s : Server) (op : string) : reply :=
  mkReply 200 jsonHeader (default success_body (srv_fixtures s !! op)).

(** [json.Encoder]: the members in order, HTML escaped, and a newline. *)
Definition writeJSONError (status : Z) (code message : string) : reply :=
  mkReply status jsonHeader (json_Marshal (JObj [("code", JStr code); ("message", JStr message)]) +:+ String "010" "").

Definition ellipsis : string := String "226" (String "128" (String "166" "")).
Definition truncate (s : string) (n : nat) : string :=
  if (String.length s <=? n)%nat then s else of_chars (take n (chars s)) +:+ ellipsis.

(** [io.ReadAll(io.LimitReader(body, 1<<20))] of a body that delivers [body] and then fails
    with [read_error], or ends. *)
Definition body_limit : Z := 2 ^ 20.
Definition read_body (body : string) (read_error : option error) : res string :=
  if body_limit <=? slen body then Ok (of_chars (take (Z.to_nat body_limit) (chars body)))
  else match read_error with Some err => Err err | None => Ok body end.

(** ** Test cases ([runner.go]) *)

(** What an SDK method does against the server: the requests it sends, each depending on
    the answers so far, and the error it returns. *)
Inductive call :=
| Returned (err : option error)
| Sends (r : mock_request) (read_error : option error) (k : reply -> call).

Record Case (Client : Type) := mkCase {
  cs_Op : string; cs_Run : Client -> call; cs_Fixture : string; cs_SkipRequired : list string;
}.
Arguments mkCase {Client}.
Arguments cs_Op {Client}.
Arguments cs_Run {Client}.
Arguments cs_Fixture {Client}.
Arguments cs_SkipRequired {Client}.

Section Handle.
Context {X : Texts}.

(** The headers are those [check_headers] looks for, in order; [Ok true] when [Encrypt] is
    among them. *)
Definition handle (s : Server) (r : mock_request) (read_error : option error) : reply * Server :=
  let op := OpKey (mq_Method r) (mq_Path r) in
  let s := hit s op in
  match Op (Some (srv_Spec s)) (mq_Method r) (mq_Path r) with
  | None =>
      (writeJSONError 404 "PARAMS_WRONG" ("operation " +:+ op +:+ " not in pinned spec"),
       recordFailure s (mkFailure op "operation not declared in pinned spec" "" "" "" (srv_Path s)))
  | Some specOp =>
      let '(requiredBody, requiredQuery, requiredHeader) := effectiveRequired s specOp in
      match check_headers requiredHeader (mq_Header r) with
      | Err name =>
          (writeJSONError 400 "PARAMS_MISSING" ("missing required header " +:+ quote name),
           recordFailure s (mkFailure op "missing required header" name "" "" (srv_Path s)))
      | Ok encryptedRequest =>
          if bool_decide (mq_Method r = "GET") then
            match List.find (fun name => is_empty (Values_Get (ParseQuery (mq_RawQuery r)).1 name)) requiredQuery with
            | Some name =>
                (writeJSONError 400 "PARAMS_MISSING" ("missing required query param " +:+ quote name),
                 recordFailure s (mkFailure op "missing required query param" name "" (mq_RawQuery r) (srv_Path s)))
            | None => (writeFixture s op, s)
            end
          else if bool_decide (mq_Method r = "POST") then
            match read_body (mq_Body r) read_error with
            | Err err => (writeJSONError 400 "WRONG_PARAMS_FORMAT" ("read body: " +:+ Error quote err), s)
            | Ok body =>
                if encryptedRequest then (writeFixture s op, s)
                else match ValidateBody body requiredBody with
                     | None =>
                         (writeJSONError 400 "WRONG_PARAMS_FORMAT" ("invalid JSON body: " +:+ decode_error body),
                          recordFailure s (mkFailure op "request body is not valid JSON" "" (truncate body 256) "" (srv_Path s)))
                     | Some missing =>
                         if is_empty missing then (writeFixture s op, s)
                         else (writeJSONError 400 "PARAMS_MISSING" ("missing required body field " +:+ quote missing),
                               recordFailure s (mkFailure op "missing required body field" missing (truncate body 256) "" (srv_Path s)))
                     end
            end
          else (writeJSONError 405 "PARAMS_WRONG" "verb not supported by spec server", s)
      end
  end.

(** ** The runner ([runner.go]) *)

Fixpoint run_call (c : call) (s : Server) : option error * Server :=
  match c with
  | Returned err => (err, s)
  | Sends r e k => let '(rep, s) := handle s r e in run_call (k rep) s
  end.

Definition newline : string := String "010" "".

Definition formatFailure (f : Failure) : string :=
  "specserver: " +:+ fl_Op f +:+ ": " +:+ fl_Reason f +:+
  (if is_empty (fl_Field f) then "" else " " +:+ quote (fl_Field f)) +:+
  (if is_empty (fl_Body f) then "" else newline +:+ "  request body: " +:+ fl_Body f) +:+
  (if is_empty (fl_Query f) then "" else newline +:+ "  wire query: " +:+ fl_Query f) +:+
  (if is_empty (fl_SpecPath f) then "" else newline +:+ "  spec: " +:+ fl_SpecPath f).

(** The replacer works byte by byte: its patterns are single bytes. *)
Definition sanitizeName (op : string) : string :=
  of_chars (flat_map (fun c =>
    if bool_decide (c = " "%char) || bool_decide (c = "/"%char) then ["_"%char]
    else if bool_decide (c = "<"%char) || bool_decide (c = ">"%char) then [] else [c]) (chars op)).

Section Runner.
Context {Client : Type}.

(** One subtest: what it reports with [t.Errorf]. *)
Definition run_case (client : Client) (s : Server) (c : Case Client) : list string * Server :=
  let before := length (Failures s) in
  let '(err, s) := run_call (cs_Run c client) s in
  let newFailures := drop before (Failures s) in
  (if (0 <? length newFailures)%nat then map formatFailure newFailures
   else match err with
        | Some err => [cs_Op c +:+ ": SDK call returned error: " +:+ Error quote err]
        | None =>
            if Hits s (cs_Op c) =? 0 then [cs_Op c +:+ ": SDK did not reach the spec server (hit count = 0)"] else []
        end, s).

Fixpoint run_cases (client : Client) (s : Server) (cases : list (Case Client)) : list (string * list string) * Server :=
  match cases with
  | [] => ([], s)
  | c :: cases =>
      let '(errs, s) := run_case client s c in
      let '(rest, s) := run_cases client s cases in ((sanitizeName (cs_Op c), errs) :: rest, s)
  end.

(** The fixtures and the skips, before any case runs. *)
Fixpoint prepare (os_ReadFile : string -> res string) (cases : list (Case Client)) (s : Server) : res Server :=
  match cases with
  | [] => Ok s
  | c :: cases =>
      let* s := (if is_empty (cs_Fixture c) then Ok s
                 else match SetFixture os_ReadFile s (cs_Op c) (cs_Fixture c) with
                      | Err err => Err (EErrorf "RunCases: %v" [AErr err])
                      | Ok s => Ok s
                      end) in
      prepare os_ReadFile cases
        (if (0 <? length (cs_SkipRequired c))%nat then SkipRequired s (cs_Op c) (cs_SkipRequired c) else s)
  end.

(** The subtests and what each reports; an error is [t.Fatalf]. *)
Definition RunCases (os_ReadFile : string -> res string) (loaded : res (gmap string Operation * string))
    (MustClient : res Client) (cases : list (Case Client)) : res (list (string * list string) * Server) :=
  let* s := New loaded in
  let* s := prepare os_ReadFile cases s in
  let* client := MustClient in
  Ok (run_cases client s cases).
End Runner.
End Handle.

(** [MustClient]: two fresh key pairs, each as the PEM of its private and of its public
    key, and the client built with them. *)
Definition MustClient {R : RSA} {P : X509} {U : URLParse} {RT : Runtime} {E : Env}
    (signing encrypt : res (string * string)) (url : string) : res Client :=
  match signing with
  | Err err => Err (EErrorf "specserver.MustClient: rsa.GenerateKey signing: %v" [AErr err])
  | Ok (privPEM, pubPEM) =>
      match encrypt with
      | Err err => Err (EErrorf "specserver.MustClient: rsa.GenerateKey encrypt: %v" [AErr err])
      | Ok (_, encPubPEM) =>
          match Client.New [Some (WithBaseURL url); Some (WithPrivateKeyPEM privPEM []);
                            Some (WithAtomePublicCertPEM pubPEM); Some (WithEncryptAtomePublicCertPEM encPubPEM)] with
          | Err err => Err (EErrorf "specserver.MustClient: atomefin.New: %v" [AErr err])
          | Ok c => Ok c
          end
      end
  end.

(** * Lemmas *)

(** What the specification demands of a request, the skipped paths apart. *)
Definition skipped (s : Server) (o : Operation) : gset string := default ∅ (srv_skipReq s !! OpKey (op_Method o) (op_Path o)).
Definition demanded (s : Server) (o : Operation) (l : list string) : list string := filter (fun p => p ∉ skipped s o) l.

Lemma effectiveRequired_demanded s o :
  effectiveRequired s o =
  (demanded s o (op_RequiredBody o), demanded s o (op_RequiredQuery o), demanded s o (op_RequiredHeader o)).
Proof.
  unfold effectiveRequired, demanded. cbv zeta. fold (skipped s o).
  destruct (bool_decide_reflect (skipped s o = ∅)) as [Hs|]; [|done].
  assert (forall l : list string, filter (fun p => p ∉ skipped s o) l = l) as He; [|by rewrite !He].
  induction l as [|p l IH]; [done|]. rewrite filter_cons, decide_True by set_solver. by rewrite IH.
Qed.

Lemma check_headers_Ok names h b :
  check_headers names h = Ok b <-> Forall (fun name => Header_Get h name <> "") names /\ b = bool_decide ("Encrypt" ∈ names).
Proof.
  revert b. induction names as [|name names IH]; intros b; cbn [check_headers].
  - split; [intros [= <-]; by split|]. by intros [_ ->].
  - destruct (is_empty (Header_Get h name)) eqn:Ee; to_prop.
    + split; [done|]. intros [Hf _]. apply Forall_cons in Hf as [? _]. congruence.
    + destruct (check_headers names h) as [b'|]; cbn [result_bind].
      * pose proof (proj1 (IH b') eq_refl) as [Hf ->]. rewrite Forall_cons.
        assert (bool_decide (name = "Encrypt") || bool_decide ("Encrypt" ∈ names) = bool_decide ("Encrypt" ∈ name :: names)) as ->.
        { apply Bool.eq_iff_eq_true. rewrite orb_true_iff, !bool_decide_eq_true, elem_of_cons. naive_solver. }
        split; [intros [= <-]; done|]. by intros [_ ->].
      * split; [done|]. intros [[_ Hf]%Forall_cons ->]. exfalso.
        by specialize (proj2 (IH _) (conj Hf eq_refl)).
Qed.

Section Conform.
Context {X : Texts}.

Definition conforms (s : Server) (r : mock_request) (read_error : option error) : Prop :=
  exists o, Op (Some (srv_Spec s)) (mq_Method r) (mq_Path r) = Some o /\
    Forall (fun name => Header_Get (mq_Header r) name <> "") (demanded s o (op_RequiredHeader o)) /\
    ((mq_Method r = "GET" /\
      Forall (fun name => Values_Get (ParseQuery (mq_RawQuery r)).1 name <> "") (demanded s o (op_RequiredQuery o))) \/
     (mq_Method r = "POST" /\ exists body, read_body (mq_Body r) read_error = Ok body /\
      ("Encrypt" ∈ demanded s o (op_RequiredHeader o) \/ ValidateBody body (demanded s o (op_RequiredBody o)) = Some ""))).

(** A request the server does not judge: its body cannot be read, or its verb is another. *)
Definition unjudged (s : Server) (r : mock_request) (read_error : option error) : Prop :=
  exists o, Op (Some (srv_Spec s)) (mq_Method r) (mq_Path r) = Some o /\
    Forall (fun name => Header_Get (mq_Header r) name <> "") (demanded s o (op_RequiredHeader o)) /\
    ((mq_Method r = "POST" /\ exists err, read_body (mq_Body r) read_error = Err err) \/
     (mq_Method r <> "GET" /\ mq_Method r <> "POST")).

(** What a step leaves alone, and the hit it counts. *)
Definition stepped (s s' : Server) (op : string) : Prop :=
  srv_Spec s' = srv_Spec s /\ srv_skipReq s' = srv_skipReq s /\ srv_fixtures s' = srv_fixtures s /\
  srv_hits s' = <[op := i64 (default 0 (srv_hits s !! op) + 1)]> (srv_hits s).

Inductive outcome (s : Server) (r : mock_request) (read_error : option error) : reply -> list Failure -> Prop :=
| outcome_served : conforms s r read_error ->
    outcome s r read_error (writeFixture s (OpKey (mq_Method r) (mq_Path r))) []
| outcome_refused status code msg f : ~ conforms s r read_error -> ~ unjudged s r read_error ->
    status ∈ [400; 404] -> fl_Op f = OpKey (mq_Method r) (mq_Path r) ->
    outcome s r read_error (writeJSONError status code msg) [f]
| outcome_unjudged status code msg : ~ conforms s r read_error -> unjudged s r read_error -> status ∈ [400; 405] ->
    outcome s r read_error (writeJSONError status code msg) [].


Lemma find_empty {A} (f : A -> string) l :
  List.find (fun x => is_empty (f x)) l = None <-> Forall (fun x => f x <> "") l.
Proof.
  induction l as [|x l IH]; cbn [List.find]; [done|]. rewrite Forall_cons, <- IH, <- is_empty_false.
  destruct (is_empty (f x)); naive_solver.
Qed.

Lemma conforms_at s r read_error o : Op (Some (srv_Spec s)) (mq_Method r) (mq_Path r) = Some o ->
  conforms s r read_error <->
  Forall (fun name => Header_Get (mq_Header r) name <> "") (demanded s o (op_RequiredHeader o)) /\
  ((mq_Method r = "GET" /\
    Forall (fun name => Values_Get (ParseQuery (mq_RawQuery r)).1 name <> "") (demanded s o (op_RequiredQuery o))) \/
   (mq_Method r = "POST" /\ exists body, read_body (mq_Body r) read_error = Ok body /\
    ("Encrypt" ∈ demanded s o (op_RequiredHeader o) \/ ValidateBody body (demanded s o (op_RequiredBody o)) = Some ""))).
Proof.
  intros Ho. split; [|intros H; by exists o]. intros (o' & Ho' & H). rewrite Ho in Ho'. by injection Ho' as <-.
Qed.

Lemma unjudged_at s r read_error o : Op (Some (srv_Spec s)) (mq_Method r) (mq_Path r) = Some o ->
  unjudged s r read_error <->
  Forall (fun name => Header_Get (mq_Header r) name <> "") (demanded s o (op_RequiredHeader o)) /\
  ((mq_Method r = "POST" /\ exists err, read_body (mq_Body r) read_error = Err err) \/
   (mq_Method r <> "GET" /\ mq_Method r <> "POST")).
Proof.
  intros Ho. split; [|intros H; by exists o]. intros (o' & Ho' & H). rewrite Ho in Ho'. by injection Ho' as <-.
Qed.

(** The branches of [handle] end in one of these. *)
Lemma serves_fixture s r read_error s' : conforms s r read_error -> stepped s s' (OpKey (mq_Method r) (mq_Path r)) ->
  srv_failures s' = srv_failures s ->
  stepped s s' (OpKey (mq_Method r) (mq_Path r)) /\ exists fs, srv_failures s' = srv_failures s ++ fs /\
    outcome s r read_error (writeFixture s' (OpKey (mq_Method r) (mq_Path r))) fs.
Proof.
  intros Hc Hs Hf. split; [done|]. exists []. rewrite Hf, app_nil_r. split; [done|].
  assert (writeFixture s' (OpKey (mq_Method r) (mq_Path r)) = writeFixture s (OpKey (mq_Method r) (mq_Path r))) as ->.
  { unfold writeFixture. destruct Hs as (_ & _ & -> & _). done. }
  by apply outcome_served.
Qed.

Lemma refused s r read_error status code msg s' f : ~ conforms s r read_error -> ~ unjudged s r read_error ->
  status ∈ [400; 404] -> stepped s s' (OpKey (mq_Method r) (mq_Path r)) -> srv_failures s' = srv_failures s ++ [f] ->
  fl_Op f = OpKey (mq_Method r) (mq_Path r) ->
  stepped s s' (OpKey (mq_Method r) (mq_Path r)) /\ exists fs, srv_failures s' = srv_failures s ++ fs /\
    outcome s r read_error (writeJSONError status code msg) fs.
Proof. intros. split; [done|]. exists [f]. split; [done|]. by apply outcome_refused. Qed.

Lemma not_judged s r read_error status code msg s' : ~ conforms s r read_error -> unjudged s r read_error ->
  status ∈ [400; 405] -> stepped s s' (OpKey (mq_Method r) (mq_Path r)) -> srv_failures s' = srv_failures s ->
  stepped s s' (OpKey (mq_Method r) (mq_Path r)) /\ exists fs, srv_failures s' = srv_failures s ++ fs /\
    outcome s r read_error (writeJSONError status code msg) fs.
Proof. intros ? ? ? ? ->. split; [done|]. exists []. rewrite app_nil_r. split; [done|]. by apply outcome_unjudged. Qed.

Lemma handle_outcome s r read_error :
  stepped s (handle s r read_error).2 (OpKey (mq_Method r) (mq_Path r)) /\
  exists fs, srv_failures (handle s r read_error).2 = srv_failures s ++ fs /\
    outcome s r read_error (handle s r read_error).1 fs.
Proof.
  unfold handle. cbv zeta. cbn [srv_Spec hit].
  destruct (Op _ _ _) as [o|] eqn:Eo.
  2: { eapply refused; [intros (? & ? & _); congruence|intros (? & ? & _); congruence|set_solver|done..]. }
  pose proof (conforms_at s r read_error o Eo) as Hc. pose proof (unjudged_at s r read_error o Eo) as Hu.
  rewrite effectiveRequired_demanded. change (demanded (hit s _) o) with (demanded s o).
  destruct (check_headers _ _) as [enc|name] eqn:Eh.
  2: { assert (Hn : ~ Forall (fun name => Header_Get (mq_Header r) name <> "") (demanded s o (op_RequiredHeader o))).
       { intros Hf. by rewrite (proj2 (check_headers_Ok _ _ _) (conj Hf eq_refl)) in Eh. }
       eapply refused; [rewrite Hc|rewrite Hu|set_solver|done..]; tauto. }
  apply check_headers_Ok in Eh as [Hh ->].
  destruct (bool_decide_reflect (mq_Method r = "GET")) as [Hg|Hg].
  { assert (Hp : mq_Method r <> "POST") by congruence. destruct (List.find _ _) as [name|] eqn:Ef.
    - assert (Hn : ~ Forall (fun name => Values_Get (ParseQuery (mq_RawQuery r)).1 name <> "") (demanded s o (op_RequiredQuery o)))
        by (rewrite <- find_empty; congruence).
      eapply refused; [rewrite Hc; naive_solver|rewrite Hu; naive_solver|set_solver|done..].
    - apply find_empty in Ef. apply serves_fixture; [|done..]. apply Hc. auto. }
  destruct (bool_decide_reflect (mq_Method r = "POST")) as [Hp|Hp].
  2: { apply not_judged; [rewrite Hc; tauto|apply Hu; auto|set_solver|done..]. }
  destruct (read_body _ _) as [body|err] eqn:Eb.
  2: { apply not_judged; [rewrite Hc; naive_solver|apply Hu; eauto 6|set_solver|done..]. }
  assert (Hj : ~ unjudged s r read_error) by (rewrite Hu; naive_solver).
  destruct (bool_decide_reflect ("Encrypt" ∈ demanded s o (op_RequiredHeader o))) as [He|He].
  { apply serves_fixture; [|done..]. apply Hc. eauto 8. }
  destruct (ValidateBody _ _) as [missing|] eqn:Ev; [destruct (is_empty missing) eqn:Em; to_prop|].
  - subst missing. apply serves_fixture; [|done..]. apply Hc. eauto 8.
  - eapply refused; [rewrite Hc; naive_solver|done|set_solver|done..].
  - eapply refused; [rewrite Hc; naive_solver|done|set_solver|done..].
Qed.


(** ** The runner *)







Section Runner.
Context {Client : Type} (client : Client).












End Runner.
End Conform.

(** * Claims *)

(** C22.  The spec-validating server.  Every request counts one hit of its operation and
    leaves the specification, the skips and the fixtures as they are.  It is served the
    operation's fixture, and recorded nowhere, exactly when it conforms: its operation is
    declared, the required headers and (of a GET) query parameters are there, and (of a
    POST, unless its body is encrypted) the body, cut at the limit, has every required
    member, the skipped paths apart.  Any other is refused with exactly one failure for
    its operation, but one that cannot be judged (an unreadable body, another verb), which
    is refused with none. *)
Theorem server_handle_spec {X : Texts} s r read_error :
  stepped s (handle s r read_error).2 (OpKey (mq_Method r) (mq_Path r)) /\
  exists fs, srv_failures (handle s r read_error).2 = srv_failures s ++ fs /\
    outcome s r read_error (handle s r read_error).1 fs.
Proof. apply handle_outcome. Qed.


(** ** A run *)

Definition toy_operations : gmap string Operation :=
  {[ "POST /voidAuth" := mkOperation "POST" "/voidAuth" ["requestId"] [] [] ]}.
Definition toy_call (body : string) : call :=
  Sends (mkMockRequest "POST" "/voidAuth" "" ∅ body) None (fun rep => Returned (if rp_status rep =? 200 then None else Some (ENew "refused"))).
Definition toy_cases : list (Case unit) :=
  [ mkCase "POST /voidAuth" (fun _ => toy_call (obj [("requestId", dqs "r")])) "" [];
    mkCase "POST /voidAuth" (fun _ => toy_call (obj [("requestId", "null")])) "" [] ].

Example toy_run :
  match @RunCases toy_texts unit (fun _ => Err (ENew "no file")) (Ok (toy_operations, "spec.yaml")) (Ok tt) toy_cases with
  | Ok (out, _) => out = [ ("POST__voidAuth", []);
      ("POST__voidAuth", ["specserver: POST /voidAuth: missing required body field requestId" +:+ newline +:+
        "  request body: " +:+ obj [("requestId", "null")] +:+ newline +:+ "  spec: spec.yaml"]) ]
  | Err _ => False
  end.
Proof. vm_compute. reflexivity. Qed.


(** Two cases of one operation share its counter: the second sends nothing and is not
    reported. *)
Example hits_shared :
  (fun r => match r with Ok (out, _) => map snd out = [[]; []] | Err _ => False end)
    (@RunCases toy_texts unit (fun _ => Err (ENew "no file")) (Ok (toy_operations, "spec.yaml")) (Ok tt)
       [ mkCase "POST /voidAuth" (fun _ => toy_call (obj [("requestId", dqs "r")])) "" [];
         mkCase "POST /voidAuth" (fun _ => Returned None) "" [] ]).
Proof. vm_compute. reflexivity. Qed.
