(* ===== verification/SpecOverlap.v ===== *)
(** * SpecOverlap: requests to the spec-validating server that overlap in time
    ([qa/specserver/server.go]).

    A request is counted, judged (with the skips read under the mutex), and then its
    failure is recorded or the fixture read: one critical section after the other, between
    which those of other requests may come.  The setup of a test ([SetFixture],
    [SkipRequired], [Reset]) comes before its requests. *)
From S2P Require Import Prelude GoStd Errors GoHttp Json Codec Transport World Client Callback Mock Spec SpecServer.

Section Overlap.
Context {X : Texts}.

(** What the handler decides: to serve the fixture, or the reply and the failure. *)
Inductive verdict := Serves | Refuses (rp : reply) (f : option Failure).

Definition judge (s : Server) (r : mock_request) (read_error : option error) : verdict :=
  let op := OpKey (mq_Method r) (mq_Path r) in
  match Op (Some (srv_Spec s)) (mq_Method r) (mq_Path r) with
  | None =>
      Refuses (writeJSONError 404 "PARAMS_WRONG" ("operation " +:+ op +:+ " not in pinned spec"))
        (Some (mkFailure op "operation not declared in pinned spec" "" "" "" (srv_Path s)))
  | Some specOp =>
      let '(requiredBody, requiredQuery, requiredHeader) := effectiveRequired s specOp in
      match check_headers requiredHeader (mq_Header r) with
      | Err name =>
          Refuses (writeJSONError 400 "PARAMS_MISSING" ("missing required header " +:+ quote name))
            (Some (mkFailure op "missing required header" name "" "" (srv_Path s)))
      | Ok encryptedRequest =>
          if bool_decide (mq_Method r = "GET") then
            match List.find (fun name => is_empty (Values_Get (ParseQuery (mq_RawQuery r)).1 name)) requiredQuery with
            | Some name =>
                Refuses (writeJSONError 400 "PARAMS_MISSING" ("missing required query param " +:+ quote name))
                  (Some (mkFailure op "missing required query param" name "" (mq_RawQuery r) (srv_Path s)))
            | None => Serves
            end
          else if bool_decide (mq_Method r = "POST") then
            match read_body (mq_Body r) read_error with
            | Err err => Refuses (writeJSONError 400 "WRONG_PARAMS_FORMAT" ("read body: " +:+ Error quote err)) None
            | Ok body =>
                if encryptedRequest then Serves
                else match ValidateBody body requiredBody with
                     | None =>
                         Refuses (writeJSONError 400 "WRONG_PARAMS_FORMAT" ("invalid JSON body: " +:+ decode_error body))
                           (Some (mkFailure op "request body is not valid JSON" "" (truncate body 256) "" (srv_Path s)))
                     | Some missing =>
                         if is_empty missing then Serves
                         else Refuses (writeJSONError 400 "PARAMS_MISSING" ("missing required body field " +:+ quote missing))
                                (Some (mkFailure op "missing required body field" missing (truncate body 256) "" (srv_Path s)))
                     end
            end
          else Refuses (writeJSONError 405 "PARAMS_WRONG" "verb not supported by spec server") None
      end
  end.

(** Where a request stands. *)
Inductive stage := Arrived | Counted | Judged (v : verdict) | Replied (rp : reply).

Record request := mkReq { rq_req : mock_request; rq_error : option error; rq_stage : stage }.

Definition op_of (q : request) : string := OpKey (mq_Method (rq_req q)) (mq_Path (rq_req q)).

Definition proceed (q : request) (s : Server) : stage * Server :=
  match rq_stage q with
  | Arrived => (Counted, hit s (op_of q))
  | Counted => (Judged (judge s (rq_req q) (rq_error q)), s)
  | Judged Serves => (Replied (writeFixture s (op_of q)), s)
  | Judged (Refuses rp f) => (Replied rp, match f with Some f => recordFailure s f | None => s end)
  | Replied rp => (Replied rp, s)
  end.

Definition at_stage (q : request) (st : stage) : request := mkReq (rq_req q) (rq_error q) st.

Inductive turn : Server * list request -> Server * list request -> Prop :=
| turn_arrive s qs r e : turn (s, qs) (s, qs ++ [mkReq r e Arrived])
| turn_proceed s qs i q st s' : qs !! i = Some q -> proceed q s = (st, s') -> turn (s, qs) (s', <[i := at_stage q st]> qs).

(** A schedule, to run the relation: a request arrives, or one proceeds. *)
Definition take_turn (c : Server * list request) (t : (mock_request * option error) + nat) : Server * list request :=
  match t with
  | inl (r, e) => (c.1, c.2 ++ [mkReq r e Arrived])
  | inr i =>
      match c.2 !! i with
      | Some q => let '(st, s) := proceed q c.1 in (s, <[i := at_stage q st]> c.2)
      | None => c
      end
  end.

Lemma take_turns c ts : rtc turn c (fold_left take_turn ts c).
Proof.
  revert c. induction ts as [|t ts IH]; intros [s qs]; [constructor|]. cbn [fold_left]. etrans; [|apply IH].
  destruct t as [[r e]|i]; cbn [take_turn fst snd]; [apply rtc_once; constructor|].
  destruct (qs !! i) as [q|] eqn:Ei; [|constructor]. destruct (proceed q s) as [st s'] eqn:Ep.
  apply rtc_once. by econstructor.
Qed.

(** The requests served one after the other, in the order of their arrival. *)
Definition in_turn (s : Server) (qs : list request) : Server :=
  fold_left (fun s q => (handle s (rq_req q) (rq_error q)).2) qs s.

(** ** Lemmas *)

(** Servers that judge and serve alike. *)
Definition alike (s s' : Server) : Prop :=
  srv_Spec s' = srv_Spec s /\ srv_Path s' = srv_Path s /\ srv_skipReq s' = srv_skipReq s /\ srv_fixtures s' = srv_fixtures s.

Lemma judge_alike s s' r e : alike s s' -> judge s' r e = judge s r e.
Proof. intros (H1 & H2 & H3 & _). unfold judge, effectiveRequired. by rewrite H1, H2, H3. Qed.

Definition failure_of (v : verdict) : list Failure := match v with Refuses _ (Some f) => [f] | _ => [] end.

(** The handler is a count, a verdict and what follows from it. *)
Lemma handle_judge s r e : let op := OpKey (mq_Method r) (mq_Path r) in
  handle s r e =
  match judge s r e with
  | Serves => (writeFixture (hit s op) op, hit s op)
  | Refuses rp f => (rp, match f with Some f => recordFailure (hit s op) f | None => hit s op end)
  end.
Proof.
  cbv zeta. rewrite <- (judge_alike s (hit s (OpKey (mq_Method r) (mq_Path r))) r e) by done. unfold handle, judge. cbv zeta.
  destruct (Op _ _ _) as [o|]; [|done]. destruct (effectiveRequired _ o) as [[b q] h]. destruct (check_headers h _) as [enc|]; [|done].
  destruct (bool_decide (mq_Method r = "GET")); [by destruct (List.find _ _)|].
  destruct (bool_decide (mq_Method r = "POST")); [|done]. destruct (read_body _ _); [|done]. destruct enc; [done|].
  destruct (ValidateBody _ _) as [missing|]; [|done]. by destruct (is_empty missing).
Qed.

(** *** Counters *)

Definition bump (op : string) (h : gmap string Z) : gmap string Z := <[op := i64 (default 0 (h !! op) + 1)]> h.

Lemma bump_comm a b h : bump a (bump b h) = bump b (bump a h).
Proof.
  unfold bump. destruct (decide (a = b)) as [->|Hne]; [done|].
  rewrite !lookup_insert_ne by done. by rewrite insert_insert_ne.
Qed.

Lemma bumps_permutation h l l' : l ≡ₚ l' -> foldr bump h l = foldr bump h l'.
Proof.
  intros Hp. induction Hp as [|x l l' _ IH|x y l|l l' l'' _ IH _ IH']; cbn [foldr]; [done|by rewrite IH|apply bump_comm|congruence].
Qed.

Lemma bumps_bump h op l : foldr bump (bump op h) l = foldr bump h (op :: l).
Proof. induction l as [|x l IH]; cbn [foldr] in *; [done|]. rewrite IH. apply bump_comm. Qed.

(** *** What each request contributes *)

Definition counted (q : request) : list string := match rq_stage q with Arrived => [] | _ => [op_of q] end.
Definition failures_alone (s0 : Server) (q : request) : list Failure := failure_of (judge s0 (rq_req q) (rq_error q)).
Definition reported (s0 : Server) (q : request) : list Failure :=
  match rq_stage q with Replied _ => failures_alone s0 q | _ => [] end.

(** The stage a request is in follows from what it would get on its own. *)
Definition stage_ok (s0 : Server) (q : request) : Prop :=
  match rq_stage q with
  | Judged v => v = judge s0 (rq_req q) (rq_error q)
  | Replied rp => rp = (handle s0 (rq_req q) (rq_error q)).1
  | _ => True
  end.

Record consistent (s0 : Server) (c : Server * list request) : Prop := {
  con_alike : alike s0 c.1;
  con_hits : srv_hits c.1 = foldr bump (srv_hits s0) (flat_map counted c.2);
  con_failures : srv_failures c.1 ≡ₚ srv_failures s0 ++ flat_map (reported s0) c.2;
  con_stages : Forall (stage_ok s0) c.2;
}.

(** What a request adds when it proceeds is added to the whole. *)
Lemma flat_map_more {A} (f : request -> list A) qs i q q' x : qs !! i = Some q -> f q' = f q ++ x ->
  flat_map f (<[i := q']> qs) ≡ₚ flat_map f qs ++ x.
Proof.
  intros Hi Hf. assert (Hs : qs = take i qs ++ q :: drop (S i) qs) by (by rewrite take_drop_middle).
  rewrite insert_take_drop by (by eapply lookup_lt_Some). rewrite Hs at 3.
  rewrite !flat_map_app. cbn [flat_map]. rewrite Hf, <- !app_assoc. do 2 apply Permutation_app_head. apply Permutation_app_comm.
Qed.

(** A step adds to the counters when the request arrives, and to the failures when it is
    refused. *)
Lemma proceed_adds s0 q s st s' : alike s0 s -> stage_ok s0 q -> proceed q s = (st, s') ->
  alike s0 s' /\ stage_ok s0 (at_stage q st) /\
  exists ops fs, counted (at_stage q st) = counted q ++ ops /\ srv_hits s' = foldr bump (srv_hits s) ops /\
    reported s0 (at_stage q st) = reported s0 q ++ fs /\ srv_failures s' = srv_failures s ++ fs.
Proof.
  intros Ha Hok. pose proof (handle_judge s0 (rq_req q) (rq_error q)) as Hh. cbv zeta in Hh. destruct q as [r e sg].
  unfold proceed, stage_ok, counted, reported, failures_alone, op_of, at_stage in *. cbn [rq_req rq_error rq_stage] in *.
  destruct sg as [| |v|rp].
  - intros [= <- <-]. split; [done|]. split; [done|]. exists [OpKey (mq_Method r) (mq_Path r)], []. split_and!; by rewrite ?app_nil_r.
  - intros [= <- <-]. split; [done|]. split; [by apply judge_alike|]. exists [], []. split_and!; by rewrite ?app_nil_r.
  - subst v. destruct (judge s0 r e) as [|rp [f|]] eqn:Ej; intros [= <- <-]; rewrite Hh.
    + split; [done|]. split; [unfold writeFixture; by destruct Ha as (_ & _ & _ & ->)|]. exists [], []. split_and!; by rewrite ?app_nil_r.
    + split; [done|]. split; [done|]. exists [], [f]. split_and!; by rewrite ?app_nil_r.
    + split; [done|]. split; [done|]. exists [], []. split_and!; by rewrite ?app_nil_r.
  - intros [= <- <-]. split; [done|]. split; [done|]. exists [], []. split_and!; by rewrite ?app_nil_r.
Qed.

Lemma consistent_turn s0 c c' : consistent s0 c -> turn c c' -> consistent s0 c'.
Proof.
  intros [Ha Hh Hf Hst] Ht. destruct Ht as [s qs r e|s qs i q st s' Hi Hp]; cbn [fst snd] in *.
  - split; cbn [fst snd]; [done|by rewrite flat_map_app, app_nil_r|by rewrite flat_map_app, app_nil_r|].
    apply Forall_app. split; [done|by constructor].
  - destruct (proceed_adds s0 q s st s' Ha (proj1 (Forall_lookup _ _) Hst i q Hi) Hp) as (Ha' & Hok & ops & fs & Hc & Hh' & Hr & Hf').
    split; cbn [fst snd]; [done| | |by apply Forall_insert].
    + rewrite Hh', Hh, <- foldr_app. apply bumps_permutation. rewrite Permutation_app_comm. symmetry. by eapply flat_map_more.
    + rewrite Hf', Hf, <- app_assoc. apply Permutation_app_head. symmetry. by eapply flat_map_more.
Qed.

Lemma consistent_turns s0 c c' : consistent s0 c -> rtc turn c c' -> consistent s0 c'.
Proof. intros Hc Ht. induction Ht; [done|]. eauto using consistent_turn. Qed.

(** One after the other. *)
Lemma in_turn_spec s0 s qs : alike s0 s ->
  alike s0 (in_turn s qs) /\ srv_hits (in_turn s qs) = foldr bump (srv_hits s) (map op_of qs) /\
  srv_failures (in_turn s qs) = srv_failures s ++ flat_map (failures_alone s0) qs.
Proof.
  revert s. induction qs as [|q qs IH]; intros s Ha; [by rewrite app_nil_r|]. cbn [in_turn fold_left].
  pose proof (handle_judge s (rq_req q) (rq_error q)) as Hh. cbv zeta in Hh. rewrite (judge_alike s0 s) in Hh by done.
  assert (Hs : let s' := (handle s (rq_req q) (rq_error q)).2 in
    alike s0 s' /\ srv_hits s' = bump (op_of q) (srv_hits s) /\ srv_failures s' = srv_failures s ++ failures_alone s0 q).
  { cbv zeta. rewrite Hh. unfold failures_alone. destruct (judge s0 _ _) as [|rp [f|]]; split_and!; try done; by rewrite ?app_nil_r. }
  cbv zeta in Hs. destruct Hs as (Ha' & Hh' & Hf'). destruct (IH _ Ha') as (Ha'' & Hh'' & Hf''). split; [done|].
  split; [etrans; [exact Hh''|]; rewrite Hh'; apply bumps_bump|]. etrans; [exact Hf''|]. rewrite Hf'. cbn [flat_map]. by rewrite app_assoc.
Qed.

End Overlap.

(** * Properties *)

(** C23.  Requests that overlap.  Interleaved in any way, requests to the spec-validating
    server end as if they had been served one after the other in the order of their
    arrival, each on its own: every reply is the one the handler gives to that request
    from the initial state, the counters are equal, the failures recorded are the same up
    to their order, and nothing else of the server has changed. *)
Theorem overlap_in_turn {X : Texts} s0 s qs :
  rtc turn (s0, []) (s, qs) -> Forall (fun q => exists rp, rq_stage q = Replied rp) qs ->
  Forall (fun q => rq_stage q = Replied (handle s0 (rq_req q) (rq_error q)).1) qs /\
  (forall op, Hits s op = Hits (in_turn s0 qs) op) /\ Failures s ≡ₚ Failures (in_turn s0 qs) /\
  srv_Spec s = srv_Spec s0 /\ srv_skipReq s = srv_skipReq s0 /\ srv_fixtures s = srv_fixtures s0.
Proof.
  intros Ht Hdone. destruct (consistent_turns s0 (s0, []) (s, qs)) as [Ha Hh Hf Hst]; [|done|].
  { split; cbn; [done|done|by rewrite app_nil_r|constructor]. }
  cbn [fst snd] in *. destruct (in_turn_spec s0 s0 qs ltac:(done)) as (_ & Hh' & Hf').
  assert (Hcount : flat_map counted qs = map op_of qs /\ flat_map (reported s0) qs = flat_map (failures_alone s0) qs).
  { clear -Hdone. induction Hdone as [|q qs [rp Hq] _ [IH1 IH2]]; [done|]. cbn [flat_map map]. rewrite IH1, IH2.
    unfold counted, reported. by rewrite Hq. }
  destruct Hcount as [Hc1 Hc2]. rewrite Hc1 in Hh. rewrite Hc2 in Hf. destruct Ha as (H1 & _ & H3 & H4). split_and!; try done.
  - apply Forall_forall. intros q Hin. apply (Forall_forall _ _) with (x := q) in Hst; [|done].
    apply (Forall_forall _ _) with (x := q) in Hdone as [rp Hq]; [|done]. unfold stage_ok in Hst. rewrite Hq in *. by rewrite Hst.
  - intros op. unfold Hits. by rewrite Hh, Hh'.
  - unfold Failures. by rewrite Hf'.
Qed.

(** ** A run *)

(** Two requests; the second, which lacks its request id, overtakes the first. *)
Definition toy_requests : list mock_request :=
  [ mkMockRequest "POST" "/voidAuth" "" ∅ (obj [("requestId", dqs "r")]);
    mkMockRequest "POST" "/voidAuth" "" ∅ (obj [("requestId", "null")]) ].
Definition toy_schedule : list ((mock_request * option error) + nat) :=
  map (fun r => inl (r, None)) toy_requests ++ map inr [0%nat; 1%nat; 1%nat; 1%nat; 0%nat; 0%nat].
Definition toy_spec_server : Server := NewWithSpec toy_operations "spec.yaml".
Definition toy_end : Server * list request :=
  fold_left (@take_turn toy_texts) toy_schedule (toy_spec_server, []).

Lemma overlap_in_turn_witness :
  map rq_stage toy_end.2 = map (fun r => Replied (@handle toy_texts toy_spec_server r None).1) toy_requests /\
  Hits toy_end.1 "POST /voidAuth" = 2 /\ length (Failures toy_end.1) = 1%nat.
Proof.
  assert (Hdone : Forall (fun q => exists rp, rq_stage q = Replied rp) toy_end.2).
  { vm_compute. repeat constructor; eexists; reflexivity. }
  assert (Hm : rtc (@turn toy_texts) (toy_spec_server, []) (toy_end.1, toy_end.2)) by (rewrite <- surjective_pairing; apply take_turns).
  pose proof (@overlap_in_turn toy_texts toy_spec_server toy_end.1 toy_end.2 Hm Hdone) as (Hall & Hhits & Hfail & _).
  assert (Hq : exists a b, toy_end.2 = [mkReq (nth 0 toy_requests (mkMockRequest "" "" "" ∅ "")) None a; mkReq (nth 1 toy_requests (mkMockRequest "" "" "" ∅ "")) None b])
    by (do 2 eexists; vm_compute; reflexivity).
  destruct Hq as (a & b & Hq). split; [|split].
  - rewrite Hq in Hall |- *. inversion_clear Hall as [|? ? Ha Hall']. inversion_clear Hall' as [|? ? Hb ?].
    cbn [rq_stage rq_req rq_error] in Ha, Hb. cbn [map rq_stage toy_requests nth] in *. congruence.
  - rewrite Hhits. vm_compute. reflexivity.
  - rewrite Hfail. vm_compute. reflexivity.
Defined.
