(* ===== verification/Conformance.v ===== *)
(** * Conformance: the SDK's requests against the specification it pins.

    A required path of the specification is followed through the encoding of a typed
    request ([holds], [member]); the validators' contracts then decide whether a request is
    accepted.  The calls are composed with the spec-validating server of [SpecServer]
    holding the operations of [PinnedSpec]. *)
From S2P Require Import Prelude GoStd Errors Canonical GoCrypto Sign Encrypt GoHttp Json Codec Schema Transport World.
From S2P Require Import Client Doer Gateway Service CreditTypes Credit Callback Bill Transaction VirtualAccount Heartbeat Repayment Refund.
From S2P Require Import PaymentTypes PaymentRules Payment Spec SpecWalker PinnedSpec Mock SpecServer.

(** ** Paths through typed encodings *)

Inductive path_step := Name (name : string) | Each (name : string).

Definition to_step (seg : string) : path_step :=
  match array_segment seg with Some name => Each name | None => Name seg end.
Definition path_of (p : string) : list path_step := map to_step (splitPath p).

(** [satisfied], step by step. *)
Fixpoint holds (node : json) (path : list path_step) : Prop :=
  match path with
  | [] => node <> JNull
  | Each name :: path => forall arr elem, childOf node name = JArr arr -> elem ∈ arr -> holds elem path
  | Name name :: path =>
      match path with
      | [] => childOf node name <> JNull
      | _ => childOf node name <> JNull -> holds (childOf node name) path
      end
  end.

Lemma satisfied_holds node segs : satisfied node segs <-> holds node (map to_step segs).
Proof.
  revert node. induction segs as [|seg segs IH]; intros node; [done|]. cbn [satisfied map]. unfold to_step at 1.
  destruct (array_segment seg) as [name|]; cbn [holds].
  - split; intros H arr elem Ha He; apply IH; by eapply H.
  - destruct segs; [by rewrite decide_True|]. rewrite decide_False by done. cbn [map] in *. by rewrite IH.
Qed.

(** The member of a struct's encoding. *)
Definition member {A} (fs : list (field_decl A)) (a : A) (name : string) : json :=
  match List.find (fun f => bool_decide (f_name f = name)) fs with
  | Some f => if field_omitted f a then JNull else c_enc (f_codec f) (f_get f a)
  | None => JNull
  end.

(** A type whose encoding is an object with the members of a declaration. *)
Class Members {A} (c : codec A) (fs : list (field_decl A)) : Prop :=
  members : forall a name, childOf (c_enc c a) name = member fs a name.

Lemma childOf_nin ms k : k ∉ map fst ms -> childOf (JObj ms) k = JNull.
Proof.
  intros Hk. cbn [childOf]. destruct (List.find _ (rev ms)) as [[k' v]|] eqn:Ef; [|done].
  apply List.find_some in Ef as [Hin Hb]. apply bool_decide_eq_true in Hb. cbn in Hb. subst k'.
  destruct Hk. apply list_elem_of_In, in_map_iff. exists (k, v). split; [done|]. by apply in_rev.
Qed.

Lemma childOf_in ms k v : NoDup (map fst ms) -> (k, v) ∈ ms -> childOf (JObj ms) k = v.
Proof.
  intros Hn Hin. cbn [childOf]. destruct (List.find _ (rev ms)) as [[k' v']|] eqn:Ef.
  - apply List.find_some in Ef as [Hin' Hb]. apply bool_decide_eq_true in Hb. cbn in Hb. subst k'.
    apply in_rev, list_elem_of_In in Hin'.
    apply (elem_of_list_to_map_1 (M := gmap string)) in Hin, Hin'; [congruence|done..].
  - eapply List.find_none in Ef; [|apply in_rev; rewrite rev_involutive; by apply list_elem_of_In].
    cbn in Ef. by rewrite bool_decide_true in Ef.
Qed.

Lemma enc_names_sublist {A} (fs : list (field_decl A)) a : map fst (flat_map (fun f => enc_field f a) fs) `sublist_of` map f_name fs.
Proof.
  induction fs as [|f fs IH]; [done|]. cbn [flat_map map]. unfold enc_field at 1.
  destruct (field_omitted f a); cbn; by constructor.
Qed.

#[export] Instance struct_members {A} (zero : A) fs : TCEq (bool_decide (NoDup (map f_name fs))) true -> Members (struct zero fs) fs.
Proof.
  rewrite TCEq_eq, bool_decide_eq_true. intros Hn a name. cbn [struct c_enc]. unfold enc_struct, member.
  pose proof (enc_names_sublist fs a) as Hs. assert (Hn' : NoDup (map fst (flat_map (fun f => enc_field f a) fs))) by by eapply sublist_NoDup.
  destruct (List.find _ fs) as [f|] eqn:Ef.
  - apply List.find_some in Ef as [Hf Hb]. apply bool_decide_eq_true in Hb as <-. destruct (field_omitted f a) eqn:Eo.
    + apply childOf_nin. intros Hin. apply list_elem_of_In, in_map_iff in Hin as ([n v] & Hn1 & Hin).
      apply in_flat_map in Hin as (g & Hg & Hin). unfold enc_field in Hin. destruct (field_omitted g a) eqn:Eg; [done|].
      destruct Hin as [[= <- <-]|[]]. cbn in Hn1. assert (g = f); [|congruence].
      pose proof (find_name fs g Hn ltac:(by apply list_elem_of_In)) as H1.
      pose proof (find_name fs f Hn ltac:(by apply list_elem_of_In)) as H2. rewrite Hn1 in H1. congruence.
    + apply childOf_in; [done|]. apply list_elem_of_In, in_flat_map. exists f. split; [done|]. unfold enc_field. rewrite Eo. by left.
  - apply childOf_nin. intros Hin. eapply list_elem_of_In, in_map_iff in Hin as ([n v] & Hn1 & Hin). cbn in Hn1. subst n.
    apply list_elem_of_In, enc_fields_in in Hin as (f & Hf & -> & _). apply list_elem_of_In in Hf.
    pose proof (List.find_none _ _ Ef f Hf) as Hb. cbn in Hb. by rewrite bool_decide_true in Hb.
Qed.

(** A body that encodes a value with valid strings and numbers in range is accepted when
    its encoding has what each required path asks for. *)
Lemma accepts_holds {A} (c : codec A) `{!Printable c} key o a :
  pinned_spec !! key = Some o -> c_ok c a = true -> (c_depth c <= maxNestingDepth)%nat ->
  ValidateBody (json_print (c_enc c a)) (op_RequiredBody o) = Some "" <->
  Forall (holds (c_enc c a)) (map path_of (op_RequiredBody o)).
Proof.
  intros Ho Hok Hd. rewrite (ValidateBody_satisfied _ (c_enc c a)).
  - rewrite List.Forall_map, Forall_forall. unfold path_of. by setoid_rewrite satisfied_holds.
  - unfold Unmarshal_any. pose proof (law_depth c a Hok). rewrite json_parse_print by (by apply (law_wf c) || lia).
    by rewrite (law_range c a Hok).
  - intros p Hp. by eapply pinned_paths_segmented.
Qed.

(** Evaluate a member of a declared struct at a known name. *)
Ltac at_member :=
  match goal with
  | |- context [@member ?A ?fs ?a ?n] =>
      let l := match fs with cons _ _ => fs | _ => eval red in fs end in
      let t := eval cbv beta iota delta [member List.find f_name] in (@member A l a n) in
      change (@member A fs a n) with t;
      decide_closed; cbn [field_omitted f_omitempty f_get f_codec andb]
  end.

Section Follow.
Context {A : Type} (c : codec A) (fs : list (field_decl A)) `{!Members c fs}.

Lemma holds_last a n : holds (c_enc c a) [Name n] <-> member fs a n <> JNull.
Proof. cbn [holds]. by rewrite members. Qed.

Lemma holds_into a n s path :
  holds (c_enc c a) (Name n :: s :: path) <-> (member fs a n <> JNull -> holds (member fs a n) (s :: path)).
Proof. rewrite <- (members (c := c)). done. Qed.

Lemma holds_each a n path :
  holds (c_enc c a) (Each n :: path) <-> forall arr elem, member fs a n = JArr arr -> elem ∈ arr -> holds elem path.
Proof. rewrite <- (members (c := c)). done. Qed.
End Follow.

(** The elements of a slice, also one left out when empty. *)
Lemma each_slice {B} (c : codec B) l path :
  (forall arr elem, match l with [] => JNull | _ => JArr (map (c_enc c) l) end = JArr arr -> elem ∈ arr -> holds elem path) <->
  forall b, b ∈ l -> holds (c_enc c b) path.
Proof.
  split.
  - intros H b Hb. eapply (H (map (c_enc c) l)); [by destruct l; [apply elem_of_nil in Hb|]|].
    apply list_elem_of_In, in_map, list_elem_of_In, Hb.
  - intros H arr elem Ha Hin. destruct l as [|b l]; [done|]. injection Ha as <-.
    change (elem ∈ map (c_enc c) (b :: l)) in Hin. apply list_elem_of_In, in_map_iff in Hin as (b' & <- & Hb%list_elem_of_In). by apply H.
Qed.

Lemma each_omitted {B} (c : codec B) l path :
  (forall arr elem, (if match l with [] => true | _ => false end then JNull
      else match l with [] => JNull | _ => JArr (map (c_enc c) l) end) = JArr arr -> elem ∈ arr -> holds elem path) <->
  forall b, b ∈ l -> holds (c_enc c b) path.
Proof. rewrite <- each_slice. by destruct l. Qed.

(** Follow a path to what it asks of the value. *)
Ltac member_value := at_member; cbn [str int bool_ ptr slice c_enc c_empty].
Ltac with_fields c k := let H := constr:(_ : Members c _) in match type of H with Members _ ?fs => k fs end.
Ltac follow :=
  repeat match goal with
  | |- holds (c_enc ?c _) [Name _] => with_fields c ltac:(fun fs => rewrite (holds_last c fs)); member_value
  | |- holds (c_enc ?c _) (Name _ :: _ :: _) =>
      with_fields c ltac:(fun fs => rewrite (holds_into c fs)); member_value; try (case_match; [intros _|done])
  | |- holds (c_enc ?c _) (Each _ :: _) =>
      with_fields c ltac:(fun fs => rewrite (holds_each c fs)); member_value;
      first [rewrite each_slice|rewrite each_omitted]; intros ? ?
  end.

(** The required paths, one by one. *)
Ltac each_path :=
  match goal with
  | |- Forall _ ?l => let l' := eval vm_compute in l in change l with l'
  end; repeat apply Forall_cons_2; try apply Forall_nil_2.

(** One step of a path known to hold. *)
Ltac reveal H :=
  revert H;
  match goal with
  | |- holds (c_enc ?c _) [Name _] -> _ => with_fields c ltac:(fun fs => rewrite (holds_last c fs)); member_value
  | |- holds (c_enc ?c _) (Name _ :: _ :: _) -> _ => with_fields c ltac:(fun fs => rewrite (holds_into c fs)); member_value
  | |- holds (c_enc ?c _) (Each _ :: _) -> _ =>
      with_fields c ltac:(fun fs => rewrite (holds_each c fs)); member_value; first [rewrite each_slice|rewrite each_omitted]
  end; intros H.

Definition op_of (key : string) : Operation := default (mkOperation "" "" [] [] []) (pinned_spec !! key).
#[local] Opaque pinned_spec.
Definition body_paths (key : string) : list (list path_step) := map path_of (op_RequiredBody (op_of key)).

(** ** Requests whose validators ask for all the specification requires *)

Lemma void_holds req : Forall (holds (c_enc VoidAuthRequest_json req)) (body_paths "POST /voidAuth").
Proof. each_path; by follow. Qed.

Lemma refund_holds req : refund_contract req -> Forall (holds (c_enc RefundParam_json req)) (body_paths "POST /refund").
Proof.
  intros [_ _ _ _ [Hne _] _ (e & He & _)]. each_path; follow; rewrite ?He; try done. by destruct (rfq_SubOrders req).
Qed.

Lemma plan_holds req : plan_contract req -> Forall (holds (c_enc PaymentPlanRequest_json req)) (body_paths "POST /payment-plan").
Proof.
  intros [_ _ _ _ Ha _ (e & He & _ & _ & Hne & _)].
  destruct (Ha _ (or_introl eq_refl)) as [_ Hf]. rewrite Forall_forall in Hf.
  each_path; follow; rewrite ?He; try done; [by destruct (ppq_SubOrders req)|].
  rewrite (proj2 (Z.eqb_neq _ _)); [done|]. specialize (Hf _ H). unfold min_sub_order in Hf. case_match; lia.
Qed.

Lemma precheck_holds req : Forall (holds (c_enc PaymentPreCheckRequest_json req)) (body_paths "POST /payment-precheck").
Proof. each_path; by follow. Qed.

Lemma repayment_holds req : Forall (holds (c_enc RepaymentParam_json req)) (body_paths "POST /repayment-request").
Proof. each_path; by follow. Qed.

Lemma change_holds req : Forall (holds (c_enc CreditApplicationChangeParam_json req)) (body_paths "POST /modify-application-info").
Proof. each_path; by follow. Qed.

Lemma close_holds req : Forall (holds (c_enc CloseAccountParam_json req)) (body_paths "POST /close-account").
Proof. each_path; by follow. Qed.

Lemma account_holds req : Forall (holds (c_enc VirtualAccountRequest_json req)) (body_paths "POST /va/vaCodeByBank").
Proof. each_path; by follow. Qed.

(** ** The requests with risk data *)

(** What the specification requires of the extendInfo of [/auth], [/capture] and [/reAuth]
    and the validators do not ask for. *)
Record complete (e : RequestExtendInfo) : Prop := {
  complete_address : exists a sa, rei_Address e = Some a /\ adr_ShippingAddress a = Some sa;
  complete_device : exists d p b, rei_DeviceInfo e = Some d /\ dvi_Device d = Some p /\ dp_IsRoot p = Some b;
  complete_skus : Forall (fun i => moei_MerchantID i <> "" /\ moei_SkuInfos i <> [] /\
                            Forall (fun s => sku_Amount s <> 0) (moei_SkuInfos i)) (rei_MainOrderExtendInfos e);
}.

(** The paths below a member. *)
Definition below (name : string) (paths : list (list path_step)) : list (list path_step) :=
  flat_map (fun p => match p with Name n :: s :: p => if bool_decide (n = name) then [s :: p] else [] | _ => [] end) paths.
Definition beside (name : string) (paths : list (list path_step)) : list (list path_step) :=
  List.filter (fun p => match p with Name n :: _ :: _ => negb (bool_decide (n = name)) | _ => true end) paths.

Definition extend_paths : list (list path_step) := below "extendInfo" (body_paths "POST /auth").

#[export] Instance path_step_eq_dec : EqDecision path_step.
Proof. solve_decision. Defined.

Lemma extend_holds e : Forall (holds (c_enc RequestExtendInfo_json e)) extend_paths <-> complete e.
Proof.
  split.
  - rewrite Forall_forall. intros H.
    assert (Hp : forall p, bool_decide (p ∈ extend_paths) = true -> holds (c_enc RequestExtendInfo_json e) p)
      by (intros p Hp%bool_decide_eq_true; by apply H). clear H.
    split.
    + pose proof (Hp [Name "address"] ltac:(by vm_compute)) as H1. reveal H1.
      pose proof (Hp [Name "address"; Name "shippingAddress"] ltac:(by vm_compute)) as H2. reveal H2.
      destruct (rei_Address e) as [a|]; [|done]. specialize (H2 H1). reveal H2.
      destruct (adr_ShippingAddress a) as [sa|] eqn:Hsa; [|done]. by exists a, sa.
    + pose proof (Hp [Name "deviceInfo"] ltac:(by vm_compute)) as H1. reveal H1.
      pose proof (Hp [Name "deviceInfo"; Name "device"] ltac:(by vm_compute)) as H2. reveal H2.
      pose proof (Hp [Name "deviceInfo"; Name "device"; Name "isRoot"] ltac:(by vm_compute)) as H3. reveal H3.
      destruct (rei_DeviceInfo e) as [d|]; [|done]. specialize (H2 H1). specialize (H3 H1). reveal H2. reveal H3.
      destruct (dvi_Device d) as [p|] eqn:Hdev; [|done]. specialize (H3 H2). reveal H3.
      destruct (dp_IsRoot p) as [b|] eqn:Hb; [|done]. by exists d, p, b.
    + pose proof (Hp [Each "mainOrderExtendInfos"; Name "merchantId"] ltac:(by vm_compute)) as H1. reveal H1.
      pose proof (Hp [Each "mainOrderExtendInfos"; Name "skuInfos"] ltac:(by vm_compute)) as H2. reveal H2.
      pose proof (Hp [Each "mainOrderExtendInfos"; Each "skuInfos"; Name "amount"] ltac:(by vm_compute)) as H3. reveal H3.
      apply Forall_forall. intros i Hi. specialize (H1 i Hi). specialize (H2 i Hi). specialize (H3 i Hi).
      reveal H1. reveal H2. reveal H3. split_and!.
      * intros E. by rewrite E in H1.
      * intros E. by rewrite E in H2.
      * apply Forall_forall. intros s Hs. specialize (H3 s Hs). reveal H3. intros E. by rewrite E in H3.
  - intros [(a & sa & Ha & Hsa) (d & p & b & Hd & Hdev & Hb) Hs].
    rewrite Forall_forall in Hs. each_path; follow; simplify_eq; rewrite ?Ha, ?Hsa, ?Hd, ?Hdev, ?Hb in *; simplify_eq; try done.
    all: match goal with Hi : ?i ∈ rei_MainOrderExtendInfos _, Hs : forall _, _ |- _ => destruct (Hs i Hi) as (Hm & Hn & Hq) end.
    + by rewrite (proj2 (is_empty_false _) Hm).
    + by destruct (moei_SkuInfos _).
    + rewrite Forall_forall in Hq. by rewrite (proj2 (Z.eqb_neq _ _)) by auto.
Qed.

(** The paths of a request: those of its extendInfo and the others. *)
Lemma split_below node name paths :
  Forall (holds node) paths <->
  Forall (holds node) (beside name paths) /\
  (childOf node name <> JNull -> Forall (holds (childOf node name)) (below name paths)).
Proof.
  induction paths as [|p paths IH]; [done|]. rewrite Forall_cons, IH. unfold beside, below. cbn [List.filter flat_map].
  fold (beside name paths) (below name paths).
  destruct p as [|[n|n] [|s p]]; cbn [negb app]; rewrite ?Forall_cons; try tauto.
  destruct (bool_decide_reflect (n = name)) as [->|]; cbn [negb app]; rewrite ?Forall_cons; [|tauto].
  change (holds node (Name name :: s :: p)) with (childOf node name <> JNull -> holds (childOf node name) (s :: p)). tauto.
Qed.

(** [/auth], [/capture] and [/reAuth] differ in their other paths only. *)
Lemma extended_holds {A} (c : codec A) (fs : list (field_decl A)) `{!Members c fs} key a e :
  member fs a "extendInfo" = c_enc RequestExtendInfo_json e ->
  bool_decide (below "extendInfo" (body_paths key) = extend_paths) = true ->
  Forall (holds (c_enc c a)) (beside "extendInfo" (body_paths key)) ->
  Forall (holds (c_enc c a)) (body_paths key) <-> complete e.
Proof.
  intros Hm Hb%bool_decide_eq_true Ho. rewrite (split_below _ "extendInfo"), members, Hm, Hb, extend_holds.
  split; [intros [_ H]; apply H, non_null|intros Hc; split; [exact Ho|intros _; exact Hc]].
Qed.

Lemma auth_holds req e : auth_contract req -> aq_ExtendInfo req = Some e ->
  Forall (holds (c_enc AuthRequest_json req)) (body_paths "POST /auth") <-> complete e.
Proof.
  intros Hc He. eapply (extended_holds AuthRequest_json AuthRequest_fields); [member_value; by rewrite He|by vm_compute|].
  destruct (auth_order _ Hc) as (? & _ & _ & [Hne _] & _). each_path; follow; rewrite ?He; try done. by destruct (aq_SubOrders req).
Qed.

Lemma capture_holds req e : capture_contract req -> cq_ExtendInfo req = Some e ->
  Forall (holds (c_enc CaptureRequest_json req)) (body_paths "POST /capture") <-> complete e.
Proof.
  intros Hc He. eapply (extended_holds CaptureRequest_json CaptureRequest_fields); [member_value; by rewrite He|by vm_compute|].
  destruct (capture_order _ Hc) as (? & _ & _ & [Hne _] & _). each_path; follow; rewrite ?He; try done. by destruct (cq_SubOrders req).
Qed.

Lemma reauth_holds req e : reauth_contract req -> rq_ExtendInfo req = Some e ->
  Forall (holds (c_enc ReAuthRequest_json req)) (body_paths "POST /reAuth") <-> complete e.
Proof.
  intros Hc He. eapply (extended_holds ReAuthRequest_json ReAuthRequest_fields); [member_value; by rewrite He|by vm_compute|].
  destruct (reauth_order _ Hc) as (? & _ & _ & [Hne _] & _). each_path; follow; rewrite ?He; try done. by destruct (rq_SubOrders req).
Qed.

(** * Calls against the spec-validating server *)

(** A request as the server at [c_baseURL] gets it. *)
Definition received {R : RSA} (c : Client) (req : http_request) : mock_request :=
  mkMockRequest (rq_Method req) (TrimPrefix (rq_URL req) (c_baseURL c)) (rq_RawQuery req) (rq_Header req)
    (default "" (rq_Body req)).

(** A server with the pinned operations that skips nothing. *)
Definition strict (s : SpecServer.Server) : Prop := srv_Spec s = pinned_spec /\ srv_skipReq s = ∅.

Definition conforming {R : RSA} (s : SpecServer.Server) (c : Client) (req : http_request) : Prop :=
  conforms s (received c req) None.

Lemma prefix_app a b : String.prefix a (a +:+ b) = true.
Proof. induction a as [|ch a IH]; [by destruct b|]. cbn. destruct (ascii_dec ch ch); [done|congruence]. Qed.

Lemma substring_app a b : String.substring (String.length a) (String.length b) (a +:+ b) = b.
Proof. induction a as [|ch a IH]; [|exact IH]. induction b as [|ch b IH]; [done|]. cbn. f_equal. exact IH. Qed.

Lemma TrimPrefix_app a b : TrimPrefix (a +:+ b) a = b.
Proof.
  unfold TrimPrefix. rewrite prefix_app, str_length_app.
  replace (String.length a + String.length b - String.length a)%nat with (String.length b) by lia. apply substring_app.
Qed.

Lemma demanded_strict s o l : strict s -> demanded s o l = l.
Proof.
  intros [_ Hs]. unfold demanded, skipped. rewrite Hs, lookup_empty. cbn [default].
  induction l as [|p l IH]; [done|]. rewrite filter_cons, decide_True by apply not_elem_of_empty. by rewrite IH.
Qed.

Section Calls.
Context {R : RSA} {E : Env} {FC : FloatConv}.
Variables (c : Client) (s : SpecServer.Server).
Hypothesis s_strict : strict s.

Lemma Op_strict method op o : pinned_spec !! OpKey method op = Some o -> Op (Some (srv_Spec s)) method op = Some o.
Proof. intros Ho. cbn [Op]. by rewrite (proj1 s_strict). Qed.

(** A GET conforms when its query has the required parameters. *)
Lemma conforming_get req op o q :
  rq_Method req = "GET" -> rq_URL req = c_baseURL c +:+ op -> rq_RawQuery req = EncodeWireQueryRFC3986 q ->
  pinned_spec !! OpKey "GET" op = Some o -> op_RequiredHeader o = [] ->
  Forall (fun name => Values_Get q name <> "") (op_RequiredQuery o) -> conforming s c req.
Proof.
  intros Hm Hu Hq Ho Hh Hr. exists o. cbn [received mq_Method mq_Path mq_Header mq_RawQuery mq_Body].
  rewrite Hm, Hu, TrimPrefix_app, Hq, !demanded_strict, Hh, ParseQuery_wire by done. split; [by apply Op_strict|].
  split; [done|]. left. split; [done|]. eapply Forall_impl; [exact Hr|]. intros name. cbn [fst]. unfold Values_Get.
  by rewrite drop_empty_total.
Qed.

(** A POST within the limit, with its headers and no [Encrypt], conforms exactly when its
    body is accepted. *)
Lemma conforming_post req op o body :
  rq_Method req = "POST" -> rq_URL req = c_baseURL c +:+ op -> rq_Body req = Some body ->
  slen body < body_limit -> pinned_spec !! OpKey "POST" op = Some o -> "Encrypt" ∉ op_RequiredHeader o ->
  Forall (fun name => Header_Get (rq_Header req) name <> "") (op_RequiredHeader o) ->
  conforming s c req <-> ValidateBody body (op_RequiredBody o) = Some "".
Proof.
  intros Hm Hu Hb Hl Ho Hne Hh. unfold conforming.
  rewrite (conforms_at s (received c req) None o); cbn [received mq_Method mq_Path mq_Header mq_RawQuery mq_Body];
    [|rewrite Hm, Hu, TrimPrefix_app; by apply Op_strict].
  rewrite Hm, Hb, !demanded_strict by done. change (default "" (Some body)) with body. unfold read_body.
  destruct (Z.leb_spec body_limit (slen body)); [lia|]. split.
  - intros (_ & [[? _]|(_ & b & Hb' & Hv)]); [done|]. injection Hb' as <-.
    destruct Hv as [Hx|Hv]; [destruct (Hne Hx)|exact Hv].
  - intros Hv. split; [done|]. right. split; [done|]. exists body. split; [done|]. by right.
Qed.

(** ** Fetching *)

Lemma all_requests_bind {A B} (m : M A) (k : A -> M B) P :
  all_requests m P -> (forall a, all_requests (k a) P) -> all_requests (bind m k) P.
Proof.
  intros Hm Hk. eapply extends_bind; [exact Hm|]. intros a _. eapply extends_mono; [apply Hk|].
  intros n' b es' Hes' n es -> Hes. rewrite exchanges_app. by apply Forall_app.
Qed.

Lemma refused_requests {O} (r : M (res O)) P : Service.refused r -> all_requests r P.
Proof. intros [err ->]. apply silent_requests. Qed.

Lemma get_conforms {O} (co : codec O) ctx op o q : client_ready c -> bad_path op = false ->
  pinned_spec !! OpKey "GET" op = Some o -> op_RequiredHeader o = [] ->
  Forall (fun name => Values_Get q name <> "") (op_RequiredQuery o) ->
  all_requests (get co c ctx op q) (conforming s c).
Proof.
  intros Hc Hp Ho Hh Hq. eapply extends_mono; [by apply get_fetched|]. intros i r es Hf.
  destruct (called_requests _ _ _ _ _ _ _ _ _ Hf) as (_ & authValue & Hreq).
  eapply Forall_impl; [exact Hreq|]. intros [req x] (Hm & Hu & Hw & _). by eapply conforming_get.
Qed.

(** A fetching method sends what its call does, when its arguments are accepted. *)
Lemma fetch_conforms {O} (check : option Service -> option error) validated (call : Client -> M (res O)) :
  check (service_of c) = None -> (validated = None -> all_requests (call c) (conforming s c)) ->
  all_requests (fetch check validated call (service_of c)) (conforming s c).
Proof.
  intros Hc Hcall. unfold fetch. rewrite Hc. cbn [Service_Client sv_c].
  destruct validated as [err|]; [apply silent_requests|auto].
Qed.

(** ** Submitting *)

(** Every request sent for the request handed back, if its values are valid and its body
    within the limit. *)
Definition submits {I O} (ci : codec I) (P : I -> http_request -> Prop) (m : M (res O * option I)) : Prop :=
  extends m (fun i out es => forall q, out.2 = Some q -> c_ok ci q = true -> slen (json_print (c_enc ci q)) < body_limit ->
    Forall (fun x => P q x.1) (exchanges i es)).

Lemma submit_conforms {I O} (ci : codec I) `{!Printable ci} (co : codec O) op o getID setID validate opts req
    (m : M (res O * option I)) (ok : I -> Prop) :
  extends m (submitted ci co c op getID setID validate opts req) ->
  pinned_spec !! OpKey "POST" op = Some o -> "Encrypt" ∉ op_RequiredHeader o -> (c_depth ci <= maxNestingDepth)%nat ->
  (forall q, (validate q).1 = None -> Forall (fun name => forall authValue,
     Header_Get (addExtraHeaders (apply_doSigned_options (opts (validate q).2)) (populateHeaders c ∅ authValue)) name <> "")
     (op_RequiredHeader o)) ->
  (forall q, (validate q).1 = None ->
     Forall (holds (c_enc ci (validate q).2)) (map path_of (op_RequiredBody o)) <-> ok (validate q).2) ->
  submits ci (fun q r => conforming s c r <-> ok q) m.
Proof.
  intros Hm Ho Hne Hd Hh Hok. eapply extends_mono; [exact Hm|]. intros i out es (q & ids & es' & -> & Hq & Hout & Hrest) q' Hq' Hv Hl.
  rewrite Hout in Hq'. injection Hq' as <-.
  assert (Hi : forall l, exchanges i (ids ++ l) = exchanges (i + length ids) l).
  { intros l. destruct (is_empty _); [destruct Hq as (id & _ & ->)|destruct Hq as [_ ->]]; rewrite exchanges_app; done. }
  rewrite Hi. destruct (validate q).1 as [err|] eqn:Ev; [destruct Hrest as [_ ->]; constructor|].
  destruct (called_requests _ _ _ _ _ _ _ _ _ Hrest) as (_ & authValue & Hreq).
  eapply Forall_impl; [exact Hreq|]. intros [rq x] (Hmt & Hu & _ & Hb & Hhd). cbn [fst pl_Method pl_URL pl_Body] in *.
  rewrite <- (Hok q Ev), <- (accepts_holds ci (OpKey "POST" op) o) by done.
  apply (conforming_post rq op); [exact Hmt|exact Hu|exact Hb|exact Hl|exact Ho|exact Hne|]. rewrite Hhd. eapply Forall_impl; [apply (Hh q Ev)|]. auto.
Qed.

Lemma submits_always {I O} (ci : codec I) (P : I -> Prop) (m : M (res O * option I)) :
  (forall q, P q) -> submits ci (fun q r => conforming s c r <-> P q) m -> submits ci (fun _ r => conforming s c r) m.
Proof.
  intros HP H. eapply extends_mono; [exact H|]. intros i out es Hes q Hq Hv Hl.
  eapply Forall_impl; [by apply (Hes q)|]. intros x Hx. by apply Hx.
Qed.
End Calls.

(** ** The queries *)

Section Queries.
Context {R : RSA} {E : Env} {FC : FloatConv}.
Variables (c : Client) (s : SpecServer.Server) (ctx : context).
Hypothesis c_ready : client_ready c.
Hypothesis s_strict : strict s.

Lemma Values_Get_Set q k v name : Values_Get (Values_Set q k v) name = if decide (name = k) then v else Values_Get q name.
Proof. unfold Values_Get. rewrite Values_Set_total. by case_decide. Qed.
Lemma Values_Get_nonempty q k v name :
  Values_Get (set_nonempty q k v) name = if decide (name = k) then (if is_empty v then Values_Get q name else v) else Values_Get q name.
Proof. unfold Values_Get. rewrite set_nonempty_total. case_decide; [|done]. by destruct (is_empty v). Qed.
Lemma Values_Get_add_all q k vs name : name <> k -> Values_Get (add_all q k vs) name = Values_Get q name.
Proof. intros Hn. unfold Values_Get. by rewrite add_all_total, decide_False. Qed.

(** The operation is declared, asks for no header, and its parameters are there. *)
Ltac decide_names := repeat match goal with
  | |- context [decide (?a = ?b)] => first [rewrite (decide_True (P := a = b)) by done|rewrite (decide_False (P := a = b)) by done]
  end.
Ltac parameters :=
  repeat apply Forall_cons_2; try apply Forall_nil_2;
  rewrite ?Values_Get_add_all by done; rewrite ?Values_Get_nonempty, ?Values_Get_Set; decide_names;
  repeat match goal with H : ?x <> "" |- context [is_empty ?x] => rewrite (proj2 (is_empty_false x) H) end; try done.
Ltac required op l := assert (op_RequiredQuery (op_of op) = l) as -> by (by vm_compute).
Ltac queried op := eapply get_conforms with (o := op_of op); [done|done|done|by vm_compute|by vm_compute|].

Lemma query_conforms {O} (co : codec O) op id uid :
  bad_path op = false -> pinned_spec !! OpKey "GET" op = Some (op_of (OpKey "GET" op)) ->
  op_RequiredHeader (op_of (OpKey "GET" op)) = [] ->
  op_RequiredQuery (op_of (OpKey "GET" op)) = ["externalReferenceUid"; "requestId"] -> id <> "" -> uid <> "" ->
  all_requests (get co c ctx op (query_by_id id uid)) (conforming s c).
Proof. intros Hp Ho Hh Hq Hid Huid. eapply get_conforms; [done|done|done|exact Ho|exact Hh|]. rewrite Hq. by repeat constructor. Qed.

(** The validators of the pairs of identifiers. *)
Lemma pair_validators id uid :
  (validateQueryParams id uid = None -> id <> "" /\ uid <> "") /\
  (validateQueryRefund id uid = None -> id <> "" /\ uid <> "") /\
  (validateQueryRepayment id uid = None -> id <> "" /\ uid <> "") /\
  (validateQueryInformationResult uid id = None -> id <> "" /\ uid <> "").
Proof.
  unfold validateQueryParams, validateQueryRefund, validateQueryRepayment, validateQueryInformationResult.
  rewrite !reject_None, !is_empty_false. tauto.
Qed.

Lemma Bills_conforms params : all_requests (Bills (service_of c) ctx params) (conforming s c).
Proof.
  apply fetch_conforms; [done|]. intros (Hu & Hs & He)%validateBillsParams_None. queried "GET /bills".
  required "GET /bills" ["endMonth"; "externalReferenceUid"; "startMonth"].
  set (p := default _ _) in *. unfold buildBillsQuery. cbv zeta.
  parameters.
Qed.

Lemma BillDetail_conforms params : all_requests (BillDetailWithParams (service_of c) ctx params) (conforming s c).
Proof.
  apply fetch_conforms; [done|]. destruct params as [p|]; [|done].
  intros (Hb & Hu & _)%validateBillDetailParams_None. queried "GET /billDetail".
  required "GET /billDetail" ["billId"; "externalReferenceUid"].
  unfold buildBillDetailQuery. cbv zeta. destruct (0 <? bdp_Start p), (0 <? bdp_Count p); parameters.
Qed.

Lemma BillsUnpaid_conforms params : all_requests (BillsUnpaid (service_of c) ctx params) (conforming s c).
Proof.
  apply fetch_conforms; [done|]. intros Hu%validateBillsUnpaidParams_None. queried "GET /billUnpaid".
  required "GET /billUnpaid" ["externalReferenceUid"].
  unfold buildBillsUnpaidQuery. parameters.
Qed.

Lemma Transactions_conforms params : all_requests (Transactions (service_of c) ctx params) (conforming s c).
Proof.
  apply fetch_conforms; [done|]. unfold validateTransactionsParams. rewrite !reject_None, !is_empty_false.
  intros Hv. queried "GET /transactions".
  required "GET /transactions" ["endDate"; "externalReferenceUid"; "startDate"; "transactionType"].
  unfold buildTransactionsQuery. cbv zeta. destruct_and? Hv. parameters.
Qed.

Lemma TransactionDetail_conforms id uid t : all_requests (TransactionDetail (service_of c) ctx id uid t) (conforming s c).
Proof.
  apply fetch_conforms; [done|]. unfold validateTransactionDetail. rewrite !reject_None, !is_empty_false.
  intros (Hid & Hu & Ht & _). queried "GET /transactionDetail".
  required "GET /transactionDetail" ["externalReferenceUid"; "requestId"; "transactionType"]. parameters.
Qed.

Lemma BalanceHistory_conforms params : all_requests (BalanceHistory (service_of c) ctx params) (conforming s c).
Proof.
  apply fetch_conforms; [done|]. destruct params as [p|]; [|done]. unfold validateBalanceHistoryParams.
  rewrite !reject_None, !is_empty_false. intros (Hu & _ & Ht & _). queried "GET /query-balance-history".
  required "GET /query-balance-history" ["externalReferenceUid"; "type"].
  unfold buildBalanceHistoryQuery. cbv zeta. destruct (negb (is_empty (bhp_RequestID p))); parameters.
Qed.

Lemma QueryResult_conforms uid : all_requests (QueryResult (service_of c) ctx uid) (conforming s c).
Proof.
  apply fetch_conforms; [done|]. unfold validateQueryResult. rewrite reject_None, is_empty_false.
  intros [Hu _]. queried "GET /credit-result". required "GET /credit-result" ["externalReferenceUid"]. parameters.
Qed.

(** The page loop sends only such requests. *)
Lemma TransactionsAll_conforms fuel params : all_requests (TransactionsAll fuel (service_of c) ctx params) (conforming s c).
Proof.
  unfold TransactionsAll. cbn [Transaction.checkConfigured check_service sv_c]. apply all_requests_bind; [|intros r; apply silent_requests].
  generalize (first_page params) zero_data. induction fuel as [|fuel IH]; intros cur out; cbn [all_loop]; [apply silent_requests|].
  apply all_requests_bind; [apply extends_get_now; intros; constructor|]. intros t.
  destruct (ctx_Err ctx t); [apply silent_requests|]. apply all_requests_bind; [apply Transactions_conforms|].
  intros [page|]; [|apply silent_requests]. destruct (tr_Data page) as [d|]; [|apply silent_requests]. cbv zeta.
  destruct (last_page cur _ d); [apply silent_requests|apply IH].
Qed.

Lemma BillsAll_conforms params : all_requests (BillsAll (service_of c) ctx params) (conforming s c).
Proof.
  unfold BillsAll. cbn [Bill.checkConfigured check_service sv_c]. apply all_requests_bind; [apply Bills_conforms|].
  intros r. apply silent_requests.
Qed.

Lemma probe_conforms {B} (f : res RawResponse -> B) :
  all_requests (let! raw := DoSignedGET c ctx "/heart-beat" ∅ [] in ret (f raw)) (conforming s c).
Proof.
  apply all_requests_bind; [|intros raw; apply silent_requests]. unfold DoSignedGET.
  change (bad_path "/heart-beat") with false. cbv iota.
  eapply extends_mono; [apply (signAndDispatch_run c), ready_attempts, c_ready|]. intros i r es Hrun.
  assert (Hd : called HeartBeatResponse_json c "/heart-beat" (CanonicalQueryFirstValue ∅) ∅
    (mkRequestPlan "GET" (c_baseURL c +:+ "/heart-beat") (EncodeWireQueryRFC3986 ∅) None) i (decoded HeartBeatResponse_json "/heart-beat" r) es)
    by (exists r; by split).
  destruct (called_requests _ _ _ _ _ _ _ _ _ Hd) as (_ & authValue & Hreq).
  eapply Forall_impl; [exact Hreq|]. intros [req x] (Hm & Hu & Hw & _).
  apply (conforming_get c s s_strict req "/heart-beat" (op_of "GET /heart-beat") ∅ Hm Hu Hw); [by vm_compute|by vm_compute|].
  required "GET /heart-beat" (@nil string). constructor.
Qed.
End Queries.

(** ** The bodies in the clear *)

Section Bodies.
Context {R : RSA} {E : Env} {FC : FloatConv}.
Variables (c : Client) (s : SpecServer.Server) (ctx : context).
Hypothesis c_ready : client_ready c.
Hypothesis s_strict : strict s.

Ltac posted := intros q; first [by apply invoke_posted|by apply post_posted].
(** A submitting method whose operation asks for no header. *)
Ltac submission op P :=
  eapply (submit_conforms c s s_strict _ _ _ (op_of op)) with (ok := P);
    [apply submit_submitted; [done|posted]|by vm_compute|apply (bool_decide_unpack _); vm_compute; exact I|
     apply (bool_decide_unpack _); vm_compute; exact I|
     intros q _; assert (op_RequiredHeader (op_of op) = []) as -> by (by vm_compute); constructor|].

Lemma VoidAuth_conforms req : submits VoidAuthRequest_json (fun _ r => conforming s c r) (VoidAuth (service_of c) ctx (Some req)).
Proof.
  apply (submits_always c s _ (fun _ => True)); [done|].
  submission "POST /voidAuth" (fun _ : VoidAuthRequest => True). intros q _. split; [done|intros _; apply void_holds].
Qed.

Lemma PaymentPreCheck_conforms req : submits PaymentPreCheckRequest_json (fun _ r => conforming s c r) (PaymentPreCheck (service_of c) ctx (Some req)).
Proof.
  apply (submits_always c s _ (fun _ => True)); [done|].
  submission "POST /payment-precheck" (fun _ : PaymentPreCheckRequest => True). intros q _. split; [done|intros _; apply precheck_holds].
Qed.

Lemma Repayment_conforms req : submits RepaymentParam_json (fun _ r => conforming s c r) (Repayment (service_of c) ctx (Some req)).
Proof.
  apply (submits_always c s _ (fun _ => True)); [done|].
  submission "POST /repayment-request" (fun _ : RepaymentParam => True). intros q _. split; [done|intros _; apply repayment_holds].
Qed.

Lemma ModifyApplicationInfo_conforms req : submits CreditApplicationChangeParam_json (fun _ r => conforming s c r) (ModifyApplicationInfo (service_of c) ctx (Some req)).
Proof.
  apply (submits_always c s _ (fun _ => True)); [done|].
  submission "POST /modify-application-info" (fun _ : CreditApplicationChangeParam => True). intros q _. split; [done|intros _; apply change_holds].
Qed.

Lemma CloseAccount_conforms req : submits CloseAccountParam_json (fun _ r => conforming s c r) (CloseAccount (service_of c) ctx (Some req)).
Proof.
  apply (submits_always c s _ (fun _ => True)); [done|].
  submission "POST /close-account" (fun _ : CloseAccountParam => True). intros q _. split; [done|intros _; apply close_holds].
Qed.

Lemma Refund_conforms req : submits RefundParam_json (fun _ r => conforming s c r) (Refund (service_of c) ctx (Some req)).
Proof.
  apply (submits_always c s _ (fun _ => True)); [done|].
  submission "POST /refund" (fun _ : RefundParam => True). intros q Hq. split; [done|intros _]. by apply refund_holds, validateRefund_None.
Qed.

Lemma PaymentPlan_conforms req : submits PaymentPlanRequest_json (fun _ r => conforming s c r) (PaymentPlan (service_of c) ctx (Some req)).
Proof.
  apply (submits_always c s _ (fun _ => True)); [done|].
  submission "POST /payment-plan" (fun _ : PaymentPlanRequest => True). intros q Hq. split; [done|intros _]. by apply plan_holds, plan_None.
Qed.

(** *** [/auth], [/capture] and [/reAuth] *)

Definition risk_data (e : option RequestExtendInfo) : Prop := exists e', e = Some e' /\ complete e'.

Lemma risk_data_Some e : risk_data (Some e) <-> complete e.
Proof. split; [by intros (e' & [= <-] & H)|]. intros H. by exists e. Qed.

Lemma Auth_conforms req :
  submits AuthRequest_json (fun q r => conforming s c r <-> risk_data (aq_ExtendInfo q)) (Auth (service_of c) ctx (Some req)).
Proof.
  eapply (submit_conforms c s s_strict _ _ _ (op_of "POST /auth")) with (ok := fun q => risk_data (aq_ExtendInfo q));
    [apply submit_submitted; [done|posted]|by vm_compute|apply (bool_decide_unpack _); vm_compute; exact I|
     apply (bool_decide_unpack _); vm_compute; exact I| |].
  - intros q Hq%validateAuth_None. assert (op_RequiredHeader (op_of "POST /auth") = ["sessionid"]) as -> by (by vm_compute).
    apply Forall_singleton. intros authValue. cbn [pure_check fst snd].
    assert (Hs : aq_Sessionid q <> "") by (apply id64_spec, Hq).
    unfold sessionid_header. rewrite (proj2 (is_empty_false _) Hs). intros Hn. apply Hs. rewrite <- Hn. symmetry.
    by apply (extra_header c authValue [] "sessionid").
  - intros q Hq%validateAuth_None. cbn [pure_check fst snd]. destruct (auth_order _ Hq) as (e & He & _).
    rewrite He, risk_data_Some. by apply auth_holds.
Qed.

Lemma Capture_conforms req :
  submits CaptureRequest_json (fun q r => conforming s c r <-> risk_data (cq_ExtendInfo q)) (Capture (service_of c) ctx (Some req)).
Proof.
  submission "POST /capture" (fun q => risk_data (cq_ExtendInfo q)).
  intros q Hq%validateCapture_None. cbn [pure_check fst snd]. destruct (capture_order _ Hq) as (e & He & _).
  rewrite He, risk_data_Some. by apply capture_holds.
Qed.

Lemma ReAuth_conforms req :
  submits ReAuthRequest_json (fun q r => conforming s c r <-> risk_data (rq_ExtendInfo q)) (ReAuth (service_of c) ctx (Some req)).
Proof.
  submission "POST /reAuth" (fun q => risk_data (rq_ExtendInfo q)).
  intros q Hq%validateReAuth_None. cbn [pure_check fst snd]. destruct (reauth_order _ Hq) as (e & He & _).
  rewrite He, risk_data_Some. by apply reauth_holds.
Qed.

(** *** Virtual accounts *)

Lemma post_conforms {I O} (ci : codec I) (co : codec O) op o req :
  bad_path op = false -> pinned_spec !! OpKey "POST" op = Some o -> op_RequiredHeader o = [] ->
  slen (json_print (c_enc ci req)) < body_limit ->
  ValidateBody (json_print (c_enc ci req)) (op_RequiredBody o) = Some "" ->
  all_requests (post ci co c ctx op req []) (conforming s c).
Proof.
  intros Hp Ho Hh Hl Hv. eapply extends_mono; [by apply post_posted|]. intros i r es Hf.
  destruct (called_requests _ _ _ _ _ _ _ _ _ Hf) as (_ & authValue & Hreq).
  eapply Forall_impl; [exact Hreq|]. intros [rq x] (Hm & Hu & _ & Hb & _). cbn [fst pl_Method pl_URL pl_Body] in *.
  apply (proj2 (conforming_post c s s_strict rq op o _ Hm Hu Hb Hl Ho ltac:(rewrite Hh; apply not_elem_of_nil) ltac:(rewrite Hh; constructor))).
  exact Hv.
Qed.

Lemma ListBanks_conforms : all_requests (ListBanks (service_of c) ctx) (conforming s c).
Proof.
  apply fetch_conforms; [done|]. intros _. eapply (post_conforms _ _ _ (op_of "POST /va/getList")); by vm_compute.
Qed.

Lemma GetOrCreate_conforms req :
  c_ok VirtualAccountRequest_json req = true -> slen (json_print (c_enc VirtualAccountRequest_json req)) < body_limit ->
  all_requests (GetOrCreate (service_of c) ctx (Some req)) (conforming s c).
Proof.
  intros Hok Hl. apply fetch_conforms; [done|]. intros _.
  eapply (post_conforms _ _ _ (op_of "POST /va/vaCodeByBank")); [done|by vm_compute|by vm_compute|done|].
  apply (accepts_holds VirtualAccountRequest_json (OpKey "POST" "/va/vaCodeByBank")); [by vm_compute|done| |apply account_holds].
  apply (bool_decide_unpack _). vm_compute. exact I.
Qed.
End Bodies.

(** ** The sealed bodies *)

Section Sealed.
Context {R : RSA} {A : AES} {E : Env} {FC : FloatConv}.
Variables (c : Client) (s : SpecServer.Server).
Hypothesis s_strict : strict s.

Definition sealed_conform {B} (w : world) (r : option (B * world)) : Prop :=
  forall out w', r = Some (out, w') -> exists es, trace w' = trace w ++ es /\
    Forall (fun x => conforming s c x.1) (exchanges (step w) es).

Lemma gateway_open_header priv req plain :
  gateway_open priv req = Ok plain -> Header_Get (rq_Header req) "Encrypt" <> "".
Proof.
  unfold gateway_open, EncryptHeaderName. intros Hg He. rewrite He in Hg. destruct (rq_Body req); discriminate.
Qed.

(** The server checks the header [Encrypt] and takes the body as it is. *)
Lemma sealed_request op o priv req plain :
  rq_Method req = "POST" -> rq_URL req = c_baseURL c +:+ op -> gateway_open priv req = Ok plain ->
  pinned_spec !! OpKey "POST" op = Some o -> op_RequiredHeader o = ["Encrypt"] -> conforming s c req.
Proof.
  intros Hm Hu He%gateway_open_header Ho Hh.
  unfold conforming. apply (conforms_at s (received c req) None o); cbn [received mq_Method mq_Path mq_Header mq_RawQuery mq_Body];
    rewrite Hm; [rewrite Hu, TrimPrefix_app; by apply (Op_strict s)|]. rewrite !demanded_strict, Hh by done.
  split; [by apply Forall_singleton|]. right. split; [done|].
  assert (Hr : exists body, read_body (default "" (rq_Body req)) None = Ok body) by (unfold read_body; destruct (_ <=? _); by eexists).
  destruct Hr as [body Hr]. exists body. split; [done|]. left. by left.
Qed.

Lemma submitted_sealed {I O} v priv op o (ci : codec I) getID setID validate req w (r : option ((res O * option I) * world)) :
  (forall out w', r = Some (out, w') ->
     encrypted_submitted v priv (c_baseURL c +:+ op) ci getID setID validate req w out w') ->
  pinned_spec !! OpKey "POST" op = Some o -> op_RequiredHeader o = ["Encrypt"] -> sealed_conform w r.
Proof.
  intros Hr Ho Hh out w' He. destruct (Hr out w' He) as (q & es & Ht & _ & _ & Hx & _). exists es. split; [done|].
  eapply Forall_impl; [exact Hx|]. intros x (_ & [_ Hg] & Hm & Hu). by eapply sealed_request.
Qed.
End Sealed.

Ltac sealed_by c signer v priv Hc Hg Ha Hv Hp Hrun :=
  refine (submit_encrypted_spec c signer v priv Hc Hg Ha Hv Hp _ _ _ _ _ _ _ _ _ _ _ _ _ Hrun);
  apply (bool_decide_unpack _); vm_compute; exact I.

(** * Claims *)

(** C11.  The queries meet the specification.  Against a server that checks every request for
    what the pinned specification requires, whatever the arguments and whatever the network
    and the contexts do, no request of a query, a page loop or a heart-beat is refused: the
    operation is declared and its required parameters are in the query. *)
Theorem queries_conform {R : RSA} {E : Env} {FC : FloatConv} c s ctx id uid :
  client_ready c -> strict s ->
  all_requests (QueryAuth (service_of c) ctx id uid) (conforming s c) /\
  all_requests (QueryCapture (service_of c) ctx id uid) (conforming s c) /\
  all_requests (QueryVoidAuth (service_of c) ctx id uid) (conforming s c) /\
  all_requests (QueryReAuth (service_of c) ctx id uid) (conforming s c) /\
  all_requests (QueryRefund (service_of c) ctx id uid) (conforming s c) /\
  all_requests (QueryRepayment (service_of c) ctx id uid) (conforming s c) /\
  all_requests (QueryInformationResult (service_of c) ctx uid id) (conforming s c) /\
  all_requests (QueryResult (service_of c) ctx uid) (conforming s c) /\
  (forall t, all_requests (TransactionDetail (service_of c) ctx id uid t) (conforming s c)) /\
  (forall p, all_requests (BalanceHistory (service_of c) ctx p) (conforming s c)) /\
  (forall p, all_requests (BillsAll (service_of c) ctx p) (conforming s c)) /\
  (forall p, all_requests (BillDetailWithParams (service_of c) ctx p) (conforming s c)) /\
  (forall p, all_requests (BillsUnpaid (service_of c) ctx p) (conforming s c)) /\
  (forall fuel p, all_requests (TransactionsAll fuel (service_of c) ctx p) (conforming s c)) /\
  all_requests (HeartBeat (Some c) ctx) (conforming s c) /\
  (forall decode_error, all_requests (HeartBeatStatus decode_error (Some c) ctx) (conforming s c)).
Proof.
  intros Hc Hs. destruct (pair_validators id uid) as (H1 & H2 & H3 & H4).
  split_and!; intros;
    first [ apply QueryResult_conforms | apply TransactionDetail_conforms | apply BalanceHistory_conforms
          | apply BillsAll_conforms | apply BillDetail_conforms | apply BillsUnpaid_conforms
          | apply TransactionsAll_conforms | apply probe_conforms
          | apply fetch_conforms; [done|]; intros Hv; first [apply H1 in Hv|apply H2 in Hv|apply H3 in Hv|apply H4 in Hv];
            destruct Hv; apply query_conforms; try done; by vm_compute ]; done.
Qed.

(** C10.  The submissions meet the specification.  Against the same server no request of
    [VoidAuth], [PaymentPlan], [PaymentPreCheck], [Refund], [Repayment],
    [ModifyApplicationInfo] and [CloseAccount] is refused, for any request handed back whose
    strings are valid UTF-8 and whose body is within the server's limit, nor one of the
    virtual-account calls; and the sealed calls pass with any body, their [Encrypt] header
    being there. *)
Theorem submissions_conform {R : RSA} {A : AES} {E : Env} {FC : FloatConv} `{!RSALaws R} `{!AESLaws A} c s signer v priv ctx :
  client_ready c -> strict s ->
  (forall q, submits VoidAuthRequest_json (fun _ r => conforming s c r) (VoidAuth (service_of c) ctx (Some q))) /\
  (forall q, submits PaymentPlanRequest_json (fun _ r => conforming s c r) (PaymentPlan (service_of c) ctx (Some q))) /\
  (forall q, submits PaymentPreCheckRequest_json (fun _ r => conforming s c r) (PaymentPreCheck (service_of c) ctx (Some q))) /\
  (forall q, submits RefundParam_json (fun _ r => conforming s c r) (Refund (service_of c) ctx (Some q))) /\
  (forall q, submits RepaymentParam_json (fun _ r => conforming s c r) (Repayment (service_of c) ctx (Some q))) /\
  (forall q, submits CreditApplicationChangeParam_json (fun _ r => conforming s c r) (ModifyApplicationInfo (service_of c) ctx (Some q))) /\
  (forall q, submits CloseAccountParam_json (fun _ r => conforming s c r) (CloseAccount (service_of c) ctx (Some q))) /\
  all_requests (ListBanks (service_of c) ctx) (conforming s c) /\
  (forall q, c_ok VirtualAccountRequest_json q = true -> slen (json_print (c_enc VirtualAccountRequest_json q)) < body_limit ->
     all_requests (GetOrCreate (service_of c) ctx (Some q)) (conforming s c)) /\
  (c_signer c = Some (rsa2Signer_iface signer) -> c_authScheme c = SchemeRawBase64 ->
   v_pub v = Public (s_priv signer) -> c_encryptAtomePub c = Some (Public priv) ->
   forall w,
     (forall q, sealed_conform c s w (QueryUserTag (service_of c) ctx (Some q) w)) /\
     (forall q, sealed_conform c s w (SubmitInformation (service_of c) ctx (Some q) w)) /\
     (forall q, sealed_conform c s w (SubmitApplication (service_of c) ctx (Some q) w))).
Proof.
  intros Hc Hs. split_and!; [intros q; by apply VoidAuth_conforms|intros q; by apply PaymentPlan_conforms|
    intros q; by apply PaymentPreCheck_conforms|intros q; by apply Refund_conforms|intros q; by apply Repayment_conforms|
    intros q; by apply ModifyApplicationInfo_conforms|intros q; by apply CloseAccount_conforms|by apply ListBanks_conforms|
    intros q ? ?; by apply GetOrCreate_conforms|].
  intros Hg Ha Hv Hp w.
  split_and!; intros q.
  - eapply (submitted_sealed c s Hs v priv "/query-user-tag" (op_of "POST /query-user-tag") QueryUserTagParam_json);
      [intros out w' Hrun; sealed_by c signer v priv Hc Hg Ha Hv Hp Hrun|by vm_compute|by vm_compute].
  - eapply (submitted_sealed c s Hs v priv "/credit-information" (op_of "POST /credit-information") CreditInformationParam_json);
      [intros out w' Hrun; sealed_by c signer v priv Hc Hg Ha Hv Hp Hrun|by vm_compute|by vm_compute].
  - eapply (submitted_sealed c s Hs v priv "/credit-application" (op_of "POST /credit-application") CreditApplicationParam_json);
      [intros out w' Hrun; sealed_by c signer v priv Hc Hg Ha Hv Hp Hrun|by vm_compute|by vm_compute].
Qed.

(** C9.  The submissions with risk data.  The validators of [/auth], [/capture] and [/reAuth]
    ask for less than the specification: a request they let through, whose strings are valid
    UTF-8 and whose body is within the server's limit, is accepted exactly when its
    extendInfo also has a shipping address, a device that says whether it is rooted, and a
    merchant, SKUs and a nonzero amount of each SKU in every main order. *)
Theorem risk_submissions_conform {R : RSA} {E : Env} {FC : FloatConv} c s ctx :
  client_ready c -> strict s ->
  (forall q, submits AuthRequest_json (fun q r => conforming s c r <-> risk_data (aq_ExtendInfo q))
     (Auth (service_of c) ctx (Some q))) /\
  (forall q, submits CaptureRequest_json (fun q r => conforming s c r <-> risk_data (cq_ExtendInfo q))
     (Capture (service_of c) ctx (Some q))) /\
  (forall q, submits ReAuthRequest_json (fun q r => conforming s c r <-> risk_data (rq_ExtendInfo q))
     (ReAuth (service_of c) ctx (Some q))).
Proof.
  intros Hc Hs. split_and!; intros q; [by apply Auth_conforms|by apply Capture_conforms|by apply ReAuth_conforms].
Qed.

(** ** Examples *)

#[local] Existing Instance toy_env.

Definition strict_server : SpecServer.Server := NewWithSpec pinned_spec "swagger.yaml".

Lemma strict_server_strict : strict strict_server.
Proof. by split. Qed.

Lemma queries_conform_witness :
  all_requests (@QueryAuth toy_RSA toy_env amd64_conv (service_of toy_client) Background "r" "u")
    (@conforming toy_RSA strict_server toy_client).
Proof.
  exact (proj1 (@queries_conform toy_RSA toy_env amd64_conv toy_client strict_server Background "r" "u"
    toy_ready strict_server_strict)).
Defined.

(** In the clear, and sealed by a client with both keys. *)
Lemma submissions_conform_witness :
  submits VoidAuthRequest_json (fun _ r => @conforming toy_RSA strict_server toy_rsa_client r)
    (@VoidAuth toy_RSA toy_env amd64_conv (service_of toy_rsa_client) Background (Some (mkVoidAuthRequest "r" "u" "a"))) /\
  @sealed_conform toy_RSA toy_env toy_rsa_client strict_server _ (mkWorld 0 [])
    (@SubmitApplication toy_RSA toy_AES toy_env amd64_conv (service_of toy_rsa_client) Background (Some toy_application) (mkWorld 0 [])).
Proof.
  pose proof (@submissions_conform toy_RSA toy_AES toy_env amd64_conv toy_RSALaws toy_AESLaws toy_rsa_client strict_server
    (@mkRsa2Signer toy_RSA (7%nat, 2048) "") (@mkRsa2Verifier toy_RSA (7%nat, 2048)) (5%nat, 2048) Background
    toy_rsa_ready strict_server_strict) as (Hvoid & _ & _ & _ & _ & _ & _ & _ & _ & Hsealed).
  split; [apply Hvoid|]. exact (proj2 (proj2 (Hsealed eq_refl eq_refl eq_refl eq_refl (mkWorld 0 []))) toy_application).
Defined.

Lemma risk_submissions_conform_witness :
  submits AuthRequest_json (fun q r => @conforming toy_RSA strict_server toy_client r <-> risk_data (aq_ExtendInfo q))
    (@Auth toy_RSA toy_env amd64_conv (service_of toy_client) Background (Some Payment.toy_auth)).
Proof.
  exact (proj1 (@risk_submissions_conform toy_RSA toy_env amd64_conv toy_client strict_server Background
    toy_ready strict_server_strict) Payment.toy_auth).
Defined.

(** A request [/auth] lets through and the specification refuses: it says nothing of the
    address and the device.  And one with all of it. *)
Example auth_below_specification : validateAuthRequest Payment.toy_auth = None /\ ~ risk_data (aq_ExtendInfo Payment.toy_auth).
Proof.
  split; [by vm_compute|]. cbn [Payment.toy_auth aq_ExtendInfo]. rewrite risk_data_Some. by intros [(a & sa & [=] & _) _ _].
Qed.

Definition full_auth : AuthRequest :=
  mkAuthRequest "r" "u" 500 1 [mkSubOrder "" "" "" "" "" 500 None]
    (Some (mkRequestExtendInfo OrderTypeTransport ""
       (Some (mkDeviceInfo PlatformIOS None (Some (mkDeviceProfile "" "" "" "" "" (Some false) "" None)) [] None))
       (Some (mkAddress (Some (mkShippingAddress "" "Jakarta" "" "Jl. Sudirman" "")) "n" "p")) None [])) "sid".

Example auth_meets_specification : validateAuthRequest full_auth = None /\ risk_data (aq_ExtendInfo full_auth).
Proof.
  split; [by vm_compute|]. apply risk_data_Some. split; [by do 2 eexists|by do 3 eexists|constructor].
Qed.
