(* ===== verification/DeepEqual.v ===== *)
(** * DeepEqual: [reflect.DeepEqual] on values that come from JSON.

    [Schema] identifies a nil slice with an empty one, which [reflect.DeepEqual] tells
    apart: here a slice that may be nil is an option ([nslice]).  [DeepEqual] follows the
    type, as [reflect] does.  There is no instance for the types whose values the model
    identifies ([slice], [float], [object]), so that what is stated of [deep_equal] is
    stated of types whose values are kept apart as Go does.

    Encoding and decoding a value may change it: a member that [omitempty] leaves out is
    decoded to the zero of its field.  [settled] says that nothing is lost that way. *)
From S2P Require Import Prelude GoStd GoCrypto Errors GoHttp Json Codec Schema Decoding.

(** ** Slices that may be nil *)

Definition dec_nslice {B} (d : decoder) (c : codec B) : dec (option (list B)) := fun v old =>
  match v with
  | JArr vs => let '(l, ok) := dec_elements d c vs (default [] old) in (Some l, ok)
  | JNull => (None, true)
  | _ => (old, false)
  end.

Definition nslice {B} (c : codec B) : codec (option (list B)) :=
  mkCodec None (fun o => match o with None => JNull | Some l => JArr (map (c_enc c) l) end) (fun d => dec_nslice d c)
    (fun o => match o with None | Some [] => true | _ => false end) (fun o => forallb (c_ok c) (default [] o)) (S (c_depth c)).

(** ** Deep equality *)

Class DeepEqual {B} (c : codec B) := deep_equal : B -> B -> bool.
Arguments deep_equal {B} c {_}.
Class FieldsEqual {A} (fs : list (field_decl A)) := fields_equal : A -> A -> bool.
Arguments fields_equal {A} fs {_}.

#[export] Instance str_deep : DeepEqual str := fun a b => bool_decide (a = b).
#[export] Instance int_deep : DeepEqual int := Z.eqb.
#[export] Instance bool_deep : DeepEqual bool_ := Bool.eqb.

(** Both nil, or pointers to deeply equal values. *)
#[export] Instance ptr_deep {B} (c : codec B) `{!DeepEqual c} : DeepEqual (ptr c) := fun a b =>
  match a, b with
  | None, None => true
  | Some a, Some b => deep_equal c a b
  | _, _ => false
  end.

Fixpoint elements_equal {B} (eq : B -> B -> bool) (l l' : list B) : bool :=
  match l, l' with
  | [], [] => true
  | a :: l, b :: l' => eq a b && elements_equal eq l l'
  | _, _ => false
  end.

(** Both nil or neither, of one length, with deeply equal elements. *)
#[export] Instance nslice_deep {B} (c : codec B) `{!DeepEqual c} : DeepEqual (nslice c) := fun a b =>
  match a, b with
  | None, None => true
  | Some l, Some l' => elements_equal (deep_equal c) l l'
  | _, _ => false
  end.

(** Field by field. *)
#[export] Instance fields_deep_nil {A} : FieldsEqual (A := A) [] := fun _ _ => true.
#[export] Instance fields_deep_cons {A} (f : field_decl A) fs `{!DeepEqual (f_codec f), !FieldsEqual fs} : FieldsEqual (f :: fs) :=
  fun a b => deep_equal (f_codec f) (f_get f a) (f_get f b) && fields_equal fs a b.
#[export] Instance struct_deep {A} (zero : A) fs `{!FieldsEqual fs} : DeepEqual (struct zero fs) := fields_equal fs.

(** * Specification: what a round trip loses *)

Class Settles {B} (c : codec B) `{!DeepEqual c} := {
  settles_printable :: Printable c;
  (** nothing is lost *)
  settled : B -> bool;
  settles_decodes : forall d b, c_ok c b = true -> (c_decode c d (c_enc c b) (c_zero c)).2 = true;
  settles_back : forall d b, c_ok c b = true ->
    let b' := (c_decode c d (c_enc c b) (c_zero c)).1 in
    c_enc c b' = c_enc c b /\ c_empty c b' = c_empty c b /\ deep_equal c b b' = settled b;
  settles_zero : forall b, c_empty c b = true -> c_empty c (c_zero c) = true;
}.
Arguments settled {B} c {_ _}.

Definition back {B} (c : codec B) (d : decoder) (b : B) : B := (c_decode c d (c_enc c b) (c_zero c)).1.

Lemma decode_back {B} (c : codec B) `{Settles B c} d b : c_ok c b = true -> c_decode c d (c_enc c b) (c_zero c) = (back c d b, true).
Proof. intros Hb. unfold back. rewrite <- (settles_decodes d b Hb). by destruct (c_decode _ _ _ _). Qed.

Lemma settles_lawful {B} (c : codec B) `{!DeepEqual c, !Lawful c} :
  (forall b, deep_equal c b b = true) -> (forall b, c_empty c b = true -> c_empty c (c_zero c) = true) -> Settles c.
Proof.
  intros Hr Hz. apply (Build_Settles _ c _ _ (fun _ => true)); [| |done]; intros d b Hb; cbn zeta; by rewrite (law_dec c d b Hb).
Defined.

#[export] Instance str_settles : Settles str.
Proof. apply (settles_lawful str); [intros b; by apply bool_decide_eq_true|done]. Defined.
#[export] Instance int_settles : Settles int.
Proof. apply (settles_lawful int); [apply Z.eqb_refl|done]. Defined.
#[export] Instance bool_settles : Settles bool_.
Proof. apply (settles_lawful bool_); [by intros []|done]. Defined.

#[export] Instance ptr_settles {B} (c : codec B) `{!DeepEqual c, !Settles c, !NonNull c} : Settles (ptr c).
Proof.
  apply (Build_Settles _ (ptr c) _ _ (fun o => match o with Some b => settled c b | None => true end)); [| |done].
  all: intros d [b|] Hb; [|done]; cbn [ptr c_enc c_decode c_ok c_zero c_empty] in *.
  all: assert (Hd : dec_ptr (c_zero c) (c_decode c d) (c_enc c b) None = (Some (back c d b), true))
    by (pose proof (non_null (c := c) b) as Hn; pose proof (decode_back c d b Hb) as Hd; unfold dec_ptr; cbn [default];
      destruct (c_enc c b); [done|by rewrite Hd..]).
  all: rewrite Hd.
  { done. }
  destruct (settles_back d b Hb) as (He & _ & Hs). by rewrite <- Hs.
Defined.

Lemma elements_back {B} (c : codec B) `{Settles B c} d l : forallb (c_ok c) l = true ->
  dec_elements d c (map (c_enc c) l) [] = (map (back c d) l, true).
Proof.
  induction l as [|b l IH]; cbn [forallb map dec_elements]; [done|]. rewrite andb_true_iff. intros [Hb Hl].
  cbn [head tail default]. by rewrite (decode_back c d b Hb), (IH Hl).
Qed.

#[export] Instance nslice_printable {B} (c : codec B) `{!Printable c} : Printable (nslice c).
Proof.
  split; intros [l|] H; try done; try (cbn; lia); cbn [nslice c_enc c_ok c_depth default] in *; rewrite forallb_forall in H.
  - cbn [json_wf]. apply forallb_forall. intros j (x & <- & Hx)%in_map_iff. by apply (law_wf c), H.
  - cbn [json_depth]. apply le_n_S, list_max_le, List.Forall_map, List.Forall_map, Forall_forall.
    intros x Hx%list_elem_of_In. by apply (law_depth c), H.
  - cbn [numbers_in_range]. apply forallb_forall. intros j (x & <- & Hx)%in_map_iff. by apply (law_range c), H.
Qed.

#[export] Instance nslice_settles {B} (c : codec B) `{!DeepEqual c, !Settles c} : Settles (nslice c).
Proof.
  apply (Build_Settles _ (nslice c) _ _ (fun o => forallb (settled c) (default [] o))); [| |done].
  all: intros d [l|] Hl; [|done]; cbn [nslice c_enc c_decode c_ok c_zero c_empty dec_nslice default] in *.
  all: rewrite (elements_back c d l Hl).
  { done. }
  cbv zeta. cbn [fst]. split_and!; [|by destruct l|].
  - f_equal. rewrite map_map. apply map_ext_in. intros b Hb. apply (settles_back d b). rewrite forallb_forall in Hl. by apply Hl.
  - unfold deep_equal, nslice_deep. induction l as [|b l IH]; [done|]. cbn [map elements_equal forallb] in *.
    apply andb_true_iff in Hl as [Hb Hl]. destruct (settles_back d b Hb) as (_ & _ & Hs). cbv zeta in Hs. rewrite (IH Hl).
    unfold back. by rewrite Hs.
Defined.

(** ** Structs *)

(** What a round trip leaves of a field. *)
Definition comes_back {A} (d : decoder) (a a' : A) (f : field_decl A) : Prop :=
  f_get f a' = (if field_omitted f a then c_zero (f_codec f) else back (f_codec f) d (f_get f a)).

Class FieldsSettle {A} (fs : list (field_decl A)) `{!FieldsEqual fs} := {
  fields_settled : A -> bool;
  fields_decode : Forall (fun f => forall d b, c_ok (f_codec f) b = true ->
    c_decode (f_codec f) d (c_enc (f_codec f) b) (c_zero (f_codec f)) = (back (f_codec f) d b, true)) fs;
  fields_back : forall d a a', struct_ok fs a = true -> Forall (comes_back d a a') fs ->
    flat_map (fun f => enc_field f a') fs = flat_map (fun f => enc_field f a) fs /\ fields_equal fs a a' = fields_settled a;
}.
Arguments fields_settled {A} fs {_ _}.
Arguments fields_decode {A} fs {_ _}.
Arguments fields_back {A} fs {_ _}.

#[export] Instance fields_settle_nil {A} : FieldsSettle (A := A) [].
Proof. apply (Build_FieldsSettle _ [] _ (fun _ => true)); [constructor|done]. Defined.

(** A field left out is lost unless it holds its zero: an empty slice that is not nil is. *)
#[export] Instance fields_settle_cons {A} (f : field_decl A) fs
    `{!DeepEqual (f_codec f), !Settles (f_codec f), !FieldsEqual fs, !FieldsSettle fs} : FieldsSettle (f :: fs).
Proof.
  apply (Build_FieldsSettle _ (f :: fs) _ (fun a =>
    (if field_omitted f a then deep_equal (f_codec f) (f_get f a) (c_zero (f_codec f)) else settled (f_codec f) (f_get f a)) &&
    fields_settled fs a)).
  - constructor; [|exact (fields_decode fs)]. intros d b. apply (decode_back (f_codec f)).
  - intros d a a' [Hf Hfs]%andb_true_iff [Hc Hcs]%Forall_cons. destruct (fields_back fs d a a' Hfs Hcs) as [He Hs].
    unfold fields_equal at 1, fields_deep_cons. cbn [flat_map]. rewrite He, Hs. unfold comes_back in Hc.
    unfold enc_field. destruct (settles_back d (f_get f a) Hf) as (Hce & Hcm & Hcd). fold (back (f_codec f) d (f_get f a)) in *.
    unfold field_omitted in *. rewrite Hc. destruct (f_omitempty f); cbn [andb] in *; [|by rewrite Hce, Hcd].
    destruct (c_empty (f_codec f) (f_get f a)) eqn:Ez; [by rewrite (settles_zero _ Ez)|by rewrite Hcm, Hce, Hcd].
Defined.

(** A struct whose fields are all there is to it, as the zero of their types to begin with. *)
Class GoStruct {A} (zero : A) (fs : list (field_decl A)) : Prop := {
  go_prints :: Prints fs;
  go_names : bool_decide (NoDup (map f_name fs)) = true;
  go_independent : independent fs;
  go_zero : Forall (fun f => f_get f zero = c_zero (f_codec f)) fs;
}.

(** Setting a field leaves the others. *)
Lemma independent_frame {A} (fs : list (field_decl A)) f g a b : independent fs ->
  f ∈ fs -> g ∈ fs -> f_name f <> f_name g -> f_get g (f_set f b a) = f_get g a.
Proof.
  induction fs as [|h fs IH]; cbn [independent]; intros Hi Hf Hg Hn; [by apply not_elem_of_nil in Hf|].
  destruct Hi as (_ & Hrest & Hi). rewrite Forall_forall in Hrest.
  apply elem_of_cons in Hf as [->|Hf], Hg as [->|Hg]; [done|by apply Hrest|by apply Hrest|by apply IH].
Qed.

Lemma independent_set {A} (fs : list (field_decl A)) f a b : independent fs -> f ∈ fs -> f_get f (f_set f b a) = b.
Proof.
  induction fs as [|h fs IH]; cbn [independent]; intros Hi Hf; [by apply not_elem_of_nil in Hf|].
  destruct Hi as (Hset & _ & Hi). apply elem_of_cons in Hf as [->|Hf]; [apply Hset|by apply IH].
Qed.

(** Decoding the members printed of [fs], into a struct that holds their zeros. *)
Lemma members_back {A} d (all fs : list (field_decl A)) a pre :
  independent all -> NoDup (map f_name all) -> NoDup (map f_name fs) -> (forall f, f ∈ fs -> f ∈ all) ->
  Forall (fun f => forall d b, c_ok (f_codec f) b = true ->
    c_decode (f_codec f) d (c_enc (f_codec f) b) (c_zero (f_codec f)) = (back (f_codec f) d b, true)) fs ->
  struct_ok fs a = true -> Forall (fun f => f_get f pre = c_zero (f_codec f)) fs ->
  exists a', fold_left (fun st kv =>
        let '(a, ok) := st in
        match field_for (map f_name all) kv.1 with
        | Some n => let '(a, ok') := dec_member d all n kv.2 a in (a, ok && ok')
        | None => (a, ok && negb (d_disallowUnknownFields d))
        end) (flat_map (fun f => enc_field f a) fs) (pre, true) = (a', true) /\
    Forall (comes_back d a a') fs /\ (forall g, g ∈ all -> f_name g ∉ map f_name fs -> f_get g a' = f_get g pre).
Proof.
  intros Hi Hnd. revert pre. induction fs as [|f fs IH]; intros pre Hndf Hin Hdec Hok Hz; [by exists pre|].
  cbn [map struct_ok forallb flat_map] in *. apply andb_true_iff in Hok as [Hf Hok]. apply NoDup_cons in Hndf as [Hfn Hndf].
  apply Forall_cons in Hdec as [Hdf Hdec]. apply Forall_cons in Hz as [Hzf Hz].
  assert (Hfa : f ∈ all) by (apply Hin; by left). assert (Hrest : forall g, g ∈ fs -> g ∈ all) by (intros g Hg; apply Hin; by right).
  set (pre' := if field_omitted f a then pre else f_set f (back (f_codec f) d (f_get f a)) pre).
  assert (Hothers : forall g, g ∈ all -> f_name f <> f_name g -> f_get g pre' = f_get g pre).
  { intros g Hg Hn. unfold pre'. destruct (field_omitted f a); [done|by apply (independent_frame all)]. }
  destruct (IH pre' Hndf Hrest Hdec Hok) as (a' & Hfold & Hback & Hkeep).
  { rewrite Forall_forall in *. intros g Hg. rewrite Hothers; [by apply Hz|by apply Hrest|].
    intros E. apply Hfn. rewrite E. apply list_elem_of_In, in_map, list_elem_of_In, Hg. }
  exists a'. split_and!.
  - rewrite fold_left_app. unfold enc_field. subst pre'. destruct (field_omitted f a) eqn:E; [exact Hfold|].
    cbn [fold_left fst snd]. unfold field_for, dec_member.
    rewrite bool_decide_true by (apply list_elem_of_In, in_map, list_elem_of_In, Hfa).
    rewrite find_name by done. unfold dec_field. rewrite Hzf, Hdf by done. exact Hfold.
  - constructor; [|done]. unfold comes_back. rewrite (Hkeep f Hfa Hfn). subst pre'.
    destruct (field_omitted f a); [exact Hzf|by apply (independent_set all)].
  - intros g Hg Hn. rewrite not_elem_of_cons in Hn. destruct Hn as [Hn1 Hn2]. rewrite Hkeep by done. by apply Hothers.
Qed.

#[export] Instance struct_settles {A} (zero : A) fs `{!GoStruct zero fs, !FieldsEqual fs, !FieldsSettle fs} : Settles (struct zero fs).
Proof.
  apply (Build_Settles _ (struct zero fs) _ _ (fields_settled fs)); [| |done].
  all: intros d a Hok; pose proof (go_names (zero := zero) (fs := fs)) as Hn; apply bool_decide_eq_true in Hn.
  all: destruct (members_back d fs fs a zero (go_independent (zero := zero)) Hn Hn ltac:(done) (fields_decode fs) Hok go_zero)
    as (a' & Hfold & Hback & _).
  all: cbn [struct c_decode c_enc c_zero c_empty]; unfold enc_struct, decode_struct; rewrite Hfold.
  { done. }
  cbv zeta. cbn [fst]. destruct (fields_back fs d a a' Hok Hback) as [He Hs]. by rewrite He.
Defined.

(** ** Decoding keeps a value well typed *)

#[export] Instance nslice_sound {B} (c : codec B) `{!Sound c} : Sound (nslice c).
Proof.
  split; [done|]. intros d v old Hv Hold. cbn [nslice c_decode c_ok] in *. unfold dec_nslice.
  destruct v as [| | | |vs|]; try done. pose proof (sound_decode (c := slice c) d (JArr vs) (default [] old) Hv Hold) as H.
  cbn [slice c_ok c_decode dec_slice] in H. by destruct (dec_elements d c vs _).
Qed.

(** ** Automation *)

Ltac go_struct :=
  match goal with |- GoStruct ?z ?fs => let fs' := eval unfold fs in fs in change (GoStruct z fs') end; cbn [map app]; split; [prints|vm_compute; reflexivity
  |cbn [independent]; split_and?; repeat apply Forall_cons_2; try apply Forall_nil_2; split_and?;
   first [exact I|let a := fresh in intros a; destruct a; reflexivity]
  |repeat apply Forall_cons_2; try apply Forall_nil_2; reflexivity].
