(* ===== verification/QaMarshal.v ===== *)
(** * QaMarshal: the round-trip harness of the struct tests ([qa/marshal/roundtrip.go]).

    A check is a function from what the test gives it to what it reports to
    [testing.T]; [Fatalf] is the last report of a check.  A type is its [codec]; the
    bytes of a fixture file are an argument.  The checks that compare values take a type
    with its [DeepEqual]; what they lose is said by [settled].

    [hasTopLevelKey] scans bytes; [scan_object] says what it collects from a printed
    object: the names of its members, and also the string values among them. *)
From S2P Require Import Prelude GoStd GoCrypto Errors GoHttp Json Codec Schema Decoding.
From S2P Require Import PaymentTypes Repayment Refund Responses DeepEqual.

(** ** Encoding and decoding *)

Definition newline : ascii := "010".

(** What is reported: the format and the arguments that name the place. *)
Inductive report :=
| Fatalf (format : string) (args : list (fmt_arg error))
| Errorf (format : string) (args : list (fmt_arg error)).


(** [dec.More()]: the next character, after white space, is one and closes nothing. *)
Definition More (rest : list ascii) : bool :=
  match skip_ws rest with
  | c :: _ => negb (bool_decide (c = "]"%char)) && negb (bool_decide (c = "}"%char))
  | [] => false
  end.

Definition strict : decoder := mkDecoder true true.

(** The file of a fixture, trimmed; [None] when it cannot be read. *)
Definition readFixture (path : string) (file : option string) : result report string :=
  match file with
  | Some raw => Ok (TrimSpace raw)
  | None => Err (Fatalf "read fixture %s: %v" [AStr path])
  end.

(** ** Keys of an object *)

(** The variables of [hasTopLevelKey]'s loop. *)
Record scan := mkScan {
  sc_depth : Z; sc_inStr : bool; sc_esc : bool; sc_name : list ascii;
  sc_collecting : bool; sc_expectColon : bool; sc_keys : list string;
}.

(** One iteration, for the character [c]. *)
Definition scan_step (st : scan) (c : ascii) : scan :=
  let '(mkScan depth inStr esc name collecting expectColon keys) := st in
  let name' := if collecting then name ++ [c] else name in
  if esc then mkScan depth inStr false name' collecting expectColon keys
  else if bool_decide (c = backslash) && inStr then mkScan depth inStr true name' collecting expectColon keys
  else if bool_decide (c = quote_char) then
    if depth =? 0 then
      if negb inStr then mkScan depth true esc [] (negb expectColon) expectColon keys
      else if collecting then mkScan depth false esc name false true (keys ++ [of_chars name])
      else mkScan depth false esc name collecting expectColon keys
    else mkScan depth (negb inStr) esc name collecting expectColon keys
  else if inStr then mkScan depth inStr esc name' collecting expectColon keys
  else if bool_decide (c = "{"%char) || bool_decide (c = "["%char) then
    mkScan (depth + 1) inStr esc name collecting expectColon keys
  else if bool_decide (c = "}"%char) || bool_decide (c = "]"%char) then
    mkScan (depth - 1) inStr esc name collecting expectColon keys
  else if (bool_decide (c = ":"%char) || bool_decide (c = ","%char)) && (depth =? 0) then
    mkScan depth inStr esc name collecting false keys
  else st.

Definition scan_start : scan := mkScan 0 false false [] false false [].

Definition hasTopLevelKey (b key : string) : bool :=
  let s := chars (TrimSpace b) in
  if negb (bool_decide (head s = Some "{"%char)) || negb (bool_decide (last s = Some "}"%char)) then false
  else bool_decide (key ∈ sc_keys (fold_left scan_step (take (length s - 2) (drop 1 s)) scan_start)).

(** ** Amounts *)

(** [json.Decoder]'s tokens, numbers kept as literals. *)
Inductive token := TDelim (c : ascii) | TStr (s : string) | TNum (lit : string) | TBool (b : bool) | TNull.

Fixpoint tokens (j : json) : list token :=
  match j with
  | JNull => [TNull]
  | JBool b => [TBool b]
  | JNum n => [TNum n]
  | JStr s => [TStr s]
  | JArr l => TDelim "[" :: flat_map tokens l ++ [TDelim "]"]
  | JObj l => TDelim "{" :: flat_map (fun kv => TStr kv.1 :: tokens kv.2) l ++ [TDelim "}"]
  end.

Definition closes (t : token) : bool :=
  match t with TDelim c => bool_decide (c = "]"%char) || bool_decide (c = "}"%char) | _ => false end.

(** [strings.ContainsAny] *)
Definition ContainsAny (s : string) (cs : list ascii) : bool :=
  existsb (fun c => bool_decide (c ∈ cs)) (chars s).

Definition float_marks : list ascii := ["."%char; "e"%char; "E"%char].

(** Why the walk stopped. *)
Inductive walk_error := AmountAsFloat (key lit : string) | TokenError (parentKey : string).

(** The two loops of [walkAmountKeys] beside the function itself. *)
Inductive walk_phase := WValue | WMembers | WElements.

(** The walk of the value, members or elements at the head of the tokens; the tokens
    left.  Every call but the end of a loop consumes one: twice their number is enough
    [fuel]. *)
Fixpoint walkAmountKeys (fuel : nat) (ph : walk_phase) (amountKeys : list string) (parentKey : string)
    (toks : list token) : result walk_error (list token) :=
  match fuel with
  | O => Err (TokenError parentKey)
  | S fuel =>
    match ph, toks with
    | WValue, [] => Ok []
    | WValue, TDelim c :: toks =>
        if bool_decide (c = "{"%char) then walkAmountKeys fuel WMembers amountKeys parentKey toks
        else if bool_decide (c = "["%char) then walkAmountKeys fuel WElements amountKeys parentKey toks
        else Ok toks
    | WValue, TNum n :: toks =>
        if bool_decide (parentKey ∈ amountKeys) && ContainsAny n float_marks then Err (AmountAsFloat parentKey n)
        else Ok toks
    | WValue, _ :: toks => Ok toks
    | _, [] => Err (TokenError parentKey)
    | WMembers, t :: toks =>
        if closes t then Ok toks
        else match t with
        | TStr key =>
            match walkAmountKeys fuel WValue amountKeys key toks with
            | Ok toks => walkAmountKeys fuel WMembers amountKeys parentKey toks
            | Err e => Err e
            end
        | _ => Err (TokenError parentKey)
        end
    | WElements, t :: toks' =>
        if closes t then Ok toks'
        else match walkAmountKeys fuel WValue amountKeys parentKey toks with
        | Ok toks => walkAmountKeys fuel WElements amountKeys parentKey toks
        | Err e => Err e
        end
    end
  end.

(** ** The checks *)

Section Checks.
Context {T : Type} (c : codec T).

Definition Marshal (v : T) : res string := Ok (TrimRight newline (json_print (c_enc c v) +:+ String newline "")).

(** [Decode]; [None]: an error. *)
Definition Decode (b : string) : option T :=
  match parse (2 * String.length b + 2) PValue 0 (chars b) with
  | None => None
  | Some (j, rest) =>
      let '(v, ok) := c_decode c strict j (c_zero c) in
      if negb ok then None else if More rest then None else Some v
  end.

Definition StrictDecode (fixturePath : string) (file : option string) : list report :=
  match readFixture fixturePath file with
  | Err r => [r]
  | Ok raw =>
      match Decode raw with
      | None => [Fatalf "[%s] strict decode failed: %v" [AStr fixturePath]]
      | Some _ => []
      end
  end.

Definition AssertOmitemptyZero (forbiddenKeys : list string) : list report :=
  match Marshal (c_zero c) with
  | Err err => [Fatalf "marshal zero: %v" [AErr err]]
  | Ok b =>
      flat_map (fun k =>
        if hasTopLevelKey b k
        then [Errorf "zero-value %T emitted forbidden key %q (missing ,omitempty?)" [AStr k]] else []) forbiddenKeys
  end.

Definition AssertRequiredEmits (requiredKeys : list string) : list report :=
  match Marshal (c_zero c) with
  | Err err => [Fatalf "marshal zero: %v" [AErr err]]
  | Ok b =>
      flat_map (fun k =>
        if negb (hasTopLevelKey b k)
        then [Errorf "zero-value %T omitted required key %q (stray ,omitempty?)" [AStr k]] else []) requiredKeys
  end.

Definition AssertRejectsFractionalAmount (body : string) : list report :=
  match Decode body with
  | Some _ => [Errorf "R11: expected fractional/exp amount to be rejected, but decode of %T succeeded" []]
  | None => []
  end.

Definition AssertAmountKeysAreInteger (v : T) (amountKeys : list string) : list report :=
  match Marshal v with
  | Err err => [Fatalf "R12: marshal failed: %v" [AErr err]]
  | Ok b =>
      match json_parse b with
      | None => [Errorf "R12: token at %q: %w" [AStr ""]]
      | Some j =>
          let toks := tokens j in
          match walkAmountKeys (2 * length toks + 1) WValue amountKeys "" toks with
          | Ok _ => []
          | Err (AmountAsFloat k n) => [Errorf "R12: amount key %q rendered as float/exp: %s" [AStr k; AStr n]]
          | Err (TokenError k) => [Errorf "R12: token at %q: %w" [AStr k]]
          end
      end
  end.

(** The checks that compare values, with [reflect.DeepEqual]. *)
Section Equality.
Context `{!DeepEqual c}.





End Equality.
End Checks.

(** * Lemmas *)

(** ** The scanner inside a string *)

(** The characters of a string literal between its quotes. *)
Definition raw (s : string) : string := of_chars (escape (String.length s) (chars s)).

Lemma quote_string_raw s : quote_string s = quote_char :: chars (raw s) ++ [quote_char].
Proof. unfold quote_string, raw. by rewrite chars_of_chars. Qed.

(** The states between two characters of a string, and outside strings. *)
Definition within (depth : Z) (name : list ascii) (collecting expectColon : bool) (keys : list string) : scan :=
  mkScan depth true false name collecting expectColon keys.
Definition outside (depth : Z) (name : list ascii) (expectColon : bool) (keys : list string) : scan :=
  mkScan depth false false name false expectColon keys.

Lemma step_plain c depth name collecting ec keys : c <> quote_char -> c <> backslash ->
  scan_step (within depth name collecting ec keys) c =
    within depth (if collecting then name ++ [c] else name) collecting ec keys.
Proof.
  intros Hq Hb. unfold scan_step, within. by rewrite (bool_decide_false _ Hb), (bool_decide_false _ Hq).
Qed.

(** What is appended to the name, as one list. *)
Definition extend (collecting : bool) (name l : list ascii) : list ascii := if collecting then name ++ l else name.

Lemma extend_extend b name l m : extend b (extend b name l) m = extend b name (l ++ m).
Proof. destruct b; [apply eq_sym, app_assoc|done]. Qed.

Lemma run_plain l depth name collecting ec keys : Forall (fun c => c <> quote_char /\ c <> backslash) l ->
  fold_left scan_step l (within depth name collecting ec keys) =
    within depth (extend collecting name l) collecting ec keys.
Proof.
  intros Hl. revert name. induction Hl as [|c l [Hq Hb] _ IH]; intros name; cbn [fold_left].
  - unfold extend. rewrite app_nil_r. by destruct collecting.
  - rewrite step_plain, IH by done. fold (extend collecting name [c]). by rewrite extend_extend.
Qed.

Lemma hex_digit_plain c : implb (match unhex c with Some _ => true | None => false end)
  (negb (bool_decide (c = quote_char)) && negb (bool_decide (c = backslash))) = true.
Proof. revert c. apply ascii_check. vm_compute. reflexivity. Qed.

Lemma hex4_plain a b c d r : hex4 a b c d = Some r -> Forall (fun c => c <> quote_char /\ c <> backslash) [a; b; c; d].
Proof.
  assert (Hx : forall c, unhex c <> None -> c <> quote_char /\ c <> backslash).
  { intros x Hx. pose proof (hex_digit_plain x) as H. destruct (unhex x); [|done]. cbn [implb] in H. by to_prop. }
  unfold hex4. destruct (unhex a) eqn:Ea, (unhex b) eqn:Eb, (unhex c) eqn:Ec, (unhex d) eqn:Ed; try done.
  intros _. repeat constructor; apply Hx; congruence.
Qed.

Lemma high_plain p : Forall (fun c => is_ascii c = false) p -> Forall (fun c => c <> quote_char /\ c <> backslash) p.
Proof. intros H. eapply Forall_impl; [exact H|]. intros c Hc. by split; intros ->. Qed.

Lemma step_escape e depth name collecting ec keys :
  fold_left scan_step [backslash; e] (within depth name collecting ec keys) =
    within depth (extend collecting name [backslash; e]) collecting ec keys.
Proof.
  assert (scan_step (within depth name collecting ec keys) backslash =
    mkScan depth true true (extend collecting name [backslash]) collecting ec keys) as H by done.
  cbn [fold_left]. rewrite H. unfold scan_step. fold (extend collecting (extend collecting name [backslash]) [e]).
  by rewrite extend_extend.
Qed.

Lemma run_rune p depth name collecting ec keys : is_rune p = true ->
  fold_left scan_step (escape_rune p) (within depth name collecting ec keys) =
    within depth (extend collecting name (escape_rune p)) collecting ec keys.
Proof.
  intros Hp. destruct (escape_rune_shape p Hp) as [c _ Hq _ Hb|e _ _|h1 h2 h3 h4 r Hr _ _|_ Hh].
  - by apply run_plain, Forall_singleton.
  - apply step_escape.
  - change [backslash; "u"%char; h1; h2; h3; h4] with ([backslash; "u"%char] ++ [h1; h2; h3; h4]).
    rewrite fold_left_app, step_escape, run_plain, extend_extend; [done|by eapply hex4_plain].
  - by apply run_plain, high_plain.
Qed.

Lemma run_runes ps depth name collecting ec keys : Forall (fun p => is_rune p = true) ps ->
  fold_left scan_step (escape_runes ps) (within depth name collecting ec keys) =
    within depth (extend collecting name (escape_runes ps)) collecting ec keys.
Proof.
  intros Hps. revert name. induction Hps as [|p ps Hp _ IH]; intros name.
  - unfold extend, escape_runes. cbn. rewrite app_nil_r. by destruct collecting.
  - unfold escape_runes in *. rewrite bind_cons, fold_left_app, run_rune, IH by done. by rewrite extend_extend.
Qed.

Lemma run_raw s depth name collecting ec keys : valid_string s = true ->
  fold_left scan_step (chars (raw s)) (within depth name collecting ec keys) =
    within depth (extend collecting name (chars (raw s))) collecting ec keys.
Proof.
  intros Hs%valid_string_utf8. destruct (utf8_runes _ Hs) as (ps & Hps & Hr).
  assert (chars (raw s) = escape_runes ps) as ->; [|by apply run_runes].
  unfold raw. rewrite chars_of_chars, Hps. apply escape_escape_runes; [done|].
  by rewrite <- Hps, <- (of_chars_chars s), length_of_chars, chars_of_chars.
Qed.

(** ** The scanner over values *)

(** A string: at the top it is collected unless a colon is expected; deeper it leaves
    no trace. *)
Lemma run_string_top s name ec keys : valid_string s = true ->
  exists name', fold_left scan_step (quote_string s) (outside 0 name ec keys) =
    outside 0 name' true (if ec then keys else keys ++ [raw s]).
Proof.
  intros Hs. rewrite quote_string_raw. cbn [fold_left]. rewrite fold_left_app.
  assert (scan_step (outside 0 name ec keys) quote_char = within 0 [] (negb ec) ec keys) as -> by done.
  rewrite run_raw by done. destruct ec; cbn [negb extend].
  - by exists [].
  - exists (chars (raw s)). cbn. by rewrite of_chars_chars.
Qed.

Lemma run_string_deep s depth name ec keys : valid_string s = true -> depth <> 0 ->
  fold_left scan_step (quote_string s) (outside depth name ec keys) = outside depth name ec keys.
Proof.
  intros Hs Hd%Z.eqb_neq. rewrite quote_string_raw. cbn [fold_left]. rewrite fold_left_app.
  assert (forall inStr, scan_step (mkScan depth inStr false name false ec keys) quote_char =
    mkScan depth (negb inStr) false name false ec keys) as Hq.
  { intros inStr. unfold scan_step. rewrite bool_decide_false, bool_decide_true by done. cbn [andb]. by rewrite Hd. }
  unfold outside at 1. rewrite Hq. change (negb false) with true. fold (within depth name false ec keys). rewrite run_raw by done.
  cbn [extend fold_left]. unfold within. by rewrite Hq.
Qed.

(** Characters that mean nothing outside strings. *)
Definition inert (c : ascii) : bool :=
  negb (bool_decide (c ∈ [quote_char; "{"%char; "["%char; "}"%char; "]"%char; ":"%char; ","%char])).

Lemma run_inert l depth name ec keys : forallb inert l = true ->
  fold_left scan_step l (outside depth name ec keys) = outside depth name ec keys.
Proof.
  induction l as [|c l IH]; [done|]. cbn [forallb fold_left]. intros [Hc Hl]%andb_true_iff.
  assert (scan_step (outside depth name ec keys) c = outside depth name ec keys) as ->; [|by apply IH].
  unfold inert in Hc. rewrite negb_true_iff, bool_decide_eq_false, !not_elem_of_cons in Hc.
  destruct Hc as (H1 & H2 & H3 & H4 & H5 & H6 & H7 & _). unfold scan_step, outside.
  rewrite andb_false_r, !bool_decide_false by done. done.
Qed.

(** A number is made of digits, signs, points and exponents. *)
Lemma digit_inert c : is_digit c = true -> inert c = true.
Proof.
  assert (H : implb (is_digit c) (inert c) = true) by (revert c; apply ascii_check; vm_compute; reflexivity).
  intros E. by rewrite E in H.
Qed.

Lemma span_digits_forall l d r : span_digits l = (d, r) -> forallb inert d = true.
Proof.
  revert d r. induction l as [|c l IH]; intros d r; cbn [span_digits]; [by intros [= <- <-]|].
  destruct (is_digit c) eqn:E; [|by intros [= <- <-]]. destruct (span_digits l) as [d' r'].
  intros [= <- <-]. cbn [forallb]. by rewrite (IH _ _ eq_refl), digit_inert.
Qed.

Lemma scan_frac_inert l f r : scan_frac l = Some (f, r) -> forallb inert f = true.
Proof.
  destruct l as [|c l]; cbn [scan_frac]; [by intros [= <- <-]|]. case_bool_decide as Ec; [|by intros [= <- <-]].
  destruct (span_digits l) as [[|x d] r'] eqn:E; [done|]. apply span_digits_forall in E. intros [= <- <-].
  by rewrite Ec.
Qed.

Lemma scan_exp_inert l f r : scan_exp l = Some (f, r) -> forallb inert f = true.
Proof.
  destruct l as [|c l]; cbn [scan_exp]; [by intros [= <- <-]|].
  destruct (bool_decide (c = "e"%char) || bool_decide (c = "E"%char)) eqn:Ec; [|by intros [= <- <-]].
  assert (Hc : inert c = true).
  { rewrite orb_true_iff, !bool_decide_eq_true in Ec. by destruct Ec as [-> | ->]. }
  destruct l as [|s l]; [done|].
  destruct (bool_decide (s = "+"%char) || bool_decide (s = "-"%char)) eqn:Es.
  - destruct (span_digits l) as [[|x d] r'] eqn:E; [done|]. apply span_digits_forall in E. intros [= <- <-].
    rewrite orb_true_iff, !bool_decide_eq_true in Es. cbn [app forallb] in *. rewrite Hc, E. by destruct Es as [-> | ->].
  - destruct (span_digits (s :: l)) as [[|x d] r'] eqn:E; [done|]. apply span_digits_forall in E. intros [= <- <-].
    cbn [app forallb] in *. by rewrite Hc, E.
Qed.

Lemma scan_number_inert l n r : scan_number l = Some (n, r) -> forallb inert n = true.
Proof.
  unfold scan_number. destruct l as [|c l]; [done|].
  destruct (if bool_decide (c = "-"%char) then ([c], l) else ([], c :: l)) as [sign m] eqn:Es.
  assert (Hs : forallb inert sign = true) by (case_bool_decide; [subst c|]; by injection Es as <- <-).
  destruct m as [|x m]; [done|]. destruct (is_digit x) eqn:Ex; [|done]. cbn [negb].
  pose proof (digit_inert x Ex) as Hx.
  destruct (if bool_decide (x = "0"%char) then _ else _) as [int r1] eqn:Ei.
  assert (Hi : forallb inert int = true).
  { case_bool_decide; [injection Ei as <- <-; cbn; by rewrite Hx|].
    destruct (span_digits m) as [d r'] eqn:E. apply span_digits_forall in E. injection Ei as <- <-. cbn. by rewrite Hx, E. }
  destruct (scan_frac r1) as [[f r2]|] eqn:Ef; [|done]. destruct (scan_exp r2) as [[e r3]|] eqn:Ee; [|done].
  intros [= <- <-]. apply scan_frac_inert in Ef. apply scan_exp_inert in Ee.
  by rewrite !forallb_app, Hs, Hi, Ef, Ee.
Qed.

Lemma valid_number_inert n : valid_number n = true -> forallb inert (chars n) = true.
Proof. intros H%bool_decide_eq_true. by eapply scan_number_inert. Qed.

(** The brackets of a nested value. *)
Lemma step_open c depth name ec keys : c = "{"%char \/ c = "["%char ->
  scan_step (outside depth name ec keys) c = outside (depth + 1) name ec keys.
Proof. by intros [-> | ->]. Qed.
Lemma step_close c depth name ec keys : c = "}"%char \/ c = "]"%char ->
  scan_step (outside depth name ec keys) c = outside (depth - 1) name ec keys.
Proof. by intros [-> | ->]. Qed.

(** A separator: at the top a name is expected again after it, deeper it is nothing. *)
Lemma step_separator c depth name ec keys : c = ":"%char \/ c = ","%char ->
  scan_step (outside depth name ec keys) c = outside depth name (if depth =? 0 then false else ec) keys.
Proof. intros [-> | ->]; unfold scan_step, outside; simpl; by destruct (depth =? 0). Qed.

(** What a value leaves when a name is expected: at the top a string is collected, since
    after the colon a name is expected again. *)
Definition string_value (v : json) : list string := match v with JStr s => [raw s] | _ => [] end.

(** Elements and members below the top leave the scanner as it was, when their values
    do. *)
Section Nested.
Context (depth : Z) (name : list ascii) (ec : bool) (keys : list string) (Hd : 0 < depth).

Definition silent (l : list ascii) : Prop :=
  fold_left scan_step l (outside depth name ec keys) = outside depth name ec keys.

Lemma silent_text_app l m : silent l -> silent m -> silent (l ++ m).
Proof. unfold silent. intros Hl Hm. by rewrite fold_left_app, Hl. Qed.

Lemma silent_separator c l : c = ":"%char \/ c = ","%char -> silent l -> silent (c :: l).
Proof.
  unfold silent. intros Hc Hl. cbn [fold_left]. rewrite step_separator by done.
  by rewrite (proj2 (Z.eqb_neq depth 0)) by lia.
Qed.

Lemma silent_elements l : Forall (fun v => silent (print v)) l -> silent (print_elements l).
Proof.
  induction 1 as [|v l Hv Hl IH]; [done|]. destruct l as [|w l]; [exact Hv|].
  apply silent_text_app; [exact Hv|]. apply silent_separator; [by right|exact IH].
Qed.

Lemma silent_members l : Forall (fun kv => valid_string kv.1 = true /\ silent (print kv.2)) l -> silent (print_members l).
Proof.
  induction 1 as [|[k v] l [Hk Hv] Hl IH]; [done|]. cbn [fst snd] in *.
  assert (Hq : silent (quote_string k)) by (apply run_string_deep; [done|lia]).
  destruct l as [|[k' v'] l]; (apply silent_text_app; [exact Hq|]); (apply silent_separator; [by left|]); [exact Hv|].
  apply silent_text_app; [exact Hv|]. apply silent_separator; [by right|exact IH].
Qed.
End Nested.

(** A value leaves the scanner as it was, except a string at the top. *)
Lemma run_value j depth name ec keys : json_wf j = true -> 0 <= depth -> (depth = 0 -> string_value j = []) ->
  silent depth name ec keys (print j).
Proof.
  revert depth. induction j as [|b|n|s|l Hl|l Hl] using json_ind'; intros depth Hwf Hd Htop.
  - by apply run_inert.
  - destruct b; by apply run_inert.
  - by apply run_inert, valid_number_inert.
  - apply run_string_deep; [done|]. intros H. by specialize (Htop H).
  - rewrite print_JArr. unfold silent. cbn [fold_left]. rewrite step_open, fold_left_app by auto.
    rewrite (silent_elements (depth + 1) name ec keys ltac:(lia)).
    + cbn [fold_left]. rewrite step_close by auto. f_equal. lia.
    + cbn [json_wf] in Hwf. rewrite forallb_forall in Hwf. rewrite Forall_forall in *. intros v Hv.
      apply Hl; [done|by apply Hwf, list_elem_of_In|lia|lia].
  - rewrite print_JObj. unfold silent. cbn [fold_left]. rewrite step_open, fold_left_app by auto.
    rewrite (silent_members (depth + 1) name ec keys ltac:(lia)).
    + cbn [fold_left]. rewrite step_close by auto. f_equal. lia.
    + cbn [json_wf] in Hwf. rewrite forallb_forall in Hwf. rewrite Forall_forall in *. intros kv Hkv.
      specialize (Hwf kv ltac:(by apply list_elem_of_In)). apply andb_true_iff in Hwf as [Hk Hv].
      split; [done|]. apply Hl; [done|done|lia|lia].
Qed.

Lemma run_top j name keys : json_wf j = true ->
  exists name' ec, fold_left scan_step (print j) (outside 0 name false keys) = outside 0 name' ec (keys ++ string_value j).
Proof.
  intros Hwf. destruct (decide (string_value j = [])) as [E|E].
  - exists name, false. rewrite E, app_nil_r. by apply run_value.
  - destruct j as [| | |s| |]; try done. destruct (run_string_top s name false keys Hwf) as (name' & H).
    by exists name', true.
Qed.

(** ** What [hasTopLevelKey] finds *)

(** The names of the members, and the strings among the values. *)
Definition collected (l : list (string * json)) : list string :=
  flat_map (fun kv => raw kv.1 :: string_value kv.2) l.

Lemma run_members l name keys : forallb (fun kv => valid_string kv.1 && json_wf kv.2) l = true ->
  sc_keys (fold_left scan_step (print_members l) (outside 0 name false keys)) = keys ++ collected l.
Proof.
  revert name keys. induction l as [|[k v] l IH]; intros name keys; [by rewrite app_nil_r|].
  cbn [forallb fst snd]. rewrite !andb_true_iff. intros [[Hk Hv] Hl].
  destruct (run_string_top k name false keys Hk) as (name1 & Hs).
  destruct (run_top v name1 (keys ++ [raw k]) Hv) as (name2 & ec & Ht).
  assert (Hm : forall r, fold_left scan_step (quote_string k ++ ":"%char :: print v ++ r) (outside 0 name false keys) =
    fold_left scan_step r (outside 0 name2 ec ((keys ++ [raw k]) ++ string_value v))).
  { intros r. rewrite fold_left_app, Hs. cbn [fold_left]. rewrite step_separator by auto.
    change (0 =? 0) with true. cbv iota. by rewrite fold_left_app, Ht. }
  unfold collected. cbn [flat_map]. fold (collected l). rewrite <- app_comm_cons. destruct l as [|[k' v'] l].
  - specialize (Hm []). rewrite app_nil_r in Hm. cbn [print_members]. rewrite Hm. cbn. by rewrite app_nil_r, <- app_assoc.
  - change (print_members ((k, v) :: (k', v') :: l)) with
      (quote_string k ++ ":"%char :: print v ++ ","%char :: print_members ((k', v') :: l)).
    rewrite Hm. cbn [fold_left]. rewrite step_separator by auto. change (0 =? 0) with true. cbv iota. rewrite IH by done.
    by rewrite <- !app_assoc.
Qed.

(** An object's print starts and ends with a brace, so [TrimSpace] leaves it. *)
Lemma TrimSpace_braces l : TrimSpace (of_chars ("{"%char :: l ++ ["}"%char])) = of_chars ("{"%char :: l ++ ["}"%char]).
Proof.
  unfold TrimSpace. fold (chars (of_chars ("{"%char :: l ++ ["}"%char]))). rewrite chars_of_chars.
  rewrite (trim_left_id spaces) by done. rewrite app_comm_cons, rev_app_distr. cbn [rev app].
  rewrite (trim_left_id (map (@rev Z) spaces)) by done. cbn [rev]. by rewrite rev_app_distr, rev_involutive.
Qed.

Lemma hasTopLevelKey_print l key : json_wf (JObj l) = true ->
  hasTopLevelKey (json_print (JObj l)) key = bool_decide (key ∈ collected l).
Proof.
  intros Hwf. unfold hasTopLevelKey, json_print. rewrite print_JObj, TrimSpace_braces, chars_of_chars.
  cbn [head]. rewrite bool_decide_true by done. rewrite app_comm_cons, last_snoc, bool_decide_true by done.
  cbn [negb orb]. rewrite length_app. cbn [length app drop].
  replace (S (length (print_members l)) + 1 - 2)%nat with (length (print_members l)) by lia.
  rewrite drop_0, take_app_length. change scan_start with (outside 0 [] false []).
  by rewrite run_members.
Qed.

(** ** What a struct's checks encode and decode *)

Lemma TrimRight_object l : TrimRight newline (json_print (JObj l) +:+ String newline "") = json_print (JObj l).
Proof.
  unfold TrimRight, json_print. rewrite print_JObj.
  assert (Hc : forall a b, chars (of_chars a +:+ b) = a ++ chars b).
  { intros a b. induction a as [|x a IH]; [done|]. cbn. by rewrite <- IH. }
  rewrite Hc. change (chars (String newline "")) with [newline]. rewrite rev_app_distr. cbn [rev app].
  rewrite bool_decide_true by done. rewrite app_comm_cons, rev_app_distr. cbn [rev app].
  rewrite bool_decide_false by done. cbn [rev]. by rewrite rev_app_distr, rev_involutive.
Qed.

(** The number literals of a document, with the key each belongs to: the name of the
    member it is in, through arrays. *)
Inductive number_at : string -> json -> string -> string -> Prop :=
| number_here key n : number_at key (JNum n) key n
| number_in_array parent l v key n : v ∈ l -> number_at parent v key n -> number_at parent (JArr l) key n
| number_in_object parent l name v key n :
    (name, v) ∈ l -> number_at name v key n -> number_at parent (JObj l) key n.

(** The first number, in document order, at an amount key that is no integer literal. *)
Fixpoint first_float (keys : list string) (parent : string) (j : json) : option (string * string) :=
  match j with
  | JNum n => if bool_decide (parent ∈ keys) && ContainsAny n float_marks then Some (parent, n) else None
  | JArr l =>
      (fix elements (l : list json) : option (string * string) :=
         match l with
         | [] => None
         | v :: l => match first_float keys parent v with Some e => Some e | None => elements l end
         end) l
  | JObj l =>
      (fix members (l : list (string * json)) : option (string * string) :=
         match l with
         | [] => None
         | (k, v) :: l => match first_float keys k v with Some e => Some e | None => members l end
         end) l
  | _ => None
  end.

Lemma tokens_length j : (1 <= length (tokens j))%nat.
Proof. destruct j; simpl; lia. Qed.

Lemma tokens_head j : exists t r, tokens j = t :: r /\ closes t = false.
Proof. destruct j; by eexists _, _. Qed.

(** What the walk of a value returns. *)
Definition walked (keys : list string) (found : option (string * string)) (rest : list token) : result walk_error (list token) :=
  match found with Some (k, n) => Err (AmountAsFloat k n) | None => Ok rest end.

Definition walks (j : json) : Prop := forall fuel keys parent rest, (2 * length (tokens j) <= fuel)%nat ->
  walkAmountKeys fuel WValue keys parent (tokens j ++ rest) = walked keys (first_float keys parent j) rest.

Lemma walk_elements l fuel keys parent rest : Forall walks l -> (2 * length (flat_map tokens l) + 1 <= fuel)%nat ->
  walkAmountKeys fuel WElements keys parent (flat_map tokens l ++ TDelim "]" :: rest) =
    walked keys (first_float keys parent (JArr l)) rest.
Proof.
  intros Hl. revert fuel. induction Hl as [|v l Hv Hl IH]; intros fuel Hf; (destruct fuel as [|fuel]; [lia|]); [done|].
  cbn [flat_map] in *. rewrite length_app in Hf. pose proof (tokens_length v).
  destruct (tokens_head v) as (t & r & Ht & Hc). rewrite <- app_assoc.
  cbn [walkAmountKeys]. rewrite Ht. rewrite <- app_comm_cons, Hc, app_comm_cons, <- Ht, Hv by lia.
  change (first_float keys parent (JArr (v :: l))) with
    (match first_float keys parent v with Some e => Some e | None => first_float keys parent (JArr l) end).
  destruct (first_float keys parent v) as [[k n]|]; [done|]. cbn [walked]. apply IH. lia.
Qed.

Lemma walk_members l fuel keys parent rest : Forall (fun kv => walks kv.2) l ->
  (2 * length (flat_map (fun kv => TStr kv.1 :: tokens kv.2) l) + 1 <= fuel)%nat ->
  walkAmountKeys fuel WMembers keys parent (flat_map (fun kv => TStr kv.1 :: tokens kv.2) l ++ TDelim "}" :: rest) =
    walked keys (first_float keys parent (JObj l)) rest.
Proof.
  intros Hl. revert fuel. induction Hl as [|[k v] l Hv Hl IH]; intros fuel Hf; (destruct fuel as [|fuel]; [lia|]); [done|].
  cbn [flat_map fst snd app length] in *. rewrite <- app_assoc. rewrite length_app in Hf.
  cbn [walkAmountKeys closes]. rewrite Hv by lia.
  change (first_float keys parent (JObj ((k, v) :: l))) with
    (match first_float keys k v with Some e => Some e | None => first_float keys parent (JObj l) end).
  destruct (first_float keys k v) as [[k' n]|]; [done|]. cbn [walked]. apply IH. lia.
Qed.

(** The walk finds what [first_float] finds. *)
Lemma walk_value j : walks j.
Proof.
  induction j as [|b|n|s|l Hl|l Hl] using json_ind'; intros fuel keys parent rest Hf; (destruct fuel as [|fuel]; [simpl in Hf; lia|]).
  - done.
  - done.
  - cbn [tokens app walkAmountKeys first_float]. by destruct (_ && _).
  - done.
  - cbn [tokens] in *. cbn [length] in Hf. rewrite length_app in Hf. cbn [length] in Hf.
    rewrite <- app_comm_cons, <- app_assoc. cbn [walkAmountKeys app].
    rewrite bool_decide_false, bool_decide_true by done. apply walk_elements; [done|lia].
  - cbn [tokens] in *. cbn [length] in Hf. rewrite length_app in Hf. cbn [length] in Hf.
    rewrite <- app_comm_cons, <- app_assoc. cbn [walkAmountKeys app].
    rewrite bool_decide_true by done. apply walk_members; [done|lia].
Qed.

(** Nothing is found when every number at an amount key is an integer literal. *)
Lemma first_float_None keys j parent : first_float keys parent j = None <->
  forall key n, number_at parent j key n -> key ∈ keys -> ContainsAny n float_marks = false.
Proof.
  revert parent. induction j as [|b|n|s|l Hl|l Hl] using json_ind'; intros parent;
    try (split; [intros _ key n H; inversion H|done]).
  - cbn [first_float]. destruct (bool_decide_reflect (parent ∈ keys)) as [Hin|Hin]; cbn [andb].
    + split; [|intros H; by rewrite (H parent n (number_here _ _) Hin)].
      intros H key m Hat _. inversion Hat; subst. by destruct (ContainsAny m float_marks).
    + split; [|done]. intros _ key m Hat Hk. inversion Hat; subst. done.
  - induction Hl as [|v l Hv Hl IH]; [split; [intros _ key n H; inversion H; set_solver|done]|].
    change (first_float keys parent (JArr (v :: l))) with
      (match first_float keys parent v with Some e => Some e | None => first_float keys parent (JArr l) end).
    specialize (Hv parent). destruct (first_float keys parent v) as [e|].
    + split; [done|]. intros H. assert (Some e = None) as [=]. apply Hv. intros key n Hat. apply H.
      econstructor; [by left|done].
    + rewrite IH. split; intros H key n Hat.
      * inversion Hat as [|p m w k' n' Hin Hw|]; subst. apply elem_of_cons in Hin as [->|Hin]; [by apply Hv|].
        apply H. by econstructor.
      * apply H. inversion Hat; subst. econstructor; [by right|done].
  - induction Hl as [|[k v] l Hv Hl IH]; [split; [intros _ key n H; inversion H; set_solver|done]|].
    change (first_float keys parent (JObj ((k, v) :: l))) with
      (match first_float keys k v with Some e => Some e | None => first_float keys parent (JObj l) end).
    cbn [snd] in Hv. specialize (Hv k). destruct (first_float keys k v) as [e|].
    + split; [done|]. intros H. assert (Some e = None) as [=]. apply Hv. intros key n Hat. apply H.
      econstructor; [by left|done].
    + rewrite IH. split; intros H key n Hat.
      * inversion Hat as [| |p m nm w k' n' Hin Hw]; subst. apply elem_of_cons in Hin as [[= -> ->]|Hin]; [by apply Hv|].
        apply H. by econstructor.
      * apply H. inversion Hat; subst. econstructor; [by right|done].
Qed.

Section Struct.
Context {A : Type} (zero : A) (fs : list (field_decl A)).
Local Notation c := (struct zero fs) (only parsing).

Lemma Marshal_struct v : Marshal c v = Ok (json_print (c_enc c v)).
Proof. unfold Marshal. cbn [struct c_enc]. unfold enc_struct. by rewrite TrimRight_object. Qed.


(** The names of the fields the zero value prints. *)
Definition emitted (key : string) : bool :=
  existsb (fun f => bool_decide (f_name f = key) && negb (field_omitted f zero)) fs.

(** The scanner can be trusted with the zero value: the names have no escapes, and the
    strings it prints are empty. *)
Definition scannable : bool :=
  forallb (fun f => bool_decide (raw (f_name f) = f_name f) &&
                    match c_enc (f_codec f) (f_get f zero) with JStr s => is_empty s | _ => true end) fs.

Lemma hasTopLevelKey_zero `{!Prints fs} key : struct_ok fs zero = true -> scannable = true -> key <> "" ->
  hasTopLevelKey (json_print (c_enc c zero)) key = emitted key.
Proof.
  intros Hok Hs Hkey. cbn [struct c_enc]. unfold enc_struct.
  rewrite hasTopLevelKey_print by (exact (law_wf c zero Hok)). unfold emitted.
  apply eq_true_iff_eq. rewrite bool_decide_eq_true, existsb_exists, list_elem_of_In. unfold collected, scannable in *.
  rewrite in_flat_map, forallb_forall in *. split.
  - intros ([n v] & Hin & Hk). apply in_flat_map in Hin as (f & Hf & Hin). unfold enc_field in Hin.
    destruct (field_omitted f zero) eqn:E; [done|]. destruct Hin as [[= <- <-]|[]].
    specialize (Hs f Hf). apply andb_true_iff in Hs as [Hraw%bool_decide_eq_true Hstr].
    cbn [fst snd] in Hk. destruct Hk as [Hk|Hk].
    + exists f. split; [done|]. rewrite E, bool_decide_true by congruence. done.
    + destruct (c_enc (f_codec f) (f_get f zero)); try done. cbn [string_value In] in Hk. destruct Hk as [Hk|[]].
      apply is_empty_true in Hstr. by subst.
  - intros (f & Hf & Hn). rewrite andb_true_iff, bool_decide_eq_true, negb_true_iff in Hn. destruct Hn as [<- Hn].
    exists (f_name f, c_enc (f_codec f) (f_get f zero)). split.
    + apply in_flat_map. exists f. split; [done|]. unfold enc_field. rewrite Hn. by left.
    + left. specialize (Hs f Hf). cbn [fst]. rewrite andb_true_iff, bool_decide_eq_true in Hs. apply Hs.
Qed.

(** One report per key the check objects to, in their order. *)
Lemma reports_filter (P : string -> bool) (Q : string -> bool) (r : string -> report) keys :
  (forall k, k ∈ keys -> P k = Q k) ->
  flat_map (fun k => if P k then [r k] else []) keys = map r (List.filter Q keys).
Proof.
  induction keys as [|k keys IH]; intros H; [done|]. cbn [flat_map List.filter].
  rewrite (H k) by (by left). rewrite IH by (intros k' Hk'; apply H; by right). by destruct (Q k).
Qed.

End Struct.


(** * Properties *)

(** The key checks are exact. For a struct whose zero value prints no string but
    empty ones and whose names need no escape, [AssertOmitemptyZero] reports those of
    the forbidden keys that name a field printed at zero, one report each and in their
    order, and [AssertRequiredEmits] those of the required keys that do not. *)
Theorem key_checks_exact {A} (zero : A) (fs : list (field_decl A)) `{!Prints fs} keys :
  struct_ok fs zero = true -> scannable zero fs = true -> "" ∉ keys ->
  AssertOmitemptyZero (struct zero fs) keys =
    map (fun k => Errorf "zero-value %T emitted forbidden key %q (missing ,omitempty?)" [AStr k])
      (List.filter (emitted zero fs) keys) /\
  AssertRequiredEmits (struct zero fs) keys =
    map (fun k => Errorf "zero-value %T omitted required key %q (stray ,omitempty?)" [AStr k])
      (List.filter (fun k => negb (emitted zero fs k)) keys).
Proof.
  intros Hok Hs Hkeys. assert (Hz : forall k, k ∈ keys -> hasTopLevelKey (json_print (c_enc (struct zero fs) zero)) k = emitted zero fs k).
  { intros k Hk. apply hasTopLevelKey_zero; [done..|]. by intros ->. }
  unfold AssertOmitemptyZero, AssertRequiredEmits. cbn [struct c_zero]. rewrite Marshal_struct.
  split; apply reports_filter; intros k Hk; by rewrite Hz.
Qed.

(** The harness's own test of [RefundParam], with one key forbidden. *)
Lemma key_checks_exact_witness :
  AssertOmitemptyZero RefundParam_json ["quantity"; "subOrders"] =
    [Errorf "zero-value %T emitted forbidden key %q (missing ,omitempty?)" [AStr "subOrders"]] /\
  AssertRequiredEmits RefundParam_json ["quantity"; "subOrders"] =
    [Errorf "zero-value %T omitted required key %q (stray ,omitempty?)" [AStr "quantity"]].
Proof.
  assert (H : "" ∉ ["quantity"; "subOrders"]) by (apply (bool_decide_unpack _); vm_compute; exact I).
  exact (key_checks_exact (c_zero RefundParam_json) RefundParam_fields ["quantity"; "subOrders"]
    ltac:(vm_compute; reflexivity) ltac:(vm_compute; reflexivity) H).
Defined.

(** The amount check is exact. On a value that prints, the token walk ends within its
    fuel and reports the first number, in document order and at any depth (array
    elements belong to the member of their array), that stands at an amount key with a
    point or an exponent; nothing is reported exactly when there is none. *)
Theorem AssertAmountKeysAreInteger_spec {A} (zero : A) (fs : list (field_decl A)) `{!Schema zero fs} v keys :
  c_ok (struct zero fs) v = true -> (c_depth (struct zero fs) <= maxNestingDepth)%nat ->
  AssertAmountKeysAreInteger (struct zero fs) v keys =
    match first_float keys "" (c_enc (struct zero fs) v) with
    | Some (k, n) => [Errorf "R12: amount key %q rendered as float/exp: %s" [AStr k; AStr n]]
    | None => []
    end /\
  (AssertAmountKeysAreInteger (struct zero fs) v keys = [] <->
   forall k n, number_at "" (c_enc (struct zero fs) v) k n -> k ∈ keys -> ContainsAny n float_marks = false).
Proof.
  intros Hok Hd. assert (AssertAmountKeysAreInteger (struct zero fs) v keys =
    match first_float keys "" (c_enc (struct zero fs) v) with
    | Some (k, n) => [Errorf "R12: amount key %q rendered as float/exp: %s" [AStr k; AStr n]]
    | None => []
    end) as H.
  { unfold AssertAmountKeysAreInteger. rewrite Marshal_struct. pose proof (law_depth (struct zero fs) v Hok).
    rewrite json_parse_print by first [by apply (law_wf (struct zero fs))|lia]. cbv zeta.
    pose proof (walk_value (c_enc (struct zero fs) v) (2 * length (tokens (c_enc (struct zero fs) v)) + 1)%nat keys "" []) as Hw.
    rewrite app_nil_r in Hw. rewrite Hw by lia. by destruct (first_float _ _ _) as [[k n]|]. }
  split; [exact H|]. rewrite H, <- first_float_None. by destruct (first_float _ _ _) as [[k n]|].
Qed.

Definition sample_changes : CommerceAccountChanges :=
  mkCommerceAccountChanges "u-1" "NORMAL" "" (-5) 0 0 int64_max 0 0 1.

Lemma AssertAmountKeysAreInteger_spec_witness :
  AssertAmountKeysAreInteger CommerceAccountChanges_json sample_changes ["totalCreditChange"] = [] /\
  (AssertAmountKeysAreInteger CommerceAccountChanges_json sample_changes ["totalCreditChange"] = [] <->
   forall k n, number_at "" (c_enc CommerceAccountChanges_json sample_changes) k n ->
     k ∈ ["totalCreditChange"] -> ContainsAny n float_marks = false).
Proof.
  exact (AssertAmountKeysAreInteger_spec (c_zero CommerceAccountChanges_json) CommerceAccountChanges_fields
    sample_changes ["totalCreditChange"] ltac:(vm_compute; reflexivity) ltac:(apply Nat.leb_le; vm_compute; reflexivity)).
Defined.


(** [payment.SkuInfo], its slice with its nil. *)
Record GoSkuInfo := mkGoSkuInfo {
  gsk_SkuID : string; gsk_SkuName : string; gsk_CategoryID : string; gsk_CategoryOneName : string;
  gsk_CategoryCodes : option (list string); gsk_Quantity : Z; gsk_Amount : Amount;
}.
Definition GoSkuInfo_fields : list (field_decl GoSkuInfo) :=
  [ "skuId" ~> gsk_SkuID as str omitempty; "skuName" ~> gsk_SkuName as str omitempty;
    "categoryId" ~> gsk_CategoryID as str omitempty; "categoryOneName" ~> gsk_CategoryOneName as str omitempty;
    "categoryCodes" ~> gsk_CategoryCodes as (nslice str) omitempty;
    "quantity" ~> gsk_Quantity as int omitempty; "amount" ~> gsk_Amount as int omitempty ].
Definition GoSkuInfo_json : codec GoSkuInfo := struct (mkGoSkuInfo "" "" "" "" None 0 0) GoSkuInfo_fields.
#[export] Instance GoSkuInfo_struct : GoStruct (c_zero GoSkuInfo_json) GoSkuInfo_fields.
Proof. go_struct. Qed.
#[export] Instance GoSkuInfo_equal : FieldsEqual GoSkuInfo_fields.
Proof. unfold GoSkuInfo_fields. apply _. Defined.
#[export] Instance GoSkuInfo_settle : FieldsSettle GoSkuInfo_fields.
Proof. unfold GoSkuInfo_fields, GoSkuInfo_equal. apply _. Defined.



(** ** Amounts with a fraction *)

(** The decoder refuses a literal into a field of the type. *)
Definition refuses {B} (c : codec B) (n : string) : Prop := forall d old, (c_decode c d (JNum n) old).2 = false.

Lemma pv_marks a s : existsb (fun c => bool_decide (c ∈ float_marks)) (chars s) = true -> pv a s = None.
Proof.
  revert a. induction s as [|c s IH]; intros a; [done|]. cbn [chars existsb pv].
  destruct (is_digit c) eqn:E; [|done]. intros [H|H]%orb_true_iff; [|by apply IH].
  assert (Hx : implb (bool_decide (c ∈ float_marks)) (negb (is_digit c)) = true)
    by (clear; revert c; apply ascii_check; vm_compute; reflexivity).
  by rewrite H, E in Hx.
Qed.

Lemma int_refuses n : ContainsAny n float_marks = true -> refuses int n.
Proof.
  intros Hn d old. cbn [int c_decode dec_int64]. assert (ParseInt n = None) as ->; [|done].
  assert (Hpv : forall a, pv a n = None) by (intros a; by apply pv_marks).
  unfold ParseInt. destruct n as [|c s]; [done|].
  destruct (bool_decide (c = "-"%char)) eqn:E.
  - apply bool_decide_eq_true in E as ->. unfold ContainsAny in Hn. cbn [chars existsb] in Hn.
    apply orb_true_iff in Hn as [H|H]; [done|]. by rewrite pv_marks.
  - apply bool_decide_eq_false in E.
    assert (match String c s with String "-" s => Z.opp <$> pv 0 s | _ => pv 0 (String c s) end = pv 0 (String c s)) as ->.
    { destruct c as [[] [] [] [] [] [] [] []]; try done. }
    by rewrite Hpv.
Qed.

(** A document with such a literal at a field that refuses it is rejected, wherever the
    member stands. *)
Lemma fractional_rejected {A} (zero : A) (fs : list (field_decl A)) b ms k n f :
  json_parse b = Some (JObj ms) -> (k, JNum n) ∈ ms -> NoDup (map f_name fs) -> f ∈ fs ->
  field_for (map f_name fs) k = Some (f_name f) -> refuses (f_codec f) n ->
  AssertRejectsFractionalAmount (struct zero fs) b = [].
Proof.
  intros Hb Hk Hnd Hf Hn Hr. unfold AssertRejectsFractionalAmount. assert (Decode (struct zero fs) b = None) as ->; [|done].
  unfold json_parse in Hb. unfold Decode. destruct (parse _ _ _ _) as [[v rest]|]; [|done].
  destruct (skip_ws rest); [|done]. injection Hb as ->. cbn [struct c_decode c_zero]. unfold decode_struct.
  set (step := fun st kv => _).
  assert (Hfalse : forall ms a, (fold_left step ms (a, false)).2 = false).
  { intros l. induction l as [|[k' v'] l IH]; intros a; [done|]. cbn [fold_left fst snd]. unfold step at 2. cbn [fst snd].
    destruct (field_for _ k') as [n'|]; [|apply IH]. destruct (dec_member _ _ _ _ _). apply IH. }
  assert (H : forall a ok, (fold_left step ms (a, ok)).2 = false).
  { clear - Hk Hnd Hf Hn Hr Hfalse. induction ms as [|[k' v'] l IH]; intros a ok; [by apply not_elem_of_nil in Hk|].
    apply elem_of_cons in Hk as [[= <- <-]|Hk].
    - cbn [fold_left]. unfold step at 2. cbn [fst snd]. rewrite Hn. unfold dec_member. rewrite find_name by done.
      unfold dec_field. specialize (Hr strict (f_get f a)). destruct (c_decode _ _ _ _) as [x okx]. cbn [snd] in Hr.
      rewrite Hr, andb_false_r. apply Hfalse.
    - cbn [fold_left]. destruct (step (a, ok) (k', v')) as [a' ok']. by apply IH. }
  specialize (H zero true). destruct (fold_left step ms (zero, true)) as [a ok]. cbn [snd] in H. by rewrite H.
Qed.

(** ** Examples *)

(** A string value is taken for a key. *)
Example string_value_is_a_key : hasTopLevelKey ("{" +:+ dqs "code" +:+ ":" +:+ dqs "message" +:+ "}") "message" = true.
Proof. vm_compute. reflexivity. Qed.

(** A closing brace or bracket after the value is not seen. *)
Example trailing_brace :
  Decode RefundExtendInfo_json "{}}" = Some (mkRefundExtendInfo "") /\ Decode RefundExtendInfo_json "{}{" = None.
Proof. split; vm_compute; reflexivity. Qed.
