(* ===== verification/Program.v ===== *)
(** * Program: what the command-line programs under [examples] share.

    A program prints lines, performs effects and may stop ([log.Fatalf], [os.Exit]).
    Environment variables and files are parameters. *)
From S2P Require Import Prelude GoStd Errors GoCrypto GoHttp Transport World Callback.

(** [os.Getenv] and [os.ReadFile] *)
Class OS := { Getenv : string -> string; ReadFile : string -> res string }.

(** How a program stops before the end of [main]. *)
Inductive stop :=
| LogFatalf (format : string) (args : list (fmt_arg error))
| OSExit (code : Z).

(** The lines printed, and the value or the stop. *)
Definition Program (A : Type) : Type := M (list string * result stop A).

Definition done_with {A} (a : A) : Program A := ret ([], Ok a).
Definition halt {A} (s : stop) : Program A := ret ([], Err s).
Definition say (lines : list string) : Program unit := ret (lines, Ok tt).
Definition perform {A} (m : M A) : Program A := let! a := m in ret ([], Ok a).
Definition or_stop {A} (r : result stop A) : Program A := ret ([], r).

Definition then_do {A B} (m : Program A) (k : A -> Program B) : Program B :=
  let! o := m in
  match o.2 with
  | Err s => ret (o.1, Err s)
  | Ok a => let! o' := k a in ret (o.1 ++ o'.1, o'.2)
  end.

Notation "'do!' x ':=' m 'in' k" := (then_do m (fun x => k))
  (at level 10, x pattern, m at level 99, k at level 200) : go_scope.

Section Environment.
Context {O : OS}.

Definition mustEnv (key : string) : result stop string :=
  let v := Getenv key in
  if is_empty v then Err (LogFatalf "required environment variable %s is empty" [AStr key]) else Ok v.

Definition envOr (key fallback : string) : string := if is_empty (Getenv key) then fallback else Getenv key.

Definition envInt64 (key : string) (fallback : Z) : result stop Z :=
  let v := Getenv key in
  if is_empty v then Ok fallback
  else match strconv_ParseInt v with
       | Some n => Ok n
       | None => Err (LogFatalf "env %s: %v" [AStr key; AErr (EStd "*strconv.NumError")])
       end.

End Environment.

(** * Lemmas *)

(** What a program does, from what its parts do. *)
Lemma extends_then_do {A B} (m : Program A) (k : A -> Program B) P Q (S : nat -> list string * result stop B -> list event -> Prop) :
  extends m P ->
  (forall a, (exists i l es, P i (l, Ok a) es) -> extends (k a) (Q a)) ->
  (forall i l s es, P i (l, Err s) es -> S i (l, Err s) es) ->
  (forall i l a es o es', P i (l, Ok a) es -> Q a (i + length (effects es))%nat o es' -> S i (l ++ o.1, o.2) (es ++ es')) ->
  extends (then_do m k) S.
Proof.
  intros Hm Hk Hs Ho. eapply extends_bind; [exact Hm|]. intros [l [a|s]] (j & es0 & HP0); cbn [fst snd].
  - eapply extends_bind; [apply Hk; by exists j, l, es0|]. intros o _. apply extends_ret. intros n n' es' -> HQ n0 es -> HP.
    rewrite app_nil_r. eapply Ho; eauto.
  - apply extends_ret. intros n n' es -> HP. rewrite app_nil_r. by apply Hs.
Qed.

Lemma extends_perform {A} (m : M A) P :
  extends m P -> extends (perform m) (fun i o es => exists a, o = ([], Ok a) /\ P i a es).
Proof.
  intros Hm. eapply extends_bind; [exact Hm|]. intros a _. apply extends_ret. intros n n' es -> HP.
  rewrite app_nil_r. by exists a.
Qed.

Lemma extends_say lines : extends (say lines) (fun _ o es => o = (lines, Ok tt) /\ es = []).
Proof. by apply extends_ret. Qed.

Lemma extends_or_stop {A} (r : result stop A) : extends (or_stop r) (fun _ o es => o = ([], r) /\ es = []).
Proof. by apply extends_ret. Qed.
