(* ===== verification/AuthCapture.v ===== *)
(** * AuthCapture: [examples/auth_capture/main.go], an authorisation and, when it
    succeeds and the environment asks for it, its capture. *)
From S2P Require Import Prelude GoStd Errors Canonical GoCrypto Sign GoHttp Json Codec Schema Transport World.
From S2P Require Import Client Doer Service PaymentTypes PaymentRules Payment Conformance Program.

Section AuthCapture.
Context {O : OS} {R : RSA} {X : X509} {U : URLParse} {RT : Runtime} {E : Env} {FC : FloatConv}.

(** The client's options, from the environment. *)
Definition client_options (priv : string) : result stop (list (option Option)) :=
  let opts := [Some (WithPrivateKeyPEM priv [])] in
  let partnerID := Getenv "ATOME_FIN_PARTNER_ID" in
  let opts := if is_empty partnerID then opts else opts ++ [Some (WithPartnerID partnerID)] in
  let base := Getenv "ATOME_FIN_BASE_URL" in
  if negb (is_empty base) then Ok (opts ++ [Some (WithBaseURL base)])
  else
    let name := Getenv "ATOME_FIN_ENV" in
    if bool_decide (name = "prod") then Ok (opts ++ [Some (WithEnvironment EnvProd)])
    else if bool_decide (name = "pre") || is_empty name then Ok (opts ++ [Some (WithEnvironment EnvPre)])
    else Err (LogFatalf "ATOME_FIN_ENV=%q: want pre or prod" [AStr name]).

Definition buildExtendInfo (amount : Z) : RequestExtendInfo :=
  mkRequestExtendInfo OrderTypeGrabFood (envOr "ATOME_FIN_CREDIT_PROFILE" ("{" +:+ dqs "score" +:+ ":720}"))
    (Some (mkDeviceInfo PlatformAndroid None
       (Some (mkDeviceProfile "dev-demo" "gaid-demo" "" "" "utdid-demo" None ""
          (Some (mkBuildInfo "sdm845" "xiaomi" "" "dipper" "Xiaomi" "MI 8" "dipper"))))
       [mkWifiAP "ssid-demo"] (Some (mkIPAddress "10.0.0.2" "203.0.113.7"))))
    (Some (mkAddress (Some (mkShippingAddress "" "Jakarta" "" "Jl. Sudirman No. 1" ""))
       "Budi Santoso" "+6281234567890"))
    None
    [mkMainOrderExtendInfo "merchant-1" "" [mkSkuInfo "sku-1" "" "" "" [] 0 amount]].

(** The request, its variables read in the order of the composite literal. *)
Definition auth_request : result stop AuthRequest :=
  let* total := envInt64 "ATOME_FIN_TOTAL_AMOUNT" 1500000 in
  let* period := envInt64 "ATOME_FIN_PERIOD_TYPE" 3 in
  let* sessionid := mustEnv "ATOME_FIN_SESSION_ID" in
  Ok (mkAuthRequest "" (envOr "ATOME_FIN_EXTERNAL_UID" "user-42") total period
        [mkSubOrder "so-1" "merchant-1" "Demo merchant" "RETAIL" "" total None]
        (Some (buildExtendInfo total)) sessionid).

(** [main] up to the first call. *)
Definition setup : result stop (Client * AuthRequest) :=
  let* privPath := mustEnv "ATOME_FIN_PRIV_KEY_PEM" in
  match ReadFile privPath with
  | Err err => Err (LogFatalf "read private key %q: %v" [AStr privPath; AErr err])
  | Ok priv =>
      let* opts := client_options priv in
      match New opts with
      | Err err => Err (LogFatalf "atomefin.New: %v" [AErr err])
      | Ok c => let* req := auth_request in Ok (c, req)
      end
  end.

Definition auth_report (req : AuthRequest) (resp : AuthResponse) : list string :=
  ["---- /auth ----"; "requestId   : " +:+ aq_RequestID req; "envelope.code: " +:+ ar_Code resp] ++
  match ar_Data resp with
  | None => []
  | Some d =>
      ["authOrderId : " +:+ ad_AuthOrderID d; "status      : " +:+ ad_Status d] ++
      (if is_empty (ad_FailureCode d) then [] else ["failureCode : " +:+ ad_FailureCode d])
  end.

Definition capture_request (req : AuthRequest) (d : AuthorizationData) : CaptureRequest :=
  mkCaptureRequest "" (aq_ExternalReferenceUID req) (ad_AuthOrderID d) (aq_TotalAmount req) (aq_PeriodType req)
    (aq_SubOrders req) (aq_ExtendInfo req).

Definition capture_report (req : CaptureRequest) (resp : CaptureResponse) : list string :=
  [""; "---- /capture ----"; "requestId   : " +:+ cq_RequestID req; "envelope.code: " +:+ cr_Code resp] ++
  match cr_Data resp with
  | None => []
  | Some d =>
      ["orderId     : " +:+ pr_OrderID (crd_PaymentResult d); "authOrderId : " +:+ crd_AuthOrderID d;
       "status      : " +:+ pr_Status (crd_PaymentResult d)]
  end.

(** The capture of a successful authorisation. *)
Definition capture (c : Client) (ctx : context) (req : AuthRequest) (d : AuthorizationData) : Program unit :=
  let q := capture_request req d in
  do! out := perform (Capture (service_of c) ctx (Some q)) in
  match out.1 with
  | Err err => halt (LogFatalf "capture: %v" [AErr err])
  | Ok resp => say (capture_report (default q out.2) resp)
  end.

(** What follows the answer of [/auth]. *)
Definition after_auth (c : Client) (ctx : context) (req : AuthRequest) (resp : AuthResponse) : Program unit :=
  do! _ := say (auth_report req resp) in
  if negb (AuthResponse_IsTerminal (Some resp)) then
    say ["status is PROCESSING — call AuthPollUntilTerminal or wait for callback."]
  else match ar_Data resp with
  | None => done_with tt
  | Some d =>
      if negb (bool_decide (ad_Status d = StatusSuccess)) then done_with tt
      else if negb (bool_decide (Getenv "ATOME_FIN_RUN_CAPTURE" = "1")) then
        say [""; "(set ATOME_FIN_RUN_CAPTURE=1 to also issue /capture)"]
      else capture c ctx req d
  end.

(** The two calls, under the program's 30 seconds. *)
Definition pay (c : Client) (ctx : context) (req : AuthRequest) : Program unit :=
  do! out := perform (Auth (service_of c) ctx (Some req)) in
  match out.1 with
  | Err err => halt (LogFatalf "auth: %v" [AErr err])
  | Ok resp => after_auth c ctx (default req out.2) resp
  end.

Definition main : Program unit :=
  do! st := or_stop setup in
  do! now := perform get_now in
  pay st.1 (WithTimeout Background now (30 * Second)) st.2.

End AuthCapture.

(** * Specification *)

Section Spec.
Context {O : OS} {R : RSA} {X : X509} {U : URLParse} {RT : Runtime} {E : Env} {FC : FloatConv}.

(** Whether the answer of [/auth] is followed by a capture, and of what. *)
Definition asks_capture (r : res AuthResponse) : option AuthorizationData :=
  match r with
  | Ok resp =>
      match ar_Data resp with
      | Some d => if decide (ad_Status d = StatusSuccess /\ Getenv "ATOME_FIN_RUN_CAPTURE" = "1") then Some d else None
      | None => None
      end
  | Err _ => None
  end.

Definition authorised (c : Client) (req : AuthRequest) (i : nat) (r : res AuthResponse) (q : AuthRequest) (es : list event) : Prop :=
  submitted AuthRequest_json AuthResponse_json c "/auth" aq_RequestID set_aq_RequestID (pure_check validateAuthRequest)
    (fun q => sessionid_header (aq_Sessionid q)) req i (r, Some q) es.

Definition captured (c : Client) (req : CaptureRequest) (i : nat) (r : res CaptureResponse) (q : CaptureRequest) (es : list event) : Prop :=
  submitted CaptureRequest_json CaptureResponse_json c "/capture" cq_RequestID set_cq_RequestID
    (pure_check validateCaptureRequest) (fun _ => []) req i (r, Some q) es.

(** How the program ends. *)
Definition ends (r : res AuthResponse) (r' : option (res CaptureResponse)) : result stop unit :=
  match r, r' with
  | Err err, _ => Err (LogFatalf "auth: %v" [AErr err])
  | Ok _, Some (Err err) => Err (LogFatalf "capture: %v" [AErr err])
  | Ok _, _ => Ok tt
  end.

Definition paid (c : Client) (req : AuthRequest) (i : nat) (out : list string * result stop unit) (es : list event) : Prop :=
  exists r q es1 es2, es = es1 ++ es2 /\ authorised c req i r q es1 /\
    match asks_capture r with
    | None => es2 = [] /\ out.2 = ends r None
    | Some d => exists r' q', captured c (capture_request q d) (i + length (effects es1))%nat r' q' es2 /\
                              out.2 = ends r (Some r')
    end.

(** ** Lemmas *)

Lemma client_options_sdk priv opts : client_options priv = Ok opts ->
  Forall (fun o => forall f, o = Some f -> sdk_option f) opts.
Proof.
  unfold client_options. intros H. cbv zeta in H. repeat case_match; simplify_eq; cbn [app];
    repeat (apply Forall_cons_2; [intros f [= <-]; constructor|]); apply Forall_nil_2.
Qed.

Lemma setup_ready c req : setup = Ok (c, req) -> client_ready c.
Proof.
  unfold setup. intros H. destruct (mustEnv _) as [path|]; [|done]. cbn [result_bind] in H.
  destruct (ReadFile path) as [priv|]; [|done]. destruct (client_options priv) as [opts|] eqn:Eo; [|done]. cbn [result_bind] in H.
  destruct (New opts) as [c'|] eqn:En; [|done]. destruct auth_request; [|done]. injection H as <- _.
  eapply New_ready; [by eapply client_options_sdk|done].
Qed.

(** A submitting call hands its request back. *)
Lemma submitted_Some {I P} (ci : codec I) (co : codec P) c op getID setID validate opts req i out es :
  submitted ci co c op getID setID validate opts req i out es -> exists q, out.2 = Some q.
Proof. intros (q & ids & es' & _ & _ & Hq & _). by eexists. Qed.

Lemma capture_runs c ctx req d : client_ready c ->
  extends (capture c ctx req d) (fun i out es => exists r' q', captured c (capture_request req d) i r' q' es /\
    out.2 = match r' with Err err => Err (LogFatalf "capture: %v" [AErr err]) | Ok _ => Ok tt end).
Proof.
  intros Hc. unfold capture. eapply (extends_then_do _ _ _ (fun a _ o es => es = [] /\
    o.2 = match a.1 with Err err => Err (LogFatalf "capture: %v" [AErr err]) | Ok _ => Ok tt end)).
  - apply extends_perform. apply (submit_submitted CaptureRequest_json CaptureResponse_json _ _ cq_RequestID set_cq_RequestID
      (pure_check validateCaptureRequest) _ c "/capture" (fun _ => []) (capture_request req d) eq_refl).
    intros q. by apply invoke_posted.
  - intros [[r|err] q] _; by apply extends_ret.
  - intros i l s es (a & [=] & _).
  - intros i l a es o es' (a' & [= -> ->] & Hs) [-> Ho]. destruct (submitted_Some _ _ _ _ _ _ _ _ _ _ _ _ Hs) as (q & Hq).
    destruct a' as [r q0]. cbn [fst snd] in *. subst q0. exists r, q. rewrite app_nil_r. by split.
Qed.

Lemma after_auth_runs c ctx req resp : client_ready c ->
  extends (after_auth c ctx req resp) (fun i out es =>
    match asks_capture (Ok resp) with
    | None => es = [] /\ out.2 = Ok tt
    | Some d => exists r' q', captured c (capture_request req d) i r' q' es /\ out.2 = ends (Ok resp) (Some r')
    end).
Proof.
  intros Hc. unfold after_auth. eapply (extends_then_do _ _ _ (fun _ i out es =>
      match asks_capture (Ok resp) with
      | None => es = [] /\ out.2 = Ok tt
      | Some d => exists r' q', captured c (capture_request req d) i r' q' es /\ out.2 = ends (Ok resp) (Some r')
      end)); [apply extends_say| | |].
  - intros [] _. unfold asks_capture. destruct (ar_Data resp) as [d|] eqn:Ed.
    + unfold AuthResponse_IsTerminal, AuthResponse_Status, status_terminal. rewrite Ed. destruct (decide (ad_Status d = StatusSuccess)) as [Es|Es].
      * assert (Status_IsTerminal (ad_Status d) = true) as -> by (by rewrite Es). cbn [negb].
        rewrite (bool_decide_true _ Es). cbn [negb].
        destruct (decide (Getenv "ATOME_FIN_RUN_CAPTURE" = "1")) as [Er|Er].
        -- rewrite decide_True by done. rewrite bool_decide_true by done. cbn [negb].
           eapply extends_mono; [by apply capture_runs|]. intros i out es (r' & q' & Hs & Ho). exists r', q'.
           split; [done|]. rewrite Ho. by destruct r'.
        -- rewrite decide_False by naive_solver. rewrite bool_decide_false by done. cbn [negb]. by apply extends_ret.
      * rewrite decide_False by naive_solver. rewrite (bool_decide_false _ Es). destruct (negb _); by apply extends_ret.
    + destruct (negb _); by apply extends_ret.
  - intros i l s es [[=] _].
  - intros i l a es o es' [[= -> _] ->] Ho. cbn [length effects List.filter snd app] in *. by rewrite Nat.add_0_r in Ho.
Qed.

Lemma pay_runs c ctx req : client_ready c -> extends (pay c ctx req) (paid c req).
Proof.
  intros Hc. unfold pay. eapply (extends_then_do _ _ _ (fun a i o es =>
      match asks_capture a.1 with
      | None => es = [] /\ o.2 = ends a.1 None
      | Some d => exists r' q', captured c (capture_request (default req a.2) d) i r' q' es /\ o.2 = ends a.1 (Some r')
      end)).
  - apply extends_perform. apply (submit_submitted AuthRequest_json AuthResponse_json _ _ aq_RequestID set_aq_RequestID
      (pure_check validateAuthRequest) _ c "/auth" (fun q => sessionid_header (aq_Sessionid q)) req eq_refl).
    intros q. by apply invoke_posted.
  - intros [[resp|err] q] _; cbn [fst snd]; [by apply after_auth_runs|by apply extends_ret].
  - intros i l s es (a & [=] & _).
  - intros i l a es o es' (a' & [= -> ->] & Hs) Ho. destruct (submitted_Some _ _ _ _ _ _ _ _ _ _ _ _ Hs) as (q & Hq).
    destruct a' as [r q0]. cbn [fst snd] in *. subst q0. exists r, q, es, es'. split; [done|]. by split.
Qed.

End Spec.

(** * Properties *)

(** C25.  What the example does, whatever the environment, the network and the options it
    reads. It stops before any effect when its setup fails. Otherwise it submits one
    authorisation; a capture follows exactly when the answer has data with the status
    SUCCESS and the environment asks for it, and it captures that order, with the
    amount, tenor, orders and risk data of the request that was authorised. A failed
    call ends the program with its error. *)
Theorem auth_capture_spec {O : OS} {R : RSA} {X : X509} {U : URLParse} {RT : Runtime} {E : Env} {FC : FloatConv} :
  extends main (fun i out es =>
    match setup with
    | Err s => out = ([], Err s) /\ es = []
    | Ok (c, req) => paid c req i out es
    end).
Proof.
  unfold main. destruct setup as [[c req]|s] eqn:Es.
  - apply setup_ready in Es as Hc. eapply (extends_then_do _ _ _ (fun _ i out es => paid c req i out es)); [apply extends_or_stop| | |].
    + intros st (i & l & es & [= _ ->] & _). cbn [fst snd].
      eapply (extends_then_do _ _ _ (fun _ i out es => paid c req i out es)).
      * apply extends_perform. by apply (extends_get_now (fun _ _ es => es = [])).
      * intros t _. by apply pay_runs.
      * intros i' l' s' es' (a & [=] & _).
      * intros i' l' a es' o es'' (a' & [= -> ->] & ->) Ho. by rewrite Nat.add_0_r in Ho.
    + intros i l s es [[=] _].
    + intros i l a es o es' [[= -> _] ->] Ho. by rewrite Nat.add_0_r in Ho.
  - eapply (extends_then_do _ _ _ (fun _ _ _ _ => False)); [apply extends_or_stop| | |].
    + by intros st (i & l & es & [=] & _).
    + by intros i l s' es [[= -> ->] ->].
    + by intros i l a es o es' [[=] _].
Qed.

(** The request the program builds passes the SDK's checks of [/auth] and not those of
    the pinned specification, which asks for [isRoot] (with the default total, and with
    any). *)
Example example_below_specification {O : OS} total : ~ risk_data (Some (buildExtendInfo total)).
Proof. rewrite risk_data_Some. intros [_ (di & dp & b & [= <-] & [= <-] & [=]) _]. Qed.

Definition default_OS : OS := {|
  Getenv k := if bool_decide (k = "ATOME_FIN_SESSION_ID") then "s-1" else "";
  ReadFile _ := Ok "" |}.
Example example_validates :
  match @auth_request default_OS with
  | Ok req => validateAuthRequest (set_aq_RequestID "r-1" req)
  | Err _ => Some (ENew "")
  end = None.
Proof. vm_compute. reflexivity. Qed.
