(* ===== verification/CreditPre.v ===== *)
(** * CreditPre: [examples/credit_information_pre/main.go], a hand-written
    [/credit-information] call: the request is encrypted and signed with the packages
    [encrypt] and [sign], printed as a [curl] command and sent with [http.Client]. *)
From S2P Require Import Prelude GoStd Errors Canonical GoCrypto Sign Encrypt GoHttp Json Codec Schema Transport World.
From S2P Require Import Client Doer Gateway Service CreditTypes Credit Callback Program.

(** ** Errors by type *)



(** ** The curl command *)

(** [strings.ReplaceAll] of one character *)
Fixpoint replace_char (c : ascii) (by_ : string) (s : string) : string :=
  match s with
  | EmptyString => EmptyString
  | String d s => (if bool_decide (d = c) then by_ else String d "") +:+ replace_char c by_ s
  end.

Definition shellQuote (s : string) : string := "'" +:+ replace_char "'" "'\''" s +:+ "'".

Record wireRequest := mkWireRequest {
  wr_URL : string; wr_PlainJSON : string; wr_EncryptedBody : string; wr_EncryptHeader : string;
  wr_Authorization : string; wr_UserAgent : string;
}.

Definition printCurl (w : wireRequest) : list string :=
  [ "---- curl (copy/paste) ----";
    "# plaintext JSON (signed input is the AES-encrypted body below, not this):";
    "# " +:+ wr_PlainJSON w;
    "curl --request POST \";
    "  --url " +:+ shellQuote (wr_URL w) +:+ " \";
    "  --header " +:+ shellQuote "Content-Type: application/json" +:+ " \";
    "  --header " +:+ shellQuote ("User-Agent: " +:+ wr_UserAgent w) +:+ " \";
    "  --header " +:+ shellQuote ("Encrypt: " +:+ wr_EncryptHeader w) +:+ " \";
    "  --header " +:+ shellQuote ("Authorization: " +:+ wr_Authorization w) +:+ " \";
    "  --data-raw " +:+ shellQuote (wr_EncryptedBody w);
    "" ].

Section CreditPre.
Context {O : OS} {T : Texts} {R : RSA} {X : X509} {A : AES} {RT : Runtime} {E : Env}.







(** The request of [dispatchWireRequest]. *)
Definition wire_http (wire : wireRequest) (ctx : context) : http_request :=
  let h := Header_Set ∅ "Content-Type" "application/json" in
  let h := Header_Set h "User-Agent" (wr_UserAgent wire) in
  let h := Header_Set h "Encrypt" (wr_EncryptHeader wire) in
  let h := Header_Set h "Authorization" (wr_Authorization wire) in
  mkRequest "POST" (wr_URL wire) "" h (Some (wr_EncryptedBody wire)) ctx.













End CreditPre.

(** * Specification *)

(** The first command of a text, read as a POSIX shell reads it: the words are separated
    by blanks, quotation marks take everything up to the next one, a backslash takes the
    next character and a backslash at the end of a line continues it.  A character the
    shell may treat specially is not accepted outside quotation marks. *)
Inductive sh_state := Blank | Word (w : string) | Quoted (w : string).

Definition sh_word (st : sh_state) : string := match st with Blank => "" | Word w | Quoted w => w end.

Definition sh_ordinary (c : ascii) : bool :=
  let n := byte_of c in
  ((48 <=? n) && (n <=? 57)) || ((65 <=? n) && (n <=? 90)) || ((97 <=? n) && (n <=? 122)) || bool_decide (c = "-"%char).

Definition sh_end (st : sh_state) : option (list string) :=
  match st with Blank => Some [] | Word w => Some [w] | Quoted _ => None end.

Definition sh_newline : ascii := "010"%char.
Definition sh_backslash : ascii := "\"%char.

Fixpoint sh_command (st : sh_state) (s : string) : option (list string) :=
  match s with
  | EmptyString => sh_end st
  | String c s =>
      match st with
      | Quoted w => if bool_decide (c = "'"%char) then sh_command (Word w) s else sh_command (Quoted (w +:+ String c "")) s
      | _ =>
          if bool_decide (c = "'"%char) then sh_command (Quoted (sh_word st)) s
          else if bool_decide (c = sh_backslash) then
            match s with
            | EmptyString => None
            | String d s => if bool_decide (d = sh_newline) then sh_command st s
                            else sh_command (Word (sh_word st +:+ String d "")) s
            end
          else if bool_decide (c = " "%char) then
            match st with Word w => option_map (cons w) (sh_command Blank s) | _ => sh_command Blank s end
          else if bool_decide (c = sh_newline) then sh_end st
          else if sh_ordinary c then sh_command (Word (sh_word st +:+ String c "")) s
          else None
      end
  end.

(** [fmt.Println] of each line *)
Definition println (lines : list string) : string :=
  fold_right (fun l acc => l +:+ String sh_newline "" +:+ acc) "" lines.

(** The [curl] command of a request. *)
Definition curl_of (q : http_request) (body : string) : list string :=
  let header k := k +:+ ": " +:+ Header_Get (rq_Header q) k in
  ["curl"; "--request"; rq_Method q; "--url"; rq_URL q;
   "--header"; header "Content-Type"; "--header"; header "User-Agent"; "--header"; header "Encrypt";
   "--header"; header "Authorization"; "--data-raw"; body].

Section Spec.
Context {O : OS} {T : Texts} {R : RSA} {X : X509} {A : AES} {RT : Runtime} {E : Env}.





(** ** Lemmas *)

Lemma sh_quoted w s rest :
  sh_command (Quoted w) (replace_char "'" "'\''" s +:+ "'" +:+ rest) = sh_command (Word (w +:+ s)) rest.
Proof.
  revert w. induction s as [|c s IH]; intros w; cbn [replace_char].
  - by rewrite str_app_nil_r.
  - destruct (decide (c = "'"%char)) as [->|Hc].
    + rewrite bool_decide_true by done. change (sh_command (Quoted (w +:+ "'")) (replace_char "'" "'\''" s +:+ "'" +:+ rest) = sh_command (Word (w +:+ "'" +:+ s)) rest).
      by rewrite IH, str_app_assoc.
    + rewrite bool_decide_false by done. change (sh_command (Quoted w) (String c (replace_char "'" "'\''" s +:+ "'" +:+ rest)) = sh_command (Word (w +:+ String c s)) rest).
      cbn [sh_command]. rewrite bool_decide_false by done. rewrite IH, str_app_assoc. done.
Qed.

(** A quoted string is read as itself. *)
Lemma sh_shellQuote s rest : sh_command Blank (shellQuote s +:+ rest) = sh_command (Word s) rest.
Proof.
  unfold shellQuote. rewrite !str_app_assoc.
  change (sh_command (Quoted "") (replace_char "'" "'\''" s +:+ "'" +:+ rest) = sh_command (Word s) rest). apply sh_quoted.
Qed.

(** A line of an option and its value is read as two words. *)
Lemma sh_option pre opt v rest :
  (forall s, sh_command Blank (pre +:+ s) = option_map (cons opt) (sh_command Blank s)) ->
  sh_command Blank ((pre +:+ shellQuote v +:+ " \") +:+ String sh_newline "" +:+ rest) =
    option_map (cons opt) (option_map (cons v) (sh_command Blank rest)).
Proof. intros Ho. rewrite !str_app_assoc, Ho, sh_shellQuote. reflexivity. Qed.


Lemma wire_http_headers wire ctx :
  let h := rq_Header (wire_http wire ctx) in
  Header_Get h "Content-Type" = "application/json" /\ Header_Get h "User-Agent" = wr_UserAgent wire /\
  Header_Get h "Encrypt" = wr_EncryptHeader wire /\ Header_Get h "Authorization" = wr_Authorization wire.
Proof.
  cbv zeta. unfold wire_http. cbn [rq_Header]. rewrite Header_Get_Set. unfold Header_Get, Header_Set.
  repeat split; simplify_map_eq; reflexivity.
Qed.





End Spec.

(** * Properties *)


(** C29.  The [curl] command the program prints sends the program's own request: a shell
    reads its lines as one command whose words are the method, the URL, the four headers
    and the body of that request, whatever characters they contain. *)
Theorem printCurl_same_request w ctx :
  sh_command Blank (println (drop 3 (printCurl w))) = Some (curl_of (wire_http w ctx) (wr_EncryptedBody w)).
Proof.
  unfold curl_of. cbv zeta. destruct (wire_http_headers w ctx) as (-> & -> & -> & ->).
  unfold printCurl, println. cbn [drop fold_right].
  assert (H0 : forall rest, sh_command Blank ("curl --request POST \" +:+ String sh_newline "" +:+ rest) =
    option_map (cons "curl") (option_map (cons "--request") (option_map (cons "POST") (sh_command Blank rest)))) by reflexivity.
  assert (Hd : forall rest, sh_command Blank ("  --data-raw " +:+ rest) = option_map (cons "--data-raw") (sh_command Blank rest)) by reflexivity.
  rewrite H0, (sh_option _ "--url"), !(sh_option _ "--header") by reflexivity. rewrite !str_app_assoc, Hd, sh_shellQuote. reflexivity.
Qed.



