(* ===== verification/Webhook.v ===== *)
(** * Webhook: [examples/webhook_server/main.go], a receiver of the authorisation and
    capture callbacks behind the handlers of the package [callback].

    The server keeps one piece of state, the lines it has logged.  [net/http] and its
    multiplexer are outside: a request comes with its path, and [unrouted] is what the
    multiplexer answers to a path without a handler. *)
From S2P Require Import Prelude GoStd Errors GoCrypto Sign GoHttp Json Codec Schema Transport World Client.
From S2P Require Import PaymentTypes Refund Repayment Callback Program.

Section Webhook.
Context {O : OS} {T : Texts} {R : RSA} {X : X509} (unrouted : string -> inbound -> reply).

(** The loop over the paths of the certificates. *)
Fixpoint read_certs (paths : list string) : result stop (list string) :=
  match paths with
  | [] => Ok []
  | p :: paths =>
      match ReadFile p with
      | Err err => Err (LogFatalf "read cert %q: %v" [AStr p; AErr err])
      | Ok b => let* pems := read_certs paths in Ok (b :: pems)
      end
  end.

Definition cert_list (pems : list string) : result stop Verifier :=
  match FromCertPEMs pems [] with
  | Err err => Err (LogFatalf "FromCertPEMs: %v" [AErr err])
  | Ok v => Ok v
  end.

Definition buildVerifier : result stop Verifier :=
  let certs := Getenv "ATOME_FIN_ATOME_CERT_PEMS" in
  if negb (is_empty certs) then let* pems := read_certs (split_on ":" certs) in cert_list pems
  else
    let path := Getenv "ATOME_FIN_ATOME_CERT_PEM" in
    if is_empty path then
      Err (LogFatalf "set ATOME_FIN_ATOME_CERT_PEM (single cert) or ATOME_FIN_ATOME_CERT_PEMS (colon-separated, multi-cert)" [])
    else let* pems := read_certs [path] in cert_list pems.

(** The [log.Printf] of each callback *)
Definition auth_line (d : AuthorizationData) : string :=
  "[auth] requestId=" +:+ ad_RequestID d +:+ " authOrderId=" +:+ ad_AuthOrderID d +:+
  " status=" +:+ ad_Status d +:+ " failureCode=" +:+ ad_FailureCode d.

Definition capture_line (d : CaptureResultData) : string :=
  "[capture] requestId=" +:+ pr_RequestID (crd_PaymentResult d) +:+ " orderId=" +:+ pr_OrderID (crd_PaymentResult d) +:+
  " authOrderId=" +:+ crd_AuthOrderID d +:+ " status=" +:+ pr_Status (crd_PaymentResult d).

Definition onAuth (e : AuthEvent) (lines : list string) : option error * list string :=
  match ar_Data e with
  | None => (Some (EErrorf "auth callback missing data envelope" []), lines)
  | Some d => (None, lines ++ [auth_line d])
  end.

Definition onCapture (e : CaptureEvent) (lines : list string) : option error * list string :=
  match cr_Data e with
  | None => (Some (EErrorf "capture callback missing data envelope" []), lines)
  | Some d => (None, lines ++ [capture_line d])
  end.

Definition healthz : reply := mkReply 200 ∅ "ok".

(** The multiplexer: one request under a path. *)
Definition mux (v : Verifier) (path : string) (r : inbound) (lines : list string) : reply * list string :=
  if bool_decide (path = "/atome/auth") then AuthHandler (Some v) (Some onAuth) r lines
  else if bool_decide (path = "/atome/capture") then CaptureHandler (Some v) (Some onCapture) r lines
  else if bool_decide (path = "/healthz") then (healthz, lines)
  else (unrouted path r, lines).

(** [http.ListenAndServe], given the requests it serves before it fails. *)
Fixpoint ListenAndServe (v : Verifier) (requests : list (string * inbound)) (lines : list string)
    : list reply * list string :=
  match requests with
  | [] => ([], lines)
  | (path, r) :: requests =>
      let '(rp, lines) := mux v path r lines in
      let '(rps, lines) := ListenAndServe v requests lines in
      (rp :: rps, lines)
  end.

(** [main]: the replies, the lines logged and the end. *)
Definition main (requests : list (string * inbound)) (closed : error) : list reply * (list string * stop) :=
  match buildVerifier with
  | Err s => ([], ([], s))
  | Ok v =>
      let addr := envOr "ATOME_FIN_LISTEN_ADDR" ":8080" in
      let '(rps, lines) := ListenAndServe v requests
        ["atomefin webhook listening on " +:+ addr +:+ " (atome keys configured: " +:+ itoa (KeyCount (Some v)) +:+ ")"] in
      (rps, (lines, LogFatalf "listen: %v" [AErr closed]))
  end.

End Webhook.

(** * Specification *)

Section Spec.
Context {O : OS} {T : Texts} {R : RSA} {X : X509}.

(** The files of the certificates, in order. *)
Definition cert_paths : list string :=
  if is_empty (Getenv "ATOME_FIN_ATOME_CERT_PEMS") then [Getenv "ATOME_FIN_ATOME_CERT_PEM"]
  else split_on ":" (Getenv "ATOME_FIN_ATOME_CERT_PEMS").

(** An event is acknowledged and logged, once, when it is genuine and carries data; a
    genuine event without data is answered with 500, so that it is sent again; every other
    request is refused, and none of these is logged. *)
Definition acknowledged {E D} (c : codec E) (data : E -> option D) (line : D -> string) (v : Verifier)
    (r : inbound) (rp : reply) (logged : list string) : Prop :=
  (exists e d, delivers c v r e /\ data e = Some d /\ rp = writeAck 200 AckSuccess /\ logged = [line d]) \/
  (exists e, delivers c v r e /\ data e = None /\ rp_status rp = 500 /\ logged = []) \/
  ((forall e, ~ delivers c v r e) /\ rp_status rp ∈ [400; 401; 405] /\ logged = []).

Definition answered (unrouted : string -> inbound -> reply) (v : Verifier) (q : string * inbound) (rp : reply)
    (logged : list string) : Prop :=
  if decide (q.1 = "/atome/auth") then acknowledged AuthResponse_json ar_Data auth_line v q.2 rp logged
  else if decide (q.1 = "/atome/capture") then acknowledged CaptureResponse_json cr_Data capture_line v q.2 rp logged
  else logged = [] /\ rp = (if decide (q.1 = "/healthz") then mkReply 200 ∅ "ok" else unrouted q.1 q.2).

(** ** Lemmas *)

Lemma read_certs_Ok paths pems : read_certs paths = Ok pems -> Forall2 (fun p pem => ReadFile p = Ok pem) paths pems.
Proof.
  revert pems. induction paths as [|p paths IH]; intros pems; cbn [read_certs]; [by intros [= <-]; constructor|].
  destruct (ReadFile p) as [b|] eqn:Eb; [|done]. destruct (read_certs paths) as [pems'|]; [|done].
  intros [= <-]. constructor; auto.
Qed.

(** A function that logs the line of an event's data and refuses an event without. *)
Definition logs {E D} (fn : E -> list string -> option error * list string) (data : E -> option D) (line : D -> string) : Prop :=
  forall e lines, (data e = None -> (fn e lines).1 <> None /\ (fn e lines).2 = lines) /\
    (forall d, data e = Some d -> fn e lines = (None, lines ++ [line d])).

Lemma onAuth_logs : logs onAuth ar_Data auth_line.
Proof. intros e lines. unfold onAuth. by destruct (ar_Data e); split; [|intros ? [= <-]|split|]. Qed.

Lemma onCapture_logs : logs onCapture cr_Data capture_line.
Proof. intros e lines. unfold onCapture. by destruct (cr_Data e); split; [|intros ? [= <-]|split|]. Qed.

Lemma handle_acknowledged {E D} (c : codec E) fn (data : E -> option D) line v r lines :
  logs fn data line -> 0 < cv_bodyLimit v < int64_max ->
  exists logged, (handle c (Some v) (Some fn) r lines).2 = lines ++ logged /\
    acknowledged c data line v r (handle c (Some v) (Some fn) r lines).1 logged.
Proof.
  intros Hf Hl. pose proof writeAck_eq as Hw. unfold acknowledged.
  destruct (handle_handled c v fn r lines Hl) as [(e & Hd & Hs & Hr)|(Hs & Hno & Hr)].
  - destruct (Hf e lines) as [Hnone Hsome]. rewrite Hs, Hr. destruct (data e) as [d|] eqn:E1.
    + rewrite (Hsome d eq_refl). exists [line d]. split; [done|]. left. exists e, d. by split_and!.
    + destruct (Hnone eq_refl) as [Herr ->]. exists []. rewrite app_nil_r. split; [done|]. right. left. exists e.
      destruct ((fn e lines).1); [|done]. split_and!; [done..|apply Hw|done].
  - exists []. rewrite app_nil_r. split; [done|]. right. right. split; [done|]. split; [|done].
    destruct Hr as [[_ ->]|[_ [(b & _ & _ & ->)|(reason & -> & _)]]]; rewrite (proj1 (Hw _ _)); set_solver.
Qed.

Lemma mux_answered unrouted v path r lines : 0 < cv_bodyLimit v < int64_max ->
  exists logged, (mux unrouted v path r lines).2 = lines ++ logged /\
    answered unrouted v (path, r) (mux unrouted v path r lines).1 logged.
Proof.
  intros Hl. unfold mux, answered. cbn [fst snd].
  destruct (decide (path = "/atome/auth")) as [Ha|Ha]; [rewrite bool_decide_true by done; by apply handle_acknowledged, Hl; apply onAuth_logs|].
  rewrite bool_decide_false by done.
  destruct (decide (path = "/atome/capture")) as [Hc|Hc]; [rewrite bool_decide_true by done; by apply handle_acknowledged, Hl; apply onCapture_logs|].
  rewrite bool_decide_false by done. exists [].
  destruct (decide (path = "/healthz")); [rewrite bool_decide_true by done|rewrite bool_decide_false by done];
    by rewrite app_nil_r.
Qed.

Lemma ListenAndServe_answered unrouted v requests lines : 0 < cv_bodyLimit v < int64_max ->
  exists logged, Forall3 (answered unrouted v) requests (ListenAndServe unrouted v requests lines).1 logged /\
    (ListenAndServe unrouted v requests lines).2 = lines ++ concat logged.
Proof.
  intros Hl. revert lines. induction requests as [|[path r] requests IH]; intros lines; cbn [ListenAndServe].
  - exists []. rewrite app_nil_r. split; [constructor|done].
  - destruct (mux_answered unrouted v path r lines Hl) as (l & Hlines & Ha).
    destruct (mux unrouted v path r lines) as [rp lines1]. cbn [fst snd] in *.
    destruct (IH lines1) as (ls & Hf & Hls). destruct (ListenAndServe unrouted v requests lines1) as [rps lines2]. cbn [fst snd] in *.
    exists (l :: ls). split; [by constructor|]. cbn [concat]. by rewrite Hls, Hlines, app_assoc.
Qed.

Lemma buildVerifier_Ok v : buildVerifier = Ok v ->
  cv_bodyLimit v = DefaultBodyLimit /\
  Forall2 (fun p sv => exists pem, ReadFile p = Ok pem /\ cert_verifier pem = Ok sv) cert_paths (cv_verifiers v).
Proof.
  assert (Hc : forall paths, (let* pems := read_certs paths in cert_list pems) = Ok v ->
    cv_bodyLimit v = DefaultBodyLimit /\
    Forall2 (fun p sv => exists pem, ReadFile p = Ok pem /\ cert_verifier pem = Ok sv) paths (cv_verifiers v)).
  { intros paths. destruct (read_certs paths) as [pems|] eqn:Er; [|done]. cbn [result_bind]. unfold cert_list.
    destruct (FromCertPEMs pems []) as [v'|] eqn:Ef; [|done]. intros [= <-].
    apply FromCertPEMs_Ok in Ef as [Hl Hk]. split; [done|]. apply read_certs_Ok in Er.
    clear -Er Hk. revert Hk. generalize (cv_verifiers v'). induction Er; intros svs Hk; inversion Hk; subst; constructor; eauto. }
  unfold buildVerifier, cert_paths. destruct (is_empty (Getenv "ATOME_FIN_ATOME_CERT_PEMS")); cbn [negb]; [|apply Hc].
  destruct (is_empty _); [done|apply Hc].
Qed.

End Spec.

(** * Properties *)

(** C27.  The receiver.  It trusts exactly the certificates of the files its environment lists,
    in that order, and stops before it listens when one of them does not load.  Whatever
    requests it is then sent, each is answered on its own: under [/atome/auth] and
    [/atome/capture] a genuine event with data is logged once and acknowledged, a genuine
    event without data is answered with 500 and anything else refused with 400, 401 or 405,
    unlogged; the log is the line of the start followed by those of the requests, in order. *)
Theorem webhook_spec {O : OS} {T : Texts} {R : RSA} {X : X509} unrouted requests closed :
  match buildVerifier with
  | Err s => main unrouted requests closed = ([], ([], s))
  | Ok v =>
      Forall2 (fun p sv => exists pem, ReadFile p = Ok pem /\ cert_verifier pem = Ok sv) cert_paths (cv_verifiers v) /\
      exists rps start logged, main unrouted requests closed =
          (rps, (start :: concat logged, LogFatalf "listen: %v" [AErr closed])) /\
        Forall3 (answered unrouted v) requests rps logged
  end.
Proof.
  unfold main. destruct buildVerifier as [v|s] eqn:Ev; [|done]. apply buildVerifier_Ok in Ev as [Hl Hk]. split; [done|].
  set (start := _ +:+ _). destruct (ListenAndServe_answered unrouted v requests [start]) as (logged & Hf & Hlog);
    [rewrite Hl; done|].
  destruct (ListenAndServe unrouted v requests [start]) as [rps lines]. cbn [fst snd] in *. subst lines.
  by exists rps, start, logged.
Qed.
